(* ===== verification/_CoqProject ===== *)
-Q . S2P
Prelude.v
JsString.v
JsNumber.v
JsUri.v
Lodash.v
Json.v
WsService.v
WsConversation.v
WsReentrant.v
StringUtil.v
Interfaces.v
Charts.v
BaseService.v
Ui.v
Auth.v
NodeSelector.v
NodeCanvas.v
NodePanel.v
Pagination.v
QueryClauses.v
Query.v
ServiceViews.v
ProcessLog.v
Dashboard.v
OperationTracing.v
TracingChart.v
NodeGroups.v
NodeDrawing.v
Shell.v
NodePath.v
JsonParse.v
Lifecycle.v
BuildTasks.v
BuildWatch.v
BuildConfig.v
BuildStreams.v
BuildFaults.v
BuildClean.v
BuildServer.v
BuildMobile.v
Mobile.v
Install.v
Stars.v
Samples.v
QueryTypes.v
AppShell.v
BuildTools.v
TestRun.v
SpecRun.v
Wiring.v
Webpack.v
