(* ===== verification/Prelude.v ===== *)
(** * The JavaScript and TypeScript code of Xenon

    Xenon is a framework for distributed services.  Its server is Java; the
    code that runs in the browser is JavaScript and TypeScript, and this
    library models and proves that part: the WebSocket service library
    (xenon-common, ws-service-lib.js), the administration user interface
    (xenon-ui, src/main/ui/src/client, with app/modules/app as "app/" below)
    with the tools that build it (src/main/ui/tools) and its mobile shell
    (src/main/ui/nativescript), the user interface of a sample service
    (xenon-samples) and the test page of the WebSocket library
    (xenon-websocket-test).

    ** The program and the files of this library

    The user interface is a set of Angular components around a few services.
    [BaseService] builds every request, forwarding it to the selected node
    when that is not the host; the node selector chooses the node and tells
    the other parts; each view asks for documents, keeps what it shows and
    sends notifications.  The WebSocket library is separate: a page creates
    services that the server reaches over one socket.  The user interface is
    built by gulp tasks that the files of tools/ define and that a
    configuration object of directories and dependencies parametrises; the
    environment of the build is inserted into the source of the application.

    Language and libraries:
    - Prelude: strings as lists of 16-bit code units, exceptions ([exec]),
      objects as association lists in insertion order, runs of steps, decimal
      numerals, hint bases and tactics;
    - JsString, JsNumber, JsUri, Json, JsonParse: the parts of the language's
      library the code uses (indexOf, substr, split, replace; text to number;
      encodeURIComponent and decodeURIComponent with UTF-8 and surrogates;
      JSON values, JSON.stringify and JSON.parse with their round trip);
    - NodePath: the functions of the path module on POSIX (normalize, join,
      relative) that the build tools use;
    - Lodash: the lodash functions as a class with the laws their
      documentation states, and an implementation, [lodash_ref].

    The program:
    - WsService: ws-service-lib.js, a connection as a record, every handler
      and API method as a function to the next connection, its outputs and its
      exception; [ws_step] is the relation of all interleavings;
      WsConversation: the library, a page and a node that answers, as one
      system; WsReentrant: callbacks that run inside the message handler and
      call the library back, and the test page ws-test.js;
    - StringUtil: app/utils/string.util.ts, with the regular expressions as
      recognisers;
    - Interfaces: app/interfaces and the display tables of app/utils; Charts:
      the configurations of Chart.js and the life of a chart on a canvas;
    - BaseService: base.service.ts, url.ts, odata.util.ts, and the class
      [Document] of the documents it fetches;
    - Ui: effects of component handlers, and the class [Component] of
      components with requests in flight;
    - Auth: authentication.service.ts, authentication.guard.ts,
      login.component.ts;
    - NodeSelector: node-selector.service.ts, node-selector.component.ts and
      navbar.component.ts as one application state; NodeCanvas:
      node-canvas.component.ts, its nodes and links; NodePanel:
      node-info-panel.component.ts; NodeGroups: node-group.util.ts;
      NodeDrawing: what the canvas draws at a tick of the layout;
    - Pagination, QueryClauses, Query: the query view, its clauses and pages;
      QueryTypes: the interfaces of query tasks as checkers of JSON values;
    - ServiceViews: the grid, the cards and the details of services;
    - ProcessLog, Dashboard, OperationTracing: the views of these names;
      TracingChart: operation-tracing-chart.component.ts;
    - Shell: alerts with their timers, notifications, the property table, the
      name filter, logging and languages; AppShell: storage, platform and
      environment, analytics, the unique types of actions, the routes and the
      desktop shell (main.desktop.ts);
    - Lifecycle: the subscriptions of all views from ngOnInit to ngOnDestroy;
    - Stars: star-canvas.component.ts and code-editor.component.ts;
    - BuildTasks: tasks_tools.ts, the task classes, gulpfile.ts and the two
      files of composite tasks; BuildWatch: code_change_tools.ts, watch.ts,
      watch.tns.ts, start.deving.ts, clean.ts, template_locals.ts and the typed
      builds of build.js.dev.ts; BuildConfig: seed.config.ts,
      seed-advanced.config.ts, project.config.ts and the tasks' functions over
      them; BuildStreams: the tasks themselves as functions on a tree of files,
      a file being the record of how it was made; BuildFaults: the same tasks
      with what they make of the errors of their tools; BuildClean: the removal of
      compiled files; BuildServer: the servers of server.ts; BuildMobile: the
      tasks of the mobile application; BuildTools: the settings of the
      ahead-of-time compiler, versions, the files of typedoc and tslint, the
      desktop and end-to-end tasks; Install: install.js;
    - TestRun: test-main.js as a machine driven by the imports that settle,
      karma.conf.js, router-extensions.service.ts and the mocks of the
      specifications; SpecRun: the task test, from a specification to its run;
    - Wiring: the store (modules/ngrx/index.ts) and the constructors and
      factories of the modules of the web and the mobile application;
    - Mobile: the service and the bar of the mobile shell, tns-loader.js;
      Webpack: webpack.config.js, its entries, rules and plugins;
    - Samples: services and controllers of the sample user interface.

    Definitions keep the names of the source, with a prefix where two
    components use the same name ([log_getData], [sd_getData], ...); the
    continuations of a request are definitions of their own named on_...,
    taking the outcome of the request.  A field, a parameter or an answer that
    may be missing is an option; [Throw] is an exception.

    ** What is proved

    - WebSocket library: an invariant of all interleavings (queue, handlers,
      ids of the frames), requests made before the socket opens are sent as if
      made after, a failed connection answers every queued request once, a
      response, whatever its handler and with or without a body, is handled
      once, an operation posted to a service is
      answered by one reply with its id; in a conversation with a node every
      request is answered exactly once; running a callback inside the handler
      or after it makes no difference; the services of the test page reply to
      every operation.
    - StringUtil: document links survive the encoding into element ids, urls
      are parsed into their only decomposition, child links are parsed into
      ids that lead back to the child.
    - Requests: forwarding links read back to the effective peer and path and
      to the query; many
      documents arrive all and in order, or one failure.
    - Authentication: an expired login leads to the login page and back;
      credentials decode to what was typed.
    - Nodes: from their creation, also after a logout, the views agree with one
      another and, once a node is broadcast, with the service behind requests;
      requests that may be forwarded go to the confirmed node; the canvas has one circle per node and exactly the
      links of the groups; the circle of a group is the smallest one with all
      its nodes, and every tick draws it around the discs of its nodes; the
      panel shows the usage of the node it was given last.
    - Queries and services: all pages of a result are shown in order, each
      requested once; the task built from the form is the one its fields stand
      for, options, clauses and terms;
      the grid shows every service once; an opened child is requested under its
      own link; edits are sent once.
    - Log, dashboard, tracing, alerts: filters partition the log and the
      dashboard counts them; chart points and labels belong together, and at
      most one chart lives on a canvas; operations are grouped by path; the
      range of a group is that of its operations, and the window of the tracing
      chart holds all of them; alerts last four seconds.
    - Query tasks conform to their interfaces, and both modes of the query view
      keep and count the same task, the one of the form.
    - Life of the views: a destroyed view has no subscription to a subject and
      is reached by a bounded number of answers.
    - Around the application: stored values read back; the environment of the
      build is the one the application reads; stars stay between the edges;
      the editor and its value agree; views are behind the guard; menu commands
      work while there is a window.
    - Build tools: composite tasks are merged when well formed and refused by
      name otherwise; a task of the project starts the tasks of files it comes
      down to up to the first that does not end well; a watcher asks a task with the
      changes since the last build, the development watcher builds the last
      change; clean stays in the project; the dependencies of a build are the
      declared ones; injected files are served; the path function of the
      installation script is that of the path module; the production build, if no
      tool stops it, ends with a complete page, and otherwise stops at one task
      for a reason that is stated; it ships only what it makes and copies, leaves
      the sources alone, and what it injects into the page the production server
      serves.
    - Specifications: the task test, if no tool stops it, compiles every
      specification of the client and starts Karma,
      and test-main.js runs each of them once before it starts the tests, which it
      does exactly once however the imports settle; the settings of the
      ahead-of-time compiler keep the first of equal files; tslint sees every module.
    - The store holds the last supported language that was chosen, in a build of
      any type.
    - Mobile application: its build takes the mobile version of every component,
      its loader requires it, every file of the bundle is handled by one rule,
      and the events of the application are written
      once until it exits.
    - What the code does in corner cases that look unintended is stated too:
      completing an operation on a failed connection throws, the last page of
      a result is requested again, a lock is never released after a failed
      page, a page of the previous query shows up in the new one, answers of
      two log requests add up, a user who never logged in passes the guard, an
      id that contains an encoded slash does not survive, a file that changes
      during a build is forgotten, builds of the development watcher overlap, a
      star drifts away, an environment with a quotation mark is lost, the sample
      query of the advanced mode is refused, the manifest of the service worker
      tells of a page that is changed afterwards, scripts of a mobile platform
      are missed by the first build, a specification that fails
      starts Karma while others are loading, the server of the end-to-end task
      answers scripts with the page, a failed bundle ends with success, languages
      can be chosen that have no translation, after a logout and a login requests
      go to the node chosen before while the bar names none.

    ** Choices and bounds

    Recursion in the source is bounded by its data, so the models are
    structural and need no fuel; the searches of regular expressions and
    replacements recurse on the text.  Three definitions have fuel: the parser of
    JSON, with twice the length of the text plus one, proved to be enough, and
    the run of a gulp task, for which the depth of the composite tasks is
    enough (5 for those of the project, proved by a rank); the chain of answers
    of a view is followed to depth 3, proved to be all of it.  A callback that
    runs inside a message handler is a finite program.  Numbers read from text
    and measured values are exact rationals, without rounding; counters are
    integers.
    NodeGroups is generic in its numbers: it evaluates on binary64, and its
    theorem is about real numbers, for nodes none of which is outside a tested
    circle by less than the tolerance of the code.

    Third-party code is a parameter with its documented laws, and each theorem
    with such a law has an instance on concrete functions: lodash
    ([lodash_ref]), moment and numeral, JSON.parse where only its failure
    matters, the case tables of Unicode
    beyond ASCII ([CaseMap]), the text of numbers ([NumText]), the messages of
    exceptions ([Engine]), the anchor element used to parse locations, the
    shuffle of nodes, the patterns of gulp ([Glob], with [glob_ref]), the
    middleware of express ([Express], with [express_ref]), the files that Karma
    serves ([Karma], with [karma_ref]) and the reducers of ngrx ([Ngrx], with
    [ngrx_ref]).  Of the results of
    compilers and other plugins of gulp only names and origin are modelled.  In
    BuildStreams every tool succeeds; in BuildFaults what the tools report to a
    task, and the files a task leaves when it breaks off, are parameters
    ([Tools]), and an error that is only logged (by clean.ts or build.html_css.ts)
    may leave any files.

    ** What is not modelled

    The Java server (its answers are inputs), vendored libraries (AngularJS,
    nvd3, d3, jQuery, bootstrap), what d3 and Chart.js do with the data, marks
    and options given to them, templates and styles, Angular's change
    detection, modules and dependency injection (handlers are called in any
    order), rxjs beyond values reaching the subscribers of the moment, the texts
    that compilers and bundlers produce, and the specifications themselves with the
    mocks that only return constants.  What is left of the sources is declarations: modules,
    decorators, imports and options that are only handed to packages. *)

From Stdlib Require Export NArith ZArith Lia.
From Stdlib Require Import Ascii DecimalN DecimalFacts.
From stdpp Require Export base list gmap strings numbers.

(** ** Strings

    A JavaScript string is a sequence of 16-bit code units.  It is modelled
    as a list of [N]; a Rocq string literal is read as the sequence of its
    character codes through the coercion [js]. *)

Abbreviation jsstr := (list N).

Fixpoint js (s : string) : jsstr :=
  match s with
  | EmptyString => []
  | String a r => N_of_ascii a :: js r
  end.

Coercion js : string >-> list.
#[global] Opaque js.

#[global] Open Scope string_scope.
#[global] Open Scope list_scope.

Declare Scope js_scope.
Delimit Scope js_scope with js.

(** Strict equality on strings, as the boolean the code branches on. *)
Definition str_eqb (s t : jsstr) : bool := bool_decide (s = t).
Notation "s === t" := (str_eqb s t) (at level 70, no associativity) : js_scope.
Notation "s !== t" := (negb (str_eqb s t)) (at level 70, no associativity) : js_scope.
#[global] Open Scope js_scope.

(** The empty string is the only falsy string. *)
Definition truthy (s : jsstr) : bool := match s with [] => false | _ => true end.

(** A value that may be [undefined] or [null], used as a condition. *)
Definition truthy_opt (o : option jsstr) : bool :=
  match o with Some s => truthy s | None => false end.

(** [a ? a : b] on a possibly undefined string. *)
Definition or_str (o : option jsstr) (d : jsstr) : jsstr :=
  match o with Some s => if truthy s then s else d | None => d end.

(** The well-formedness of a string: every element is a 16-bit code unit. *)
Definition units_ok (s : jsstr) : Prop := Forall (fun c => (c < 65536)%N) s.

(** ** Exceptions *)

Inductive jserr :=
  | TypeError
  | URIError
  | SyntaxError
  | ErrorMsg (msg : jsstr).

Inductive exec (A : Type) :=
  | Ret (a : A)
  | Throw (e : jserr).
Arguments Ret {A} _.
Arguments Throw {A} _.

Definition exec_bind {A B} (m : exec A) (k : A -> exec B) : exec B :=
  match m with Ret a => k a | Throw e => Throw e end.
Notation "x <-! m ;; k" := (exec_bind m (fun x => k))
  (at level 100, m at next level, right associativity) : js_scope.

(** ** Objects used as dictionaries

    Where the iteration order of a JavaScript object matters it is an
    association list in insertion order: assigning to a present key keeps
    its place, a fresh key goes to the end. *)

Section Obj.
Context {V : Type}.

Fixpoint obj_get (o : list (jsstr * V)) (k : jsstr) : option V :=
  match o with
  | [] => None
  | (k', v) :: o' => if k' === k then Some v else obj_get o' k
  end.

Fixpoint obj_set (o : list (jsstr * V)) (k : jsstr) (v : V) : list (jsstr * V) :=
  match o with
  | [] => [(k, v)]
  | (k', v') :: o' => if k' === k then (k', v) :: o' else (k', v') :: obj_set o' k v
  end.

Definition hasOwnProperty (o : list (jsstr * V)) (k : jsstr) : bool :=
  match obj_get o k with Some _ => true | None => false end.

Definition obj_keys (o : list (jsstr * V)) : list jsstr := o.*1.
Definition obj_values (o : list (jsstr * V)) : list V := o.*2.
End Obj.

(** ** Proof automation *)

Create HintDb xenon.
Create Rewrite HintDb xenon_rw.

Lemma str_eqb_eq (s t : jsstr) : (s === t) = true <-> s = t.
Proof. unfold str_eqb. apply bool_decide_eq_true. Qed.

Lemma str_eqb_neq (s t : jsstr) : (s === t) = false <-> s <> t.
Proof. unfold str_eqb. apply bool_decide_eq_false. Qed.

Lemma str_eqb_refl (s : jsstr) : (s === s) = true.
Proof. by apply str_eqb_eq. Qed.

Lemma str_eqb_sym (s t : jsstr) : (s === t) = (t === s).
Proof. unfold str_eqb. apply bool_decide_ext. naive_solver. Qed.

Lemma truthy_spec (s : jsstr) : truthy s = true <-> s <> [].
Proof. destruct s; simpl; naive_solver. Qed.

Lemma truthy_false (s : jsstr) : truthy s = false <-> s = [].
Proof. destruct s; simpl; naive_solver. Qed.

#[export] Hint Rewrite str_eqb_refl str_eqb_eq str_eqb_neq truthy_spec truthy_false
  negb_true_iff negb_false_iff andb_true_iff andb_false_iff orb_true_iff orb_false_iff : xenon_rw.

(** Turns boolean facts of the context into propositions. *)
Ltac reflect_all := autorewrite with xenon_rw in *.

(** Splits on the string comparison the goal branches on. *)
Ltac case_str :=
  match goal with
  | |- context [str_eqb ?s ?t] =>
      let E := fresh "E" in
      destruct (str_eqb s t) eqn:E;
      [apply str_eqb_eq in E | apply str_eqb_neq in E]; simplify_eq/=
  | H : context [str_eqb ?s ?t] |- _ =>
      let E := fresh "E" in
      destruct (str_eqb s t) eqn:E;
      [apply str_eqb_eq in E | apply str_eqb_neq in E]; simplify_eq/=
  end.

(** Splits [Forall P [x; y; ...]] into one goal per element. *)
Ltac forall_list := repeat first [apply List.Forall_nil | apply List.Forall_cons]; cbv beta.

(** Linear arithmetic with division and remainder by constants. *)
Ltac div_lia := zify; Z.to_euclidean_division_equations; lia.

(** Closes a decidable goal on closed terms by evaluating its decision. *)
Ltac decide_done := refine (bool_decide_eq_true_1 _ _); vm_compute; reflexivity.

(** Evaluates the comparisons of closed strings in the goal. *)
Ltac eval_str :=
  repeat match goal with
  | |- context [str_eqb ?a ?b] =>
      let v := eval vm_compute in (str_eqb a b) in
      match v with true => idtac | false => idtac end;
      change (str_eqb a b) with v
  end.

(** Closes a goal on closed terms by evaluation. *)
Ltac eval_done := vm_compute; reflexivity.

Section ObjFacts.
Context {V : Type}.
Implicit Types (o : list (jsstr * V)) (k : jsstr) (v : V).

Lemma obj_get_set_eq o k v : obj_get (obj_set o k v) k = Some v.
Proof.
  induction o as [|[k' v'] o IH]; simpl; [by rewrite str_eqb_refl|].
  destruct (k' === k) eqn:E; simpl; by rewrite E.
Qed.

Lemma obj_get_set_ne o k k' v : k <> k' -> obj_get (obj_set o k v) k' = obj_get o k'.
Proof.
  intros Hne. induction o as [|[k1 v1] o IH]; simpl.
  - by apply str_eqb_neq in Hne as ->.
  - destruct (k1 === k) eqn:E; simpl.
    + apply str_eqb_eq in E as ->. by apply str_eqb_neq in Hne as ->.
    + by rewrite IH.
Qed.

Lemma obj_keys_set_present o k v :
  k ∈ obj_keys o -> obj_keys (obj_set o k v) = obj_keys o.
Proof.
  induction o as [|[k1 v1] o IH]; simpl; intros Hin; [set_solver|].
  destruct (k1 === k) eqn:E; simpl; [done|].
  apply str_eqb_neq in E. f_equal. apply IH.
  apply elem_of_cons in Hin. naive_solver.
Qed.

Lemma obj_keys_set_fresh o k v :
  k ∉ obj_keys o -> obj_keys (obj_set o k v) = obj_keys o ++ [k].
Proof.
  induction o as [|[k1 v1] o IH]; simpl; intros Hin; [done|].
  apply not_elem_of_cons in Hin as [Hne Hin].
  assert (k1 <> k) as Hne' by (simpl in Hne; congruence). apply str_eqb_neq in Hne' as ->.
  simpl. f_equal. by apply IH.
Qed.

Lemma obj_get_elem o k v : obj_get o k = Some v -> (k, v) ∈ o.
Proof.
  induction o as [|[k1 v1] o IH]; simpl; [done|].
  case_str; intros; simplify_eq; set_solver.
Qed.

Lemma obj_get_None o k : obj_get o k = None <-> k ∉ obj_keys o.
Proof.
  unfold obj_keys. induction o as [|[k1 v1] o IH]; simpl; [set_solver|].
  case_str; set_solver.
Qed.

Lemma obj_keys_set_NoDup o k v : NoDup (obj_keys o) -> NoDup (obj_keys (obj_set o k v)).
Proof.
  intros Hnd. destruct (decide (k ∈ obj_keys o)) as [Hin|Hin].
  - by rewrite obj_keys_set_present.
  - rewrite obj_keys_set_fresh by done. apply list.NoDup_app. split; [done|].
    split; [set_solver | apply NoDup_singleton].
Qed.

Lemma obj_elem_get o k v : NoDup (obj_keys o) -> (k, v) ∈ o -> obj_get o k = Some v.
Proof.
  unfold obj_keys. induction o as [|[k1 v1] o IH]; simpl; intros Hnd Hin; [set_solver|].
  apply list.NoDup_cons in Hnd as [Hn Hnd].
  apply elem_of_cons in Hin as [Heq|Hin]; simplify_eq.
  - by rewrite str_eqb_refl.
  - case_str; [|by apply IH].
    exfalso. apply Hn. apply list_elem_of_fmap. by exists (k, v).
Qed.
End ObjFacts.

#[export] Hint Resolve obj_keys_set_NoDup obj_get_elem : xenon.
#[export] Hint Rewrite @obj_get_set_eq : xenon_rw.

(** ** Sequences of steps *)

Section Star.
Context {St : Type} (R : St -> St -> Prop).

Inductive star : St -> St -> Prop :=
  | star_refl s : star s s
  | star_snoc s t u : star s t -> R t u -> star s u.

(** An invariant that holds initially and is kept by each step holds in
    every reachable state. *)
Lemma star_invariant (Inv : St -> Prop) :
  (forall s t, Inv s -> R s t -> Inv t) ->
  forall s t, star s t -> Inv s -> Inv t.
Proof. intros Hstep s t Hs. induction Hs; eauto. Qed.
End Star.

(** ** Decimal numerals: how a number is written in a template or a key *)

Section Decimal.
Fixpoint uint_units (d : Decimal.uint) : jsstr :=
  match d with
  | Decimal.Nil => []
  | Decimal.D0 d => 48%N :: uint_units d
  | Decimal.D1 d => 49%N :: uint_units d
  | Decimal.D2 d => 50%N :: uint_units d
  | Decimal.D3 d => 51%N :: uint_units d
  | Decimal.D4 d => 52%N :: uint_units d
  | Decimal.D5 d => 53%N :: uint_units d
  | Decimal.D6 d => 54%N :: uint_units d
  | Decimal.D7 d => 55%N :: uint_units d
  | Decimal.D8 d => 56%N :: uint_units d
  | Decimal.D9 d => 57%N :: uint_units d
  end.

(** [String(n)] for a non-negative integer. *)
Definition dec_N (n : N) : jsstr := uint_units (N.to_uint n).

(** [String(z)] for an integer. *)
Definition dec_Z (z : Z) : jsstr :=
  match z with
  | Z0 => dec_N 0
  | Zpos p => dec_N (Npos p)
  | Zneg p => 45%N :: dec_N (Npos p)
  end.

Definition is_digit (c : N) : bool := ((48 <=? c) && (c <=? 57))%N.

(** The value of a run of digits, read left to right. *)
Fixpoint digits_value (acc : N) (s : jsstr) : N :=
  match s with
  | [] => acc
  | c :: s' => digits_value (acc * 10 + (c - 48)) s'
  end%N.

(** The longest prefix of digits, and what follows it. *)
Fixpoint span (p : N -> bool) (s : jsstr) : jsstr * jsstr :=
  match s with
  | [] => ([], [])
  | c :: s' => if p c then let '(a, b) := span p s' in (c :: a, b) else ([], s)
  end.
End Decimal.

Lemma span_app p a b :
  Forall (fun c => p c = true) a ->
  (match b with c :: _ => p c = false | [] => True end) ->
  span p (a ++ b) = (a, b).
Proof.
  intros Ha Hb. induction Ha as [|c a Hc Ha IH]; simpl.
  - destruct b as [|c b]; [done|]. simpl. by rewrite Hb.
  - by rewrite Hc, IH.
Qed.

Lemma span_spec p s a b :
  span p s = (a, b) ->
  s = a ++ b /\ Forall (fun c => p c = true) a /\
  match b with c :: _ => p c = false | [] => True end.
Proof.
  revert a b. induction s as [|c s IH]; simpl; intros a b H; simplify_eq; [done|].
  destruct (p c) eqn:Ep; [|by simplify_eq].
  destruct (span p s) as [a' b'] eqn:Es. simplify_eq.
  destruct (IH _ _ eq_refl) as (-> & Ha & Hb). split; [done|]. split; [by constructor|done].
Qed.

Lemma uint_units_digits d : Forall (fun c => is_digit c = true) (uint_units d).
Proof. induction d; simpl; repeat constructor; done. Qed.

Lemma dec_N_digits n : Forall (fun c => is_digit c = true) (dec_N n).
Proof. apply uint_units_digits. Qed.

Lemma dec_N_nonempty n : dec_N n <> [].
Proof. unfold dec_N. destruct n as [|p]; [done|]. simpl.
  pose proof (DecimalPos.Unsigned.to_uint_nonnil p) as H. by destruct (Pos.to_uint p). Qed.


Lemma digits_value_acc d p :
  digits_value (Npos p) (uint_units d) = Npos (Pos.of_uint_acc d p).
Proof.
  revert p. induction d as [|d IH|d IH|d IH|d IH|d IH|d IH|d IH|d IH|d IH|d IH]; intros p;
    [done| ..]; cbn [uint_units digits_value Pos.of_uint_acc]; rewrite <- IH; f_equal; lia.
Qed.

Lemma digits_value_uint d : digits_value 0 (uint_units d) = N.of_uint d.
Proof.
  induction d as [|d IH|d IH|d IH|d IH|d IH|d IH|d IH|d IH|d IH|d IH]; [done| exact IH | ..];
    apply (digits_value_acc d).
Qed.

(** Reading back a printed number. *)
Lemma digits_value_dec n : digits_value 0 (dec_N n) = n.
Proof. unfold dec_N. by rewrite digits_value_uint, DecimalN.Unsigned.of_to. Qed.

Lemma dec_N_inj n m : dec_N n = dec_N m -> n = m.
Proof. intros H. by rewrite <- (digits_value_dec n), <- (digits_value_dec m), H. Qed.

Lemma is_digit_bounds c : is_digit c = true -> (48 <= c <= 57)%N.
Proof. unfold is_digit. rewrite andb_true_iff, !N.leb_le. lia. Qed.

#[export] Hint Resolve dec_N_digits dec_N_nonempty is_digit_bounds : xenon.
