(* ===== verification/JsString.v ===== *)
(** * The part of the JavaScript string and number library the code uses

    [indexOf], [substr], [split], [startsWith]-style tests, global
    replacement driven by a matcher, and their lemmas.  Strings are lists of
    code units (Prelude). *)

From S2P Require Import Prelude.

(** ** Searching and slicing *)

(** [s] starts with [p]: [Some] of the rest. *)
Fixpoint strip_prefix (p s : jsstr) : option jsstr :=
  match p, s with
  | [], _ => Some s
  | c :: p', d :: s' => if (c =? d)%N then strip_prefix p' s' else None
  | _ :: _, [] => None
  end.

Definition startsWith (s p : jsstr) : bool :=
  match strip_prefix p s with Some _ => true | None => false end.

(** [s.endsWith(p)]. *)
Definition endsWith (s p : jsstr) : bool := bool_decide (drop (length s - length p) s = p).

(** Position of the first occurrence of [p] in [s]. *)
Fixpoint find_sub (s p : jsstr) : option nat :=
  if startsWith s p then Some 0
  else match s with [] => None | _ :: s' => S <$> find_sub s' p end.

(** [s.indexOf(p)], [-1] when there is none. *)
Definition indexOf (s p : jsstr) : Z :=
  match find_sub s p with Some i => Z.of_nat i | None => -1 end.

(** [s.substr(i, n)] for [0 <= i]: a negative length gives the empty string. *)
Definition substr (s : jsstr) (i n : Z) : jsstr := take (Z.to_nat n) (drop (Z.to_nat i) s).

(** [s.substr(i)] for [0 <= i]. *)
Definition substr_from (s : jsstr) (i : Z) : jsstr := drop (Z.to_nat i) s.

(** [s.split(sep)] for a one-character separator. *)
Fixpoint split (sep : N) (s : jsstr) : list jsstr :=
  match s with
  | [] => [[]]
  | c :: s' =>
      if (c =? sep)%N then [] :: split sep s'
      else match split sep s' with
           | w :: ws => (c :: w) :: ws
           | [] => [[c]]
           end
  end.

(** [ws.join(sep)]. *)
Fixpoint join (sep : jsstr) (ws : list jsstr) : jsstr :=
  match ws with
  | [] => []
  | [w] => w
  | w :: ws' => w ++ sep ++ join sep ws'
  end.

(** ** Global replacement

    [s.replace(/re/g, f)] where a matcher [m] tells, at the current
    position, the replacement text and how many code units were matched
    (at least one).  The scan resumes after the match; [skip] counts the
    matched units still to be dropped. *)

Fixpoint gsub (m : jsstr -> option (jsstr * nat)) (skip : nat) (s : jsstr) : jsstr :=
  match s with
  | [] => []
  | c :: s' =>
      match skip with
      | S k => gsub m k s'
      | O => match m s with
             | Some (r, S k) => r ++ gsub m k s'
             | _ => c :: gsub m 0 s'
             end
      end
  end.

(** Matcher of a literal [p], replaced by [r]. *)
Definition match_lit (p r : jsstr) (s : jsstr) : option (jsstr * nat) :=
  match strip_prefix p s with Some _ => Some (r, length p) | None => None end.

Definition replace_all (p r s : jsstr) : jsstr := gsub (match_lit p r) 0 s.

(** [s.replace(p, r)] with a string pattern: the first occurrence only. *)
Definition replace_first (p r s : jsstr) : jsstr :=
  match find_sub s p with
  | Some i => take i s ++ r ++ drop (i + length p) s
  | None => s
  end.

(** ** Character classes *)

Definition in_range (lo hi c : N) : bool := ((lo <=? c) && (c <=? hi))%N.
Definition is_upper : N -> bool := in_range 65 90.
Definition is_lower : N -> bool := in_range 97 122.
Definition is_alnum (c : N) : bool := is_upper c || is_lower c || is_digit c.

(** The line terminators that [.] of a regular expression does not match. *)
Definition is_line_end (c : N) : bool := bool_decide (c ∈ [10; 13; 8232; 8233]%N).

(** ** Case conversion

    [toLowerCase] and [toUpperCase] follow the Unicode tables, of which only
    the ASCII part is fixed here: any pair of functions that agrees with it on
    ASCII strings is admitted. *)

Definition lower_unit (c : N) : N := if is_upper c then (c + 32)%N else c.
Definition upper_unit (c : N) : N := if is_lower c then (c - 32)%N else c.
Definition is_ascii (s : jsstr) : bool := forallb (fun c => c <? 128)%N s.

Class CaseMap := {
  toLowerCase : jsstr -> jsstr;
  toUpperCase : jsstr -> jsstr;
  toLowerCase_ascii s : is_ascii s = true -> toLowerCase s = map lower_unit s;
  toUpperCase_ascii s : is_ascii s = true -> toUpperCase s = map upper_unit s
}.

(** The ASCII part alone. *)
Definition ascii_case : CaseMap :=
  {| toLowerCase := map lower_unit; toUpperCase := map upper_unit;
     toLowerCase_ascii := fun _ _ => eq_refl; toUpperCase_ascii := fun _ _ => eq_refl |}.

(** ** Lemmas *)

Lemma strip_prefix_app p t : strip_prefix p (p ++ t) = Some t.
Proof. induction p as [|c p IH]; simpl; [done|]. by rewrite N.eqb_refl. Qed.

Lemma strip_prefix_Some p s t : strip_prefix p s = Some t -> s = p ++ t.
Proof.
  revert s. induction p as [|c p IH]; intros [|d s]; simpl; try naive_solver.
  destruct (N.eqb_spec c d); [|done]. intros H. f_equal; eauto.
Qed.

Lemma strip_prefix_iff p s t : strip_prefix p s = Some t <-> s = p ++ t.
Proof. split; [apply strip_prefix_Some | intros ->; apply strip_prefix_app]. Qed.

Lemma startsWith_app p t : startsWith (p ++ t) p = true.
Proof. unfold startsWith. by rewrite strip_prefix_app. Qed.

Lemma startsWith_iff s p : startsWith s p = true <-> exists t, s = p ++ t.
Proof.
  unfold startsWith. destruct (strip_prefix p s) as [t|] eqn:E.
  - apply strip_prefix_Some in E. naive_solver.
  - split; [done|]. intros [t ->]. by rewrite strip_prefix_app in E.
Qed.

Lemma find_sub_Some s p i :
  find_sub s p = Some i -> exists a b, s = a ++ p ++ b /\ length a = i.
Proof.
  revert i. induction s as [|c s IH]; intros i; cbn [find_sub];
    destruct (startsWith _ p) eqn:E.
  1, 3: apply startsWith_iff in E as [t ->]; intros [= <-]; by exists [], t.
  1: done.
  intros H. destruct (find_sub s p) as [j|] eqn:Ej; simpl in H; simplify_eq.
  destruct (IH _ eq_refl) as (a & b & -> & <-). by exists (c :: a), b.
Qed.

Lemma find_sub_None s p :
  find_sub s p = None <-> forall a b, s <> a ++ p ++ b.
Proof.
  induction s as [|c s IH]; cbn [find_sub]; destruct (startsWith _ p) eqn:E.
  1, 3: apply startsWith_iff in E as [t E]; split; [done|];
    intros H; exfalso; by apply (H [] t).
  - split; [|done]. intros _ a b Heq.
    assert (startsWith [] p = true); [|congruence].
    apply startsWith_iff. destruct a; simplify_eq/=. by exists b.
  - rewrite fmap_None, IH. split; intros H.
    + intros [|d a] b Heq; simplify_eq/=.
      * by rewrite Heq, startsWith_app in E.
      * by apply (H a b).
    + intros a b Heq. apply (H (c :: a) b). by rewrite Heq.
Qed.

(** A pattern is found at its first occurrence when its first unit does not
    occur before. *)
Lemma find_sub_first a c p b :
  c ∉ a -> find_sub (a ++ (c :: p) ++ b) (c :: p) = Some (length a).
Proof.
  induction a as [|d a IH]; intros Hn; cbn [app find_sub].
  - pose proof (startsWith_app (c :: p) b) as H. cbn [app] in H. by rewrite H.
  - apply not_elem_of_cons in Hn as [Hne Hn]. apply N.eqb_neq in Hne.
    unfold startsWith at 1. simpl. rewrite Hne.
    specialize (IH Hn). simpl in IH. by rewrite IH.
Qed.

Lemma find_sub_prefix p t : find_sub (p ++ t) p = Some 0.
Proof. destruct (p ++ t) eqn:E; cbn [find_sub]; rewrite <- E; by rewrite startsWith_app. Qed.

Lemma find_sub_absent c p s : c ∉ s -> find_sub s (c :: p) = None.
Proof.
  intros Hn. apply find_sub_None. intros a b ->. apply Hn. set_solver.
Qed.

Lemma gsub_skip m k s : gsub m k s = gsub m 0 (drop k s).
Proof.
  revert s. induction k as [|k IH]; intros [|c s]; try done. cbn [gsub drop]. apply IH.
Qed.

Lemma gsub_match m p t r :
  p <> [] -> m (p ++ t) = Some (r, length p) -> gsub m 0 (p ++ t) = r ++ gsub m 0 t.
Proof.
  intros Hp Hm. destruct p as [|c p]; [done|]. cbn [gsub app length] in *. rewrite Hm.
  f_equal. by rewrite gsub_skip, drop_app_length.
Qed.

Lemma gsub_nomatch m c t : m (c :: t) = None -> gsub m 0 (c :: t) = c :: gsub m 0 t.
Proof. intros Hm. cbn [gsub]. by rewrite Hm. Qed.

Lemma gsub_nomatch_app m a t :
  (forall a1 c a2, a = a1 ++ c :: a2 -> m (c :: a2 ++ t) = None) ->
  gsub m 0 (a ++ t) = a ++ gsub m 0 t.
Proof.
  induction a as [|c a IH]; intros H; [done|]. cbn [app].
  rewrite gsub_nomatch by apply (H [] c a eq_refl). f_equal.
  apply IH. intros a1 d a2 ->. by apply (H (c :: a1) d a2).
Qed.

(** A literal whose first unit does not occur is left alone. *)
Lemma replace_all_absent c p r s : c ∉ s -> replace_all (c :: p) r s = s.
Proof.
  unfold replace_all. induction s as [|d s IH]; intros Hn; [done|].
  apply not_elem_of_cons in Hn as [Hne Hn].
  rewrite gsub_nomatch; [by rewrite IH|].
  unfold match_lit. simpl. apply N.eqb_neq in Hne. by rewrite Hne.
Qed.

Lemma split_nonempty sep s : split sep s <> [].
Proof. destruct s as [|c s]; simpl; [done|]. destruct (c =? sep)%N; [done|]. by destruct (split sep s). Qed.

Lemma join_cons sep w ws : ws <> [] -> join sep (w :: ws) = w ++ sep ++ join sep ws.
Proof. by destruct ws. Qed.

Lemma join_app sep a b : a <> [] -> b <> [] -> join sep (a ++ b) = join sep a ++ sep ++ join sep b.
Proof.
  intros Ha Hb. induction a as [|x a IH]; [done|]. destruct a as [|y a]; [by apply join_cons|].
  change ((x :: y :: a) ++ b) with (x :: ((y :: a) ++ b)).
  rewrite join_cons by done. rewrite IH by done. rewrite (join_cons sep x) by done.
  by rewrite !app_assoc.
Qed.

(** [s.split(c).join(c)] is [s]. *)
Lemma join_split sep s : join [sep] (split sep s) = s.
Proof.
  induction s as [|c s IH]; [done|]. cbn [split].
  destruct (N.eqb_spec c sep) as [->|Hne].
  - rewrite join_cons by apply split_nonempty. simpl. by rewrite IH.
  - pose proof (split_nonempty sep s). destruct (split sep s) as [|w [|w' ws]]; [done|..];
      simpl in *; by rewrite IH.
Qed.

Lemma split_no_sep sep w : sep ∉ w -> split sep w = [w].
Proof.
  induction w as [|c w IH]; intros Hn; [done|].
  apply not_elem_of_cons in Hn as [Hne Hn]. cbn [split].
  assert ((c =? sep)%N = false) as -> by (apply N.eqb_neq; congruence).
  by rewrite IH.
Qed.

Lemma split_app_sep sep w s : sep ∉ w -> split sep (w ++ sep :: s) = w :: split sep s.
Proof.
  induction w as [|c w IH]; intros Hn.
  - simpl. by rewrite N.eqb_refl.
  - apply not_elem_of_cons in Hn as [Hne Hn]. cbn [split app].
    assert ((c =? sep)%N = false) as -> by (apply N.eqb_neq; congruence).
    by rewrite IH.
Qed.

(** Splitting undoes joining when no piece holds the separator. *)
Lemma split_join sep ws :
  ws <> [] -> Forall (fun w => sep ∉ w) ws -> split sep (join [sep] ws) = ws.
Proof.
  induction ws as [|w ws IH]; intros Hne Hall; [done|].
  apply list.Forall_cons in Hall as [Hw Hws].
  destruct ws as [|w' ws]; [by apply split_no_sep|].
  rewrite join_cons by done. cbn [app]. rewrite split_app_sep by done.
  f_equal. by apply IH.
Qed.

Lemma split_pieces sep s : Forall (fun w => sep ∉ w) (split sep s).
Proof.
  induction s as [|c s IH]; simpl; [by repeat constructor; set_solver|].
  destruct (N.eqb_spec c sep); [constructor; [set_solver|done]|].
  destruct (split sep s) as [|w ws]; [repeat constructor; set_solver|].
  apply list.Forall_cons in IH as [Hw Hws]. constructor; [set_solver|done].
Qed.

Lemma endsWith_app s p : endsWith (s ++ p) p = true.
Proof.
  unfold endsWith. apply bool_decide_eq_true. rewrite length_app. replace (length s + length p - length p) with (length s) by lia.
  apply drop_app_length.
Qed.

Lemma endsWith_iff s p : endsWith s p = true <-> exists t, s = t ++ p.
Proof.
  split; [|intros [t ->]; apply endsWith_app].
  unfold endsWith. intros E%bool_decide_eq_true. exists (take (length s - length p) s).
  rewrite <- E at 2. by rewrite take_drop.
Qed.

#[export] Hint Rewrite strip_prefix_app startsWith_app join_split : xenon_rw.
#[export] Hint Resolve split_nonempty split_pieces : xenon.
