(* ===== verification/JsNumber.v ===== *)
(** * JavaScript numbers read from strings

    The code compares strings with numbers ([code >= 200]) and converts keys
    with unary plus; both go through the ToNumber conversion of a string.
    The value of a numeral is kept exact, as a rational: rounding to the
    nearest double is not modelled. *)

From Stdlib Require Import QArith.
From S2P Require Import Prelude JsString.

Inductive number :=
  | NaN
  | Inf (neg : bool)
  | Fin (q : Q).

(** [WhiteSpace] and [LineTerminator] code units. *)
Definition is_space (c : N) : bool :=
  bool_decide (c ∈ [9; 10; 11; 12; 13; 32; 160; 5760; 8232; 8233; 8239; 8287; 12288; 65279]%N)
  || in_range 8192 8202 c.

Definition trim_left (s : jsstr) : jsstr := snd (span is_space s).
Definition trim (s : jsstr) : jsstr := rev (trim_left (rev (trim_left s))).

Definition ten_pow (e : Z) : Q := Qpower (10 # 1) e.

(** The optional exponent part: its value, [None] when the text is not one. *)
Definition read_exponent (s : jsstr) : option Z :=
  match s with
  | [] => Some 0%Z
  | c :: s' =>
      if ((c =? 101) || (c =? 69))%N then
        let '(neg, ds) :=
          match strip_prefix "-" s', strip_prefix "+" s' with
          | Some t, _ => (true, t)
          | None, Some t => (false, t)
          | None, None => (false, s')
          end in
        match ds with
        | [] => None
        | _ => if forallb is_digit ds
               then let e := Z.of_N (digits_value 0 ds) in Some (if neg : bool then (- e)%Z else e)
               else None
        end
      else None
  end.

(** StrUnsignedDecimalLiteral without [Infinity]. *)
Definition read_unsigned (s : jsstr) : option Q :=
  let '(ip, r) := span is_digit s in
  let '(fp, r') := match strip_prefix "." r with Some t => span is_digit t | None => ([], r) end in
  match ip ++ fp with
  | [] => None
  | ds => e ← read_exponent r';
          Some (inject_Z (Z.of_N (digits_value 0 ds)) * ten_pow (e - Z.of_nat (length fp)))%Q
  end.

(** The digits of a literal in base [b]. *)
Definition digit_in (b : N) (c : N) : option N :=
  let v := if is_digit c then Some (c - 48)%N
           else if is_lower c then Some (c - 87)%N
           else if is_upper c then Some (c - 55)%N else None in
  d ← v; if (d <? b)%N then Some d else None.

Fixpoint read_base (b acc : N) (s : jsstr) : option N :=
  match s with
  | [] => Some acc
  | c :: s' => d ← digit_in b c; read_base b (acc * b + d)%N s'
  end.

Definition read_radix (b : N) (s : jsstr) : number :=
  match s with
  | [] => NaN
  | _ => match read_base b 0 s with Some n => Fin (inject_Z (Z.of_N n)) | None => NaN end
  end.

Definition read_signed (neg : bool) (s : jsstr) : number :=
  if s === "Infinity" then Inf neg
  else match read_unsigned s with
       | Some q => Fin (if neg then Qopp q else q)
       | None => NaN
       end.

(** The first of the literal prefixes that [s] starts with. *)
Fixpoint first_prefix {A} (ps : list (string * A)) (s : jsstr) : option (A * jsstr) :=
  match ps with
  | [] => None
  | (p, a) :: ps' => match strip_prefix p s with
                     | Some t => Some (a, t)
                     | None => first_prefix ps' s
                     end
  end.

(** ToNumber of a string. *)
Definition to_number (s : jsstr) : number :=
  let t := trim s in
  match t with
  | [] => Fin 0
  | _ =>
      match first_prefix [("0x", 16); ("0X", 16); ("0o", 8); ("0O", 8); ("0b", 2); ("0B", 2)]%N t with
      | Some (b, r) => read_radix b r
      | None =>
          match first_prefix [("+", false); ("-", true)] t with
          | Some (neg, r) => read_signed neg r
          | None => read_signed false t
          end
      end
  end.

(** Relational comparison with an integer; [NaN] compares false. *)
Definition num_ge (x : number) (z : Z) : bool :=
  match x with NaN => false | Inf neg => negb neg | Fin q => Qle_bool (inject_Z z) q end.
Definition num_lt (x : number) (z : Z) : bool :=
  match x with NaN => false | Inf neg => neg | Fin q => negb (Qle_bool (inject_Z z) q) end.

(** ** Decimal numerals convert to their value *)

Lemma digit_not_space c : is_digit c = true -> is_space c = false.
Proof.
  intros H%is_digit_bounds. unfold is_space, in_range.
  rewrite bool_decide_false by (rewrite !elem_of_cons, elem_of_nil; lia).
  simpl. apply andb_false_iff. left. apply N.leb_gt. lia.
Qed.

Lemma trim_left_digits s : Forall (fun c => is_digit c = true) s -> trim_left s = s.
Proof.
  intros H. unfold trim_left. destruct s as [|c s]; [done|].
  apply list.Forall_cons in H as [Hc _]. simpl. by rewrite (digit_not_space c Hc).
Qed.

Lemma trim_digits s : Forall (fun c => is_digit c = true) s -> trim s = s.
Proof.
  intros H. unfold trim. rewrite (trim_left_digits s H), trim_left_digits, rev_involutive; [done|].
  by apply Forall_rev.
Qed.

(** A prefix with a unit that is no digit is not a prefix of digits. *)
Lemma strip_prefix_digits p s :
  Forall (fun c => is_digit c = true) s -> forallb is_digit p = false -> strip_prefix p s = None.
Proof.
  intros Hs Hp. destruct (strip_prefix p s) as [t|] eqn:E; [|done]. exfalso.
  apply strip_prefix_Some in E as ->. apply Forall_app in Hs as [Hs _].
  apply not_true_iff_false in Hp. apply Hp. apply forallb_forall. intros x Hx.
  by apply (proj1 (List.Forall_forall _ _) Hs).
Qed.

Lemma read_unsigned_digits s :
  Forall (fun c => is_digit c = true) s -> s <> [] ->
  read_unsigned s = Some (inject_Z (Z.of_N (digits_value 0 s)) * ten_pow 0)%Q.
Proof.
  intros H Hne. unfold read_unsigned.
  pose proof (span_app is_digit s [] H I) as Hs. rewrite app_nil_r in Hs. rewrite Hs.
  change (strip_prefix "." []) with (@None jsstr). simpl. rewrite app_nil_r. by destruct s.
Qed.

(** [Number(String(n))] is [n]. *)
Lemma to_number_dec n :
  exists q, to_number (dec_N n) = Fin q /\ (q == inject_Z (Z.of_N n))%Q.
Proof.
  exists (inject_Z (Z.of_N n) * ten_pow 0)%Q. split; [|unfold ten_pow; simpl; ring].
  pose proof (dec_N_digits n) as Hd.
  pose proof (dec_N_nonempty n) as Hne.
  pose proof (read_unsigned_digits _ Hd Hne) as Hr. rewrite digits_value_dec in Hr.
  unfold to_number. rewrite (trim_digits _ Hd). destruct (dec_N n) as [|c s] eqn:E; [done|].
  rewrite <- E in *. cbn [first_prefix]. rewrite !(strip_prefix_digits _ _ Hd) by reflexivity.
  unfold read_signed.
  assert ((dec_N n === "Infinity") = false) as ->; [|by rewrite Hr].
  apply str_eqb_neq. intros Heq. rewrite Heq in Hd. vm_compute in Hd.
  apply list.Forall_cons in Hd as [Hc _]. done.
Qed.

Lemma num_ge_dec n z : num_ge (to_number (dec_N n)) z = (z <=? Z.of_N n)%Z.
Proof.
  destruct (to_number_dec n) as (q & -> & Hq). simpl. apply eq_true_iff_eq.
  rewrite Qle_bool_iff, Hq, Z.leb_le. by rewrite <- Zle_Qle.
Qed.

Lemma num_lt_dec n z : num_lt (to_number (dec_N n)) z = (Z.of_N n <? z)%Z.
Proof.
  destruct (to_number_dec n) as (q & -> & Hq). simpl. apply eq_true_iff_eq.
  rewrite negb_true_iff, <- not_true_iff_false, Qle_bool_iff, Hq, Z.ltb_lt, <- Zle_Qle. lia.
Qed.
