(* ===== verification/JsUri.v ===== *)
(** * encodeURIComponent and decodeURIComponent

    The percent encoding of the language's global functions: code units are
    paired into code points, written in UTF-8, and each octet outside the
    unreserved set is escaped.  [None] stands for the URIError both functions
    throw. *)

From S2P Require Import Prelude JsString.
#[local] Open Scope N_scope.

(** ** Encoding *)

(** [A-Z a-z 0-9 - _ . ! ~ * ' ( )]. *)
Definition is_unreserved (c : N) : bool :=
  is_alnum c || bool_decide (c ∈ js "-_.!~*'()").

Definition hex_unit (d : N) : N := if d <? 10 then 48 + d else 55 + d.
Definition pct (b : N) : jsstr := [37; hex_unit (b / 16); hex_unit (b mod 16)].

Definition utf8 (v : N) : list N :=
  if v <? 128 then [v]
  else if v <? 2048 then [192 + v / 64; 128 + v mod 64]
  else if v <? 65536 then [224 + v / 4096; 128 + v / 64 mod 64; 128 + v mod 64]
  else [240 + v / 262144; 128 + v / 4096 mod 64; 128 + v / 64 mod 64; 128 + v mod 64].

Definition is_high (c : N) : bool := in_range 55296 56319 c.
Definition is_low (c : N) : bool := in_range 56320 57343 c.

Definition pcts (bs : list N) : jsstr := concat (map pct bs).

Fixpoint encodeURIComponent (s : jsstr) : option jsstr :=
  match s with
  | [] => Some []
  | c :: r =>
      if is_unreserved c then cons c <$> encodeURIComponent r
      else if is_low c then None
      else if is_high c then
        match r with
        | d :: r' =>
            if is_low d
            then app (pcts (utf8 ((c - 55296) * 1024 + (d - 56320) + 65536))) <$> encodeURIComponent r'
            else None
        | [] => None
        end
      else app (pcts (utf8 c)) <$> encodeURIComponent r
  end.

(** ** Decoding *)

Definition hex_value (c : N) : option N :=
  if is_digit c then Some (c - 48)
  else if in_range 65 70 c then Some (c - 55)
  else if in_range 97 102 c then Some (c - 87)
  else None.

(** A plain code unit, or an escaped octet. *)
Inductive token := Plain (c : N) | Octet (b : N).

Fixpoint tokens (s : jsstr) : option (list token) :=
  match s with
  | [] => Some []
  | c :: r =>
      if c =? 37 then
        match r with
        | a :: b :: r' =>
            match hex_value a, hex_value b with
            | Some x, Some y => cons (Octet (16 * x + y)) <$> tokens r'
            | _, _ => None
            end
        | _ => None
        end
      else cons (Plain c) <$> tokens r
  end.

Definition cont (t : token) : option N :=
  match t with Octet b => if in_range 128 191 b then Some (b - 128) else None | Plain _ => None end.

(** The code units of a code point; surrogates and values past the last code
    point are refused. *)
Definition units_of (v : N) : option jsstr :=
  if is_high v || is_low v then None
  else if v <? 65536 then Some [v]
  else if v <=? 1114111
  then Some [55296 + (v - 65536) / 1024; 56320 + (v - 65536) mod 1024]
  else None.

Definition emit (lo v : N) (r : option jsstr) : option jsstr :=
  if v <? lo then None else u ← units_of v; app u <$> r.

Fixpoint untokens (ts : list token) : option jsstr :=
  match ts with
  | [] => Some []
  | Plain c :: r => cons c <$> untokens r
  | Octet b :: r =>
      if b <? 128 then cons b <$> untokens r
      else if in_range 192 223 b then
        match r with
        | t1 :: r1 =>
            match cont t1 with
            | Some x1 => emit 128 ((b - 192) * 64 + x1) (untokens r1)
            | None => None
            end
        | [] => None
        end
      else if in_range 224 239 b then
        match r with
        | t1 :: t2 :: r2 =>
            match cont t1, cont t2 with
            | Some x1, Some x2 => emit 2048 ((b - 224) * 4096 + x1 * 64 + x2) (untokens r2)
            | _, _ => None
            end
        | _ => None
        end
      else if in_range 240 247 b then
        match r with
        | t1 :: t2 :: t3 :: r3 =>
            match cont t1, cont t2, cont t3 with
            | Some x1, Some x2, Some x3 =>
                emit 65536 ((b - 240) * 262144 + x1 * 4096 + x2 * 64 + x3) (untokens r3)
            | _, _, _ => None
            end
        | _ => None
        end
      else None
  end.

Definition decodeURIComponent (s : jsstr) : option jsstr := ts ← tokens s; untokens ts.

(** ** Round trip *)

Lemma in_range_spec lo hi c : in_range lo hi c = true <-> lo <= c <= hi.
Proof. unfold in_range. rewrite andb_true_iff, !N.leb_le. done. Qed.

Lemma in_range_true lo hi c : lo <= c <= hi -> in_range lo hi c = true.
Proof. apply in_range_spec. Qed.

Lemma in_range_false lo hi c : c < lo \/ hi < c -> in_range lo hi c = false.
Proof. intros H. apply not_true_iff_false. rewrite in_range_spec. lia. Qed.

Lemma hex_value_unit d : d < 16 -> hex_value (hex_unit d) = Some d.
Proof.
  intros H. unfold hex_unit, hex_value, is_digit.
  destruct (N.ltb_spec d 10).
  - assert (((48 <=? 48 + d) && (48 + d <=? 57)) = true) as ->
      by (apply andb_true_iff; rewrite !N.leb_le; lia). f_equal. lia.
  - assert (((48 <=? 55 + d) && (55 + d <=? 57)) = false) as ->
      by (apply andb_false_iff; rewrite !N.leb_gt; lia).
    rewrite in_range_true by lia. f_equal. lia.
Qed.

Lemma tokens_pct b t : b < 256 -> tokens (pct b ++ t) = cons (Octet b) <$> tokens t.
Proof.
  intros H. unfold pct. cbn [app tokens]. rewrite N.eqb_refl.
  assert (b / 16 < 16) by (apply N.Div0.div_lt_upper_bound; lia).
  assert (b mod 16 < 16) by (apply N.mod_lt; lia).
  rewrite !hex_value_unit by done. do 2 f_equal.
  pose proof (N.div_mod b 16). f_equal. lia.
Qed.

Lemma tokens_pcts bs t :
  Forall (fun b => b < 256) bs -> tokens (pcts bs ++ t) = app (map Octet bs) <$> tokens t.
Proof.
  intros H. induction H as [|b bs Hb Hbs IH].
  - simpl. by destruct (tokens t).
  - unfold pcts in *. cbn [map concat]. rewrite <- app_assoc, tokens_pct, IH by done.
    by destruct (tokens t).
Qed.

Lemma unreserved_not_pct c : is_unreserved c = true -> (c =? 37) = false.
Proof.
  intros H. apply N.eqb_neq. intros ->. revert H. vm_compute. done.
Qed.

Lemma utf8_octets v : v <= 1114111 -> Forall (fun b => b < 256) (utf8 v).
Proof.
  intros H. unfold utf8.
  destruct (N.ltb_spec v 128); [forall_list; lia|].
  destruct (N.ltb_spec v 2048); [|destruct (N.ltb_spec v 65536)];
    forall_list; div_lia.
Qed.

Lemma cont_octet x : x < 64 -> cont (Octet (128 + x)) = Some x.
Proof. intros H. unfold cont. rewrite in_range_true by lia. f_equal. lia. Qed.

Lemma emit_ok lo v u r : lo <= v -> units_of v = Some u -> emit lo v r = app u <$> r.
Proof. intros H Hu. unfold emit. destruct (N.ltb_spec v lo); [lia|]. by rewrite Hu. Qed.

(** UTF-8 decoding undoes UTF-8 encoding, on every code point that is not a
    surrogate. *)
Lemma untokens_utf8 v u r :
  units_of v = Some u -> untokens (map Octet (utf8 v) ++ r) = app u <$> untokens r.
Proof.
  intros Hu.
  assert (v <= 1114111) as Hv.
  { unfold units_of in Hu. destruct (is_high v || is_low v); [done|].
    destruct (N.ltb_spec v 65536); [lia|]. destruct (N.leb_spec v 1114111); done. }
  unfold utf8. destruct (N.ltb_spec v 128) as [H1|H1].
  { cbn [map app untokens]. destruct (N.ltb_spec v 128); [|lia].
    unfold units_of in Hu. destruct (is_high v || is_low v); [done|].
    destruct (N.ltb_spec v 65536); [|lia]. by simplify_eq. }
  destruct (N.ltb_spec v 2048) as [H2|H2].
  { assert (v / 64 < 32) by (apply N.Div0.div_lt_upper_bound; lia).
    assert (v mod 64 < 64) by (apply N.mod_lt; lia).
    pose proof (N.div_mod v 64). cbn [map app untokens].
    destruct (N.ltb_spec (192 + v / 64) 128); [div_lia|].
    rewrite (in_range_true 192) by div_lia. rewrite cont_octet by done.
    replace ((192 + v / 64 - 192) * 64 + v mod 64) with v by lia. by apply emit_ok. }
  destruct (N.ltb_spec v 65536) as [H3|H3].
  { assert (v / 4096 < 16) by (apply N.Div0.div_lt_upper_bound; lia).
    assert (v / 64 mod 64 < 64) by (apply N.mod_lt; lia).
    assert (v mod 64 < 64) by (apply N.mod_lt; lia).
    cbn [map app untokens].
    destruct (N.ltb_spec (224 + v / 4096) 128); [div_lia|].
    rewrite (in_range_false 192) by div_lia. rewrite (in_range_true 224) by div_lia. rewrite !cont_octet by done.
    replace ((224 + v / 4096 - 224) * 4096 + v / 64 mod 64 * 64 + v mod 64) with v
      by (div_lia).
    by apply emit_ok. }
  assert (v / 262144 < 8) by (apply N.Div0.div_lt_upper_bound; lia).
  assert (v / 4096 mod 64 < 64) by (apply N.mod_lt; lia).
  assert (v / 64 mod 64 < 64) by (apply N.mod_lt; lia).
  assert (v mod 64 < 64) by (apply N.mod_lt; lia).
  cbn [map app untokens].
  destruct (N.ltb_spec (240 + v / 262144) 128); [div_lia|].
  rewrite (in_range_false 192) by div_lia. rewrite (in_range_false 224) by div_lia.
  rewrite (in_range_true 240) by div_lia. rewrite !cont_octet by done.
  replace ((240 + v / 262144 - 240) * 262144 + v / 4096 mod 64 * 4096 + v / 64 mod 64 * 64 + v mod 64)
    with v by (div_lia).
  by apply emit_ok.
Qed.

Lemma units_of_pair c d :
  is_high c = true -> is_low d = true ->
  units_of ((c - 55296) * 1024 + (d - 56320) + 65536) = Some [c; d].
Proof.
  intros Hc%in_range_spec Hd%in_range_spec. unfold units_of, is_high, is_low.
  rewrite !in_range_false by lia. cbn [orb].
  destruct (N.ltb_spec ((c - 55296) * 1024 + (d - 56320) + 65536) 65536); [lia|].
  destruct (N.leb_spec ((c - 55296) * 1024 + (d - 56320) + 65536) 1114111); [|lia].
  replace ((c - 55296) * 1024 + (d - 56320) + 65536 - 65536)
    with ((d - 56320) + (c - 55296) * 1024) by lia.
  rewrite N.div_add, N.Div0.mod_add, N.div_small, N.mod_small by lia.
  do 2 f_equal; [lia|]. f_equal. lia.
Qed.

Lemma units_of_unit c : c < 65536 -> is_high c = false -> is_low c = false -> units_of c = Some [c].
Proof.
  intros Hc Hh Hl. unfold units_of. rewrite Hh, Hl. simpl. by destruct (N.ltb_spec c 65536); [|lia].
Qed.

(** The octets of one code point are read back as its code units. *)
Lemma decode_step v u e s :
  units_of v = Some u -> v <= 1114111 ->
  decodeURIComponent e = Some s -> decodeURIComponent (pcts (utf8 v) ++ e) = Some (u ++ s).
Proof.
  unfold decodeURIComponent. intros Hu Hv He. rewrite tokens_pcts by by apply utf8_octets.
  destruct (tokens e) as [ts|]; [|done]. simpl in *.
  rewrite (untokens_utf8 v u) by done. by rewrite He.
Qed.

Lemma decode_plain c e s :
  (c =? 37) = false -> decodeURIComponent e = Some s -> decodeURIComponent (c :: e) = Some (c :: s).
Proof.
  unfold decodeURIComponent. intros Hc He. cbn [tokens]. rewrite Hc.
  destruct (tokens e) as [ts|]; [|done]. simpl in *. by rewrite He.
Qed.

Lemma decode_encode_aux n s e :
  (length s <= n)%nat -> units_ok s -> encodeURIComponent s = Some e -> decodeURIComponent e = Some s.
Proof.
  revert s e. induction n as [|n IH]; intros [|c r] e Hn Hok; simpl in Hn; try lia;
    cbn [encodeURIComponent]; try (by intros [= <-]).
  apply list.Forall_cons in Hok as [Hc Hr].
  destruct (is_unreserved c) eqn:Eu.
  { destruct (encodeURIComponent r) as [e'|] eqn:Er; [|done]. intros [= <-].
    apply decode_plain; [by apply unreserved_not_pct|]. apply IH; [lia|done|done]. }
  destruct (is_low c) eqn:El; [done|]. destruct (is_high c) eqn:Eh.
  - destruct r as [|d r']; [done|]. destruct (is_low d) eqn:Ed; [|done].
    apply list.Forall_cons in Hr as [Hd Hr'].
    destruct (encodeURIComponent r') as [e'|] eqn:Er; [|done]. intros [= <-].
    apply (decode_step _ [c; d]); [by apply units_of_pair| |apply IH; [simpl in *; lia|done|done]].
    apply in_range_spec in Eh, Ed. lia.
  - destruct (encodeURIComponent r) as [e'|] eqn:Er; [|done]. intros [= <-].
    apply (decode_step _ [c]); [by apply units_of_unit|lia|]. apply IH; [lia|done|done].
Qed.

(** Decoding an encoded component gives it back. *)
Lemma decode_encode s e :
  units_ok s -> encodeURIComponent s = Some e -> decodeURIComponent e = Some s.
Proof. by apply (decode_encode_aux (length s)). Qed.

(** ** What an encoded component is made of *)

(** The alphabet of an encoded component: unreserved characters and the
    percent sign. *)
Definition uri_safe (c : N) : bool := is_unreserved c || (c =? 37).

Lemma hex_unit_safe d : d < 16 -> uri_safe (hex_unit d) = true.
Proof.
  intros H. unfold uri_safe, is_unreserved.
  assert (is_alnum (hex_unit d) = true) as ->; [|done].
  unfold is_alnum, hex_unit, is_upper. destruct (N.ltb_spec d 10).
  - apply orb_true_iff. right. apply (in_range_true 48 57). lia.
  - rewrite in_range_true by lia. done.
Qed.

Lemma pcts_safe bs : Forall (fun b => b < 256) bs -> Forall (fun c => uri_safe c = true) (pcts bs).
Proof.
  intros H. induction H as [|b bs Hb Hbs IH]; [constructor|].
  unfold pcts in *. cbn [map concat]. apply Forall_app. split; [|done].
  unfold pct. forall_list; [done| |].
  - apply hex_unit_safe. apply N.Div0.div_lt_upper_bound. lia.
  - apply hex_unit_safe. apply N.mod_lt. lia.
Qed.

Lemma encode_safe_aux n s e :
  (length s <= n)%nat -> units_ok s -> encodeURIComponent s = Some e ->
  Forall (fun c => uri_safe c = true) e.
Proof.
  revert s e. induction n as [|n IH]; intros [|c r] e Hn Hok; simpl in Hn; try lia;
    cbn [encodeURIComponent]; try (by intros [= <-]; constructor).
  apply list.Forall_cons in Hok as [Hc Hr].
  destruct (is_unreserved c) eqn:Eu.
  { destruct (encodeURIComponent r) as [e'|] eqn:Er; [|done]. intros [= <-].
    constructor; [unfold uri_safe; by rewrite Eu|]. eapply IH; [|done|done]. lia. }
  destruct (is_low c) eqn:El; [done|]. destruct (is_high c) eqn:Eh.
  - destruct r as [|d r']; [done|]. destruct (is_low d) eqn:Ed; [|done].
    apply list.Forall_cons in Hr as [Hd Hr'].
    destruct (encodeURIComponent r') as [e'|] eqn:Er; [|done]. intros [= <-].
    apply Forall_app. split; [|eapply IH; [|done|done]; simpl in *; lia].
    apply pcts_safe, utf8_octets. apply in_range_spec in Eh, Ed. lia.
  - destruct (encodeURIComponent r) as [e'|] eqn:Er; [|done]. intros [= <-].
    apply Forall_app. split; [|eapply IH; [|done|done]; lia].
    apply pcts_safe, utf8_octets. lia.
Qed.

Lemma encode_safe s e :
  units_ok s -> encodeURIComponent s = Some e -> Forall (fun c => uri_safe c = true) e.
Proof. by apply (encode_safe_aux (length s)). Qed.

#[export] Hint Resolve decode_encode encode_safe : xenon.
