(* ===== verification/Lodash.v ===== *)
(** * The lodash functions the user interface calls

    lodash is a third-party package: its functions are a class of operations
    whose laws are what its documentation states.  [lodash_ref] implements
    the class, so that the models evaluate on concrete inputs. *)

From S2P Require Import Prelude JsString.
From Stdlib Require Import Sorting.Permutation Sorting.Sorted.

(** ** Reference functions *)

(** Keeps the first occurrence of each string. *)
Fixpoint uniq (l : list jsstr) : list jsstr :=
  match l with
  | [] => []
  | x :: l' => x :: List.filter (fun y => y !== x) (uniq l')
  end.

Definition includes (l : list jsstr) (x : jsstr) : bool := bool_decide (x ∈ l).

Fixpoint find_index {A} (p : A -> bool) (l : list A) : option nat :=
  match l with
  | [] => None
  | x :: l' => if p x then Some 0 else S <$> find_index p l'
  end.

(** Insertion that keeps the order of equal keys. *)
Fixpoint insert_by {A} (le : A -> A -> bool) (x : A) (l : list A) : list A :=
  match l with
  | [] => [x]
  | y :: l' => if le x y then x :: y :: l' else y :: insert_by le x l'
  end.

Fixpoint isort {A} (le : A -> A -> bool) (l : list A) : list A :=
  match l with
  | [] => []
  | x :: l' => insert_by le x (isort le l')
  end.

(** ** The class *)

(** A comparison of keys that is total and transitive. *)
Definition total_order {A} (le : A -> A -> bool) : Prop :=
  (forall x y, le x y = true \/ le y x = true) /\
  (forall x y z, le x y = true -> le y z = true -> le x z = true).

Class Lodash := {
  lo_join : list jsstr -> jsstr -> jsstr;
  lo_slice : forall A, list A -> Z -> Z -> list A;
  lo_tail : forall A, list A -> list A;
  lo_intersection : list jsstr -> list jsstr -> list jsstr;
  lo_difference : list jsstr -> list jsstr -> list jsstr;
  lo_concat : forall A, list A -> list A -> list A;
  lo_find : forall A, list A -> (A -> bool) -> option A;
  lo_findIndex : forall A, list A -> (A -> bool) -> Z;
  lo_remove : forall A, list A -> (A -> bool) -> list A;
  lo_last : forall A, list A -> option A;
  lo_sortBy : forall A, (A -> A -> bool) -> list A -> list A;

  lo_join_law ws sep : lo_join ws sep = join sep ws;
  lo_slice_law A (l : list A) (i j : Z) :
    (0 <= i)%Z -> (0 <= j)%Z -> lo_slice A l i j = drop (Z.to_nat i) (take (Z.to_nat j) l);
  lo_tail_law A (l : list A) : lo_tail A l = drop 1 l;
  lo_intersection_law a b : lo_intersection a b = List.filter (includes b) (uniq a);
  lo_difference_law a b : lo_difference a b = List.filter (fun x => negb (includes b x)) a;
  lo_concat_law A (a b : list A) : lo_concat A a b = a ++ b;
  lo_find_law A (l : list A) p : lo_find A l p = List.find p l;
  lo_findIndex_law A (l : list A) p :
    lo_findIndex A l p = match find_index p l with Some i => Z.of_nat i | None => (-1)%Z end;
  lo_remove_law A (l : list A) p : lo_remove A l p = List.filter (fun x => negb (p x)) l;
  lo_last_law A (l : list A) : lo_last A l = List.hd_error (rev l);
  lo_sortBy_perm A le (l : list A) : Permutation l (lo_sortBy A le l);
  lo_sortBy_sorted A le (l : list A) :
    total_order le -> StronglySorted (fun x y => le x y = true) (lo_sortBy A le l);
  lo_sortBy_stable A le (l : list A) :
    total_order le ->
    forall k, List.filter (fun x => le x k && le k x) (lo_sortBy A le l)
              = List.filter (fun x => le x k && le k x) l
}.
Arguments lo_slice {_ A} _ _ _.
Arguments lo_tail {_ A} _.
Arguments lo_concat {_ A} _ _.
Arguments lo_find {_ A} _ _.
Arguments lo_findIndex {_ A} _ _.
Arguments lo_remove {_ A} _ _.
Arguments lo_last {_ A} _.
Arguments lo_sortBy {_ A} _ _.

Create Rewrite HintDb lodash.
#[export] Hint Rewrite @lo_join_law @lo_tail_law @lo_intersection_law @lo_difference_law
  @lo_concat_law @lo_find_law @lo_findIndex_law @lo_remove_law @lo_last_law : lodash.

(** Rewrites lodash calls to what they compute. *)
Ltac lodash := autorewrite with lodash.

(** ** The reference implementation *)

Section Isort.
Context {A : Type} (le : A -> A -> bool).

Lemma insert_by_perm x l : Permutation (x :: l) (insert_by le x l).
Proof.
  induction l as [|y l IH]; simpl; [done|]. destruct (le x y); [done|].
  rewrite perm_swap. by constructor.
Qed.

Lemma isort_perm l : Permutation l (isort le l).
Proof. induction l as [|x l IH]; simpl; [done|]. rewrite <- insert_by_perm. by constructor. Qed.

Lemma insert_by_sorted x l :
  total_order le -> StronglySorted (fun a b => le a b = true) l ->
  StronglySorted (fun a b => le a b = true) (insert_by le x l).
Proof.
  intros [Htot Htr] Hs. induction Hs as [|y l Hs IH Hall]; simpl; [repeat constructor|].
  destruct (le x y) eqn:E.
  - constructor; [by constructor|]. constructor; [done|].
    eapply list.Forall_impl; [done|]. intros z Hz. simpl in Hz. eauto.
  - constructor; [done|].
    assert (le y x = true) as Hyx by (destruct (Htot x y); congruence).
    rewrite <- insert_by_perm. by constructor.
Qed.

Lemma isort_sorted l :
  total_order le -> StronglySorted (fun a b => le a b = true) (isort le l).
Proof. intros H. induction l; simpl; [constructor|]. by apply insert_by_sorted. Qed.

Lemma insert_by_stable x l k :
  total_order le ->
  List.filter (fun a => le a k && le k a) (insert_by le x l)
  = List.filter (fun a => le a k && le k a) (x :: l).
Proof.
  intros [Htot Htr]. induction l as [|y l IH]; [done|]. cbn [insert_by].
  destruct (le x y) eqn:E; [done|]. cbn [List.filter] in *. rewrite IH.
  destruct (le x k && le k x) eqn:E1; [|done].
  destruct (le y k && le k y) eqn:E2; [|done].
  apply andb_true_iff in E1 as [E1 _], E2 as [_ E2].
  pose proof (Htr _ _ _ E1 E2). congruence.
Qed.

Lemma isort_stable l k :
  total_order le ->
  List.filter (fun a => le a k && le k a) (isort le l) = List.filter (fun a => le a k && le k a) l.
Proof.
  intros H. induction l as [|x l IH]; [done|]. cbn [isort].
  rewrite insert_by_stable by done. cbn [List.filter]. by rewrite IH.
Qed.
End Isort.

Definition lodash_ref : Lodash := {|
  lo_join := fun ws sep => join sep ws;
  lo_slice := fun A l i j => drop (Z.to_nat i) (take (Z.to_nat j) l);
  lo_tail := fun A l => drop 1 l;
  lo_intersection := fun a b => List.filter (includes b) (uniq a);
  lo_difference := fun a b => List.filter (fun x => negb (includes b x)) a;
  lo_concat := fun A a b => a ++ b;
  lo_find := fun A l p => List.find p l;
  lo_findIndex := fun A l p => match find_index p l with Some i => Z.of_nat i | None => (-1)%Z end;
  lo_remove := fun A l p => List.filter (fun x => negb (p x)) l;
  lo_last := fun A l => List.hd_error (rev l);
  lo_sortBy := fun A le l => isort le l;
  lo_join_law := fun _ _ => eq_refl;
  lo_slice_law := fun _ _ _ _ _ _ => eq_refl;
  lo_tail_law := fun _ _ => eq_refl;
  lo_intersection_law := fun _ _ => eq_refl;
  lo_difference_law := fun _ _ => eq_refl;
  lo_concat_law := fun _ _ _ => eq_refl;
  lo_find_law := fun _ _ _ => eq_refl;
  lo_findIndex_law := fun _ _ _ => eq_refl;
  lo_remove_law := fun _ _ _ => eq_refl;
  lo_last_law := fun _ _ => eq_refl;
  lo_sortBy_perm := fun A le l => isort_perm le l;
  lo_sortBy_sorted := fun A le l => isort_sorted le l;
  lo_sortBy_stable := fun A le l H k => isort_stable le l k H
|}.

(** ** Facts about the reference functions *)

Lemma includes_spec l x : includes l x = true <-> x ∈ l.
Proof. unfold includes. apply bool_decide_eq_true. Qed.

Lemma elem_of_uniq l x : x ∈ uniq l <-> x ∈ l.
Proof.
  induction l as [|y l IH]; simpl; [done|]. rewrite !elem_of_cons, !list_elem_of_In, filter_In, <- !list_elem_of_In.
  rewrite IH, negb_true_iff, str_eqb_neq. destruct (decide (x = y)); naive_solver.
Qed.

Lemma filter_idem {A} (p : A -> bool) l : Forall (fun x => p x = true) l -> List.filter p l = l.
Proof. induction 1 as [|x l Hx Hl IH]; simpl; [done|]. by rewrite Hx, IH. Qed.

Lemma filter_none {A} (p : A -> bool) l : Forall (fun x => p x = false) l -> List.filter p l = [].
Proof. induction 1 as [|x l Hx Hl IH]; simpl; [done|]. by rewrite Hx. Qed.

(** ** Orders on keys *)

(** Comparison of strings by code units. *)
Fixpoint str_leb (s t : jsstr) : bool :=
  match s, t with
  | [], _ => true
  | _ :: _, [] => false
  | c :: s', d :: t' => if (c =? d)%N then str_leb s' t' else (c <? d)%N
  end.

Lemma str_leb_total : total_order str_leb.
Proof.
  split.
  - intros x. induction x as [|c x IH]; intros [|d y]; simpl; auto.
    rewrite (N.eqb_sym d c). destruct (N.eqb_spec c d); [apply IH|].
    rewrite !N.ltb_lt. lia.
  - intros x. induction x as [|c x IH]; intros [|d y] [|e z]; simpl; try done.
    destruct (N.eqb_spec c d), (N.eqb_spec d e), (N.eqb_spec c e); subst; try congruence;
      rewrite ?N.ltb_lt; try lia; eauto.
Qed.

Lemma Zleb_total {A} (f : A -> Z) : total_order (fun x y => (f x <=? f y)%Z).
Proof. split; intros; rewrite ?Z.leb_le in *; lia. Qed.

Lemma str_leb_key_total {A} (f : A -> jsstr) : total_order (fun x y => str_leb (f x) (f y)).
Proof. destruct str_leb_total as [H1 H2]. split; intros; eauto. Qed.

#[export] Hint Resolve str_leb_total Zleb_total str_leb_key_total : xenon.
