(* ===== verification/Json.v ===== *)
(** * JSON values and their text

    Values that the code passes to [JSON.stringify] or reads as untyped
    objects.  Objects are association lists in property order.  Numbers are
    rationals; the text of a number is a class, because the shortest decimal
    text of a double is the engine's business, with the law for integers. *)

From Stdlib Require Export QArith.
From S2P Require Import Prelude JsString.
#[global] Close Scope Q_scope.

Inductive jsval :=
  | JNull
  | JBool (b : bool)
  | JNum (q : Q)
  | JStr (s : jsstr)
  | JArr (l : list jsval)
  | JObj (o : list (jsstr * jsval)).

Definition JInt (z : Z) : jsval := JNum (inject_Z z).

Class NumText := {
  num_text : Q -> jsstr;
  num_text_int z : (Z.abs z < 10 ^ 21)%Z -> num_text (inject_Z z) = dec_Z z
}.

(** A stand-in that writes other fractions as quotients. *)
Definition quotient_text : NumText.
Proof.
  refine {| num_text := fun q => if (Qden q =? 1)%positive then dec_Z (Qnum q)
                                 else dec_Z (Qnum q) ++ "/" ++ dec_N (Npos (Qden q)) |}.
  abstract (intros z _; reflexivity).
Defined.

(** ** Property access *)

(** [v.k], [None] being [undefined]; reading a property of [null] throws. *)
Definition prop (v : jsval) (k : jsstr) : exec (option jsval) :=
  match v with
  | JNull => Throw TypeError
  | JObj o => Ret (obj_get o k)
  | _ => Ret None
  end.

Definition set_prop (v : jsval) (k : jsstr) (w : jsval) : jsval :=
  match v with JObj o => JObj (obj_set o k w) | _ => v end.

(** [delete v.k]. *)
Definition del_prop (v : jsval) (k : jsstr) : jsval :=
  match v with JObj o => JObj (List.filter (fun kv => kv.1 !== k) o) | _ => v end.

(** A value used as a condition. *)
Definition truthy_val (v : option jsval) : bool :=
  match v with
  | None | Some JNull => false
  | Some (JBool b) => b
  | Some (JNum q) => negb (Qeq_bool q 0)
  | Some (JStr s) => truthy s
  | Some _ => true
  end.

(** lodash's [_.isEmpty] on a value. *)
Definition isEmpty_val (v : option jsval) : bool :=
  match v with
  | Some (JStr s) => negb (truthy s)
  | Some (JArr l) => match l with [] => true | _ => false end
  | Some (JObj o) => match o with [] => true | _ => false end
  | _ => true
  end.

(** ** JSON.stringify *)

Section Stringify.
Context {NT : NumText}.

Definition hex_digit (d : N) : N := if (d <? 10)%N then (48 + d)%N else (87 + d)%N.

Definition escape_unit (c : N) : jsstr :=
  if (c =? 34)%N then [92; 34]%N else if (c =? 92)%N then [92; 92]%N
  else if (c =? 8)%N then [92; 98]%N else if (c =? 12)%N then [92; 102]%N
  else if (c =? 10)%N then [92; 110]%N else if (c =? 13)%N then [92; 114]%N
  else if (c =? 9)%N then [92; 116]%N
  else if (c <? 32)%N then [92; 117; 48; 48; hex_digit (c / 16); hex_digit (c mod 16)]%N
  else [c].

Definition quote (s : jsstr) : jsstr := [34%N] ++ concat (map escape_unit s) ++ [34%N].

(** The text between brackets: on one line without a gap, one item per line
    with one. *)
Definition bracketed (gap indent : jsstr) (l r : jsstr) (items : list jsstr) : jsstr :=
  match items, gap with
  | [], _ => l ++ r
  | _, [] => l ++ join "," items ++ r
  | _, _ => l ++ [10%N] ++ indent ++ gap
            ++ join ("," ++ [10%N] ++ indent ++ gap) items ++ [10%N] ++ indent ++ r
  end.

(** [JSON.stringify(v, null, n)], [gap] being [n] spaces. *)
Fixpoint stringify_gap (gap indent : jsstr) (v : jsval) : jsstr :=
  match v with
  | JNull => "null"
  | JBool true => "true"
  | JBool false => "false"
  | JNum q => num_text q
  | JStr s => quote s
  | JArr l => bracketed gap indent "[" "]" (map (stringify_gap gap (indent ++ gap)) l)
  | JObj o => bracketed gap indent "{" "}"
                (map (fun '(k, w) => quote k ++ (match gap with [] => js ":" | _ => js ": " end)
                                      ++ stringify_gap gap (indent ++ gap) w) o)
  end.

Definition stringify (v : jsval) : jsstr := stringify_gap [] [] v.

(** The text a template literal makes of a value. *)
Fixpoint to_text (v : jsval) : jsstr :=
  match v with
  | JNull => "null"
  | JBool true => "true"
  | JBool false => "false"
  | JNum q => num_text q
  | JStr s => s
  | JArr l => join "," (map (fun w => match w with JNull => [] | _ => to_text w end) l)
  | JObj _ => "[object Object]"
  end.

Definition opt_text (v : option jsval) : jsstr :=
  match v with Some v => to_text v | None => "undefined" end.
End Stringify.

(** The text of an optional string or number in a template literal. *)
Definition str_or_undefined (o : option jsstr) : jsstr := default (js "undefined") o.
Definition int_or_undefined (o : option Z) : jsstr :=
  match o with Some z => dec_Z z | None => "undefined" end.
