(* ===== verification/WsService.v ===== *)
(** * ws-service-lib.js: services implemented in the browser

    The library that plugs in-browser services into a node over one
    WebSocket.  A connection is a record; each event handler and API method
    is a function from a connection to the next connection, the list of
    outputs it produced (frames sent, application callbacks invoked) and the
    exception it ended with, if any.  Application callbacks are opaque
    identifiers: invoking one is an output, and what the application then
    does is a later call of the API. *)

#[local] Set Warnings "-register-all".
From S2P Require Import Prelude JsString JsNumber.

(** ** JSON

    Values, and the operations of the [JSON] object and of ToString on them.
    The operations are a parameter: the library only passes values through
    them. *)

Inductive json (num : Type) :=
  | JNull
  | JBool (b : bool)
  | JNum (n : num)
  | JStr (s : jsstr)
  | JArr (l : list (json num))
  | JObj (fields : list (jsstr * json num)).
Arguments JNull {num}.
Arguments JBool {num} _.
Arguments JNum {num} _.
Arguments JStr {num} _.
Arguments JArr {num} _.
Arguments JObj {num} _.

Class JsonLib := {
  jnum : Type;
  jnum_of_Z : Z -> jnum;
  json_parse : jsstr -> option (json jnum);
  json_stringify : json jnum -> jsstr;
  json_toString : json jnum -> jsstr
}.

Section Ws.
Context {J : JsonLib} {cb : Type}.
(** The path name of a reference resolved by the browser's anchor element. *)
Context (getLocation : jsstr -> jsstr).
Context {C : CaseMap}.

Abbreviation value := (json jnum).

Definition CR_LF : jsstr := [13; 10]%N.
Definition DELETE : jsstr := "DELETE".
Definition POST : jsstr := "POST".
Definition REPLY : jsstr := "REPLY".
Definition WS_SERVICE_PATH : jsstr := "/ws-service".

(** ** Operation *)

Record Operation := {
  op_action : option value;
  op_statusCode : Z;
  op_body : option value;
  op_id : option value;
  (** [None] is the initial no-op completion; [Some uri] replies for the
      service [uri]. *)
  op_oncompletion : option jsstr
}.

Definition new_Operation : Operation :=
  {| op_action := Some JNull; op_statusCode := 200; op_body := Some JNull;
     op_id := Some (JNum (jnum_of_Z 0)); op_oncompletion := None |}.

(** ** The connection *)

Record service := { sv_uri : jsstr; sv_handleRequest : cb }.

(** The completion closures the library itself passes to [doRequest]. *)
Inductive handler :=
  | CreateDone (handleRequest onServiceReady : cb) (onFailure : option cb)
  | RequestDone (onSuccess onFailure : option cb).

Record queued := {
  q_method : jsstr; q_path : jsstr; q_body : option value; q_doneHandler : option handler
}.

Record conn := {
  endpoint : jsstr;
  ready : bool;
  opened : bool;   (** [webSocket.onmessage] has been installed *)
  services : gmap jsstr service;
  doneHandlers : gmap jsstr handler;
  requestCounter : N;
  requestQueue : list queued;
  failure : option jsstr
}.

Definition new_WebSocketConnection (ep : jsstr) : conn :=
  {| endpoint := ep; ready := false; opened := false; services := ∅; doneHandlers := ∅;
     requestCounter := 0; requestQueue := []; failure := None |}.

(** A status code is the number 500 or the text of a status line. *)
Inductive code := CodeStr (s : jsstr) | CodeNum (z : Z).

Inductive out :=
  | Send (frame : jsstr)
  | HandleRequest (f : cb) (op : Operation)
  | ServiceReady (f : cb) (s : service)
  | Success (f : cb)
  | Failure (f : cb) (c : code) (body : option jsstr).

Definition step_result : Type := conn * list out * option jserr.

Definition code_ge (c : code) (z : Z) : bool :=
  match c with CodeStr s => num_ge (to_number s) z | CodeNum n => (z <=? n)%Z end.
Definition code_lt (c : code) (z : Z) : bool :=
  match c with CodeStr s => num_lt (to_number s) z | CodeNum n => (n <? z)%Z end.
Definition code_ok (c : code) : bool := code_ge c 200 && code_lt c 300.

(** Reading a property of a parsed value: [null] throws. *)
Definition json_field (v : value) (k : jsstr) : exec (option value) :=
  match v with
  | JNull => Throw TypeError
  | JObj fs => Ret (obj_get fs k)
  | _ => Ret None
  end.

(** ToString of a property value. *)
Definition value_toString (v : option value) : jsstr :=
  match v with
  | None => "undefined"
  | Some (JStr s) => s
  | Some v => json_toString v
  end.

(** [JSON.parse]; the argument [null] is read as the text "null". *)
Definition parse_text (body : option jsstr) : exec value :=
  match json_parse (match body with Some s => s | None => js "null" end) with
  | Some v => Ret v
  | None => Throw SyntaxError
  end.

Definition set_services (st : conn) (sv : gmap jsstr service) : conn :=
  {| endpoint := endpoint st; ready := ready st; opened := opened st; services := sv;
     doneHandlers := doneHandlers st; requestCounter := requestCounter st;
     requestQueue := requestQueue st; failure := failure st |}.

Definition set_handlers (st : conn) (h : gmap jsstr handler) : conn :=
  {| endpoint := endpoint st; ready := ready st; opened := opened st; services := services st;
     doneHandlers := h; requestCounter := requestCounter st;
     requestQueue := requestQueue st; failure := failure st |}.

(** The uri a creation response names. *)
Definition created_uri (body : option jsstr) : exec jsstr :=
  v <-! parse_text body ;;
  u <-! json_field v "uri" ;;
  Ret (value_toString u).

Definition call_failure (f : option cb) (c : code) (body : option jsstr) : list out :=
  match f with Some f => [Failure f c body] | None => [] end.

(** Running a completion closure on a status code and a body. *)
Definition run_handler (st : conn) (h : handler) (c : code) (body : option jsstr) : step_result :=
  match h with
  | CreateDone handleRequest onServiceReady onFailure =>
      if code_ok c then
        match created_uri body with
        | Throw e => (st, [], Some e)
        | Ret serviceUri =>
            let s := {| sv_uri := serviceUri; sv_handleRequest := handleRequest |} in
            (set_services st (<[serviceUri := s]> (services st)), [ServiceReady onServiceReady s], None)
        end
      else (st, call_failure onFailure c body, None)
  | RequestDone onSuccess onFailure =>
      if code_ok c then
        (st, match onSuccess with Some f => [Success f] | None => [] end, None)
      else (st, call_failure onFailure c body, None)
  end.

(** The frame of a request. *)
Definition request_frame (id : N) (method path : jsstr) (body : option value) : jsstr :=
  dec_N id ++ CR_LF ++ method ++ " " ++ path ++
  match body with Some b => CR_LF ++ json_stringify b | None => [] end.

Definition doRequest (st : conn) (q : queued) : step_result :=
  if negb (ready st) then
    ({| endpoint := endpoint st; ready := ready st; opened := opened st; services := services st;
        doneHandlers := doneHandlers st; requestCounter := requestCounter st;
        requestQueue := requestQueue st ++ [q]; failure := failure st |}, [], None)
  else
    match failure st with
    | Some msg =>
        match q_doneHandler q with
        | None => (st, [], Some TypeError)
        | Some h => run_handler st h (CodeNum 500) (Some msg)
        end
    | None =>
        let id := requestCounter st in
        ({| endpoint := endpoint st; ready := ready st; opened := opened st; services := services st;
            doneHandlers := match q_doneHandler q with
                            | Some h => <[dec_N id := h]> (doneHandlers st)
                            | None => doneHandlers st
                            end;
            requestCounter := (id + 1)%N;
            requestQueue := requestQueue st; failure := None |},
         [Send (request_frame id (q_method q) (q_path q) (q_body q))], None)
    end.

(** The loop over the queued requests; an exception leaves it. *)
Fixpoint doRequests (st : conn) (qs : list queued) : step_result :=
  match qs with
  | [] => (st, [], None)
  | q :: qs' =>
      match doRequest st q with
      | (st1, o1, Some e) => (st1, o1, Some e)
      | (st1, o1, None) => let '(st2, o2, e2) := doRequests st1 qs' in (st2, o1 ++ o2, e2)
      end
  end.

Definition set_ready (st : conn) : conn :=
  {| endpoint := endpoint st; ready := true; opened := opened st; services := services st;
     doneHandlers := doneHandlers st; requestCounter := requestCounter st;
     requestQueue := requestQueue st; failure := failure st |}.

Definition clear_queue (st : conn) : conn :=
  {| endpoint := endpoint st; ready := ready st; opened := opened st; services := services st;
     doneHandlers := doneHandlers st; requestCounter := requestCounter st;
     requestQueue := []; failure := failure st |}.

Definition flush (st : conn) : step_result :=
  if ready st then (st, [], None)
  else match doRequests (set_ready st) (requestQueue st) with
       | (st', o, None) => (clear_queue st', o, None)
       | r => r
       end.

Definition onerror (st : conn) : step_result :=
  flush {| endpoint := endpoint st; ready := ready st; opened := opened st; services := services st;
           doneHandlers := doneHandlers st; requestCounter := requestCounter st;
           requestQueue := requestQueue st;
           failure := Some ("Failed to establish a websocket connection to " ++ endpoint st) |}.

Definition onopen (st : conn) : step_result :=
  flush {| endpoint := endpoint st; ready := ready st; opened := true; services := services st;
           doneHandlers := doneHandlers st; requestCounter := requestCounter st;
           requestQueue := requestQueue st; failure := failure st |}.

(** ** Messages *)

Definition crlf_of (data : jsstr) : Z :=
  let crlf := indexOf data CR_LF in
  if (crlf <? 0)%Z then Z.of_nat (length data) else crlf.

Definition body_of (data : jsstr) : option jsstr :=
  let crlf := crlf_of data in
  if (crlf =? Z.of_nat (length data))%Z then None else Some (substr_from data (crlf + 2)).

(** The operation a POST frame carries for the service [serviceUri]. *)
Definition op_of (serviceUri : jsstr) (sop : value) : exec Operation :=
  action <-! json_field sop "action" ;;
  id <-! json_field sop "id" ;;
  jsonBody <-! json_field sop "jsonBody" ;;
  body <-! parse_text (Some (value_toString jsonBody)) ;;
  Ret {| op_action := action; op_statusCode := op_statusCode new_Operation; op_body := Some body;
         op_id := id; op_oncompletion := Some serviceUri |}.

Definition onmessage_post (st : conn) (data : jsstr) : step_result :=
  let serviceUri := substr data 5 (crlf_of data - 5) in
  match parse_text (body_of data) with
  | Throw e => (st, [], Some e)
  | Ret sop =>
      match services st !! serviceUri with
      | None => (st, [], None)
      | Some s =>
          match op_of serviceUri sop with
          | Throw e => (st, [], Some e)
          | Ret op => (st, [HandleRequest (sv_handleRequest s) op], None)
          end
      end
  end.

Definition onmessage_response (st : conn) (data : jsstr) : step_result :=
  let spaceIndex := indexOf data " " in
  let crlf := crlf_of data in
  if (spaceIndex <? 0)%Z then (st, [], None)
  else
    let statusCode := substr data 0 spaceIndex in
    let requestId := substr data (spaceIndex + 1) (crlf - spaceIndex - 1) in
    match doneHandlers st !! requestId with
    | None => (st, [], None)
    | Some h =>
        match run_handler st h (CodeStr statusCode) (body_of data) with
        | (st', o, None) => (set_handlers st' (delete requestId (doneHandlers st')), o, None)
        | r => r
        end
    end.

Definition onmessage (st : conn) (data : jsstr) : step_result :=
  if (indexOf data POST =? 0)%Z then onmessage_post st data else onmessage_response st data.

(** ** The API *)

Definition createService (st : conn) (handleRequest onServiceReady : cb) (onFailure : option cb) :
    step_result :=
  doRequest st {| q_method := POST; q_path := WS_SERVICE_PATH; q_body := None;
                  q_doneHandler := Some (CreateDone handleRequest onServiceReady onFailure) |}.

Definition subscribe (st : conn) (self : service) (serviceUri : jsstr) (onSuccess onFailure : option cb) :
    step_result :=
  doRequest st {| q_method := POST; q_path := serviceUri;
                  q_body := Some (JObj [(js "reference", JStr (sv_uri self)); (js "replayState", JBool true)]);
                  q_doneHandler := Some (RequestDone onSuccess onFailure) |}.

Definition unsubscribe (st : conn) (self : service) (serviceUri : jsstr) (onSuccess onFailure : option cb) :
    step_result :=
  doRequest st {| q_method := DELETE; q_path := serviceUri;
                  q_body := Some (JObj [(js "reference", JStr (sv_uri self))]);
                  q_doneHandler := Some (RequestDone onSuccess onFailure) |}.

Definition stop (st : conn) (self : service) (onSuccess onFailure : option cb) : step_result :=
  doRequest st {| q_method := DELETE; q_path := getLocation (sv_uri self); q_body := None;
                  q_doneHandler := Some (RequestDone onSuccess onFailure) |}.

(** The reply document; an undefined body leaves its property out. *)
Definition reply_body (op : Operation) : value :=
  JObj (match op_id op with Some v => [(js "id", v)] | None => [] end
        ++ [(js "responseHeaders", JObj []); (js "statusCode", JNum (jnum_of_Z (op_statusCode op)))]
        ++ match op_body op with
           | Some b => [(js "responseJsonBody", JStr (json_stringify b))]
           | None => []
           end).

Definition complete (st : conn) (op : Operation) : step_result :=
  match op_oncompletion op with
  | None => (st, [], None)
  | Some serviceUri =>
      doRequest st {| q_method := REPLY; q_path := getLocation serviceUri;
                      q_body := Some (reply_body op); q_doneHandler := None |}
  end.

(** The second definition of [fail] replaces the first: the body sent is
    the second argument. *)
Definition fail (st : conn) (op : Operation) (exception body : option value) : step_result :=
  complete st {| op_action := op_action op; op_statusCode := 500; op_body := body;
                 op_id := op_id op; op_oncompletion := op_oncompletion op |}.

(** [getWebsocketUri]: the secure scheme when the page's own scheme is https. *)
Definition getWebsocketUri (protocol host ep : jsstr) : jsstr :=
  (if (0 <=? indexOf (toLowerCase protocol) "https")%Z then js "wss:" else js "ws:")
  ++ "//" ++ host ++ ep.
End Ws.

Arguments Operation {J}.
Arguments conn {J} cb.
Arguments handler cb : clear implicits.
Arguments queued {J} cb.
Arguments out {J} cb.
Arguments service cb : clear implicits.

(** ** Behaviour of the parts *)

Section WsFacts.
Context {J : JsonLib} {cb : Type}.
Context (getLocation : jsstr -> jsstr).
Implicit Types (st : conn cb) (q : queued cb) (h : handler cb) (op : Operation).

(** The frames among the outputs. *)
Definition sends (o : list (out cb)) : list jsstr :=
  omap (fun x => match x with Send f => Some f | _ => None end) o.

Lemma sends_app o1 o2 : sends (o1 ++ o2) = sends o1 ++ sends o2.
Proof. apply omap_app. Qed.

Lemma sends_map_Send (l : list jsstr) : sends (map Send l) = l.
Proof. induction l; simpl; congruence. Qed.

(** With the failure code no handler creates a service or throws. *)
Definition failure_outs (h : handler cb) (msg : jsstr) : list (out cb) :=
  match h with
  | CreateDone _ _ f | RequestDone _ f => call_failure f (CodeNum 500) (Some msg)
  end.

Lemma run_handler_500 st h msg :
  run_handler st h (CodeNum 500) (Some msg) = (st, failure_outs h msg, None).
Proof. by destruct h. Qed.

Lemma run_handler_frame st h c b st' o e :
  run_handler st h c b = (st', o, e) ->
  ready st' = ready st /\ opened st' = opened st /\ doneHandlers st' = doneHandlers st /\
  requestCounter st' = requestCounter st /\ requestQueue st' = requestQueue st /\
  failure st' = failure st /\ sends o = [] /\ (e <> None -> st' = st).
Proof.
  destruct h as [f g k|f k]; cbn [run_handler]; destruct (code_ok c);
    try destruct (created_uri b); intros; simplify_eq; try (by destruct k); try (by destruct f);
    done.
Qed.

Lemma doRequest_queued st q :
  ready st = false ->
  doRequest st q =
    ({| endpoint := endpoint st; ready := false; opened := opened st; services := services st;
        doneHandlers := doneHandlers st; requestCounter := requestCounter st;
        requestQueue := requestQueue st ++ [q]; failure := failure st |}, [], None).
Proof. intros H. unfold doRequest. by rewrite H. Qed.

Lemma doRequests_queued st qs :
  ready st = false ->
  doRequests st qs =
    ({| endpoint := endpoint st; ready := false; opened := opened st; services := services st;
        doneHandlers := doneHandlers st; requestCounter := requestCounter st;
        requestQueue := requestQueue st ++ qs; failure := failure st |}, [], None).
Proof.
  revert st. induction qs as [|q qs IH]; intros st H; cbn [doRequests].
  - rewrite app_nil_r. destruct st; simpl in *. by rewrite H.
  - rewrite doRequest_queued by done. rewrite IH by done. simpl. by rewrite <- app_assoc.
Qed.

(** The state after sending [qs] over an open connection. *)
Fixpoint sent_handlers (n : N) (qs : list (queued cb)) (m : gmap jsstr (handler cb)) :
    gmap jsstr (handler cb) :=
  match qs with
  | [] => m
  | q :: qs' => sent_handlers (n + 1) qs'
                  (match q_doneHandler q with Some h => <[dec_N n := h]> m | None => m end)
  end.

Fixpoint sent_frames (n : N) (qs : list (queued cb)) : list jsstr :=
  match qs with
  | [] => []
  | q :: qs' => request_frame n (q_method q) (q_path q) (q_body q) :: sent_frames (n + 1) qs'
  end.

Lemma doRequests_sent st qs :
  ready st = true -> failure st = None ->
  doRequests st qs =
    ({| endpoint := endpoint st; ready := true; opened := opened st; services := services st;
        doneHandlers := sent_handlers (requestCounter st) qs (doneHandlers st);
        requestCounter := requestCounter st + N.of_nat (length qs);
        requestQueue := requestQueue st; failure := None |},
     map Send (sent_frames (requestCounter st) qs), None).
Proof.
  revert st. induction qs as [|q qs IH]; intros st Hr Hf; cbn [doRequests].
  - simpl. rewrite N.add_0_r. destruct st; simpl in *. by subst.
  - unfold doRequest. rewrite Hr, Hf. cbn [negb]. rewrite IH by done. cbn.
    do 2 f_equal. f_equal. lia.
Qed.

(** Every queued request of a failed connection is told so. *)
Lemma doRequests_failed st qs msg :
  ready st = true -> failure st = Some msg ->
  Forall (fun q => q_doneHandler q <> None) qs ->
  doRequests st qs =
    (st, mjoin (map (fun q => match q_doneHandler q with
                              | Some h => failure_outs h msg | None => [] end) qs), None).
Proof.
  intros Hr Hf Hq. induction Hq as [|q qs Hq Hqs IH]; cbn [doRequests]; [done|].
  unfold doRequest. rewrite Hr, Hf. cbn [negb].
  destruct (q_doneHandler q) as [h|] eqn:E; [|done].
  rewrite run_handler_500, IH. cbn. by rewrite E.
Qed.

Lemma sent_frames_lookup n qs i f :
  sent_frames n qs !! i = Some f -> exists t, f = dec_N (n + N.of_nat i) ++ CR_LF ++ t.
Proof.
  revert n i. induction qs as [|q qs IH]; intros n [|i]; simpl; try done; intros H; simplify_eq.
  - rewrite N.add_0_r. unfold request_frame. eauto.
  - destruct (IH _ _ H) as [t ->]. exists t. do 2 f_equal. lia.
Qed.

Lemma sent_frames_length n qs : length (sent_frames n qs) = length qs.
Proof. revert n. induction qs; intros; simpl; auto. Qed.

Lemma sent_frames_app n (q1 q2 : list (queued cb)) :
  sent_frames n (q1 ++ q2) = sent_frames n q1 ++ sent_frames (n + N.of_nat (length q1)) q2.
Proof.
  revert n. induction q1 as [|q q1 IH]; intros n; simpl; [by rewrite N.add_0_r|].
  rewrite IH. do 3 f_equal. lia.
Qed.

Lemma sent_handlers_app n (q1 q2 : list (queued cb)) m :
  sent_handlers n (q1 ++ q2) m = sent_handlers (n + N.of_nat (length q1)) q2 (sent_handlers n q1 m).
Proof.
  revert n m. induction q1 as [|q q1 IH]; intros n m; simpl; [by rewrite N.add_0_r|].
  rewrite IH. f_equal. lia.
Qed.

Lemma sent_handlers_bound n qs m k h :
  (forall k h, m !! k = Some h -> exists i, (i < n)%N /\ k = dec_N i) ->
  sent_handlers n qs m !! k = Some h -> exists i, (i < n + N.of_nat (length qs))%N /\ k = dec_N i.
Proof.
  revert n m. induction qs as [|q qs IH]; intros n m Hm; simpl.
  - intros H. destruct (Hm _ _ H) as (i & Hi & ->). exists i. split; [lia|done].
  - intros H. eapply IH in H as (i & Hi & ->); [exists i; split; [lia|done]|].
    intros k' h' Hk.
    assert (m !! k' = Some h' \/ k' = dec_N n) as [Hk'| ->].
    { destruct (q_doneHandler q); [|by left]. apply lookup_insert_Some in Hk. naive_solver. }
    + destruct (Hm _ _ Hk') as (i & Hi & ->). exists i. split; [lia|done].
    + exists n. split; [lia|done].
Qed.
End WsFacts.

(** ** The connection as a state machine *)

Section WsSystem.
Context {J : JsonLib} {cb : Type}.
Context (getLocation : jsstr -> jsstr).
Implicit Types (c : conn cb) (op : Operation).

(** A connection, the operations handed to the application, and the
    outputs so far. *)
Record sys := { sys_conn : conn cb; sys_live : list Operation; sys_trace : list (out cb) }.

Definition delivered (o : list (out cb)) : list Operation :=
  omap (fun x => match x with HandleRequest _ op => Some op | _ => None end) o.

Definition advance (s : sys) (r : step_result) : sys :=
  let '(c, o, _) := r in
  {| sys_conn := c; sys_live := sys_live s ++ delivered o; sys_trace := sys_trace s ++ o |}.

(** The events of the browser and the calls of the application.  A message
    needs the handler installed on opening; an operation can only be
    completed once it has been handed out. *)
Inductive ws_step (s : sys) : sys -> Prop :=
  | ws_open : ws_step s (advance s (onopen (sys_conn s)))
  | ws_error : ws_step s (advance s (onerror (sys_conn s)))
  | ws_message data :
      opened (sys_conn s) = true -> ws_step s (advance s (onmessage (sys_conn s) data))
  | ws_create f g k : ws_step s (advance s (createService (sys_conn s) f g k))
  | ws_subscribe sv u f k : ws_step s (advance s (subscribe (sys_conn s) sv u f k))
  | ws_unsubscribe sv u f k : ws_step s (advance s (unsubscribe (sys_conn s) sv u f k))
  | ws_stop sv f k : ws_step s (advance s (stop getLocation (sys_conn s) sv f k))
  | ws_complete op st b :
      op ∈ sys_live s ->
      ws_step s (advance s (complete getLocation (sys_conn s)
        {| op_action := op_action op; op_statusCode := st; op_body := b; op_id := op_id op;
           op_oncompletion := op_oncompletion op |})).

Definition ws_init (ep : jsstr) : sys :=
  {| sys_conn := new_WebSocketConnection ep; sys_live := []; sys_trace := [] |}.

(** What holds in every reachable state. *)
Record ws_inv (s : sys) : Prop := {
  inv_queue : Forall (fun q => q_doneHandler q <> None) (requestQueue (sys_conn s));
  inv_drained : ready (sys_conn s) = true -> requestQueue (sys_conn s) = [];
  inv_fresh : ready (sys_conn s) = false ->
    opened (sys_conn s) = false /\ failure (sys_conn s) = None /\
    doneHandlers (sys_conn s) = ∅ /\ sys_live s = [];
  inv_handlers : forall k h, doneHandlers (sys_conn s) !! k = Some h ->
    exists i, (i < requestCounter (sys_conn s))%N /\ k = dec_N i;
  inv_count : N.of_nat (length (sends (sys_trace s))) = requestCounter (sys_conn s);
  inv_frames : forall i f, sends (sys_trace s) !! i = Some f ->
    exists t, f = dec_N (N.of_nat i) ++ CR_LF ++ t
}.

(** The invariant of the connection and of the trace, kept by a result. *)
Definition keeps (s : sys) (r : step_result) : Prop := ws_inv s -> ws_inv (advance s r).

Lemma ws_inv_init ep : ws_inv (ws_init ep).
Proof. constructor; simpl; try done. Qed.

(** A result that sends nothing and leaves the bookkeeping alone. *)
Lemma keeps_silent s c o e :
  ready c = ready (sys_conn s) ->
  requestQueue c = requestQueue (sys_conn s) -> requestCounter c = requestCounter (sys_conn s) ->
  (forall k h, doneHandlers c !! k = Some h -> doneHandlers (sys_conn s) !! k = Some h) ->
  (ready c = false -> ws_inv s -> opened c = false /\ failure c = None /\ delivered o = []) ->
  sends o = [] -> keeps s (c, o, e).
Proof.
  intros Hr Hq Hn Hh Hf Hs Hi. pose proof Hi as [I1 I2 I3 I4 I5 I6].
  constructor; simpl; rewrite ?Hr, ?Hq, ?Hn, ?sends_app, ?Hs, ?app_nil_r; auto.
  - intros Hr'. destruct (I3 Hr') as (A & B & C & D). rewrite Hr in Hf.
    destruct (Hf Hr' Hi) as (Hoc & Hfc & Hd). rewrite Hd, D. split_and!; try done.
    apply map_empty. intros k. destruct (doneHandlers c !! k) eqn:E; [|done].
    apply Hh in E. by rewrite C in E.
  - eauto.
Qed.

(** One request made through the API. *)
Lemma keeps_doRequest s q :
  (q_doneHandler q <> None \/ ready (sys_conn s) = true) -> keeps s (doRequest (sys_conn s) q).
Proof.
  intros Hq Hi. destruct (ready (sys_conn s)) eqn:Er.
  - destruct (failure (sys_conn s)) as [msg|] eqn:Ef.
    + unfold doRequest. rewrite Er, Ef. cbn [negb].
      destruct (q_doneHandler q) as [h|]; [rewrite run_handler_500|];
        apply keeps_silent; simpl; try done; try (rewrite Er; done).
      destruct h; simpl; by destruct onFailure.
    + pose proof (doRequests_sent (sys_conn s) [q] Er Ef) as H. cbn [doRequests] in H.
      unfold doRequest in *. rewrite Er, Ef in *. cbn [negb] in *.
      destruct Hi as [I1 I2 I3 I4 I5 I6]. constructor; simpl; auto; try done.
      * intros k h. destruct (q_doneHandler q) as [h'|];
          [rewrite lookup_insert_Some; intros [[<- _]|[_ Hk]] | intros Hk].
        -- exists (requestCounter (sys_conn s)). split; [lia|done].
        -- destruct (I4 _ _ Hk) as (i & Hi & ->). exists i. split; [lia|done].
        -- destruct (I4 _ _ Hk) as (i & Hi & ->). exists i. split; [lia|done].
      * rewrite sends_app, length_app. simpl. lia.
      * intros i f. rewrite sends_app. simpl. intros [Hl|[Hl Hf]]%lookup_app_Some; [eauto|].
        apply list_lookup_singleton_Some in Hf as [Hz <-].
        assert (N.of_nat i = requestCounter (sys_conn s)) as -> by lia.
        unfold request_frame. eauto.
  - destruct Hq as [Hq|]; [|congruence]. rewrite doRequest_queued by done.
    destruct Hi as [I1 I2 I3 I4 I5 I6]. destruct (I3 Er) as (A & B & C & D).
    constructor; simpl; auto; try done; rewrite ?sends_app, ?app_nil_r; auto.
    apply Forall_app. by split; [|constructor].
Qed.

(** Draining the queue on an open connection. *)
Lemma keeps_open s : keeps s (onopen (sys_conn s)).
Proof.
  intros Hi. unfold onopen, flush. simpl. destruct (ready (sys_conn s)) eqn:Er.
  - revert Hi. apply keeps_silent; simpl; auto; congruence.
  - destruct Hi as [I1 I2 I3 I4 I5 I6]. destruct (I3 Er) as (A & B & C & D).
    rewrite doRequests_sent by done. simpl.
    constructor; simpl; try done; try (by constructor).
    + intros k h Hk. by eapply sent_handlers_bound.
    + rewrite sends_app, length_app, sends_map_Send, sent_frames_length. lia.
    + intros i f. rewrite sends_app, sends_map_Send. intros [Hl|[Hl Hf]]%lookup_app_Some; [eauto|].
      apply sent_frames_lookup in Hf as [t ->]. exists t. do 2 f_equal. lia.
Qed.

Lemma failure_outs_quiet (h : handler cb) msg :
  sends (failure_outs h msg) = [] /\ delivered (failure_outs h msg) = [].
Proof. destruct h as [f g k|f k]; by destruct k. Qed.

Lemma failures_quiet (qs : list (queued cb)) msg :
  let o := mjoin (map (fun q => match q_doneHandler q with
                                | Some h => failure_outs h msg | None => [] end) qs) in
  sends o = [] /\ delivered o = [].
Proof.
  induction qs as [|q qs [IH1 IH2]]; simpl; [done|]. unfold delivered in *.
  rewrite sends_app, omap_app, IH1, IH2. destruct (q_doneHandler q) as [h|]; [|done].
  destruct (failure_outs_quiet h msg) as [-> H]. unfold delivered in H. by rewrite H.
Qed.

(** A failing connection answers its queue. *)
Lemma keeps_error s : keeps s (onerror (sys_conn s)).
Proof.
  intros Hi. unfold onerror, flush. simpl. destruct (ready (sys_conn s)) eqn:Er.
  - revert Hi. apply keeps_silent; simpl; auto; congruence.
  - destruct Hi as [I1 I2 I3 I4 I5 I6]. destruct (I3 Er) as (A & B & C & D).
    erewrite doRequests_failed by (simpl; done || exact I1).
    destruct (failures_quiet (requestQueue (sys_conn s))
      ("Failed to establish a websocket connection to " ++ endpoint (sys_conn s))) as [Hs Hd].
    constructor; simpl; try done; try (by constructor); rewrite ?sends_app, ?Hs, ?app_nil_r; auto.
Qed.

Lemma keeps_message s data :
  opened (sys_conn s) = true -> keeps s (onmessage (sys_conn s) data).
Proof.
  intros Ho Hi.
  assert (ready (sys_conn s) = true) as Hr.
  { destruct (ready (sys_conn s)) eqn:Er; [done|]. destruct (inv_fresh _ Hi Er). congruence. }
  revert Hi. unfold onmessage, onmessage_post, onmessage_response.
  repeat case_match; simplify_eq; try (apply keeps_silent; simpl; auto; congruence).
  - match goal with H : run_handler _ _ _ _ = _ |- _ =>
      apply run_handler_frame in H as (F1 & F2 & F3 & F4 & F5 & F6 & F7 & F8) end.
    apply keeps_silent; simpl; auto; try congruence.
  - match goal with H : run_handler _ _ _ _ = _ |- _ =>
      apply run_handler_frame in H as (F1 & F2 & F3 & F4 & F5 & F6 & F7 & F8) end.
    apply keeps_silent; simpl; auto; try congruence.
    intros k' h'. rewrite F3. intros [_ ?]%lookup_delete_Some. done.
Qed.

Lemma ws_step_inv s s' : ws_inv s -> ws_step s s' -> ws_inv s'.
Proof.
  intros Hi Hs. destruct Hs.
  - by apply keeps_open.
  - by apply keeps_error.
  - by apply keeps_message.
  - apply keeps_doRequest; [by left|done].
  - apply keeps_doRequest; [by left|done].
  - apply keeps_doRequest; [by left|done].
  - apply keeps_doRequest; [by left|done].
  - unfold complete. simpl. destruct (op_oncompletion op); [|by revert Hi; apply keeps_silent; simpl; auto;
      intros Hr Hi; destruct (inv_fresh _ Hi Hr) as (? & ? & ? & ?)].
    apply keeps_doRequest; [|done]. right.
    destruct (ready (sys_conn s)) eqn:Er; [done|].
    destruct (inv_fresh _ Hi Er) as (_ & _ & _ & Hl). rewrite Hl in *. set_solver.
Qed.

Lemma ws_reachable_inv ep s : star ws_step (ws_init ep) s -> ws_inv s.
Proof. intros H. eapply star_invariant; eauto using ws_step_inv, ws_inv_init. Qed.
End WsSystem.

(** ** Parsing of frames *)

Section WsFrames.
Context {J : JsonLib} {cb : Type}.
Implicit Types (st : conn cb).

Lemma crlf_of_app a b : 13%N ∉ a -> crlf_of (a ++ CR_LF ++ b) = Z.of_nat (length a).
Proof.
  intros Ha. unfold crlf_of, indexOf. unfold CR_LF. rewrite find_sub_first by done.
  destruct (Z.ltb_spec (Z.of_nat (length a)) 0); lia.
Qed.

Lemma body_of_app a b : 13%N ∉ a -> body_of (a ++ CR_LF ++ b) = Some b.
Proof.
  intros Ha. unfold body_of. rewrite (crlf_of_app a b Ha).
  assert ((Z.of_nat (length a) =? Z.of_nat (length (a ++ CR_LF ++ b)))%Z = false) as ->.
  { apply Z.eqb_neq. rewrite !length_app. simpl. lia. }
  unfold substr_from. do 2 f_equal.
  replace (Z.to_nat (Z.of_nat (length a) + 2)) with (length a + 2) by lia.
  rewrite <- drop_drop, drop_app_length. done.
Qed.

Lemma digits_no c n : is_digit c = false -> c ∉ dec_N n.
Proof.
  intros Hc Hin. pose proof (dec_N_digits n) as H.
  rewrite (list.Forall_forall _ (dec_N n)) in H. apply H in Hin. congruence.
Qed.

(** The fields of a status line. *)
Lemma response_fields (c b : jsstr) (id : N) :
  13%N ∉ c -> 32%N ∉ c ->
  let data := c ++ " " ++ dec_N id ++ CR_LF ++ b in
  indexOf data " " = Z.of_nat (length c) /\
  substr data 0 (indexOf data " ") = c /\
  substr data (indexOf data " " + 1) (crlf_of data - indexOf data " " - 1) = dec_N id /\
  body_of data = Some b.
Proof.
  intros Hr Hs data.
  assert (js " " = [32%N]) as Hsp by reflexivity.
  assert (indexOf data " " = Z.of_nat (length c)) as Hi.
  { unfold indexOf, data. by rewrite Hsp, find_sub_first. }
  assert (data = (c ++ " " ++ dec_N id) ++ CR_LF ++ b) as Hd by (unfold data; by rewrite <- !app_assoc).
  assert (13%N ∉ c ++ " " ++ dec_N id) as Hn.
  { rewrite Hsp, !not_elem_of_app. split_and!; [done|set_solver|by apply digits_no]. }
  rewrite Hi. split_and!; [done| | |rewrite Hd; by apply body_of_app].
  - unfold substr, data. change (Z.to_nat 0) with 0. rewrite drop_0, Nat2Z.id. apply take_app_length.
  - rewrite Hd at 2. rewrite crlf_of_app by done. unfold substr, data.
    rewrite !length_app, Hsp. simpl length.
    replace (Z.to_nat (Z.of_nat (length c) + 1)) with (length (c ++ [32%N]))
      by (rewrite length_app; simpl; lia).
    rewrite (app_assoc c), drop_app_length.
    replace (Z.to_nat _) with (length (dec_N id)) by lia.
    by rewrite take_app_length.
Qed.

(** A response, with or without a body. *)
Definition response_text (c : jsstr) (id : N) (body : option jsstr) : jsstr :=
  c ++ " " ++ dec_N id ++ match body with Some b => CR_LF ++ b | None => [] end.

Lemma response_parts (c : jsstr) (id : N) (body : option jsstr) :
  13%N ∉ c -> 32%N ∉ c ->
  let data := response_text c id body in
  indexOf data " " = Z.of_nat (length c) /\
  substr data 0 (indexOf data " ") = c /\
  substr data (indexOf data " " + 1) (crlf_of data - indexOf data " " - 1) = dec_N id /\
  body_of data = body.
Proof.
  intros Hr Hs. unfold response_text. destruct body as [b|]; [by apply response_fields|]. rewrite app_nil_r.
  change (js " ") with [32%N]. cbn zeta.
  assert (indexOf (c ++ [32%N] ++ dec_N id) [32%N] = Z.of_nat (length c)) as Hi by (unfold indexOf; by rewrite find_sub_first).
  assert (13%N ∉ c ++ [32%N] ++ dec_N id) as Hcr.
  { rewrite !not_elem_of_app. split_and!; [done|set_solver|by apply digits_no]. }
  assert (crlf_of (c ++ [32%N] ++ dec_N id) = Z.of_nat (length (c ++ [32%N] ++ dec_N id))) as Hc.
  { unfold crlf_of, indexOf, CR_LF. by rewrite (find_sub_absent 13 [10%N]). }
  rewrite Hi. split_and!; [done| | |unfold body_of; by rewrite Hc, Z.eqb_refl].
  - unfold substr. change (Z.to_nat 0) with 0. rewrite drop_0, Nat2Z.id. apply take_app_length.
  - rewrite Hc. unfold substr. rewrite !length_app.
    replace (Z.to_nat (Z.of_nat (length c) + 1)) with (length (c ++ [32%N])) by (rewrite length_app; simpl; lia).
    rewrite (app_assoc c), drop_app_length.
    replace (Z.to_nat _) with (length (dec_N id)) by (simpl; lia). by rewrite firstn_all.
Qed.

Lemma find_sub_0 s p : indexOf s p = 0%Z -> startsWith s p = true.
Proof.
  unfold indexOf. destruct (find_sub s p) as [i|] eqn:E; [|done]. intros Hi.
  apply find_sub_Some in E as (a & b & -> & Hl).
  assert (a = []) as -> by (destruct a; [done|simpl in Hl; lia]). apply (startsWith_app p b).
Qed.

Lemma onmessage_is_response st data :
  startsWith data POST = false -> onmessage st data = onmessage_response st data.
Proof.
  intros H. unfold onmessage. destruct (Z.eqb_spec (indexOf data POST) 0) as [E|]; [|done].
  apply find_sub_0 in E. congruence.
Qed.

Lemma onmessage_is_post st t : onmessage st (POST ++ t) = onmessage_post st (POST ++ t).
Proof.
  unfold onmessage. assert (indexOf (POST ++ t) POST = 0%Z) as ->; [|done].
  unfold indexOf. destruct (POST ++ t) eqn:E; [done|]. cbn [find_sub].
  by rewrite <- E, startsWith_app.
Qed.

(** The uri of a POST frame. *)
Lemma post_uri uri b :
  13%N ∉ uri ->
  let data := POST ++ " " ++ uri ++ CR_LF ++ b in
  substr data 5 (crlf_of data - 5) = uri /\ body_of data = Some b.
Proof.
  intros Hu data.
  assert (POST ++ js " " = [80; 79; 83; 84; 32]%N) as Hp by reflexivity.
  assert (data = ([80; 79; 83; 84; 32]%N ++ uri) ++ CR_LF ++ b) as Hd.
  { unfold data. rewrite (app_assoc POST), Hp. by rewrite <- app_assoc. }
  assert (13%N ∉ [80; 79; 83; 84; 32]%N ++ uri) as Hn.
  { apply not_elem_of_app. split; [|done]. rewrite !not_elem_of_cons. split_and!; try lia. set_solver. }
  split; [|rewrite Hd; by apply body_of_app].
  rewrite Hd at 2. rewrite crlf_of_app, length_app by done. unfold substr.
  rewrite Hd, <- app_assoc. change (Z.to_nat 5) with (length [80; 79; 83; 84; 32]%N).
  rewrite drop_app_length. replace (Z.to_nat _) with (length uri) by (simpl; lia).
  by rewrite take_app_length.
Qed.
End WsFrames.

(** ** Properties *)

Section WsProperties.
Context {J : JsonLib} {cb : Type}.
Context (getLocation : jsstr -> jsstr).
Implicit Types (st : conn cb) (op : Operation).

(** C1: in every state reachable by any interleaving of socket events and API
    calls, the queue is empty once the connection is ready and every queued
    request has a completion handler, the pending handlers are filed under
    ids already issued, and the frames sent carry the ids 0, 1, 2, ... in
    the order they were sent, as many as the request counter says. *)
Theorem ws_reachable_wf ep (s : sys (cb := cb)) :
  star (ws_step getLocation) (ws_init ep) s ->
  (ready (sys_conn s) = true -> requestQueue (sys_conn s) = []) /\
  Forall (fun q => q_doneHandler q <> None) (requestQueue (sys_conn s)) /\
  (forall k h, doneHandlers (sys_conn s) !! k = Some h ->
     exists i, (i < requestCounter (sys_conn s))%N /\ k = dec_N i) /\
  N.of_nat (length (sends (sys_trace s))) = requestCounter (sys_conn s) /\
  (forall i f, sends (sys_trace s) !! i = Some f ->
     exists t, f = dec_N (N.of_nat i) ++ CR_LF ++ t).
Proof. intros []%ws_reachable_inv. eauto 10. Qed.

(** C2: requests made before the connection opens are sent, in order, with
    the same ids and handlers, as if they had been made after it opened. *)
Theorem open_then_requests st (qs : list (queued cb)) :
  ready st = false -> failure st = None ->
  onopen (doRequests st qs).1.1 =
    let '(st1, o1, e1) := onopen st in
    let '(st2, o2, e2) := doRequests st1 qs in (st2, o1 ++ o2, e2).
Proof.
  intros Hr Hf. rewrite (doRequests_queued st qs Hr). unfold onopen, flush. simpl. rewrite Hr.
  rewrite !doRequests_sent by done. cbn.
  unfold clear_queue. simpl.
  by rewrite <- map_app, <- sent_frames_app, <- sent_handlers_app, length_app, Nat2N.inj_add, N.add_assoc.
Qed.

(** C3: when the connection fails before it opened, every queued request is
    answered once, in order, with status 500 and the failure text; nothing
    is sent, no exception escapes and the queue is empty. *)
Theorem error_answers_queue st :
  ready st = false ->
  Forall (fun q => q_doneHandler q <> None) (requestQueue st) ->
  exists st',
    onerror st =
      (st', mjoin (map (fun q => match q_doneHandler q with
         | Some h => failure_outs h
             ("Failed to establish a websocket connection to " ++ endpoint st)
         | None => [] end) (requestQueue st)), None) /\
    requestQueue st' = [] /\ ready st' = true.
Proof.
  intros Hr Hq. unfold onerror, flush. simpl. rewrite Hr.
  erewrite doRequests_failed by (simpl; done). simpl. eauto.
Qed.


(** The operation a POST frame carries. *)
Definition posted_op (fs : list (jsstr * json jnum)) (body : json jnum) (uri : jsstr) : Operation :=
  {| op_action := obj_get fs "action"; op_statusCode := 200; op_body := Some body;
     op_id := obj_get fs "id"; op_oncompletion := Some uri |}.

Lemma post_delivered st (uri txt : jsstr) fs bodyTxt body s :
  13%N ∉ uri -> services st !! uri = Some s -> json_parse txt = Some (JObj fs) ->
  obj_get fs "jsonBody" = Some (JStr bodyTxt) -> json_parse bodyTxt = Some body ->
  onmessage_post st (POST ++ " " ++ uri ++ CR_LF ++ txt)
  = (st, [HandleRequest (sv_handleRequest s) (posted_op fs body uri)], None).
Proof.
  intros Hu Hs Hp Hb Hpb. destruct (post_uri uri txt Hu) as [Huri Hbody].
  unfold onmessage_post. rewrite Huri, Hbody. unfold parse_text. rewrite Hp. rewrite Hs. unfold op_of. simpl. rewrite Hb. simpl.
  unfold parse_text. by rewrite Hpb.
Qed.

(** C5: a POST frame for a registered service hands its operation to the
    service's request handler; completing that operation sends one REPLY
    frame to the service's location with the operation's own id, status
    200 and the body as JSON text. *)
Theorem post_then_reply st (uri txt : jsstr) fs bodyTxt body s :
  13%N ∉ uri -> ready st = true -> failure st = None ->
  services st !! uri = Some s ->
  json_parse txt = Some (JObj fs) ->
  obj_get fs "jsonBody" = Some (JStr bodyTxt) -> json_parse bodyTxt = Some body ->
  exists op,
    onmessage st (POST ++ " " ++ uri ++ CR_LF ++ txt)
      = (st, [HandleRequest (sv_handleRequest s) op], None) /\
    op_id op = obj_get fs "id" /\ op_action op = obj_get fs "action" /\ op_body op = Some body /\
    (complete getLocation st op).1.2 =
      [Send (request_frame (requestCounter st) REPLY (getLocation uri)
         (Some (JObj (match obj_get fs "id" with Some v => [(js "id", v)] | None => [] end
            ++ [(js "responseHeaders", JObj []); (js "statusCode", JNum (jnum_of_Z 200));
                (js "responseJsonBody", JStr (json_stringify body))]))))].
Proof.
  intros Hu Hr Hf Hs Hp Hb Hpb. exists (posted_op fs body uri).
  rewrite onmessage_is_post, (post_delivered st uri txt fs bodyTxt body s) by done. split_and!; try done.
  unfold complete, doRequest. simpl. by rewrite Hr, Hf.
Qed.

(** once the connection has failed, completing an operation throws a
    TypeError instead of sending: the reply has no completion handler for
    the failure to be reported to. *)
Theorem complete_after_failure_throws st op uri msg :
  ready st = true -> failure st = Some msg -> op_oncompletion op = Some uri ->
  complete getLocation st op = (st, [], Some TypeError).
Proof.
  intros Hr Hf Ho. unfold complete, doRequest. rewrite Ho. simpl. by rewrite Hr, Hf.
Qed.

(** failing an operation with an exception only sends the same reply
    whatever the exception is, and that reply has no response body. *)
Theorem fail_drops_exception st op (e1 e2 : option (json jnum)) :
  fail getLocation st op e1 None = fail getLocation st op e2 None /\
  forall fs, reply_body {| op_action := op_action op; op_statusCode := 500; op_body := None;
                           op_id := op_id op; op_oncompletion := op_oncompletion op |} = JObj fs ->
    obj_get fs "responseJsonBody" = None.
Proof.
  split; [done|]. unfold reply_body. simpl. intros fs [= <-]. destruct (op_id op); reflexivity.
Qed.
End WsProperties.

(** ** Witnesses *)

Section WsWitnesses.
(** A JSON library that knows the two texts the examples use. *)
#[local] Instance demo_json : JsonLib := {|
  jnum := Z; jnum_of_Z := fun z => z;
  json_parse := fun s =>
    if s === "{op}" then Some (JObj [(js "id", JNum 7%Z); (js "action", JStr "PATCH"); (js "jsonBody", JStr "1")])
    else if s === "1" then Some (JNum 1%Z) else None;
  json_stringify := fun _ => js "{}";
  json_toString := fun _ => js "x"
|}.

Let st0 : conn nat := new_WebSocketConnection "/core/ws-endpoint".
Let q1 : queued nat := {| q_method := POST; q_path := WS_SERVICE_PATH; q_body := None;
                          q_doneHandler := Some (CreateDone 1 2 (Some 3)) |}.
Let st1 : conn nat := (onopen st0).1.1.
Let st2 : conn nat := (subscribe st1 {| sv_uri := js "/s"; sv_handleRequest := 1 |} "/core/examples/subscriptions"
                         (Some 4) None).1.1.
Let st3 : conn nat :=
  set_services st1 {[ js "/s" := {| sv_uri := js "/s"; sv_handleRequest := 9 |} ]}.

Lemma ws_reachable_wf_witness :
  let s := advance (advance (ws_init (cb := nat) "/e") (createService (sys_conn (ws_init "/e")) 1 2 None))
             (onopen (createService (sys_conn (ws_init "/e")) 1 2 None).1.1) in
  sends (sys_trace s) = [dec_N 0 ++ CR_LF ++ POST ++ " " ++ WS_SERVICE_PATH] /\
  (ready (sys_conn s) = true -> requestQueue (sys_conn s) = []).
Proof.
  intros s. split; [vm_compute; reflexivity|].
  refine (proj1 (ws_reachable_wf (fun x => x) "/e" s _)).
  eapply star_snoc; [eapply star_snoc; [apply star_refl|]|].
  - apply (ws_create _ (ws_init "/e") 1 2 None).
  - apply (ws_open _ (advance (ws_init "/e") (createService (sys_conn (ws_init "/e")) 1 2 None))).
Defined.

Lemma open_then_requests_witness :
  ready st0 = false /\
  onopen (doRequests st0 [q1]).1.1 =
    (let '(st1, o1, e1) := onopen st0 in
     let '(st2, o2, e2) := doRequests st1 [q1] in (st2, o1 ++ o2, e2)).
Proof. split; [reflexivity|]. apply (open_then_requests st0 [q1]); reflexivity. Defined.

Lemma error_answers_queue_witness :
  exists st', onerror (doRequest st0 q1).1.1 =
    (st', [Failure 3 (CodeNum 500)
             (Some ("Failed to establish a websocket connection to " ++ "/core/ws-endpoint"))], None).
Proof.
  destruct (error_answers_queue (doRequest st0 q1).1.1) as (st' & H & _).
  - reflexivity.
  - by repeat constructor.
  - by exists st'.
Defined.


Lemma post_then_reply_witness :
  exists op, onmessage st3 (POST ++ " " ++ "/s" ++ CR_LF ++ "{op}") = (st3, [HandleRequest 9 op], None) /\
    op_id op = Some (JNum 7%Z).
Proof.
  destruct (post_then_reply (fun x => x) st3 "/s" "{op}"
    [(js "id", JNum 7%Z); (js "action", JStr "PATCH"); (js "jsonBody", JStr "1")] "1" (JNum 1%Z)
    {| sv_uri := js "/s"; sv_handleRequest := 9 |}) as (op & H1 & H2 & _); try reflexivity.
  - vm_compute. set_solver.
  - exists op. split; [exact H1|exact H2].
Defined.

Lemma complete_after_failure_throws_witness :
  let st := (onerror st3).1.1 in
  complete (fun x => x) st {| op_action := None; op_statusCode := 200; op_body := None; op_id := None;
                              op_oncompletion := Some (js "/s") |} = (st, [], Some TypeError).
Proof.
  intros st. eapply complete_after_failure_throws; reflexivity.
Defined.
End WsWitnesses.
