(* ===== verification/WsConversation.v ===== *)
(** * A conversation of the WebSocket library with a node

    The connection of WsService, the frames under way to the node, and the
    answers under way back.  The node is a parameter: it gives at most one
    answer to a frame, with a status line "status id" that repeats the id of
    the frame, and always one to a request that is not a reply; it serves the
    frames in any order, and posts operations to services whenever it likes.
    This is what the comment of NettyWebSocketRequestHandler.java documents. *)

#[local] Set Warnings "-register-all".
From S2P Require Import Prelude JsString JsNumber WsService.

Section Conversation.
Context {J : JsonLib} {cb : Type}.
Context (getLocation : jsstr -> jsstr).
Implicit Types (q : queued cb) (h : handler cb) (c : conn cb).

(** The status and the body of the answer to a frame, if there is one. *)
Context (node : jsstr -> option (jsstr * option jsstr)).

(** The id of a frame: the text before its first line break. *)
Definition frame_id (f : jsstr) : jsstr := take (Z.to_nat (crlf_of f)) f.

Definition answer_text (f : jsstr) (a : jsstr * option jsstr) : jsstr :=
  a.1 ++ " " ++ frame_id f ++ match a.2 with Some b => CR_LF ++ b | None => [] end.

Definition numeric_status (s : jsstr) : Prop := s <> [] /\ Forall (fun u => is_digit u = true) s.

(** What a node promises: a numeric status; an answer to every POST and DELETE;
    a body with the uri when it has created a service. *)
Class NodeSpec := {
  node_status f a : node f = Some a -> numeric_status a.1;
  node_answers id m p b : m = POST \/ m = DELETE -> node (request_frame id m p b) <> None;
  node_creates id a : node (request_frame id POST WS_SERVICE_PATH None) = Some a ->
    code_ok (CodeStr a.1) = true -> exists u, created_uri a.2 = Ret u
}.

(** The requests of the API, each with the function that makes it. *)
Inductive api (s : sys (cb := cb)) : queued cb -> step_result (cb := cb) -> Prop :=
  | api_create f g k :
      api s {| q_method := POST; q_path := WS_SERVICE_PATH; q_body := None; q_doneHandler := Some (CreateDone f g k) |}
        (createService (sys_conn s) f g k)
  | api_subscribe sv u f k :
      api s {| q_method := POST; q_path := u;
               q_body := Some (JObj [(js "reference", JStr (sv_uri sv)); (js "replayState", JBool true)]);
               q_doneHandler := Some (RequestDone f k) |}
        (subscribe (sys_conn s) sv u f k)
  | api_unsubscribe sv u f k :
      api s {| q_method := DELETE; q_path := u; q_body := Some (JObj [(js "reference", JStr (sv_uri sv))]);
               q_doneHandler := Some (RequestDone f k) |}
        (unsubscribe (sys_conn s) sv u f k)
  | api_stop sv f k :
      api s {| q_method := DELETE; q_path := getLocation (sv_uri sv); q_body := None;
               q_doneHandler := Some (RequestDone f k) |}
        (stop getLocation (sys_conn s) sv f k)
  | api_complete op u st b :
      op ∈ sys_live s -> op_oncompletion op = Some u ->
      let op := {| op_action := op_action op; op_statusCode := st; op_body := b; op_id := op_id op;
                   op_oncompletion := op_oncompletion op |} in
      api s {| q_method := REPLY; q_path := getLocation u; q_body := Some (reply_body op); q_doneHandler := None |}
        (complete getLocation (sys_conn s) op).

(** The page with its connection, the requests it has made so far, and the two
    directions of the socket. *)
Record talk := { page : sys (cb := cb); calls : list (queued cb); up : list jsstr; down : list jsstr }.

Definition after (t : talk) (new : list (queued cb)) (r : step_result (cb := cb)) (down' : list jsstr) : talk :=
  {| page := advance (page t) r; calls := calls t ++ new; up := up t ++ sends r.1.2; down := down' |}.

(** What happens without the page doing anything: the node takes a frame and
    answers it, or an answer arrives. *)
Inductive quiet_step (t : talk) : talk -> Prop :=
  | node_serves u1 f u2 :
      up t = u1 ++ f :: u2 ->
      quiet_step t {| page := page t; calls := calls t; up := u1 ++ u2;
                      down := down t ++ match node f with Some a => [answer_text f a] | None => [] end |}
  | page_receives f d :
      opened (sys_conn (page t)) = true -> down t = f :: d ->
      quiet_step t (after t [] (onmessage (sys_conn (page t)) f) d).

Inductive talk_step (t : talk) : talk -> Prop :=
  | socket_opens :
      opened (sys_conn (page t)) = false -> talk_step t (after t [] (onopen (sys_conn (page t))) (down t))
  | page_calls q r : api (page t) q r -> talk_step t (after t [q] r (down t))
  | node_posts f :
      startsWith f POST = true ->
      talk_step t {| page := page t; calls := calls t; up := up t; down := down t ++ [f] |}
  | quietly t' : quiet_step t t' -> talk_step t t'.

Definition talk_init (ep : jsstr) : talk := {| page := ws_init ep; calls := []; up := []; down := [] |}.

(** ** What a call gets *)

Definition frame_of (i : nat) (q : queued cb) : jsstr :=
  request_frame (N.of_nat i) (q_method q) (q_path q) (q_body q).

(** The outputs of a completion handler, which do not depend on the connection. *)
Definition handler_outs (h : handler cb) (c : code) (b : option jsstr) : list (out cb) :=
  (run_handler (new_WebSocketConnection []) h c b).1.2.

(** What the page is told about its request number [i]: what its handler does
    with the answer of the node. *)
Definition told (i : nat) (q : queued cb) : list (out cb) :=
  match q_doneHandler q, node (frame_of i q) with
  | Some h, Some a => handler_outs h (CodeStr a.1) a.2
  | _, _ => []
  end.
Definition told_at (qs : list (queued cb)) (i : nat) : list (out cb) :=
  match qs !! i with Some q => told i q | None => [] end.

(** The outputs that tell the page about its own requests. *)
Definition tells (o : out cb) : bool := match o with Send _ | HandleRequest _ _ => false | _ => true end.

(** ** The invariant *)

(** [sent]: the requests sent, each under its index; [ui], [di]: the requests
    whose frame or answer is under way; [got]: those answered, in order. *)
Record talk_inv (t : talk) (sent : list (queued cb)) (ui di got : list nat) : Prop := {
  ti_ws : ws_inv (page t);
  ti_alive : failure (sys_conn (page t)) = None;
  ti_calls : calls t = sent ++ requestQueue (sys_conn (page t));
  ti_shape : Forall (fun q => q_doneHandler q <> None -> (q_method q = POST \/ q_method q = DELETE)) (calls t);
  ti_create : Forall (fun q => forall f g k, q_doneHandler q = Some (CreateDone f g k) ->
                q_method q = POST /\ q_path q = WS_SERVICE_PATH /\ q_body q = None) (calls t);
  ti_count : requestCounter (sys_conn (page t)) = N.of_nat (length sent);
  ti_opened : ready (sys_conn (page t)) = true -> opened (sys_conn (page t)) = true;
  ti_ids : NoDup (ui ++ di ++ got) /\ Forall (fun i => i < length sent) (ui ++ di ++ got);
  ti_up : up t = map (fun i => match sent !! i with Some q => frame_of i q | None => [] end) ui;
  ti_down : List.filter (fun f => negb (startsWith f POST)) (down t)
            = map (fun i => match sent !! i with
                            | Some q => match node (frame_of i q) with
                                        | Some a => answer_text (frame_of i q) a
                                        | None => []
                                        end
                            | None => []
                            end) di;
  ti_answers : Forall (fun i => forall q, sent !! i = Some q -> node (frame_of i q) <> None) di;
  ti_handlers : forall k h, doneHandlers (sys_conn (page t)) !! k = Some h <->
    exists i q, k = dec_N (N.of_nat i) /\ sent !! i = Some q /\ q_doneHandler q = Some h /\ (i ∉ got);
  ti_waiting : forall i q, sent !! i = Some q -> q_doneHandler q <> None -> i ∈ ui ++ di ++ got;
  ti_told : List.filter tells (sys_trace (page t)) = flat_map (told_at sent) got
}.

(** *** Frames and answers *)

Lemma frame_id_of i q : frame_id (frame_of i q) = dec_N (N.of_nat i).
Proof.
  unfold frame_id, frame_of, request_frame. rewrite crlf_of_app by (by apply digits_no).
  by rewrite Nat2Z.id, take_app_length.
Qed.

Lemma numeric_no s u : numeric_status s -> is_digit u = false -> u ∉ s.
Proof. intros [_ Hs] Hu Hin. rewrite list.Forall_forall in Hs. apply Hs in Hin. congruence. Qed.

Lemma answer_not_post f a : numeric_status a.1 -> startsWith (answer_text f a) POST = false.
Proof.
  intros [Hne Hs]. unfold answer_text. destruct a.1 as [|u s]; [done|]. apply list.Forall_cons in Hs as [Hu _].
  apply not_true_is_false. intros H. apply startsWith_iff in H as [r Hr].
  change (js "POST") with ([80; 79; 83; 84]%N) in Hr. unfold POST in Hr. cbn in Hr. injection Hr as Hr _.
  rewrite Hr in Hu. vm_compute in Hu. done.
Qed.

(** The parts of an answer, as [onmessage] takes it apart. *)
Lemma answer_parts f a id :
  numeric_status a.1 -> frame_id f = dec_N id ->
  let data := answer_text f a in
  indexOf data " " = Z.of_nat (length a.1)
  /\ substr data 0 (Z.of_nat (length a.1)) = a.1
  /\ substr data (Z.of_nat (length a.1) + 1) (crlf_of data - Z.of_nat (length a.1) - 1) = dec_N id
  /\ body_of data = a.2.
Proof.
  intros Hn Hid data. unfold data, answer_text. rewrite Hid.
  destruct (response_parts a.1 id a.2) as (Hi & Hc & Hr & Hb); [by apply (numeric_no a.1)..|].
  rewrite Hi in Hc, Hr. unfold response_text in *. by destruct a as [s [b|]].
Qed.

Lemma answer_handled c f a id :
  numeric_status a.1 -> frame_id f = dec_N id ->
  onmessage c (answer_text f a)
  = match doneHandlers c !! dec_N id with
    | None => (c, [], None)
    | Some h => match run_handler c h (CodeStr a.1) a.2 with
                | (c', o, None) => (set_handlers c' (delete (dec_N id) (doneHandlers c')), o, None)
                | r => r
                end
    end.
Proof.
  intros Hn Hid. rewrite onmessage_is_response by (by apply answer_not_post).
  destruct (answer_parts f a id Hn Hid) as (H1 & H2 & H3 & H4). unfold onmessage_response.
  rewrite H1, H2, H3, H4. assert ((Z.of_nat (length a.1) <? 0)%Z = false) as -> by (apply Z.ltb_ge; lia). done.
Qed.

Lemma handler_outs_eq c h s b : (run_handler c h s b).1.2 = handler_outs h s b.
Proof. unfold handler_outs. destruct h; cbn; destruct (code_ok s); try done. by destruct (created_uri b). Qed.

Lemma handler_outs_tell h s b : List.filter tells (handler_outs h s b) = handler_outs h s b.
Proof.
  unfold handler_outs. destruct h as [f g k|f k]; cbn; destruct (code_ok s); try destruct (created_uri b);
    try destruct k; try destruct f; done.
Qed.

(** *** Requests that are sent *)

Lemma sent_handlers_lookup n (qs : list (queued cb)) m k h :
  (forall k h, m !! k = Some h -> exists i, (i < n)%N /\ k = dec_N i) ->
  sent_handlers n qs m !! k = Some h <->
  m !! k = Some h \/ exists j q, k = dec_N (n + N.of_nat j) /\ qs !! j = Some q /\ q_doneHandler q = Some h.
Proof.
  revert n m. induction qs as [|q qs IH]; intros n m Hm; cbn [sent_handlers].
  { split; [by left|]. intros [?|(j & q & _ & Hq & _)]; [done|]. by destruct j. }
  set (m' := match q_doneHandler q with Some h => <[dec_N n := h]> m | None => m end).
  assert (Hm' : forall k h, m' !! k = Some h <-> m !! k = Some h \/ (k = dec_N n /\ q_doneHandler q = Some h)).
  { intros k' h'. unfold m'. destruct (q_doneHandler q) as [h1|]; [|naive_solver].
    rewrite lookup_insert_Some. split; [naive_solver|]. intros [Hk|[-> [= ->]]]; [right|by left].
    split; [|done]. intros <-. destruct (Hm _ _ Hk) as (i & Hi & E%dec_N_inj). lia. }
  rewrite IH; [|intros k' h' [Hk|[-> _]]%Hm'; [destruct (Hm _ _ Hk) as (i & Hi & ->); exists i|exists n]; (split; [lia|done])].
  rewrite Hm'. split.
  - intros [[Hk|[-> Hq]]|(j & q' & -> & Hq & Hh)]; [by left| |].
    + right. exists 0, q. split_and!; [f_equal; lia|done|done].
    + right. exists (S j), q'. split_and!; [f_equal; lia|done|done].
  - intros [Hk|([|j] & q' & -> & Hq & Hh)]; [by left; left| |].
    + injection Hq as <-. left. right. split; [f_equal; lia|done].
    + right. exists j, q'. split_and!; [f_equal; lia|done|done].
Qed.

Lemma sent_frames_seq (sent qs : list (queued cb)) :
  sent_frames (N.of_nat (length sent)) qs
  = map (fun i => match (sent ++ qs) !! i with Some q => frame_of i q | None => [] end) (seq (length sent) (length qs)).
Proof.
  revert sent. induction qs as [|q qs IH]; intros sent; [done|]. cbn [sent_frames length seq map].
  rewrite lookup_app_r, Nat.sub_diag by lia. cbn [lookup list_lookup]. f_equal.
  specialize (IH (sent ++ [q])). rewrite <- app_assoc, length_app in IH. cbn [app length] in IH.
  rewrite Nat.add_1_r in IH. rewrite <- IH. f_equal. lia.
Qed.

Definition shaped (qs : list (queued cb)) : Prop :=
  Forall (fun q => q_doneHandler q <> None -> (q_method q = POST \/ q_method q = DELETE)) qs
  /\ Forall (fun q => forall f g k, q_doneHandler q = Some (CreateDone f g k) ->
                q_method q = POST /\ q_path q = WS_SERVICE_PATH /\ q_body q = None) qs.

Lemma shaped_app qs1 qs2 : shaped qs1 -> shaped qs2 -> shaped (qs1 ++ qs2).
Proof. intros [A B] [C D]. split; by apply list.Forall_app. Qed.

Lemma map_below {A} (f g : nat -> A) n l :
  Forall (fun i => i < n) l -> (forall i, i < n -> f i = g i) -> map f l = map g l.
Proof. intros H E. induction H; cbn; [done|]. by rewrite E, IHForall. Qed.

Lemma flat_map_below {A} (f g : nat -> list A) n l :
  Forall (fun i => i < n) l -> (forall i, i < n -> f i = g i) -> flat_map f l = flat_map g l.
Proof. intros H E. induction H; cbn; [done|]. by rewrite E, IHForall. Qed.

Lemma app3_below (P : nat -> Prop) ui di got : Forall P (ui ++ di ++ got) -> Forall P ui /\ Forall P di /\ Forall P got.
Proof. rewrite !list.Forall_app. tauto. Qed.

(** Sending [qs]. *)
Lemma inv_send t t' sent ui di got qs :
  talk_inv t sent ui di got ->
  ws_inv (page t') -> failure (sys_conn (page t')) = None ->
  (ready (sys_conn (page t')) = true -> opened (sys_conn (page t')) = true) ->
  requestCounter (sys_conn (page t')) = (requestCounter (sys_conn (page t)) + N.of_nat (length qs))%N ->
  doneHandlers (sys_conn (page t'))
    = sent_handlers (requestCounter (sys_conn (page t))) qs (doneHandlers (sys_conn (page t))) ->
  calls t' = (sent ++ qs) ++ requestQueue (sys_conn (page t')) -> shaped (calls t') ->
  up t' = up t ++ sent_frames (requestCounter (sys_conn (page t))) qs -> down t' = down t ->
  List.filter tells (sys_trace (page t')) = List.filter tells (sys_trace (page t)) ->
  talk_inv t' (sent ++ qs) (ui ++ seq (length sent) (length qs)) di got.
Proof.
  intros I Hws Hf Ho Hc Hh Hq [Hs1 Hs2] Hu Hd Ht. pose proof (ti_ids _ _ _ _ _ I) as [Hnd Hlt].
  destruct (app3_below _ _ _ _ Hlt) as (Lu & Ld & Lg).
  assert (Hold : forall i, i < length sent -> (sent ++ qs) !! i = sent !! i) by (intros; by apply lookup_app_l).
  assert (Hids : (ui ++ seq (length sent) (length qs)) ++ di ++ got ≡ₚ seq (length sent) (length qs) ++ ui ++ di ++ got)
    by (rewrite (Permutation_app_comm ui); by rewrite <- !app_assoc).
  constructor; try done.
  - rewrite Hc, (ti_count _ _ _ _ _ I), length_app. lia.
  - rewrite Hids. split.
    + apply list.NoDup_app. split_and!; [apply NoDup_seq| |done]. intros i Hi Hin. apply elem_of_seq in Hi.
      rewrite list.Forall_forall in Hlt. apply Hlt in Hin. lia.
    + rewrite length_app. apply list.Forall_app. split; apply list.Forall_forall; intros i Hi.
      * apply elem_of_seq in Hi. lia.
      * rewrite list.Forall_forall in Hlt. apply Hlt in Hi. lia.
  - rewrite Hu, (ti_up _ _ _ _ _ I), (ti_count _ _ _ _ _ I), sent_frames_seq, map_app. f_equal.
    eapply map_below; [exact Lu|]. intros i Hi. cbn beta. by rewrite Hold.
  - rewrite Hd, (ti_down _ _ _ _ _ I). eapply map_below; [exact Ld|]. intros i Hi. cbn beta. by rewrite Hold.
  - pose proof (ti_answers _ _ _ _ _ I) as Ha. rewrite list.Forall_forall in Ha, Ld |- *. intros i Hi q.
    rewrite Hold by (by apply Ld). by apply Ha.
  - intros k h. rewrite Hh, sent_handlers_lookup by apply (inv_handlers _ (ti_ws _ _ _ _ _ I)).
    rewrite (ti_handlers _ _ _ _ _ I), (ti_count _ _ _ _ _ I). split.
    + intros [(i & q & -> & Hi & Hq' & Hg)|(j & q & -> & Hj & Hq')].
      * exists i, q. rewrite Hold by (by eapply lookup_lt_Some). done.
      * exists (length sent + j), q. split_and!; [f_equal; lia| |done|].
        -- rewrite lookup_app_r by lia. by rewrite Nat.add_comm, Nat.add_sub.
        -- intros Hin. rewrite list.Forall_forall in Lg. apply Lg in Hin. lia.
    + intros (i & q & -> & Hi & Hq' & Hg). apply lookup_app_Some in Hi as [Hi|[Hle Hi]]; [left; eauto 10|].
      right. exists (i - length sent), q. split_and!; [f_equal; lia|done|done].
  - intros i q Hi Hq'. rewrite Hids. apply lookup_app_Some in Hi as [Hi|[Hle Hi]].
    + apply elem_of_app. right. by apply (ti_waiting _ _ _ _ _ I i q).
    + apply elem_of_app. left. apply elem_of_seq. apply lookup_lt_Some in Hi. lia.
  - rewrite Ht, (ti_told _ _ _ _ _ I). eapply flat_map_below; [exact Lg|]. intros i Hi. unfold told_at. by rewrite Hold.
Qed.

(** *** The steps keep the invariant *)

Lemma api_request s q r :
  api s q r -> r = doRequest (sys_conn s) q /\ shaped [q] /\ ws_step getLocation s (advance s r).
Proof.
  intros H. destruct H; (split; [try done|split; [split; repeat constructor; cbn; try done; naive_solver|try constructor]]).
  - unfold complete. cbn. by rewrite H0.
  - done.
Qed.

Lemma filter_sends (l : list jsstr) : List.filter tells (map (@Send _ cb) l) = [].
Proof. by induction l. Qed.

Lemma inv_call t q r sent ui di got :
  talk_inv t sent ui di got -> api (page t) q r ->
  exists sent' ui', talk_inv (after t [q] r (down t)) sent' ui' di got.
Proof.
  intros I (-> & Hsh & Hstep)%api_request. pose proof (ws_step_inv _ _ _ (ti_ws _ _ _ _ _ I) Hstep) as Hws.
  assert (Hs' : shaped (calls t ++ [q])).
  { apply shaped_app; [|done]. split; [apply (ti_shape _ _ _ _ _ I)|apply (ti_create _ _ _ _ _ I)]. }
  destruct (ready (sys_conn (page t))) eqn:Er.
  - pose proof (doRequests_sent (sys_conn (page t)) [q] Er (ti_alive _ _ _ _ _ I)) as E. cbn [doRequests] in E.
    pose proof (inv_drained _ (ti_ws _ _ _ _ _ I) Er) as Hq0.
    destruct (doRequest (sys_conn (page t)) q) as [[c1 o1] e1] eqn:Ed.
    assert (e1 = None) as -> by (unfold doRequest in Ed; rewrite Er, (ti_alive _ _ _ _ _ I) in Ed; by injection Ed).
    rewrite app_nil_r in E. injection E as -> ->.
    exists (sent ++ [q]), (ui ++ seq (length sent) 1). apply (inv_send t _ sent ui di got [q] I); try done.
    + intros _. cbn. by apply (ti_opened _ _ _ _ _ I).
    + cbn. rewrite Hq0, app_nil_r, (ti_calls _ _ _ _ _ I), Hq0. by rewrite app_nil_r.
    + cbn. rewrite List.filter_app. cbn. by rewrite app_nil_r.
  - rewrite (doRequest_queued _ q Er) in *. exists sent, ui. destruct I. constructor; cbn in *; try done; try apply Hs'.
    + rewrite ti_calls0. by rewrite app_assoc.
    + by rewrite app_nil_r.
    + by rewrite app_nil_r.
Qed.

Lemma inv_open t sent ui di got :
  talk_inv t sent ui di got -> opened (sys_conn (page t)) = false ->
  exists sent' ui', talk_inv (after t [] (onopen (sys_conn (page t))) (down t)) sent' ui' di got.
Proof.
  intros I Ho. pose proof (ws_step_inv _ _ _ (ti_ws _ _ _ _ _ I) (ws_open getLocation (page t))) as Hws.
  destruct (ready (sys_conn (page t))) eqn:Er; [rewrite (ti_opened _ _ _ _ _ I Er) in Ho; done|].
  set (qs := requestQueue (sys_conn (page t))). exists (sent ++ qs), (ui ++ seq (length sent) (length qs)).
  set (c := sys_conn (page t)) in *.
  assert (E : onopen c = ({| endpoint := endpoint c; ready := true; opened := true; services := services c;
      doneHandlers := sent_handlers (requestCounter c) qs (doneHandlers c);
      requestCounter := requestCounter c + N.of_nat (length qs); requestQueue := []; failure := None |},
      map Send (sent_frames (requestCounter c) qs), None)).
  { unfold onopen, flush. cbn [ready]. rewrite Er. by rewrite doRequests_sent by (done || apply (ti_alive _ _ _ _ _ I)). }
  rewrite E in *.
  apply (inv_send t _ sent ui di got qs I); try done.
  - cbn. rewrite !app_nil_r. apply (ti_calls _ _ _ _ _ I).
  - cbn. rewrite app_nil_r. split; [apply (ti_shape _ _ _ _ _ I)|apply (ti_create _ _ _ _ _ I)].
  - cbn [after up fst snd]. by rewrite sends_map_Send.
  - cbn [after page advance sys_trace]. by rewrite List.filter_app, filter_sends, app_nil_r.
Qed.

Lemma inv_post t f sent ui di got :
  talk_inv t sent ui di got -> startsWith f POST = true ->
  talk_inv {| page := page t; calls := calls t; up := up t; down := down t ++ [f] |} sent ui di got.
Proof.
  intros I Hp. destruct I. constructor; try done. cbn. rewrite List.filter_app. cbn. rewrite Hp. cbn.
  by rewrite app_nil_r.
Qed.

Context {NS : NodeSpec}.

Lemma inv_serve t u1 f u2 sent ui di got :
  talk_inv t sent ui di got -> up t = u1 ++ f :: u2 ->
  exists ui' di', talk_inv {| page := page t; calls := calls t; up := u1 ++ u2;
    down := down t ++ match node f with Some a => [answer_text f a] | None => [] end |} sent ui' di' got.
Proof.
  intros I Hu. rewrite (ti_up _ _ _ _ _ I) in Hu. apply map_eq_app in Hu as (l1 & l & -> & Hu1 & Hu2).
  apply map_eq_cons in Hu2 as (i & l2 & -> & Hi & Hu2). pose proof (ti_ids _ _ _ _ _ I) as [Hnd Hlt].
  assert (Hil : i < length sent) by (rewrite list.Forall_forall in Hlt; apply Hlt; set_solver).
  destruct (lookup_lt_is_Some_2 sent i Hil) as [q Hq]. rewrite Hq in Hi. subst f.
  assert (Hp : (l1 ++ i :: l2) ++ di ++ got ≡ₚ i :: (l1 ++ l2) ++ di ++ got) by (rewrite <- Permutation_middle; done).
  rewrite Hp in Hnd, Hlt. destruct (node (frame_of i q)) as [a|] eqn:En.
  - exists (l1 ++ l2), (di ++ [i]).
    assert (Hp' : (l1 ++ l2) ++ (di ++ [i]) ++ got ≡ₚ i :: (l1 ++ l2) ++ di ++ got).
    { rewrite (Permutation_app_comm di [i]). cbn [app]. by rewrite <- Permutation_middle. }
    destruct I. constructor; try done; cbn [page calls up down] in *.
    + by rewrite Hp'.
    + by rewrite map_app, Hu1, Hu2.
    + rewrite List.filter_app, ti_down0, map_app. cbn. rewrite Hq, En.
      by rewrite answer_not_post by (exact (node_status _ _ En)).
    + apply list.Forall_app. split; [done|]. constructor; [|done]. intros q' Hq'. rewrite Hq in Hq'. injection Hq' as <-. by rewrite En.
    + intros j q' Hj Hh. rewrite Hp', <- Hp. eauto.
  - exists (l1 ++ l2), di. destruct I. constructor; try done; cbn [page calls up down] in *.
    + split; [by apply list.NoDup_cons in Hnd as [_ ?]|by apply list.Forall_cons in Hlt as [_ ?]].
    + by rewrite map_app, Hu1, Hu2.
    + by rewrite app_nil_r.
    + intros j q' Hj Hh. specialize (ti_waiting0 j q' Hj Hh). rewrite Hp in ti_waiting0.
      apply elem_of_cons in ti_waiting0 as [->|?]; [|done]. exfalso. rewrite Hq in Hj. injection Hj as <-.
      revert En. apply node_answers. rewrite list.Forall_forall in ti_shape0. apply ti_shape0; [|done].
      rewrite ti_calls0. apply elem_of_app. left. by eapply list_elem_of_lookup_2.
Qed.

Lemma run_handler_answered t sent ui di got i q h a c :
  talk_inv t sent ui di got -> sent !! i = Some q -> q_doneHandler q = Some h -> node (frame_of i q) = Some a ->
  (run_handler c h (CodeStr a.1) a.2).2 = None.
Proof.
  intros I Hq Hh Hn. destruct h as [f g k|f k]; cbn; [|by destruct (code_ok _)].
  destruct (code_ok (CodeStr a.1)) eqn:Ec; [|done].
  pose proof (ti_create _ _ _ _ _ I) as Hc. rewrite list.Forall_forall in Hc.
  destruct (Hc q) with (f := f) (g := g) (k := k) as (Hm & Hpath & Hb); [|done|].
  { rewrite (ti_calls _ _ _ _ _ I). apply elem_of_app. left. by eapply list_elem_of_lookup_2. }
  unfold frame_of in Hn. rewrite Hm, Hpath, Hb in Hn. destruct (node_creates _ _ Hn Ec) as [u ->]. done.
Qed.

Lemma onmessage_post_quiet c f : exists o e, onmessage_post c f = (c, o, e) /\ sends o = [] /\ List.filter tells o = [].
Proof. unfold onmessage_post. repeat case_match; eauto. Qed.

Lemma inv_receive t f d sent ui di got :
  talk_inv t sent ui di got -> opened (sys_conn (page t)) = true -> down t = f :: d ->
  exists di' got', talk_inv (after t [] (onmessage (sys_conn (page t)) f) d) sent ui di' got'.
Proof.
  intros I Ho Hd. pose proof (ws_step_inv _ _ _ (ti_ws _ _ _ _ _ I) (ws_message getLocation (page t) f Ho)) as Hws.
  pose proof (ti_down _ _ _ _ _ I) as Hdn. rewrite Hd in Hdn. cbn [List.filter] in Hdn.
  destruct (startsWith f POST) eqn:Ep.
  - exists di, got. assert (Hm : onmessage (sys_conn (page t)) f = onmessage_post (sys_conn (page t)) f).
    { apply startsWith_iff in Ep as [r ->]. apply onmessage_is_post. }
    rewrite Hm in *. destruct (onmessage_post_quiet (sys_conn (page t)) f) as (o & e & E & Hs & Ht). rewrite E in *.
    destruct I. constructor; try done; cbn [after page calls up down advance sys_conn sys_trace sys_live fst snd negb set_handlers
        endpoint ready opened services doneHandlers requestCounter requestQueue failure] in *; rewrite ?app_nil_r, ?Hs, ?app_nil_r; try done.
    by rewrite List.filter_app, Ht, app_nil_r.
  - cbn [negb] in Hdn. symmetry in Hdn. apply map_eq_cons in Hdn as (i & di' & -> & Hi & Hdi).
    pose proof (ti_ids _ _ _ _ _ I) as [Hnd Hlt].
    assert (Hil : i < length sent) by (rewrite list.Forall_forall in Hlt; apply Hlt; set_solver).
    destruct (lookup_lt_is_Some_2 sent i Hil) as [q Hq]. rewrite Hq in Hi.
    pose proof (ti_answers _ _ _ _ _ I) as Ha. apply list.Forall_cons in Ha as [Ha _]. specialize (Ha q Hq).
    destruct (node (frame_of i q)) as [a|] eqn:En; [|done]. subst f.
    assert (Hg : i ∉ got).
    { intros Hin. apply list.NoDup_app in Hnd as (_ & _ & Hnd). apply list.NoDup_app in Hnd as (_ & Hnd & _).
      apply (Hnd i); set_solver. }
    assert (Hp : ui ++ di' ++ got ++ [i] ≡ₚ ui ++ (i :: di') ++ got).
    { apply Permutation_app_head. cbn. rewrite app_assoc, <- Permutation_cons_append. done. }
    exists di', (got ++ [i]).
    rewrite (answer_handled _ _ _ (N.of_nat i)) in * by (exact (node_status _ _ En) || apply frame_id_of).
    destruct (doneHandlers (sys_conn (page t)) !! dec_N (N.of_nat i)) as [h|] eqn:Eh.
    + assert (Hh : q_doneHandler q = Some h).
      { apply (ti_handlers _ _ _ _ _ I) in Eh as (j & q' & Ej%dec_N_inj & Hj & Hh & _).
        assert (j = i) as -> by lia. rewrite Hq in Hj. by injection Hj as <-. }
      pose proof (run_handler_answered _ _ _ _ _ _ _ _ _ (sys_conn (page t)) I Hq Hh En) as He.
      pose proof (handler_outs_eq (sys_conn (page t)) h (CodeStr a.1) a.2) as Hout.
      destruct (run_handler (sys_conn (page t)) h (CodeStr a.1) a.2) as [[c' o] e] eqn:Er. cbn in He, Hout. subst e.
      apply run_handler_frame in Er as (F1 & F2 & F3 & F4 & F5 & F6 & F7 & _).
      destruct I. constructor; try done; cbn [after page calls up down advance sys_conn sys_trace sys_live fst snd negb set_handlers
        endpoint ready opened services doneHandlers requestCounter requestQueue failure] in *; rewrite ?F1, ?F2, ?F4, ?F5, ?F6, ?F7, ?app_nil_r; try done.
      * by rewrite Hp.
      * by apply list.Forall_cons in ti_answers0 as [_ ?].
      * intros k h'. rewrite F3, lookup_delete_Some, ti_handlers0. split.
        -- intros (Hk & j & q' & -> & Hj & Hh' & Hgj). exists j, q'. split_and!; try done.
           apply not_elem_of_app. split; [done|]. intros ->%list_elem_of_singleton. done.
        -- intros (j & q' & -> & Hj & Hh' & Hgj). apply not_elem_of_app in Hgj as [Hgj Hne].
           split; [|eauto 10]. intros E%dec_N_inj. apply Hne. assert (j = i) as -> by lia. set_solver.
      * intros j q' Hj Hh'. rewrite Hp. eauto.
      * rewrite List.filter_app, ti_told0, flat_map_app. f_equal. subst o. rewrite handler_outs_tell. cbn.
        rewrite app_nil_r. unfold told_at, told. by rewrite Hq, Hh, En.
    + assert (Hh : q_doneHandler q = None).
      { destruct (q_doneHandler q) as [h|] eqn:E; [|done]. exfalso.
        assert (doneHandlers (sys_conn (page t)) !! dec_N (N.of_nat i) = Some h) as E'; [|congruence].
        apply (ti_handlers _ _ _ _ _ I). eauto 10. }
      destruct I. constructor; try done; cbn [after page calls up down advance sys_conn sys_trace sys_live fst snd negb set_handlers
        endpoint ready opened services doneHandlers requestCounter requestQueue failure] in *; rewrite ?app_nil_r; try done.
      * by rewrite Hp.
      * by apply list.Forall_cons in ti_answers0 as [_ ?].
      * intros k h'. rewrite ti_handlers0. split.
        -- intros (j & q' & -> & Hj & Hh' & Hgj). exists j, q'. split_and!; try done.
           apply not_elem_of_app. split; [done|]. intros ->%list_elem_of_singleton. congruence.
        -- intros (j & q' & -> & Hj & Hh' & Hgj). apply not_elem_of_app in Hgj as [Hgj _]. eauto 10.
      * intros j q' Hj Hh'. rewrite Hp. eauto.
      * rewrite ti_told0, flat_map_app. cbn [flat_map].
        assert (told_at sent i = []) as -> by (unfold told_at, told; by rewrite Hq, Hh). by rewrite !app_nil_r.
Qed.

(** *** Every state of a conversation *)

Lemma talk_inv_init ep : talk_inv (talk_init ep) [] [] [] [].
Proof.
  constructor; cbn; try done; try (by constructor); try apply ws_inv_init.
  - split; constructor.
  - intros k h. split; [done|]. intros (i & q & _ & Hi & _). done.
Qed.

Definition talk_ok (t : talk) : Prop := exists sent ui di got, talk_inv t sent ui di got.

Lemma talk_step_ok t t' : talk_ok t -> talk_step t t' -> talk_ok t'.
Proof.
  intros (sent & ui & di & got & I) H. destruct H as [Ho|q r Ha|f Hp|t' Hq].
  - destruct (inv_open _ _ _ _ _ I Ho) as (? & ? & ?). unfold talk_ok; eauto.
  - destruct (inv_call _ _ _ _ _ _ _ I Ha) as (? & ? & ?). unfold talk_ok; eauto.
  - pose proof (inv_post _ _ _ _ _ _ I Hp). unfold talk_ok; eauto.
  - destruct Hq as [u1 f u2 Hu|f d Ho Hd].
    + destruct (inv_serve _ _ _ _ _ _ _ _ I Hu) as (? & ? & ?). unfold talk_ok; eauto.
    + destruct (inv_receive _ _ _ _ _ _ _ I Ho Hd) as (? & ? & ?). unfold talk_ok; eauto.
Qed.

(** The steps left: two for a frame, one for an answer. *)
Definition left_over (t : talk) : nat := 2 * length (up t) + length (down t).

Lemma received_sends_nothing c f : sends (onmessage c f).1.2 = [].
Proof.
  unfold onmessage. destruct (_ =? 0)%Z.
  - by destruct (onmessage_post_quiet c f) as (o & e & -> & ? & _).
  - unfold onmessage_response. repeat case_match; try done; simplify_eq;
      match goal with H : run_handler _ _ _ _ = _ |- _ => apply run_handler_frame in H as (_ & _ & _ & _ & _ & _ & ? & _) end; done.
Qed.

Lemma quiet_less t t' : quiet_step t t' -> left_over t' < left_over t.
Proof.
  intros [u1 f u2 Hu|f d Ho Hd]; unfold left_over; cbn [up down after].
  - rewrite Hu, !length_app. cbn [length]. destruct (node f); cbn [length]; lia.
  - rewrite Hd, received_sends_nothing, app_nil_r. cbn [length]. lia.
Qed.

(** All that the page is told, in the order of its requests. *)
Definition all_told (qs : list (queued cb)) : list (out cb) := flat_map (told_at qs) (seq 0 (length qs)).

Lemma quiet_told t sent ui di got :
  talk_inv t sent ui di got -> ready (sys_conn (page t)) = true -> up t = [] -> down t = [] ->
  doneHandlers (sys_conn (page t)) = ∅ /\ List.filter tells (sys_trace (page t)) ≡ₚ all_told (calls t).
Proof.
  intros I Hr Hu Hd. pose proof (ti_up _ _ _ _ _ I) as Eu. rewrite Hu in Eu. symmetry in Eu. apply map_eq_nil in Eu as ->.
  pose proof (ti_down _ _ _ _ _ I) as Ed. rewrite Hd in Ed. symmetry in Ed. apply map_eq_nil in Ed as ->.
  pose proof (ti_ids _ _ _ _ _ I) as [Hnd Hlt]. cbn in Hnd, Hlt. split.
  - apply map_empty. intros k. destruct (doneHandlers _ !! k) as [h|] eqn:E; [|done].
    apply (ti_handlers _ _ _ _ _ I) in E as (i & q & _ & Hi & Hh & Hg). exfalso. apply Hg.
    apply (ti_waiting _ _ _ _ _ I i q Hi). by rewrite Hh.
  - rewrite (ti_told _ _ _ _ _ I), (ti_calls _ _ _ _ _ I), (inv_drained _ (ti_ws _ _ _ _ _ I) Hr), app_nil_r.
    unfold all_told. set (rest := List.filter (fun i => negb (bool_decide (i ∈ got))) (seq 0 (length sent))).
    assert (Hs : seq 0 (length sent) ≡ₚ got ++ rest).
    { apply NoDup_Permutation; [apply NoDup_seq| |].
      - apply list.NoDup_app. split_and!; [done| |].
        + intros i Hi Hin. apply list_elem_of_In, filter_In in Hin as [_ Hb]. by rewrite bool_decide_true in Hb.
        + apply NoDup_ListNoDup, List.NoDup_filter, NoDup_ListNoDup, NoDup_seq.
      - intros i. rewrite elem_of_app. unfold rest. rewrite (list_elem_of_In (List.filter _ _)), filter_In, <- list_elem_of_In, elem_of_seq.
        rewrite list.Forall_forall in Hlt. split.
        + intros Hi. destruct (decide (i ∈ got)) as [Hg|Hg]; [by left|]. right. split; [done|]. by rewrite bool_decide_false.
        + intros [Hi|[Hi _]]; [|done]. apply Hlt in Hi. lia. }
    assert (Hn : flat_map (told_at sent) rest = []).
    { assert (Hz : forall i, i ∈ rest -> told_at sent i = []).
      { intros i Hi. apply list_elem_of_In, filter_In in Hi as [_ Hb]. unfold told_at. destruct (sent !! i) as [q|] eqn:Eq; [|done].
        unfold told. destruct (q_doneHandler q) as [h|] eqn:Eh; [|done]. exfalso.
        rewrite bool_decide_true in Hb; [done|]. apply (ti_waiting _ _ _ _ _ I i q Eq). by rewrite Eh. }
      clear -Hz. induction rest as [|i l IH]; [done|]. cbn. rewrite Hz, IH; [done|set_solver|set_solver]. }
    rewrite Hs, flat_map_app, Hn. by rewrite app_nil_r.
Qed.

Lemma quiet_progress t :
  opened (sys_conn (page t)) = true -> (exists t', quiet_step t t') \/ (up t = [] /\ down t = []).
Proof.
  intros Ho. destruct (up t) as [|f u] eqn:Eu; [|left; eexists; by apply (node_serves t [] f u)].
  destruct (down t) as [|f d] eqn:Ed; [by right|]. left. eexists. by apply (page_receives t f d).
Qed.

Lemma quiet_keeps t t' :
  quiet_step t t' -> calls t' = calls t /\ (opened (sys_conn (page t)) = true -> opened (sys_conn (page t')) = true).
Proof.
  intros [u1 f u2 Hu|f d Ho Hd]; [done|]. cbn [after calls page]. rewrite app_nil_r. split; [done|]. intros _.
  unfold onmessage. destruct (_ =? 0)%Z.
  - by destruct (onmessage_post_quiet (sys_conn (page t)) f) as (o & e & -> & _).
  - unfold onmessage_response. repeat case_match; try done; simplify_eq;
      match goal with H : run_handler _ _ _ _ = _ |- _ => apply run_handler_frame in H as (_ & ? & _) end; cbn; congruence.
Qed.

(** C6: Whatever a page with an open socket has asked for, before or after the
    socket opened, and in whatever order the node serves its frames: if the page
    asks for nothing more, every further step brings the conversation closer to
    its end, one is possible until nothing is under way, and then every request
    has told the page exactly once what the node answered to it, and no handler
    is left. *)
Theorem calls_answered_once (ep : jsstr) (t t' : talk) :
  star talk_step (talk_init ep) t -> opened (sys_conn (page t)) = true -> star quiet_step t t' ->
  (forall t'', quiet_step t' t'' -> left_over t'' < left_over t')
  /\ ((exists t'', quiet_step t' t'')
      \/ (up t' = [] /\ down t' = [] /\ doneHandlers (sys_conn (page t')) = ∅
          /\ List.filter tells (sys_trace (page t')) ≡ₚ all_told (calls t))).
Proof.
  intros Hr Ho Hq. assert (Hk : calls t' = calls t /\ opened (sys_conn (page t')) = true /\ talk_ok t').
  { induction Hq as [t|t t1 t2 Hq IH Hs].
    - split_and!; [done|done|]. apply (star_invariant _ talk_ok talk_step_ok _ _ Hr). exists [], [], [], []. apply talk_inv_init.
    - destruct (IH Hr Ho) as (Hc & Ho1 & Hok). destruct (quiet_keeps _ _ Hs) as [Hc1 Ho2].
      split_and!; [congruence|auto|]. by apply (talk_step_ok t1); [|apply quietly]. }
  destruct Hk as (Hc & Ho' & (sent & ui & di & got & I)). split; [intros; by apply quiet_less|].
  destruct (quiet_progress t' Ho') as [?|[Hu Hd]]; [by left|right].
  assert (Hrd : ready (sys_conn (page t')) = true).
  { destruct (ready (sys_conn (page t'))) eqn:Er; [done|]. destruct (inv_fresh _ (ti_ws _ _ _ _ _ I) Er). congruence. }
  rewrite <- Hc. by destruct (quiet_told _ _ _ _ _ I Hrd Hu Hd).
Qed.

(** An error on an open connection tells nobody about the requests that wait for
    an answer: their handlers stay, and nothing runs them any more. *)
Lemma late_error_forgets c :
  ready c = true -> exists c', onerror c = (c', [], None) /\ doneHandlers c' = doneHandlers c /\ failure c' <> None.
Proof. intros Hr. unfold onerror, flush. cbn [ready]. rewrite Hr. by eexists. Qed.
End Conversation.

(** ** A conversation *)

Section Sample.
#[local] Instance sample_json : JsonLib := {|
  jnum := Z; jnum_of_Z := fun z => z;
  json_parse := fun s => if s === "{s}" then Some (JObj [(js "uri", JStr "/ws-service/1")]) else None;
  json_stringify := fun _ => js "{}"; json_toString := fun _ => js "x" |}.

Definition sample_node (f : jsstr) : option (jsstr * option jsstr) := Some (js "202", Some (js "{s}")).

#[local] Instance sample_node_spec : NodeSpec sample_node.
Proof.
  constructor.
  - intros f a [= <-]. split; [done|]. vm_compute. by repeat constructor.
  - done.
  - intros id a [= <-] _. exists (js "/ws-service/1"). vm_compute. reflexivity.
Defined.

Let t0 : talk (cb := nat) := talk_init "/core/ws-endpoint".
Let t1 : talk := after t0 [{| q_method := POST; q_path := WS_SERVICE_PATH; q_body := None;
    q_doneHandler := Some (CreateDone 1 2 (Some 3)) |}] (createService (sys_conn (page t0)) 1 2 (Some 3)) [].
Let t2 : talk := after t1 [] (onopen (sys_conn (page t1))) [].
Let f0 : jsstr := "0" ++ CR_LF ++ "POST /ws-service".
Let t3 : talk := {| page := page t2; calls := calls t2; up := []; down := [answer_text f0 (js "202", Some (js "{s}"))] |}.
Let t4 : talk := after t3 [] (onmessage (sys_conn (page t3)) (answer_text f0 (js "202", Some (js "{s}")))) [].

Lemma calls_answered_once_witness :
  all_told sample_node (calls t2) = [ServiceReady 2 {| sv_uri := js "/ws-service/1"; sv_handleRequest := 1 |}]
  /\ List.filter tells (sys_trace (page t4)) ≡ₚ all_told sample_node (calls t2).
Proof.
  split; [vm_compute; reflexivity|].
  assert (H2 : star (talk_step (fun x => x) sample_node) t0 t2).
  { apply (star_snoc _ _ t1); [apply (star_snoc _ _ t0); [apply star_refl|]|].
    - apply page_calls. apply (api_create _ _ 1 2 (Some 3)).
    - apply socket_opens. reflexivity. }
  assert (H4 : star (quiet_step sample_node) t2 t4).
  { apply (star_snoc _ _ t3); [apply (star_snoc _ _ t2); [apply star_refl|]|].
    - apply (node_serves sample_node t2 [] f0 []). vm_compute. reflexivity.
    - apply (page_receives sample_node t3 _ []); reflexivity. }
  destruct (calls_answered_once (fun x => x) sample_node "/core/ws-endpoint" t2 t4 H2 eq_refl H4) as [_ [[t5 Hq]|H]].
  - exfalso. destruct Hq as [u1 f u2 Hu|f d _ Hd].
    + assert (E : up t4 = []) by (vm_compute; reflexivity). rewrite E in Hu. by destruct u1.
    + discriminate Hd.
  - apply H.
Defined.
End Sample.
