(* ===== verification/WsReentrant.v ===== *)
(** * Callbacks that call the library back

    In WsService the callbacks of the application are outputs, and what the
    application does in them comes later.  In the browser a callback runs inside
    the handler of the message, and may call the library while the handler is
    not finished.  Here the callbacks are programs that run inside, and the two
    ways are shown to agree.  The second part is the page ws-test.js, an
    application of the library. *)

#[local] Set Warnings "-register-all".
From S2P Require Import Prelude JsString JsNumber WsService.

(** ** Applications *)

(** The calls of the interface. *)
Inductive call `{JsonLib} (cb : Type) :=
  | CreateService (f g : cb) (k : option cb)
  | Subscribe (s : service cb) (u : jsstr) (f k : option cb)
  | Unsubscribe (s : service cb) (u : jsstr) (f k : option cb)
  | Stop (s : service cb) (f k : option cb)
  | Complete (op : Operation)
  | Fail (op : Operation) (exception body : option (json jnum)).
Arguments CreateService {_ cb} _ _ _.
Arguments Subscribe {_ cb} _ _ _ _.
Arguments Unsubscribe {_ cb} _ _ _ _.
Arguments Stop {_ cb} _ _ _.
Arguments Complete {_ cb} _.
Arguments Fail {_ cb} _ _ _.

(** What a callback does: it reads and writes the variables of the application,
    of type [A], makes calls and sees whether they threw, and may throw. *)
Inductive prog `{JsonLib} (cb A : Type) :=
  | Return
  | Raise (e : jserr)
  | Read (k : A -> prog cb A)
  | Update (f : A -> A) (p : prog cb A)
  | Do (c : call cb) (k : option jserr -> prog cb A).
Arguments Return {_ cb A}.
Arguments Raise {_ cb A} _.
Arguments Read {_ cb A} _.
Arguments Update {_ cb A} _ _.
Arguments Do {_ cb A} _ _.

(** A call whose exception is not caught. *)
Definition do_then `{JsonLib} {cb A} (c : call cb) (p : prog cb A) : prog cb A :=
  Do c (fun x => match x with None => p | Some e => Raise e end).

Section Reentrant.
Context {J : JsonLib} {cb A : Type} (getLocation : jsstr -> jsstr).
(** The callbacks of the application. *)
Context (callback : out cb -> prog cb A).
Implicit Types (st : conn cb) (p : prog cb A) (a : A).

Definition do_call st (c : call cb) : step_result (cb := cb) :=
  match c with
  | CreateService f g k => createService st f g k
  | Subscribe s u f k => subscribe st s u f k
  | Unsubscribe s u f k => unsubscribe st s u f k
  | Stop s f k => stop getLocation st s f k
  | Complete op => complete getLocation st op
  | Fail op e b => fail getLocation st op e b
  end.

(** The callback among the outputs of a handler; there is at most one. *)
Fixpoint called (os : list (out cb)) : option (out cb) :=
  match os with [] => None | Send _ :: os' => called os' | o :: _ => Some o end.

(** The connection, the variables, the frames sent, the exception. *)
Definition outcome : Type := conn cb * A * list jsstr * option jserr.

Definition after_frames (fr : list jsstr) (r : option outcome) : option outcome :=
  match r with Some (st, a, fr', x) => Some (st, a, fr ++ fr', x) | None => None end.

(** Running a program.  A call on a failed connection runs a callback inside the
    call; [n] bounds how deep, [None] is a stack that is too deep. *)
Fixpoint perform (n : nat) : prog cb A -> conn cb -> A -> option outcome :=
  fix go p st a :=
    match p with
    | Return => Some (st, a, [], None)
    | Raise e => Some (st, a, [], Some e)
    | Read k => go (k a) st a
    | Update f p' => go p' st (f a)
    | Do c k =>
        let '(st1, os, x) := do_call st c in
        match called os with
        | None => after_frames (sends os) (go (k x) st1 a)
        | Some o =>
            match n with
            | O => None
            | S n' =>
                match perform n' (callback o) st1 a with
                | None => None
                | Some (st2, a2, fr, y) =>
                    after_frames (sends os ++ fr) (go (k (match y with Some _ => y | None => x end)) st2 a2)
                end
            end
        end
    end.

Lemma perform_Do n c k st a :
  perform n (Do c k) st a
  = let '(st1, os, x) := do_call st c in
    match called os with
    | None => after_frames (sends os) (perform n (k x) st1 a)
    | Some o =>
        match n with
        | O => None
        | S n' =>
            match perform n' (callback o) st1 a with
            | None => None
            | Some (st2, a2, fr, y) =>
                after_frames (sends os ++ fr) (perform n (k (match y with Some _ => y | None => x end)) st2 a2)
            end
        end
    end.
Proof. by destruct n. Qed.

(** A handler followed by its callback. *)
Definition then_callback (n : nat) (r : step_result (cb := cb)) (a : A) : option outcome :=
  let '(st, os, x) := r in
  match called os with
  | None => Some (st, a, sends os, x)
  | Some o => after_frames (sends os) (perform n (callback o) st a)
  end.

(** The message handler with the callback running inside it: after a response
    the callback runs before its handler is deleted, and not at all deleted if
    the callback throws. *)
Definition re_onmessage (n : nat) st (a : A) (data : jsstr) : option outcome :=
  if (indexOf data POST =? 0)%Z then then_callback n (onmessage_post st data) a
  else
    let spaceIndex := indexOf data " " in
    let crlf := crlf_of data in
    if (spaceIndex <? 0)%Z then Some (st, a, [], None)
    else
      let statusCode := substr data 0 spaceIndex in
      let requestId := substr data (spaceIndex + 1) (crlf - spaceIndex - 1) in
      match doneHandlers st !! requestId with
      | None => Some (st, a, [], None)
      | Some h =>
          match then_callback n (run_handler st h (CodeStr statusCode) (body_of data)) a with
          | Some (st', a', fr, None) => Some (set_handlers st' (delete requestId (doneHandlers st')), a', fr, None)
          | r => r
          end
      end.

(** ** The two orders agree *)

(** While the connection has not failed no call runs a callback, and none
    throws. *)
Lemma do_call_quiet st c :
  failure st = None ->
  exists st' fr, do_call st c = (st', map Send fr, None) /\ failure st' = None
    /\ (requestCounter st <= requestCounter st')%N.
Proof.
  assert (H : forall q, failure st = None -> exists st' fr, doRequest st q = (st', map Send fr, None) /\ failure st' = None
    /\ (requestCounter st <= requestCounter st')%N).
  { intros q Hf. unfold doRequest. destruct (ready st); cbn [negb].
    - rewrite Hf. eexists _, [request_frame (requestCounter st) (q_method q) (q_path q) (q_body q)].
      split; [reflexivity|]. cbn. split; [done|lia].
    - eexists _, []. split; [reflexivity|]. cbn. split; [done|lia]. }
  intros Hf. destruct c; cbn [do_call]; try (by apply H);
    unfold fail, complete; cbn [op_oncompletion]; destruct (op_oncompletion _); try (by apply H);
    (exists st, []; split; [done|split; [done|lia]]).
Qed.

Lemma called_sends (fr : list jsstr) : called (map Send fr) = None.
Proof. by induction fr. Qed.

(** A connection without one of its handlers. *)
Definition without (k : jsstr) st : conn cb := set_handlers st (delete k (doneHandlers st)).

(** A handler that no later request can have. *)
Definition old_handler (k : jsstr) st : Prop := forall i, (requestCounter st <= i)%N -> k <> dec_N i.

Lemma do_call_without k st c :
  failure st = None -> old_handler k st ->
  do_call (without k st) c
  = (without k (do_call st c).1.1, (do_call st c).1.2, (do_call st c).2).
Proof.
  intros Hf Ho. assert (H : forall q, doRequest (without k st) q = (without k (doRequest st q).1.1, (doRequest st q).1.2, (doRequest st q).2)).
  { intros q. unfold doRequest, without. cbn [set_handlers ready failure]. rewrite Hf. destruct (ready st); cbn [negb]; [|done].
    cbn [set_handlers fst snd doneHandlers endpoint ready opened services requestCounter requestQueue failure].
    destruct (q_doneHandler q) as [h|]; [|done]. rewrite delete_insert_ne; [done|].
    intros E. by apply (Ho (requestCounter st)). }
  destruct c; cbn [do_call]; try apply H; unfold fail, complete; cbn [op_oncompletion]; destruct (op_oncompletion _); try apply H; done.
Qed.

(** On a connection that has not failed every program runs, to the same result
    with and without an old handler. *)
Lemma perform_without n k p : forall st a,
  failure st = None -> old_handler k st ->
  exists st' a' fr x, perform n p st a = Some (st', a', fr, x) /\ perform n p (without k st) a = Some (without k st', a', fr, x).
Proof.
  induction p as [|e|kk IH|f p IH|c kk IH]; intros st a Hf Ho.
  - exists st, a, [], None. by destruct n.
  - exists st, a, [], (Some e). by destruct n.
  - destruct (IH a st a Hf Ho) as (st' & a' & fr & x & H1 & H2). exists st', a', fr, x. by destruct n.
  - destruct (IH st (f a) Hf Ho) as (st' & a' & fr & x & H1 & H2). exists st', a', fr, x. by destruct n.
  - rewrite !perform_Do, (do_call_without k st c) by done.
    destruct (do_call_quiet st c Hf) as (st1 & fr1 & -> & Hf1 & Hn). cbn [fst snd].
    rewrite called_sends, sends_map_Send.
    destruct (IH None st1 a Hf1) as (st' & a' & fr & x & -> & ->); [intros i Hi; apply Ho; lia|].
    cbn [after_frames]. by exists st', a', (fr1 ++ fr), x.
Qed.

(** C7: On a connection that has not failed, running the callback of a message
    inside the message handler, with all the calls it makes, comes to the same as
    running it after the handler: the same frames are sent in the same order,
    the variables and the exception are the same, and the connection is the
    same, unless the callback throws: then the handler of the response stays. *)
Theorem callbacks_deferred (n : nat) (ep : jsstr) (s : sys (cb := cb)) (a : A) (data : jsstr) :
  star (ws_step getLocation) (ws_init ep) s -> failure (sys_conn s) = None ->
  let st := sys_conn s in
  exists st' st'' a' fr x,
    then_callback n (onmessage st data) a = Some (st', a', fr, x)
    /\ re_onmessage n st a data = Some (st'', a', fr, x)
    /\ (x = None -> st'' = st')
    /\ (x <> None -> exists k, st' = st'' \/ st' = without k st'').
Proof.
  intros Hr Hf st. change (failure st = None) in Hf.
  assert (Hh : forall k h, doneHandlers st !! k = Some h -> old_handler k st).
  { intros k h Hk i Hi ->. destruct (inv_handlers _ (ws_reachable_inv _ _ _ Hr) _ _ Hk) as (j & Hj & E%dec_N_inj). subst i. fold st in Hj. lia. }
  clearbody st.   unfold onmessage, re_onmessage. destruct (_ =? 0)%Z.
  - assert (Hq : exists st' a' fr x, then_callback n (onmessage_post st data) a = Some (st', a', fr, x)).
    { destruct (onmessage_post st data) as [[st1 os] x] eqn:E. cbn [then_callback].
      assert (st1 = st /\ sends os = []) as [-> Hs].
      { unfold onmessage_post in E. repeat case_match; by simplify_eq. }
      destruct (called os) as [o|]; [|eauto]. rewrite Hs.
      destruct (perform_without n [] (callback o) st a Hf) as (st' & a' & fr & y & -> & _); [|cbn; eauto].
      intros i _ E'. by apply (dec_N_nonempty i). }
    destruct Hq as (st' & a' & fr & x & ->). exists st', st', a', fr, x. split_and!; try done. intros _. exists []. by left.
  - unfold onmessage_response. destruct (_ <? 0)%Z; [exists st, st, a, [], None; done|].
    destruct (doneHandlers st !! _) as [h|] eqn:Eh; [|exists st, st, a, [], None; done].
    set (k := substr data _ _) in *. destruct (run_handler st h _ _) as [[st1 os] [e|]] eqn:Er.
    { exists st1, st1, a, [], (Some e).
      assert (os = []) as -> by (destruct h; cbn in Er; repeat case_match; by simplify_eq). cbn. split_and!; try done. intros _. exists k. by left. }
    apply run_handler_frame in Er as (_ & _ & Ed & En & _ & Ef & Es & _). cbn [then_callback].
    fold (without k st1). destruct (called os) as [o|]; [|rewrite Es; exists (without k st1), (without k st1), a, [], None; done].
    rewrite Es. assert (Ho : old_handler k st1) by (intros i Hi; rewrite En in Hi; by apply (Hh k h)).
    destruct (perform_without n k (callback o) st1 a) as (st' & a' & fr & x & -> & ->); [congruence|done|]. cbn [after_frames app].
    destruct x as [e|]; [exists (without k st'), st', a', fr, (Some e)|exists (without k st'), (without k st'), a', fr, None];
      split_and!; try done. intros _. exists k. by right.
Qed.
End Reentrant.

(** ** ws-test.js

    The page of the tests: three services that observe the examples, and one
    that echoes. *)

Definition examplesServiceLink : jsstr := "/core/examples/subscriptions".

Inductive observer := ForStop | ForClose | ForUnsubscribe.
#[export] Instance observer_eq : EqDecision observer.
Proof. solve_decision. Defined.

Inductive page_cb := Observe | Echo | ObserverReady (o : observer) | EchoReady | CreateFailed.

Section TestPage.
Context {J : JsonLib} (getLocation : jsstr -> jsstr).
Abbreviation value := (json jnum).

(** The variables of the page. *)
Record TestPage := {
  observerService : observer -> option (service page_cb);      (* observerServiceFor... *)
  observerServiceUri : observer -> option jsstr;               (* observerServiceUriFor... *)
  echoServiceUri : option jsstr;
  objectsCreated : list (option value);
  errorOccurred : option jsstr
}.
Definition new_TestPage : TestPage :=
  {| observerService := fun _ => None; observerServiceUri := fun _ => None; echoServiceUri := None;
     objectsCreated := []; errorOccurred := None |}.

Definition set_observer (o : observer) (s : service page_cb) (a : TestPage) : TestPage :=
  let put {B} (f : observer -> option B) b := fun o' => if decide (o' = o) then Some b else f o' in
  {| observerService := put a.(observerService) s; observerServiceUri := put a.(observerServiceUri) s.(sv_uri);
     echoServiceUri := a.(echoServiceUri); objectsCreated := a.(objectsCreated); errorOccurred := a.(errorOccurred) |}.
Definition set_echo (u : jsstr) (a : TestPage) : TestPage :=
  {| observerService := a.(observerService); observerServiceUri := a.(observerServiceUri); echoServiceUri := Some u;
     objectsCreated := a.(objectsCreated); errorOccurred := a.(errorOccurred) |}.
Definition push_object (v : option value) (a : TestPage) : TestPage :=
  {| observerService := a.(observerService); observerServiceUri := a.(observerServiceUri);
     echoServiceUri := a.(echoServiceUri); objectsCreated := a.(objectsCreated) ++ [v]; errorOccurred := a.(errorOccurred) |}.
Definition set_error (e : jsstr) (a : TestPage) : TestPage :=
  {| observerService := a.(observerService); observerServiceUri := a.(observerServiceUri);
     echoServiceUri := a.(echoServiceUri); objectsCreated := a.(objectsCreated); errorOccurred := Some e |}.

(** [op.body.documentSelfLink]. *)
Definition self_link (op : Operation) : exec (option value) :=
  match op.(op_body) with Some b => json_field b "documentSelfLink" | None => Throw TypeError end.

(** [{method: op.action, requestBody: op.body}], without undefined properties,
    which [JSON.stringify] leaves out. *)
Definition echo_body (op : Operation) : value :=
  JObj (match op.(op_action) with Some v => [(js "method", v)] | None => [] end
        ++ match op.(op_body) with Some v => [(js "requestBody", v)] | None => [] end).

Definition code_text (c : code) : jsstr := match c with CodeStr s => s | CodeNum z => dec_Z z end.

Definition page_callback (o : out page_cb) : prog page_cb TestPage :=
  match o with
  | HandleRequest Observe op =>
      let fail_ := do_then (Fail op None None) Return in
      match self_link op with
      | Throw _ => fail_
      | Ret v => Update (push_object v) (Do (Complete op) (fun x => match x with None => Return | Some _ => fail_ end))
      end
  | HandleRequest Echo op =>
      do_then (Complete {| op_action := op.(op_action); op_statusCode := op.(op_statusCode); op_body := Some (echo_body op);
                           op_id := op.(op_id); op_oncompletion := op.(op_oncompletion) |}) Return
  | ServiceReady (ObserverReady o) wss =>
      do_then (Subscribe wss examplesServiceLink None None) (Update (set_observer o wss) Return)
  | ServiceReady EchoReady wss => Update (set_echo wss.(sv_uri)) Return
  | Failure CreateFailed c b => Update (set_error (code_text c ++ ": " ++ default (js "null") b)) Return
  | _ => Return
  end.

(** The calls the page starts with. *)
Definition page_main : prog page_cb TestPage :=
  do_then (CreateService Observe (ObserverReady ForStop) (Some CreateFailed))
    (do_then (CreateService Observe (ObserverReady ForClose) (Some CreateFailed))
      (do_then (CreateService Observe (ObserverReady ForUnsubscribe) (Some CreateFailed))
        (do_then (CreateService Echo EchoReady (Some CreateFailed)) Return))).

(** The page before its socket opens: four requests wait, and opening sends
    them in order. *)
Lemma page_starts (ep : jsstr) n :
  exists st, perform getLocation page_callback n page_main (new_WebSocketConnection ep) new_TestPage
             = Some (st, new_TestPage, [], None)
    /\ sends (onopen st).1.2 = map (fun i => request_frame i POST WS_SERVICE_PATH None) [0; 1; 2; 3]%N.
Proof. eexists. split; [by destruct n|reflexivity]. Qed.

Lemma indexOf_POST t : (indexOf (POST ++ t) POST =? 0)%Z = true.
Proof. apply Z.eqb_eq. unfold indexOf. destruct (POST ++ t) eqn:E; [done|]. cbn [find_sub]. by rewrite <- E, startsWith_app. Qed.

(** A frame that replies to an operation. *)
Definition reply_to (st : conn page_cb) (fs : list (jsstr * value)) (uri : jsstr) (status : Z) (body : option value) : jsstr :=
  request_frame (requestCounter st) REPLY (getLocation uri)
    (Some (reply_body {| op_action := None; op_statusCode := status; op_body := body; op_id := obj_get fs "id"; op_oncompletion := None |})).

(** An operation posted to a service of the page is answered by one reply,
    sent while the message is handled, with the id of the operation: the echo
    service sends back the action and the body; an observer records the link
    of the document and sends the body back; an operation without a body
    is answered by an observer with status 500, and nothing is recorded. *)
Theorem test_page_replies (n : nat) (st : conn page_cb) (a : TestPage) (uri txt bodyTxt : jsstr)
    (fs : list (jsstr * value)) (body : value) (s : service page_cb) :
  13%N ∉ uri -> ready st = true -> failure st = None -> services st !! uri = Some s ->
  json_parse txt = Some (JObj fs) -> obj_get fs "jsonBody" = Some (JStr bodyTxt) -> json_parse bodyTxt = Some body ->
  let run := re_onmessage getLocation page_callback n st a (POST ++ " " ++ uri ++ CR_LF ++ txt) in
  (sv_handleRequest s = Echo ->
    exists st', run = Some (st', a, [reply_to st fs uri 200 (Some (echo_body (posted_op fs body uri)))], None))
  /\ (sv_handleRequest s = Observe -> forall v, json_field body "documentSelfLink" = Ret v ->
    exists st', run = Some (st', push_object v a, [reply_to st fs uri 200 (Some body)], None))
  /\ (sv_handleRequest s = Observe -> body = JNull ->
    exists st', run = Some (st', a, [reply_to st fs uri 500 None], None)).
Proof.
  intros Hu Hr Hf Hs Hp Hb Hpb run. subst run. unfold re_onmessage. rewrite indexOf_POST.
  rewrite (post_delivered st uri txt fs bodyTxt body s) by done. unfold then_callback. cbn [called sends omap].
  split_and!.
  - intros ->. eexists. destruct n; cbn [perform page_callback do_then do_call complete op_oncompletion posted_op];
      unfold doRequest; cbn [q_doneHandler]; rewrite Hr, Hf; reflexivity.
  - intros -> v Hv. eexists. unfold page_callback, self_link. cbn [op_body posted_op]. rewrite Hv.
    destruct n; cbn [perform do_then do_call complete op_oncompletion posted_op];
      unfold doRequest; cbn [q_doneHandler]; rewrite Hr, Hf; reflexivity.
  - intros -> ->. eexists. destruct n; cbn [perform page_callback self_link json_field op_body posted_op do_then do_call fail complete op_oncompletion];
      unfold doRequest; cbn [q_doneHandler]; rewrite Hr, Hf; reflexivity.
Qed.
End TestPage.

(** ** Examples *)

Section Samples.
#[local] Instance page_json : JsonLib := {|
  jnum := Z; jnum_of_Z := fun z => z;
  json_parse := fun s => if s === "{s}" then Some (JObj [(js "uri", JStr "/s")])
                         else if s === "{op}" then Some (JObj [(js "id", JNum 7%Z); (js "action", JStr "PATCH"); (js "jsonBody", JStr "1")])
                         else if s === "1" then Some (JNum 1%Z) else None;
  json_stringify := fun v => match v with JNum 1%Z => js "1" | _ => js "{}" end; json_toString := fun _ => js "x" |}.

Let s0 : sys (cb := page_cb) := ws_init "/core/ws-endpoint".
Let s1 : sys := advance s0 (createService (sys_conn s0) Observe (ObserverReady ForStop) (Some CreateFailed)).
Let s2 : sys := advance s1 (onopen (sys_conn s1)).

Lemma callbacks_deferred_witness :
  exists st' a' fr,
    then_callback (fun x => x) page_callback 0 (onmessage (sys_conn s2) ("202 0" ++ CR_LF ++ "{s}")) new_TestPage = Some (st', a', fr, None)
    /\ re_onmessage (fun x => x) page_callback 0 (sys_conn s2) new_TestPage ("202 0" ++ CR_LF ++ "{s}") = Some (st', a', fr, None)
    /\ observerServiceUri a' ForStop = Some (js "/s") /\ length fr = 1.
Proof.
  assert (Hr : star (ws_step (fun x => x)) s0 s2).
  { apply (star_snoc _ _ s1); [apply (star_snoc _ _ s0); [apply star_refl|]|].
    - apply (ws_create (fun x => x) s0).
    - apply ws_open. }
  destruct (callbacks_deferred (fun x => x) page_callback 0 "/core/ws-endpoint" s2 new_TestPage ("202 0" ++ CR_LF ++ "{s}") Hr eq_refl)
    as (st' & st'' & a' & fr & x & H1 & H2 & H3 & _).
  assert (Ex : Some (st', a', fr, x) = then_callback (fun x => x) page_callback 0 (onmessage (sys_conn s2) ("202 0" ++ CR_LF ++ "{s}")) new_TestPage)
    by (symmetry; exact H1).
  vm_compute in Ex. injection Ex as E1 E2 E3 E4.
  assert (x = None) as -> by exact E4. rewrite H3 in H2 by reflexivity. exists st', a', fr.
  split; [exact H1|]. split; [exact H2|]. rewrite E2, E3. split; reflexivity.
Defined.

Let echo_conn : conn page_cb :=
  {| endpoint := "/e"; ready := true; opened := true; services := {[js "/s" := {| sv_uri := "/s"; sv_handleRequest := Echo |}]};
     doneHandlers := ∅; requestCounter := 4; requestQueue := []; failure := None |}.

Lemma test_page_replies_witness :
  exists st', re_onmessage (fun x => x) page_callback 0 echo_conn new_TestPage (POST ++ " " ++ "/s" ++ CR_LF ++ "{op}")
    = Some (st', new_TestPage, [js "4" ++ CR_LF ++ "REPLY /s" ++ CR_LF ++ "{}"], None).
Proof.
  destruct (test_page_replies (fun x => x) 0 echo_conn new_TestPage "/s" "{op}" "1"
    [(js "id", JNum 7%Z); (js "action", JStr "PATCH"); (js "jsonBody", JStr "1")] (JNum 1%Z)
    {| sv_uri := "/s"; sv_handleRequest := Echo |}) as (H & _); try reflexivity.
  - vm_compute. set_solver.
  - destruct (H eq_refl) as [st' Hs]. exists st'. exact Hs.
Defined.
End Samples.
