(* ===== verification/StringUtil.v ===== *)
(** * string.util.ts: identifiers, links, urls and formatting

    The static helpers of [StringUtil].  moment and numeral are parameters;
    lodash is the class of Lodash.v. *)

From Stdlib Require Import QArith.
From S2P Require Import Prelude JsString JsUri Lodash.

(** ** encodeToId and decodeFromId *)

(** The regular expression arguments are a class of characters to encode and
    literal texts to replace; [None] is an argument left out.  A [replace]
    of [Some None] is the value [false]: no replacement. *)

Definition exclude_match (exclude : N -> bool) (spacer : jsstr) (s : jsstr) : option (jsstr * nat) :=
  match s with
  | c :: _ => if exclude c then Some (spacer ++ dec_N c ++ spacer, 1) else None
  | [] => None
  end.

Definition apply_replacements (rs : list (jsstr * jsstr)) (s : jsstr) : jsstr :=
  fold_left (fun s r => replace_all r.1 r.2 s) rs s.

Definition encodeToId (s : option jsstr) (prefix : option jsstr) (exclude : option (N -> bool))
    (spacer : option jsstr) (replace : option (option (list (jsstr * jsstr)))) : option jsstr :=
  match s with
  | None => None
  | Some s =>
      let prefix := default (js "id_") prefix in
      let exclude := default (fun c => negb (is_alnum c)) exclude in
      let spacer := default (js "-") spacer in
      let replace := default (Some [(js "-47-", js "_")]) replace in
      let s := gsub (exclude_match exclude spacer) 0 s in
      let s := match replace with Some rs => apply_replacements rs s | None => s end in
      Some (prefix ++ s)
  end.

(** The largest [k] such that the first [k] units, digits, are followed by the
    spacer: the match of [\d+] and the spacer, with backtracking. *)
Fixpoint match_digits (k : nat) (spacer r : jsstr) : option nat :=
  match k with
  | O => None
  | S k' => if startsWith (drop k r) spacer then Some k else match_digits k' spacer r
  end.

Definition match_code (spacer : jsstr) (s : jsstr) : option (jsstr * nat) :=
  match strip_prefix spacer s with
  | None => None
  | Some r =>
      match match_digits (length (span is_digit r).1) spacer r with
      | None => None
      | Some k => Some ([(digits_value 0 (take k r) mod 65536)%N], length spacer + k + length spacer)
      end
  end.

Definition decodeFromId (s : option jsstr) (prefix : option jsstr) (spacer : option jsstr)
    (replace : option (option (list (jsstr * jsstr)))) : option jsstr :=
  match s with
  | None => None
  | Some s =>
      let prefix := default (js "id_") prefix in
      let spacer := default (js "-") spacer in
      let replace := default (Some [(js "_", js "/")]) replace in
      let s := if truthy prefix then drop (length prefix) s else s in
      let s := match replace with Some rs => apply_replacements rs s | None => s end in
      Some (gsub (match_code spacer) 0 s)
  end.

(** The calls the views make. *)
Definition toId (s : jsstr) : option jsstr := encodeToId (Some s) None None None None.
Definition fromId (s : jsstr) : option jsstr := decodeFromId (Some s) None None None.

(** ** parseDocumentLink *)

Record DocumentLink := { dl_prefix : jsstr; dl_type : jsstr; dl_id : jsstr }.

Section Links.
Context {L : Lodash}.

Definition last_fragment (frags : list jsstr) : jsstr := nth (length frags - 1) frags [].

(** By default: first fragment, a slice of the middle, last fragment. *)
Definition default_link (frags : list jsstr) : DocumentLink :=
  {| dl_prefix := nth 0 frags [];
     dl_type := lo_join (lo_slice frags 1 (Z.of_nat (length frags) - 2)) "/";
     dl_id := last_fragment frags |}.

Definition parseDocumentLink (documentLink factoryLink : jsstr) : DocumentLink :=
  let linkFragments := split 47 documentLink in
  if (length linkFragments <? 3)%nat then {| dl_prefix := []; dl_type := []; dl_id := [] |}
  else if negb (truthy factoryLink) then default_link linkFragments
  else
    let factoryLinkFragments := split 47 factoryLink in
    let linkIntersection := lo_intersection linkFragments factoryLinkFragments in
    match linkIntersection with
    | [] => default_link linkFragments
    | [p] => {| dl_prefix := p; dl_type := []; dl_id := last_fragment linkFragments |}
    | p :: _ =>
        {| dl_prefix := p;
           dl_type := lo_join (lo_tail linkIntersection) "/";
           dl_id := lo_join (lo_difference linkFragments factoryLinkFragments) "/" |}
    end.
End Links.

(** ** parseUrl *)

Record UrlFragment := {
  protocol : jsstr; host : jsstr; hostname : jsstr; port : option jsstr;
  pathname : jsstr; search : jsstr; hash : jsstr
}.

Definition is_host_unit (c : N) : bool := negb (bool_decide (c ∈ js ":/?#")).
Definition is_path_unit (c : N) : bool := negb (bool_decide (c ∈ js "?#")).
Definition not_hash (c : N) : bool := negb (c =? 35)%N.

(** The optional port: a colon and at least one digit. *)
Definition parse_port (s : jsstr) : option jsstr * jsstr :=
  match strip_prefix ":" s with
  | Some r => match span is_digit r with
              | ([], _) => (None, s)
              | (p, r') => (Some p, r')
              end
  | None => (None, s)
  end.

Definition host_text (hostname : jsstr) (port : option jsstr) : jsstr :=
  hostname ++ match port with Some p => ":" ++ p | None => [] end.

(** From the path on: path, query string, fragment. *)
Definition parse_tail (proto hostname : jsstr) (port : option jsstr) (s : jsstr) : option UrlFragment :=
  match s with
  | c :: _ =>
      if (c =? 47)%N then
        let '(path, r) := span is_path_unit s in
        let '(srch, r') := match r with
                           | d :: _ => if (d =? 63)%N then span not_hash r else ([], r)
                           | [] => ([], r)
                           end in
        if forallb (fun d => negb (is_line_end d)) r'
        then Some {| protocol := proto; host := host_text hostname port; hostname := hostname;
                     port := port; pathname := path; search := srch; hash := r' |}
        else None
      else None
  | [] => None
  end.

Definition parse_rest (proto : jsstr) (s : jsstr) : option UrlFragment :=
  match strip_prefix "//" s with
  | Some r => let '(h, r1) := span is_host_unit r in
              let '(p, r2) := parse_port r1 in parse_tail proto h p r2
  | None => None
  end.

Definition parseUrl (url : jsstr) : option UrlFragment :=
  match strip_prefix "http:" url, strip_prefix "https:" url with
  | Some r, _ => parse_rest "http:" r
  | None, Some r => parse_rest "https:" r
  | None, None => None
  end.

(** ** Query parameters *)

(** The regular expression built from the name: a question mark or an
    ampersand, the name, then an equals sign with a run of units up to an
    ampersand or a hash (group 2), or an ampersand, a hash or the end.
    [Some v] is group 2, empty when it took no part.  The name is a literal
    text, as it is at every call. *)
Definition is_value_unit (c : N) : bool := negb (bool_decide (c ∈ js "&#")).

Definition match_param (name : jsstr) (s : jsstr) : option jsstr :=
  match strip_prefix name s with
  | None => None
  | Some [] => Some []
  | Some (c :: v) =>
      if (c =? 61)%N then Some (span is_value_unit v).1
      else if bool_decide (c ∈ js "&#") then Some [] else None
  end.

Fixpoint find_param (name : jsstr) (s : jsstr) : option jsstr :=
  match s with
  | [] => None
  | c :: r =>
      if bool_decide (c ∈ js "?&") then
        match match_param name r with
        | Some v => Some v
        | None => find_param name r
        end
      else find_param name r
  end.

(** [Ret None] is [null]. *)
Definition getQueryParametersByName (url name : jsstr) : exec (option jsstr) :=
  match find_param name url with
  | None => Ret None
  | Some [] => Ret (Some [])
  | Some v =>
      match decodeURIComponent (map (fun c => if (c =? 43)%N then 32%N else c) v) with
      | Some d => Ret (Some d)
      | None => Throw URIError
      end
  end.

Definition hasQueryParameter (url : jsstr) : bool := bool_decide (63%N ∈ url).

(** ** Formatting *)

Section Formatting.
(** [numeral(n).format(f)], [moment(ms).local().format(f)],
    [moment.utc(s).local().format(f)], and the two conversions of
    [moment.duration(ms)]. *)
Context (numeral_format : Q -> jsstr -> jsstr).
Context (moment_format : Q -> jsstr -> jsstr).
Context (moment_utc_format : jsstr -> jsstr -> jsstr).
Context (asSeconds asMilliseconds : Q -> Q).

Definition time_format (timeOnly : bool) : jsstr :=
  if timeOnly then js "hh:mm A" else js "M/D/YY hh:mm A".

Definition getTimeStamp (timeInMicroseconds : Q) (timeOnly : bool) : jsstr :=
  if Qeq_bool timeInMicroseconds 0 then js "Never"
  else moment_format (timeInMicroseconds / 1000) (time_format timeOnly).

Definition formatTimeStamp (timeString : jsstr) (timeOnly : bool) : jsstr :=
  moment_utc_format timeString (time_format timeOnly).

Definition Qltb (x y : Q) : bool := negb (Qle_bool y x).

Definition formatNumber (n : Q) (usePrefix : bool) : jsstr :=
  if Qltb n 1000 || negb usePrefix then numeral_format n "0,0"
  else if Qle_bool 1000 n && Qltb n 10000 then numeral_format n "0.0a"
  else js "10k+".

Definition formatDurationToSeconds (microseconds : Q) : jsstr :=
  formatNumber (asSeconds (microseconds / 1000)) false.

Definition formatDurationToMilliseconds (microseconds : Q) : jsstr :=
  formatNumber (asMilliseconds (microseconds / 1000)) false.

Definition formatDataSize (bytes : Q) : jsstr := numeral_format bytes "0.00 b".

Definition formatPercentage (n : Q) : jsstr := numeral_format n "0.000 %".
End Formatting.

(** ** Round trip of identifiers *)

(** Texts of the default arguments, as code units. *)
Lemma js_dash : js "-" = [45%N]. Proof. reflexivity. Qed.
Lemma js_slash : js "/" = [47%N]. Proof. reflexivity. Qed.
Lemma js_underscore : js "_" = [95%N]. Proof. reflexivity. Qed.
Lemma js_m47m : js "-47-" = [45; 52; 55; 45]%N. Proof. reflexivity. Qed.

Definition special (c : N) : bool := negb (is_alnum c).

(** One encoded character, before and after the replacement of slashes. *)
Definition enc_unit (c : N) : jsstr := if special c then 45%N :: dec_N c ++ [45%N] else [c].
Definition enc_slash (slash : jsstr) (c : N) : jsstr := if (c =? 47)%N then slash else enc_unit c.

Lemma gsub_enc_unit s :
  gsub (exclude_match special "-") 0 s = concat (map enc_unit s).
Proof.
  rewrite js_dash. induction s as [|c s IH]; [done|].
  cbn [gsub map concat exclude_match]. unfold enc_unit at 1. rewrite <- IH.
  destruct (special c); cbn [app]; [|done]. by rewrite <- app_assoc.
Qed.

(** A slash, or any other character whose neighbours do not make the text of
    an encoded slash: a special character other than a slash followed by
    "47" and a special character is excluded. *)
Fixpoint no_false_slash (s : jsstr) : bool :=
  match s with
  | [] => true
  | c :: r =>
      negb (special c && negb (c =? 47)%N &&
            match r with
            | a :: b :: d :: _ => (a =? 52)%N && (b =? 55)%N && special d
            | _ => false
            end)
      && no_false_slash r
  end.

Lemma is_digit_not_special c : is_digit c = true -> special c = false.
Proof. unfold special, is_alnum. intros ->. by rewrite orb_true_r. Qed.

Lemma alnum_ne c k : special c = false -> special k = true -> (c =? k)%N = false.
Proof. intros H1 H2. apply N.eqb_neq. intros ->. congruence. Qed.

Lemma dec_N_47 c : dec_N c = [52; 55]%N -> c = 47%N.
Proof. intros H. rewrite <- (digits_value_dec c), H. done. Qed.

(** The text of a special character that is no slash does not start with
    "-47-". *)
Lemma enc_no_match c t :
  special c = true -> (c =? 47)%N = false ->
  match_lit "-47-" "_" (45%N :: dec_N c ++ [45%N] ++ t) = None.
Proof.
  intros Hs Hc. unfold match_lit. rewrite js_m47m.
  destruct (strip_prefix _ _) as [u|] eqn:E; [|done]. exfalso.
  apply strip_prefix_Some in E. injection E as E.
  apply N.eqb_neq in Hc. apply Hc, dec_N_47.
  pose proof (dec_N_digits c) as Hd. pose proof (dec_N_nonempty c) as Hn.
  destruct (dec_N c) as [|x [|y [|z ds]]]; simplify_eq/=; try done.
  rewrite !list.Forall_cons in Hd. by destruct Hd as (_ & _ & Hz & _).
Qed.

(** An encoded text that starts with a plain unit encodes one that does. *)
Lemma enc_head x s u :
  x <> 45%N -> concat (map enc_unit s) = x :: u -> exists s', s = x :: s' /\ concat (map enc_unit s') = u.
Proof.
  intros Hx. destruct s as [|a s]; [done|]. cbn [map concat]. unfold enc_unit at 1.
  destruct (special a); cbn [app]; intros [= <- <-]; [done|]. eauto.
Qed.

(** What may follow a closing spacer without making an encoded slash. *)
Lemma close_no_match s :
  match s with
  | a :: b :: d :: _ => ((a =? 52)%N && (b =? 55)%N && special d) = false
  | _ => True
  end ->
  match_lit "-47-" "_" (45%N :: concat (map enc_unit s)) = None.
Proof.
  intros H. unfold match_lit. rewrite js_m47m.
  destruct (strip_prefix _ _) as [u|] eqn:E; [|done]. exfalso.
  apply strip_prefix_Some in E. injection E as E.
  apply enc_head in E as (s1 & -> & E); [|done]. apply enc_head in E as (s2 & -> & E); [|done].
  destruct s2 as [|d s2]; [done|]. cbn in H. cbn [map concat] in E. unfold enc_unit at 1 in E.
  destruct (special d) eqn:Ed; [done|]. injection E as -> _. done.
Qed.

(** A run of units none of which is a dash is copied by the scan. *)
Lemma copy_no_dash a t :
  45%N ∉ a -> gsub (match_lit "-47-" "_") 0 (a ++ t) = a ++ gsub (match_lit "-47-" "_") 0 t.
Proof.
  intros Ha. apply gsub_nomatch_app. intros a1 c a2 ->. unfold match_lit. rewrite js_m47m. cbn [strip_prefix].
  destruct (N.eqb_spec 45 c) as [<-|]; [|done]. exfalso. apply Ha. set_solver.
Qed.

Lemma digits_no_dash c : 45%N ∉ dec_N c.
Proof.
  intros Hin. pose proof (dec_N_digits c) as H. rewrite list.Forall_forall in H.
  by apply H in Hin.
Qed.

(** Replacing the encoded slashes touches nothing else. *)
Lemma replace_slashes s :
  no_false_slash s = true ->
  replace_all "-47-" "_" (concat (map enc_unit s)) = concat (map (enc_slash "_") s).
Proof.
  unfold replace_all. induction s as [|c s IH]; intros Hn; [done|].
  cbn [no_false_slash] in Hn. apply andb_true_iff in Hn as [Hc Hn].
  cbn [map concat]. unfold enc_slash at 1.
  destruct (N.eqb_spec c 47) as [->|Hne].
  - change (enc_unit 47) with (js "-47-").
    rewrite (gsub_match _ _ _ (js "_")); [by rewrite IH | done|].
    unfold match_lit. by rewrite strip_prefix_app.
  - unfold enc_unit at 1 3. destruct (special c) eqn:Es; cycle 1.
    { rewrite copy_no_dash; [by rewrite IH|]. apply not_elem_of_cons. split; [|set_solver].
      intros <-. done. }
    rewrite <- app_comm_cons, <- app_assoc.
    rewrite gsub_nomatch by (apply enc_no_match; [done|by apply N.eqb_neq]).
    rewrite copy_no_dash by apply digits_no_dash. cbn [app].
    rewrite gsub_nomatch; [rewrite IH by done; cbn [app]; by rewrite <- app_assoc|].
    apply close_no_match. cbn in Hc.
    destruct s as [|a [|b [|d s]]]; try done. cbn in Hc. by apply negb_true_iff in Hc.
Qed.

(** Decoding, first step: underscores become slashes. *)
Lemma restore_slashes s :
  replace_all "_" "/" (concat (map (enc_slash "_") s)) = concat (map (enc_slash "/") s).
Proof.
  unfold replace_all. induction s as [|c s IH]; [done|].
  cbn [map concat]. unfold enc_slash at 1 3. destruct (N.eqb_spec c 47) as [->|Hne].
  - rewrite (gsub_match _ _ _ (js "/")); [by rewrite IH|done|]. unfold match_lit. by rewrite strip_prefix_app.
  - rewrite gsub_nomatch_app; [by rewrite IH|]. intros a1 d a2 Ha.
    unfold match_lit. rewrite js_underscore. cbn [strip_prefix].
    destruct (N.eqb_spec 95 d) as [<-|]; [|done]. exfalso.
    assert (Hin : 95%N ∈ enc_unit c) by (rewrite Ha; set_solver). clear Ha.
    unfold enc_unit in Hin. destruct (special c) eqn:Es.
    + apply elem_of_cons in Hin as [?|Hin]; [done|]. apply elem_of_app in Hin as [Hin|Hin]; [|set_solver].
      pose proof (dec_N_digits c) as H. rewrite list.Forall_forall in H. by apply H in Hin.
    + apply list_elem_of_singleton in Hin as <-. done.
Qed.

(** Decoding, second step: the scan reads one encoded character. *)
Lemma match_code_dec c t :
  (c < 65536)%N -> match_code "-" (45%N :: dec_N c ++ [45%N] ++ t)
                   = Some ([c], length (45%N :: dec_N c ++ [45%N])).
Proof.
  intros Hc. unfold match_code. rewrite js_dash. cbn [strip_prefix N.eqb Pos.eqb].
  rewrite span_app; [|apply dec_N_digits|done]. cbn [fst].
  pose proof (dec_N_nonempty c) as Hne. destruct (length (dec_N c)) as [|k] eqn:El.
  { by apply nil_length_inv in El. }
  cbn [match_digits]. rewrite <- El, drop_app_length. unfold startsWith at 1.
  cbn [strip_prefix app N.eqb Pos.eqb]. rewrite take_app_length.
  rewrite digits_value_dec, N.mod_small by done.
  do 2 f_equal. cbn [length]. rewrite length_app. cbn. lia.
Qed.

Lemma decode_units s :
  units_ok s -> gsub (match_code "-") 0 (concat (map (enc_slash "/") s)) = s.
Proof.
  induction s as [|c s IH]; intros Hok; [done|].
  apply list.Forall_cons in Hok as [Hc Hok]. cbn [map concat]. unfold enc_slash at 1.
  assert (Hcopy : forall d, (d =? 45)%N = false -> forall t, match_code "-" (d :: t) = None).
  { intros d Hd t. unfold match_code. rewrite js_dash. cbn [strip_prefix]. by rewrite N.eqb_sym, Hd. }
  destruct (N.eqb_spec c 47) as [->|Hne].
  - rewrite js_slash at 1. cbn [app]. rewrite gsub_nomatch by (by apply Hcopy). by rewrite IH.
  - unfold enc_unit at 1. destruct (special c) eqn:Es.
    + rewrite (gsub_match _ _ _ [c]); [by rewrite IH|done|].
      rewrite <- app_comm_cons, <- app_assoc. by apply match_code_dec.
    + cbn [app]. rewrite gsub_nomatch; [by rewrite IH|]. apply Hcopy. by apply alnum_ne.
Qed.

(** C9: An id attribute made from a text decodes to that text, whatever
    characters it has, unless a special character other than a slash is
    followed by "47" and another special character; the id consists of
    letters, digits, dashes and underscores. *)
Theorem id_roundtrip (s : jsstr) :
  units_ok s -> no_false_slash s = true ->
  exists i, toId s = Some i /\ fromId i = Some s
    /\ Forall (fun c => is_alnum c = true \/ c = 45%N \/ c = 95%N) i.
Proof.
  intros Hok Hn. eexists. split; [reflexivity|]. unfold fromId, decodeFromId.
  cbn [default id apply_replacements fold_left fst snd from_option].
  change (truthy "id_") with true. cbn iota. rewrite drop_app_length.
  change (fun c : N => negb (is_alnum c)) with special.
  rewrite gsub_enc_unit, replace_slashes, restore_slashes, decode_units by done.
  split; [done|]. apply Forall_app. split.
  { change (js "id_") with [105; 100; 95]%N. rewrite !list.Forall_cons. repeat split; auto. }
  clear Hok Hn. induction s as [|c s IH]; [constructor|]. cbn [map concat].
  apply Forall_app. split; [|done]. unfold enc_slash. destruct (c =? 47)%N.
  { rewrite js_underscore, list.Forall_cons. auto. }
  unfold enc_unit. destruct (special c) eqn:Es.
  - constructor; [auto|]. apply Forall_app. split; [|constructor; auto].
    eapply list.Forall_impl; [apply dec_N_digits|]. intros d Hd. left.
    apply is_digit_not_special in Hd. unfold special in Hd. by apply negb_false_iff in Hd.
  - apply list.Forall_cons. split; [left|constructor]. unfold special in Es. by apply negb_false_iff in Es.
Qed.

Lemma id_roundtrip_witness :
  exists i, toId (js "/core/examples/a b_c-1") = Some i
    /\ fromId i = Some (js "/core/examples/a b_c-1")
    /\ Forall (fun c => is_alnum c = true \/ c = 45%N \/ c = 95%N) i.
Proof. apply (id_roundtrip (js "/core/examples/a b_c-1")); [by vm_compute; repeat constructor|reflexivity]. Defined.

(** The excluded texts do decode to something else: the closing spacer of
    one code, the digits "47" and the opening spacer of the next are taken for
    an encoded slash. *)
Theorem id_roundtrip_fails :
  toId "/core/a-47-b" = Some (js "id__core_a-45_45-b")
  /\ fromId "id__core_a-45_45-b" = Some (js "/core/a-45/45-b").
Proof. split; reflexivity. Qed.

(** ** Parsing of urls *)

(** The text a parsed url stands for, and the shape of its parts. *)
Definition render_url (u : UrlFragment) : jsstr :=
  u.(protocol) ++ "//" ++ u.(host) ++ u.(pathname) ++ u.(search) ++ u.(hash).

Definition url_wf (u : UrlFragment) : Prop :=
  (u.(protocol) = js "http:" \/ u.(protocol) = js "https:")
  /\ u.(host) = host_text u.(hostname) u.(port)
  /\ Forall (fun c => is_host_unit c = true) u.(hostname)
  /\ match u.(port) with
     | Some p => p <> [] /\ Forall (fun c => is_digit c = true) p
     | None => True
     end
  /\ (exists p, u.(pathname) = 47%N :: p /\ Forall (fun c => is_path_unit c = true) p)
  /\ match u.(search) with
     | [] => True
     | c :: q => c = 63%N /\ Forall (fun c => not_hash c = true) q
     end
  /\ match u.(hash) with
     | [] => True
     | c :: h => c = 35%N /\ Forall (fun c => is_line_end c = false) h
     end.

Lemma js_colon : js ":" = [58%N]. Proof. reflexivity. Qed.

Lemma parse_port_spec s p r :
  parse_port s = (p, r) ->
  match p with
  | Some d => s = ":" ++ d ++ r /\ d <> [] /\ Forall (fun c => is_digit c = true) d
  | None => s = r
  end.
Proof.
  unfold parse_port. destruct (strip_prefix ":" s) as [t|] eqn:E; [|by intros [= <- <-]].
  apply strip_prefix_Some in E as ->. destruct (span is_digit t) as [[|x d] r'] eqn:Es; intros [= <- <-]; [done|].
  apply span_spec in Es as (-> & Hd & _). done.
Qed.

Lemma not_path_unit c : is_path_unit c = false -> c = 63%N \/ c = 35%N.
Proof.
  unfold is_path_unit. intros H%negb_false_iff%bool_decide_eq_true.
  change (js "?#") with [63; 35]%N in H. set_solver.
Qed.

(** The part of [url_wf] that [parse_tail] establishes. *)
Definition tail_wf (path srch hsh : jsstr) : Prop :=
  (exists p, path = 47%N :: p /\ Forall (fun c => is_path_unit c = true) p)
  /\ match srch with [] => True | c :: q => c = 63%N /\ Forall (fun c => not_hash c = true) q end
  /\ match hsh with [] => True | c :: h => c = 35%N /\ Forall (fun c => is_line_end c = false) h end.

Lemma no_line_end h :
  forallb (fun d => negb (is_line_end d)) h = true <-> Forall (fun c => is_line_end c = false) h.
Proof.
  rewrite forallb_forall, list.Forall_forall. setoid_rewrite <- list_elem_of_In.
  split; intros H c Hc; apply H, negb_true_iff in Hc || apply negb_true_iff, H; done.
Qed.

(** What is left after the path splits into query string and fragment. *)
Lemma search_split r srch hsh :
  (match r with c :: _ => is_path_unit c = false | [] => True end) ->
  (match r with
   | d :: _ => if (d =? 63)%N then span not_hash r else ([], r)
   | [] => ([], r)
   end) = (srch, hsh) ->
  r = srch ++ hsh
  /\ match srch with [] => True | c :: q => c = 63%N /\ Forall (fun c => not_hash c = true) q end
  /\ match hsh with [] => True | c :: _ => c = 35%N end.
Proof.
  destruct r as [|d r]; intros Hd; [by intros [= <- <-]|].
  destruct (N.eqb_spec d 63) as [->|Hne].
  - intros E. apply span_spec in E as (E & Hq & Hh). split; [done|].
    destruct srch as [|c q]; simplify_eq/=.
    apply list.Forall_cons in Hq as [_ Hq]. split; [done|].
    destruct hsh as [|h hsh]; [done|]. unfold not_hash in Hh.
    by apply negb_false_iff, N.eqb_eq in Hh.
  - intros [= <- <-]. apply not_path_unit in Hd as [?|?]; done.
Qed.

Lemma parse_tail_spec pr h p s u :
  parse_tail pr h p s = Some u <->
  s = u.(pathname) ++ u.(search) ++ u.(hash) /\ tail_wf u.(pathname) u.(search) u.(hash)
  /\ u.(protocol) = pr /\ u.(hostname) = h /\ u.(port) = p /\ u.(host) = host_text h p.
Proof.
  split.
  - unfold parse_tail. destruct s as [|c s]; [done|]. destruct (N.eqb_spec c 47) as [->|]; [|done].
    destruct (span is_path_unit _) as [path r] eqn:Ep. apply span_spec in Ep as (Es & Hp & Hr).
    destruct (match r with [] => _ | _ :: _ => _ end) as [srch hsh] eqn:Eq.
    apply search_split in Eq as (-> & Hq & Hh); [|done].
    destruct (forallb _ hsh) eqn:El; [|done]. apply no_line_end in El. intros [= <-]. cbn.
    rewrite Es. repeat split; try done.
    + destruct path as [|c p']; [|cbn in Es; injection Es as <- Es; apply list.Forall_cons in Hp; naive_solver].
      cbn in Es. destruct srch as [|c' q]; [destruct hsh; simplify_eq/=|]; destruct_and?; simplify_eq/=.
    + destruct hsh as [|c' hsh]; [done|]. apply list.Forall_cons in El as [_ El]. done.
  - intros (-> & ((p' & Hp & Hpu) & Hq & Hh) & <- & <- & <- & Hhost). destruct u as [pr' ho hn po pa se ha]; cbn in *.
    subst pa ho. unfold parse_tail. cbn [app]. rewrite N.eqb_refl. rewrite app_comm_cons.
    assert (Hstop : match se ++ ha with c :: _ => is_path_unit c = false | [] => True end).
    { destruct se as [|c q]; cbn; [destruct ha as [|c h]; [done|]|]; by destruct_and?; subst c. }
    rewrite span_app; [|by constructor|done].
    assert (Hs : (match se ++ ha with
      | d :: _ => if (d =? 63)%N then span not_hash (se ++ ha) else ([], se ++ ha)
      | [] => ([], se ++ ha) end) = (se, ha)).
    { destruct se as [|c q]; cbn [app]; [destruct ha as [|c h]; [done|]; by destruct_and?; subst c|].
      destruct Hq as [-> Hq]. cbn [N.eqb Pos.eqb]. rewrite app_comm_cons. apply span_app; [by constructor|].
      destruct ha as [|c h]; [done|]. by destruct_and?; subst c. }
    rewrite Hs. rewrite (proj2 (no_line_end ha)); [done|].
    destruct ha as [|c h]; [constructor|]. destruct Hh as [-> Hh]. by constructor.
Qed.

Lemma parse_port_host p t :
  match p with Some d => d <> [] /\ Forall (fun c => is_digit c = true) d | None => True end ->
  match t with c :: _ => c = 47%N | [] => True end ->
  parse_port (match p with Some d => ":" ++ d | None => [] end ++ t) = (p, t).
Proof.
  unfold parse_port. destruct p as [d|]; intros Hd Ht.
  - rewrite <- app_assoc, strip_prefix_app. destruct Hd as [Hne Hd].
    rewrite span_app; [by destruct d|done|]. destruct t as [|c t]; [done|]. by subst c.
  - destruct t as [|c t]; [done|]. by subst c.
Qed.

Lemma host_stop p t :
  match t with c :: _ => c = 47%N | [] => True end ->
  match (match p with Some d => ":" ++ d | None => [] end) ++ t with
  | c :: _ => is_host_unit c = false
  | [] => True
  end.
Proof. rewrite js_colon. destruct p as [d|]; cbn; [done|]. destruct t; [done|]. by intros ->. Qed.

Lemma parse_rest_spec pr s u :
  parse_rest pr s = Some u <->
  s = "//" ++ u.(host) ++ u.(pathname) ++ u.(search) ++ u.(hash)
  /\ Forall (fun c => is_host_unit c = true) u.(hostname)
  /\ match u.(port) with Some d => d <> [] /\ Forall (fun c => is_digit c = true) d | None => True end
  /\ tail_wf u.(pathname) u.(search) u.(hash)
  /\ u.(protocol) = pr /\ u.(host) = host_text u.(hostname) u.(port).
Proof.
  split.
  - unfold parse_rest. destruct (strip_prefix "//" s) as [r|] eqn:E; [|done].
    apply strip_prefix_Some in E as ->. destruct (span is_host_unit r) as [h r1] eqn:Eh.
    apply span_spec in Eh as (-> & Hh & _). destruct (parse_port r1) as [p r2] eqn:Ep.
    apply parse_port_spec in Ep.
    intros (-> & Hw & Hpr & Hhn & Hpo & Hho)%parse_tail_spec. subst h p. rewrite Hho. unfold host_text.
    destruct (port u) as [d|]; destruct_and?; subst r1;
      rewrite ?app_nil_r, <- ?app_assoc; auto 10.
  - intros (-> & Hh & Hp & Hw & <- & Hho). unfold parse_rest. rewrite strip_prefix_app, Hho.
    unfold host_text. rewrite <- app_assoc.
    assert (Ht : match pathname u ++ search u ++ hash u with c :: _ => c = 47%N | [] => True end).
    { destruct Hw as ((p' & -> & _) & _). done. }
    rewrite span_app by (try done; by apply host_stop). rewrite parse_port_host by done.
    by apply parse_tail_spec.
Qed.

(** C10: Parsing accepts exactly the texts of well-formed http and https urls
    with a path, and gives the only decomposition: protocol, host (name and
    optional port), path, query string and fragment. *)
Theorem parseUrl_spec (url : jsstr) (u : UrlFragment) :
  parseUrl url = Some u <-> url = render_url u /\ url_wf u.
Proof.
  unfold parseUrl, render_url, url_wf.
  assert (Hx : forall t, strip_prefix "http:" ("https:" ++ t) = None) by (intros; reflexivity).
  split.
  - destruct (strip_prefix "http:" url) as [r|] eqn:E1; [|destruct (strip_prefix "https:" url) as [r|] eqn:E2; [|done]].
    + apply strip_prefix_Some in E1 as ->. intros (-> & H1 & H2 & H3 & H4 & H5)%parse_rest_spec.
      rewrite H4. unfold tail_wf in H3. tauto.
    + apply strip_prefix_Some in E2 as ->. intros (-> & H1 & H2 & H3 & H4 & H5)%parse_rest_spec.
      rewrite H4. unfold tail_wf in H3. tauto.
  - intros [-> (Hpr & H1 & H2 & H3 & H4)]. destruct Hpr as [Hpr|Hpr]; rewrite Hpr.
    + rewrite strip_prefix_app. apply parse_rest_spec. unfold tail_wf. tauto.
    + rewrite Hx, strip_prefix_app. apply parse_rest_spec. unfold tail_wf. tauto.
Qed.

Example parseUrl_example :
  parseUrl "https://host:8000/core/ui/default/?a=b#/main"
  = Some {| protocol := "https:"; host := "host:8000"; hostname := "host"; port := Some (js "8000");
            pathname := "/core/ui/default/"; search := "?a=b"; hash := "#/main" |}.
Proof. reflexivity. Qed.

(** ** Document links *)

Section LinkFacts.
Context {L : Lodash}.

(** Without a factory link the last but one fragment of a document link is
    in no part of the result: the type stops one fragment short of the id. *)
Theorem parseDocumentLink_default (p : jsstr) (mid : list jsstr) (x id : jsstr) :
  Forall (fun w => 47%N ∉ w) (p :: mid ++ [x; id]) ->
  parseDocumentLink (join "/" (p :: mid ++ [x; id])) []
  = {| dl_prefix := p; dl_type := join "/" mid; dl_id := id |}.
Proof.
  intros H. unfold parseDocumentLink. rewrite js_slash, split_join by done.
  assert (Hlen : length (p :: mid ++ [x; id]) = 3 + length mid).
  { cbn. rewrite length_app. cbn. lia. }
  rewrite Hlen. cbn [Nat.ltb Nat.leb plus truthy negb]. unfold default_link, last_fragment. rewrite Hlen.
  lodash. rewrite lo_slice_law by lia. f_equal.
  - replace (Z.to_nat (Z.of_nat (3 + length mid) - 2)) with (S (length mid)) by lia.
    cbn [Z.to_nat Pos.to_nat Pos.iter_op take drop]. by rewrite take_app_length.
  - replace (3 + length mid - 1) with (S (length mid + 1)) by lia. cbn [nth].
    rewrite app_nth2 by lia. by replace (length mid + 1 - length mid) with 1 by lia.
Qed.

Lemma filter_comm {A} (p q : A -> bool) l :
  List.filter p (List.filter q l) = List.filter q (List.filter p l).
Proof.
  induction l as [|x l IH]; [done|]. cbn.
  destruct (q x) eqn:Eq, (p x) eqn:Ep; cbn; rewrite ?Ep, ?Eq, ?IH; done.
Qed.

Lemma intersection_prefix f a b :
  NoDup a -> (forall x, x ∈ a -> x ∈ f) -> (forall x, x ∈ b -> x ∉ f) ->
  lo_intersection (a ++ b) f = a.
Proof.
  intros Hnd Ha Hb. lodash. induction a as [|x a IH]; cbn [app uniq List.filter].
  - apply filter_none, list.Forall_forall. intros x Hx.
    apply bool_decide_eq_false. by apply Hb, elem_of_uniq.
  - apply list.NoDup_cons in Hnd as [Hx Hnd].
    rewrite (proj2 (includes_spec f x)) by (apply Ha; set_solver).
    rewrite filter_comm, IH by (try done; intros; apply Ha; set_solver).
    f_equal. apply filter_idem, list.Forall_forall. intros y Hy.
    apply negb_true_iff, str_eqb_neq. by intros ->.
Qed.

Lemma difference_suffix f a b :
  (forall x, x ∈ a -> x ∈ f) -> (forall x, x ∈ b -> x ∉ f) -> lo_difference (a ++ b) f = b.
Proof.
  intros Ha Hb. lodash. rewrite filter_app, filter_none, filter_idem; [done|..];
    apply list.Forall_forall; intros x Hx.
  - apply negb_true_iff, bool_decide_eq_false. by apply Hb.
  - apply negb_false_iff, includes_spec. by apply Ha.
Qed.

(** The parts of a link under a factory link. *)
Lemma parse_child_link (p t : jsstr) (ts ids : list jsstr) :
  ids <> [] -> NoDup (p :: t :: ts) ->
  Forall (fun w => 47%N ∉ w) ((p :: t :: ts) ++ ids) ->
  (forall x, x ∈ ids -> x ∉ p :: t :: ts) ->
  let factoryLink := join "/" (p :: t :: ts) in
  parseDocumentLink (factoryLink ++ "/" ++ join "/" ids) factoryLink
  = {| dl_prefix := p; dl_type := join "/" (t :: ts); dl_id := join "/" ids |}.
Proof.
  intros Hids Hnd Hs Hdis factoryLink. unfold parseDocumentLink.
  assert (Hj : factoryLink ++ "/" ++ join "/" ids = join "/" ((p :: t :: ts) ++ ids)) by by rewrite join_app.
  apply Forall_app in Hs as Hs'. destruct Hs' as [Hf _].
  rewrite Hj. unfold factoryLink. rewrite js_slash, !split_join by done. rewrite <- js_slash.
  rewrite (proj2 (Nat.ltb_ge _ _)) by (destruct ids; [done|]; rewrite length_app; cbn; lia).
  assert (Htr : truthy (join "/" (p :: t :: ts)) = true).
  { rewrite join_cons by done. destruct p; [|done]. by rewrite js_slash. }
  rewrite Htr. cbn [negb]. rewrite intersection_prefix, difference_suffix by set_solver.
  lodash. done.
Qed.

(** The id of a document under a factory, as the views compute it, is the
    text after the factory link, and prefix and type are the parts of the
    factory link, when the fragments of the factory link are distinct and no
    fragment of the id is one of them. *)
Theorem parseDocumentLink_child (p t : jsstr) (ts ids : list jsstr) :
  ids <> [] -> NoDup (p :: t :: ts) ->
  Forall (fun w => 47%N ∉ w) ((p :: t :: ts) ++ ids) ->
  (forall x, x ∈ ids -> x ∉ p :: t :: ts) ->
  let factoryLink := join "/" (p :: t :: ts) in
  parseDocumentLink (factoryLink ++ "/" ++ join "/" ids) factoryLink
  = {| dl_prefix := p; dl_type := join "/" (t :: ts); dl_id := join "/" ids |}.
Proof. exact (parse_child_link p t ts ids). Qed.
End LinkFacts.

Lemma parseDocumentLink_default_witness :
  @parseDocumentLink lodash_ref (join "/" ([] :: [js "core"] ++ [js "examples"; js "42"])) []
  = {| dl_prefix := []; dl_type := js "core"; dl_id := js "42" |}.
Proof.
  apply (@parseDocumentLink_default lodash_ref [] [js "core"] "examples" "42").
  decide_done.
Defined.

Lemma parseDocumentLink_child_witness :
  @parseDocumentLink lodash_ref "/core/examples/a/b" "/core/examples"
  = {| dl_prefix := []; dl_type := js "core/examples"; dl_id := js "a/b" |}.
Proof.
  apply (@parseDocumentLink_child lodash_ref [] "core" [js "examples"] [js "a"; js "b"]);
    [done | | | ].
  - decide_done.
  - decide_done.
  - intros x. rewrite !elem_of_cons.
    intros [->|[-> |Hx]]; [decide_done.. | by apply elem_of_nil in Hx].
Defined.

(** A fragment of the id that repeats a fragment of the factory link is lost: the
    document "/core/examples/core" of "/core/examples" has an empty id, and
    "/core/examples/a/core" the id of its parent. *)
Theorem parseDocumentLink_lost :
  (@parseDocumentLink lodash_ref "/core/examples/core" "/core/examples").(dl_id) = []
  /\ (@parseDocumentLink lodash_ref "/core/examples/a/core" "/core/examples").(dl_id) = js "a".
Proof. split; reflexivity. Qed.
