(* ===== verification/Interfaces.v ===== *)
(** * Interfaces, enumerations and display tables of the user interface

    modules/app/interfaces, modules/app/enums and the tables of
    modules/app/utils.  An interface is a record; an optional property is an
    option, [None] being [undefined]; a subinterface holds its base as a field.
    Numbers that are counts or times are integers, measured values are
    rationals. *)

From S2P Require Import Prelude JsString Json.

(** ** Service documents *)

Record ServiceDocument := {
  documentVersion : option Z;
  documentUpdateTimeMicros : option Z;
  documentExpirationTimeMicros : option Z;
  documentOwner : option jsstr;
  documentSelfLink : option jsstr;
  documentSourceLink : option jsstr;
  documentKind : option jsstr;
  documentEpoch : option Z;
  documentTransactionId : option jsstr;
  documentAuthPrincipalLink : option jsstr;
  documentUpdateAction : option jsstr
}.

Definition no_document : ServiceDocument :=
  {| documentVersion := None; documentUpdateTimeMicros := None; documentExpirationTimeMicros := None;
     documentOwner := None; documentSelfLink := None; documentSourceLink := None; documentKind := None;
     documentEpoch := None; documentTransactionId := None; documentAuthPrincipalLink := None;
     documentUpdateAction := None |}.

Definition with_self_link (d : ServiceDocument) (l : jsstr) : ServiceDocument :=
  {| documentVersion := d.(documentVersion); documentUpdateTimeMicros := d.(documentUpdateTimeMicros);
     documentExpirationTimeMicros := d.(documentExpirationTimeMicros); documentOwner := d.(documentOwner);
     documentSelfLink := Some l; documentSourceLink := d.(documentSourceLink);
     documentKind := d.(documentKind); documentEpoch := d.(documentEpoch);
     documentTransactionId := d.(documentTransactionId);
     documentAuthPrincipalLink := d.(documentAuthPrincipalLink);
     documentUpdateAction := d.(documentUpdateAction) |}.

(** An interface that extends [ServiceDocument]. *)
Class Document (T : Type) := {
  base_document : T -> ServiceDocument;
  set_self_link : T -> jsstr -> T;
  set_self_link_base d l : base_document (set_self_link d l) = with_self_link (base_document d) l
}.

#[export] Instance document_self : Document ServiceDocument :=
  {| base_document := fun d => d; set_self_link := with_self_link; set_self_link_base := fun _ _ => eq_refl |}.

Record Node := {
  node_base : ServiceDocument;
  groupReference : jsstr;
  status : option jsstr;
  options : list jsstr;
  node_id : jsstr;
  membershipQuorum : Z;
  node_x : option Q;
  node_y : option Q
}.

Record NodeGroup := {
  nodeGroup_base : ServiceDocument;
  config : list (jsstr * jsval);
  nodes : list (jsstr * Node);
  membershipUpdateTimeMicros : Z
}.

#[export] Instance document_nodeGroup : Document NodeGroup :=
  {| base_document := nodeGroup_base;
     set_self_link := fun g l => {| nodeGroup_base := with_self_link g.(nodeGroup_base) l;
                                    config := g.(config); nodes := g.(nodes);
                                    membershipUpdateTimeMicros := g.(membershipUpdateTimeMicros) |};
     set_self_link_base := fun _ _ => eq_refl |}.

Record ServiceDocumentQueryResult := {
  queryResult_base : ServiceDocument;
  documentLinks : list jsstr;
  documents : list (jsstr * jsval);
  selectedLinks : list jsstr;
  selectedLinksPerDocument : list (jsstr * jsval);
  selectedDocuments : list (jsstr * jsstr);
  documentCount : option Z;
  prevPageLink : option jsstr;
  nextPageLink : option jsstr;
  nextPageLinksPerGroup : list (jsstr * jsstr);
  queryTimeMicros : Z
}.

#[export] Instance document_queryResult : Document ServiceDocumentQueryResult :=
  {| base_document := queryResult_base;
     set_self_link := fun r l =>
       {| queryResult_base := with_self_link r.(queryResult_base) l;
          documentLinks := r.(documentLinks); documents := r.(documents);
          selectedLinks := r.(selectedLinks); selectedLinksPerDocument := r.(selectedLinksPerDocument);
          selectedDocuments := r.(selectedDocuments); documentCount := r.(documentCount);
          prevPageLink := r.(prevPageLink); nextPageLink := r.(nextPageLink);
          nextPageLinksPerGroup := r.(nextPageLinksPerGroup); queryTimeMicros := r.(queryTimeMicros) |};
     set_self_link_base := fun _ _ => eq_refl |}.

Record ServiceStatsLogHistogram := { histogram_bins : list Q }.
Record ServiceStatsTimeSeries := { series_bins : list (jsstr * jsval) }.

Record ServiceStatsEntry := {
  name : jsstr;
  latestValue : Q;
  accumulatedValue : Q;
  version : Z;
  lastUpdateMicrosUtc : Z;
  kind : jsstr;
  unit_ : option jsstr;
  sourceTimeMicrosUtc : option Z;
  serviceReference : option jsstr;
  logHistogram : option ServiceStatsLogHistogram;
  timeSeriesStats : option ServiceStatsTimeSeries
}.

Record ServiceStats := {
  stats_base : ServiceDocument;
  stats_kind : jsstr;
  entries : list (jsstr * ServiceStatsEntry)
}.

Record ServiceConfiguration := {
  configuration_base : ServiceDocument;
  maintenanceIntervalMicros : Z;
  operationQueueLimit : Z;
  epoch : Z;
  configuration_options : list jsstr
}.

Record ProcessLog := { processLog_base : ServiceDocument; items : list jsstr }.

Record SerializedOperation := {
  operation_base : ServiceDocument;
  action : jsstr;
  op_host : jsstr;
  op_port : Z;
  path : jsstr;
  op_id : Z;
  referer : jsstr;
  jsonBody : jsstr;
  op_statusCode : Z;
  op_options : list jsstr;
  query : option jsstr;
  contextId : option jsstr;
  transactionId : option jsstr;
  userInfo : option jsstr
}.

Record SystemHostInfo := {
  properties : list (jsstr * jsstr);
  environmentVariables : list (jsstr * jsstr);
  availableProcessorCount : Z;
  freeMemoryByteCount : Q;
  totalMemoryByteCount : Q;
  maxMemoryByteCount : Q;
  freeDiskByteCount : Q;
  usableDiskByteCount : Q;
  totalDiskByteCount : Q;
  ipAddresses : list jsstr;
  osName : jsstr;
  osFamily : option jsstr
}.

(** ** Objects of the views *)

Record Notification := { type : jsstr; messages : list jsstr }.
Record EventContext := { event_type : jsstr; event_data : list (jsstr * jsval) }.
Record DisplayInfo := { className : jsstr; iconClassName : jsstr; displayName : jsstr }.
Record NodeGroupCircle (R : Type) := { group : option jsstr; circle_x : R; circle_y : R; circle_r : R }.

(** The modals of the service views: a name and the text fields of [data]. *)
Record ModalContext := { modal_name : jsstr; data : list (jsstr * option jsstr) }.

(** ** Display tables *)

Definition ProcessingStageUtil : list (jsstr * DisplayInfo) :=
  let info c i n := {| className := js c; iconClassName := js i; displayName := js n |} in
  [ (js "UNKNOWN", info "created-status" "fa fa-ban" "Unknown");
    (js "UNAVAILABLE", info "created-status" "fa fa-ban" "Unknown");
    (js "CREATED", info "created-status" "fa fa-dot-circle-o" "Created");
    (js "REPLACED", info "created-status" "fa fa-random" "Replaced");
    (js "INITIALIZING", info "created-status" "fa fa-dot-circle-o" "Initializing");
    (js "LOADING_INITIAL_STATE", info "execute-status" "fa fa-spinner fa-pulse" "Loading Initial State");
    (js "SYNCHRONIZING", info "execute-status" "fa fa-refresh fa-spin" "Synchronizing");
    (js "EXECUTING_CREATE_HANDLER", info "execute-status" "fa fa-cog fa-spin" "Executing: Create Handler");
    (js "EXECUTING_START_HANDLER", info "execute-status" "fa fa-cog fa-spin" "Executing: Start Handler");
    (js "INDEXING_INITIAL_STATE", info "execute-status" "fa fa-cog fa-spin" "Indexing: Initial State");
    (js "AVAILABLE", info "finished-status" "fa fa-check-circle-o" "Available");
    (js "PAUSED", info "skipped-status" "fa fa-pause-circle-o" "Paused");
    (js "STOPPED", info "failed-status" "fa fa-dot-circle-o" "Stopped") ].

Definition OsUtil : list (jsstr * DisplayInfo) :=
  let info c i n := {| className := js c; iconClassName := js i; displayName := js n |} in
  [ (js "OTHER", info "other" "fa fa-asterisk" "Other");
    (js "WINDOWS", info "windows" "fa fa-windows" "Windows");
    (js "LINUX", info "linux" "fa fa-linux" "Linux");
    (js "MACOS", info "mac" "fa fa-apple" "Mac OS") ].
