(* ===== verification/Charts.v ===== *)
(** * Charts

    What the components give to Chart.js: the description of a chart, with the
    callback that makes the labels of its tooltips, and the charts that live on
    the canvases of a page while components make and destroy them. *)

From S2P Require Import Prelude JsString Json.

(** ** Descriptions *)

(** A data set: its values, and how it looks. *)
Record Dataset := { ds_data : list Q; ds_style : list (jsstr * jsval) }.
Record ChartData := { cd_labels : list jsstr; cd_datasets : list Dataset }.

(** The point a tooltip is about. *)
Record Tooltip := { tt_index : nat; tt_datasetIndex : nat }.

(** [cf_options] leaves out [tooltips.callbacks.label], which is [cf_label]. *)
Record Config := {
  cf_type : jsstr;
  cf_data : ChartData;
  cf_options : list (jsstr * jsval);
  cf_label : Tooltip -> ChartData -> option jsstr
}.

(** [data.datasets[datasetIndex].data[dataIndex]] and [data.labels[dataIndex]];
    [None] for indexes that are not those of a point, which Chart.js never asks
    about. *)
Definition datum (t : Tooltip) (d : ChartData) : option Q :=
  ds ← d.(cd_datasets) !! t.(tt_datasetIndex); ds.(ds_data) !! t.(tt_index).
Definition label_of (t : Tooltip) (d : ChartData) : option jsstr := d.(cd_labels) !! t.(tt_index).

(** The callbacks of the components: a text for the value of the point. *)
Definition value_label (text : Q -> jsstr) (t : Tooltip) (d : ChartData) : option jsstr :=
  v ← datum t d; Some (text v).
Definition named_label (text : Q -> jsstr) (t : Tooltip) (d : ChartData) : option jsstr :=
  v ← datum t d; l ← label_of t d; Some (l ++ ": " ++ text v).

(** The values of a chart, and the tooltip over one of them. *)
Definition values (c : Config) : list (list Q) := map ds_data c.(cf_data).(cd_datasets).
Definition tooltip_at (c : Config) (i : nat) : option jsstr :=
  c.(cf_label) {| tt_index := i; tt_datasetIndex := 0 |} c.(cf_data).

(** ** Charts on canvases *)

(** The field of a component that holds what [document.getElementById] found. *)
Inductive Canvas := CanvasUndefined | CanvasNull | CanvasElement.
Definition isNull (c : Canvas) : bool := match c with CanvasNull => true | _ => false end.
Definition getElementById (found : bool) : Canvas := if found then CanvasElement else CanvasNull.

(** Charts are named by the id of their canvas.  The description is [None] when
    it is the empty object.  [ChartDefault] sets a default of all charts. *)
Inductive chart_action :=
  | ChartDefault (path : list jsstr) (v : jsval)
  | DestroyChart (id : jsstr)
  | NewChart (id : jsstr) (canvas : Canvas) (o : option Config).

(** [if (!_.isUndefined(this.chart)) this.chart.destroy()], [made] telling
    whether the field holds a chart. *)
Definition destroy_if (made : bool) (id : jsstr) : list chart_action := if made then [DestroyChart id] else [].

(** What a canvas shows. *)
Inductive shown := Nothing | Shows (o : option Config) | Clash.

(** One chart is made on a canvas on which another still lives: both draw. *)
Definition shown_step (id : jsstr) (s : shown) (a : chart_action) : shown :=
  match a with
  | DestroyChart i => if i === id then match s with Clash => Clash | _ => Nothing end else s
  | NewChart i CanvasElement o =>
      if i === id then match s with Nothing => Shows o | _ => Clash end else s
  | NewChart _ _ _ | ChartDefault _ _ => s
  end.
Definition shown_after (id : jsstr) (s : shown) (acts : list chart_action) : shown := fold_left (shown_step id) acts s.

Lemma shown_app id s acts1 acts2 :
  shown_after id s (acts1 ++ acts2) = shown_after id (shown_after id s acts1) acts2.
Proof. apply fold_left_app. Qed.

(** Re-rendering: the old chart, if the component knows one, is destroyed before
    the new one is made. *)
Lemma shown_renewed id s made o :
  s <> Clash -> (s <> Nothing -> made = true) ->
  shown_after id s (destroy_if made id ++ [NewChart id CanvasElement o]) = Shows o.
Proof.
  intros Hc Hm. rewrite shown_app. unfold shown_after, destroy_if. destruct made; cbn; rewrite ?str_eqb_refl.
  - by destruct s.
  - destruct s; [done| |done]. by discriminate Hm.
Qed.

Lemma shown_destroyed id s made :
  s <> Clash -> (s <> Nothing -> made = true) -> shown_after id s (destroy_if made id) = Nothing.
Proof.
  intros Hc Hm. unfold shown_after, destroy_if. destruct made; cbn; rewrite ?str_eqb_refl.
  - by destruct s.
  - destruct s; [done| |done]. by discriminate Hm.
Qed.

(** What is done to one canvas does not change another. *)
Definition about (a : chart_action) : option jsstr :=
  match a with DestroyChart i | NewChart i _ _ => Some i | ChartDefault _ _ => None end.
Lemma shown_other id s acts : Forall (fun a => about a <> Some id) acts -> shown_after id s acts = s.
Proof.
  intros H. revert s. induction H as [|a acts Ha _ IH]; intros s; [done|].
  change (shown_after id (shown_step id s a) acts = s). rewrite IH. destruct a as [|i|i [] o]; cbn in *; try done;
    (assert (i <> id) as E%str_eqb_neq by congruence; by rewrite E).
Qed.

(** ** The tooltip over a point *)

Lemma value_label_at text i (d : ChartData) ds rest v :
  d.(cd_datasets) = ds :: rest -> ds.(ds_data) !! i = Some v ->
  value_label text {| tt_index := i; tt_datasetIndex := 0 |} d = Some (text v).
Proof. intros Hd Hv. unfold value_label, datum. rewrite Hd. cbn. by rewrite Hv. Qed.
