(* ===== verification/BaseService.v ===== *)
(** * base.service.ts, node-selector.service.ts, url.ts, odata.util.ts

    Requests to the server and their outcomes.  A call of the service is a
    [Request] handed to Angular's [Http]; what comes back reaches the
    subscriber as an [outcome].  The subjects of NodeSelectorService pass a
    value to the subscribers of the moment: the subscriptions the
    constructor of BaseService makes are the operations [on_selected_node]
    and [on_host_node]. *)

From S2P Require Import Prelude JsString JsUri Lodash Json StringUtil Interfaces.

(** ** url.ts and odata.util.ts *)

Module URL.
(** The prefix depends on the build type the template was expanded with. *)
Definition API_PREFIX (BUILD_TYPE : jsstr) : jsstr := if BUILD_TYPE === "prod" then [] else "/api".
Definition CONFIG_SUFFIX : jsstr := "/config".
Definition STATS_SUFFIX : jsstr := "/stats".
Definition NODE_SELECTOR : jsstr := "/core/node-selectors".
Definition Root : jsstr := "/core/ui/default".
Definition RootPostBody : jsval := JObj [(js "kind", JStr "com:vmware:xenon:ui:UiService:QueryRequest")].
Definition Authentication : jsstr := "/core/authn/basic".
Definition CoreManagement : jsstr := "/core/management".
Definition NodeGroup : jsstr := "/core/node-groups/".
Definition Log : jsstr := "/core/management/process-log".
Definition Query : jsstr := "/core/query-tasks".
Definition QueryLocal : jsstr := "/core/local-query-tasks".
Definition DocumentIndex : jsstr := "/core/document-index".
End URL.

Module ODataUtil.
Definition DEFAULT_PAGE_SIZE : Z := 25.
Definition PAGE_LIMIT : Z := 10000.
Definition DEFAULT_LOG_SIZE : Z := 1000.
Definition LIMIT : jsstr := "$limit".
Definition COUNT : jsstr := "$count".
Definition ORDER_BY : jsstr := "$orderby".

Definition pageLimit : jsstr := LIMIT ++ "=" ++ dec_Z PAGE_LIMIT.
Definition limit (pageSize : option Z) : jsstr := LIMIT ++ "=" ++ dec_Z (default DEFAULT_PAGE_SIZE pageSize).
Definition count : jsstr := COUNT ++ "=true".
Definition orderBy (propertyName : jsstr) (order : option jsstr) : jsstr :=
  ORDER_BY ++ "=" ++ propertyName ++ " " ++ default (js "asc") order.
End ODataUtil.

(** ** Requests and outcomes *)

Inductive Method := GET | POST | PATCH | PUT | DELETE_.

Record Request := {
  rq_method : Method; rq_url : jsstr; rq_body : option jsstr; rq_headers : list (jsstr * jsstr)
}.

(** The body of an error response: a document, a falsy value, no JSON. *)
Record ErrorDocument := { statusCode : option Z; message : option jsstr }.
Inductive ErrorBody := EDocument (e : ErrorDocument) | EFalsy | EUnparsable.

(** What Angular's [Http] answers: a parsed body, a body that is no JSON, or an
    error response. *)
Inductive http_result (A : Type) := HttpOk (a : A) | HttpUnparsable | HttpError (b : ErrorBody).
Arguments HttpOk {A} _.
Arguments HttpUnparsable {A}.
Arguments HttpError {A} _.

(** What the error handler of a subscriber receives. *)
Inductive failure := FDocument (e : ErrorDocument) | FText (s : jsstr) | FThrown (e : jserr).
Inductive outcome (A : Type) := Next (a : A) | Failed (f : failure).
Arguments Next {A} _.
Arguments Failed {A} _.

(** [onError]: the parsed body or a default text; a body that is no JSON makes
    [json()] throw. *)
Definition onError (b : ErrorBody) : failure :=
  match b with
  | EDocument e => FDocument e
  | EFalsy => FText "Server error"
  | EUnparsable => FThrown SyntaxError
  end.

(** [.map(f).catch(onError)]: an exception of [f], which has no [json] method,
    makes [onError] throw a TypeError. *)
Definition deliver {A B} (f : A -> exec B) (r : http_result A) : outcome B :=
  match r with
  | HttpOk a => match f a with Ret b => Next b | Throw _ => Failed (FThrown TypeError) end
  | HttpUnparsable => Failed (FThrown TypeError)
  | HttpError b => Failed (onError b)
  end.

(** The texts of the engine's own exceptions. *)
Class Engine := { error_message : jserr -> jsstr }.
Definition plain_engine : Engine :=
  {| error_message := fun e => match e with
                               | TypeError => "TypeError" | URIError => "URI malformed"
                               | SyntaxError => "Unexpected end of JSON input" | ErrorMsg m => m end |}.

Section ErrorText.
Context {E : Engine}.

Definition err_status (f : failure) : option Z :=
  match f with FDocument e => e.(statusCode) | _ => None end.
Definition err_message (f : failure) : option jsstr :=
  match f with
  | FDocument e => e.(message)
  | FText _ => None
  | FThrown e => Some (error_message e)
  end.

(** The text [[${error.statusCode}] ${error.message}] of the notifications. *)
Definition err_text (f : failure) : jsstr :=
  "[" ++ int_or_undefined (err_status f) ++ "] " ++ str_or_undefined (err_message f).

Definition error_note (prefix : jsstr) (f : failure) : Notification :=
  {| type := "ERROR"; messages := [prefix ++ err_text f] |}.
End ErrorText.

(** ** BaseService *)

Record BaseService := {
  hostNodeId : option jsstr;
  selectedNodeId : option jsstr;
  selectedNodeGroupReference : option jsstr
}.

Definition new_BaseService : BaseService :=
  {| hostNodeId := None; selectedNodeId := None; selectedNodeGroupReference := None |}.

Section Service.
Context {L : Lodash} {NT : NumText}.
Context (BUILD_TYPE : jsstr).

(** The subscriptions of the constructor; [None] is [undefined] or [null]. *)
Definition on_selected_node (b : BaseService) (node : option Node) : BaseService :=
  {| hostNodeId := b.(hostNodeId);
     selectedNodeId := Some (match node with Some n => n.(node_id) | None => [] end);
     selectedNodeGroupReference :=
       Some (match node with
             | Some n => (parseDocumentLink n.(groupReference) []).(dl_id)
             | None => js "default" end) |}.

Definition on_host_node (b : BaseService) (node : option Node) : BaseService :=
  {| hostNodeId := Some (match node with Some n => n.(node_id) | None => [] end);
     selectedNodeId := b.(selectedNodeId);
     selectedNodeGroupReference := b.(selectedNodeGroupReference) |}.

Definition uri_encode (s : jsstr) : exec jsstr :=
  match encodeURIComponent s with Some e => Ret e | None => Throw URIError end.

Definition getForwardingLink (b : BaseService) (targetLink query : jsstr) : exec jsstr :=
  pathInTargetLink <-! getQueryParametersByName targetLink "path";;
  let path := if truthy_opt pathInTargetLink
              then "/core/query-page/" ++ str_or_undefined pathInTargetLink else targetLink in
  peerInTargetLink <-! getQueryParametersByName targetLink "peer";;
  let peer := if truthy_opt peerInTargetLink then peerInTargetLink else b.(selectedNodeId) in
  encodedPath <-! uri_encode path;;
  encodedQuery <-! uri_encode query;;
  Ret (URL.NODE_SELECTOR ++ "/" ++ str_or_undefined b.(selectedNodeGroupReference)
       ++ "/forwarding?peer=" ++ str_or_undefined peer ++ "&path=" ++ encodedPath
       ++ "&query=" ++ encodedQuery ++ "&target=PEER_ID").

(** [this.selectedNodeId !== this.hostNodeId]. *)
Definition remote (b : BaseService) : bool := negb (bool_decide (b.(selectedNodeId) = b.(hostNodeId))).

(** [link] with the OData option, on this node. *)
Definition with_odata (link odataOption : jsstr) : jsstr :=
  if truthy odataOption
  then link ++ (if hasQueryParameter link then [] else js "?") ++ odataOption
  else link.

(** The link a reading call requests. *)
Definition read_link (b : BaseService) (targetLink odataOption : jsstr) (autoForward : bool) : exec jsstr :=
  if autoForward && remote b then getForwardingLink b targetLink odataOption
  else Ret (with_odata targetLink odataOption).

Definition get_request (link : jsstr) : Request :=
  {| rq_method := GET; rq_url := URL.API_PREFIX BUILD_TYPE ++ link; rq_body := None; rq_headers := [] |}.

Definition getDocumentLinks (b : BaseService) (targetLink odataOption : jsstr) (autoForward : bool) : exec Request :=
  link <-! read_link b targetLink odataOption autoForward;; Ret (get_request link).

Definition getDocumentLinks_result (r : http_result ServiceDocumentQueryResult) : outcome (list jsstr) :=
  deliver (fun res => Ret res.(documentLinks)) r.

Definition getDocumentInternal (b : BaseService) (targetLink odataOption : jsstr) (autoForward : bool)
    (suffix : jsstr) : exec Request :=
  link <-! read_link b (targetLink ++ suffix) odataOption autoForward;; Ret (get_request link).

Definition getDocument (b : BaseService) (targetLink odataOption : jsstr) (autoForward : bool) : exec Request :=
  getDocumentInternal b targetLink odataOption autoForward [].

Definition getDocumentConfig (b : BaseService) (targetLink : jsstr) (autoForward : bool) : exec Request :=
  getDocumentInternal b targetLink [] autoForward URL.CONFIG_SUFFIX.

Definition getDocumentStats (b : BaseService) (targetLink : jsstr) (autoForward : bool) : exec Request :=
  getDocumentInternal b targetLink [] autoForward URL.STATS_SUFFIX.

Definition getDocument_result {T} (r : http_result T) : outcome T := deliver Ret r.

(** [getDocuments]: one request per link, answered together. *)
Fixpoint getDocuments (b : BaseService) (targetLinks : list jsstr) (odataOption : jsstr) (autoForward : bool)
    : exec (list Request) :=
  match targetLinks with
  | [] => Ret []
  | targetLink :: rest =>
      link <-! read_link b targetLink odataOption autoForward;;
      rs <-! getDocuments b rest odataOption autoForward;;
      Ret (get_request link :: rs)
  end.

Definition fill_self_link {T} `{Document T} (targetLink : jsstr) (response : T) : T :=
  match (base_document response).(documentSelfLink) with
  | Some _ => response
  | None => set_self_link response targetLink
  end.

(** [Observable.forkJoin]: all the results in the order of the links, or the
    first failure to arrive, whose place in the list is [first]; without links
    it completes with neither ([None]). *)
Fixpoint join_results {T} `{Document T} (targetLinks : list jsstr) (rs : list (http_result T))
    : option (list T) :=
  match targetLinks, rs with
  | l :: ls, HttpOk d :: rs' => ds ← join_results ls rs'; Some (fill_self_link l d :: ds)
  | [], [] => Some []
  | _, _ => None
  end.

Definition getDocuments_result {T} `{Document T} (targetLinks : list jsstr) (rs : list (http_result T))
    (first : nat) : option (outcome (list T)) :=
  match targetLinks, join_results targetLinks rs with
  | [], _ => None
  | _, Some ds => Some (Next ds)
  | _, None => match rs !! first with
               | Some (HttpError e) => Some (Failed (onError e))
               | _ => Some (Failed (FThrown TypeError))
               end
  end.

(** Updating calls: the body is sent as it is when it is a text. *)
Inductive Body := BText (s : jsstr) | BValue (v : jsval).
Definition body_text (body : Body) : jsstr := match body with BText s => s | BValue v => stringify v end.

Definition json_headers : list (jsstr * jsstr) := [(js "Content-Type", js "application/json")].

Definition write_link (b : BaseService) (targetLink : jsstr) (autoForward : bool) : exec jsstr :=
  if autoForward && remote b then getForwardingLink b targetLink [] else Ret targetLink.

Definition write_request (m : Method) (b : BaseService) (targetLink : jsstr) (body : Body) (autoForward : bool)
    : exec Request :=
  link <-! write_link b targetLink autoForward;;
  Ret {| rq_method := m; rq_url := URL.API_PREFIX BUILD_TYPE ++ link;
         rq_body := Some (body_text body); rq_headers := json_headers |}.

Definition post := write_request POST.
Definition patch := write_request PATCH.
Definition put := write_request PUT.

Definition delete_ (b : BaseService) (targetLink : jsstr) (autoForward : bool) : exec Request :=
  link <-! write_link b targetLink autoForward;;
  Ret {| rq_method := DELETE_; rq_url := URL.API_PREFIX BUILD_TYPE ++ link; rq_body := None; rq_headers := [] |}.
End Service.

(** ** Properties *)

Section FindParam.
Implicit Types (nm a v r : jsstr).

Lemma find_param_skip nm a r :
  Forall (fun c => c ∉ js "?&") a -> find_param nm (a ++ r) = find_param nm r.
Proof.
  induction 1 as [|c a Hc Ha IH]; [done|]. cbn [app find_param].
  by rewrite bool_decide_false.
Qed.

Lemma find_param_miss c nm r : match_param nm r = None -> find_param nm (c :: r) = find_param nm r.
Proof. intros H. cbn [find_param]. rewrite H. by destruct (bool_decide _). Qed.

Lemma find_param_hit c nm v r :
  c ∈ js "?&" -> Forall (fun d => is_value_unit d = true) v ->
  match r with d :: _ => is_value_unit d = false | [] => True end ->
  find_param nm (c :: nm ++ "=" ++ v ++ r) = Some v.
Proof.
  intros Hc Hv Hr. cbn [find_param]. rewrite bool_decide_true by done.
  unfold match_param. rewrite strip_prefix_app. change (js "=") with [61%N]. cbn [app N.eqb Pos.eqb].
  by rewrite span_app.
Qed.

(** Texts of unreserved characters and percent escapes. *)
Lemma uri_safe_facts c :
  uri_safe c = true -> (c ∉ js "?&") /\ is_value_unit c = true /\ (c =? 43)%N = false.
Proof.
  intros H. assert (Hn : forall d, uri_safe d = false -> c <> d) by congruence.
  repeat split.
  - change (js "?&") with [63; 38]%N. rewrite !not_elem_of_cons. repeat split; try (apply Hn; reflexivity).
    apply not_elem_of_nil.
  - unfold is_value_unit. rewrite bool_decide_false; [done|].
    change (js "&#") with [38; 35]%N. rewrite !not_elem_of_cons. repeat split; try (apply Hn; reflexivity).
    apply not_elem_of_nil.
  - apply N.eqb_neq, Hn. reflexivity.
Qed.

Lemma safe_value v : Forall (fun c => uri_safe c = true) v -> Forall (fun d => is_value_unit d = true) v.
Proof. intros H. eapply list.Forall_impl; [exact H|]. intros c Hc. by apply uri_safe_facts. Qed.

Lemma safe_no_plus v :
  Forall (fun c => uri_safe c = true) v -> map (fun c => if (c =? 43)%N then 32%N else c) v = v.
Proof.
  induction 1 as [|c v Hc Hv IH]; [done|]. cbn [map]. apply uri_safe_facts in Hc as (_ & _ & ->). by rewrite IH.
Qed.

Lemma safe_skip v : Forall (fun c => uri_safe c = true) v -> Forall (fun c => c ∉ js "?&") v.
Proof. intros H. eapply list.Forall_impl; [exact H|]. intros c Hc. by apply uri_safe_facts. Qed.
End FindParam.

(** Texts the browser's encoder leaves alone. *)
Definition plain (s : jsstr) : Prop := Forall (fun c => is_unreserved c = true) s.

Lemma plain_safe s : plain s -> Forall (fun c => uri_safe c = true) s.
Proof. intros H. eapply list.Forall_impl; [exact H|]. intros c Hc. unfold uri_safe. by rewrite Hc. Qed.

Lemma plain_decodes s : plain s -> decodeURIComponent s = Some s.
Proof.
  unfold decodeURIComponent. intros H.
  assert (Ht : tokens s = Some (map Plain s)).
  { induction H as [|c s Hc Hs IH]; [done|]. cbn [tokens].
    rewrite (unreserved_not_pct _ Hc). cbn. rewrite IH. done. }
  rewrite Ht. cbn. clear Ht. induction H as [|c s Hc Hs IH]; [done|]. cbn. by rewrite IH.
Qed.

(** The value a parameter's text is read as. *)
Lemma read_param url nm e v :
  find_param nm url = Some e -> Forall (fun c => uri_safe c = true) e -> decodeURIComponent e = Some v ->
  getQueryParametersByName url nm = Ret (Some v).
Proof.
  intros Hf Hs Hd. unfold getQueryParametersByName. rewrite Hf. destruct e as [|c e]; [|by rewrite safe_no_plus, Hd].
  by injection Hd as <-.
Qed.

(** The path and the peer a forwarding link names. *)
Definition effective_path (targetLink : jsstr) (p : option jsstr) : jsstr :=
  if truthy_opt p then "/core/query-page/" ++ str_or_undefined p else targetLink.
Definition effective_peer (b : BaseService) (q : option jsstr) : jsstr :=
  str_or_undefined (if truthy_opt q then q else b.(selectedNodeId)).

Definition forwarding_text (ref peer path query : jsstr) : jsstr :=
  URL.NODE_SELECTOR ++ "/" ++ ref ++ "/forwarding?peer=" ++ peer ++ "&path=" ++ path
  ++ "&query=" ++ query ++ "&target=PEER_ID".

Lemma head_skip ref r nm :
  plain ref ->
  find_param nm (URL.NODE_SELECTOR ++ "/" ++ ref ++ "/forwarding?" ++ r) = find_param nm (63%N :: r).
Proof.
  intros Href. rewrite find_param_skip by decide_done. rewrite find_param_skip by decide_done.
  rewrite find_param_skip by by apply safe_skip, plain_safe.
  change (js "/forwarding?") with (js "/forwarding" ++ [63%N]). rewrite <- app_assoc.
  rewrite find_param_skip by decide_done. done.
Qed.

(** The parameters of a forwarding link. *)
Lemma forwarding_params ref peer path query :
  plain ref -> Forall (fun c => uri_safe c = true) peer ->
  Forall (fun c => uri_safe c = true) path -> Forall (fun c => uri_safe c = true) query ->
  let link := forwarding_text ref peer path query in
  find_param "peer" link = Some peer /\ find_param "path" link = Some path
  /\ find_param "query" link = Some query /\ find_param "target" link = Some (js "PEER_ID").
Proof.
  intros Href Hpeer Hpath Hq link. unfold link, forwarding_text.
  change (js "/forwarding?peer=") with (js "/forwarding?" ++ js "peer" ++ js "=").
  change (js "&path=") with ([38%N] ++ js "path" ++ js "=").
  change (js "&query=") with ([38%N] ++ js "query" ++ js "=").
  change (js "&target=PEER_ID") with ([38%N] ++ js "target" ++ js "=" ++ js "PEER_ID" ++ []).
  rewrite <- !app_assoc, !head_skip by done. cbn [app].
  assert (Hamp : 38%N ∈ js "?&") by decide_done. assert (Hqm : 63%N ∈ js "?&") by decide_done.
  assert (Hskip : forall nm v r, Forall (fun c => uri_safe c = true) v ->
    find_param nm (v ++ r) = find_param nm r) by (intros; by apply find_param_skip, safe_skip).
  assert (Heq : forall nm r, find_param nm (js "=" ++ r) = find_param nm r)
    by (intros; apply find_param_skip; decide_done).
  assert (Hw : forall w nm r, w ∈ [js "peer"; js "path"; js "query"] ->
    find_param nm (w ++ r) = find_param nm r).
  { intros w nm r Hin. apply find_param_skip.
    rewrite !elem_of_cons in Hin. destruct Hin as [->|[->|[->|[]%elem_of_nil]]]; decide_done. }
  assert (Hend : forall v, Forall (fun c => uri_safe c = true) v ->
    Forall (fun d => is_value_unit d = true) v) by apply safe_value.
  split_and!.
  - apply find_param_hit; auto.
  - rewrite find_param_miss, Hw, Heq, Hskip by (done || set_solver). apply find_param_hit; auto.
  - rewrite find_param_miss, Hw, Heq, Hskip by (done || set_solver).
    rewrite find_param_miss, Hw, Heq, Hskip by (done || set_solver). apply find_param_hit; auto.
  - rewrite find_param_miss, Hw, Heq, Hskip by (done || set_solver).
    rewrite find_param_miss, Hw, Heq, Hskip by (done || set_solver).
    rewrite find_param_miss, Hw, Heq, Hskip by (done || set_solver). apply find_param_hit; [done|decide_done|done].
Qed.

(** The parameters of the link [getForwardingLink] builds. *)
Lemma forwarding_link_read (b : BaseService) (targetLink query ref : jsstr) (p q : option jsstr) :
  getQueryParametersByName targetLink "path" = Ret p ->
  getQueryParametersByName targetLink "peer" = Ret q ->
  let path := effective_path targetLink p in
  let peer := effective_peer b q in
  b.(selectedNodeGroupReference) = Some ref -> plain ref -> plain peer ->
  units_ok path -> units_ok query ->
  encodeURIComponent path <> None -> encodeURIComponent query <> None ->
  exists link, getForwardingLink b targetLink query = Ret link
    /\ getQueryParametersByName link "peer" = Ret (Some peer)
    /\ getQueryParametersByName link "path" = Ret (Some path)
    /\ getQueryParametersByName link "query" = Ret (Some query)
    /\ getQueryParametersByName link "target" = Ret (Some (js "PEER_ID")).
Proof.
  intros Hp Hq path peer Href Hpref Hppeer Hupath Huq Hpath Hquery.
  destruct (encodeURIComponent path) as [ep|] eqn:Ep; [|done].
  destruct (encodeURIComponent query) as [eq|] eqn:Eq; [|done].
  exists (forwarding_text ref peer ep eq). split.
  { unfold getForwardingLink. rewrite Hp. cbn [exec_bind]. rewrite Hq. cbn [exec_bind].
    fold (effective_path targetLink p). unfold uri_encode. fold path. rewrite Ep. cbn [exec_bind].
    rewrite Eq. cbn [exec_bind]. by rewrite Href. }
  destruct (forwarding_params ref peer ep eq) as (H1 & H2 & H3 & H4);
    [done | by apply plain_safe | exact (encode_safe _ _ Hupath Ep) | exact (encode_safe _ _ Huq Eq) |].
  assert (Hpid : plain (js "PEER_ID")) by decide_done.
  split_and!; eapply read_param; eauto using plain_safe, plain_decodes, encode_safe, decode_encode.
Qed.

(** C11: A forwarding link, read back, names the peer, the path, the query and the
    PEER_ID target.  The peer is the [peer] parameter of the asked link when it
    has one and the selected node otherwise; the path is the query page named by
    its [path] parameter when it has one and the asked link otherwise.  The code
    escapes path and query, which have no lone surrogates here, and leaves the ids
    of the peer and of the node group as they are: these are taken to be made of
    units that need no escaping, as the ids of nodes and groups are. *)
Theorem forwarding_link_reads_back (b : BaseService) (targetLink query ref : jsstr) (p q : option jsstr) :
  getQueryParametersByName targetLink "path" = Ret p ->
  getQueryParametersByName targetLink "peer" = Ret q ->
  let path := effective_path targetLink p in
  let peer := effective_peer b q in
  b.(selectedNodeGroupReference) = Some ref -> plain ref -> plain peer ->
  units_ok path -> units_ok query ->
  encodeURIComponent path <> None -> encodeURIComponent query <> None ->
  exists link, getForwardingLink b targetLink query = Ret link
    /\ getQueryParametersByName link "peer" = Ret (Some peer)
    /\ getQueryParametersByName link "path" = Ret (Some path)
    /\ getQueryParametersByName link "query" = Ret (Some query)
    /\ getQueryParametersByName link "target" = Ret (Some (js "PEER_ID")).
Proof. exact (forwarding_link_read b targetLink query ref p q). Qed.

Lemma forwarding_link_reads_back_witness :
  exists link,
    getForwardingLink {| hostNodeId := Some (js "h1"); selectedNodeId := Some (js "n2");
                         selectedNodeGroupReference := Some (js "default") |}
      "/core/examples/a b" "$limit=25" = Ret link
    /\ getQueryParametersByName link "peer" = Ret (Some (js "n2"))
    /\ getQueryParametersByName link "path" = Ret (Some (js "/core/examples/a b"))
    /\ getQueryParametersByName link "query" = Ret (Some (js "$limit=25"))
    /\ getQueryParametersByName link "target" = Ret (Some (js "PEER_ID")).
Proof.
  apply (forwarding_link_reads_back
    {| hostNodeId := Some (js "h1"); selectedNodeId := Some (js "n2");
       selectedNodeGroupReference := Some (js "default") |}
    "/core/examples/a b" "$limit=25" "default" None None); try reflexivity;
    first [decide_done | intros H; vm_compute in H; discriminate H].
Defined.

(** A link that already has a query string absorbs the OData option into the
    value of its last parameter: nothing separates the two. *)
Theorem odata_option_absorbed (a nm v o : jsstr) :
  Forall (fun c => c ∉ js "?&") a -> o <> [] ->
  Forall (fun c => is_value_unit c = true) v -> Forall (fun c => is_value_unit c = true) o ->
  find_param nm (with_odata (a ++ "?" ++ nm ++ "=" ++ v) o) = Some (v ++ o).
Proof.
  intros Ha Hne Hv Ho. unfold with_odata. rewrite (proj2 (truthy_spec o)) by done.
  assert (Hq : hasQueryParameter (a ++ "?" ++ nm ++ "=" ++ v) = true).
  { unfold hasQueryParameter. apply bool_decide_true. rewrite !elem_of_app. right. left. decide_done. }
  rewrite Hq, <- !app_assoc, find_param_skip by done. change (js "?") with [63%N]. cbn [app].
  pose proof (find_param_hit 63 nm (v ++ o) []) as Hh. rewrite app_nil_r in Hh.
  apply Hh; [decide_done | by apply Forall_app | done].
Qed.

Lemma odata_option_absorbed_witness :
  find_param "documentSelfLink" (with_odata "/core/document-index?documentSelfLink=/a" "$limit=25")
  = Some (js "/a$limit=25").
Proof.
  apply (odata_option_absorbed "/core/document-index" "documentSelfLink" "/a" "$limit=25");
    first [decide_done | discriminate].
Defined.

Section Documents.
Context {T : Type} `{Document T}.

Lemma join_results_ok (ls : list jsstr) (ds : list T) :
  length ls = length ds -> join_results ls (map HttpOk ds) = Some (zip_with fill_self_link ls ds).
Proof.
  revert ds. induction ls as [|l ls IH]; intros [|d ds] Hl; simplify_eq/=; [done|]. by rewrite IH.
Qed.

Lemma join_results_some (ls : list jsstr) (rs : list (http_result T)) ds :
  join_results ls rs = Some ds -> exists ds', rs = map HttpOk ds' /\ length ls = length ds'.
Proof.
  revert rs ds. induction ls as [|l ls IH]; intros [|[d| |e] rs] ds; simplify_eq/=; try done.
  - intros _. by exists [].
  - destruct (join_results ls rs) as [ds'|] eqn:E; [|done]. intros _.
    apply IH in E as (ds'' & -> & Hl). exists (d :: ds''). cbn. by rewrite Hl.
Qed.

(** C20: Reading several documents delivers either all of them, in the order of the
    links and each with a self link (its own, or the link it was read from),
    or one failure, as soon as any of the requests fails. *)
Theorem getDocuments_all_or_failure (ls : list jsstr) (rs : list (http_result T)) (first : nat) :
  ls <> [] -> length rs = length ls ->
  (exists ds, rs = map HttpOk ds
     /\ getDocuments_result ls rs first = Some (Next (zip_with fill_self_link ls ds))
     /\ Forall2 (fun l d => exists k, (base_document d).(documentSelfLink) = Some k
                                      /\ (k = l \/ exists d0, d0 ∈ ds /\ d = d0))
          ls (zip_with fill_self_link ls ds))
  \/ (exists r f, r ∈ rs /\ (forall d, r <> HttpOk d) /\ getDocuments_result ls rs first = Some (Failed f)).
Proof.
  intros Hne Hlen. destruct (join_results ls rs) as [ds0|] eqn:E.
  - left. apply join_results_some in E as E'. destruct E' as (ds & -> & Hl). exists ds. split; [done|].
    rewrite join_results_ok in E by done. split.
    { unfold getDocuments_result. destruct ls; [done|]. by rewrite join_results_ok. }
    clear -Hl. revert ds Hl. induction ls as [|l ls IH]; intros [|d ds] Hl; simplify_eq/=; constructor.
    + unfold fill_self_link. destruct (documentSelfLink (base_document d)) as [k|] eqn:Ek.
      * exists k. split; [done|]. right. exists d. set_solver.
      * exists l. rewrite set_self_link_base. auto.
    + assert (Hl' : length ls = length ds) by congruence. eapply list.Forall2_impl; [exact (IH ds Hl')|]. cbn. intros x y (k & Hk & Hor). exists k. split; [done|].
      destruct Hor as [?|(d0 & ? & ?)]; [by left|]. right. exists d0. set_solver.
  - right. assert (Hr : exists r, r ∈ rs /\ forall d, r <> HttpOk d).
    { clear -E Hlen. revert rs E Hlen. induction ls as [|l ls IH]; intros [|r rs] E Hlen; simplify_eq/=.
      destruct r as [d| |e]; [|exists HttpUnparsable; set_solver|exists (HttpError e); set_solver].
      destruct (join_results ls rs) eqn:E'; [done|]. destruct (IH rs) as (r & Hr & Hn); [done|done|].
      exists r. set_solver. }
    destruct Hr as (r & Hr & Hn). exists r.
    unfold getDocuments_result. destruct ls; [done|]. rewrite E.
    destruct (rs !! first) as [[d| |e]|]; eauto.
Qed.
End Documents.

Lemma getDocuments_all_or_failure_witness :
  (exists ds, [HttpOk no_document; HttpOk no_document] = map HttpOk ds
     /\ getDocuments_result [js "/a"; js "/b"] [HttpOk no_document; HttpOk no_document] 0
        = Some (Next (zip_with fill_self_link [js "/a"; js "/b"] ds))
     /\ Forall2 (fun l d => exists k, (base_document d).(documentSelfLink) = Some k
                                      /\ (k = l \/ exists d0, d0 ∈ ds /\ d = d0))
          [js "/a"; js "/b"] (zip_with fill_self_link [js "/a"; js "/b"] ds))
  \/ (exists r f, r ∈ [HttpOk no_document; HttpOk no_document] /\ (forall d, r <> HttpOk d)
        /\ getDocuments_result [js "/a"; js "/b"] [HttpOk no_document; HttpOk no_document] 0 = Some (Failed f)).
Proof.
  apply (getDocuments_all_or_failure [js "/a"; js "/b"] [HttpOk no_document; HttpOk no_document] 0);
    [discriminate | reflexivity].
Defined.
