(* ===== verification/Ui.v ===== *)
(** * Components as event handlers

    A handler of an Angular component turns the component's state into a new
    one and a list of effects: requests, notifications, navigation, events
    emitted to the parent, charts, exceptions nobody catches.  A response arrives
    later, as an event of its own, and only while its subscription lasts. *)

From S2P Require Import Prelude JsString Json Charts Interfaces BaseService.

Section Effects.
(** The subscriptions of the component. *)
Context {K : Type}.

Inductive effect :=
  | EHttp (k : K) (rs : list Request)
  | ENotify (ns : list Notification)
  | ENavigate (commands : list jsstr) (queryParams : list (jsstr * option jsstr))
  | EReplaceState (path : jsstr)
  | EEmit (output : jsstr) (v : jsval)
  | EUnsubscribe (k : K)
  | EChart (a : chart_action)
  | EThrow (e : jserr).

Definition result (S : Type) : Type := S * list effect.

(** Subscribing to a call: the request, or the exception building it threw. *)
Definition call (k : K) (r : exec Request) : list effect :=
  match r with Ret r => [EHttp k [r]] | Throw e => [EThrow e] end.
Definition call_all (k : K) (r : exec (list Request)) : list effect :=
  match r with Ret rs => [EHttp k rs] | Throw e => [EThrow e] end.

(** What the effects do to charts. *)
Definition chart_actions (es : list effect) : list chart_action :=
  flat_map (fun e => match e with EChart a => [a] | _ => [] end) es.

Lemma chart_actions_EChart acts : chart_actions (map EChart acts) = acts.
Proof. induction acts as [|a acts IH]; [done|]. cbn. f_equal. exact IH. Qed.

Lemma chart_actions_app es1 es2 : chart_actions (es1 ++ es2) = chart_actions es1 ++ chart_actions es2.
Proof. apply flat_map_app. Qed.

Definition notify (t : jsstr) (m : jsstr) : effect := ENotify [{| type := t; messages := [m] |}].
End Effects.
Arguments effect : clear implicits.
Arguments result : clear implicits.

(** ** Inputs of a component *)

(** The change of an input property that [ngOnChanges] receives; [None] is
    [undefined]. *)
Record SimpleChange (A : Type) := { currentValue : option A; previousValue : option A }.
Arguments currentValue {A} _.
Arguments previousValue {A} _.

(** The guard of most [ngOnChanges]: a change of this property, to another and
    not empty value. *)
Definition changed {A} `{EqDecision A} (isEmpty : A -> bool) (c : option (SimpleChange A)) : option A :=
  match c with
  | None => None
  | Some c =>
      if bool_decide (c.(currentValue) = c.(previousValue)) then None
      else match c.(currentValue) with
           | Some v => if isEmpty v then None else Some v
           | None => None
           end
  end.

Definition changed_str (c : option (SimpleChange jsstr)) : option jsstr := changed (fun s => negb (truthy s)) c.

(** ** Asynchronous runs

    A component with the requests it has in flight.  Each user event runs a
    handler; a response is delivered to the subscription that waits for it. *)

Class Component (S K U R : Type) := {
  initial : S;
  on_user : S -> U -> result K S;
  on_response : S -> K -> R -> result K S
}.

Section Runs.
Context {S K U R : Type} `{EqDecision K} {C : Component S K U R}.

Record machine := { m_state : S; m_pending : list K }.

Definition issued (es : list (effect K)) : list K :=
  flat_map (fun e => match e with EHttp k _ => [k] | _ => [] end) es.
Definition dropped (es : list (effect K)) : list K :=
  flat_map (fun e => match e with EUnsubscribe k => [k] | _ => [] end) es.

(** Unsubscribing ends the latest subscription kept in a field; requests of
    earlier ones stay in flight. *)
Fixpoint remove_one (k : K) (l : list K) : list K :=
  match l with
  | [] => []
  | x :: l' => if bool_decide (x = k) then l' else x :: remove_one k l'
  end.

Definition settle (pending : list K) (es : list (effect K)) : list K :=
  issued es ++ fold_left (fun l k => remove_one k l) (dropped es) pending.

Inductive step : machine -> list (effect K) -> machine -> Prop :=
  | step_user m u s es :
      on_user m.(m_state) u = (s, es) ->
      step m es {| m_state := s; m_pending := settle m.(m_pending) es |}
  | step_response m k r s es :
      k ∈ m.(m_pending) -> on_response m.(m_state) k r = (s, es) ->
      step m es {| m_state := s; m_pending := settle (remove_one k m.(m_pending)) es |}.

Definition start : machine := {| m_state := initial; m_pending := [] |}.

(** A run and all the effects it had. *)
Inductive run : machine -> list (effect K) -> machine -> Prop :=
  | run_nil m : run m [] m
  | run_snoc m es m' es' m'' : run m es m' -> step m' es' m'' -> run m (es ++ es') m''.

(** An invariant every handler preserves holds of every run. *)
Lemma run_invariant (I : machine -> Prop) m es m' :
  (forall m1 es1 m2, I m1 -> step m1 es1 m2 -> I m2) -> I m -> run m es m' -> I m'.
Proof. intros Hstep Hm Hrun. induction Hrun; eauto. Qed.

(** An invariant of the state alone. *)
Lemma run_state_invariant (I : S -> Prop) m es m' :
  (forall s u s' es', I s -> on_user s u = (s', es') -> I s') ->
  (forall s k r s' es', I s -> on_response s k r = (s', es') -> I s') ->
  I m.(m_state) -> run m es m' -> I m'.(m_state).
Proof.
  intros Hu Hr. apply run_invariant with (I := fun m => I m.(m_state)).
  intros m1 es1 m2 Hm Hs. destruct Hs; cbn; eauto.
Qed.

Lemma issued_app a b : issued (a ++ b) = issued a ++ issued b.
Proof. apply flat_map_app. Qed.

Lemma elem_of_remove_one (x k : K) l : x ∈ remove_one k l -> x ∈ l.
Proof.
  induction l as [|y l IH]; [done|]. cbn. case_bool_decide; [set_solver|].
  rewrite !elem_of_cons. naive_solver.
Qed.
End Runs.
Arguments machine : clear implicits.
Arguments m_state {S K} _.
Arguments m_pending {S K} _.
