(* ===== verification/Auth.v ===== *)
(** * authentication.service.ts, authentication.guard.ts, login.component.ts

    Logging in and the guard of the routes.  moment is a class: times are
    milliseconds since the epoch, [None] an invalid moment, and the
    difference with an invalid moment is not a number. *)

From S2P Require Import Prelude JsString Json StringUtil Interfaces BaseService Ui.

Definition MAX_COOKIE_AGE_IN_SECONDS : Z := 3600.

Class Moment := {
  moment_of : option jsstr -> option Z;
  toISOString : Z -> jsstr;
  moment_of_null : moment_of None = None;
  moment_of_iso t : moment_of (Some (toISOString t)) = Some t
}.

(** ** btoa *)

Definition base64_digit (n : N) : N :=
  if (n <? 26)%N then (65 + n)%N else if (n <? 52)%N then (71 + n)%N
  else if (n <? 62)%N then (n - 4)%N else if (n =? 62)%N then 43%N else 47%N.

Fixpoint base64 (s : list N) : jsstr :=
  (match s with
   | a :: b :: c :: r =>
       [base64_digit (a / 4); base64_digit (a mod 4 * 16 + b / 16);
        base64_digit (b mod 16 * 4 + c / 64); base64_digit (c mod 64)] ++ base64 r
   | [a; b] => [base64_digit (a / 4); base64_digit (a mod 4 * 16 + b / 16); base64_digit (b mod 16 * 4); 61]
   | [a] => [base64_digit (a / 4); base64_digit (a mod 4 * 16); 61; 61]
   | [] => []
   end)%N.

(** Characters past 255 are refused with an exception. *)
Definition btoa (s : jsstr) : exec jsstr :=
  if forallb (fun c => c <? 256)%N s then Ret (base64 s) else Throw (ErrorMsg "InvalidCharacterError").

(** ** AuthenticationService *)

Record AuthenticationService := {
  redirectUrl : option jsstr;
  isAuthorizationEnabled : option bool
}.

Definition set_redirect (a : AuthenticationService) (url : jsstr) : AuthenticationService :=
  {| redirectUrl := Some url; isAuthorizationEnabled := a.(isAuthorizationEnabled) |}.
Definition set_authorization (a : AuthenticationService) (b : bool) : AuthenticationService :=
  {| redirectUrl := a.(redirectUrl); isAuthorizationEnabled := Some b |}.

Section Authentication.
Context {M : Moment}.
Context (BUILD_TYPE : jsstr).

(** The answer of an observable: at once, or of a request. *)
Inductive login_check := Immediate (b : bool) | Ask (r : Request).

(** [localStorage] holds the time of the last login; [now] is the clock. *)
Definition isCookieValid (storage : option jsstr) (now : Z) : bool :=
  match moment_of storage with
  | None => true
  | Some lastLogInTime => negb (MAX_COOKIE_AGE_IN_SECONDS <=? Z.quot (now - lastLogInTime) 1000)%Z
  end.

Definition isLoggedIn (a : AuthenticationService) (storage : option jsstr) (now : Z) : login_check :=
  match a.(isAuthorizationEnabled) with
  | None => Ask (get_request BUILD_TYPE URL.CoreManagement)
  | Some false => Immediate true
  | Some true => Immediate (isCookieValid storage now)
  end.

(** The answer to the test call: the flag of the host state, or an error.
    The result is the new state and the value, or the failure passed on. *)
Definition isLoggedIn_response (a : AuthenticationService) (storage : option jsstr) (now : Z)
    (r : http_result bool) : AuthenticationService * outcome bool :=
  match r with
  | HttpOk enabled => (set_authorization a enabled, Next true)
  | HttpUnparsable => (a, Failed (FThrown TypeError))
  | HttpError (EDocument e) =>
      if bool_decide (e.(statusCode) = Some 401%Z) || bool_decide (e.(statusCode) = Some 403%Z)
      then (set_authorization a true, Next (isCookieValid storage now))
      else (a, Next false)
  | HttpError EFalsy => (a, Failed (FThrown TypeError))
  | HttpError EUnparsable => (a, Failed (FThrown SyntaxError))
  end.

Context {NT : NumText}.

Definition request_type (t : jsstr) : jsstr := stringify (JObj [(js "requestType", JStr t)]).

Definition login (username password : jsstr) : exec Request :=
  encryptedCredentials <-! btoa (username ++ ":" ++ password);;
  Ret {| rq_method := POST; rq_url := URL.API_PREFIX BUILD_TYPE ++ URL.Authentication;
         rq_body := Some (request_type "LOGIN");
         rq_headers := json_headers ++ [(js "Authorization", "Basic " ++ encryptedCredentials)] |}.

(** The item stored when the login succeeds. *)
Definition login_stored (now : Z) : option jsstr := Some (toISOString now).

Definition logout : Request :=
  {| rq_method := POST; rq_url := URL.API_PREFIX BUILD_TYPE ++ URL.Authentication;
     rq_body := Some (request_type "LOGOUT"); rq_headers := json_headers |}.
Definition logout_stored : option jsstr := None.

(** ** AuthenticationGuard *)

Definition deny (a : AuthenticationService) (url : jsstr) : AuthenticationService * bool * list (effect unit) :=
  (set_redirect a url, false, [ENavigate [js "/login"] []]).

Definition canActivate_value (a : AuthenticationService) (url : jsstr) (loggedIn : outcome bool)
    : AuthenticationService * bool * list (effect unit) :=
  match loggedIn with
  | Next true => (a, true, [])
  | Next false | Failed _ => deny a url
  end.

(** [answer] is what the test call comes back with, if one is made. *)
Definition canActivate (a : AuthenticationService) (storage : option jsstr) (now : Z) (url : jsstr)
    (answer : http_result bool) : AuthenticationService * bool * list (effect unit) :=
  match isLoggedIn a storage now with
  | Immediate b => canActivate_value a url (Next b)
  | Ask _ => let '(a', v) := isLoggedIn_response a storage now answer in canActivate_value a' url v
  end.

(** ** LoginComponent *)

Record LoginComponent := {
  username : jsstr; password : jsstr; validationErrorMessage : jsstr; isLoading : bool;
  login_subscribed : bool
}.

Definition set_message (c : LoginComponent) (m : jsstr) (loading : bool) : LoginComponent :=
  {| username := c.(username); password := c.(password); validationErrorMessage := m; isLoading := loading;
     login_subscribed := c.(login_subscribed) |}.

(** [validate]: the state with the message it sets, and its answer. *)
Definition validate (c : LoginComponent) : LoginComponent * bool :=
  if negb (truthy c.(username)) then (set_message c "Username can not be empty" c.(isLoading), false)
  else if negb (truthy c.(password)) then (set_message c "Password can not be empty" c.(isLoading), false)
  else (c, true).

Definition onLogin (c : LoginComponent) : result unit LoginComponent :=
  let '(c, ok) := validate c in
  if negb ok then (c, [])
  else
    let r := login c.(username) c.(password) in
    ({| username := c.(username); password := c.(password);
        validationErrorMessage := c.(validationErrorMessage); isLoading := true;
        login_subscribed := match r with Ret _ => true | Throw _ => c.(login_subscribed) end |},
     call tt r).

(** The subscriber of the login: the page asked for, or the dashboard, as the
    only command given to [router.navigate] (which escapes a query string in it). *)
Definition onLogin_response (a : AuthenticationService) (c : LoginComponent) (o : outcome unit)
    : result unit LoginComponent :=
  match o with
  | Next _ =>
      (set_message c [] false, [ENavigate [or_str a.(redirectUrl) "/main/dashboard"] []])
  | Failed f =>
      let code := err_status f in
      (set_message c (if bool_decide (code = Some 401%Z) || bool_decide (code = Some 403%Z)
                      then "Invalid user name or password" else "Server error") false, [])
  end.

Definition login_ngOnDestroy (c : LoginComponent) : list (effect unit) :=
  if c.(login_subscribed) then [EUnsubscribe tt] else [].
End Authentication.

(** ** Credentials *)

(** The reading of base64 text (RFC 4648) the server makes. *)
Definition base64_value (c : N) : option N :=
  (if in_range 65 90 c then Some (c - 65) else if in_range 97 122 c then Some (c - 71)
   else if in_range 48 57 c then Some (c + 4) else if c =? 43 then Some 62
   else if c =? 47 then Some 63 else None)%N.

Fixpoint unbase64 (s : jsstr) : option (list N) :=
  (match s with
   | [] => Some []
   | a :: b :: c :: d :: r =>
       x ← base64_value a; y ← base64_value b;
       if c =? 61 then Some [x * 4 + y / 16]
       else z ← base64_value c;
         if d =? 61 then Some [x * 4 + y / 16; y mod 16 * 16 + z / 4]
         else w ← base64_value d;
           t ← unbase64 r; Some ([x * 4 + y / 16; y mod 16 * 16 + z / 4; z mod 4 * 64 + w] ++ t)
   | _ => None
   end)%N.

Lemma base64_value_digit n : (n < 64)%N -> base64_value (base64_digit n) = Some n /\ (base64_digit n =? 61)%N = false.
Proof.
  intros H. unfold base64_digit, base64_value, in_range.
  repeat match goal with |- context [if ?b then _ else _] => destruct b eqn:? end;
  rewrite ?N.ltb_lt, ?N.ltb_ge, ?N.eqb_eq, ?N.eqb_neq, ?andb_true_iff, ?andb_false_iff, ?N.leb_le, ?N.leb_gt in *;
  split; first [f_equal; lia | lia | idtac].
Qed.

(** One group of digits read back. *)
Lemma digits_back n : (n < 64)%N -> base64_value (base64_digit n) = Some n.
Proof. intros H. by apply base64_value_digit. Qed.
Lemma digit_no_pad n : (n < 64)%N -> (base64_digit n =? 61)%N = false.
Proof. intros H. by apply base64_value_digit. Qed.

Lemma unbase64_base64 n (s : list N) :
  length s <= n -> Forall (fun c => (c < 256)%N) s -> unbase64 (base64 s) = Some s.
Proof.
  revert s. induction n as [|n IH]; intros s Hlen Hs; [by destruct s; [|cbn in Hlen; lia]|].
  destruct s as [|a [|b [|c r]]]; [done|..]; rewrite !list.Forall_cons in Hs; destruct_and?.
  - cbn [base64 unbase64]. rewrite !digits_back by div_lia. cbn. do 2 f_equal. div_lia.
  - cbn [base64 unbase64]. rewrite !digits_back by div_lia. cbn [mbind option_bind].
    rewrite digit_no_pad by div_lia. cbn. repeat f_equal; div_lia.
  - cbn [base64 unbase64 app]. rewrite !digits_back, !digit_no_pad by div_lia. cbn [mbind option_bind].
    rewrite IH by (cbn in Hlen; try lia; done). cbn. repeat f_equal; div_lia.
Qed.

Section AuthFacts.
Context {M : Moment} {NT : NumText}.
Context (BUILD_TYPE : jsstr).

(** The login request carries the user name and the password, joined by a
    colon and encoded in base64, for every name and password of characters
    up to 255; any other character makes the login throw. *)
Theorem login_credentials (username password : jsstr) :
  if forallb (fun c => c <? 256)%N (username ++ ":" ++ password)
  then exists r cred, login BUILD_TYPE username password = Ret r
         /\ obj_get r.(rq_headers) "Authorization" = Some ("Basic " ++ cred)
         /\ unbase64 cred = Some (username ++ ":" ++ password)
  else exists e, login BUILD_TYPE username password = Throw e.
Proof.
  unfold login, btoa. destruct (forallb _ _) eqn:E; cbn [exec_bind]; [|eauto].
  do 2 eexists. split; [reflexivity|]. split; [reflexivity|].
  apply (unbase64_base64 (length (username ++ ":" ++ password))); [done|].
  rewrite list.Forall_forall. intros c Hc. rewrite forallb_forall in E.
  apply N.ltb_lt, E. by apply list_elem_of_In.
Qed.

(** C16: Once it is known that authorization is enabled, a user whose login is
    older than an hour is sent to the login page; after logging in the router is
    given the page asked for, and the guard lets the user in for the next hour
    without a request to the server. *)
Theorem login_returns_to_page (a : AuthenticationService) (c : LoginComponent) (url : jsstr)
    (t0 t1 t2 t3 : Z) (r1 r2 : http_result bool) :
  a.(isAuthorizationEnabled) = Some true -> url <> [] ->
  (3600 * 1000 <= t1 - t0)%Z -> (0 <= t3 - t2 < 3600 * 1000)%Z ->
  let '(a1, allowed1, es1) := canActivate BUILD_TYPE a (Some (toISOString t0)) t1 url r1 in
  let '(_, es2) := onLogin_response a1 c (Next tt) in
  let '(_, allowed2, es3) := canActivate BUILD_TYPE a1 (login_stored t2) t3 url r2 in
  allowed1 = false /\ es1 = [ENavigate [js "/login"] []]
  /\ es2 = [ENavigate [url] []] /\ allowed2 = true /\ es3 = [].
Proof.
  intros Ha Hurl Hold Hnew. unfold canActivate, isLoggedIn. rewrite Ha. unfold isCookieValid.
  rewrite moment_of_iso. unfold MAX_COOKIE_AGE_IN_SECONDS.
  rewrite (proj2 (Z.leb_le _ _)) by (apply Z.quot_le_lower_bound; lia).
  cbn. rewrite Ha. unfold login_stored. cbn. rewrite moment_of_iso.
  rewrite (proj2 (Z.leb_gt _ _)) by (apply Z.quot_lt_upper_bound; lia).
  destruct url; done.
Qed.

(** On a host with authorization, a user who never logged in (nothing is
    stored) is taken for logged in: the difference with an invalid moment is
    not a number, and not at least the age limit. *)
Theorem never_logged_in_passes (a : AuthenticationService) (now : Z) (url : jsstr) (e : ErrorDocument) :
  a.(isAuthorizationEnabled) = None -> e.(statusCode) = Some 401%Z ->
  canActivate BUILD_TYPE a None now url (HttpError (EDocument e)) = (set_authorization a true, true, []).
Proof.
  intros Ha He. unfold canActivate, isLoggedIn, isLoggedIn_response. rewrite Ha, He. cbn.
  unfold isCookieValid. by rewrite moment_of_null.
Qed.
End AuthFacts.

(** A moment library whose texts are a sign and a decimal number. *)
Definition decimal_moment : Moment.
Proof.
  refine {| moment_of o := match o with
                           | Some (c :: r) =>
                               let v := Z.of_N (digits_value 0 r) in Some (if (c =? 45)%N then - v else v)%Z
                           | _ => None end;
            toISOString t := (if (t <? 0)%Z then 45%N else 43%N) :: dec_N (Z.abs_N t) |}.
  - done.
  - intros t. cbn zeta. rewrite digits_value_dec. destruct (Z.ltb_spec t 0); cbn; f_equal; lia.
Defined.

Definition stale : AuthenticationService := {| redirectUrl := None; isAuthorizationEnabled := Some true |}.
Definition typed : LoginComponent :=
  {| username := "user"; password := "secret"; validationErrorMessage := []; isLoading := true;
     login_subscribed := true |}.

Lemma login_returns_to_page_witness :
  let '(a1, allowed1, es1) :=
    @canActivate decimal_moment "dev" stale (Some (@toISOString decimal_moment 0)) 3600000 "/main/query" HttpUnparsable in
  let '(_, es2) := onLogin_response a1 typed (Next tt) in
  let '(_, allowed2, es3) :=
    @canActivate decimal_moment "dev" a1 (@login_stored decimal_moment 3700000) 4000000 "/main/query" HttpUnparsable in
  allowed1 = false /\ es1 = [ENavigate [js "/login"] []]
  /\ es2 = [ENavigate [js "/main/query"] []] /\ allowed2 = true /\ es3 = [].
Proof.
  apply (@login_returns_to_page decimal_moment "dev" stale typed "/main/query" 0 3600000 3700000 4000000
           HttpUnparsable HttpUnparsable); [reflexivity | discriminate | lia | lia].
Defined.

Lemma never_logged_in_passes_witness :
  @canActivate decimal_moment "dev" {| redirectUrl := None; isAuthorizationEnabled := None |} None 5 "/main"
    (HttpError (EDocument {| statusCode := Some 401%Z; message := None |}))
  = ({| redirectUrl := None; isAuthorizationEnabled := Some true |}, true, []).
Proof.
  apply (@never_logged_in_passes decimal_moment "dev" {| redirectUrl := None; isAuthorizationEnabled := None |} 5
           "/main" {| statusCode := Some 401%Z; message := None |}); reflexivity.
Defined.
