(* ===== verification/NodeSelector.v ===== *)
(** * Selecting the node whose data is displayed

    node-selector.service.ts, node-selector.component.ts,
    navbar.component.ts and the data side of node-canvas.component.ts and
    node-info-panel.component.ts.  The subjects of NodeSelectorService reach
    the three parts that subscribe to them: BaseService for the life of the
    application, the navigation bar and the selector while the main component
    they belong to exists.  Logging out navigates to /login, which is outside
    that component: both are destroyed, and made anew after the next login. *)

From S2P Require Import Prelude JsString JsUri Lodash Json StringUtil Interfaces BaseService Ui.

(** A variable of type [Node]: the code tells [undefined] from [null]. *)
Inductive nodeval := Undefined | Null | ANode (n : Node).

Definition as_option (v : nodeval) : option Node := match v with ANode n => Some n | _ => None end.
Definition is_undefined (v : nodeval) : bool := match v with Undefined => true | _ => false end.

Definition id_of (v : nodeval) : exec jsstr :=
  match v with ANode n => Ret n.(node_id) | _ => Throw TypeError end.

Record NodeSelectorComponent := {
  nodeGroups : option (list NodeGroup);
  ns_selectedNodeId : option jsstr;
  hostNode : nodeval;
  selectedNode : nodeval;
  highlightedNode : nodeval;
  isNodeSelectorActive : bool
}.

Record NavbarComponent := {
  nav_active : bool; nav_hostNode : nodeval; nav_selectedNode : nodeval
}.

Record App := { base : BaseService; selector : NodeSelectorComponent; navbar : NavbarComponent }.

Definition new_NodeSelectorComponent : NodeSelectorComponent :=
  {| nodeGroups := None; ns_selectedNodeId := Some []; hostNode := Undefined;
     selectedNode := Undefined; highlightedNode := Undefined;
     isNodeSelectorActive := false |}.

Definition new_NavbarComponent : NavbarComponent :=
  {| nav_active := false; nav_hostNode := Undefined; nav_selectedNode := Undefined |}.

(** The two views as their constructors leave them, beside the one BaseService. *)
Definition new_views (b : BaseService) : App :=
  {| base := b; selector := new_NodeSelectorComponent; navbar := new_NavbarComponent |}.

Definition app_start : App := new_views new_BaseService.

(** Field updates. *)
Definition upd_selector (f : NodeSelectorComponent -> NodeSelectorComponent) (a : App) : App :=
  {| base := a.(base); selector := f a.(selector); navbar := a.(navbar) |}.
Definition with_selectedId (i : option jsstr) (s : NodeSelectorComponent) : NodeSelectorComponent :=
  {| nodeGroups := s.(nodeGroups); ns_selectedNodeId := i; hostNode := s.(hostNode);
     selectedNode := s.(selectedNode); highlightedNode := s.(highlightedNode);
     isNodeSelectorActive := s.(isNodeSelectorActive) |}.
Definition with_selected (v : nodeval) (s : NodeSelectorComponent) : NodeSelectorComponent :=
  {| nodeGroups := s.(nodeGroups); ns_selectedNodeId := s.(ns_selectedNodeId); hostNode := s.(hostNode);
     selectedNode := v; highlightedNode := s.(highlightedNode);
     isNodeSelectorActive := s.(isNodeSelectorActive) |}.
Definition with_highlighted (v : nodeval) (s : NodeSelectorComponent) : NodeSelectorComponent :=
  {| nodeGroups := s.(nodeGroups); ns_selectedNodeId := s.(ns_selectedNodeId); hostNode := s.(hostNode);
     selectedNode := s.(selectedNode); highlightedNode := v;
     isNodeSelectorActive := s.(isNodeSelectorActive) |}.
Definition with_active (b : bool) (s : NodeSelectorComponent) : NodeSelectorComponent :=
  {| nodeGroups := s.(nodeGroups); ns_selectedNodeId := s.(ns_selectedNodeId); hostNode := s.(hostNode);
     selectedNode := s.(selectedNode); highlightedNode := s.(highlightedNode);
     isNodeSelectorActive := b |}.
Section Selector.
Context {L : Lodash} {E : Engine}.
Context (BUILD_TYPE : jsstr).

(** ** NodeSelectorService *)

Definition setHostNode (a : App) (v : nodeval) : App :=
  {| base := on_host_node a.(base) (as_option v); selector := a.(selector);
     navbar := {| nav_active := a.(navbar).(nav_active); nav_hostNode := v;
                  nav_selectedNode := a.(navbar).(nav_selectedNode) |} |}.

Definition setSelectedNode (a : App) (v : nodeval) : App :=
  {| base := on_selected_node a.(base) (as_option v); selector := a.(selector);
     navbar := {| nav_active := a.(navbar).(nav_active); nav_hostNode := a.(navbar).(nav_hostNode);
                  nav_selectedNode := v |} |}.

Definition setNodeSelectorActive (a : App) (isActive : bool) : App :=
  {| base := a.(base); selector := with_active isActive a.(selector);
     navbar := {| nav_active := isActive; nav_hostNode := a.(navbar).(nav_hostNode);
                  nav_selectedNode := a.(navbar).(nav_selectedNode) |} |}.

(** ** NodeSelectorComponent *)

Inductive subscription := NodeGroupList | NodeGroupDetails | Logout.

(** The last group that has the node wins. *)
Definition find_node (groups : list NodeGroup) (nodeId : jsstr) : nodeval :=
  fold_left (fun node g => match obj_get g.(nodes) nodeId with Some n => ANode n | None => node end)
            groups Undefined.

Definition getSelectedNodeById (s : NodeSelectorComponent) (nodeId : jsstr) : nodeval :=
  match s.(nodeGroups) with
  | None | Some [] => Null
  | Some groups => find_node groups nodeId
  end.

(** The key an optional id is looked up with: [undefined] is the property
    "undefined". *)
Definition node_key (i : option jsstr) : jsstr := str_or_undefined i.

(** An id given in the address: neither empty nor the text "undefined". *)
Definition given (i : option jsstr) : bool := truthy_opt i && negb (bool_decide (i = Some (js "undefined"))).

Definition ns_getData (a : App) : list (effect subscription) :=
  call NodeGroupList (getDocument BUILD_TYPE a.(base) URL.NodeGroup [] false).

(** A change of the query parameters of the address. *)
Definition on_queryParams (a : App) (node : option jsstr) : result subscription App :=
  let a := upd_selector (with_selectedId node) a in
  let s := a.(selector) in
  match s.(nodeGroups) with
  | None | Some [] => (a, ns_getData a)
  | Some _ =>
      let v := if given s.(ns_selectedNodeId) then getSelectedNodeById s (node_key s.(ns_selectedNodeId))
               else s.(hostNode) in
      (setSelectedNode (upd_selector (with_selected v) a) v, [])
  end.

Definition on_nodeGroup (a : App) (o : outcome ServiceDocumentQueryResult) : result subscription App :=
  match o with
  | Next document =>
      let owner := (base_document document).(documentOwner) in
      let a := upd_selector (fun s =>
        with_selectedId (if given s.(ns_selectedNodeId) then s.(ns_selectedNodeId) else owner) s) a in
      (a, call_all NodeGroupDetails (getDocuments BUILD_TYPE a.(base) document.(documentLinks) [] false))
  | Failed f => (a, [ENotify [error_note "Failed to retrieve node group: " f]])
  end.

(** [getSelectedNodeById] on the groups that were just stored. *)
Definition node_among (groups : list NodeGroup) (i : option jsstr) : nodeval :=
  match groups with [] => Null | _ => find_node groups (node_key i) end.

(** [owner] is the [documentOwner] of the group list that was asked for. *)
Definition on_nodeGroups (a : App) (owner : option jsstr) (o : outcome (list NodeGroup)) : result subscription App :=
  match o with
  | Next groups =>
      let s := a.(selector) in
      let lookup := node_among groups in
      let host := lookup owner in
      let sel := lookup s.(ns_selectedNodeId) in
      let a := upd_selector (fun s =>
        {| nodeGroups := Some groups; ns_selectedNodeId := s.(ns_selectedNodeId); hostNode := host;
           selectedNode := sel; highlightedNode := sel;
           isNodeSelectorActive := s.(isNodeSelectorActive) |}) a in
      (setSelectedNode (setHostNode a host) sel, [])
  | Failed f => (a, [ENotify [error_note "Failed to retrieve node group details: " f]])
  end.

Definition getNodeGroups (s : NodeSelectorComponent) : list NodeGroup := default [] s.(nodeGroups).
Definition isViewVisible (s : NodeSelectorComponent) : bool := s.(isNodeSelectorActive).

(** [isHostNode] of the selector and of the navigation bar. *)
Definition isHostNode (host selected : nodeval) : exec bool :=
  if is_undefined host || is_undefined selected then Ret false
  else h <-! id_of host;; i <-! id_of selected;; Ret (h === i).

Definition onNodeHighlighted (a : App) (n : Node) : App := upd_selector (with_highlighted (ANode n)) a.

Definition onNodeSelectionConfirmed (a : App) (nodeId : jsstr) : result subscription App :=
  let v := getSelectedNodeById a.(selector) nodeId in
  let a := setSelectedNode (upd_selector (with_selected v) a) v in
  (setNodeSelectorActive a false, [ENavigate [js "./"] [(js "node", Some nodeId)]]).

Definition onViewClosed (a : App) : App := setNodeSelectorActive a false.

(** ** NavbarComponent *)

Definition getSelectedNodeId (n : NavbarComponent) : jsstr :=
  match n.(nav_selectedNode) with ANode m => m.(node_id) | _ => "Unknown" end.

Definition onNodeSelectorClicked (a : App) : App := setNodeSelectorActive a (negb a.(navbar).(nav_active)).

Context {CM : CaseMap} {NT : NumText}.

(** [ProcessingStageUtil[status.toUpperCase()].className]. *)
Definition stage_class (status : option jsstr) : exec jsstr :=
  match status with
  | None => Throw TypeError
  | Some s => match obj_get ProcessingStageUtil (toUpperCase s) with
              | Some info => Ret info.(className)
              | None => Throw TypeError
              end
  end.

Definition getSelectedNodeStatusClass (n : NavbarComponent) (baseClass : jsstr) : exec jsstr :=
  statusClass <-! (match n.(nav_selectedNode) with
                   | ANode m => stage_class m.(status)
                   | _ => stage_class (Some (js "UNKNOWN")) end);;
  Ret (baseClass ++ " " ++ statusClass).

Definition onLogout_response (o : outcome unit) : list (effect subscription) :=
  match o with
  | Next _ => [ENavigate [js "/login"] []]
  | Failed f => [ENotify [error_note "Failed to log out: " f]]
  end.

(** ** Runs of the application *)

(** [ViewsRecreated]: the main component is destroyed (both views unsubscribe)
    and made anew.  [SupersededGroups i owner gs]: [getData] runs at each change
    of the address until groups are known and keeps the last subscription only;
    the answer to an earlier read of a selector that was destroyed since, whose
    selected id was [i], still broadcasts. *)
Inductive event :=
  | QueryParams (node : option jsstr)
  | NodeGroupResponse (o : outcome ServiceDocumentQueryResult)
  | NodeGroupsResponse (owner : option jsstr) (o : outcome (list NodeGroup))
  | NodeHighlighted (n : Node)
  | NodeSelectionConfirmed (nodeId : jsstr)
  | ViewClosed
  | NodeSelectorClicked
  | ViewsRecreated
  | SupersededGroups (i owner : option jsstr) (groups : list NodeGroup).

Definition app_step (a : App) (e : event) : result subscription App :=
  match e with
  | QueryParams n => on_queryParams a n
  | NodeGroupResponse o => on_nodeGroup a o
  | NodeGroupsResponse owner o => on_nodeGroups a owner o
  | NodeHighlighted n => (onNodeHighlighted a n, [])
  | NodeSelectionConfirmed i => onNodeSelectionConfirmed a i
  | ViewClosed => (onViewClosed a, [])
  | NodeSelectorClicked => (onNodeSelectorClicked a, [])
  | ViewsRecreated => (new_views a.(base), [])
  | SupersededGroups i owner groups => (setSelectedNode (setHostNode a (node_among groups owner)) (node_among groups i), [])
  end.

Definition app_run (a : App) (es : list event) : App := fold_left (fun a e => (app_step a e).1) es a.
End Selector.

(** ** Properties of the selection *)

Section SelectorFacts.
Context {L : Lodash} {E : Engine}.
Context (BUILD_TYPE : jsstr).

(** The id BaseService keeps for a broadcast node. *)
Definition kept_id (v : nodeval) : jsstr := match v with ANode n => n.(node_id) | _ => [] end.

Definition kept_group (v : nodeval) : jsstr :=
  match v with ANode n => (parseDocumentLink n.(groupReference) []).(dl_id) | _ => "default" end.

Definition recreates (e : event) : bool := match e with ViewsRecreated => true | _ => false end.
Definition superseded (e : event) : bool := match e with SupersededGroups _ _ _ => true | _ => false end.

(** A view that shows the selected node [v] and the host node [h], made when
    BaseService was [b0], now [b]: nothing was broadcast since and the view shows
    nothing, or requests are directed by the nodes the view shows. *)
Definition shows_requested (b0 b : BaseService) (v h : nodeval) : Prop :=
  ((v = Undefined /\ b.(selectedNodeId) = b0.(selectedNodeId)
      /\ b.(selectedNodeGroupReference) = b0.(selectedNodeGroupReference))
   \/ (b.(selectedNodeId) = Some (kept_id v) /\ b.(selectedNodeGroupReference) = Some (kept_group v)))
  /\ ((h = Undefined /\ b.(hostNodeId) = b0.(hostNodeId)) \/ b.(hostNodeId) = Some (kept_id h)).

(** The navigation bar shows the nodes requests go by. *)
Definition bar_agrees (b0 : BaseService) (a : App) : Prop :=
  a.(navbar).(nav_active) = a.(selector).(isNodeSelectorActive)
  /\ shows_requested b0 a.(base) a.(navbar).(nav_selectedNode) a.(navbar).(nav_hostNode).

(** The selector shows what the navigation bar shows. *)
Definition selector_agrees (a : App) : Prop :=
  a.(selector).(selectedNode) = a.(navbar).(nav_selectedNode) /\ a.(selector).(hostNode) = a.(navbar).(nav_hostNode).

Lemma broadcast_bar (b0 : BaseService) (a : App) (v : nodeval) :
  bar_agrees b0 a -> bar_agrees b0 (setSelectedNode a v) /\ bar_agrees b0 (setHostNode a v).
Proof. intros (Ha & Hs & Hh). destruct v; repeat split; try done; by right. Qed.

Lemma new_views_agree (b : BaseService) : bar_agrees b (new_views b).
Proof. split; [done|]. split; left; by repeat split. Qed.

Lemma bar_step (b0 : BaseService) (a : App) (e : event) :
  recreates e = false -> bar_agrees b0 a -> bar_agrees b0 (app_step BUILD_TYPE a e).1.
Proof.
  intros He Hb. pose proof Hb as (Hact & Hs & Hh).
  destruct e as [i|[d|f]|ow [gs|f]|n|i| | | |i ow gs]; try discriminate He; cbn [app_step fst]; try done.
  - unfold on_queryParams. cbn [upd_selector selector nodeGroups with_selectedId].
    destruct (nodeGroups _) as [[|]|]; [done| |done]. by apply broadcast_bar.
  - unfold on_nodeGroups. cbn [fst]. by apply broadcast_bar, broadcast_bar.
  - pose proof (broadcast_bar b0 a (getSelectedNodeById a.(selector) i) Hb) as [[_ Hv] _]. split; [done|exact Hv].
  - by apply broadcast_bar, broadcast_bar.
Qed.

Lemma selector_step (a : App) (e : event) :
  superseded e = false -> selector_agrees a -> selector_agrees (app_step BUILD_TYPE a e).1.
Proof.
  intros He [Hs Hh]. destruct e as [i|[d|f]|ow [gs|f]|n|i| | | |i ow gs]; try discriminate He; try done.
  cbn [app_step]. unfold on_queryParams. cbn [upd_selector selector nodeGroups with_selectedId].
  by destruct (nodeGroups _) as [[|]|].
Qed.

Lemma bar_run (b0 : BaseService) (es : list event) : forall a : App,
  forallb (fun e => negb (recreates e)) es = true -> bar_agrees b0 a -> bar_agrees b0 (app_run BUILD_TYPE a es).
Proof.
  induction es as [|e es IH]; intros a Hes Ha; [done|]. cbn in Hes |- *.
  apply andb_prop in Hes as [He%negb_true_iff Hes]. by apply IH, bar_step.
Qed.

Lemma selector_run (es : list event) : forall a : App,
  forallb (fun e => negb (superseded e)) es = true -> selector_agrees a -> selector_agrees (app_run BUILD_TYPE a es).
Proof.
  induction es as [|e es IH]; intros a Hes Ha; [done|]. cbn in Hes |- *.
  apply andb_prop in Hes as [He%negb_true_iff Hes]. by apply IH, selector_step.
Qed.

(** C12: In the life of the two views, from their creation (at the start, or anew
    after a logout, which the service behind requests survives) and whatever the
    interleaving of responses, address changes and clicks, the navigation bar and
    the selector show the same selected node, host node and visibility, and these
    are the nodes requests go by; before the first node is broadcast both show
    none, and requests still go by what was chosen before the views were made.
    Only the late answer to a read of an earlier selector reaches the bar and the
    requests alone. *)
Theorem views_agree (es1 es2 : list event) :
  es1 = [] \/ list.last es1 = Some ViewsRecreated ->
  forallb (fun e => negb (recreates e)) es2 = true ->
  let a0 := app_run BUILD_TYPE app_start es1 in
  let a := app_run BUILD_TYPE a0 es2 in
  a.(navbar).(nav_active) = a.(selector).(isNodeSelectorActive)
  /\ shows_requested a0.(base) a.(base) a.(navbar).(nav_selectedNode) a.(navbar).(nav_hostNode)
  /\ (forallb (fun e => negb (superseded e)) es2 = true ->
      a.(selector).(selectedNode) = a.(navbar).(nav_selectedNode) /\ a.(selector).(hostNode) = a.(navbar).(nav_hostNode)).
Proof.
  intros Hnew Hes a0 a.
  assert (Ha0 : a0 = new_views a0.(base)).
  { destruct Hnew as [->|[l ->]%last_Some]; [done|]. unfold a0, app_run. by rewrite fold_left_app. }
  destruct (bar_run a0.(base) es2 a0) as [Hact Hshow]; [done|by rewrite Ha0; apply new_views_agree|].
  split_and!; [exact Hact|exact Hshow|]. intros Hlate. apply (selector_run es2 a0); [done|]. by rewrite Ha0.
Qed.

Lemma find_node_last (gs1 gs2 : list NodeGroup) (g : NodeGroup) (i : jsstr) (n : Node) :
  obj_get g.(nodes) i = Some n -> Forall (fun g' => obj_get g'.(nodes) i = None) gs2 ->
  find_node (gs1 ++ g :: gs2) i = ANode n.
Proof.
  intros Hg Hgs. unfold find_node. rewrite fold_left_app. cbn. rewrite Hg.
  induction Hgs as [|g' gs' Hg' Hgs IH]; [done|]. cbn. by rewrite Hg'.
Qed.

(** C26: Once the user confirms a node other than the host, the selector is closed,
    both views show that node, and a read that asks to be forwarded, of a link
    without [path] or [peer] parameters of its own, goes to that node with its
    path and its query; the ids of the node and of its group need no escaping.
    Confirming the host itself makes such a read direct.  Reads that ask not to be
    forwarded (the pages of a result, the node groups) are direct in both cases. *)
Theorem confirmed_node_is_asked (a : App) (gs1 gs2 : list NodeGroup) (g : NodeGroup) (n : Node)
    (h targetLink query : jsstr) :
  a.(selector).(nodeGroups) = Some (gs1 ++ g :: gs2) ->
  obj_get g.(nodes) n.(node_id) = Some n ->
  Forall (fun g' => obj_get g'.(nodes) n.(node_id) = None) gs2 ->
  a.(base).(hostNodeId) = Some h ->
  plain n.(node_id) -> plain (parseDocumentLink n.(groupReference) []).(dl_id) ->
  find_param "path" targetLink = None -> find_param "peer" targetLink = None ->
  units_ok targetLink -> units_ok query ->
  encodeURIComponent targetLink <> None -> encodeURIComponent query <> None ->
  let a' := (onNodeSelectionConfirmed a n.(node_id)).1 in
  a'.(selector).(isNodeSelectorActive) = false /\ a'.(navbar).(nav_active) = false
  /\ a'.(selector).(selectedNode) = ANode n /\ a'.(navbar).(nav_selectedNode) = ANode n
  /\ (forall l q, read_link a'.(base) l q false = Ret (with_odata l q))
  /\ if n.(node_id) === h
     then read_link a'.(base) targetLink query true = Ret (with_odata targetLink query)
     else exists link, read_link a'.(base) targetLink query true = Ret link
       /\ getQueryParametersByName link "peer" = Ret (Some n.(node_id))
       /\ getQueryParametersByName link "path" = Ret (Some targetLink)
       /\ getQueryParametersByName link "query" = Ret (Some query).
Proof.
  intros Hgs Hg Hgs2 Hh Hpi Hpg Hpath Hpeer Hut Huq Het Heq a'.
  assert (Hsel : getSelectedNodeById a.(selector) n.(node_id) = ANode n).
  { unfold getSelectedNodeById. rewrite Hgs. destruct (gs1 ++ g :: gs2) eqn:Eg; [by destruct gs1|].
    rewrite <- Eg. by apply find_node_last. }
  unfold a', onNodeSelectionConfirmed. rewrite Hsel. cbn [fst selector navbar base setNodeSelectorActive].
  split_and!; [done..|]. unfold read_link, remote. cbn. rewrite Hh. cbn.
  destruct (str_eqb n.(node_id) h) eqn:Eh.
  { apply str_eqb_eq in Eh as ->. rewrite bool_decide_true by done. done. }
  rewrite bool_decide_false by (intros [= Heq']; by apply str_eqb_neq in Eh). cbn.
  destruct (forwarding_link_read
    (on_selected_node a.(base) (Some n)) targetLink query
    (parseDocumentLink n.(groupReference) []).(dl_id) None None) as (link & H1 & H2 & H3 & H4 & _); try done.
  - unfold getQueryParametersByName. by rewrite Hpath.
  - unfold getQueryParametersByName. by rewrite Hpeer.
  - exists link. done.
Qed.
End SelectorFacts.

(** Two nodes in one group, for the examples. *)
Definition sample_node (i : jsstr) : Node :=
  {| node_base := no_document; groupReference := "http://127.0.0.1:8000/core/node-groups/default";
     status := Some (js "AVAILABLE"); options := []; node_id := i; membershipQuorum := 1;
     node_x := None; node_y := None |}.
Definition sample_group : NodeGroup :=
  {| nodeGroup_base := with_self_link no_document "/core/node-groups/default"; config := [];
     nodes := [(js "n1", sample_node "n1"); (js "n2", sample_node "n2")]; membershipUpdateTimeMicros := 0 |}.
Definition sample_app : App :=
  @app_run lodash_ref plain_engine "dev" app_start
    [QueryParams None; NodeGroupsResponse (Some (js "n1")) (Next [sample_group])].

Lemma views_agree_witness :
  let a0 := @app_run lodash_ref plain_engine "dev" app_start
    [QueryParams None; NodeGroupsResponse (Some (js "n1")) (Next [sample_group]); NodeSelectionConfirmed "n2"; ViewsRecreated] in
  let a := @app_run lodash_ref plain_engine "dev" a0
    [QueryParams None; NodeGroupsResponse (Some (js "n1")) (Next [sample_group])] in
  a.(base).(selectedNodeId) <> a0.(base).(selectedNodeId)
  /\ @shows_requested lodash_ref a0.(base) a.(base) a.(navbar).(nav_selectedNode) a.(navbar).(nav_hostNode)
  /\ a.(selector).(selectedNode) = a.(navbar).(nav_selectedNode).
Proof.
  cbv zeta. split; [by vm_compute|].
  destruct (@views_agree lodash_ref plain_engine "dev"
    [QueryParams None; NodeGroupsResponse (Some (js "n1")) (Next [sample_group]); NodeSelectionConfirmed "n2"; ViewsRecreated]
    [QueryParams None; NodeGroupsResponse (Some (js "n1")) (Next [sample_group])] (or_intror eq_refl) eq_refl) as (_ & H2 & H3).
  split; [exact H2|]. exact (proj1 (H3 eq_refl)).
Defined.

(** After a logout and a login the bar names no node, and until the groups are
    read again requests go to the node chosen before the logout. *)
Lemma relogin_keeps_node :
  let a := @app_run lodash_ref plain_engine "dev" sample_app [NodeSelectionConfirmed "n2"; ViewsRecreated; QueryParams None] in
  getSelectedNodeId a.(navbar) = js "Unknown" /\ a.(selector).(selectedNode) = Undefined
  /\ (link <-! read_link a.(base) "/core/examples" [] true;; getQueryParametersByName link "peer") = Ret (Some (js "n2")).
Proof. cbv zeta. split_and!; vm_compute; reflexivity. Qed.

Lemma confirmed_node_is_asked_witness :
  let a' := (@onNodeSelectionConfirmed lodash_ref sample_app "n2").1 in
  a'.(selector).(isNodeSelectorActive) = false /\ a'.(navbar).(nav_active) = false
  /\ a'.(selector).(selectedNode) = ANode (sample_node "n2") /\ a'.(navbar).(nav_selectedNode) = ANode (sample_node "n2")
  /\ (forall l q, read_link a'.(base) l q false = Ret (with_odata l q))
  /\ exists link, read_link a'.(base) "/core/examples" "$limit=25" true = Ret link
       /\ getQueryParametersByName link "peer" = Ret (Some (js "n2"))
       /\ getQueryParametersByName link "path" = Ret (Some (js "/core/examples"))
       /\ getQueryParametersByName link "query" = Ret (Some (js "$limit=25")).
Proof.
  apply (@confirmed_node_is_asked lodash_ref sample_app [] [] sample_group (sample_node "n2") "n1"
           "/core/examples" "$limit=25");
    first [reflexivity | decide_done | apply List.Forall_nil | intros H; vm_compute in H; discriminate H].
Defined.
