(* ===== verification/NodeCanvas.v ===== *)
(** * node-canvas.component.ts: what is drawn

    d3 and Chart.js draw; the model stops at the data and the class names
    handed to them. *)

From S2P Require Import Prelude JsString JsUri Lodash Json StringUtil Interfaces BaseService Ui NodeSelector.

(** [NodeGroupUtil.belongsToDefaultGroup]: a search of a literal text. *)
Definition belongsToDefaultGroup (groupReference : jsstr) : bool :=
  match find_sub groupReference "/core/node-groups/default" with Some _ => true | None => false end.

Record NodeCanvasComponent := {
  nc_nodeGroups : option (list NodeGroup);
  nc_hostNodeId : option jsstr;
  nc_selectedNodeId : option jsstr;
  nc_highlightedNodeId : option jsstr
}.

Record Link := { source : option Node; target : option Node }.

Definition groups_of (c : NodeCanvasComponent) : list NodeGroup := default [] c.(nc_nodeGroups).

(** Keep the existing node if it belongs to the default group. *)
Definition add_node (nodesByName : list (jsstr * Node)) (node : Node) : list (jsstr * Node) :=
  match obj_get nodesByName node.(node_id) with
  | Some old => if belongsToDefaultGroup old.(groupReference) then nodesByName
                else obj_set nodesByName node.(node_id) node
  | None => obj_set nodesByName node.(node_id) node
  end.

Definition getNodesByName (c : NodeCanvasComponent) : list (jsstr * Node) :=
  fold_left (fun byName g => fold_left add_node (obj_values g.(nodes)) byName) (groups_of c) [].

Definition group_links (nodesByName : list (jsstr * Node)) (nodes : list Node) : list Link :=
  flat_map (fun sourceNode =>
    flat_map (fun targetNode =>
      if sourceNode.(node_id) === targetNode.(node_id) then []
      else [{| source := obj_get nodesByName sourceNode.(node_id);
               target := obj_get nodesByName targetNode.(node_id) |}]) nodes) nodes.

Definition getLinks (c : NodeCanvasComponent) (nodesByName : list (jsstr * Node)) : list Link :=
  flat_map (fun g => group_links nodesByName (obj_values g.(nodes))) (groups_of c).

Definition getNodesByGroup (c : NodeCanvasComponent) (nodesByName : list (jsstr * Node))
    : list (jsstr * list (option Node)) :=
  fold_left (fun byGroup g =>
    obj_set byGroup (str_or_undefined g.(nodeGroup_base).(documentSelfLink))
      (map (fun node => obj_get nodesByName node.(node_id)) (obj_values g.(nodes)))) (groups_of c) [].

Section Canvas.
Context {L : Lodash} {CM : CaseMap}.

(** [%] of JavaScript truncates. *)
Definition getNodeGroupClass (c : NodeCanvasComponent) (group : jsstr) : jsstr :=
  let index := match c.(nc_nodeGroups) with
               | Some gs => Z.rem (lo_findIndex gs (fun g =>
                              bool_decide (g.(nodeGroup_base).(documentSelfLink) = Some group))) 7
               | None => 0%Z
               end in
  "group group-" ++ dec_Z index.

(** Both assignments of the source: the fallback, then the lookup. *)
Definition getNodeClassByStatus (status : option jsstr) : exec jsstr :=
  fallback <-! (if truthy_opt status then
                  match obj_get ProcessingStageUtil (toUpperCase (default [] status)) with
                  | Some _ => Ret [] | None => stage_class (Some (js "UNKNOWN")) end
                else stage_class (Some (js "UNKNOWN")));;
  statusClass <-! stage_class status;;
  Ret ("node " ++ statusClass).

(** The classes of a circle. *)
Definition is_node (i : option jsstr) (n : Node) : bool :=
  truthy_opt i && bool_decide (i = Some n.(node_id)).

Record Circle := {
  circle_node : Node; circle_class : jsstr; highlight : bool; active : bool; circle_host : bool
}.

Fixpoint draw_nodes (c : NodeCanvasComponent) (ns : list Node) : exec (list Circle) :=
  match ns with
  | [] => Ret []
  | n :: ns' =>
      k <-! getNodeClassByStatus n.(status);;
      cs <-! draw_nodes c ns';;
      Ret ({| circle_node := n; circle_class := k; highlight := is_node c.(nc_highlightedNodeId) n;
              active := is_node c.(nc_selectedNodeId) n; circle_host := is_node c.(nc_hostNodeId) n |} :: cs)
  end.

Record Drawing := { drawn_nodes : list Circle; drawn_links : list Link;
                    drawn_groups : list (jsstr * list (option Node)) }.

Definition render (c : NodeCanvasComponent) : exec Drawing :=
  let nodesByName := getNodesByName c in
  let nodesByGroup := getNodesByGroup c nodesByName in
  let links := getLinks c nodesByName in
  circles <-! draw_nodes c (obj_values nodesByName);;
  Ret {| drawn_nodes := circles; drawn_links := links; drawn_groups := nodesByGroup |}.

(** The input is taken, and drawn, when it is not empty. *)
Definition nc_ngOnChanges (c : NodeCanvasComponent) (selectedNodeIdChanges : option (SimpleChange jsstr))
    : NodeCanvasComponent * option (exec Drawing) :=
  match selectedNodeIdChanges with
  | Some ch =>
      if truthy_opt ch.(currentValue) then
        let c' := {| nc_nodeGroups := c.(nc_nodeGroups); nc_hostNodeId := c.(nc_hostNodeId);
                     nc_selectedNodeId := ch.(currentValue);
                     nc_highlightedNodeId := c.(nc_highlightedNodeId) |} in
        (c', Some (render c'))
      else (c, None)
  | None => (c, None)
  end.

(** A click highlights a node that is not highlighted yet. *)
Definition on_node_click (c : NodeCanvasComponent) (circle : Circle) : NodeCanvasComponent * option Node :=
  if circle.(highlight) then (c, None)
  else ({| nc_nodeGroups := c.(nc_nodeGroups); nc_hostNodeId := c.(nc_hostNodeId);
           nc_selectedNodeId := c.(nc_selectedNodeId);
           nc_highlightedNodeId := Some circle.(circle_node).(node_id) |}, Some circle.(circle_node)).

(** The text of the tooltip of a node. *)
Definition state_suffix (isHost isCurrent : bool) : jsstr :=
  let states := (if isHost then [js "Host"] else []) ++ (if isCurrent then [js "Current"] else []) in
  match states with [] => [] | _ => " (" ++ join ", " states ++ ")" end.

Definition node_tooltip (c : NodeCanvasComponent) (n : Node) : jsstr :=
  "Node: <strong>" ++ n.(node_id) ++ "</strong><small>"
  ++ state_suffix (is_node c.(nc_hostNodeId) n) (is_node c.(nc_selectedNodeId) n)
  ++ "</small><br>" ++ [10%N] ++ "                        Status: <strong>" ++ str_or_undefined n.(status)
  ++ "</strong><br>" ++ [10%N] ++ "                        Membership Quorum: <strong>" ++ dec_Z n.(membershipQuorum)
  ++ "</strong><br>" ++ [10%N] ++ "                        Options: <strong>" ++ join " " n.(options)
  ++ "</strong><br>".
End Canvas.

(** ** Properties of the drawing *)

Section CanvasFacts.
Implicit Types (byName : list (jsstr * Node)) (n : Node) (ns : list Node).

Definition all_nodes (c : NodeCanvasComponent) : list Node :=
  flat_map (fun g => obj_values g.(nodes)) (groups_of c).

Lemma getNodesByName_flat c : getNodesByName c = fold_left add_node (all_nodes c) [].
Proof.
  unfold getNodesByName, all_nodes. generalize (@nil (jsstr * Node)).
  induction (groups_of c) as [|g gs IH]; intros acc; [done|]. cbn. by rewrite fold_left_app, IH.
Qed.

(** The node that stands for an id: the first one of the default group, or
    else the last one. *)
Definition is_default (n : Node) : bool := belongsToDefaultGroup n.(groupReference).
Definition preferred (old : option Node) (n : Node) : option Node :=
  match old with Some o => if is_default o then Some o else Some n | None => Some n end.
Definition with_id (i : jsstr) (ns : list Node) : list Node := List.filter (fun n => n.(node_id) === i) ns.

Lemma add_node_get byName n i :
  obj_get (add_node byName n) i
  = if n.(node_id) === i then preferred (obj_get byName i) n else obj_get byName i.
Proof.
  unfold add_node, preferred, is_default. destruct (str_eqb (node_id n) i) eqn:E.
  - apply str_eqb_eq in E as <-. destruct (obj_get byName (node_id n)) as [o|] eqn:Eo.
    + destruct (belongsToDefaultGroup _); [done|]. by rewrite obj_get_set_eq.
    + by rewrite obj_get_set_eq.
  - apply str_eqb_neq in E. destruct (obj_get byName (node_id n)) as [o|].
    + destruct (belongsToDefaultGroup _); [done|]. by rewrite obj_get_set_ne.
    + by rewrite obj_get_set_ne.
Qed.

Lemma fold_add_get ns byName i :
  obj_get (fold_left add_node ns byName) i = fold_left preferred (with_id i ns) (obj_get byName i).
Proof.
  revert byName. induction ns as [|n ns IH]; intros byName; [done|]. cbn. rewrite IH, add_node_get.
  by destruct (str_eqb (node_id n) i).
Qed.

Lemma preferred_spec ns old :
  fold_left preferred ns old
  = match List.find is_default (match old with Some o => o :: ns | None => ns end) with
    | Some n => Some n
    | None => match rev ns with n :: _ => Some n | [] => old end
    end.
Proof.
  revert old. induction ns as [|n ns IH]; intros old; cbn.
  - destruct old as [o|]; [|done]. cbn. by destruct (is_default o).
  - rewrite IH. destruct old as [o|]; cbn.
    + destruct (is_default o) eqn:Eo; cbn; [by rewrite Eo|]. destruct (is_default n); [done|].
      destruct (List.find is_default ns); [done|]. by destruct (rev ns).
    + destruct (is_default n); [done|]. destruct (List.find is_default ns); [done|]. by destruct (rev ns).
Qed.

(** The table is keyed by the ids of its nodes, each once. *)
Definition keyed byName : Prop :=
  NoDup (obj_keys byName) /\ Forall (fun kn => kn.1 = kn.2.(node_id)) byName.

Lemma obj_set_keyed byName n : keyed byName -> keyed (obj_set byName n.(node_id) n).
Proof.
  intros [Hnd Hk]. split; [by apply obj_keys_set_NoDup|]. clear Hnd.
  induction byName as [|[k v] byName IH]; cbn; [by repeat constructor|].
  apply list.Forall_cons in Hk as [Hk Hks]. destruct (str_eqb k (node_id n)) eqn:E.
  - apply str_eqb_eq in E. by constructor.
  - constructor; auto.
Qed.

Lemma add_node_keyed byName n : keyed byName -> keyed (add_node byName n).
Proof.
  intros H. unfold add_node. destruct (obj_get _ _) as [o|]; [|by apply obj_set_keyed].
  destruct (belongsToDefaultGroup _); [done|by apply obj_set_keyed].
Qed.

Lemma getNodesByName_keyed c : keyed (getNodesByName c).
Proof.
  rewrite getNodesByName_flat. assert (H : keyed []) by by repeat constructor.
  revert H. generalize (@nil (jsstr * Node)).
  induction (all_nodes c) as [|n ns IH]; intros acc Hacc; [done|]. cbn. by apply IH, add_node_keyed.
Qed.

Lemma keyed_ids byName : keyed byName -> map node_id (obj_values byName) = obj_keys byName.
Proof.
  intros [_ Hk]. unfold obj_keys, obj_values. induction Hk as [|[k n] byName Hkn Hk IH]; [done|].
  cbn in *. by rewrite IH, Hkn.
Qed.

Lemma byName_get c i :
  obj_get (getNodesByName c) i
  = match List.find is_default (with_id i (all_nodes c)) with
    | Some n => Some n
    | None => List.hd_error (rev (with_id i (all_nodes c)))
    end.
Proof. rewrite getNodesByName_flat, fold_add_get, preferred_spec. cbn. by destruct (rev _). Qed.

(** Every node of a group is kept under its id. *)
Lemma member_kept c g n :
  g ∈ groups_of c -> n ∈ obj_values g.(nodes) -> exists m, obj_get (getNodesByName c) n.(node_id) = Some m.
Proof.
  intros Hg Hn. destruct (obj_get (getNodesByName c) (node_id n)) as [m|] eqn:Em; [by eexists|]. exfalso.
  rewrite getNodesByName_flat, fold_add_get, preferred_spec in Em. cbn in Em.
  assert (Hin : List.In n (with_id (node_id n) (all_nodes c))).
  { apply filter_In. rewrite str_eqb_refl. split; [|done]. apply in_flat_map.
    apply list_elem_of_In in Hg, Hn. by exists g. }
  destruct (List.find _ _); [done|]. apply in_rev in Hin. by destruct (rev _).
Qed.

(** C17: The canvas draws exactly one circle per node id, however many groups a
    node is in: the node as its default group describes it if it is in that
    group, else as the last group does. *)
Theorem one_circle_per_node (c : NodeCanvasComponent) :
  NoDup (map node_id (obj_values (getNodesByName c)))
  /\ (forall i, obj_get (getNodesByName c) i
       = match List.find is_default (with_id i (all_nodes c)) with
         | Some n => Some n
         | None => List.hd_error (rev (with_id i (all_nodes c)))
         end)
  /\ (forall i, (exists n, obj_get (getNodesByName c) i = Some n) <-> i ∈ map node_id (all_nodes c)).
Proof.
  split; [|split].
  - rewrite keyed_ids by apply getNodesByName_keyed. apply getNodesByName_keyed.
  - apply byName_get.
  - intros i. rewrite byName_get. split.
    + intros [n Hn]. assert (Hin : n ∈ with_id i (all_nodes c)).
      { destruct (List.find _ _) eqn:Ef.
        - injection Hn as ->. apply find_some in Ef as [Ef _]. by apply list_elem_of_In.
        - apply list_elem_of_In, in_rev. destruct (rev _); [done|]. injection Hn as ->. by left. }
      apply list_elem_of_In, filter_In in Hin as [Hin Hi]. apply str_eqb_eq in Hi as <-.
      apply list_elem_of_In, in_map, Hin.
    + intros (n & -> & Hn)%list_elem_of_fmap. destruct (List.find _ _); [by eexists|].
      destruct (rev (with_id (node_id n) (all_nodes c))) as [|m ms] eqn:Er; [|by eexists].
      exfalso. assert (Hin : List.In n (with_id (node_id n) (all_nodes c))).
      { apply filter_In. rewrite str_eqb_refl. split; [by apply list_elem_of_In|done]. }
      apply in_rev in Hin. by rewrite Er in Hin.
Qed.

Lemma group_links_elem byName ns l :
  l ∈ group_links byName ns <->
  exists s t, s ∈ ns /\ t ∈ ns /\ s.(node_id) <> t.(node_id)
    /\ l = {| source := obj_get byName s.(node_id); target := obj_get byName t.(node_id) |}.
Proof.
  unfold group_links. rewrite list_elem_of_In, in_flat_map. setoid_rewrite in_flat_map. split.
  - intros (s & Hs & t & Ht & Hl). destruct (str_eqb _ _) eqn:E; [done|].
    apply str_eqb_neq in E. destruct Hl as [<-|[]]. exists s, t. by rewrite !list_elem_of_In.
  - intros (s & t & Hs & Ht & Hne & ->). rewrite list_elem_of_In in Hs, Ht. exists s. split; [done|].
    exists t. split; [done|]. apply str_eqb_neq in Hne as ->. by left.
Qed.

(** C18: The links of the canvas join drawn circles, never a circle with itself or
    with nothing, and two different nodes are linked exactly when some group
    has them both. *)
Theorem links_join_group_members (c : NodeCanvasComponent) (l : Link) :
  let byName := getNodesByName c in
  l ∈ getLinks c byName <->
  exists g s t s' t', g ∈ groups_of c /\ s' ∈ obj_values g.(nodes) /\ t' ∈ obj_values g.(nodes)
    /\ obj_get byName s'.(node_id) = Some s /\ obj_get byName t'.(node_id) = Some t
    /\ s.(node_id) <> t.(node_id) /\ l = {| source := Some s; target := Some t |}.
Proof.
  intros byName. destruct (getNodesByName_keyed c) as [Hnd Hk]. fold byName in Hnd, Hk.
  assert (Hid : forall i n, obj_get byName i = Some n -> n.(node_id) = i).
  { intros i n Hn%obj_get_elem. rewrite list.Forall_forall in Hk. symmetry. exact (Hk _ Hn). }
  pose proof (member_kept c) as Hall. fold byName in Hall.
  unfold getLinks. rewrite list_elem_of_In, in_flat_map. split.
  - intros (g & Hg & Hl). apply list_elem_of_In in Hl. apply group_links_elem in Hl as (s' & t' & Hs & Ht & Hne & ->).
    apply list_elem_of_In in Hg. destruct (Hall g s') as [s Es]; [done..|]. destruct (Hall g t') as [t Et]; [done..|].
    exists g, s, t, s', t'. rewrite Es, Et. split_and!; try done. by rewrite (Hid _ _ Es), (Hid _ _ Et).
  - intros (g & s & t & s' & t' & Hg & Hs & Ht & Es & Et & Hne & ->). exists g.
    split; [by apply list_elem_of_In|]. apply list_elem_of_In, group_links_elem. exists s', t'.
    split_and!; try done; [by rewrite <- (Hid _ _ Es), <- (Hid _ _ Et)|by rewrite Es, Et].
Qed.
End CanvasFacts.

(** A node whose status is missing or no known stage breaks the drawing with a
    TypeError: the class of unknown statuses chosen first is overwritten by an
    unguarded lookup. *)
Theorem unknown_status_throws {CM : CaseMap} (st : option jsstr) :
  match st with Some s => obj_get ProcessingStageUtil (toUpperCase s) = None | None => True end ->
  getNodeClassByStatus st = Throw TypeError.
Proof.
  intros H. unfold getNodeClassByStatus.
  assert (Hunk : stage_class (Some (js "UNKNOWN")) = Ret (js "created-status")).
  { unfold stage_class. rewrite toUpperCase_ascii by reflexivity. reflexivity. }
  rewrite Hunk. destruct st as [s|]; [|done]. cbn [truthy_opt from_option id].
  rewrite H. destruct (truthy s); cbn [exec_bind stage_class]; by rewrite H.
Qed.

Lemma unknown_status_throws_witness :
  @getNodeClassByStatus ascii_case (Some (js "DEGRADED")) = Throw TypeError.
Proof. apply (@unknown_status_throws ascii_case (Some (js "DEGRADED"))); reflexivity. Defined.
