(* ===== verification/NodePanel.v ===== *)
(** * node-info-panel.component.ts

    The details of the highlighted node, with the charts of its memory and its
    disk. *)

From S2P Require Import Prelude JsString JsUri Lodash Json Charts StringUtil Interfaces BaseService Ui NodeSelector NodeCanvas.

(** ** node-info-panel.component.ts *)

Record ServiceHostState := { host_base : ServiceDocument; systemInfo : option SystemHostInfo }.

Record NodeInfoPanelComponent := {
  np_hostNodeId : option jsstr;
  np_selectedNodeId : option jsstr;
  highlightedNodeGroupReference : option jsstr;
  highlightedNodeId : option jsstr;
  canSwitchToNode : bool;
  highlightedNodeDetails : option ServiceHostState;
  memoryChartCanvas : Canvas;
  memoryChart : bool;                  (* a chart was made *)
  diskChartCanvas : Canvas;
  diskChart : bool;
  baseServiceSubscription : bool       (* a subscription is kept *)
}.

Section Panel.
Context {L : Lodash} {E : Engine} {CM : CaseMap}.
Context (BUILD_TYPE : jsstr).
Context (toPrecision3 : Q -> jsstr).
(** numeral, moment and the durations of moment. *)
Context (numeral_format : Q -> jsstr -> jsstr) (moment_format : Q -> jsstr -> jsstr) (asSeconds : Q -> Q).

Definition with_details (p : NodeInfoPanelComponent) (can : bool) (d : option ServiceHostState)
    (charts : bool * bool) : NodeInfoPanelComponent :=
  {| np_hostNodeId := p.(np_hostNodeId); np_selectedNodeId := p.(np_selectedNodeId);
     highlightedNodeGroupReference := p.(highlightedNodeGroupReference);
     highlightedNodeId := p.(highlightedNodeId); canSwitchToNode := can; highlightedNodeDetails := d;
     memoryChartCanvas := p.(memoryChartCanvas); memoryChart := charts.1;
     diskChartCanvas := p.(diskChartCanvas); diskChart := charts.2;
     baseServiceSubscription := p.(baseServiceSubscription) |}.

Definition getStateSuffix (p : NodeInfoPanelComponent) : jsstr :=
  state_suffix (truthy_opt p.(np_hostNodeId) && bool_decide (p.(np_hostNodeId) = p.(highlightedNodeId)))
               (truthy_opt p.(np_selectedNodeId) && bool_decide (p.(np_selectedNodeId) = p.(highlightedNodeId))).

Definition usage (free total : SystemHostInfo -> Q) (p : NodeInfoPanelComponent) : jsstr :=
  match d ← p.(highlightedNodeDetails); d.(systemInfo) with
  | None => "0"
  | Some i =>
      if Qeq_bool (total i) 0
      then if Qeq_bool (free i) 0 then "NaN" else if Qltb (free i) 0 then "Infinity" else "-Infinity"
      else toPrecision3 ((1 - free i / total i) * 100)%Q
  end.
Definition getMemoryUsagePercentage := usage freeMemoryByteCount totalMemoryByteCount.
Definition getDiskUsagePercentage := usage freeDiskByteCount totalDiskByteCount.

Definition getOsIconClass (osFamily : option jsstr) : exec jsstr :=
  if truthy_opt osFamily then
    match obj_get OsUtil (toUpperCase (default [] osFamily)) with
    | Some i => Ret i.(iconClassName)
    | None => Throw TypeError
    end
  else Ret [].

Definition np_isHostNode (p : NodeInfoPanelComponent) : bool := bool_decide (p.(highlightedNodeId) = p.(np_hostNodeId)).
Definition np_isSelectedNode (p : NodeInfoPanelComponent) : bool :=
  bool_decide (p.(highlightedNodeId) = p.(np_selectedNodeId)).

Definition np_getForwardingLink (p : NodeInfoPanelComponent) : jsstr :=
  let ref := if truthy_opt p.(highlightedNodeGroupReference)
             then (parseDocumentLink (default [] p.(highlightedNodeGroupReference)) []).(dl_id)
             else js "default" in
  URL.NODE_SELECTOR ++ "/" ++ ref ++ "/forwarding?peer=" ++ str_or_undefined p.(highlightedNodeId)
  ++ "&path=" ++ URL.CoreManagement ++ "&target=PEER_ID".

Definition retrieveHighlightedNodeDetails (b : BaseService) (p : NodeInfoPanelComponent) : list (effect unit) :=
  call tt (getDocument BUILD_TYPE b
             (if np_isHostNode p then URL.CoreManagement else np_getForwardingLink p) [] false).

Definition np_ngOnChanges (b : BaseService) (p : NodeInfoPanelComponent) (ch : option (SimpleChange jsstr))
    : result unit NodeInfoPanelComponent :=
  match changed_str ch with
  | None => (p, [])
  | Some v =>
      let p' := {| np_hostNodeId := p.(np_hostNodeId); np_selectedNodeId := p.(np_selectedNodeId);
                   highlightedNodeGroupReference := p.(highlightedNodeGroupReference);
                   highlightedNodeId := Some v; canSwitchToNode := p.(canSwitchToNode);
                   highlightedNodeDetails := p.(highlightedNodeDetails);
                   memoryChartCanvas := p.(memoryChartCanvas); memoryChart := p.(memoryChart);
                   diskChartCanvas := p.(diskChartCanvas); diskChart := p.(diskChart);
                   baseServiceSubscription := true |} in
      (p', retrieveHighlightedNodeDetails b p')
  end.

(** The defaults of all charts, set when the view is there. *)
Definition chart_defaults : list chart_action :=
  let global p v := ChartDefault (js "global" :: p) v in
  let tooltips k v := global [js "tooltips"; k] v in
  [ global [js "title"; js "display"] (JBool false);
    global [js "legend"; js "display"] (JBool false);
    global [js "animation"; js "duration"] (JInt 200);
    tooltips "displayColors" (JBool false);
    tooltips "bodyFontFamily" (JStr ([34%N] ++ "Helvetica Neue" ++ [34%N] ++ ", " ++ [34%N] ++ "Arial" ++ [34%N] ++ ", sans-serif"));
    tooltips "bodyFontSize" (JInt 16);
    tooltips "backgroundColor" (JStr "rgba(33, 33, 33, .75)");
    tooltips "cornerRadius" (JInt 4);
    tooltips "xPadding" (JInt 12);
    tooltips "yPadding" (JInt 12);
    tooltips "titleSpacing" (JInt 0) ].

(** [memory], [disk]: the page has an element of this id. *)
Definition np_ngAfterViewInit (p : NodeInfoPanelComponent) (memory disk : bool) : result unit NodeInfoPanelComponent :=
  ({| np_hostNodeId := p.(np_hostNodeId); np_selectedNodeId := p.(np_selectedNodeId);
      highlightedNodeGroupReference := p.(highlightedNodeGroupReference);
      highlightedNodeId := p.(highlightedNodeId); canSwitchToNode := p.(canSwitchToNode);
      highlightedNodeDetails := p.(highlightedNodeDetails);
      memoryChartCanvas := getElementById memory; memoryChart := p.(memoryChart);
      diskChartCanvas := getElementById disk; diskChart := p.(diskChart);
      baseServiceSubscription := p.(baseServiceSubscription) |}, map EChart chart_defaults).

Definition np_ngOnDestroy (p : NodeInfoPanelComponent) : list (effect unit) :=
  (if p.(baseServiceSubscription) then [EUnsubscribe tt] else [])
  ++ map EChart (destroy_if p.(memoryChart) "memoryChart" ++ destroy_if p.(diskChart) "diskChart").

Definition np_formatTimeStamp (milliseconds : Q) : jsstr := getTimeStamp moment_format milliseconds false.
Definition formatDurationInSeconds (milliseconds : Q) : jsstr :=
  formatDurationToSeconds numeral_format asSeconds milliseconds ++ " Seconds".
Definition np_formatDataSize (bytes : Q) : jsstr :=
  if Qeq_bool bytes 0 then "N/A" else formatDataSize numeral_format bytes.
Definition np_formatNumber (n : Q) : jsstr := formatNumber numeral_format n false.

(** A ring of the used and the available part, in a colour and in grey. *)
Definition doughnut (what : jsstr) (rgb : jsstr) (total free : Q) : Config :=
  {| cf_type := "doughnut";
     cf_data := {| cd_labels := ["Used " ++ what; "Available " ++ what];
                   cd_datasets := [{| ds_data := [total - free; free]%Q;
                     ds_style := [ (js "backgroundColor", JArr [JStr ("rgba(" ++ rgb ++ ", .25)"); JStr "rgba(189, 189, 189, .25)"]);
                                   (js "borderColor", JArr [JStr ("rgba(" ++ rgb ++ ", 1)"); JStr "rgba(189, 189, 189, 1)"]);
                                   (js "borderWidth", JInt 1) ] |}] |};
     cf_options := [(js "cutoutPercentage", JInt 80)];
     cf_label := named_label (formatDataSize numeral_format) |}.
Definition memory_chart (i : SystemHostInfo) : Config :=
  doughnut "Memory" "41, 182, 246" i.(totalMemoryByteCount) i.(freeMemoryByteCount).
Definition disk_chart (i : SystemHostInfo) : Config :=
  doughnut "Disk" "156, 204, 101" i.(totalDiskByteCount) i.(freeDiskByteCount).

Definition np_renderChart (p : NodeInfoPanelComponent) : result unit NodeInfoPanelComponent :=
  match d ← p.(highlightedNodeDetails); d.(systemInfo) with
  | None => (p, [])
  | Some i =>
      (with_details p p.(canSwitchToNode) p.(highlightedNodeDetails) (true, true),
       map EChart (destroy_if p.(memoryChart) "memoryChart" ++ destroy_if p.(diskChart) "diskChart"
                   ++ [NewChart "memoryChart" p.(memoryChartCanvas) (Some (memory_chart i));
                       NewChart "diskChart" p.(diskChartCanvas) (Some (disk_chart i))]))
  end.

Definition on_nodeDetails (p : NodeInfoPanelComponent) (o : outcome ServiceHostState)
    : result unit NodeInfoPanelComponent :=
  match o with
  | Next d => np_renderChart (with_details p true (Some d) (p.(memoryChart), p.(diskChart)))
  | Failed f =>
      let p' := with_details p false p.(highlightedNodeDetails) (p.(memoryChart), p.(diskChart)) in
      (p', match parseUrl (str_or_undefined p.(highlightedNodeGroupReference)) with
           | None => [EThrow TypeError]
           | Some u =>
               let url := u.(protocol) ++ "//" ++ u.(host) ++ "/core/ui/default/#/" in
               [notify "ERROR" ("Failed to retrieve node details: " ++ err_text f ++ ".<br>" ++ [10%N]
                  ++ "                        If this node is not in the default node group, try accessing its own"
                  ++ [10%N] ++ "                        <a href=" ++ [34%N] ++ url ++ [34%N] ++ " target="
                  ++ [34%N] ++ "_blank" ++ [34%N] ++ ">Xenon UI</a>")]
           end)
  end.

Definition onSelectNodeBtnClicked (p : NodeInfoPanelComponent) : list (effect unit) :=
  [EEmit "selectNode" (match p.(highlightedNodeId) with Some i => JStr i | None => JNull end)].
End Panel.

(** ** Properties *)

(** What happens to the panel once its view is there. *)
Inductive panel_event :=
  | PanelInputs (host selected group : option jsstr)
  | PanelChanges (b : BaseService) (ch : option (SimpleChange jsstr))
  | PanelDetails (o : outcome ServiceHostState).

Section PanelFacts.
Context {L : Lodash} {E : Engine}.
Context (BUILD_TYPE : jsstr) (toPrecision3 : Q -> jsstr) (numeral_format : Q -> jsstr -> jsstr).

Definition panel_step (p : NodeInfoPanelComponent) (e : panel_event) : result unit NodeInfoPanelComponent :=
  match e with
  | PanelInputs h s g =>
      ({| np_hostNodeId := h; np_selectedNodeId := s; highlightedNodeGroupReference := g;
          highlightedNodeId := p.(highlightedNodeId); canSwitchToNode := p.(canSwitchToNode);
          highlightedNodeDetails := p.(highlightedNodeDetails);
          memoryChartCanvas := p.(memoryChartCanvas); memoryChart := p.(memoryChart);
          diskChartCanvas := p.(diskChartCanvas); diskChart := p.(diskChart);
          baseServiceSubscription := p.(baseServiceSubscription) |}, [])
  | PanelChanges b ch => np_ngOnChanges BUILD_TYPE b p ch
  | PanelDetails o => on_nodeDetails numeral_format p o
  end.

Fixpoint panel_run (p : NodeInfoPanelComponent) (es : list panel_event) : result unit NodeInfoPanelComponent :=
  match es with
  | [] => (p, [])
  | e :: es' => let '(p1, fs) := panel_step p e in let '(p2, gs) := panel_run p1 es' in (p2, fs ++ gs)
  end.

(** The last system information among the answers. *)
Definition info_after (old : option SystemHostInfo) (e : panel_event) : option SystemHostInfo :=
  match e with
  | PanelDetails (Next d) => match d.(systemInfo) with Some i => Some i | None => old end
  | _ => old
  end.

Definition ring (chart : SystemHostInfo -> Config) (i : option SystemHostInfo) : shown :=
  match i with Some i => Shows (Some (chart i)) | None => Nothing end.

(** What is on the canvases: the charts of the last information. *)
Record panel_inv (p : NodeInfoPanelComponent) (last : option SystemHostInfo) (m d : shown) : Prop := {
  pi_canvases : p.(memoryChartCanvas) = CanvasElement /\ p.(diskChartCanvas) = CanvasElement;
  pi_memory : m = ring (memory_chart numeral_format) last;
  pi_disk : d = ring (disk_chart numeral_format) last;
  pi_made : last <> None -> p.(memoryChart) = true /\ p.(diskChart) = true;
  pi_details : forall i, (x ← p.(highlightedNodeDetails); x.(systemInfo)) = Some i -> last = Some i
}.

Lemma ring_known chart last : ring chart last <> Clash /\ (ring chart last <> Nothing -> last <> None).
Proof. by destruct last. Qed.

(** Both charts are renewed. *)
Lemma rings_renewed c1 c2 m1 m2 s1 s2 :
  s1 <> Clash -> (s1 <> Nothing -> m1 = true) -> s2 <> Clash -> (s2 <> Nothing -> m2 = true) ->
  let acts := destroy_if m1 "memoryChart" ++ destroy_if m2 "diskChart"
              ++ [NewChart "memoryChart" CanvasElement c1; NewChart "diskChart" CanvasElement c2] in
  shown_after "memoryChart" s1 acts = Shows c1 /\ shown_after "diskChart" s2 acts = Shows c2.
Proof.
  intros H1 K1 H2 K2. destruct s1; [destruct m1|rewrite K1 by done|done];
    (destruct s2; [destruct m2|rewrite K2 by done|done]); split; reflexivity.
Qed.

Lemma rings_destroyed m1 m2 s1 s2 :
  s1 <> Clash -> (s1 <> Nothing -> m1 = true) -> s2 <> Clash -> (s2 <> Nothing -> m2 = true) ->
  let acts := destroy_if m1 "memoryChart" ++ destroy_if m2 "diskChart" in
  shown_after "memoryChart" s1 acts = Nothing /\ shown_after "diskChart" s2 acts = Nothing.
Proof.
  intros H1 K1 H2 K2. destruct s1; [destruct m1|rewrite K1 by done|done];
    (destruct s2; [destruct m2|rewrite K2 by done|done]); split; reflexivity.
Qed.

Lemma no_charts (k : unit) r : chart_actions (call k r) = [].
Proof. by destruct r. Qed.

Lemma panel_step_inv p last m d e p' fs :
  panel_inv p last m d -> panel_step p e = (p', fs) ->
  panel_inv p' (info_after last e) (shown_after "memoryChart" m (chart_actions fs))
    (shown_after "diskChart" d (chart_actions fs)).
Proof.
  intros [[C1 C2] Hm Hd Hk Hi] Hs. destruct e as [h s g|b ch|[x|f]]; cbn [panel_step info_after] in *.
  - injection Hs as <- <-. by constructor.
  - unfold np_ngOnChanges in Hs. destruct (changed_str ch); injection Hs as <- <-; [|by constructor].
    unfold retrieveHighlightedNodeDetails. rewrite no_charts. by constructor.
  - unfold on_nodeDetails, np_renderChart in Hs. cbn [with_details highlightedNodeDetails mbind option_bind memoryChart diskChart
      memoryChartCanvas diskChartCanvas fst snd canSwitchToNode] in Hs.
    destruct (systemInfo x) as [i|] eqn:Ei; injection Hs as <- <-.
    + rewrite chart_actions_EChart, C1, C2.
      destruct (ring_known (memory_chart numeral_format) last), (ring_known (disk_chart numeral_format) last). subst m d.
      destruct (rings_renewed (Some (memory_chart numeral_format i)) (Some (disk_chart numeral_format i))
        (memoryChart p) (diskChart p) (ring (memory_chart numeral_format) last) (ring (disk_chart numeral_format) last))
        as [-> ->]; [done|intros; by apply Hk; auto|done|intros; by apply Hk; auto|].
      constructor; cbn; try done. intros j. by rewrite Ei.
    + constructor; cbn; try done. intros j. by rewrite Ei.
  - unfold on_nodeDetails in Hs. injection Hs as <- <-.
    destruct (parseUrl _); by constructor.
Qed.

Lemma panel_run_inv es : forall p last m d p' fs,
  panel_inv p last m d -> panel_run p es = (p', fs) ->
  panel_inv p' (fold_left info_after es last) (shown_after "memoryChart" m (chart_actions fs))
    (shown_after "diskChart" d (chart_actions fs)).
Proof.
  induction es as [|e es IH]; intros p last m d p' fs I; cbn [panel_run]; [by intros [= <- <-]|].
  destruct (panel_step p e) as [p1 f1] eqn:E1, (panel_run p1 es) as [p2 f2] eqn:E2. intros [= <- <-].
  rewrite chart_actions_app, !shown_app. cbn [fold_left]. eapply IH; [|done]. by eapply panel_step_inv.
Qed.

Lemma usage_share free total (p : NodeInfoPanelComponent) i :
  (x ← p.(highlightedNodeDetails); x.(systemInfo)) = Some i -> ~ (total i == 0)%Q ->
  exists q, usage toPrecision3 free total p = toPrecision3 q /\ (q == (total i - free i) / total i * 100)%Q.
Proof.
  intros Hi Ht. unfold usage. rewrite Hi. assert (Qeq_bool (total i) 0 = false) as ->.
  { apply not_true_is_false. by intros H%Qeq_bool_iff. }
  eexists. split; [reflexivity|]. field. done.
Qed.

Lemma destroy_actions p :
  chart_actions (np_ngOnDestroy p) = destroy_if (memoryChart p) "memoryChart" ++ destroy_if (diskChart p) "diskChart".
Proof. unfold np_ngOnDestroy. rewrite chart_actions_app, chart_actions_EChart. by destruct (baseServiceSubscription p). Qed.

(** The share of the used part, from the two values of a ring. *)
Lemma ring_share free total what rgb (p : NodeInfoPanelComponent) i u f :
  (x ← p.(highlightedNodeDetails); x.(systemInfo)) = Some i ->
  values (doughnut numeral_format what rgb (total i) (free i)) = [[u; f]] ->
  (u + f == total i
   /\ (~ total i == 0 -> exists q, usage toPrecision3 free total p = toPrecision3 q /\ q == u / (u + f) * 100))%Q.
Proof.
  intros Hi [= <- <-]. split; [ring|]. intros Ht. destruct (usage_share free total p i Hi Ht) as (q & Hq & E').
  exists q. split; [done|]. rewrite E'. field. intros H. apply Ht. rewrite <- H. ring.
Qed.

(** C25: Once the view of the panel is there, and whatever happens to it then, each
    of its two canvases shows exactly the chart of the last node information
    that arrived, and nothing when the panel is left; the two parts of a chart
    add up to the total of the node, and the percentage next to it is the share
    of the used part. *)
Theorem panel_shows_usage (p0 : NodeInfoPanelComponent) (es : list panel_event) :
  p0.(memoryChart) = false -> p0.(diskChart) = false -> p0.(highlightedNodeDetails) = None ->
  let '(p1, es1) := np_ngAfterViewInit p0 true true in
  let '(p, es2) := panel_run p1 es in
  let acts := chart_actions (es1 ++ es2) in
  let last := fold_left info_after es None in
  (shown_after "memoryChart" Nothing acts = ring (memory_chart numeral_format) last
   /\ shown_after "diskChart" Nothing acts = ring (disk_chart numeral_format) last)
  /\ (let gone := acts ++ chart_actions (np_ngOnDestroy p) in
      shown_after "memoryChart" Nothing gone = Nothing /\ shown_after "diskChart" Nothing gone = Nothing)
  /\ forall i, (d ← p.(highlightedNodeDetails); d.(systemInfo)) = Some i ->
      last = Some i
      /\ (forall u f, values (memory_chart numeral_format i) = [[u; f]] ->
           u + f == totalMemoryByteCount i
           /\ (~ totalMemoryByteCount i == 0 ->
               exists q, getMemoryUsagePercentage toPrecision3 p = toPrecision3 q /\ q == u / (u + f) * 100))%Q
      /\ (forall u f, values (disk_chart numeral_format i) = [[u; f]] ->
           u + f == totalDiskByteCount i
           /\ (~ totalDiskByteCount i == 0 ->
               exists q, getDiskUsagePercentage toPrecision3 p = toPrecision3 q /\ q == u / (u + f) * 100))%Q.
Proof.
  intros Hm Hd Hn. unfold np_ngAfterViewInit. destruct (panel_run _ es) as [p es2] eqn:Er.
  rewrite chart_actions_app, chart_actions_EChart.
  apply (panel_run_inv _ _ None Nothing Nothing) in Er as [_ I1 I2 I3 I4]; [|constructor; cbn; try done; by rewrite Hn].
  assert (Hdef : forall id s, shown_after id s chart_defaults = s) by (intros; apply shown_other; forall_list; done).
  rewrite !shown_app, !Hdef. split; [done|]. split.
  - rewrite destroy_actions. cbn zeta. rewrite I1, I2.
    destruct (ring_known (memory_chart numeral_format) (fold_left info_after es None)),
      (ring_known (disk_chart numeral_format) (fold_left info_after es None)).
    apply rings_destroyed; try done; intros; apply I3; auto.
  - intros i Hi. split_and!; [by apply I4| |]; intros u f; by apply ring_share.
Qed.
End PanelFacts.

(** ** An example *)

Definition sample_panel : NodeInfoPanelComponent :=
  {| np_hostNodeId := Some (js "n1"); np_selectedNodeId := Some (js "n1"); highlightedNodeGroupReference := None;
     highlightedNodeId := Some (js "n1"); canSwitchToNode := false; highlightedNodeDetails := None;
     memoryChartCanvas := CanvasUndefined; memoryChart := false; diskChartCanvas := CanvasUndefined; diskChart := false;
     baseServiceSubscription := true |}.
Definition sample_info (free : Q) : SystemHostInfo :=
  {| properties := []; environmentVariables := []; availableProcessorCount := 4; freeMemoryByteCount := free;
     totalMemoryByteCount := 8; maxMemoryByteCount := 8; freeDiskByteCount := 5; usableDiskByteCount := 5;
     totalDiskByteCount := 10; ipAddresses := []; osName := "Linux"; osFamily := Some (js "LINUX") |}.
Definition sample_answer (free : Q) : panel_event :=
  PanelDetails (Next {| host_base := no_document; systemInfo := Some (sample_info free) |}).

Lemma panel_shows_usage_witness :
  let '(p1, es1) := np_ngAfterViewInit sample_panel true true in
  let '(p, es2) := @panel_run lodash_ref plain_engine "dev" (fun _ f => f) p1 [sample_answer 4; sample_answer 2] in
  shown_after "memoryChart" Nothing (chart_actions (es1 ++ es2))
  = Shows (Some (memory_chart (fun _ f => f) (sample_info 2)))
  /\ tooltip_at (memory_chart (fun _ f => f) (sample_info 2)) 1 = Some (js "Available Memory: 0.00 b").
Proof.
  pose proof (@panel_shows_usage lodash_ref plain_engine "dev" (fun _ => js "75.0") (fun _ f => f) sample_panel
    [sample_answer 4; sample_answer 2] eq_refl eq_refl eq_refl) as H.
  destruct (np_ngAfterViewInit sample_panel true true) as [p1 es1].
  destruct (panel_run _ _ p1 _) as [p es2]. destruct H as [[H _] _]. split; [exact H|reflexivity].
Defined.
