(* ===== verification/Pagination.v ===== *)
(** * Loading results page by page

    QueryComponent and ServiceDetailComponent hold the links read so far, the
    link of the next page and a lock, and load pages with the same code:
    [getNextPage]/[onLoadNextPage] of query.component.ts, [onLoadNextPage] of
    service-detail.component.ts. *)

From S2P Require Import Prelude JsString JsUri Lodash Json StringUtil Interfaces BaseService Ui.

(** The [results] of a query task. *)
Record Results := {
  rs_documentLinks : list jsstr;
  rs_documentCount : Z;
  rs_nextPageLink : option jsstr
}.

Record Pager := {
  pg_links : list jsstr;
  pg_next : option jsstr;
  pg_locked : bool
}.

Section Pages.
Context {L : Lodash} {E : Engine} {K : Type}.
Context (BUILD_TYPE : jsstr).
(** The subscription, and the text before an error. *)
Context (k : K) (error_prefix : jsstr).

Definition getNextPage (b : BaseService) (p : Pager) : result K Pager :=
  let p := {| pg_links := p.(pg_links); pg_next := p.(pg_next); pg_locked := true |} in
  (p, call k (getDocument BUILD_TYPE b (str_or_undefined p.(pg_next)) [] false)).

Definition onLoadNextPage (b : BaseService) (p : Pager) : result K Pager :=
  match p.(pg_next) with
  | None => (p, [])
  | Some _ => if p.(pg_locked) then (p, []) else getNextPage b p
  end.

(** A page arrives; [None] are absent or empty [results]. *)
Definition on_page (b : BaseService) (p : Pager) (o : outcome (option Results)) : result K Pager :=
  match o with
  | Next None => (p, [])
  | Next (Some r) =>
      if bool_decide (p.(pg_next) = r.(rs_nextPageLink)) then (p, [])
      else
        let links := lo_concat p.(pg_links) r.(rs_documentLinks) in
        if truthy_opt r.(rs_nextPageLink) then
          match getForwardingLink b (str_or_undefined r.(rs_nextPageLink)) [] with
          | Ret next => ({| pg_links := links; pg_next := Some next; pg_locked := false |}, [])
          | Throw e => ({| pg_links := links; pg_next := p.(pg_next); pg_locked := false |}, [EThrow e])
          end
        else ({| pg_links := links; pg_next := p.(pg_next); pg_locked := false |}, [])
  | Failed f => (p, [ENotify [error_note error_prefix f]])
  end.

(** ** Properties *)

(** One scroll and its answer. *)
Definition scroll (b : BaseService) (p : Pager) (r : Results) : Pager :=
  (on_page b (onLoadNextPage b p).1 (Next (Some r))).1.

(** A chain of pages the server holds: each names its successor, the last
    names none; [fwd] is the link the component makes of a named page. *)
Inductive chain (b : BaseService) : jsstr -> list Results -> Prop :=
  | chain_last l r :
      r.(rs_nextPageLink) = None -> chain b l [r]
  | chain_more l r n fwd rs :
      r.(rs_nextPageLink) = Some n -> n <> [] -> n <> l ->
      getForwardingLink b n [] = Ret fwd -> chain b fwd rs -> chain b l (r :: rs).

(** The links the scrolls request, one per page. *)
Fixpoint requested (b : BaseService) (l : jsstr) (rs : list Results) : list jsstr :=
  match rs with
  | [] => []
  | r :: rs' =>
      l :: match r.(rs_nextPageLink) with
           | Some n => match getForwardingLink b n [] with Ret f => requested b f rs' | Throw _ => [] end
           | None => []
           end
  end.

Lemma scroll_page b p r :
  p.(pg_locked) = false -> p.(pg_next) <> None -> p.(pg_next) <> r.(rs_nextPageLink) ->
  scroll b p r
  = {| pg_links := p.(pg_links) ++ r.(rs_documentLinks);
       pg_next := if truthy_opt r.(rs_nextPageLink)
                  then match getForwardingLink b (str_or_undefined r.(rs_nextPageLink)) [] with
                       | Ret next => Some next | Throw _ => p.(pg_next) end
                  else p.(pg_next);
       pg_locked := false |}.
Proof.
  intros Hl Hn Hne. unfold scroll, onLoadNextPage. destruct (pg_next p) as [l|] eqn:El; [|done].
  rewrite Hl. cbn. rewrite El, bool_decide_false by done. lodash.
  destruct (truthy_opt _); [|done]. by destruct (getForwardingLink _ _ _).
Qed.

(** The state and the requests of a sequence of scrolls. *)
Definition scrolls (b : BaseService) (p : Pager) (rs : list Results) : Pager := fold_left (scroll b) rs p.
Fixpoint scroll_requests (b : BaseService) (p : Pager) (rs : list Results) : list (effect K) :=
  match rs with [] => [] | r :: rs' => (onLoadNextPage b p).2 ++ scroll_requests b (scroll b p r) rs' end.

Definition page_request (l : jsstr) : effect K := EHttp k [get_request BUILD_TYPE l].

Lemma load_request b p l :
  p.(pg_locked) = false -> p.(pg_next) = Some l -> (onLoadNextPage b p).2 = [page_request l].
Proof.
  intros Hl Hn. unfold onLoadNextPage. rewrite Hn, Hl. cbn. rewrite Hn. unfold getDocument, getDocumentInternal, read_link.
  cbn. by rewrite app_nil_r.
Qed.

Lemma chain_scrolls b l rs p :
  chain b l rs -> p.(pg_next) = Some l -> p.(pg_locked) = false ->
  (scrolls b p rs).(pg_links) = p.(pg_links) ++ concat (map rs_documentLinks rs)
  /\ scroll_requests b p rs = map page_request (requested b l rs)
  /\ (scrolls b p rs).(pg_locked) = false
  /\ length (requested b l rs) = length rs
  /\ List.last (map Some (requested b l rs)) None = (scrolls b p rs).(pg_next).
Proof.
  intros Hc. revert p. induction Hc as [l r Hr|l r n fwd rs Hr Hne Hnl Hf Hc IH]; intros p Hp Hl.
  - assert (Hs : p.(pg_next) <> r.(rs_nextPageLink)) by (rewrite Hr, Hp; done).
    cbn [scrolls fold_left scroll_requests requested map concat]. rewrite (load_request b p l) by done.
    unfold scrolls. cbn [fold_left]. rewrite scroll_page, Hr by first [done | congruence]. cbn. by rewrite !app_nil_r.
  - assert (Hs : p.(pg_next) <> r.(rs_nextPageLink)) by (rewrite Hr, Hp; congruence).
    cbn [scrolls fold_left scroll_requests requested map concat]. rewrite (load_request b p l) by done.
    rewrite Hr, Hf. specialize (IH (scroll b p r)).
    assert (E1 : scroll b p r = {| pg_links := p.(pg_links) ++ r.(rs_documentLinks); pg_next := Some fwd;
                                   pg_locked := false |}).
    { rewrite scroll_page, Hr by first [done | congruence]. cbn. destruct n; [done|]. cbn. by rewrite Hf. }
    destruct IH as (I1 & I2 & I3 & I4 & I5); [by rewrite E1..|]. unfold scrolls in *. cbn [fold_left].
    rewrite I1, I2, I3. cbn. rewrite I4. split_and!; try done.
    + rewrite E1. cbn. by rewrite <- app_assoc.
    + rewrite <- I5. destruct (requested b fwd rs) eqn:Er; [|done]. by inversion Hc; subst.
Qed.

(** C14: Scrolling through the pages of a result requests each page once, in order,
    on the node that holds it, and collects the links of all pages in order. *)
Theorem pages_collected (b : BaseService) (l : jsstr) (rs : list Results) (p : Pager) :
  chain b l rs -> p.(pg_next) = Some l -> p.(pg_locked) = false ->
  (scrolls b p rs).(pg_links) = p.(pg_links) ++ concat (map rs_documentLinks rs)
  /\ scroll_requests b p rs = map page_request (requested b l rs)
  /\ length (requested b l rs) = length rs.
Proof. intros Hc Hp Hl. destruct (chain_scrolls b l rs p) as (H1 & H2 & _ & H4 & _); auto. Qed.

(** After the last page the next scroll requests that page again and appends
    its links a second time, and so on for every further scroll: the page
    without a successor leaves the link of its own request in place. *)
Theorem last_page_repeats (b : BaseService) (l : jsstr) (r : Results) (p : Pager) (n : nat) :
  r.(rs_nextPageLink) = None -> p.(pg_next) = Some l -> p.(pg_locked) = false ->
  (scrolls b p (repeat r n)).(pg_links) = p.(pg_links) ++ concat (repeat r.(rs_documentLinks) n)
  /\ scroll_requests b p (repeat r n) = repeat (page_request l) n.
Proof.
  intros Hr. revert p. induction n as [|n IH]; intros p Hp Hl; cbn; [by rewrite app_nil_r|].
  assert (E1 : scroll b p r = {| pg_links := p.(pg_links) ++ r.(rs_documentLinks); pg_next := Some l;
                                 pg_locked := false |}).
  { rewrite scroll_page, Hr by first [done | congruence]. by rewrite Hp. }
  rewrite (load_request b p l) by done. destruct (IH (scroll b p r)) as [I1 I2]; [by rewrite E1..|].
  unfold scrolls in *. rewrite I1, I2, E1. cbn. by rewrite <- app_assoc.
Qed.

(** Between a request for a page and its answer no scroll makes a request; a
    failed request, a page without results or a page that names itself as its
    successor keeps the lock, and no scroll ever loads a page again. *)
Theorem lock_kept (b : BaseService) (p : Pager) (o : outcome (option Results)) (n : nat) :
  p.(pg_locked) = true ->
  match o with
  | Next (Some r) => p.(pg_next) = r.(rs_nextPageLink)
  | _ => True
  end ->
  (onLoadNextPage b p) = (p, [])
  /\ (on_page b p o).1 = p
  /\ Nat.iter n (fun q => (onLoadNextPage b q).1) (on_page b p o).1 = p
  /\ (onLoadNextPage b (on_page b p o).1).2 = [].
Proof.
  intros Hl Ho. assert (H1 : onLoadNextPage b p = (p, [])).
  { unfold onLoadNextPage. rewrite Hl. by destruct (pg_next p). }
  assert (H2 : (on_page b p o).1 = p).
  { destruct o as [[r|]|f]; cbn; [|done..]. by rewrite bool_decide_true. }
  split_and!; [done..| |by rewrite H2, H1]. rewrite H2. induction n as [|n IH]; [done|]. rewrite Nat.iter_succ, IH. by rewrite H1.
Qed.
End Pages.

Definition sample_pager : Pager := {| pg_links := []; pg_next := Some (js "/core/query-page/1"); pg_locked := false |}.
Definition sample_page (ls : list jsstr) (n : option jsstr) : Results :=
  {| rs_documentLinks := ls; rs_documentCount := 0; rs_nextPageLink := n |}.
Definition sample_base : BaseService :=
  {| hostNodeId := Some (js "n1"); selectedNodeId := Some (js "n1"); selectedNodeGroupReference := Some (js "default") |}.

Lemma pages_collected_witness :
  let rs := [sample_page [js "/a"] (Some (js "/core/query-page/2")); sample_page [js "/b"] None] in
  (@scrolls lodash_ref plain_engine unit "dev" tt "" sample_base sample_pager rs).(pg_links) = [js "/a"; js "/b"]
  /\ @scroll_requests lodash_ref plain_engine unit "dev" tt "" sample_base sample_pager rs
     = map (page_request "dev" tt) (requested sample_base "/core/query-page/1" rs)
  /\ length (requested sample_base "/core/query-page/1" rs) = 2.
Proof.
  apply (@pages_collected lodash_ref plain_engine unit "dev" tt "" sample_base "/core/query-page/1"
    [sample_page [js "/a"] (Some (js "/core/query-page/2")); sample_page [js "/b"] None] sample_pager);
    [|reflexivity..].
  eapply chain_more; [reflexivity | discriminate | decide_done | reflexivity | by apply chain_last].
Defined.

Lemma last_page_repeats_witness :
  (@scrolls lodash_ref plain_engine unit "dev" tt "" sample_base sample_pager
     (repeat (sample_page [js "/a"] None) 3)).(pg_links) = [js "/a"; js "/a"; js "/a"]
  /\ @scroll_requests lodash_ref plain_engine unit "dev" tt "" sample_base sample_pager
       (repeat (sample_page [js "/a"] None) 3) = repeat (page_request "dev" tt "/core/query-page/1") 3.
Proof.
  apply (@last_page_repeats lodash_ref plain_engine unit "dev" tt "" sample_base "/core/query-page/1"
    (sample_page [js "/a"] None) sample_pager 3); reflexivity.
Defined.

Definition locked_pager : Pager := {| pg_links := []; pg_next := Some (js "/p"); pg_locked := true |}.

Lemma lock_kept_witness :
  (onLoadNextPage "dev" tt sample_base locked_pager) = (locked_pager, [])
  /\ (@on_page lodash_ref plain_engine unit "" sample_base locked_pager (Failed (FText "Server error"))).1 = locked_pager
  /\ Nat.iter 5 (fun q => (onLoadNextPage "dev" tt sample_base q).1)
       (@on_page lodash_ref plain_engine unit "" sample_base locked_pager (Failed (FText "Server error"))).1 = locked_pager
  /\ (onLoadNextPage "dev" tt sample_base
       (@on_page lodash_ref plain_engine unit "" sample_base locked_pager (Failed (FText "Server error"))).1).2 = [].
Proof.
  apply (@lock_kept lodash_ref plain_engine unit "dev" tt "" sample_base locked_pager
    (Failed (FText "Server error")) 5); [reflexivity | exact I].
Defined.
