(* ===== verification/QueryClauses.v ===== *)
(** * The clauses of a query

    query-clause.component.ts, query-clause-nested.component.ts,
    query-nested.component.ts and operation-tracing-clause.component.ts: the
    form fields of a clause and the query clause they stand for, as the
    object that is sent, in the order of its properties; and the lists of
    clauses with their ids. *)

From S2P Require Import Prelude JsString Lodash Json Interfaces Ui.

(** The range of a range clause; [min] and [max] are typed numbers. *)
Record NumericRange := {
  precisionStep : jsstr; isMaxInclusive : jsstr; isMinInclusive : jsstr;
  max_ : Q; min_ : Q; range_type : jsstr
}.

Definition default_range : NumericRange :=
  {| precisionStep := "16"; isMaxInclusive := "true"; isMinInclusive := "true"; max_ := 0; min_ := 0;
     range_type := "DOUBLE" |}.

Definition range_value (r : NumericRange) : jsval :=
  JObj [(js "precisionStep", JStr r.(precisionStep)); (js "isMaxInclusive", JStr r.(isMaxInclusive));
        (js "isMinInclusive", JStr r.(isMinInclusive)); (js "max", JNum r.(max_)); (js "min", JNum r.(min_));
        (js "type", JStr r.(range_type))].

(** [getStringClause] and [getRangeClause], the same in the three clause
    components. *)
Definition string_clause (matchType matchValue propertyName occurance : jsstr) : jsval :=
  JObj [(js "term", JObj [(js "matchType", JStr matchType); (js "matchValue", JStr matchValue);
                          (js "propertyName", JStr propertyName)]);
        (js "occurance", JStr occurance)].
Definition range_clause (propertyName : jsstr) (range : NumericRange) (occurance : jsstr) : jsval :=
  JObj [(js "term", JObj [(js "propertyName", JStr propertyName); (js "range", range_value range)]);
        (js "occurance", JStr occurance)].

(** ** query-clause-nested.component.ts *)

Record QueryClauseNestedComponent := {
  qn_id : Z; qn_type : jsstr; qn_occurance : jsstr; qn_propertyName : jsstr; qn_propertyMatchType : jsstr;
  qn_propertyValue : jsstr; qn_propertyValueRange : NumericRange
}.

Definition new_nested (i : Z) : QueryClauseNestedComponent :=
  {| qn_id := i; qn_type := "string"; qn_occurance := "MUST_OCCUR"; qn_propertyName := [];
     qn_propertyMatchType := "WILDCARD"; qn_propertyValue := []; qn_propertyValueRange := default_range |}.

Definition nested_getClause (c : QueryClauseNestedComponent) : jsval :=
  if c.(qn_type) === "string"
  then string_clause c.(qn_propertyMatchType) c.(qn_propertyValue) c.(qn_propertyName) c.(qn_occurance)
  else if c.(qn_type) === "range"
  then range_clause c.(qn_propertyName) c.(qn_propertyValueRange) c.(qn_occurance)
  else JNull.

(** ** Lists of clauses

    [clauses] and [clauseIdTracker] of query-nested.component.ts, of
    query.component.ts and of operation-tracing.component.ts. *)

Record ClauseList := { clauses : list Z; clauseIdTracker : Z }.

Definition new_clauses : ClauseList := {| clauses := [1%Z]; clauseIdTracker := 1 |}.

Section ClauseOps.
Context {L : Lodash}.

Definition onAddClause (c : ClauseList) : ClauseList :=
  let i := (c.(clauseIdTracker) + 1)%Z in
  {| clauses := c.(clauses) ++ [i]; clauseIdTracker := i |}.

Definition onDeleteClause (c : ClauseList) (i : Z) : ClauseList :=
  {| clauses := lo_remove c.(clauses) (fun j => (i =? j)%Z); clauseIdTracker := c.(clauseIdTracker) |}.

Definition onClearClauses (c : ClauseList) : ClauseList := new_clauses.

Inductive clause_op := AddClause | DeleteClause (i : Z) | ClearClauses.

Definition clause_step (c : ClauseList) (o : clause_op) : ClauseList :=
  match o with
  | AddClause => onAddClause c
  | DeleteClause i => onDeleteClause c i
  | ClearClauses => onClearClauses c
  end.

Definition ids_ok (c : ClauseList) : Prop :=
  NoDup c.(clauses) /\ Forall (fun i => (1 <= i <= c.(clauseIdTracker))%Z) c.(clauses)
  /\ (1 <= c.(clauseIdTracker))%Z.

Lemma ids_ok_step c o : ids_ok c -> ids_ok (clause_step c o).
Proof.
  intros (Hnd & Hall & Ht). destruct o as [|i|]; cbn.
  - split_and!; [|apply Forall_app; split|cbn; lia]; cbn.
    + apply list.NoDup_app. split_and!; [done| |apply NoDup_singleton].
      intros j Hj [= ->]%list_elem_of_singleton. rewrite list.Forall_forall in Hall. apply Hall in Hj. lia.
    + eapply list.Forall_impl; [exact Hall|]. intros j Hj. cbn in *. lia.
    + apply list.Forall_cons. split; [lia|constructor].
  - unfold ids_ok, onDeleteClause. lodash. cbn. split_and!; [|apply list.Forall_forall|done].
    + clear -Hnd. induction Hnd as [|j l Hj Hnd IH]; cbn; [constructor|].
      destruct (negb _); [|done]. constructor; [|done].
      intros Hin%list_elem_of_In%filter_In. apply Hj, list_elem_of_In, Hin.
    + intros j Hj%list_elem_of_In%filter_In. rewrite list.Forall_forall in Hall.
      apply Hall, list_elem_of_In, Hj.
  - repeat constructor; cbn; try lia. by intros ?%elem_of_nil.
Qed.

(** Through every sequence of adding, deleting and clearing, the ids of the
    clauses of a query are different from one another, so a delete event
    removes the clause it was raised for and no other. *)
Theorem clause_ids_unique (os : list clause_op) (i : Z) :
  let c := fold_left clause_step os new_clauses in
  ids_ok c
  /\ forall l1 l2, c.(clauses) = l1 ++ i :: l2 -> (onDeleteClause c i).(clauses) = l1 ++ l2.
Proof.
  intros c. assert (Hok : ids_ok c).
  { unfold c. assert (H : ids_ok new_clauses) by (repeat constructor; cbn; try lia; by intros ?%elem_of_nil).
    revert H. generalize new_clauses. induction os as [|o os IH]; intros c0 H; [done|].
    cbn. by apply IH, ids_ok_step. }
  split; [done|]. destruct Hok as (Hnd & _ & _). intros l1 l2 Hc. unfold onDeleteClause. lodash. cbn.
  rewrite Hc in Hnd |- *. apply list.NoDup_app in Hnd as (_ & H1 & H2). apply list.NoDup_cons in H2 as [H2 _].
  rewrite List.filter_app. cbn. rewrite Z.eqb_refl. cbn.
  f_equal; apply filter_idem, list.Forall_forall; intros j Hj; apply negb_true_iff, Z.eqb_neq; intros <-; set_solver.
Qed.
End ClauseOps.

(** ** query-clause.component.ts *)

Record QueryClauseComponent := {
  qc_id : Z; qc_type : jsstr; qc_occurance : jsstr; qc_propertyName : jsstr; qc_propertyMatchType : jsstr;
  qc_propertyValue : jsstr; qc_propertyValueRange : NumericRange; qc_sortOrder : jsstr;
  queryNestedComponent : list QueryClauseNestedComponent
}.

Definition new_clause (i : Z) : QueryClauseComponent :=
  {| qc_id := i; qc_type := "string"; qc_occurance := "MUST_OCCUR"; qc_propertyName := [];
     qc_propertyMatchType := "TERM"; qc_propertyValue := []; qc_propertyValueRange := default_range;
     qc_sortOrder := "ASC"; queryNestedComponent := [new_nested 1] |}.

(** [QueryNestedComponent.getClauses]. *)
Definition getClauses (cs : list QueryClauseNestedComponent) : list jsval := map nested_getClause cs.

Definition getSortClause (c : QueryClauseComponent) : jsval :=
  JObj [(js "sortOrder", JStr c.(qc_sortOrder)); (js "sortTerm", JStr c.(qc_propertyName))].
Definition getGroupClause (c : QueryClauseComponent) : jsval :=
  JObj [(js "propertyName", JStr c.(qc_propertyName)); (js "propertyType", JStr "STRING")].
Definition getNestedClause (c : QueryClauseComponent) : jsval :=
  JObj [(js "booleanClauses", JArr (getClauses c.(queryNestedComponent))); (js "occurance", JStr c.(qc_occurance))].

Definition getClause (c : QueryClauseComponent) : jsval :=
  if c.(qc_type) === "string"
  then string_clause c.(qc_propertyMatchType) c.(qc_propertyValue) c.(qc_propertyName) c.(qc_occurance)
  else if c.(qc_type) === "range"
  then range_clause c.(qc_propertyName) c.(qc_propertyValueRange) c.(qc_occurance)
  else if c.(qc_type) === "sort" then getSortClause c
  else if c.(qc_type) === "group" then getGroupClause c
  else if c.(qc_type) === "nested" then getNestedClause c
  else JNull.

Definition onDeleteClauseClicked (eventType : jsstr) (i : Z) : effect unit :=
  EEmit "deleteClause" (JObj [(js "type", JStr eventType); (js "data", JObj [(js "id", JInt i)])]).

(** [getAsNumber]: [parseFloat] is the language's. *)
Definition getAsNumber (parseFloat : jsstr -> option Q) (value : jsstr) : option Q :=
  if truthy value then parseFloat value else Some 0%Q.

(** ** operation-tracing-clause.component.ts *)

Record OperationTracingClauseComponent := {
  oc_id : Z; oc_type : jsstr; oc_occurance : jsstr; oc_propertyName : jsstr; oc_propertyMatchType : jsstr;
  oc_propertyValue : jsstr; oc_propertyValueRange : NumericRange
}.

Definition tracing_getClause (c : OperationTracingClauseComponent) : jsval :=
  if c.(oc_type) === "string"
  then string_clause c.(oc_propertyMatchType) c.(oc_propertyValue) c.(oc_propertyName) c.(oc_occurance)
  else if c.(oc_type) === "range"
  then range_clause c.(oc_propertyName) c.(oc_propertyValueRange) c.(oc_occurance)
  else JNull.
