(* ===== verification/Query.v ===== *)
(** * query.component.ts and query-result-detail.component.ts

    Building a query task, posting it (first to count the results, then for
    the results) and reading the pages of its result.  The text typed in the
    advanced mode is read by [JSON.parse], a parameter. *)

From S2P Require Import Prelude JsString JsUri Lodash Json StringUtil Interfaces BaseService Ui Pagination QueryClauses.

Inductive query_sub := CountQuery | ResultQuery | NextPage.

Record QueryComponent := {
  queryBuilderMode : jsstr;
  interactiveQueryClauses : ClauseList;
  advancedQueryTaskInput : jsstr;
  isQueried : bool;
  queryVersionsOption : jsstr;
  deletedDocumentInclusionOption : jsstr;
  ownerSelectionOption : jsstr;
  queryTask : option jsval;
  pager : Pager;                       (* queryResultLinks, queryResultNextPageLink and the lock *)
  queryResultCount : Z;
  selectedResultDocumentLink : jsstr
}.

Section QueryView.
Context {L : Lodash} {E : Engine} {NT : NumText}.
Context (BUILD_TYPE : jsstr) (JSON_parse : jsstr -> exec jsval).

(** ** Field updates *)

Definition q_with (q : QueryComponent) (task : option jsval) (p : Pager) (cnt : Z) (queried : bool) (sel : jsstr)
    : QueryComponent :=
  {| queryBuilderMode := q.(queryBuilderMode); interactiveQueryClauses := q.(interactiveQueryClauses);
     advancedQueryTaskInput := q.(advancedQueryTaskInput); isQueried := queried;
     queryVersionsOption := q.(queryVersionsOption);
     deletedDocumentInclusionOption := q.(deletedDocumentInclusionOption);
     ownerSelectionOption := q.(ownerSelectionOption); queryTask := task; pager := p;
     queryResultCount := cnt; selectedResultDocumentLink := sel |}.
Definition q_with_pager (q : QueryComponent) (p : Pager) : QueryComponent :=
  q_with q q.(queryTask) p q.(queryResultCount) q.(isQueried) q.(selectedResultDocumentLink).
Definition q_with_form (q : QueryComponent) (mode : jsstr) (cl : ClauseList) (input v d o : jsstr) : QueryComponent :=
  {| queryBuilderMode := mode; interactiveQueryClauses := cl; advancedQueryTaskInput := input;
     isQueried := q.(isQueried); queryVersionsOption := v; deletedDocumentInclusionOption := d;
     ownerSelectionOption := o; queryTask := q.(queryTask); pager := q.(pager);
     queryResultCount := q.(queryResultCount);
     selectedResultDocumentLink := q.(selectedResultDocumentLink) |}.
Definition with_links (p : Pager) (ls : list jsstr) : Pager :=
  {| pg_links := ls; pg_next := p.(pg_next); pg_locked := p.(pg_locked) |}.
Definition with_next (p : Pager) (n : option jsstr) : Pager :=
  {| pg_links := p.(pg_links); pg_next := n; pg_locked := p.(pg_locked) |}.

(** ** The form *)

Definition onQueryBuilderModeChanged (q : QueryComponent) (mode : jsstr) : QueryComponent :=
  q_with_form q mode q.(interactiveQueryClauses) q.(advancedQueryTaskInput) q.(queryVersionsOption)
    q.(deletedDocumentInclusionOption) q.(ownerSelectionOption).
Definition onQueryVersionsOptionChanged (q : QueryComponent) (v : jsstr) : QueryComponent :=
  q_with_form q q.(queryBuilderMode) q.(interactiveQueryClauses) q.(advancedQueryTaskInput) v
    q.(deletedDocumentInclusionOption) q.(ownerSelectionOption).
Definition onDeletedDocumentInclusionOptionChanged (q : QueryComponent) (v : jsstr) : QueryComponent :=
  q_with_form q q.(queryBuilderMode) q.(interactiveQueryClauses) q.(advancedQueryTaskInput) q.(queryVersionsOption)
    v q.(ownerSelectionOption).
Definition onOwnerSelectionOptionChanged (q : QueryComponent) (v : jsstr) : QueryComponent :=
  q_with_form q q.(queryBuilderMode) q.(interactiveQueryClauses) q.(advancedQueryTaskInput) q.(queryVersionsOption)
    q.(deletedDocumentInclusionOption) v.
Definition q_onClause (q : QueryComponent) (o : clause_op) : QueryComponent :=
  q_with_form q q.(queryBuilderMode) (clause_step q.(interactiveQueryClauses) o) q.(advancedQueryTaskInput)
    q.(queryVersionsOption) q.(deletedDocumentInclusionOption) q.(ownerSelectionOption).

Definition onClearQuery (q : QueryComponent) : QueryComponent :=
  let q := if q.(queryBuilderMode) === "interactive" then q_onClause q ClearClauses
           else if q.(queryBuilderMode) === "advanced"
           then q_with_form q q.(queryBuilderMode) q.(interactiveQueryClauses) [] q.(queryVersionsOption)
                  q.(deletedDocumentInclusionOption) q.(ownerSelectionOption)
           else q in
  q_with q q.(queryTask) (with_links q.(pager) []) 0 false q.(selectedResultDocumentLink).

Definition onSelectQueryResult (q : QueryComponent) (l : jsstr) : QueryComponent :=
  q_with q q.(queryTask) q.(pager) q.(queryResultCount) q.(isQueried) l.

Definition isResultLinkSelected (q : QueryComponent) (l : jsstr) : bool := q.(selectedResultDocumentLink) === l.

(** ** Building the task *)

Definition getQueryOptions (q : QueryComponent) : list jsstr :=
  (if truthy q.(queryVersionsOption) then [js "INCLUDE_ALL_VERSIONS"] else [])
  ++ (if truthy q.(deletedDocumentInclusionOption) then [js "INCLUDE_DELETED"] else [])
  ++ (if truthy q.(ownerSelectionOption) then [js "OWNER_SELECTION"] else []).

(** The specification while it is built: options, clauses, and the properties
    added after the first three. *)
Record Spec := { sp_options : list jsstr; sp_clauses : list jsval; sp_extra : list (jsstr * jsval) }.

Definition add_clause (s : Spec) (c : QueryClauseComponent) : Spec :=
  let clause := getClause c in
  if c.(qc_type) === "sort" then
    {| sp_options := s.(sp_options) ++ [js "SORT"]; sp_clauses := s.(sp_clauses);
       sp_extra := obj_set (obj_set s.(sp_extra) "sortTerm"
                     (JObj [(js "propertyName", JStr c.(qc_propertyName)); (js "propertyType", JStr "STRING")]))
                     "sortOrder" (JStr c.(qc_sortOrder)) |}
  else if c.(qc_type) === "group" then
    {| sp_options := s.(sp_options) ++ [js "GROUP_BY"]; sp_clauses := s.(sp_clauses);
       sp_extra := obj_set (obj_set s.(sp_extra) "groupByTerm" clause) "groupSortTerm" clause |}
  else {| sp_options := s.(sp_options); sp_clauses := s.(sp_clauses) ++ [clause]; sp_extra := s.(sp_extra) |}.

Definition spec_of (q : QueryComponent) (cs : list QueryClauseComponent) : Spec :=
  fold_left add_clause cs {| sp_options := getQueryOptions q; sp_clauses := []; sp_extra := [] |}.

Definition spec_value (s : Spec) : jsval :=
  JObj ([(js "options", JArr (map JStr s.(sp_options)));
         (js "resultLimit", JInt ODataUtil.DEFAULT_PAGE_SIZE);
         (js "query", JObj [(js "booleanClauses", JArr s.(sp_clauses)); (js "occurance", JStr "MUST_OCCUR")])]
        ++ s.(sp_extra)).

Definition buildInteractiveQueryTask (q : QueryComponent) (cs : list QueryClauseComponent) : jsval :=
  JObj [(js "taskInfo", JObj [(js "isDirect", JBool true)]); (js "querySpec", spec_value (spec_of q cs))].

Definition buildAdvancedQueryTask (q : QueryComponent) : exec jsval := JSON_parse q.(advancedQueryTaskInput).

(** The task with a COUNT option and without a result limit. *)
Definition prop_of (v : option jsval) (k : jsstr) : exec (option jsval) :=
  match v with Some v => prop v k | None => Throw TypeError end.

Definition count_task (task : jsval) : exec jsval :=
  spec <-! prop_of (Some task) "querySpec";;
  options <-! prop_of spec "options";;
  match spec with
  | Some (JObj o) =>
      o' <-! (if truthy_val options then
                match options with
                | Some (JArr l) => Ret (obj_set o "options" (JArr (l ++ [JStr "COUNT"])))
                | _ => Throw TypeError
                end
              else Ret (obj_set o "options" (JArr [JStr "COUNT"])));;
      Ret (set_prop task "querySpec" (del_prop (JObj o') "resultLimit"))
  | Some (JArr _) => Ret task
  | _ => Throw TypeError
  end.

(** The text a thrown value has in a template literal. *)
Definition error_string (e : jserr) : jsstr :=
  match e with
  | TypeError => "TypeError: " | URIError => "URIError: " | SyntaxError => "SyntaxError: " | ErrorMsg _ => "Error: "
  end ++ error_message e.

(** The task of the mode; another mode leaves it undefined. *)
Definition build_task (q : QueryComponent) (cs : list QueryClauseComponent) : exec (option jsval) :=
  if q.(queryBuilderMode) === "interactive" then Ret (Some (buildInteractiveQueryTask q cs))
  else if q.(queryBuilderMode) === "advanced" then v <-! buildAdvancedQueryTask q;; Ret (Some v)
  else Ret None.

(** Posting the task; an undefined task is posted without a body. *)
Definition post_task (b : BaseService) (t : option jsval) : exec Request :=
  match t with
  | Some v => post BUILD_TYPE b URL.Query (BValue v) true
  | None => r <-! post BUILD_TYPE b URL.Query (BText []) true;;
            Ret {| rq_method := r.(rq_method); rq_url := r.(rq_url); rq_body := None; rq_headers := r.(rq_headers) |}
  end.

Definition invalid_query (e : jserr) : effect query_sub := notify "ERROR" ("Invalid query: " ++ error_string e).

Definition onQuery (b : BaseService) (q : QueryComponent) (cs : list QueryClauseComponent)
    : result query_sub QueryComponent :=
  let reset t := q_with q t (with_links q.(pager) []) q.(queryResultCount) q.(isQueried) [] in
  match build_task q cs with
  | Throw e => (reset None, [invalid_query e])
  | Ret t =>
      match (if isEmpty_val t then Throw (ErrorMsg "The query is empty")
             else c <-! count_task (default JNull t);; post BUILD_TYPE b URL.Query (BValue c) true) with
      | Throw e => (reset t, [invalid_query e])
      | Ret r => (reset t, [EHttp CountQuery [r]])
      end
  end.

(** The count arrives; a result without [results] throws in the subscriber. *)
Definition on_count (b : BaseService) (q : QueryComponent) (o : outcome (option Results))
    : result query_sub QueryComponent :=
  match o with
  | Next res =>
      let q' cnt := q_with q q.(queryTask) q.(pager) cnt true q.(selectedResultDocumentLink) in
      match res with
      | None => (q' q.(queryResultCount), [EThrow TypeError])
      | Some r =>
          if (r.(rs_documentCount) =? 0)%Z then (q' 0%Z, [])
          else (q' r.(rs_documentCount),
                call ResultQuery (post_task b q.(queryTask)))
      end
  | Failed f => (q, [ENotify [error_note "Failed to query: " f]])
  end.

Definition on_result (b : BaseService) (q : QueryComponent) (o : outcome (option Results))
    : result query_sub QueryComponent :=
  match o with
  | Next None => (q, [EThrow TypeError])
  | Next (Some r) =>
      let p := with_next q.(pager) r.(rs_nextPageLink) in
      match r.(rs_nextPageLink) with
      | None => (q_with_pager q p, [])
      | Some _ => let '(p', es) := getNextPage BUILD_TYPE NextPage b p in (q_with_pager q p', es)
      end
  | Failed f => (q, [ENotify [error_note "Failed to query: " f]])
  end.

Definition q_onLoadNextPage (b : BaseService) (q : QueryComponent) : result query_sub QueryComponent :=
  let '(p, es) := onLoadNextPage BUILD_TYPE NextPage b q.(pager) in (q_with_pager q p, es).

Definition on_nextPage (b : BaseService) (q : QueryComponent) (o : outcome (option Results))
    : result query_sub QueryComponent :=
  let '(p, es) := on_page "Failed to query: " b q.(pager) o in (q_with_pager q p, es).

(** [getSelectedResultDocumentLink]: [options.indexOf] throws without options. *)
Definition all_versions (t : option jsval) : exec bool :=
  match t with
  | None => Ret false
  | Some t =>
      spec <-! prop t "querySpec";;
      if truthy_val spec then
        options <-! prop_of spec "options";;
        match options with
        | Some (JArr l) => Ret (existsb (fun v => match v with JStr s => s === "INCLUDE_ALL_VERSIONS" | _ => false end) l)
        | Some (JStr s) => Ret (negb (indexOf s "INCLUDE_ALL_VERSIONS" =? -1)%Z)
        | _ => Throw TypeError
        end
      else Ret false
  end.

Definition getSelectedResultDocumentLink (q : QueryComponent) : exec jsstr :=
  let link := q.(selectedResultDocumentLink) in
  a <-! all_versions q.(queryTask);;
  Ret (if a && negb (indexOf link "?documentVersion" =? -1)%Z then replace_first "?" "&" link else link).

Definition q_ngOnDestroy (counted paged : bool) : list (effect query_sub) :=
  (if counted then [EUnsubscribe CountQuery] else []) ++ (if paged then [EUnsubscribe NextPage] else []).
End QueryView.

(** ** query-result-detail.component.ts *)

Record QueryResultDetailComponent := {
  rd_selectedResultDocumentLink : option jsstr;
  selectedResultDocument : option ServiceDocumentQueryResult
}.

Section Detail.
Context {L : Lodash} {E : Engine}.
Context (BUILD_TYPE : jsstr).

Definition rd_getData (b : BaseService) (d : QueryResultDetailComponent) : list (effect unit) :=
  let link := "?documentSelfLink=" ++ str_or_undefined d.(rd_selectedResultDocumentLink) in
  call tt (getDocument BUILD_TYPE b (URL.DocumentIndex ++ link) [] true).

Definition rd_ngOnChanges (b : BaseService) (d : QueryResultDetailComponent) (ch : option (SimpleChange jsstr))
    : result unit QueryResultDetailComponent :=
  match changed_str ch with
  | None => (d, [])
  | Some v =>
      let d' := {| rd_selectedResultDocumentLink := Some v;
                   selectedResultDocument := d.(selectedResultDocument) |} in
      (d', rd_getData b d')
  end.

Definition on_resultDocument (d : QueryResultDetailComponent) (o : outcome ServiceDocumentQueryResult)
    : result unit QueryResultDetailComponent :=
  match o with
  | Next r => ({| rd_selectedResultDocumentLink := d.(rd_selectedResultDocumentLink);
                  selectedResultDocument := Some r |}, [])
  | Failed f => (d, [ENotify [error_note "Failed to retrieve details for the selected query result: " f]])
  end.
End Detail.

(** ** Properties *)

Section QueryFacts.
Context {L : Lodash} {E : Engine} {NT : NumText}.
Context (BUILD_TYPE : jsstr) (JSON_parse : jsstr -> exec jsval).

Definition is_sort (c : QueryClauseComponent) : bool := c.(qc_type) === "sort".
Definition is_group (c : QueryClauseComponent) : bool := c.(qc_type) === "group".
Definition is_regular (c : QueryClauseComponent) : bool := negb (is_sort c) && negb (is_group c).
Definition clause_option (c : QueryClauseComponent) : list jsstr :=
  if is_sort c then [js "SORT"] else if is_group c then [js "GROUP_BY"] else [].

Definition extra_keys : list jsstr := [js "sortTerm"; js "sortOrder"; js "groupByTerm"; js "groupSortTerm"].

Lemma obj_set_keys_in (o : list (jsstr * jsval)) k v (ks : list jsstr) :
  k ∈ ks -> Forall (fun kv => kv.1 ∈ ks) o -> Forall (fun kv => kv.1 ∈ ks) (obj_set o k v).
Proof.
  intros Hk Ho. induction Ho as [|[k' v'] o Hk' Ho IH]; cbn; [by repeat constructor|].
  destruct (str_eqb k' k); by constructor.
Qed.

Lemma spec_fold cs s :
  let s' := fold_left add_clause cs s in
  s'.(sp_clauses) = s.(sp_clauses) ++ map getClause (List.filter is_regular cs)
  /\ s'.(sp_options) = s.(sp_options) ++ flat_map clause_option cs
  /\ (Forall (fun kv => kv.1 ∈ extra_keys) s.(sp_extra) -> Forall (fun kv => kv.1 ∈ extra_keys) s'.(sp_extra)).
Proof.
  revert s. induction cs as [|c cs IH]; intros s; cbn; [by rewrite !app_nil_r|].
  destruct (IH (add_clause s c)) as (H1 & H2 & H3).
  rewrite H1, H2. unfold add_clause, is_regular, clause_option, is_sort, is_group in *.
  destruct (qc_type c === "sort"); cbn; [|destruct (qc_type c === "group"); cbn];
    rewrite <- ?app_assoc; (split; [done|]; split; [done|]); intros He; apply H3; cbn;
    repeat (apply obj_set_keys_in; [decide_done|]); done.
Qed.

(** ** The task a form stands for

    Written from the fields of the form, without the code that builds it. *)

(** The options that are switched on, in the order of the form. *)
Definition form_options (q : QueryComponent) : list jsstr :=
  flat_map (fun vo => match vo.1 with [] => [] | _ => [vo.2] end)
    [(q.(queryVersionsOption), js "INCLUDE_ALL_VERSIONS"); (q.(deletedDocumentInclusionOption), js "INCLUDE_DELETED");
     (q.(ownerSelectionOption), js "OWNER_SELECTION")].

Definition form_match (matchType matchValue propertyName : jsstr) : jsval :=
  JObj [(js "matchType", JStr matchType); (js "matchValue", JStr matchValue); (js "propertyName", JStr propertyName)].
Definition form_range (propertyName : jsstr) (r : NumericRange) : jsval :=
  JObj [(js "propertyName", JStr propertyName);
        (js "range", JObj [(js "precisionStep", JStr r.(precisionStep)); (js "isMaxInclusive", JStr r.(isMaxInclusive));
                           (js "isMinInclusive", JStr r.(isMinInclusive)); (js "max", JNum r.(max_));
                           (js "min", JNum r.(min_)); (js "type", JStr r.(range_type))])].

(** A clause is its condition and its occurance; one of an unknown type is null. *)
Definition form_clause_of (condition : option (jsstr * jsval)) (occurance : jsstr) : jsval :=
  match condition with Some kv => JObj [kv; (js "occurance", JStr occurance)] | None => JNull end.
Definition form_nested (c : QueryClauseNestedComponent) : jsval :=
  form_clause_of
    (if c.(qn_type) === "string"
     then Some (js "term", form_match c.(qn_propertyMatchType) c.(qn_propertyValue) c.(qn_propertyName))
     else if c.(qn_type) === "range" then Some (js "term", form_range c.(qn_propertyName) c.(qn_propertyValueRange))
     else None) c.(qn_occurance).
Definition form_clause (c : QueryClauseComponent) : jsval :=
  form_clause_of
    (if c.(qc_type) === "string"
     then Some (js "term", form_match c.(qc_propertyMatchType) c.(qc_propertyValue) c.(qc_propertyName))
     else if c.(qc_type) === "range" then Some (js "term", form_range c.(qc_propertyName) c.(qc_propertyValueRange))
     else if c.(qc_type) === "nested" then Some (js "booleanClauses", JArr (map form_nested c.(queryNestedComponent)))
     else None) c.(qc_occurance).

(** The last sort clause and the last group clause of the form give the terms;
    the kind that comes first gives its properties first. *)
Definition form_term (c : QueryClauseComponent) : jsval :=
  JObj [(js "propertyName", JStr c.(qc_propertyName)); (js "propertyType", JStr "STRING")].
Definition form_sort (cs : list QueryClauseComponent) : list (jsstr * jsval) :=
  match list.last (List.filter is_sort cs) with
  | Some c => [(js "sortTerm", form_term c); (js "sortOrder", JStr c.(qc_sortOrder))]
  | None => []
  end.
Definition form_group (cs : list QueryClauseComponent) : list (jsstr * jsval) :=
  match list.last (List.filter is_group cs) with
  | Some c => [(js "groupByTerm", form_term c); (js "groupSortTerm", form_term c)]
  | None => []
  end.
Definition form_terms (cs : list QueryClauseComponent) : list (jsstr * jsval) :=
  match List.filter (fun c => is_sort c || is_group c) cs with
  | c :: _ => if is_group c then form_group cs ++ form_sort cs else form_sort cs ++ form_group cs
  | [] => []
  end.

Definition form_task (more : list jsstr) (limit : list (jsstr * jsval)) (q : QueryComponent) (cs : list QueryClauseComponent) : jsval :=
  JObj [(js "taskInfo", JObj [(js "isDirect", JBool true)]);
        (js "querySpec",
         JObj ([(js "options", JArr (map JStr (form_options q ++ flat_map clause_option cs ++ more)))]
               ++ limit
               ++ [(js "query", JObj [(js "booleanClauses", JArr (map form_clause (List.filter is_regular cs)));
                                      (js "occurance", JStr "MUST_OCCUR")])]
               ++ form_terms cs))].

(** The task that is kept for the results, and the body of the count request. *)
Definition kept_task : QueryComponent -> list QueryClauseComponent -> jsval := form_task [] [(js "resultLimit", JInt 25)].
Definition counted_task : QueryComponent -> list QueryClauseComponent -> jsval := form_task [js "COUNT"] [].

Lemma form_clause_spec c : is_regular c = true -> getClause c = form_clause c.
Proof.
  unfold is_regular, is_sort, is_group, getClause, form_clause. rewrite andb_true_iff, !negb_true_iff. intros [-> ->].
  destruct (qc_type c === "string"); [done|]. destruct (qc_type c === "range"); [done|].
  destruct (qc_type c === "nested"); [|done]. cbn. unfold getNestedClause, getClauses.
  do 4 f_equal. apply map_ext. intros n. unfold nested_getClause, form_nested.
  destruct (qn_type n === "string"); [done|]. by destruct (qn_type n === "range").
Qed.

Lemma filter_snoc {A} (p : A -> bool) l x : List.filter p (l ++ [x]) = List.filter p l ++ (if p x then [x] else []).
Proof. rewrite List.filter_app. cbn. by destruct (p x). Qed.

Lemma sort_not_group c : is_sort c = true -> is_group c = false.
Proof. unfold is_sort, is_group. by intros ->%str_eqb_eq. Qed.

Lemma last_filter_None {A} (p : A -> bool) l : list.last (List.filter p l) = None <-> Forall (fun x => p x = false) l.
Proof.
  rewrite last_None. induction l as [|x l IH]; cbn; [by rewrite list.Forall_nil|].
  rewrite list.Forall_cons, <- IH. destruct (p x); naive_solver.
Qed.

(** The first of the sort and group clauses. *)
Lemma first_term cs :
  match List.filter (fun c => is_sort c || is_group c) cs with
  | [] => form_sort cs = [] /\ form_group cs = []
  | c :: _ => if is_group c then list.last (List.filter is_group cs) <> None else list.last (List.filter is_sort cs) <> None
  end.
Proof.
  unfold form_sort, form_group. induction cs as [|c cs IH]; [done|]. cbn [List.filter].
  destruct (is_sort c) eqn:Es; [|destruct (is_group c) eqn:Eg]; cbn [orb].
  - rewrite (sort_not_group c Es). intros H%last_None. discriminate H.
  - rewrite Eg. intros H%last_None. discriminate H.
  - exact IH.
Qed.

(** Terms that were already there keep their place. *)
Lemma form_terms_spec q cs : (spec_of q cs).(sp_extra) = form_terms cs.
Proof.
  unfold spec_of. induction cs as [|c cs IH] using rev_ind; [done|]. rewrite fold_left_app. cbn [fold_left].
  pose proof (first_term cs) as Hf. unfold add_clause at 1. unfold form_terms, form_sort, form_group in *. rewrite !filter_snoc.
  fold (is_sort c). fold (is_group c).
  destruct (is_sort c) eqn:Es; [|destruct (is_group c) eqn:Eg]; cbn [sp_extra orb]; rewrite ?(sort_not_group c Es), IH, ?app_nil_r;
    rewrite ?list.last_snoc; [| |done].
  all: destruct (List.filter (fun c => is_sort c || is_group c) cs) as [|c0 l]; cbn [app].
  - destruct Hf as [_ ->]. by rewrite (sort_not_group c Es).
  - destruct (is_group c0); destruct (list.last (List.filter is_sort cs)), (list.last (List.filter is_group cs)); done.
  - destruct Hf as [-> _]. unfold getClause. apply str_eqb_eq in Eg as Et. rewrite Et. by rewrite Eg.
  - unfold getClause. apply str_eqb_eq in Eg as Et. rewrite Et.
    destruct (is_group c0); destruct (list.last (List.filter is_sort cs)), (list.last (List.filter is_group cs)); done.
Qed.

Lemma extra_keeps (o : list (jsstr * jsval)) :
  Forall (fun kv => kv.1 ∈ extra_keys) o -> List.filter (fun kv => kv.1 !== js "resultLimit") o = o.
Proof.
  intros Ho. apply filter_idem. eapply list.Forall_impl; [exact Ho|]. intros [k v] Hk. cbn in *.
  apply negb_true_iff, str_eqb_neq. intros ->. revert Hk. apply (bool_decide_eq_false_1 _). reflexivity.
Qed.

(** Counting a task of the interactive shape. *)
Lemma count_task_shape info (opts : list jsval) lim qry extra :
  Forall (fun kv => kv.1 ∈ extra_keys) extra ->
  count_task (JObj [(js "taskInfo", info);
                    (js "querySpec", JObj ([(js "options", JArr opts); (js "resultLimit", lim); (js "query", qry)] ++ extra))])
  = Ret (JObj [(js "taskInfo", info);
               (js "querySpec", JObj ([(js "options", JArr (opts ++ [JStr "COUNT"])); (js "query", qry)] ++ extra))]).
Proof.
  intros He. assert (E1 : (js "taskInfo" === js "querySpec") = false) by reflexivity.
  assert (E2 : (js "options" === js "resultLimit") = false) by reflexivity.
  assert (E3 : (js "query" === js "resultLimit") = false) by reflexivity.
  unfold count_task.
  repeat progress (cbn [prop_of prop exec_bind obj_get app truthy_val obj_set set_prop del_prop List.filter fst negb];
                   rewrite ?E1, ?E2, ?E3, ?str_eqb_refl).
  by rewrite (extra_keeps _ He).
Qed.

Lemma form_options_spec q : getQueryOptions q = form_options q.
Proof.
  unfold getQueryOptions, form_options.
  by destruct (queryVersionsOption q), (deletedDocumentInclusionOption q), (ownerSelectionOption q).
Qed.

Lemma regular_clauses cs : map getClause (List.filter is_regular cs) = map form_clause (List.filter is_regular cs).
Proof. apply map_ext_in. intros c [_ Hc]%filter_In. by apply form_clause_spec. Qed.

Lemma built_task q cs : buildInteractiveQueryTask q cs = kept_task q cs.
Proof.
  destruct (spec_fold cs {| sp_options := getQueryOptions q; sp_clauses := []; sp_extra := [] |}) as (H1 & H2 & _).
  fold (spec_of q cs) in H1, H2. unfold buildInteractiveQueryTask, spec_value, kept_task, form_task.
  rewrite H1, H2, form_terms_spec. cbn [sp_clauses sp_options app]. by rewrite regular_clauses, form_options_spec, app_nil_r.
Qed.

Lemma form_terms_keys cs : Forall (fun kv => kv.1 ∈ extra_keys) (form_terms cs).
Proof.
  assert (H : Forall (fun kv => kv.1 ∈ extra_keys) (form_sort cs) /\ Forall (fun kv => kv.1 ∈ extra_keys) (form_group cs)).
  { unfold form_sort, form_group. split; destruct (list.last _); repeat constructor; decide_done. }
  destruct H as [H1 H2].
  unfold form_terms. destruct (List.filter _ _) as [|c l]; [constructor|]. by destruct (is_group c); apply Forall_app.
Qed.

Lemma count_task_interactive q cs : count_task (buildInteractiveQueryTask q cs) = Ret (counted_task q cs).
Proof.
  rewrite built_task. etrans; [apply (count_task_shape _ _ _ _ _ (form_terms_keys cs))|].
  unfold counted_task, form_task. rewrite !map_app. cbn [map app]. by rewrite app_nil_r, <- app_assoc.
Qed.

Lemma post_query b body : exists r, post BUILD_TYPE b URL.Query body true = Ret r /\ r.(rq_body) = Some (body_text body).
Proof.
  unfold post, write_request, write_link. destruct (true && remote b); [|by eexists].
  unfold getForwardingLink. cbn -[js]. by eexists.
Qed.

(** C15: In the interactive mode a query is always valid.  The task kept for the
    results has the options switched on and one option for each sort and group
    clause, the other clauses in the order of the form, the term and the order of
    the last sort clause, the term of the last group clause (twice), and a limit
    of 25; the request made first asks for the count of the same task, with the
    COUNT option and no limit.  The links and the selection of an earlier query
    are gone. *)
Theorem interactive_query (b : BaseService) (q : QueryComponent) (cs : list QueryClauseComponent) :
  q.(queryBuilderMode) = js "interactive" ->
  exists q' r, onQuery BUILD_TYPE JSON_parse b q cs = (q', [EHttp CountQuery [r]])
    /\ r.(rq_body) = Some (stringify (counted_task q cs))
    /\ q'.(queryTask) = Some (kept_task q cs)
    /\ q'.(pager).(pg_links) = [] /\ q'.(selectedResultDocumentLink) = [].
Proof.
  intros Hm. unfold onQuery, build_task. rewrite Hm, str_eqb_refl. cbn [isEmpty_val buildInteractiveQueryTask default].
  cbn [from_option id]. rewrite count_task_interactive. cbn [exec_bind].
  destruct (post_query b (BValue (counted_task q cs))) as (r & Hr & Hb). rewrite Hr.
  eexists _, r. split_and!; try done. cbn. by rewrite built_task.
Qed.

(** The state after a query, its count and its answer. *)
Definition queried (b : BaseService) (q : QueryComponent) (cs : list QueryClauseComponent) (cnt res : Results)
    : QueryComponent :=
  (on_result BUILD_TYPE b (on_count BUILD_TYPE b (onQuery BUILD_TYPE JSON_parse b q cs).1 (Next (Some cnt))).1
     (Next (Some res))).1.

Definition read_pages (b : BaseService) (q : QueryComponent) (rs : list Results) : QueryComponent :=
  match rs with
  | [] => q
  | r :: rs' =>
      fold_left (fun q r => (on_nextPage b (q_onLoadNextPage BUILD_TYPE b q).1 (Next (Some r))).1) rs'
        (on_nextPage b q (Next (Some r))).1
  end.

Lemma on_nextPage_state b q o :
  let q' := (on_nextPage b q o).1 in
  q'.(pager) = (on_page (K := query_sub) "Failed to query: " b q.(pager) o).1
  /\ q'.(queryResultCount) = q.(queryResultCount) /\ q'.(isQueried) = q.(isQueried).
Proof. unfold on_nextPage. by destruct (on_page _ b (pager q) o). Qed.

Lemma q_onLoadNextPage_state b q :
  let q' := (q_onLoadNextPage BUILD_TYPE b q).1 in
  q'.(pager) = (onLoadNextPage BUILD_TYPE NextPage b q.(pager)).1
  /\ q'.(queryResultCount) = q.(queryResultCount) /\ q'.(isQueried) = q.(isQueried).
Proof. unfold q_onLoadNextPage. by destruct (onLoadNextPage _ _ b (pager q)). Qed.

Lemma read_pages_state b rs q :
  let q' := fold_left (fun q r => (on_nextPage b (q_onLoadNextPage BUILD_TYPE b q).1 (Next (Some r))).1) rs q in
  q'.(pager) = scrolls BUILD_TYPE NextPage "Failed to query: " b q.(pager) rs
  /\ q'.(queryResultCount) = q.(queryResultCount) /\ q'.(isQueried) = q.(isQueried).
Proof.
  revert q. induction rs as [|r rs IH]; intros q; [done|]. cbn [fold_left].
  destruct (IH (on_nextPage b (q_onLoadNextPage BUILD_TYPE b q).1 (Next (Some r))).1) as (I1 & I2 & I3).
  destruct (on_nextPage_state b (q_onLoadNextPage BUILD_TYPE b q).1 (Next (Some r))) as (N1 & N2 & N3).
  destruct (q_onLoadNextPage_state b q) as (Q1 & Q2 & Q3).
  cbn zeta in *. rewrite I1, I2, I3, N1, N2, N3, Q1, Q2, Q3. done.
Qed.

(** C13: A query whose count is not zero shows, once its pages are read, the links
    of all the pages in order, and nothing of an earlier query. *)
Theorem query_shows_all_pages (b : BaseService) (q : QueryComponent) (cs : list QueryClauseComponent)
    (cnt res : Results) (l : jsstr) (r : Results) (rs : list Results) :
  cnt.(rs_documentCount) <> 0%Z -> res.(rs_nextPageLink) = Some l -> chain b l (r :: rs) ->
  let q' := read_pages b (queried b q cs cnt res) (r :: rs) in
  q'.(pager).(pg_links) = concat (map rs_documentLinks (r :: rs))
  /\ q'.(queryResultCount) = cnt.(rs_documentCount) /\ q'.(isQueried) = true.
Proof.
  intros Hcnt Hres Hchain q'. unfold q'. set (qq := queried b q cs cnt res).
  assert (Hqq : qq.(pager) = {| pg_links := []; pg_next := Some l; pg_locked := true |}
    /\ qq.(queryResultCount) = cnt.(rs_documentCount) /\ qq.(isQueried) = true).
  { unfold qq, queried, on_count. rewrite (proj2 (Z.eqb_neq _ _) Hcnt). unfold on_result. rewrite Hres. cbn.
    unfold onQuery. destruct (build_task _ _ _) as [t|e]; [|done].
    by destruct (if isEmpty_val t then _ else _). }
  destruct Hqq as (Hp & Hc & Hq). unfold read_pages.
  destruct (read_pages_state b rs (on_nextPage b qq (Next (Some r))).1) as (I1 & I2 & I3).
  destruct (on_nextPage_state b qq (Next (Some r))) as (N1 & N2 & N3). cbn zeta in *.
  rewrite I1, I2, I3, N1, N2, N3, Hp, Hc, Hq. split; [|done].
  destruct (chain_scrolls BUILD_TYPE NextPage "Failed to query: " b l (r :: rs)
    {| pg_links := []; pg_next := Some l; pg_locked := false |}) as (H1 & _); [done..|].
  exact H1.
Qed.

(** A page of an earlier query that arrives after a new query was started is
    shown as a result of the new one: its request is not cancelled. *)
Theorem stale_page_shown (b : BaseService) (q : QueryComponent) (cs : list QueryClauseComponent) (r : Results) :
  q.(pager).(pg_next) <> r.(rs_nextPageLink) ->
  let q' := (onQuery BUILD_TYPE JSON_parse b q cs).1 in
  q'.(pager).(pg_links) = []
  /\ (on_nextPage b q' (Next (Some r))).1.(pager).(pg_links) = r.(rs_documentLinks)
  /\ (forall k, EUnsubscribe k ∉ (onQuery BUILD_TYPE JSON_parse b q cs).2).
Proof.
  intros Hne q'. assert (Hq : q'.(pager) = with_links q.(pager) []
    /\ forall k, EUnsubscribe k ∉ (onQuery BUILD_TYPE JSON_parse b q cs).2).
  { unfold q', onQuery. destruct (build_task _ _ _) as [t|e]; [|split; [done|intros k; cbn; set_solver]].
    destruct (if isEmpty_val t then _ else _); split; try done; intros k; cbn; set_solver. }
  destruct Hq as [Hq Hu]. destruct (on_nextPage_state b q' (Next (Some r))) as (N1 & _ & _). cbn zeta in N1.
  split_and!; [by rewrite Hq| |done]. rewrite N1, Hq. cbn. rewrite bool_decide_false by done. lodash.
  destruct (truthy_opt _); [|done]. by destruct (getForwardingLink _ _ _).
Qed.
End QueryFacts.

Definition sample_query : QueryComponent :=
  {| queryBuilderMode := "interactive"; interactiveQueryClauses := new_clauses; advancedQueryTaskInput := [];
     isQueried := false; queryVersionsOption := "on"; deletedDocumentInclusionOption := [];
     ownerSelectionOption := []; queryTask := None;
     pager := {| pg_links := [js "/old"]; pg_next := None; pg_locked := false |};
     queryResultCount := 0; selectedResultDocumentLink := [] |}.
Definition no_parse (s : jsstr) : exec jsval := Throw SyntaxError.

(** A form with a string clause, a group clause and two sort clauses. *)
Definition clause_of (type name order : jsstr) : QueryClauseComponent :=
  {| qc_id := 2; qc_type := type; qc_occurance := "MUST_OCCUR"; qc_propertyName := name;
     qc_propertyMatchType := "TERM"; qc_propertyValue := []; qc_propertyValueRange := default_range;
     qc_sortOrder := order; queryNestedComponent := [new_nested 1] |}.
Definition sample_form : list QueryClauseComponent :=
  [new_clause 1; clause_of "sort" "a" "ASC"; clause_of "group" "g" "ASC"; clause_of "sort" "b" "DESC"].

Lemma interactive_query_witness :
  exists q' r, @onQuery plain_engine quotient_text "dev" no_parse sample_base sample_query sample_form
               = (q', [EHttp CountQuery [r]])
    /\ r.(rq_body) = Some (@stringify quotient_text (counted_task sample_query sample_form))
    /\ q'.(queryTask) = Some (kept_task sample_query sample_form)
    /\ q'.(pager).(pg_links) = [] /\ q'.(selectedResultDocumentLink) = [].
Proof.
  apply (@interactive_query plain_engine quotient_text "dev" no_parse sample_base sample_query sample_form).
  reflexivity.
Defined.

(** The terms of that form: those of its last sort clause, then of its group clause. *)
Lemma sample_form_terms :
  form_terms sample_form
  = [(js "sortTerm", JObj [(js "propertyName", JStr "b"); (js "propertyType", JStr "STRING")]); (js "sortOrder", JStr "DESC");
     (js "groupByTerm", JObj [(js "propertyName", JStr "g"); (js "propertyType", JStr "STRING")]);
     (js "groupSortTerm", JObj [(js "propertyName", JStr "g"); (js "propertyType", JStr "STRING")])].
Proof. reflexivity. Qed.

Lemma query_shows_all_pages_witness :
  let cnt := {| rs_documentLinks := []; rs_documentCount := 2; rs_nextPageLink := None |} in
  let res := sample_page [] (Some (js "/core/query-page/1")) in
  let rs := [sample_page [js "/a"] (Some (js "/core/query-page/2")); sample_page [js "/b"] None] in
  let q' := @read_pages lodash_ref plain_engine "dev" sample_base
              (@queried plain_engine quotient_text "dev" no_parse sample_base sample_query [] cnt res) rs in
  q'.(pager).(pg_links) = [js "/a"; js "/b"] /\ q'.(queryResultCount) = 2%Z /\ q'.(isQueried) = true.
Proof.
  apply (@query_shows_all_pages lodash_ref plain_engine quotient_text "dev" no_parse sample_base sample_query []
    {| rs_documentLinks := []; rs_documentCount := 2; rs_nextPageLink := None |}
    (sample_page [] (Some (js "/core/query-page/1"))) "/core/query-page/1"
    (sample_page [js "/a"] (Some (js "/core/query-page/2"))) [sample_page [js "/b"] None]);
    [discriminate | reflexivity |].
  eapply chain_more; [reflexivity | discriminate | decide_done | reflexivity | by apply chain_last].
Defined.

Lemma stale_page_shown_witness :
  let q' := (@onQuery plain_engine quotient_text "dev" no_parse sample_base sample_query []).1 in
  q'.(pager).(pg_links) = []
  /\ (@on_nextPage lodash_ref plain_engine sample_base q'
        (Next (Some (sample_page [js "/x"] (Some (js "/core/query-page/9")))))).1.(pager).(pg_links) = [js "/x"]
  /\ (forall k, EUnsubscribe k ∉ (@onQuery plain_engine quotient_text "dev" no_parse sample_base sample_query []).2).
Proof.
  apply (@stale_page_shown lodash_ref plain_engine quotient_text "dev" no_parse sample_base sample_query []
    (sample_page [js "/x"] (Some (js "/core/query-page/9")))). discriminate.
Defined.
