(* ===== verification/ServiceViews.v ===== *)
(** * The views of services

    service-detail.component.ts, child-service-detail.component.ts,
    service-grid.component.ts and service-card.component.ts. *)

From S2P Require Import Prelude JsString JsUri Lodash Json Charts StringUtil Interfaces BaseService Ui Pagination.
From Stdlib Require Import Sorting.Permutation Sorting.Sorted.

(** ** Modals *)

Definition modal_get (m : ModalContext) (k : jsstr) : option jsstr :=
  match obj_get m.(data) k with Some v => v | None => None end.
Definition modal_set (m : ModalContext) (k : jsstr) (v : option jsstr) : ModalContext :=
  {| modal_name := m.(modal_name); data := obj_set m.(data) k v |}.
Definition modal_name_set (m : ModalContext) (n : jsstr) : ModalContext :=
  {| modal_name := n; data := m.(data) |}.

Definition create_modal : ModalContext :=
  {| modal_name := []; data := [(js "documentSelfLink", Some []); (js "body", Some [])] |}.
Definition edit_modal : ModalContext :=
  {| modal_name := []; data := [(js "documentSelfLink", Some []); (js "method", Some []); (js "body", Some [])] |}.
Definition delete_modal : ModalContext :=
  {| modal_name := []; data := [(js "documentSelfLink", Some [])] |}.

(** ** service-detail.component.ts *)

Inductive detail_sub := ServiceLinks | ChildServiceList | ChildServiceNextPage | CreateChild.

Record ServiceDetailComponent := {
  createChildServiceModalContext : ModalContext;
  serviceLinks : list jsstr;
  childServices : Pager;      (* childServicesLinks, childServiceNextPageLink and the lock *)
  selectedServiceId : option jsstr;
  selectedChildServiceId : option jsstr
}.

Section ServiceDetail.
Context {L : Lodash} {E : Engine} {NT : NumText}.
Context (BUILD_TYPE : jsstr).

Definition sd_with (s : ServiceDetailComponent) (m : ModalContext) (ls : list jsstr) (p : Pager)
    : ServiceDetailComponent :=
  {| createChildServiceModalContext := m; serviceLinks := ls; childServices := p;
     selectedServiceId := s.(selectedServiceId); selectedChildServiceId := s.(selectedChildServiceId) |}.

(** Another node was selected: back to the grid. *)
Definition sd_on_selectedNode (node : option jsstr) : list (effect detail_sub) :=
  [ENavigate [js "/main/service"] [(js "node", node)]].

Definition sd_getData (b : BaseService) (s : ServiceDetailComponent) : result detail_sub ServiceDetailComponent :=
  let '(s, es) :=
    match s.(serviceLinks) with
    | [] =>
        (sd_with s s.(createChildServiceModalContext) []
           {| pg_links := []; pg_next := s.(childServices).(pg_next); pg_locked := s.(childServices).(pg_locked) |},
         call ServiceLinks (post BUILD_TYPE b URL.Root (BValue URL.RootPostBody) true))
    | _ => (s, [])
    end in
  (s, es ++ call ChildServiceList
              (getDocument BUILD_TYPE b (str_or_undefined s.(selectedServiceId))
                 (ODataUtil.limit None ++ "&" ++ ODataUtil.orderBy "documentSelfLink" None) true)).

(** The parameters of the route. *)
Definition sd_on_params (b : BaseService) (s : ServiceDetailComponent) (id childId : option jsstr)
    : result detail_sub ServiceDetailComponent :=
  let sel := decodeFromId id None None None in
  let m := modal_name_set s.(createChildServiceModalContext) (default (js "null") sel) in
  let m := modal_set (modal_set m "documentSelfLink" sel) "body" (Some []) in
  sd_getData b {| createChildServiceModalContext := m; serviceLinks := s.(serviceLinks);
                  childServices := s.(childServices); selectedServiceId := sel;
                  selectedChildServiceId := childId |}.

Definition on_serviceLinks (s : ServiceDetailComponent) (o : outcome ServiceDocumentQueryResult)
    : result detail_sub ServiceDetailComponent :=
  match o with
  | Next d => (sd_with s s.(createChildServiceModalContext) (lo_sortBy str_leb d.(documentLinks)) s.(childServices), [])
  | Failed f => (s, [ENotify [error_note "Failed to retrieve factory services: " f]])
  end.

Definition on_childServiceList (b : BaseService) (s : ServiceDetailComponent) (o : outcome ServiceDocumentQueryResult)
    : result detail_sub ServiceDetailComponent :=
  match o with
  | Next d =>
      let p n := {| pg_links := d.(documentLinks); pg_next := n; pg_locked := s.(childServices).(pg_locked) |} in
      let s' n := sd_with s s.(createChildServiceModalContext) s.(serviceLinks) (p n) in
      if truthy_opt d.(nextPageLink) then
        match getForwardingLink b (str_or_undefined d.(nextPageLink)) [] with
        | Ret n => (s' (Some n), [])
        | Throw e => (s' s.(childServices).(pg_next), [EThrow e])
        end
      else (s' s.(childServices).(pg_next), [])
  | Failed f => (s, [ENotify [error_note "Failed to retrieve factory service details: " f]])
  end.

Definition sd_onLoadNextPage (b : BaseService) (s : ServiceDetailComponent) : result detail_sub ServiceDetailComponent :=
  let '(p, es) := onLoadNextPage BUILD_TYPE ChildServiceNextPage b s.(childServices) in
  (sd_with s s.(createChildServiceModalContext) s.(serviceLinks) p, es).

Definition sd_on_nextPage (b : BaseService) (s : ServiceDetailComponent) (o : outcome (option Results))
    : result detail_sub ServiceDetailComponent :=
  let '(p, es) := on_page "Failed to retrieve factory service details: " b s.(childServices) o in
  (sd_with s s.(createChildServiceModalContext) s.(serviceLinks) p, es).

Definition getChildServiceLinks (s : ServiceDetailComponent) : list jsstr :=
  map (fun l => (parseDocumentLink l (default [] s.(selectedServiceId))).(dl_id)) s.(childServices).(pg_links).

Definition getSelectedServiceRouterId (id : jsstr) : option jsstr := toId id.

Definition sd_onCreateChildService (b : BaseService) (s : ServiceDetailComponent) : list (effect detail_sub) :=
  let sel := modal_get s.(createChildServiceModalContext) "documentSelfLink" in
  let body := modal_get s.(createChildServiceModalContext) "body" in
  if negb (truthy_opt sel) || negb (truthy_opt body) then []
  else call CreateChild (post BUILD_TYPE b (default [] sel) (BText (default [] body)) true).

Definition created_note (d : ServiceDocument) (what : jsstr) : effect detail_sub :=
  notify "SUCCESS" ("Child Service " ++ str_or_undefined d.(documentSelfLink) ++ " " ++ what).

Definition sd_on_created (s : ServiceDetailComponent) (o : outcome ServiceDocument)
    : result detail_sub ServiceDetailComponent :=
  match o with
  | Next d => (sd_with s (modal_set s.(createChildServiceModalContext) "body" (Some [])) s.(serviceLinks) s.(childServices),
               [created_note d "Created"])
  | Failed f => (s, [ENotify [error_note [] f]])
  end.

(** The address is rewritten by hand: the first occurrence of the service id,
    or of the child id, in the path (ids without dollar signs, which the
    replacement text would interpret). *)
Definition onSelectChildService (s : ServiceDetailComponent) (serviceId basePath childServiceId : jsstr)
    : result detail_sub ServiceDetailComponent :=
  let path := match s.(selectedChildServiceId) with
              | None => replace_first serviceId (serviceId ++ "/" ++ childServiceId) basePath
              | Some old => replace_first old childServiceId basePath
              end in
  ({| createChildServiceModalContext := s.(createChildServiceModalContext); serviceLinks := s.(serviceLinks);
      childServices := s.(childServices); selectedServiceId := s.(selectedServiceId);
      selectedChildServiceId := Some childServiceId |}, [EReplaceState path]).
End ServiceDetail.

(** ** child-service-detail.component.ts *)

Definition OPERATIONS : list jsstr := [js "GET"; js "POST"; js "PATCH"; js "PUT"; js "OPTIONS"].

Inductive child_sub := ChildService | ChildServiceStats | EditChild | DeleteChild.

Record ChildServiceDetailComponent := {
  cs_selectedServiceId : option jsstr;
  cs_selectedChildServiceId : option jsstr;
  editChildServiceModalContext : ModalContext;
  deleteChildServiceModalContext : ModalContext;
  statsState : jsstr;
  selectedChildService : option (list (jsstr * jsval));
  selectedChildServiceStats : option ServiceStats;
  operationCountChartCanvas : Canvas;
  operationCountChart : bool;              (* a chart was made *)
  operationDurationChartCanvas : Canvas;
  operationDurationChart : bool;
  cs_isViewInitialized : bool
}.

Record TimelineItem := { tl_name : jsstr; tl_count : Q; tl_timestamp : Z }.

Section ChildDetail.
Context {L : Lodash} {E : Engine} {NT : NumText}.
Context (BUILD_TYPE : jsstr).
(** numeral, moment and the durations of moment. *)
Context (numeral_format : Q -> jsstr -> jsstr) (moment_format : Q -> jsstr -> jsstr) (asMilliseconds : Q -> Q).

(** The component with another document, other statistics or other charts. *)
Definition cs_with (c : ChildServiceDetailComponent) (sel : option jsstr) (doc : option (list (jsstr * jsval)))
    (e d : ModalContext) (s : option ServiceStats) (charts : bool * bool) : ChildServiceDetailComponent :=
  {| cs_selectedServiceId := c.(cs_selectedServiceId); cs_selectedChildServiceId := sel;
     editChildServiceModalContext := e; deleteChildServiceModalContext := d; statsState := c.(statsState);
     selectedChildService := doc; selectedChildServiceStats := s;
     operationCountChartCanvas := c.(operationCountChartCanvas); operationCountChart := charts.1;
     operationDurationChartCanvas := c.(operationDurationChartCanvas); operationDurationChart := charts.2;
     cs_isViewInitialized := c.(cs_isViewInitialized) |}.
Definition cs_charts (c : ChildServiceDetailComponent) : bool * bool :=
  (c.(operationCountChart), c.(operationDurationChart)).

Definition cs_with_edit (c : ChildServiceDetailComponent) (m : ModalContext) : ChildServiceDetailComponent :=
  cs_with c c.(cs_selectedChildServiceId) c.(selectedChildService) m c.(deleteChildServiceModalContext)
    c.(selectedChildServiceStats) (cs_charts c).

(** A property the server maintains: "document", at most one character other
    than "s", a capital letter. *)
Definition is_document_key (k : jsstr) : bool :=
  match strip_prefix "document" k with
  | Some (c :: r) => is_upper c || (negb (c =? 115)%N && match r with d :: _ => is_upper d | [] => false end)
  | _ => false
  end.

Definition getPatchMethodDefaultBody (service : option (list (jsstr * jsval))) : jsstr :=
  match service with
  | None => []
  | Some o => stringify_gap "    " [] (JObj (List.filter (fun kv => negb (is_document_key kv.1)) o))
  end.

Definition child_link (c : ChildServiceDetailComponent) : jsstr :=
  str_or_undefined c.(cs_selectedServiceId) ++ "/" ++ str_or_undefined c.(cs_selectedChildServiceId).

Definition cs_getData (b : BaseService) (c : ChildServiceDetailComponent) : list (effect child_sub) :=
  match getDocument BUILD_TYPE b (child_link c) [] true with
  | Throw e => [EThrow e]
  | Ret r => EHttp ChildService [r] :: call ChildServiceStats (getDocumentStats BUILD_TYPE b (child_link c) true)
  end.

Definition cs_ngOnChanges (b : BaseService) (c : ChildServiceDetailComponent) (ch : option (SimpleChange jsstr))
    : result child_sub ChildServiceDetailComponent :=
  match changed_str ch with
  | None => (c, [])
  | Some v =>
      let c' := cs_with c (Some v) c.(selectedChildService) c.(editChildServiceModalContext)
                  c.(deleteChildServiceModalContext) c.(selectedChildServiceStats) (cs_charts c) in
      (c', cs_getData b c')
  end.

(** [link] is the link that was asked for. *)
Definition on_childService (c : ChildServiceDetailComponent) (link : jsstr) (o : outcome (list (jsstr * jsval)))
    : result child_sub ChildServiceDetailComponent :=
  match o with
  | Next doc =>
      let e := modal_name_set c.(editChildServiceModalContext) link in
      let e := modal_set e "documentSelfLink" (Some link) in
      let e := modal_set e "method" (Some (js "PATCH")) in
      let e := modal_set e "body" (Some (getPatchMethodDefaultBody (Some doc))) in
      let d := modal_set (modal_name_set c.(deleteChildServiceModalContext) link) "documentSelfLink" (Some link) in
      (cs_with c c.(cs_selectedChildServiceId) (Some doc) e d c.(selectedChildServiceStats) (cs_charts c), [])
  | Failed f => (c, [ENotify [error_note "Failed to retrieve factory child service details: " f]])
  end.

(** The values of the charts, one per operation. *)
Definition chart_values (entries : list (jsstr * ServiceStatsEntry)) (suffix : jsstr) : list Q :=
  map (fun op => match obj_get entries (op ++ suffix) with Some e => e.(latestValue) | None => 0%Q end) OPERATIONS.

Definition count_chart (entries : list (jsstr * ServiceStatsEntry)) : Config :=
  let colour := js "rgba(38, 198, 218, 1)" in
  {| cf_type := "radar";
     cf_data := {| cd_labels := OPERATIONS;
       cd_datasets := [{| ds_data := chart_values entries "requestCount";
         ds_style := [ (js "backgroundColor", JStr "rgba(38, 198, 218, .25)"); (js "pointRadius", JInt 3);
           (js "borderColor", JStr colour); (js "pointBackgroundColor", JStr colour); (js "pointBorderColor", JStr "#fff");
           (js "pointHoverRadius", JInt 4); (js "pointHoverBackgroundColor", JStr "#fff");
           (js "pointHoverBorderColor", JStr colour); (js "borderWidth", JInt 1) ] |}] |};
     cf_options := [(js "scale", JObj [(js "ticks", JObj [(js "maxTicksLimit", JInt 4)])])];
     cf_label := value_label (fun v => formatNumber numeral_format v false ++ " requests") |}.

Definition duration_chart (entries : list (jsstr * ServiceStatsEntry)) : Config :=
  {| cf_type := "bar";
     cf_data := {| cd_labels := OPERATIONS;
       cd_datasets := [{| ds_data := chart_values entries "operationDuration";
         ds_style := [ (js "backgroundColor", JStr "rgba(255, 202, 40, .25)"); (js "borderColor", JStr "rgba(255, 202, 40, 1)");
           (js "borderWidth", JInt 1) ] |}] |};
     cf_options := [(js "scales", JObj [ (js "xAxes", JArr [JObj [(js "gridLines", JObj [(js "display", JBool false)])]]);
                                         (js "yAxes", JArr [JObj [(js "display", JBool false)]]) ])];
     cf_label := value_label (fun v => formatDurationToMilliseconds numeral_format asMilliseconds v ++ " ms") |}.

Definition cs_destroy (c : ChildServiceDetailComponent) : list chart_action :=
  destroy_if c.(operationCountChart) "operationCountChart" ++ destroy_if c.(operationDurationChart) "operationDurationChart".

Definition cs_renderChart (c : ChildServiceDetailComponent) : result child_sub ChildServiceDetailComponent :=
  match c.(selectedChildServiceStats) with
  | None => (c, [])
  | Some s =>
      if isNull c.(operationCountChartCanvas) || isNull c.(operationDurationChartCanvas) then (c, [])
      else (cs_with c c.(cs_selectedChildServiceId) c.(selectedChildService) c.(editChildServiceModalContext)
              c.(deleteChildServiceModalContext) (Some s) (true, true),
            map EChart (cs_destroy c
              ++ [NewChart "operationCountChart" c.(operationCountChartCanvas) (Some (count_chart s.(entries)));
                  NewChart "operationDurationChart" c.(operationDurationChartCanvas) (Some (duration_chart s.(entries)))]))
  end.

(** [count], [duration]: the page has a canvas of this id. *)
Definition cs_ngAfterViewChecked (c : ChildServiceDetailComponent) (count duration : bool)
    : result child_sub ChildServiceDetailComponent :=
  if c.(cs_isViewInitialized) then (c, [])
  else
    let found init := {| cs_selectedServiceId := c.(cs_selectedServiceId); cs_selectedChildServiceId := c.(cs_selectedChildServiceId);
      editChildServiceModalContext := c.(editChildServiceModalContext);
      deleteChildServiceModalContext := c.(deleteChildServiceModalContext); statsState := c.(statsState);
      selectedChildService := c.(selectedChildService); selectedChildServiceStats := c.(selectedChildServiceStats);
      operationCountChartCanvas := getElementById count; operationCountChart := c.(operationCountChart);
      operationDurationChartCanvas := getElementById duration; operationDurationChart := c.(operationDurationChart);
      cs_isViewInitialized := init |} in
    if isNull (getElementById count) || isNull (getElementById duration) then (found false, [])
    else cs_renderChart (found true).

(** [asked]: the subscriptions of [getData] are there. *)
Definition cs_ngOnDestroy (c : ChildServiceDetailComponent) (asked : bool) : list (effect child_sub) :=
  map EChart (cs_destroy c) ++ (if asked then [EUnsubscribe ChildService; EUnsubscribe ChildServiceStats] else []).

Definition cs_getTimeStamp (timeMicros : Q) : jsstr := getTimeStamp moment_format timeMicros false.
Definition cs_isNullOrUndefined (value : option jsval) : bool :=
  match value with None | Some JNull => true | _ => false end.

Definition on_childServiceStats (c : ChildServiceDetailComponent) (o : outcome ServiceStats)
    : result child_sub ChildServiceDetailComponent :=
  match o with
  | Next s => cs_renderChart (cs_with c c.(cs_selectedChildServiceId) c.(selectedChildService)
                c.(editChildServiceModalContext) c.(deleteChildServiceModalContext) (Some s) (cs_charts c))
  | Failed f => (c, [ENotify [error_note "Failed to retrieve factory child service details: " f]])
  end.

Definition getTimeline (c : ChildServiceDetailComponent) : list TimelineItem :=
  match c.(selectedChildServiceStats) with
  | None => []
  | Some s =>
      lo_sortBy (fun x y => (y.(tl_timestamp) <=? x.(tl_timestamp))%Z)
        (flat_map (fun op => match obj_get s.(entries) (op ++ "requestCount") with
                             | Some e => [{| tl_name := op; tl_count := e.(latestValue);
                                             tl_timestamp := e.(lastUpdateMicrosUtc) |}]
                             | None => []
                             end) OPERATIONS)
  end.

Definition onEditChildServiceMethodChanged (c : ChildServiceDetailComponent) (method : jsstr)
    : ChildServiceDetailComponent :=
  let m := modal_set c.(editChildServiceModalContext) "method" (Some method) in
  cs_with_edit c (modal_set m "body"
    (Some (match c.(selectedChildService) with
           | Some doc => if method === "PATCH" then getPatchMethodDefaultBody (Some doc) else []
           | None => []
           end))).

Definition onEditChildService (b : BaseService) (c : ChildServiceDetailComponent) : list (effect child_sub) :=
  let m := c.(editChildServiceModalContext) in
  let sel := modal_get m "documentSelfLink" in
  let method := modal_get m "method" in
  let body := modal_get m "body" in
  if negb (truthy_opt sel) || negb (truthy_opt method) || negb (truthy_opt body) then []
  else if bool_decide (method = Some (js "PATCH"))
  then call EditChild (patch BUILD_TYPE b (default [] sel) (BText (default [] body)) true)
  else if bool_decide (method = Some (js "PUT"))
  then call EditChild (put BUILD_TYPE b (default [] sel) (BText (default [] body)) true)
  else [notify "ERROR" ("Unknown method " ++ str_or_undefined method ++ " used to modify the child service")].

Definition on_edited (c : ChildServiceDetailComponent) (o : outcome ServiceDocument)
    : result child_sub ChildServiceDetailComponent :=
  match o with
  | Next d => (cs_with_edit c (modal_set c.(editChildServiceModalContext) "body" None),
               [notify "SUCCESS" ("Child Service " ++ str_or_undefined d.(documentSelfLink) ++ " Updated")])
  | Failed f => (c, [ENotify [error_note [] f]])
  end.

Definition onDeleteChildService (b : BaseService) (c : ChildServiceDetailComponent) : list (effect child_sub) :=
  let sel := modal_get c.(deleteChildServiceModalContext) "documentSelfLink" in
  if truthy_opt sel then call DeleteChild (delete_ BUILD_TYPE b (default [] sel) true) else [].

Definition on_deleted (o : outcome ServiceDocument) : list (effect child_sub) :=
  match o with
  | Next d => [notify "SUCCESS" ("Child Service " ++ str_or_undefined d.(documentSelfLink) ++ " Deleted")]
  | Failed f => [ENotify [error_note [] f]]
  end.

Definition onToggleStats (s : jsstr) : jsstr := if s === "expand" then "collapse" else "expand".
End ChildDetail.

(** ** service-grid.component.ts *)

Inductive grid_sub := GridLinks | GridDocuments | GridCreate.

Record ServiceGridComponent := {
  sg_modal : ModalContext;
  coreServices : list ServiceDocument;
  customServices : list ServiceDocument
}.

Section Grid.
Context {L : Lodash} {E : Engine} {NT : NumText}.
Context (BUILD_TYPE : jsstr).

(** The regular expression for core services, without regard to case. *)
Definition coreServiceRegExp (link : option jsstr) : bool :=
  match find_sub (map lower_unit (str_or_undefined link)) "/core/" with Some _ => true | None => false end.

(** The order of self links; [undefined] goes last. *)
Definition link_leb (x y : ServiceDocument) : bool :=
  match x.(documentSelfLink), y.(documentSelfLink) with
  | Some a, Some b => str_leb a b
  | _, None => true
  | None, Some _ => false
  end.

Definition sg_getData (b : BaseService) : list (effect grid_sub) :=
  call GridLinks (post BUILD_TYPE b URL.Root (BValue URL.RootPostBody) true).

Definition on_gridLinks (b : BaseService) (g : ServiceGridComponent) (o : outcome ServiceDocumentQueryResult)
    : result grid_sub ServiceGridComponent :=
  match o with
  | Next d => (g, call_all GridDocuments (getDocuments BUILD_TYPE b d.(documentLinks) ODataUtil.count true))
  | Failed f => (g, [ENotify [error_note "Failed to retrieve factory services: " f]])
  end.

Definition on_gridDocuments (g : ServiceGridComponent) (o : outcome (list ServiceDocument))
    : result grid_sub ServiceGridComponent :=
  match o with
  | Next services =>
      ({| sg_modal := g.(sg_modal);
          coreServices := lo_sortBy link_leb (List.filter (fun s => coreServiceRegExp s.(documentSelfLink)) services);
          customServices := lo_sortBy link_leb
            (List.filter (fun s => negb (coreServiceRegExp s.(documentSelfLink))) services) |}, [])
  | Failed f => (g, [ENotify [error_note "Failed to retrieve factory service details: " f]])
  end.

Definition getServiceId (documentSelfLink : option jsstr) : option jsstr :=
  if truthy_opt documentSelfLink then toId (default [] documentSelfLink) else Some [].

Definition sg_onCreateChildServiceClicked (g : ServiceGridComponent) (link : jsstr) : ServiceGridComponent :=
  {| sg_modal := modal_set (modal_set (modal_name_set g.(sg_modal) link) "documentSelfLink" (Some link))
                   "body" (Some []);
     coreServices := g.(coreServices); customServices := g.(customServices) |}.

Definition sg_onCreateChildService (b : BaseService) (g : ServiceGridComponent) : list (effect grid_sub) :=
  let sel := modal_get g.(sg_modal) "documentSelfLink" in
  let body := modal_get g.(sg_modal) "body" in
  if negb (truthy_opt sel) || negb (truthy_opt body) then []
  else call GridCreate (post BUILD_TYPE b (default [] sel) (BText (default [] body)) true).

Definition sg_on_created (o : outcome ServiceDocument) : list (effect grid_sub) :=
  match o with
  | Next d => [notify "SUCCESS" ("Child Service " ++ str_or_undefined d.(documentSelfLink) ++ " Created")]
  | Failed f => [ENotify [error_note [] f]]
  end.
End Grid.

(** ** service-card.component.ts *)

Inductive card_sub := CardStats | CardConfig.

Record ServiceCardComponent := {
  service : option ServiceDocumentQueryResult;
  isServiceAvailable : bool;
  serviceStats : option ServiceStats;
  serviceConfig : option ServiceConfiguration
}.

Section Card.
Context {E : Engine}.
Context (BUILD_TYPE : jsstr).
Context (numeral_format : Q -> jsstr -> jsstr).

Definition card_link (c : ServiceCardComponent) : option jsstr :=
  match c.(service) with Some s => s.(queryResult_base).(documentSelfLink) | None => Some [] end.

Definition getServiceAvailabilityTitle (c : ServiceCardComponent) : jsstr :=
  "Status: " ++ (if c.(isServiceAvailable) then js "AVAILABLE" else js "UNAVAILABLE").

Definition getServiceAvailabilityClass (c : ServiceCardComponent) (baseClasses : jsstr) : jsstr :=
  match c.(service) with
  | None => baseClasses
  | Some _ => baseClasses ++ " " ++ (if c.(isServiceAvailable) then js "available-status" else js "error-status")
  end.

Definition getChildServiceCount (c : ServiceCardComponent) : jsstr :=
  match c.(service) with
  | None => "0"
  | Some s => match s.(documentCount) with
              | None => dec_N (N.of_nat (length s.(documentLinks)))
              | Some n => formatNumber numeral_format (inject_Z n) true
              end
  end.

Definition card_getData (b : BaseService) (s : ServiceDocumentQueryResult) : list (effect card_sub) :=
  let link := str_or_undefined s.(queryResult_base).(documentSelfLink) in
  match getDocumentStats BUILD_TYPE b link true with
  | Throw e => [EThrow e]
  | Ret r => EHttp CardStats [r] :: call CardConfig (getDocumentConfig BUILD_TYPE b link true)
  end.

(** [isEqual] compares the documents; here [same] is its answer. *)
Definition card_ngOnChanges (b : BaseService) (c : ServiceCardComponent)
    (ch : option (option ServiceDocumentQueryResult)) (same : bool) : result card_sub ServiceCardComponent :=
  match ch with
  | Some (Some s) =>
      if same then (c, [])
      else ({| service := Some s; isServiceAvailable := c.(isServiceAvailable); serviceStats := c.(serviceStats);
               serviceConfig := c.(serviceConfig) |}, card_getData b s)
  | _ => (c, [])
  end.

Definition on_cardStats (c : ServiceCardComponent) (o : outcome ServiceStats) : result card_sub ServiceCardComponent :=
  match o with
  | Next s =>
      ({| service := c.(service);
          isServiceAvailable := match obj_get s.(entries) "isAvailable" with
                                | Some e => Qeq_bool e.(latestValue) 1 | None => false end;
          serviceStats := Some s; serviceConfig := c.(serviceConfig) |}, [])
  | Failed f => (c, [ENotify [error_note "Failed to retrieve factory services: " f]])
  end.

Definition on_cardConfig (c : ServiceCardComponent) (o : outcome ServiceConfiguration)
    : result card_sub ServiceCardComponent :=
  match o with
  | Next g => ({| service := c.(service); isServiceAvailable := c.(isServiceAvailable);
                  serviceStats := c.(serviceStats); serviceConfig := Some g |}, [])
  | Failed f => (c, [ENotify [error_note "Failed to retrieve factory services: " f]])
  end.

Definition card_onCreateChildServiceClicked (c : ServiceCardComponent) (eventType : jsstr) : effect card_sub :=
  EEmit "createChildServiceClicked"
    (JObj [(js "type", JStr eventType);
           (js "data", JObj (match card_link c with
                             | Some l => [(js "documentSelfLink", JStr l)] | None => [] end))]).
End Card.

(** ** Properties *)

Section ViewFacts.
Context {L : Lodash} {E : Engine} {NT : NumText}.
Context (BUILD_TYPE : jsstr).

Lemma filter_partition {A} (p : A -> bool) (l : list A) :
  Permutation (List.filter p l ++ List.filter (fun x => negb (p x)) l) l.
Proof.
  induction l as [|x l IH]; [done|]. cbn. destruct (p x); cbn; [by constructor|].
  rewrite <- Permutation_middle. by constructor.
Qed.

Lemma link_leb_total : total_order link_leb.
Proof.
  destruct str_leb_total as [Ht Htr]. unfold link_leb. split.
  - intros x y. destruct (documentSelfLink x), (documentSelfLink y); auto.
  - intros x y z. destruct (documentSelfLink x), (documentSelfLink y), (documentSelfLink z); try done. apply Htr.
Qed.

(** The grid shows every service exactly once, the core services in one list and
    the others in the other, each list sorted by self link. *)
Theorem grid_partition (g : ServiceGridComponent) (services : list ServiceDocument) :
  let g' := (on_gridDocuments g (Next services)).1 in
  Permutation (g'.(coreServices) ++ g'.(customServices)) services
  /\ Forall (fun s => coreServiceRegExp s.(documentSelfLink) = true) g'.(coreServices)
  /\ Forall (fun s => coreServiceRegExp s.(documentSelfLink) = false) g'.(customServices)
  /\ StronglySorted (fun x y => link_leb x y = true) g'.(coreServices)
  /\ StronglySorted (fun x y => link_leb x y = true) g'.(customServices).
Proof.
  cbn [on_gridDocuments fst coreServices customServices].
  set (p := fun s => coreServiceRegExp s.(documentSelfLink)).
  split_and!; try (apply lo_sortBy_sorted, link_leb_total).
  - rewrite <- !lo_sortBy_perm. apply filter_partition.
  - apply list.Forall_forall. intros s Hs. rewrite <- lo_sortBy_perm in Hs.
    apply list_elem_of_In, filter_In in Hs as [_ Hs]. done.
  - apply list.Forall_forall. intros s Hs. rewrite <- lo_sortBy_perm in Hs.
    apply list_elem_of_In, filter_In in Hs as [_ Hs]. by apply negb_true_iff.
Qed.

(** A child of a factory, listed under the id computed from its document link
    and opened, is requested under that very link: its state and its
    statistics. *)
Theorem opened_child_requested (b : BaseService) (s : ServiceDetailComponent) (c : ChildServiceDetailComponent)
    (p t : jsstr) (ts ids : list jsstr) (n : nat) :
  ids <> [] -> NoDup (p :: t :: ts) -> Forall (fun w => 47%N ∉ w) ((p :: t :: ts) ++ ids) ->
  (forall x, x ∈ ids -> x ∉ p :: t :: ts) ->
  let factory := join "/" (p :: t :: ts) in
  let link := factory ++ "/" ++ join "/" ids in
  s.(selectedServiceId) = Some factory -> s.(childServices).(pg_links) !! n = Some link ->
  c.(cs_selectedServiceId) = Some factory ->
  c.(cs_selectedChildServiceId) = getChildServiceLinks s !! n ->
  remote b = false ->
  child_link c = link
  /\ cs_getData BUILD_TYPE b c
     = [EHttp ChildService [get_request BUILD_TYPE link];
        EHttp ChildServiceStats [get_request BUILD_TYPE (link ++ "/stats")]].
Proof.
  intros Hids Hnd Hs Hdis factory link Hsel Hn Hcs Hci Hrem.
  assert (Hlink : child_link c = link).
  { unfold child_link. rewrite Hcs, Hci. unfold getChildServiceLinks. rewrite list_lookup_fmap, Hn, Hsel.
    cbn [fmap option_fmap option_map from_option default id str_or_undefined]. unfold link, factory.
    by rewrite (parse_child_link p t ts ids). }
  split; [done|]. unfold cs_getData, getDocumentStats, getDocument, getDocumentInternal, read_link.
  rewrite Hrem, Hlink. cbn -[js]. by rewrite app_nil_r.
Qed.

(** Editing sends the body once: after the server accepts a PATCH or PUT the
    body of the modal is cleared, and confirming again sends nothing. *)
Theorem edit_sent_once (b : BaseService) (c : ChildServiceDetailComponent) (link body method : jsstr)
    (d : ServiceDocument) :
  let m := c.(editChildServiceModalContext) in
  modal_get m "documentSelfLink" = Some link -> modal_get m "body" = Some body ->
  modal_get m "method" = Some method -> link <> [] -> body <> [] -> remote b = false ->
  (method = js "PATCH" \/ method = js "PUT") ->
  onEditChildService BUILD_TYPE b c
  = [EHttp EditChild [{| rq_method := if method === "PATCH" then PATCH else PUT;
                         rq_url := URL.API_PREFIX BUILD_TYPE ++ link; rq_body := Some body;
                         rq_headers := json_headers |}]]
  /\ onEditChildService BUILD_TYPE b (on_edited c (Next d)).1 = [].
Proof.
  intros m Hl Hb Hm Hne Hbe Hrem Hor. unfold onEditChildService. fold m. rewrite Hl, Hb, Hm.
  cbn [truthy_opt]. rewrite (proj2 (truthy_spec link)), (proj2 (truthy_spec body)) by done. split.
  - unfold patch, put, write_request, write_link. rewrite Hrem. destruct Hor as [-> | ->]; reflexivity.
  - cbn [on_edited fst cs_with_edit cs_with editChildServiceModalContext]. fold m.
    assert (Hnb : modal_get (modal_set m "body" None) "body" = None).
    { unfold modal_get, modal_set. cbn. by rewrite obj_get_set_eq. }
    rewrite Hnb. cbn. by rewrite orb_true_r.
Qed.

(** Selecting another child rewrites the address to that child when the old
    child id first occurs in the path after the service id. *)
Theorem select_child_address (s : ServiceDetailComponent) (pre sid old new post : jsstr) :
  s.(selectedChildServiceId) = Some old ->
  find_sub (pre ++ sid ++ "/" ++ old ++ post) old = Some (length (pre ++ sid ++ "/")) ->
  onSelectChildService s sid (pre ++ sid ++ "/" ++ old ++ post) new
  = ({| createChildServiceModalContext := s.(createChildServiceModalContext); serviceLinks := s.(serviceLinks);
        childServices := s.(childServices); selectedServiceId := s.(selectedServiceId);
        selectedChildServiceId := Some new |}, [EReplaceState (pre ++ sid ++ "/" ++ new ++ post)]).
Proof.
  intros Hold Hf. unfold onSelectChildService. rewrite Hold. unfold replace_first. rewrite Hf.
  do 3 f_equal. assert (Hsplit : pre ++ sid ++ "/" ++ old ++ post = (pre ++ sid ++ "/") ++ old ++ post)
    by by rewrite <- !app_assoc.
  rewrite Hsplit, take_app_length, drop_app_add. rewrite drop_app_length. by rewrite <- !app_assoc.
Qed.
(** *** The charts of a child service *)

(** What happens to the view of a child service after its first check. *)
Inductive child_event :=
  | ChildChanges (b : BaseService) (ch : option (SimpleChange jsstr))
  | ChildDocument (link : jsstr) (o : outcome (list (jsstr * jsval)))
  | ChildStats (o : outcome ServiceStats)
  | ChildChecked (count duration : bool)
  | ChildEdit (method : jsstr)
  | ChildEdited (o : outcome ServiceDocument).

Context (numeral_format : Q -> jsstr -> jsstr) (asMilliseconds : Q -> Q).

Definition child_step (c : ChildServiceDetailComponent) (e : child_event) : result child_sub ChildServiceDetailComponent :=
  match e with
  | ChildChanges b ch => cs_ngOnChanges BUILD_TYPE b c ch
  | ChildDocument link o => on_childService c link o
  | ChildStats o => on_childServiceStats numeral_format asMilliseconds c o
  | ChildChecked n d => cs_ngAfterViewChecked numeral_format asMilliseconds c n d
  | ChildEdit m => (onEditChildServiceMethodChanged c m, [])
  | ChildEdited o => on_edited c o
  end.

Fixpoint child_run (c : ChildServiceDetailComponent) (es : list child_event) : result child_sub ChildServiceDetailComponent :=
  match es with
  | [] => (c, [])
  | e :: es' => let '(c1, fs) := child_step c e in let '(c2, gs) := child_run c1 es' in (c2, fs ++ gs)
  end.

(** The chart of the statistics, once both canvases are there. *)
Definition child_chart (chart : list (jsstr * ServiceStatsEntry) -> Config) (c : ChildServiceDetailComponent) : shown :=
  match c.(selectedChildServiceStats) with
  | Some s => if c.(cs_isViewInitialized) then Shows (Some (chart s.(entries))) else Nothing
  | None => Nothing
  end.

Record child_inv (c : ChildServiceDetailComponent) (n d : shown) : Prop := {
  ki_count : n = child_chart (count_chart numeral_format) c;
  ki_duration : d = child_chart (duration_chart numeral_format asMilliseconds) c;
  ki_made : n <> Nothing \/ d <> Nothing -> cs_charts c = (true, true);
  ki_canvases : if c.(cs_isViewInitialized)
                then c.(operationCountChartCanvas) = CanvasElement /\ c.(operationDurationChartCanvas) = CanvasElement
                else isNull c.(operationCountChartCanvas) || isNull c.(operationDurationChartCanvas) = true
}.

(** A handler that touches neither the charts nor the statistics. *)
Lemma child_untouched c sel doc e d n m :
  child_inv c n m -> child_inv (cs_with c sel doc e d c.(selectedChildServiceStats) (cs_charts c)) n m.
Proof. intros [H1 H2 H3 H4]. by constructor. Qed.

(** Re-rendering when there are statistics and both canvases. *)
Lemma child_renders c s n d :
  c.(selectedChildServiceStats) = Some s -> c.(cs_isViewInitialized) = true ->
  c.(operationCountChartCanvas) = CanvasElement -> c.(operationDurationChartCanvas) = CanvasElement ->
  n <> Clash -> d <> Clash -> (n <> Nothing \/ d <> Nothing -> cs_charts c = (true, true)) ->
  let '(c', fs) := cs_renderChart numeral_format asMilliseconds c in
  child_inv c' (shown_after "operationCountChart" n (chart_actions fs))
    (shown_after "operationDurationChart" d (chart_actions fs)).
Proof.
  intros Hs Hi C1 C2 Hn Hd Hm. unfold cs_renderChart. rewrite Hs, C1, C2. cbn [isNull orb].
  rewrite chart_actions_EChart. unfold cs_destroy. unfold cs_charts in Hm.
  assert (E' : shown_after "operationCountChart" n
      (((destroy_if (operationCountChart c) "operationCountChart" ++ destroy_if (operationDurationChart c) "operationDurationChart"))
       ++ [NewChart "operationCountChart" CanvasElement (Some (count_chart numeral_format (entries s)));
           NewChart "operationDurationChart" CanvasElement (Some (duration_chart numeral_format asMilliseconds (entries s)))])
    = Shows (Some (count_chart numeral_format (entries s)))
    /\ shown_after "operationDurationChart" d
      (((destroy_if (operationCountChart c) "operationCountChart" ++ destroy_if (operationDurationChart c) "operationDurationChart"))
       ++ [NewChart "operationCountChart" CanvasElement (Some (count_chart numeral_format (entries s)));
           NewChart "operationDurationChart" CanvasElement (Some (duration_chart numeral_format asMilliseconds (entries s)))])
    = Shows (Some (duration_chart numeral_format asMilliseconds (entries s)))).
  { destruct n as [|o|], d as [|o'|]; try done;
      first [assert (K := Hm ltac:(by left)) | assert (K := Hm ltac:(by right)) | assert (K := eq_refl (0, 0))];
      try (injection K as -> ->; done). by destruct (operationCountChart c), (operationDurationChart c). }
  destruct E' as [-> ->]. constructor; cbn [cs_with selectedChildServiceStats cs_isViewInitialized]; unfold child_chart;
    cbn [cs_with selectedChildServiceStats cs_isViewInitialized operationCountChartCanvas operationDurationChartCanvas cs_charts
         operationCountChart operationDurationChart fst snd]; rewrite ?Hi; done.
Qed.

Lemma child_chart_one chart c : child_chart chart c <> Clash.
Proof. unfold child_chart. destruct (selectedChildServiceStats c); [|done]. by destruct (cs_isViewInitialized c). Qed.

Lemma changes_no_charts b c : chart_actions (cs_getData BUILD_TYPE b c) = [].
Proof. unfold cs_getData. destruct (getDocument _ _ _ _ _); [|done]. by destruct (getDocumentStats _ _ _ _). Qed.

Lemma child_step_inv c e n d :
  child_inv c n d ->
  let '(c', fs) := child_step c e in
  child_inv c' (shown_after "operationCountChart" n (chart_actions fs))
    (shown_after "operationDurationChart" d (chart_actions fs)).
Proof.
  intros I. pose proof I as [H1 H2 H3 H4].
  assert (Hn : n <> Clash) by (subst n; apply child_chart_one).
  assert (Hd : d <> Clash) by (subst d; apply child_chart_one).
  destruct e as [b ch|link [doc|f]|[s|f]|found1 found2|m|[doc|f]]; cbn [child_step]; try exact I.
  - unfold cs_ngOnChanges. destruct (changed_str ch) as [v|]; [|exact I].
    rewrite changes_no_charts. by apply child_untouched.
  - by apply child_untouched.
  - cbn [on_childServiceStats]. destruct (cs_isViewInitialized c) eqn:Ei.
    + apply (child_renders _ s); try done; by destruct H4.
    + unfold cs_renderChart. cbn [cs_with selectedChildServiceStats operationCountChartCanvas operationDurationChartCanvas].
      rewrite H4. constructor; cbn [cs_with cs_isViewInitialized operationCountChartCanvas operationDurationChartCanvas];
        unfold child_chart in *; cbn [cs_with selectedChildServiceStats cs_isViewInitialized]; rewrite ?Ei in *; try done.
      all: by destruct (selectedChildServiceStats c).
  - unfold cs_ngAfterViewChecked. destruct (cs_isViewInitialized c) eqn:Ei; [exact I|].
    assert (N1 : n = Nothing) by (rewrite H1; unfold child_chart; rewrite Ei; by destruct (selectedChildServiceStats c)).
    assert (N2 : d = Nothing) by (rewrite H2; unfold child_chart; rewrite Ei; by destruct (selectedChildServiceStats c)).
    destruct (isNull (getElementById found1) || isNull (getElementById found2)) eqn:En.
    + rewrite N1, N2. constructor; unfold child_chart; cbn; [by destruct (selectedChildServiceStats c)..|by intros [?|?]|done].
    + destruct found1, found2; try discriminate En.
      destruct (selectedChildServiceStats c) as [s|] eqn:Es.
      * apply (child_renders _ s); done.
      * unfold cs_renderChart. cbn [selectedChildServiceStats]. rewrite N1, N2. constructor; cbn; try done. by intros [?|?].
  - by apply child_untouched.
  - by apply child_untouched.
Qed.

Lemma child_run_inv es : forall c n d,
  child_inv c n d ->
  let '(c', fs) := child_run c es in
  child_inv c' (shown_after "operationCountChart" n (chart_actions fs))
    (shown_after "operationDurationChart" d (chart_actions fs)).
Proof.
  induction es as [|e es IH]; intros c n d I; cbn [child_run]; [exact I|].
  pose proof (child_step_inv c e n d I) as I1. destruct (child_step c e) as [c1 f1].
  specialize (IH _ _ _ I1). destruct (child_run c1 es) as [c2 f2].
  by rewrite chart_actions_app, !shown_app.
Qed.

(** A change of an input of the view. *)
Definition is_changes (e : child_event) : bool := match e with ChildChanges _ _ => true | _ => false end.

(** Before the first check only the inputs change: there are no charts yet. *)
Lemma changes_first es0 : forall c0,
  forallb is_changes es0 = true ->
  cs_charts c0 = (false, false) -> c0.(cs_isViewInitialized) = false -> c0.(selectedChildServiceStats) = None ->
  let '(c, fs) := child_run c0 es0 in
  chart_actions fs = [] /\ cs_charts c = (false, false) /\ c.(cs_isViewInitialized) = false /\ c.(selectedChildServiceStats) = None.
Proof.
  induction es0 as [|e es0 IH]; intros c0 He Hm Hi Hs; [done|]. cbn in He. apply andb_prop in He as [He1 He].
  destruct e as [b ch|?|?|?|?|?]; try discriminate He1. cbn [child_run child_step]. unfold cs_ngOnChanges.
  destruct (changed_str ch) as [v|].
  - set (c1 := cs_with _ _ _ _ _ _ _). specialize (IH c1 He Hm Hi Hs). destruct (child_run c1 es0) as [c fs].
    by rewrite chart_actions_app, changes_no_charts.
  - specialize (IH c0 He Hm Hi Hs). by destruct (child_run c0 es0) as [c fs].
Qed.

Lemma child_run_app es1 es2 : forall c,
  child_run c (es1 ++ es2)
  = let '(c1, f1) := child_run c es1 in let '(c2, f2) := child_run c1 es2 in (c2, f1 ++ f2).
Proof.
  induction es1 as [|e es1 IH]; intros c; cbn [app child_run]; [by destruct (child_run c es2)|].
  destruct (child_step c e) as [c' f]. rewrite IH. destruct (child_run c' es1) as [c1 f1].
  destruct (child_run c1 es2) as [c2 f2]. by rewrite app_assoc.
Qed.

(** C24: After the inputs are set and the view is checked for the first time, and
    until the view is left, in whatever order documents, statistics, checks,
    changes of the inputs and edits come: each of the two canvases shows exactly
    the chart of the last statistics received as soon as both canvases and
    statistics are there, and nothing before.  Leaving the view destroys both
    charts (an answer to a superseded request that comes later still makes
    charts: [late_stats_make_charts]).  The tooltip over an operation tells the
    number, or the milliseconds, of that operation. *)
Theorem child_charts_follow_stats (c0 : ChildServiceDetailComponent) (es0 : list child_event) (count duration asked : bool)
    (es : list child_event) :
  cs_charts c0 = (false, false) -> c0.(cs_isViewInitialized) = false -> c0.(selectedChildServiceStats) = None ->
  forallb is_changes es0 = true ->
  let '(c, fs) := child_run c0 (es0 ++ ChildChecked count duration :: es) in
  let acts := chart_actions fs in
  (shown_after "operationCountChart" Nothing acts = child_chart (count_chart numeral_format) c
   /\ shown_after "operationDurationChart" Nothing acts = child_chart (duration_chart numeral_format asMilliseconds) c)
  /\ (let gone := acts ++ chart_actions (cs_ngOnDestroy c asked) in
      shown_after "operationCountChart" Nothing gone = Nothing /\ shown_after "operationDurationChart" Nothing gone = Nothing)
  /\ forall s i op, OPERATIONS !! i = Some op ->
      let value suffix := match obj_get s (op ++ suffix) with Some e => e.(latestValue) | None => 0%Q end in
      tooltip_at (count_chart numeral_format s) i
      = Some (formatNumber numeral_format (value (js "requestCount")) false ++ " requests")
      /\ tooltip_at (duration_chart numeral_format asMilliseconds s) i
      = Some (formatDurationToMilliseconds numeral_format asMilliseconds (value (js "operationDuration")) ++ " ms").
Proof.
  intros Hm0 Hi0 Hs0 He. rewrite child_run_app. pose proof (changes_first es0 c0 He Hm0 Hi0 Hs0) as H0.
  destruct (child_run c0 es0) as [c' f0]. destruct H0 as (E0 & Hm & Hi & Hs). cbn [child_run]. cbn [child_step].
  assert (I : let '(c1, f1) := cs_ngAfterViewChecked numeral_format asMilliseconds c' count duration in
              chart_actions f1 = [] /\ child_inv c1 Nothing Nothing).
  { unfold cs_ngAfterViewChecked, cs_renderChart. rewrite Hi. cbn [selectedChildServiceStats]. rewrite Hs.
    destruct count, duration; (split; [done|]); constructor; try done; intros [?|?]; done. }
  destruct (cs_ngAfterViewChecked _ _ _ _ _) as [c1 f1]. destruct I as [E1 I].
  pose proof (child_run_inv es _ _ _ I) as I1. destruct (child_run c1 es) as [c f2].
  rewrite !chart_actions_app, E0, E1. cbn [app]. destruct I1 as [K1 K2 K3 _]. split; [done|]. split.
  - unfold cs_ngOnDestroy. rewrite chart_actions_app, chart_actions_EChart.
    assert (chart_actions (if asked then [EUnsubscribe ChildService; EUnsubscribe ChildServiceStats] else []) = []) as ->
      by (by destruct asked).
    rewrite app_nil_r. cbn zeta. rewrite !shown_app.
    pose proof (child_chart_one (count_chart numeral_format) c). pose proof (child_chart_one (duration_chart numeral_format asMilliseconds) c).
    rewrite <- K1, <- K2 in *. unfold cs_destroy, cs_charts in *.
    destruct (shown_after "operationCountChart" _ _) as [|o|], (shown_after "operationDurationChart" _ _) as [|o'|]; try done;
      first [assert (K := K3 ltac:(by left)) | assert (K := K3 ltac:(by right)) | assert (K := eq_refl (0, 0))];
      try (injection K as -> ->; done). by destruct (operationCountChart c), (operationDurationChart c).
  - intros s i op Ho. do 5 (destruct i as [|i]; [injection Ho as <-; done|]). done.
Qed.
End ViewFacts.

(** ** Examples *)

Definition sample_detail : ServiceDetailComponent :=
  {| createChildServiceModalContext := create_modal; serviceLinks := [js "/core/examples"];
     childServices := {| pg_links := [js "/core/examples/a/b"]; pg_next := None; pg_locked := false |};
     selectedServiceId := Some (js "/core/examples"); selectedChildServiceId := Some (js "a") |}.
Definition sample_child : ChildServiceDetailComponent :=
  {| cs_selectedServiceId := Some (js "/core/examples"); cs_selectedChildServiceId := Some (js "a/b");
     editChildServiceModalContext :=
       {| modal_name := "/core/examples/a";
          data := [(js "documentSelfLink", Some (js "/core/examples/a")); (js "method", Some (js "PUT"));
                   (js "body", Some (js "{}"))] |};
     deleteChildServiceModalContext := delete_modal; statsState := "expand"; selectedChildService := None;
     selectedChildServiceStats := None; operationCountChartCanvas := CanvasUndefined; operationCountChart := false;
     operationDurationChartCanvas := CanvasUndefined; operationDurationChart := false; cs_isViewInitialized := false |}.

Lemma opened_child_requested_witness :
  child_link sample_child = js "/core/examples/a/b"
  /\ @cs_getData "dev" sample_base sample_child
     = [EHttp ChildService [get_request "dev" "/core/examples/a/b"];
        EHttp ChildServiceStats [get_request "dev" "/core/examples/a/b/stats"]].
Proof.
  apply (@opened_child_requested lodash_ref "dev" sample_base sample_detail sample_child [] "core" [js "examples"]
    [js "a"; js "b"] 0); try reflexivity; try discriminate; try decide_done.
  intros x. rewrite !elem_of_cons.
  intros [->|[-> |Hx]]; [decide_done.. | by apply elem_of_nil in Hx].
Defined.

Lemma edit_sent_once_witness :
  @onEditChildService quotient_text "dev" sample_base sample_child
  = [EHttp EditChild [{| rq_method := PUT; rq_url := "/api/core/examples/a"; rq_body := Some (js "{}");
                         rq_headers := json_headers |}]]
  /\ @onEditChildService quotient_text "dev" sample_base (@on_edited plain_engine sample_child (Next no_document)).1 = [].
Proof.
  apply (@edit_sent_once plain_engine quotient_text "dev" sample_base sample_child "/core/examples/a" "{}" "PUT" no_document);
    try reflexivity; try discriminate. by right.
Defined.

Definition selected_c1 : ServiceDetailComponent :=
  {| createChildServiceModalContext := create_modal; serviceLinks := []; childServices := sample_pager;
     selectedServiceId := Some (js "/core/ex"); selectedChildServiceId := Some (js "c1") |}.

Lemma select_child_address_witness :
  (onSelectChildService selected_c1 "id__core_ex"
     ("/main/service/" ++ "id__core_ex" ++ "/" ++ "c1" ++ "?node=n") "c2").2
  = [EReplaceState ("/main/service/" ++ "id__core_ex" ++ "/" ++ "c2" ++ "?node=n")].
Proof.
  rewrite (select_child_address selected_c1 "/main/service/" "id__core_ex" "c1" "c2" "?node=n") by reflexivity.
  reflexivity.
Defined.

(** An old child id whose text occurs earlier in the path makes the address
    wrong: with the child "core" selected, selecting "x" renames the service. *)
Theorem select_child_wrong_address :
  (onSelectChildService
     {| createChildServiceModalContext := create_modal; serviceLinks := []; childServices := sample_pager;
        selectedServiceId := Some (js "/core/examples"); selectedChildServiceId := Some (js "core") |}
     "id__core_examples" "/main/service/id__core_examples/core" "x").2
  = [EReplaceState "/main/service/id__x_examples/core"].
Proof. reflexivity. Qed.

Definition sample_stats (n : Q) : ServiceStats :=
  {| stats_base := no_document; stats_kind := "";
     entries := [(js "PUTrequestCount",
       {| name := "PUTrequestCount"; latestValue := n; accumulatedValue := n; version := 1; lastUpdateMicrosUtc := 0; kind := "";
          unit_ := None; sourceTimeMicrosUtc := None; serviceReference := None; logHistogram := None; timeSeriesStats := None |})] |}.

Lemma child_charts_follow_stats_witness :
  let '(c, fs) := @child_run plain_engine quotient_text "dev" (fun q f => dec_Z (Qnum q)) (fun q => q) sample_child
    [ChildChanges sample_base None; ChildChecked false false; ChildStats (Next (sample_stats 3)); ChildChecked true true; ChildStats (Next (sample_stats 7))] in
  shown_after "operationCountChart" Nothing (chart_actions fs)
  = Shows (Some (count_chart (fun q f => dec_Z (Qnum q)) (sample_stats 7).(entries)))
  /\ tooltip_at (count_chart (fun q f => dec_Z (Qnum q)) (sample_stats 7).(entries)) 3 = Some (js "7 requests").
Proof.
  pose proof (@child_charts_follow_stats plain_engine quotient_text "dev" (fun q f => dec_Z (Qnum q)) (fun q => q) sample_child
    [ChildChanges sample_base None] false false true [ChildStats (Next (sample_stats 3)); ChildChecked true true; ChildStats (Next (sample_stats 7))]
    eq_refl eq_refl eq_refl eq_refl) as H.
  cbn [app] in H. destruct (child_run _ _ _ sample_child _) as [c fs] eqn:E. destruct H as ((H & _) & _ & Ht). split.
  - rewrite H. injection E as <- _. reflexivity.
  - destruct (Ht (sample_stats 7).(entries) 3 "PUT" eq_refl) as [-> _]. reflexivity.
Defined.

(** Only the last request for statistics is given up when the view is left: the
    answer to an earlier one makes charts that nothing destroys. *)
Lemma late_stats_make_charts (num : Q -> jsstr -> jsstr) (ms : Q -> Q) (c : ChildServiceDetailComponent) (s : ServiceStats) :
  c.(cs_isViewInitialized) = true -> c.(operationCountChartCanvas) = CanvasElement ->
  c.(operationDurationChartCanvas) = CanvasElement ->
  shown_after "operationCountChart" Nothing
    (chart_actions (cs_ngOnDestroy c true ++ (on_childServiceStats (E := plain_engine) num ms c (Next s)).2))
  = Shows (Some (count_chart num s.(entries))).
Proof.
  intros Hi C1 C2. cbn [on_childServiceStats]. unfold cs_renderChart.
  cbn [cs_with selectedChildServiceStats operationCountChartCanvas operationDurationChartCanvas]. rewrite C1, C2. cbn [isNull orb snd].
  unfold cs_ngOnDestroy, cs_destroy. rewrite !chart_actions_app, !chart_actions_EChart.
  cbn [cs_with cs_charts operationCountChart operationDurationChart fst snd chart_actions flat_map app].
  by destruct (operationCountChart c), (operationDurationChart c).
Qed.
