(* ===== verification/ProcessLog.v ===== *)
(** * process-log.component.ts, process-log-type.util.ts

    The type of a log item and the lists of items by type. *)

From S2P Require Import Prelude JsString JsUri Lodash Json StringUtil Interfaces BaseService Ui.

(** ** StringUtil.LOG_ITEM_TYPE_REGEX

    The expression is a sequence of character classes after the first
    bracketed number; letters are matched without regard to case. *)

Definition is_letter (u : N) (c : N) : bool := (c =? u)%N || (c =? u + 32)%N.
Definition is_type_code (c : N) : bool := is_letter 73 c || is_letter 87 c || is_letter 83 c.
Definition lit (u : N) (c : N) : bool := (c =? u)%N.
Definition upto (hi : N) (c : N) : bool := in_range 48 hi c.

(** What follows the type code: a closing bracket and a bracketed time stamp. *)
Definition stamp_classes : list (N -> bool) :=
  [lit 93; lit 91; is_digit; is_digit; is_digit; is_digit; lit 45; upto 49; is_digit; lit 45; upto 51; is_digit;
   is_letter 84; upto 50; is_digit; lit 58; upto 53; is_digit; lit 58; upto 53; is_digit; lit 46;
   is_digit; is_digit; is_digit; is_letter 90; lit 93].

Fixpoint match_classes (cs : list (N -> bool)) (s : jsstr) : bool :=
  match cs, s with
  | [], _ => true
  | p :: cs', c :: s' => p c && match_classes cs' s'
  | _ :: _, [] => false
  end.

(** A match at the start of the text, as its type code. *)
Definition match_log_type (s : jsstr) : option N :=
  match s with
  | c :: r =>
      if (c =? 91)%N then
        match (span is_digit r).2 with
        | b1 :: b2 :: code :: r' =>
            if (b1 =? 93)%N && (b2 =? 91)%N && is_type_code code && match_classes stamp_classes r'
            then Some code else None
        | _ => None
        end
      else None
  | [] => None
  end.

Fixpoint find_log_type (s : jsstr) : option N :=
  match match_log_type s with
  | Some c => Some c
  | None => match s with [] => None | _ :: s' => find_log_type s' end
  end.

(** [segments[0].match(/[IWS]/)[0]]: the only letters of a match are the code
    and the T and Z of the time stamp; without a capital code [match] gives
    [null] and the index throws. *)
Definition type_code (s : jsstr) : exec (option N) :=
  match find_log_type s with
  | None => Ret None
  | Some c => if is_upper c then Ret (Some c) else Throw TypeError
  end.

Definition getLogItemType (logItem : jsstr) : exec jsstr :=
  c <-! type_code logItem;;
  Ret (match c with
       | None => []
       | Some c => if (c =? 73)%N then js "INFO" else if (c =? 87)%N then js "WARNING"
                   else if (c =? 83)%N then js "SEVERE" else []
       end).

(** ** process-log-type.util.ts *)

Definition ProcessLogTypeUtil : list (jsstr * DisplayInfo) :=
  let info c i n := {| className := js c; iconClassName := js i; displayName := js n |} in
  [ (js "UNKNOWN", info "unknown" "" "Unknown");
    (js "INFO", info "info" "fa fa-info" "INFO");
    (js "WARNING", info "warning" "fa fa-exclamation-triangle" "WARNING");
    (js "SEVERE", info "severe" "fa fa-exclamation-circle" "SEVERE") ].

Definition getLogType (logType : jsstr) : DisplayInfo :=
  let unknown := {| className := "unknown"; iconClassName := []; displayName := "Unknown" |} in
  if truthy logType then default unknown (obj_get ProcessLogTypeUtil logType) else unknown.

(** ** ProcessLogComponent *)

Record ProcessLogComponent := {
  activeFilter : jsstr;
  log : option ProcessLog;
  infoLogItems : list jsstr;
  warningLogItems : list jsstr;
  severeLogItems : list jsstr
}.

Section Log.
Context {L : Lodash} {E : Engine}.
Context (BUILD_TYPE : jsstr).

Definition getLogItems (c : ProcessLogComponent) (filter : jsstr) : list jsstr :=
  match c.(log) with
  | None => []
  | Some l =>
      if filter === "all" then l.(items)
      else if filter === "info" then c.(infoLogItems)
      else if filter === "warning" then c.(warningLogItems)
      else if filter === "severe" then c.(severeLogItems)
      else []
  end.

Definition getFullLogLink (b : BaseService) : exec jsstr := getForwardingLink b URL.Log [].

Definition getLogItemTypeClass (logItem additionalClasses : jsstr) : exec jsstr :=
  t <-! getLogItemType logItem;; Ret ((getLogType t).(className) ++ " " ++ additionalClasses).

Definition getLogItemTypeIconClass (logItem : jsstr) : exec jsstr :=
  t <-! getLogItemType logItem;; Ret (getLogType t).(iconClassName).

Definition getLogTypeClass (logType additionalClasses : jsstr) : jsstr :=
  (getLogType logType).(className) ++ " " ++ additionalClasses.

Definition isPartialLog (c : ProcessLogComponent) : bool :=
  match c.(log) with
  | Some l => (Z.of_nat (length l.(items)) =? ODataUtil.DEFAULT_LOG_SIZE)%Z
  | None => false
  end.

Definition onFilterApplied (c : ProcessLogComponent) (filter : jsstr) : ProcessLogComponent :=
  {| activeFilter := filter; log := c.(log); infoLogItems := c.(infoLogItems);
     warningLogItems := c.(warningLogItems); severeLogItems := c.(severeLogItems) |}.

Definition log_getData (b : BaseService) (c : ProcessLogComponent) : result unit ProcessLogComponent :=
  ({| activeFilter := c.(activeFilter); log := c.(log); infoLogItems := []; warningLogItems := [];
      severeLogItems := [] |},
   call tt (getDocument BUILD_TYPE b URL.Log ("lineCount=" ++ dec_Z ODataUtil.DEFAULT_LOG_SIZE) true)).

(** One item is put in the list of its type. *)
Definition cache_item (c : ProcessLogComponent) (item t : jsstr) : ProcessLogComponent :=
  let push k l := if t === k then l ++ [item] else l in
  {| activeFilter := c.(activeFilter); log := c.(log);
     infoLogItems := push (js "INFO") c.(infoLogItems);
     warningLogItems := push (js "WARNING") c.(warningLogItems);
     severeLogItems := push (js "SEVERE") c.(severeLogItems) |}.

(** An exception stops the loop with what was cached so far. *)
Fixpoint cache_items (c : ProcessLogComponent) (items : list jsstr) : result unit ProcessLogComponent :=
  match items with
  | [] => (c, [])
  | i :: rest => match getLogItemType i with
                 | Ret t => cache_items (cache_item c i t) rest
                 | Throw e => (c, [EThrow e])
                 end
  end.

Definition on_log (c : ProcessLogComponent) (o : outcome ProcessLog) : result unit ProcessLogComponent :=
  match o with
  | Next l =>
      cache_items {| activeFilter := c.(activeFilter); log := Some l; infoLogItems := c.(infoLogItems);
                     warningLogItems := c.(warningLogItems); severeLogItems := c.(severeLogItems) |} l.(items)
  | Failed f => (c, [ENotify [error_note "Failed to retrieve logs: " f]])
  end.

(** ** Properties *)

(** Items whose type code, if any, is a capital letter. *)
Definition has_log_type (item : jsstr) : Prop := exists t, getLogItemType item = Ret t.
Definition of_type (t : jsstr) (item : jsstr) : bool :=
  match getLogItemType item with Ret t' => t' === t | Throw _ => false end.

Lemma cache_items_spec c its :
  Forall has_log_type its ->
  cache_items c its
  = ({| activeFilter := c.(activeFilter); log := c.(log);
        infoLogItems := c.(infoLogItems) ++ List.filter (of_type "INFO") its;
        warningLogItems := c.(warningLogItems) ++ List.filter (of_type "WARNING") its;
        severeLogItems := c.(severeLogItems) ++ List.filter (of_type "SEVERE") its |}, []).
Proof.
  intros H. revert c. induction H as [|i its [t Ht] Hits IH]; intros c; cbn [cache_items List.filter].
  - rewrite !app_nil_r. by destruct c.
  - assert (Hf : forall k, of_type k i = (t === k)) by (intros; unfold of_type; by rewrite Ht).
    rewrite Ht, IH, !Hf. unfold cache_item. cbn [activeFilter log infoLogItems warningLogItems severeLogItems].
    f_equal. f_equal; destruct (t === _); by rewrite <- ?app_assoc.
Qed.

(** A log read into a fresh view is split by type: each filter shows, in the
    order of the log, exactly the items of its type, and no item is under
    two filters. *)
Theorem log_split_by_type (b : BaseService) (c : ProcessLogComponent) (l : ProcessLog) :
  Forall has_log_type l.(items) ->
  let c' := (on_log (log_getData b c).1 (Next l)).1 in
  getLogItems c' "all" = l.(items)
  /\ getLogItems c' "info" = List.filter (of_type "INFO") l.(items)
  /\ getLogItems c' "warning" = List.filter (of_type "WARNING") l.(items)
  /\ getLogItems c' "severe" = List.filter (of_type "SEVERE") l.(items)
  /\ forall i, (of_type "INFO" i && of_type "WARNING" i = false)
       /\ (of_type "INFO" i && of_type "SEVERE" i = false) /\ (of_type "WARNING" i && of_type "SEVERE" i = false).
Proof.
  intros H. cbn [on_log log_getData fst]. rewrite cache_items_spec by done. cbn [fst app].
  split_and!; [reflexivity..|]. intros i. unfold of_type. destruct (getLogItemType i) as [t|]; [|done].
  repeat case_str; done.
Qed.

(** When a second request for the log is made before the first is answered (a
    node is selected while the view loads), both answers are cached: the
    filters show the items of both logs although the view shows the second. *)
Theorem two_answers_add_up (b : BaseService) (c : ProcessLogComponent) (l1 l2 : ProcessLog) :
  Forall has_log_type l1.(items) -> Forall has_log_type l2.(items) ->
  let c0 := (log_getData b (log_getData b c).1).1 in
  let c' := (on_log (on_log c0 (Next l1)).1 (Next l2)).1 in
  getLogItems c' "all" = l2.(items)
  /\ getLogItems c' "info" = List.filter (of_type "INFO") (l1.(items) ++ l2.(items)).
Proof.
  intros H1 H2. cbn [on_log log_getData fst]. rewrite cache_items_spec by done. cbn [fst].
  rewrite cache_items_spec by done. cbn [fst]. split; [reflexivity|]. rewrite List.filter_app. reflexivity.
Qed.
End Log.

(** ** Log lines *)

(** The start of a log line as the server writes it. *)
Definition log_line (number : jsstr) (code : N) (stamp rest : jsstr) : jsstr :=
  [91%N] ++ number ++ [93; 91; code]%N ++ stamp ++ rest.

Lemma match_classes_app cs s t : match_classes cs s = true -> match_classes cs (s ++ t) = true.
Proof.
  revert s. induction cs as [|p cs IH]; intros [|c s]; cbn; try done.
  rewrite !andb_true_iff. intros [H1 H2]. auto.
Qed.

(** A line that starts with a bracketed number, a bracketed type code and a
    bracketed time stamp has the type of its code; with a small letter for
    the code, which the expression accepts, reading its type throws. *)
Theorem log_line_type (number stamp rest : jsstr) (code : N) :
  Forall (fun c => is_digit c = true) number -> is_type_code code = true ->
  match_classes stamp_classes stamp = true ->
  getLogItemType (log_line number code stamp rest)
  = if is_upper code
    then Ret (if (code =? 73)%N then js "INFO" else if (code =? 87)%N then js "WARNING" else js "SEVERE")
    else Throw TypeError.
Proof.
  intros Hn Hc Hs. unfold getLogItemType, type_code.
  assert (Hm : find_log_type (log_line number code stamp rest) = Some code).
  { unfold log_line. cbn [app find_log_type match_log_type].
    rewrite N.eqb_refl, span_app by done. cbn [snd]. rewrite !N.eqb_refl, Hc, match_classes_app by done. done. }
  rewrite Hm. destruct (is_upper code) eqn:Eu; [|done]. cbn. f_equal.
  destruct (N.eqb_spec code 73); [done|]. destruct (N.eqb_spec code 87); [done|].
  destruct (N.eqb_spec code 83); [done|]. exfalso.
  unfold is_type_code, is_letter in Hc. unfold is_upper, in_range in Eu.
  rewrite !orb_true_iff, !N.eqb_eq in Hc. rewrite andb_true_iff, !N.leb_le in Eu. lia.
Qed.

Lemma log_line_type_witness :
  getLogItemType (log_line "7" 83 "][2016-07-15T20:02:39.123Z]" "[8000/core][Severe]") = Ret (js "SEVERE").
Proof.
  apply (log_line_type "7" "][2016-07-15T20:02:39.123Z]" "[8000/core][Severe]" 83);
    [decide_done | reflexivity | reflexivity].
Defined.

Definition sample_log (its : list jsstr) : ProcessLog := {| processLog_base := no_document; items := its |}.
Definition info_line : jsstr := "[1][I][2016-07-15T20:02:39.123Z][started]".
Definition empty_log_view : ProcessLogComponent :=
  {| activeFilter := "all"; log := None; infoLogItems := []; warningLogItems := []; severeLogItems := [] |}.

Lemma log_split_by_type_witness :
  let c' := (@on_log plain_engine (@log_getData "dev" new_BaseService empty_log_view).1
               (Next (sample_log [info_line; js "trace"]))).1 in
  getLogItems c' "all" = [info_line; js "trace"] /\ getLogItems c' "info" = [info_line]
  /\ getLogItems c' "warning" = [] /\ getLogItems c' "severe" = []
  /\ forall i, (of_type "INFO" i && of_type "WARNING" i = false)
       /\ (of_type "INFO" i && of_type "SEVERE" i = false) /\ (of_type "WARNING" i && of_type "SEVERE" i = false).
Proof.
  apply (@log_split_by_type plain_engine "dev" new_BaseService empty_log_view (sample_log [info_line; js "trace"])).
  forall_list; by eexists.
Defined.

Lemma two_answers_add_up_witness :
  let c0 := (@log_getData "dev" new_BaseService (@log_getData "dev" new_BaseService empty_log_view).1).1 in
  let c' := (@on_log plain_engine (@on_log plain_engine c0 (Next (sample_log [info_line]))).1
               (Next (sample_log [info_line]))).1 in
  getLogItems c' "all" = [info_line] /\ getLogItems c' "info" = [info_line; info_line].
Proof.
  apply (@two_answers_add_up plain_engine "dev" new_BaseService empty_log_view (sample_log [info_line])
           (sample_log [info_line])); forall_list; by eexists.
Defined.
