(* ===== verification/Dashboard.v ===== *)
(** * dashboard-grid.component.ts and dashboard-card.component.ts

    The data, colours and figures of the cards of the dashboard.  Chart.js
    draws; numeral and moment format. *)

From S2P Require Import Prelude JsString JsNumber JsUri Lodash Json Charts StringUtil Interfaces BaseService Ui ProcessLog.
From Stdlib Require Import Sorting.Permutation Sorting.Sorted.

(** ** Options of the cards *)

Record Filter := { f_name : jsstr; f_value : jsstr; f_current : bool }.
Inductive Color := OneColor (c : jsstr) | Colors (cs : list jsstr).
Record ChartOptions := {
  co_type : jsstr; co_color : Color; co_unit : jsstr; co_filters : option (list Filter)
}.
Record FilterData := {
  fd_data : list Q; fd_labels : list jsstr; fd_type : option jsstr; fd_options : option ChartOptions
}.

Definition FILTER_PER_HOUR : jsstr := "PerHour".
Definition FILTER_PER_DAY : jsstr := "PerDay".
Definition FILTER_LOG_ALL : jsstr := "All".

Definition system_filters : list Filter :=
  [ {| f_name := "Last Hour"; f_value := FILTER_PER_HOUR; f_current := true |};
    {| f_name := "Last Day"; f_value := FILTER_PER_DAY; f_current := false |} ].

Definition cardData : list (jsstr * ChartOptions) :=
  let line c u := {| co_type := "line"; co_color := OneColor (js c); co_unit := js u;
                     co_filters := Some system_filters |} in
  [ (js "cpuUsagePercent", line "#FFCA28" "percentage");
    (js "availableMemoryBytes", line "#29B6F6" "datasize");
    (js "availableDiskByte", line "#9CCC65" "datasize");
    (js "log", {| co_type := "bar"; co_color := Colors [js "#039BE5"; js "#FFB300"; js "#E53935"];
                  co_unit := "number";
                  co_filters := Some [{| f_name := "All"; f_value := FILTER_LOG_ALL; f_current := true |}] |}) ].

(** ** dashboard-grid.component.ts *)

Inductive grid_request := StatsRequest | LogRequest.

Record DashboardGridComponent := { stats : option ServiceStats; grid_log : option ProcessLog }.

(** The order of numeric keys; a key that is no number goes last. *)
Definition number_leb (x y : number) : bool :=
  match x, y with
  | _, NaN => true
  | NaN, _ => false
  | Inf n, Inf m => n || negb m
  | Inf n, Fin _ => n
  | Fin _, Inf m => negb m
  | Fin p, Fin q => Qle_bool p q
  end.

Fixpoint exec_map {A B} (f : A -> exec B) (l : list A) : exec (list B) :=
  match l with
  | [] => Ret []
  | x :: l' => y <-! f x;; ys <-! exec_map f l';; Ret (y :: ys)
  end.

Section Grid.
Context {L : Lodash} {E : Engine}.
Context (BUILD_TYPE : jsstr).
Context (moment_format : Q -> jsstr -> jsstr) (invalid_date : jsstr).

Definition sorted_keys (t : ServiceStatsTimeSeries) : list jsstr :=
  lo_sortBy (fun a b : jsstr => number_leb (JsNumber.to_number a) (JsNumber.to_number b)) (obj_keys t.(series_bins)).

Definition chart_label (filter : jsstr) (timestamp : jsstr) : jsstr :=
  match JsNumber.to_number timestamp with
  | Fin q => getTimeStamp moment_format (q * 1000)%Q (filter === FILTER_PER_HOUR)
  | _ => invalid_date
  end.

Definition getChartLabels (t : option ServiceStatsTimeSeries) (filter : jsstr) : list jsstr :=
  match t with
  | None => []
  | Some t => map (chart_label filter) (sorted_keys t)
  end.

Definition bin_avg (t : ServiceStatsTimeSeries) (key : jsstr) : exec (option jsval) :=
  match obj_get t.(series_bins) key with Some v => prop v "avg" | None => Throw TypeError end.

Definition getChartData (t : option ServiceStatsTimeSeries) : exec (list (option jsval)) :=
  match t with
  | None => Ret []
  | Some t => exec_map (bin_avg t) (sorted_keys t)
  end.

(** The series of an entry; an absent entry throws. *)
Definition series_of (s : ServiceStats) (key : jsstr) : exec (option ServiceStatsTimeSeries) :=
  match obj_get s.(entries) key with Some e => Ret e.(timeSeriesStats) | None => Throw TypeError end.

Definition getSystemChartData (g : DashboardGridComponent) (id : jsstr)
    : exec (list (jsstr * (list (option jsval) * list jsstr))) :=
  match g.(stats) with
  | None => Ret []
  | Some s =>
      perHour <-! series_of s (id ++ FILTER_PER_HOUR);;
      hourData <-! getChartData perHour;;
      perDay <-! series_of s (id ++ FILTER_PER_DAY);;
      dayData <-! getChartData perDay;;
      Ret [(FILTER_PER_HOUR, (hourData, getChartLabels perHour FILTER_PER_HOUR));
           (FILTER_PER_DAY, (dayData, getChartLabels perDay FILTER_PER_DAY))]
  end.

(** The counts of the log items by type. *)
Definition count_item (n : nat * nat * nat) (c : option N) : nat * nat * nat :=
  let '(i, w, e) := n in
  match c with
  | Some c => if (c =? 73)%N then (S i, w, e) else if (c =? 87)%N then (i, S w, e)
              else if (c =? 83)%N then (i, w, S e) else n
  | None => n
  end.

Fixpoint count_items (its : list jsstr) (n : nat * nat * nat) : exec (nat * nat * nat) :=
  match its with
  | [] => Ret n
  | i :: rest => c <-! type_code i;; count_items rest (count_item n c)
  end.

Definition getLogChartData (g : DashboardGridComponent) : exec (list (jsstr * (list nat * list jsstr))) :=
  match g.(grid_log) with
  | None => Ret []
  | Some l =>
      n <-! count_items l.(items) (0, 0, 0);;
      let '(i, w, e) := n in
      Ret [(FILTER_LOG_ALL, ([i; w; e], [js "Info"; js "Warning"; js "Error"]))]
  end.

Definition grid_getChartOptions (id : jsstr) : exec ChartOptions :=
  match obj_get cardData id with Some o => Ret o | None => Throw TypeError end.

Definition dashboard_getData (b : BaseService) : list (effect grid_request) :=
  match getDocumentStats BUILD_TYPE b URL.CoreManagement true with
  | Throw e => [EThrow e]
  | Ret r => EHttp StatsRequest [r] :: call LogRequest (getDocument BUILD_TYPE b URL.Log [] true)
  end.

Definition on_dashboardStats (g : DashboardGridComponent) (o : outcome ServiceStats)
    : result grid_request DashboardGridComponent :=
  match o with
  | Next s => ({| stats := Some s; grid_log := g.(grid_log) |}, [])
  | Failed f => (g, [ENotify [error_note "Failed to retrieve logs: " f]])
  end.

Definition on_dashboardLog (g : DashboardGridComponent) (o : outcome ProcessLog)
    : result grid_request DashboardGridComponent :=
  match o with
  | Next l => ({| stats := g.(stats); grid_log := Some l |}, [])
  | Failed f => (g, [ENotify [error_note "Failed to retrieve logs: " f]])
  end.
End Grid.

(** ** dashboard-card.component.ts *)

(** [convertHexToRgb]. *)
Definition hex_digit_value (c : N) : option N :=
  if is_digit c then Some (c - 48)%N else if in_range 97 102 c then Some (c - 87)%N
  else if in_range 65 70 c then Some (c - 55)%N else None.

Definition is_hex (c : N) : bool := match hex_digit_value c with Some _ => true | None => false end.
Definition hex_val (c : N) : N := default 0%N (hex_digit_value c).

Definition drop_hash (s : jsstr) : jsstr := match strip_prefix "#" s with Some r => r | None => s end.

(** The shorthand form is doubled; any other text stays. *)
Definition expand_shorthand (s : jsstr) : jsstr :=
  match drop_hash s with
  | [r; g; b] => if is_hex r && is_hex g && is_hex b then [r; r; g; g; b; b] else s
  | _ => s
  end.

Definition convertHexToRgb (colorInHex : jsstr) : jsstr :=
  match drop_hash (expand_shorthand colorInHex) with
  | [r1; r2; g1; g2; b1; b2] =>
      if forallb is_hex [r1; r2; g1; g2; b1; b2]
      then dec_N (16 * hex_val r1 + hex_val r2) ++ ", " ++ dec_N (16 * hex_val g1 + hex_val g2)
           ++ ", " ++ dec_N (16 * hex_val b1 + hex_val b2)
      else []
  | _ => []
  end.

Record DashboardCardComponent := {
  cardId : jsstr;
  chartData : list (jsstr * FilterData);
  chartOptions : option ChartOptions;
  currentFilter : option Filter;
  canvas : Canvas;
  chart : bool;                      (* a chart was made *)
  isViewInitialized : bool
}.

(** [_.min] and [_.max], [None] for no data. *)
Class Extremes := { lo_min : list Q -> option Q; lo_max : list Q -> option Q }.

Section Card.
Context {L : Lodash} {X : Extremes}.
Context (numeral_format : Q -> jsstr -> jsstr).

Definition formatData (d : Q) (u : jsstr) : jsstr :=
  if u === "percentage" then formatPercentage numeral_format d
  else if u === "datasize" then formatDataSize numeral_format d
  else formatNumber numeral_format d false.

(** The data of the current filter; [currentFilter] or its data missing throws. *)
Definition current_data (c : DashboardCardComponent) : exec FilterData :=
  match c.(currentFilter) with
  | None => Throw TypeError
  | Some f => match obj_get c.(chartData) f.(f_value) with Some d => Ret d | None => Throw TypeError end
  end.

Definition chart_type (d : FilterData) (o : ChartOptions) : jsstr := or_str d.(fd_type) o.(co_type).

Definition getRollUpStat (c : DashboardCardComponent) : exec jsstr :=
  match c.(chartData), c.(chartOptions) with
  | _ :: _, Some co =>
      d <-! current_data c;;
      let o := default co d.(fd_options) in
      Ret (if chart_type d o === "line" then formatData (default 0%Q (lo_last d.(fd_data))) o.(co_unit)
           else if chart_type d o === "bar" then formatData (fold_left Qplus d.(fd_data) 0%Q) o.(co_unit)
           else [])
  | _, _ => Ret []
  end.

Definition rgba (alpha : jsstr) (c : jsstr) : jsstr := "rgba(" ++ convertHexToRgb c ++ ", " ++ alpha ++ ")".

Definition no_grid_lines : jsstr * jsval := (js "gridLines", JObj [(js "display", JBool false)]).

(** Half of the least and one and a half of the greatest value; without data
    both are NaN, which is left out. *)
Definition y_ticks (data : list Q) : list (jsstr * jsval) :=
  match lo_min data, lo_max data with
  | Some mi, Some ma => [(js "min", JNum (mi * (1 # 2))); (js "max", JNum (ma * (3 # 2)))]
  | _, _ => []
  end.

Definition getLineChartOptions (data : list Q) (labels : list jsstr) (o : ChartOptions) : exec Config :=
  match o.(co_color) with
  | OneColor c =>
      Ret {| cf_type := "line";
             cf_data := {| cd_labels := labels;
               cd_datasets := [{| ds_data := data;
                 ds_style := [ (js "fill", JBool true); (js "lineTension", JNum (1 # 10));
                   (js "backgroundColor", JStr (rgba ".25" c)); (js "borderColor", JStr (rgba "1" c));
                   (js "borderJoinStyle", JStr "round"); (js "borderCapStyle", JStr "butt"); (js "borderWidth", JInt 4);
                   (js "pointRadius", JInt 1); (js "pointHitDetectionRadius", JInt 10); (js "pointBackgroundColor", JStr "#fff");
                   (js "pointBorderWidth", JInt 1); (js "pointHoverRadius", JInt 4); (js "pointHoverBackgroundColor", JStr "#fff");
                   (js "pointHoverBorderColor", JStr (rgba "1" c)); (js "pointHoverBorderWidth", JInt 3) ] |}] |};
             cf_options := [(js "scales", JObj
               [ (js "xAxes", JArr [JObj [(js "ticks", JObj [(js "maxTicksLimit", JInt 5); (js "maxRotation", JInt 0)]);
                                          no_grid_lines]]);
                 (js "yAxes", JArr [JObj [(js "display", JBool false);
                                          (js "ticks", JObj ((js "beginAtZero", JBool false) :: y_ticks data))]]) ])];
             cf_label := value_label (fun v => formatData v o.(co_unit)) |}
  | Colors _ => Throw TypeError
  end.

Definition getBarChartOptions (data : list Q) (labels : list jsstr) (o : ChartOptions) : Config :=
  let cs := match o.(co_color) with OneColor c => [c] | Colors cs => cs end in
  {| cf_type := "bar";
     cf_data := {| cd_labels := labels;
       cd_datasets := [{| ds_data := data;
         ds_style := [ (js "backgroundColor", JArr (map (fun c => JStr (rgba ".25" c)) cs));
                       (js "borderColor", JArr (map (fun c => JStr (rgba "1" c)) cs)); (js "borderWidth", JInt 1) ] |}] |};
     cf_options := [(js "scales", JObj [(js "xAxes", JArr [JObj [no_grid_lines]]); (js "yAxes", JArr [JObj [no_grid_lines]])])];
     cf_label := value_label (fun v => formatData v o.(co_unit)) |}.

(** [Ret None] is the empty description. *)
Definition card_getChartOptions (c : DashboardCardComponent) : exec (option Config) :=
  match c.(chartData), c.(chartOptions) with
  | _ :: _, Some co =>
      d <-! current_data c;;
      let o := default co d.(fd_options) in
      if chart_type d o === "line" then ch <-! getLineChartOptions d.(fd_data) d.(fd_labels) o;; Ret (Some ch)
      else if chart_type d o === "bar" then Ret (Some (getBarChartOptions d.(fd_data) d.(fd_labels) o))
      else Ret None
  | _, _ => Ret None
  end.

(** The state, what is asked of Chart.js, and the exception that ends a handler. *)
Definition card_result : Type := DashboardCardComponent * list chart_action * option jserr.

Definition card_with (c : DashboardCardComponent) (d : list (jsstr * FilterData)) (f : option Filter) (ch : bool)
    : DashboardCardComponent :=
  {| cardId := c.(cardId); chartData := d; chartOptions := c.(chartOptions); currentFilter := f;
     canvas := c.(canvas); chart := ch; isViewInitialized := c.(isViewInitialized) |}.

Definition card_destroy (c : DashboardCardComponent) : list chart_action :=
  destroy_if c.(chart) c.(cardId).

(** A chart is made only once the canvas is there, after the old one is
    destroyed. *)
Definition card_renderChart (c : DashboardCardComponent) : card_result :=
  match c.(canvas) with
  | CanvasElement =>
      match card_getChartOptions c with
      | Ret o => (card_with c c.(chartData) c.(currentFilter) true, card_destroy c ++ [NewChart c.(cardId) c.(canvas) o], None)
      | Throw e => (c, card_destroy c, Some e)
      end
  | _ => (c, [], None)
  end.

(** The filter kept, or the current one of the options, or the first. *)
Definition pick_filter (o : ChartOptions) (current : option Filter) : option Filter :=
  match o.(co_filters) with
  | Some (f0 :: fs) =>
      match current, lo_find (f0 :: fs) f_current with
      | Some f, _ => Some f
      | None, Some f => Some f
      | None, None => Some f0
      end
  | _ => current
  end.

(** [same] is the answer of [isEqual] on the old and the new data. *)
Definition dc_ngOnChanges (c : DashboardCardComponent) (ch : option (list (jsstr * FilterData))) (same : bool)
    : card_result :=
  match ch with
  | Some (x :: d) =>
      if same then (c, [], None)
      else match c.(chartOptions) with
           | None => (card_with c (x :: d) c.(currentFilter) c.(chart), [], Some TypeError)
           | Some o => card_renderChart (card_with c (x :: d) (pick_filter o c.(currentFilter)) c.(chart))
           end
  | _ => (c, [], None)
  end.

(** [found]: the page has an element with the id of the card. *)
Definition ngAfterViewChecked (c : DashboardCardComponent) (found : bool) : card_result :=
  match c.(currentFilter) with
  | Some _ =>
      if truthy c.(cardId) && negb c.(isViewInitialized) then
        card_renderChart
          {| cardId := c.(cardId); chartData := c.(chartData); chartOptions := c.(chartOptions);
             currentFilter := c.(currentFilter); canvas := getElementById found; chart := c.(chart); isViewInitialized := true |}
      else (c, [], None)
  | None => (c, [], None)
  end.

Definition card_ngOnDestroy (c : DashboardCardComponent) : list chart_action := card_destroy c.

Definition onFilteredClicked (c : DashboardCardComponent) (value : jsstr) : card_result :=
  match c.(chartOptions) with
  | None => (c, [], Some TypeError)
  | Some o =>
      card_renderChart
        (card_with c c.(chartData) (lo_find (default [] o.(co_filters)) (fun f => f.(f_value) === value)) c.(chart))
  end.
End Card.

(** ** Properties *)

Section DashboardFacts.
Context {L : Lodash} {E : Engine} {X : Extremes}.

Lemma count_items_spec its i w e :
  Forall has_log_type its ->
  count_items its (i, w, e)
  = Ret (i + length (List.filter (of_type "INFO") its), w + length (List.filter (of_type "WARNING") its),
         e + length (List.filter (of_type "SEVERE") its)).
Proof.
  intros H. revert i w e. induction H as [|x its [t Ht] Hits IH]; intros i w e; cbn [count_items List.filter].
  { by rewrite !Nat.add_0_r. }
  assert (Hf : forall k, of_type k x = (t === k)) by (intros; unfold of_type; by rewrite Ht).
  rewrite !Hf. unfold getLogItemType in Ht. destruct (type_code x) as [c|]; [|done]. cbn in Ht |- *.
  injection Ht as <-. unfold count_item. destruct c as [c|]; [|rewrite IH; by eval_str].
  destruct (c =? 73)%N; [rewrite IH; eval_str; cbn [length]; by rewrite <- plus_n_Sm|].
  destruct (c =? 87)%N; [rewrite IH; eval_str; cbn [length]; by rewrite <- plus_n_Sm|].
  destruct (c =? 83)%N; [rewrite IH; eval_str; cbn [length]; by rewrite <- plus_n_Sm|]. rewrite IH. by eval_str.
Qed.

(** The bars of the log card count exactly the items the log view shows under
    its info, warning and severe filters for the same log. *)
Theorem log_card_counts (g : DashboardGridComponent) (l : ProcessLog) (b : BaseService) (v : ProcessLogComponent)
    (BUILD_TYPE : jsstr) :
  g.(grid_log) = Some l -> Forall has_log_type l.(items) ->
  let v' := (on_log (log_getData BUILD_TYPE b v).1 (Next l)).1 in
  getLogChartData g
  = Ret [(FILTER_LOG_ALL, (map (fun f => length (getLogItems v' f)) [js "info"; js "warning"; js "severe"],
                           [js "Info"; js "Warning"; js "Error"]))].
Proof.
  intros Hg H. unfold getLogChartData. rewrite Hg, count_items_spec by done. cbn [on_log log_getData fst].
  rewrite cache_items_spec by done. reflexivity.
Qed.

Lemma number_leb_total : total_order number_leb.
Proof.
  split.
  - intros [|n|p] [|m|q]; cbn; auto; try (destruct n; auto; fail); try (destruct m; auto; fail).
    + destruct n, m; auto.
    + destruct (Qlt_le_dec p q) as [H|H]; [left; apply Qle_bool_iff, Qlt_le_weak, H|right; by apply Qle_bool_iff].
  - intros [|n|p] [|m|q] [|k|r]; cbn; try done; try (destruct n; try done); try (destruct m; try done);
      try (destruct k; try done).
    rewrite !Qle_bool_iff. apply Qle_trans.
Qed.

Lemma exec_map_spec {A B} (f : A -> exec B) l r :
  exec_map f l = Ret r -> Forall2 (fun x y => f x = Ret y) l r.
Proof.
  revert r. induction l as [|x l IH]; intros r; cbn; [by intros [= <-]|].
  destruct (f x) as [y|] eqn:Ef; [|done]. cbn. destruct (exec_map f l) as [ys|]; [|done].
  intros [= <-]. constructor; auto.
Qed.

(** The points of a line chart and their labels belong to the same bins, one
    per bin, in the order of time. *)
Theorem chart_points_aligned (t : ServiceStatsTimeSeries) (filter : jsstr) (points : list (option jsval))
    (moment_format : Q -> jsstr -> jsstr) (invalid_date : jsstr) :
  getChartData (Some t) = Ret points ->
  exists keys, Permutation (obj_keys t.(series_bins)) keys
    /\ StronglySorted (fun a b => number_leb (JsNumber.to_number a) (JsNumber.to_number b) = true) keys
    /\ Forall2 (fun k p => bin_avg t k = Ret p) keys points
    /\ getChartLabels moment_format invalid_date (Some t) filter = map (chart_label moment_format invalid_date filter) keys.
Proof.
  intros H. exists (sorted_keys t). split_and!; [apply lo_sortBy_perm| |by apply exec_map_spec|done].
  apply lo_sortBy_sorted. destruct number_leb_total as [H1 H2]. split; intros; eauto.
Qed.

(** Hexadecimal text of a byte. *)
Definition hex_text (d : N) : N := if (d <? 10)%N then (48 + d)%N else (55 + d)%N.

Lemma hex_text_value d : (d < 16)%N -> hex_digit_value (hex_text d) = Some d.
Proof.
  intros H. unfold hex_text. destruct (N.ltb_spec d 10).
  - unfold hex_digit_value. replace (is_digit (48 + d)) with true; [f_equal; lia|].
    symmetry. unfold is_digit. apply andb_true_iff. rewrite !N.leb_le. lia.
  - unfold hex_digit_value. replace (is_digit (55 + d)) with false.
    2: { symmetry. unfold is_digit. apply andb_false_iff. right. apply N.leb_gt. lia. }
    unfold in_range. replace ((97 <=? 55 + d) && (55 + d <=? 102))%N with false.
    2: { symmetry. apply andb_false_iff. left. apply N.leb_gt. lia. }
    replace ((65 <=? 55 + d) && (55 + d <=? 70))%N with true.
    2: { symmetry. apply andb_true_iff. rewrite !N.leb_le. lia. }
    f_equal. lia.
Qed.

Definition byte_text (n : N) : jsstr := [hex_text (n / 16); hex_text (n mod 16)].

Lemma hex_text_facts d :
  (d < 16)%N -> is_hex (hex_text d) = true /\ hex_val (hex_text d) = d /\ hex_text d <> 35%N.
Proof.
  intros H. unfold is_hex, hex_val. rewrite hex_text_value by done. split_and!; try done.
  unfold hex_text. destruct (d <? 10)%N; lia.
Qed.

Lemma drop_hash_text c s : c <> 35%N -> drop_hash (c :: s) = c :: s /\ drop_hash (35%N :: c :: s) = c :: s.
Proof.
  intros H. unfold drop_hash. change (js "#") with [35%N]. cbn [strip_prefix].
  by rewrite (proj2 (N.eqb_neq 35 c)) by congruence.
Qed.

(** The colour text of a red, green and blue value, with or without a hash,
    converts to the three values, and a shorthand text converts to what its
    full form converts to. *)
Theorem hex_to_rgb (r g b : N) (hash : bool) :
  (r < 256)%N -> (g < 256)%N -> (b < 256)%N ->
  let pre := if hash then [35%N] else [] in
  convertHexToRgb (pre ++ byte_text r ++ byte_text g ++ byte_text b)
  = dec_N r ++ ", " ++ dec_N g ++ ", " ++ dec_N b
  /\ (forall x y z, (x < 16)%N -> (y < 16)%N -> (z < 16)%N ->
       convertHexToRgb (pre ++ map hex_text [x; y; z]) = convertHexToRgb (pre ++ map hex_text [x; x; y; y; z; z])).
Proof.
  intros Hr Hg Hb pre.
  assert (Hfull : forall d1 d2 d3 d4 d5 d6, Forall (fun d => (d < 16)%N) [d1; d2; d3; d4; d5; d6] ->
    forall h : bool, convertHexToRgb ((if h then [35%N] else []) ++ map hex_text [d1; d2; d3; d4; d5; d6])
      = dec_N (16 * d1 + d2) ++ ", " ++ dec_N (16 * d3 + d4) ++ ", " ++ dec_N (16 * d5 + d6)).
  { intros d1 d2 d3 d4 d5 d6 Hd h. rewrite !list.Forall_cons in Hd. destruct Hd as (H1 & H2 & H3 & H4 & H5 & H6 & _).
    destruct (hex_text_facts d1 H1) as (X1 & V1 & N1), (hex_text_facts d2 H2) as (X2 & V2 & _),
      (hex_text_facts d3 H3) as (X3 & V3 & _), (hex_text_facts d4 H4) as (X4 & V4 & _),
      (hex_text_facts d5 H5) as (X5 & V5 & _), (hex_text_facts d6 H6) as (X6 & V6 & _).
    unfold convertHexToRgb, expand_shorthand. cbn [map].
    destruct (drop_hash_text _ [hex_text d2; hex_text d3; hex_text d4; hex_text d5; hex_text d6] N1) as [E1 E2].
    destruct h; cbn [app]; rewrite ?E1, ?E2; cbn [forallb]; rewrite ?E1, ?E2; cbn [forallb];
      by rewrite X1, X2, X3, X4, X5, X6, V1, V2, V3, V4, V5, V6. }
  split.
  - unfold pre, byte_text.
    change ([hex_text (r / 16); hex_text (r mod 16)] ++ [hex_text (g / 16); hex_text (g mod 16)]
            ++ [hex_text (b / 16); hex_text (b mod 16)])%N
      with (map hex_text [r / 16; r mod 16; g / 16; g mod 16; b / 16; b mod 16])%N.
    rewrite Hfull by (rewrite !list.Forall_cons; split_and!; try constructor; div_lia).
    by rewrite <- !N.div_mod' .
  - intros x y z Hx Hy Hz. destruct (hex_text_facts x Hx) as (X1 & _ & N1), (hex_text_facts y Hy) as (X2 & _ & _),
      (hex_text_facts z Hz) as (X3 & _ & _).
    assert (He : expand_shorthand (pre ++ map hex_text [x; y; z]) = map hex_text [x; x; y; y; z; z]).
    { unfold expand_shorthand, pre. cbn [map].
      destruct (drop_hash_text _ [hex_text y; hex_text z] N1) as [E1 E2].
      destruct hash; cbn [app]; rewrite ?E1, ?E2; by rewrite X1, X2, X3. }
    transitivity (convertHexToRgb ([] ++ map hex_text [x; x; y; y; z; z])).
    { unfold convertHexToRgb at 1. rewrite He. cbn [app]. unfold convertHexToRgb.
      assert (He' : expand_shorthand (map hex_text [x; x; y; y; z; z]) = map hex_text [x; x; y; y; z; z]).
      { unfold expand_shorthand. cbn [map].
        by destruct (drop_hash_text _ [hex_text x; hex_text y; hex_text y; hex_text z; hex_text z] N1) as [-> _]. }
      by rewrite He'. }
    rewrite (Hfull x x y y z z) with (h := false) by (by rewrite !list.Forall_cons).
    unfold pre. by rewrite Hfull by (by rewrite !list.Forall_cons).
Qed.

(** *** Charts of a card *)

(** What happens to a card while it is shown; a new value of an input is assigned
    before [ngOnChanges]. *)
Inductive card_event :=
  | CardChanges (ch : option (list (jsstr * FilterData))) (same : bool)
  | CardChecked (found : bool)
  | CardFilter (value : jsstr).

Context (numeral_format : Q -> jsstr -> jsstr).

Definition card_input (c : DashboardCardComponent) (ch : option (list (jsstr * FilterData))) (same : bool)
    : DashboardCardComponent :=
  match ch with
  | Some d => if same then c else card_with c d c.(currentFilter) c.(chart)
  | None => c
  end.

Definition card_step (c : DashboardCardComponent) (e : card_event) : card_result :=
  match e with
  | CardChanges ch same => dc_ngOnChanges numeral_format (card_input c ch same) ch same
  | CardChecked found => ngAfterViewChecked numeral_format c found
  | CardFilter value => onFilteredClicked numeral_format c value
  end.

(** The card after the events, all that was asked of Chart.js, and whether a
    handler threw. *)
Fixpoint card_run (c : DashboardCardComponent) (es : list card_event) : DashboardCardComponent * list chart_action * bool :=
  match es with
  | [] => (c, [], false)
  | e :: es' =>
      let '(c1, acts, x) := card_step c e in
      let '(c2, rest, y) := card_run c1 es' in
      (c2, acts ++ rest, bool_decide (x <> None) || y)
  end.

(** What its canvas shows: never two charts; the card knows of the chart; and,
    as long as no handler threw, the chart of its data, unless its data was
    taken away. *)
Record card_inv (c : DashboardCardComponent) (threw : bool) (s : shown) : Prop := {
  ci_one : s <> Clash;
  ci_knows : s <> Nothing -> c.(chart) = true;
  ci_shows : threw = false -> c.(canvas) = CanvasElement -> c.(chartData) <> [] ->
             exists o, card_getChartOptions numeral_format c = Ret o /\ s = Shows o
}.

Lemma render_inv c threw s c' acts x :
  s <> Clash -> (s <> Nothing -> c.(chart) = true) ->
  (c.(canvas) <> CanvasElement -> card_inv c threw s) ->
  card_renderChart numeral_format c = (c', acts, x) ->
  c'.(cardId) = c.(cardId)
  /\ card_inv c' (threw || bool_decide (x <> None)) (shown_after c.(cardId) s acts).
Proof.
  intros Hs Hk Hn. unfold card_renderChart. destruct (canvas c) eqn:Ec.
  1,2: intros [= <- <- <-]; rewrite bool_decide_false, orb_false_r by (by intros H; apply H); auto.
  destruct (card_getChartOptions numeral_format c) as [o|e] eqn:Eo; intros [= <- <- <-]; (split; [done|]).
  - unfold card_destroy. rewrite shown_renewed by done. constructor; cbn; try done.
    intros _ _ Hd. exists o. split; [|done]. by destruct c.
  - unfold card_destroy. rewrite shown_destroyed by done. rewrite bool_decide_true by done. rewrite orb_true_r. by constructor.
Qed.

Lemma card_step_inv c e threw s c' acts x :
  card_inv c threw s -> card_step c e = (c', acts, x) ->
  c'.(cardId) = c.(cardId) /\ card_inv c' (threw || bool_decide (x <> None)) (shown_after c.(cardId) s acts).
Proof.
  intros I. pose proof I as [Hs Hk Hv].
  assert (Hq : (c, @nil chart_action, @None jserr) = (c', acts, x) ->
    cardId c' = cardId c /\ card_inv c' (threw || bool_decide (x <> None)) (shown_after (cardId c) s acts)).
  { intros [= <- <- <-]. by rewrite bool_decide_false, orb_false_r by (by intros H; apply H). }
  destruct e as [[[|y d]|] same|found|value]; cbn [card_step dc_ngOnChanges card_input]; [| | by apply Hq| |].
  - destruct same; [by apply Hq|]. intros [= <- <- <-].
    rewrite bool_decide_false, orb_false_r by (by intros H; apply H). split; [done|]. by constructor.
  - destruct same; [by apply Hq|]. cbn [card_with chartOptions currentFilter chart].
    destruct (chartOptions c) as [o|]; [|intros [= <- <- <-]; rewrite bool_decide_true, orb_true_r by done; by constructor].
    intros Hr. apply (render_inv _ threw s) in Hr; [done..|]. intros Hc. by constructor.
  - unfold ngAfterViewChecked. destruct (currentFilter c) as [f|] eqn:Ef; [|by apply Hq].
    destruct (_ && _) eqn:Ei; [|by apply Hq]. intros Hr. apply (render_inv _ threw s) in Hr; [done..|].
    intros Hc. constructor; try done.
  - unfold onFilteredClicked. destruct (chartOptions c) as [o|]; [|intros [= <- <- <-]; rewrite bool_decide_true, orb_true_r by done; by constructor].
    intros Hr. apply (render_inv _ threw s) in Hr; [done..|]. intros Hc. by constructor.
Qed.

Lemma card_run_inv es : forall c threw s c' acts x,
  card_inv c threw s -> card_run c es = (c', acts, x) ->
  c'.(cardId) = c.(cardId) /\ card_inv c' (threw || x) (shown_after c.(cardId) s acts).
Proof.
  induction es as [|e es IH]; intros c threw s c' acts x I; cbn [card_run].
  { intros [= <- <- <-]. by rewrite orb_false_r. }
  destruct (card_step c e) as [[c1 a1] x1] eqn:E1, (card_run c1 es) as [[c2 a2] x2] eqn:E2. intros [= <- <- <-].
  destruct (card_step_inv _ _ _ _ _ _ _ I E1) as [Hi I1]. destruct (IH _ _ _ _ _ _ I1 E2) as [Hi2 I2].
  rewrite Hi in Hi2, I2. rewrite shown_app, orb_assoc. done.
Qed.

(** C23: Whatever happens to a card, errors included, its canvas never has two
    charts; as long as no handler threw, a card with data whose canvas is there
    shows the chart of its current data, filter and options; leaving the page
    destroys the last chart. *)
Theorem one_live_chart (c : DashboardCardComponent) (es : list card_event) :
  c.(chart) = false -> c.(canvas) = CanvasUndefined ->
  let '(c', acts, threw) := card_run c es in
  let s := shown_after c.(cardId) Nothing acts in
  s <> Clash
  /\ (threw = false -> c'.(canvas) = CanvasElement -> c'.(chartData) <> [] ->
      exists o, card_getChartOptions numeral_format c' = Ret o /\ s = Shows o)
  /\ shown_after c.(cardId) Nothing (acts ++ card_ngOnDestroy c') = Nothing.
Proof.
  intros Hc Hv. destruct (card_run c es) as [[c' acts] threw] eqn:Er.
  apply (card_run_inv es c false Nothing) in Er as [Hi [I1 I2 I3]]; [|constructor; [done|done|congruence]].
  split_and!; [done|done|]. rewrite shown_app. unfold card_ngOnDestroy, card_destroy. rewrite Hi. by apply shown_destroyed.
Qed.
End DashboardFacts.

Definition sample_card : DashboardCardComponent :=
  {| cardId := "log"; chartData := []; chartOptions := obj_get cardData "log"; currentFilter := None;
     canvas := CanvasUndefined; chart := false; isViewInitialized := false |}.
Definition log_card_data : list (jsstr * FilterData) :=
  [(FILTER_LOG_ALL, {| fd_data := [1%Q]; fd_labels := [js "Info"]; fd_type := None; fd_options := None |})].

Definition extremes_ref : Extremes :=
  let pick f l := match l with [] => None | q :: l' => Some (fold_left f l' q) end in
  {| lo_min := pick (fun a b => if Qle_bool a b then a else b);
     lo_max := pick (fun a b => if Qle_bool a b then b else a) |}.

Lemma one_live_chart_witness :
  let '(c', acts, threw) := @card_run lodash_ref extremes_ref (fun _ f => f) sample_card
     [CardChanges (Some log_card_data) false; CardChecked true; CardFilter "All"] in
  threw = false /\ exists o, shown_after "log" Nothing acts = Shows (Some o) /\ tooltip_at o 0 = Some (js "0,0").
Proof.
  pose proof (@one_live_chart lodash_ref extremes_ref (fun _ f => f) sample_card
    [CardChanges (Some log_card_data) false; CardChecked true; CardFilter "All"] eq_refl eq_refl) as H.
  destruct (card_run _ _ _) as [[c' acts] threw] eqn:E. vm_compute in E. injection E as <- <- <-.
  destruct H as (_ & H & _). split; [reflexivity|].
  destruct H as (o & Ho & Hs); [reflexivity|reflexivity|discriminate|].
  injection Ho as <-. eexists. split; [exact Hs|reflexivity].
Defined.

Lemma hex_to_rgb_witness :
  convertHexToRgb "#FFCA28" = js "255, 202, 40"
  /\ (forall x y z, (x < 16)%N -> (y < 16)%N -> (z < 16)%N ->
       convertHexToRgb ([35%N] ++ map hex_text [x; y; z]) = convertHexToRgb ([35%N] ++ map hex_text [x; x; y; y; z; z])).
Proof. apply (hex_to_rgb 255 202 40 true); reflexivity. Defined.

Definition sample_series : ServiceStatsTimeSeries :=
  {| series_bins := [(js "2000", JObj [(js "avg", JInt 5)]); (js "900", JObj [(js "avg", JInt 7)])] |}.

Lemma chart_points_aligned_witness :
  exists keys, Permutation (obj_keys sample_series.(series_bins)) keys
    /\ StronglySorted (fun a b => number_leb (JsNumber.to_number a) (JsNumber.to_number b) = true) keys
    /\ Forall2 (fun k p => bin_avg sample_series k = Ret p) keys [Some (JInt 7); Some (JInt 5)]
    /\ @getChartLabels lodash_ref (fun _ f => f) [] (Some sample_series) FILTER_PER_DAY
       = map (chart_label (fun _ f => f) [] FILTER_PER_DAY) keys.
Proof.
  apply (@chart_points_aligned lodash_ref sample_series FILTER_PER_DAY [Some (JInt 7); Some (JInt 5)]
    (fun _ f => f) []). reflexivity.
Defined.

Lemma log_card_counts_witness :
  let v' := (@on_log plain_engine (@log_getData "dev" new_BaseService empty_log_view).1
               (Next (sample_log [info_line; js "trace"]))).1 in
  getLogChartData {| stats := None; grid_log := Some (sample_log [info_line; js "trace"]) |}
  = Ret [(FILTER_LOG_ALL, (map (fun f => length (getLogItems v' f)) [js "info"; js "warning"; js "severe"],
                           [js "Info"; js "Warning"; js "Error"]))].
Proof.
  apply (@log_card_counts plain_engine {| stats := None; grid_log := Some (sample_log [info_line; js "trace"]) |}
    (sample_log [info_line; js "trace"]) new_BaseService empty_log_view "dev"); [reflexivity|].
  forall_list; by eexists.
Defined.
