(* ===== verification/OperationTracing.v ===== *)
(** * operation-tracing.component.ts and operation-tracing-chart.component.ts

    Recording and querying traced operations, and the data of their time
    line.  d3 draws. *)

From S2P Require Import Prelude JsString JsNumber JsUri Lodash Json StringUtil Interfaces BaseService Ui QueryClauses Query.
From Stdlib Require Import Lqa Qfield.

(** ** OperationTracingComponent *)

Inductive trace_sub := Management | ManagementPatch | TraceQuery.

Record TraceResult := {
  tr_documentLinks : option (list jsstr);
  tr_documents : list (jsstr * SerializedOperation);
  tr_documentCount : option Z
}.

Record OperationTracingComponent := {
  isRecordingOn : bool;
  traceClauses : list Z;
  trace_tracker : Z;
  traceMethodsOption : jsstr;
  pathOption : jsstr;
  refererOption : jsstr;
  traceTask : option jsval;
  traceResult : option (option TraceResult)     (* the task, and its results if it has any *)
}.

Definition new_tracing : OperationTracingComponent :=
  {| isRecordingOn := false; traceClauses := []; trace_tracker := 0; traceMethodsOption := "GET"; pathOption := [];
     refererOption := []; traceTask := None; traceResult := None |}.

Section Tracing.
Context {L : Lodash} {E : Engine} {NT : NumText}.
Context (BUILD_TYPE : jsstr).

Definition t_with (t : OperationTracingComponent) (rec : bool) (cl : list Z) (n : Z) (task : option jsval)
    (res : option (option TraceResult)) : OperationTracingComponent :=
  {| isRecordingOn := rec; traceClauses := cl; trace_tracker := n; traceMethodsOption := t.(traceMethodsOption);
     pathOption := t.(pathOption); refererOption := t.(refererOption); traceTask := task; traceResult := res |}.
Definition t_with_options (t : OperationTracingComponent) (m p r : jsstr) : OperationTracingComponent :=
  {| isRecordingOn := t.(isRecordingOn); traceClauses := t.(traceClauses); trace_tracker := t.(trace_tracker);
     traceMethodsOption := m; pathOption := p; refererOption := r; traceTask := t.(traceTask);
     traceResult := t.(traceResult) |}.

Definition getTraceResultCount (t : OperationTracingComponent) : Z :=
  match t.(traceResult) with
  | Some (Some r) =>
      match r.(tr_documentCount) with
      | Some n => n
      | None => match r.(tr_documentLinks) with Some ls => Z.of_nat (length ls) | None => 0%Z end
      end
  | _ => 0%Z
  end.

Definition trace_request (on : bool) : jsval :=
  JObj [(js "enable", JStr (if on then js "START" else js "STOP"));
        (js "kind", JStr "com:vmware:xenon:services:common:ServiceHostManagementService:ConfigureOperationTracingRequest")].

Definition onToggleTrace (b : BaseService) (t : OperationTracingComponent) : result trace_sub OperationTracingComponent :=
  let on := negb t.(isRecordingOn) in
  (t_with t on t.(traceClauses) t.(trace_tracker) t.(traceTask) t.(traceResult),
   call ManagementPatch (patch BUILD_TYPE b URL.CoreManagement (BValue (trace_request on)) true)).

Definition onTraceMethodOptionChanged (t : OperationTracingComponent) (v : jsstr) : OperationTracingComponent :=
  t_with_options t v t.(pathOption) t.(refererOption).
Definition onTracePathOptionChanged (t : OperationTracingComponent) (v : jsstr) : OperationTracingComponent :=
  t_with_options t t.(traceMethodsOption) v t.(refererOption).
Definition onTraceRefererOptionChanged (t : OperationTracingComponent) (v : jsstr) : OperationTracingComponent :=
  t_with_options t t.(traceMethodsOption) t.(pathOption) v.

Definition trace_onAddClause (t : OperationTracingComponent) : OperationTracingComponent :=
  let i := (t.(trace_tracker) + 1)%Z in
  t_with t t.(isRecordingOn) (t.(traceClauses) ++ [i]) i t.(traceTask) t.(traceResult).

Definition trace_onDeleteClause (t : OperationTracingComponent) (i : Z) : OperationTracingComponent :=
  let cl := lo_remove t.(traceClauses) (fun j => (i =? j)%Z) in
  t_with t t.(isRecordingOn) cl (match cl with [] => 0%Z | _ => t.(trace_tracker) end) t.(traceTask) t.(traceResult).

Definition onClearTrace (t : OperationTracingComponent) : OperationTracingComponent :=
  t_with t t.(isRecordingOn) [] 0 t.(traceTask) None.

Definition trace_term (propertyName matchValue matchType : jsstr) : jsval :=
  JObj [(js "occurance", JStr "MUST_OCCUR");
        (js "term", JObj [(js "propertyName", JStr propertyName); (js "matchValue", JStr matchValue);
                          (js "matchType", JStr matchType)])].

Definition trace_buildInteractiveQueryTask (t : OperationTracingComponent) (cs : list OperationTracingClauseComponent)
    : jsval :=
  JObj [(js "taskInfo", JObj [(js "isDirect", JBool true)]);
        (js "querySpec",
         JObj [(js "options", JArr [JStr "EXPAND_CONTENT"]);
               (js "query",
                JObj [(js "booleanClauses",
                       JArr ([trace_term "referer" t.(refererOption) "WILDCARD";
                              trace_term "action" t.(traceMethodsOption) "TERM";
                              trace_term "path" t.(pathOption) "WILDCARD"] ++ map tracing_getClause cs));
                      (js "occurance", JStr "MUST_OCCUR")])]);
        (js "indexLink", JStr "/core/operation-index")].

(** The task is an object with properties, so it is never empty; only the
    request can throw. *)
Definition onTrace (b : BaseService) (t : OperationTracingComponent) (cs : list OperationTracingClauseComponent)
    : result trace_sub OperationTracingComponent :=
  let task := trace_buildInteractiveQueryTask t cs in
  (t_with t t.(isRecordingOn) t.(traceClauses) t.(trace_tracker) (Some task) None,
   match post BUILD_TYPE b URL.QueryLocal (BValue task) true with
   | Ret r => [EHttp TraceQuery [r]]
   | Throw e => [notify "ERROR" ("Invalid query: " ++ error_string e)]
   end).

Definition on_trace (t : OperationTracingComponent) (o : outcome (option TraceResult))
    : result trace_sub OperationTracingComponent :=
  match o with
  | Next r => (t_with t t.(isRecordingOn) t.(traceClauses) t.(trace_tracker) t.(traceTask) (Some r), [])
  | Failed f => (t, [ENotify [error_note "Failed to query: " f]])
  end.

Definition trace_getData (b : BaseService) : list (effect trace_sub) :=
  call Management (getDocument BUILD_TYPE b URL.CoreManagement [] true).

(** The level of the management document. *)
Definition on_management (t : OperationTracingComponent) (o : outcome (option jsstr))
    : result trace_sub OperationTracingComponent :=
  match o with
  | Next level =>
      (t_with t (bool_decide (level = Some (js "ALL"))) t.(traceClauses) t.(trace_tracker) t.(traceTask)
         t.(traceResult), [])
  | Failed f => (t, [ENotify [error_note "Failed to retrieve operation tracing recording status: " f]])
  end.

(** The subscription to the selected node is not among the ones given up. *)
Definition trace_ngOnDestroy (asked patched queried : bool) : list (effect trace_sub) :=
  (if asked then [EUnsubscribe Management] else []) ++ (if patched then [EUnsubscribe ManagementPatch] else [])
  ++ (if queried then [EUnsubscribe TraceQuery] else []).
End Tracing.

(** ** OperationTracingChartComponent *)

Definition number_ltb (x y : number) : bool :=
  match x, y with
  | NaN, _ | _, NaN => false
  | Inf n, Inf m => n && negb m
  | Inf n, Fin _ => n
  | Fin _, Inf m => negb m
  | Fin p, Fin q => negb (Qle_bool q p)
  end.
Definition is_zero (x : number) : bool := match x with Fin q => Qeq_bool q 0 | _ => false end.

Definition range_step (r : number * number) (timestamp : number) : number * number :=
  let start := if is_zero r.1 then timestamp else r.1 in
  let end_ := if is_zero r.2 then timestamp else r.2 in
  if number_ltb end_ timestamp then (start, timestamp)
  else if number_ltb timestamp start then (timestamp, end_)
  else (start, end_).

Definition getDataTimeRange (documentLinks : list jsstr) : number * number :=
  fold_left range_step (map JsNumber.to_number documentLinks) (Fin 0, Fin 0).

Record TimelineEvent (D : Type) := { date : D; event : jsstr; object : SerializedOperation }.
Arguments date {D} _.
Arguments event {D} _.
Arguments object {D} _.
Record Timeline (D : Type) := { timeline_name : jsstr; timeline_data : list (TimelineEvent D) }.
Arguments timeline_name {D} _.
Arguments timeline_data {D} _.

Section Chart.
(** Dates, and [moment(+key / 1000).toDate()]. *)
Context {D : Type} (date_of : jsstr -> D).

Definition event_of (key : jsstr) (document : SerializedOperation) : TimelineEvent D :=
  {| date := date_of key; event := document.(action); object := document |}.

(** The event is pushed to the time line of its path, a new one if need be. *)
Fixpoint add_event (ts : list (Timeline D)) (nm : jsstr) (e : TimelineEvent D) : list (Timeline D) :=
  match ts with
  | [] => [{| timeline_name := nm; timeline_data := [e] |}]
  | t :: ts' =>
      if t.(timeline_name) === nm
      then {| timeline_name := t.(timeline_name); timeline_data := t.(timeline_data) ++ [e] |} :: ts'
      else t :: add_event ts' nm e
  end.

Definition transformData (documents : list (jsstr * SerializedOperation)) : list (Timeline D) :=
  fold_left (fun ts kd => add_event ts kd.2.(path) (event_of kd.1 kd.2)) documents [].

Definition countNames (ts : list (Timeline D)) : nat :=
  length (List.filter (fun t => truthy t.(timeline_name)) ts).

(** The range of a group of operations, with the operations at its ends. *)
Context (valueOf : D -> Q).

Record GroupRange := {
  g_start : Q; g_startOperation : option (TimelineEvent D);
  g_end : Q; g_endOperation : option (TimelineEvent D)
}.

Definition group_step (r : GroupRange) (o : TimelineEvent D) : GroupRange :=
  let timestamp := valueOf o.(date) in
  let '(s, so) := if Qeq_bool r.(g_start) 0 then (timestamp, Some o) else (r.(g_start), r.(g_startOperation)) in
  let '(e, eo) := if Qeq_bool r.(g_end) 0 then (timestamp, Some o) else (r.(g_end), r.(g_endOperation)) in
  if negb (Qle_bool timestamp e)
  then {| g_start := s; g_startOperation := so; g_end := timestamp; g_endOperation := Some o |}
  else if negb (Qle_bool s timestamp)
  then {| g_start := timestamp; g_startOperation := Some o; g_end := e; g_endOperation := eo |}
  else {| g_start := s; g_startOperation := so; g_end := e; g_endOperation := eo |}.

Definition getGroupOperationsTimeRange (operations : list (TimelineEvent D)) : GroupRange :=
  fold_left group_step operations
    {| g_start := 0; g_startOperation := None; g_end := 0; g_endOperation := None |}.

(** The position in percent, [None] when it is not a finite number. *)
Definition left_position (r : GroupRange) (o : TimelineEvent D) : option Q :=
  if Qeq_bool (r.(g_end) - r.(g_start)) 0 then None
  else Some ((valueOf o.(date) - r.(g_start)) / (r.(g_end) - r.(g_start)) * 100 - (3 # 2))%Q.

(** The modal of a clicked event: a group or a single operation. *)
Record DetailModal := {
  dm_name : jsstr; dm_operations : list (TimelineEvent D); dm_operation : option (TimelineEvent D);
  dm_selected : option (TimelineEvent D); dm_range : option GroupRange
}.

Definition eventClick (g : list (TimelineEvent D) + TimelineEvent D) : DetailModal :=
  match g with
  | inl es =>
      let r := getGroupOperationsTimeRange es in
      {| dm_name := "Group of " ++ dec_N (N.of_nat (length es)) ++ " operations"; dm_operations := es;
         dm_operation := None; dm_selected := r.(g_startOperation); dm_range := Some r |}
  | inr e =>
      {| dm_name := "Operation ID: " ++ dec_Z e.(object).(op_id); dm_operations := []; dm_operation := Some e;
         dm_selected := None; dm_range := None |}
  end.
End Chart.

(** ** operation-tracing-chart-detail.component.ts *)

Section ChartDetail.
Context {NT : NumText}.
(** [moment(time).format(pattern)]. *)
Context {Date : Type} (moment_format : Date -> jsstr -> jsstr).

Definition detail_getTimeStamp (time : Date) : jsstr := moment_format time "M/D/YY hh:mm:ss.SSS A".

(** The values are JSON already, so that [stringify] does not throw. *)
Definition getJSONString (value : jsval) : jsstr := stringify_gap [32%N; 32%N] [] value.

Definition isNullOrUndefined (value : option jsval) : bool :=
  match value with None | Some JNull => true | Some _ => false end.
End ChartDetail.

(** ** Properties *)

Section TimelineFacts.
Context {D : Type} (date_of : jsstr -> D).
Implicit Types (ts : list (Timeline D)).

(** The documents of one path, as events. *)
Definition events_of (docs : list (jsstr * SerializedOperation)) (p : jsstr) : list (TimelineEvent D) :=
  map (fun kd => event_of date_of kd.1 kd.2) (List.filter (fun kd => kd.2.(path) === p) docs).

Definition grouped (docs : list (jsstr * SerializedOperation)) ts : Prop :=
  NoDup (map timeline_name ts)
  /\ (forall p, p ∈ map timeline_name ts <-> p ∈ map (fun kd => kd.2.(path)) docs)
  /\ Forall (fun t => t.(timeline_data) = events_of docs t.(timeline_name)) ts.

Lemma add_event_names ts nm e :
  map timeline_name (add_event ts nm e)
  = if includes (map timeline_name ts) nm then map timeline_name ts else map timeline_name ts ++ [nm].
Proof.
  induction ts as [|t ts IH]; [done|]. cbn [add_event map]. destruct (str_eqb (timeline_name t) nm) eqn:E.
  - apply str_eqb_eq in E as <-. cbn. rewrite (proj2 (includes_spec _ _)) by set_solver. done.
  - cbn. rewrite IH. apply str_eqb_neq in E.
    assert (Hi : includes (timeline_name t :: map timeline_name ts) nm = includes (map timeline_name ts) nm).
    { unfold includes. apply bool_decide_ext. set_solver. }
    rewrite Hi. by destruct (includes _ nm).
Qed.

Lemma add_event_data ts nm e t :
  NoDup (map timeline_name ts) -> t ∈ add_event ts nm e ->
  (t ∈ ts /\ t.(timeline_name) <> nm)
  \/ (t.(timeline_name) = nm
      /\ ((exists t0, t0 ∈ ts /\ t0.(timeline_name) = nm /\ t.(timeline_data) = t0.(timeline_data) ++ [e])
          \/ ((nm ∉ map timeline_name ts) /\ t.(timeline_data) = [e]))).
Proof.
  induction ts as [|t1 ts IH]; intros Hnd Hin; cbn [add_event] in Hin.
  { apply list_elem_of_singleton in Hin as ->. right. split; [done|]. right. split; [|done]. by intros ?%elem_of_nil. }
  cbn [map] in Hnd. apply list.NoDup_cons in Hnd as [Hn Hnd].
  destruct (str_eqb (timeline_name t1) nm) eqn:E.
  - apply str_eqb_eq in E. apply elem_of_cons in Hin as [->|Hin]; cbn.
    + right. split; [done|]. left. exists t1. split_and!; [set_solver|done|done].
    + left. split; [set_solver|]. rewrite <- E. intros Heq. apply Hn. rewrite <- Heq.
      apply list_elem_of_In, in_map, list_elem_of_In, Hin.
  - apply str_eqb_neq in E. apply elem_of_cons in Hin as [->|Hin]; [left; split; [set_solver|done]|].
    destruct (IH Hnd Hin) as [[H1 H2]|(H1 & [(t0 & H2 & H3)|[H2 H3]])].
    + left. split; [set_solver|done].
    + right. split; [done|]. left. exists t0. split; [set_solver|done].
    + right. split; [done|]. right. split; [|done]. cbn. set_solver.
Qed.

Lemma events_of_snoc docs kd p :
  events_of (docs ++ [kd]) p
  = events_of docs p ++ (if kd.2.(path) === p then [event_of date_of kd.1 kd.2] else []).
Proof.
  unfold events_of. rewrite List.filter_app, map_app. f_equal. cbn. by destruct (str_eqb (path kd.2) p).
Qed.

Lemma grouped_step docs ts kd :
  grouped docs ts -> grouped (docs ++ [kd]) (add_event ts kd.2.(path) (event_of date_of kd.1 kd.2)).
Proof.
  intros (Hnd & Hnames & Hdata). split; [|split].
  - rewrite add_event_names. destruct (includes _ _) eqn:E; [done|].
    apply list.NoDup_app. split_and!; [done| |apply NoDup_singleton].
    intros x Hx ->%list_elem_of_singleton. apply includes_spec in Hx. congruence.
  - intros p. rewrite add_event_names, map_app, elem_of_app, <- Hnames. cbn.
    destruct (includes _ (path kd.2)) eqn:E.
    + apply includes_spec in E. set_solver.
    + set_solver.
  - apply list.Forall_forall. intros t Ht. rewrite list.Forall_forall in Hdata.
    apply add_event_data in Ht; [|done]. rewrite events_of_snoc.
    destruct Ht as [[Ht Hne]|(<- & [(t0 & Ht0 & Hn0 & ->)|[Hn ->]])].
    + rewrite (proj2 (str_eqb_neq _ _)) by congruence. rewrite app_nil_r. by apply Hdata.
    + rewrite str_eqb_refl. f_equal. rewrite <- Hn0. by apply Hdata.
    + rewrite str_eqb_refl. rewrite <- (app_nil_l [_]) at 1. f_equal. symmetry.
      unfold events_of. rewrite filter_none; [done|]. apply list.Forall_forall. intros kd' Hkd'.
      apply str_eqb_neq. intros Heq. apply Hn, Hnames. rewrite <- Heq.
      apply list_elem_of_In, (in_map (fun kd => kd.2.(path))), list_elem_of_In, Hkd'.
Qed.

Lemma transformData_grouped (docs : list (jsstr * SerializedOperation)) : grouped docs (transformData date_of docs).
Proof.
  unfold transformData. rewrite <- (rev_involutive docs). induction (rev docs) as [|kd l IH]; cbn [rev].
  - split_and!; [constructor | done | constructor].
  - rewrite fold_left_app. cbn. by apply grouped_step.
Qed.

(** C21: The time lines of the trace chart are the paths of the traced operations,
    each once, and a time line has exactly the operations of its path, in the
    order of the result. *)
Theorem timelines_by_path (docs : list (jsstr * SerializedOperation)) :
  grouped docs (transformData date_of docs).
Proof. apply transformData_grouped. Qed.
End TimelineFacts.

Section RangeFacts.
Context {D : Type} (valueOf : D -> Q).
Implicit Types (o : TimelineEvent D) (r : GroupRange (D := D)).
Open Scope Q_scope.

(** A range that spans the operations seen. *)
Definition spans (seen : list (TimelineEvent D)) r : Prop :=
  (exists so, g_startOperation r = Some so /\ so ∈ seen /\ valueOf so.(date) == g_start r)
  /\ (exists eo, g_endOperation r = Some eo /\ eo ∈ seen /\ valueOf eo.(date) == g_end r)
  /\ 0 < g_start r /\ Forall (fun o => g_start r <= valueOf o.(date) /\ valueOf o.(date) <= g_end r) seen.

Lemma Qle_bool_false x y : Qle_bool x y = false <-> y < x.
Proof.
  split; intros H.
  - apply Qnot_le_lt. intros Hle. apply Qle_bool_iff in Hle. congruence.
  - destruct (Qle_bool x y) eqn:E; [|done]. apply Qle_bool_iff in E. lra.
Qed.

Lemma spans_end_pos seen r : spans seen r -> 0 < g_end r.
Proof.
  intros ((so & _ & Hin & Hso) & _ & Hpos & Hall). rewrite list.Forall_forall in Hall.
  apply Hall in Hin. lra.
Qed.

Lemma group_step_spans seen r o :
  spans seen r -> 0 < valueOf o.(date) -> spans (seen ++ [o]) (group_step valueOf r o).
Proof.
  intros Hs Hpos. pose proof (spans_end_pos _ _ Hs) as He. destruct Hs as ((so & Hso & Hsi & Hsv) & (eo & Heo & Hei & Hev) & Hp & Hall).
  assert (Hnz : forall x, 0 < x -> Qeq_bool x 0 = false).
  { intros x Hx. destruct (Qeq_bool x 0) eqn:E; [|done]. apply Qeq_bool_iff in E. lra. }
  unfold group_step. rewrite (Hnz _ Hp), (Hnz _ He). rewrite list.Forall_forall in Hall.
  destruct (Qle_bool (valueOf (date o)) (g_end r)) eqn:E1; cbn [negb].
  - apply Qle_bool_iff in E1. destruct (Qle_bool (g_start r) (valueOf (date o))) eqn:E2; cbn [negb].
    + apply Qle_bool_iff in E2. split_and!; cbn; [exists so; set_solver | exists eo; set_solver | done |].
      apply Forall_app. split; [by apply list.Forall_forall|repeat constructor; done].
    + apply Qle_bool_false in E2. split_and!; cbn; [exists o; set_solver | exists eo; set_solver | done |].
      apply Forall_app. split; [|repeat constructor; lra]. apply list.Forall_forall. intros x Hx. apply Hall in Hx. lra.
  - apply Qle_bool_false in E1. split_and!; cbn; [exists so; set_solver | exists o; set_solver | done |].
    apply Forall_app. split; [|repeat constructor; try lra]; [|].
    + apply list.Forall_forall. intros x Hx. apply Hall in Hx. lra.
    + apply Hall in Hsi. lra.
Qed.

Lemma group_first o :
  0 < valueOf o.(date) ->
  spans [o] (group_step valueOf {| g_start := 0; g_startOperation := None; g_end := 0; g_endOperation := None |} o).
Proof.
  intros Hpos. unfold group_step. cbn [g_start g_end]. change (Qeq_bool 0 0) with true. cbv iota.
  rewrite (proj2 (Qle_bool_iff (valueOf (date o)) (valueOf (date o)))) by lra. cbn [negb].
  split_and!; cbn; try done; try (exists o; set_solver). repeat constructor; lra.
Qed.

Lemma group_range_spans os :
  os <> [] -> Forall (fun o => 0 < valueOf o.(date)) os -> spans os (getGroupOperationsTimeRange valueOf os).
Proof.
  unfold getGroupOperationsTimeRange. intros Hne Hpos. rewrite <- (rev_involutive os) in *.
  apply Forall_rev in Hpos. rewrite rev_involutive in Hpos.
  induction (rev os) as [|o l IH]; [done|]. apply list.Forall_cons in Hpos as [Ho Hl]. cbn [rev].
  rewrite fold_left_app. cbn [fold_left]. destruct l as [|o' l]; [by apply group_first|].
  apply group_step_spans; [|done]. apply IH; [|done]. cbn. by destruct (rev l).
Qed.

(** In the modal of a group of operations, the time range starts at the earliest
    and ends at the latest operation, the earliest one is selected, and every
    operation lies between the ends of the bar, moved left by the size of the
    dot; without a position (all operations at one time) the text is no
    number. *)
Theorem group_modal_range (os : list (TimelineEvent D)) :
  os <> [] -> Forall (fun o => 0 < valueOf o.(date)) os ->
  let m := eventClick valueOf (inl os) in
  exists r first, dm_range m = Some r /\ dm_selected m = Some first /\ first ∈ os
    /\ valueOf first.(date) == g_start r
    /\ Forall (fun o => g_start r <= valueOf o.(date) /\ valueOf o.(date) <= g_end r) os
    /\ forall o, o ∈ os ->
         match left_position valueOf r o with
         | Some p => - (3 # 2) <= p /\ p <= 100 - (3 # 2)
         | None => forall o', o' ∈ os -> valueOf o'.(date) == valueOf o.(date)
         end.
Proof.
  intros Hne Hpos m. destruct (group_range_spans os Hne Hpos) as ((so & Hso & Hsi & Hsv) & _ & _ & Hall).
  exists (getGroupOperationsTimeRange valueOf os), so. split_and!; try done.
  intros o Ho. rewrite list.Forall_forall in Hall. pose proof (Hall o Ho) as Hb. set (r := getGroupOperationsTimeRange valueOf os) in *.
  unfold left_position. destruct (Qeq_bool (g_end r - g_start r) 0) eqn:E.
  - apply Qeq_bool_iff in E. intros o' Ho'. apply Hall in Ho'. lra.
  - apply Qeq_bool_neq in E. assert (Hd : 0 < g_end r - g_start r) by (destruct (Qlt_le_dec 0 (g_end r - g_start r)); [done|]; lra).
    assert (Hq : 0 <= (valueOf (date o) - g_start r) / (g_end r - g_start r)
                 /\ (valueOf (date o) - g_start r) / (g_end r - g_start r) <= 1).
    { split; [apply Qle_shift_div_l; lra | apply Qle_shift_div_r; lra]. }
    lra.
Qed.
End RangeFacts.

Definition sample_op (i : Z) (p : jsstr) : SerializedOperation :=
  {| operation_base := no_document; action := "GET"; op_host := "h"; op_port := 8000; path := p; op_id := i;
     referer := []; jsonBody := []; op_statusCode := 200; op_options := []; query := None; contextId := None;
     transactionId := None; userInfo := None |}.
Definition sample_event (t : Z) : TimelineEvent Q := {| date := inject_Z t; event := "GET"; object := sample_op t "/a" |}.

Lemma group_modal_range_witness :
  let m := eventClick (fun t => t) (inl [sample_event 7; sample_event 5]) in
  exists r first, dm_range m = Some r /\ dm_selected m = Some first /\ first ∈ [sample_event 7; sample_event 5]
    /\ (first.(date) == g_start r)%Q
    /\ Forall (fun o => g_start r <= o.(date) /\ o.(date) <= g_end r)%Q [sample_event 7; sample_event 5]
    /\ forall o, o ∈ [sample_event 7; sample_event 5] ->
         match left_position (fun t => t) r o with
         | Some p => - (3 # 2) <= p /\ p <= 100 - (3 # 2)
         | None => forall o', o' ∈ [sample_event 7; sample_event 5] -> o'.(date) == o.(date)
         end%Q.
Proof.
  apply (group_modal_range (fun t => t) [sample_event 7; sample_event 5]); [discriminate|].
  forall_list; reflexivity.
Defined.
