(* ===== verification/TracingChart.v ===== *)
(** * operation-tracing-chart.component.ts: the chart

    What the component gives to the time line chart: its time lines, its
    window, the labels, the popovers and the colours; and when it draws.  d3
    draws, moment computes with dates. *)

From S2P Require Import Prelude JsString JsNumber Lodash Json Interfaces OperationTracing.
From Stdlib Require Import Lqa Qround.

(** ** Dates *)

(** [new Date(n).valueOf()]: whole milliseconds, [None] for an invalid date. *)
Definition max_time : Z := 8640000000000000.
Definition time_clip (n : number) : option Z :=
  match n with
  | Fin q => if Qle_bool (- inject_Z max_time) q && Qle_bool q (inject_Z max_time)
             then Some (if Qle_bool 0 q then Qfloor q else Qceiling q) else None
  | _ => None
  end.
(** [n / 1000]. *)
Definition per_thousand (n : number) : number := match n with Fin q => Fin (q / 1000)%Q | _ => n end.

(** moment: [moment(n).toDate()], [moment(d).add(k, 'seconds').toDate()] and the
    texts of dates. *)
Class Moment := {
  Date : Type;
  toDate : number -> Date;
  add_seconds : Z -> Date -> Date;
  date_format : Date -> jsstr -> jsstr;
  date_valueOf : Date -> option Z;
  toDate_valueOf n : date_valueOf (toDate n) = time_clip n;
  add_seconds_valueOf k d z : date_valueOf d = Some z -> (Z.abs (z + 1000 * k) <= max_time)%Z ->
    date_valueOf (add_seconds k d) = Some (z + 1000 * k)%Z
}.

(** The parts of a date in local time. *)
Record LocalTime := { getMilliseconds : N; getSeconds : N; getMinutes : N; getHours : N }.

(** ** The component *)

Record OperationTracingChartComponent := {
  tc_canvas : bool;                                  (* the view is there *)
  tc_traceResult : option (option TraceResult)
}.

Section TracingChart.
Context {M : Moment}.

(** A format is used for the ticks that satisfy its condition and none before. *)
Definition tickFormat : list (jsstr * (LocalTime -> bool)) :=
  let nonzero n := negb (n =? 0)%N in
  [ (js ".%L", fun d => nonzero d.(getMilliseconds)); (js ":%S", fun d => nonzero d.(getSeconds));
    (js "%I:%M", fun d => nonzero d.(getMinutes)); (js "%I %p", fun d => nonzero d.(getHours)); (js "%m/%d", fun _ => true) ].

Definition colors : list jsstr :=
  [js "#42a5f5"; js "#29b6f6"; js "#26c6da"; js "#26a69a"; js "#66bb6a"; js "#9ccc65"; js "#d4e157"; js "#ffee58";
   js "#ffca28"; js "#ffa726"; js "#ff7043"; js "#8d6e63"; js "#ef5350"; js "#ec407a"; js "#ab47bc"; js "#7e57c2"; js "#5c6bc0"].
Definition eventLineColor (i : nat) : option jsstr := colors !! (i mod length colors).

(** Literals of the popover, with an apostrophe for each quotation mark. *)
Definition html (s : string) : jsstr := map (fun c => if (c =? 39)%N then 34%N else c) (js s).
Definition indent (n : nat) : jsstr := 10%N :: repeat 32%N n.

(** A row of the form: a label and a content. *)
Definition form_row (label content : jsstr) : jsstr :=
  html "<div class='form-group row'>" ++ indent 32 ++ html "<label class='col-sm-4 col-form-label'>" ++ label ++ "</label>"
  ++ indent 32 ++ html "<div class='col-sm-8'>" ++ indent 36 ++ content ++ indent 32 ++ "</div>" ++ indent 28 ++ "</div>".
Definition static (v : jsstr) : jsstr := html "<p class='form-control-static'>" ++ v ++ "</p>".

Definition eventPopover (d : list (TimelineEvent Date) + TimelineEvent Date) : jsstr :=
  match d with
  | inl events => "Group of " ++ dec_N (N.of_nat (length events)) ++ " operations"
  | inr d =>
      let o := d.(object) in
      html "<form class='form-timeline-popover'>"
      ++ join (indent 28)
           [ form_row "ID" (static (dec_Z o.(op_id)));
             form_row "Method" (static d.(event));
             form_row "Status" (static (dec_Z o.(op_statusCode)));
             form_row "Referer" (static o.(referer));
             form_row "Options" (html "<div class='tags-container'>" ++ indent 40
               ++ join [] (map (fun option => html "<div class='tag'>" ++ option ++ "</div>") o.(op_options))
               ++ indent 36 ++ "</div>");
             form_row "Host" (static (o.(op_host) ++ ":" ++ dec_Z o.(op_port))) ]
      ++ form_row "Date" (static (date_format d.(date) "M/D/YY hh:mm:ss.SSS A")) ++ "</form>"
  end.

(** What is drawn. *)
Record TimelineChart := {
  labelWidth : Z;
  chart_start : Date; chart_end : Date;
  minScale : Q; maxScale : Q;
  chart_timelines : list (Timeline Date)
}.

Definition key_date (key : jsstr) : Date := toDate (per_thousand (JsNumber.to_number key)).

Definition tc_render (c : OperationTracingChartComponent) : option TimelineChart :=
  match c.(tc_canvas), c.(tc_traceResult) with
  | true, Some (Some r) =>
      if bool_decide (r.(tr_documentCount) = Some 0%Z) then None
      else
        let data := transformData key_date r.(tr_documents) in
        let dataTimeRange := getDataTimeRange (default [] r.(tr_documentLinks)) in
        Some {| labelWidth := if (countNames data <=? 0)%nat then 120 else 180;
                chart_start := add_seconds (-30) (toDate (per_thousand dataTimeRange.1));
                chart_end := add_seconds 30 (toDate (per_thousand dataTimeRange.2));
                minScale := 1 # 7; maxScale := 60;
                chart_timelines := data |}
  | _, _ => None
  end.

(** The new value of the input is assigned before the handler; it is empty when
    it is undefined. *)
Definition tc_ngOnChanges (c : OperationTracingChartComponent) (ch : option (option (option TraceResult)))
    : OperationTracingChartComponent * option TimelineChart :=
  match ch with
  | None => (c, None)
  | Some v =>
      let c' := {| tc_canvas := c.(tc_canvas); tc_traceResult := v |} in
      (c', match v with None => None | Some _ => tc_render c' end)
  end.

Definition tc_ngAfterViewInit (c : OperationTracingChartComponent) : OperationTracingChartComponent * option TimelineChart :=
  let c' := {| tc_canvas := true; tc_traceResult := c.(tc_traceResult) |} in (c', tc_render c').

(** The event handlers that are removed: selector and event. *)
Definition tc_ngOnDestroy (c : OperationTracingChartComponent) : exec (list (jsstr * jsstr)) :=
  if c.(tc_canvas)
  then Ret [ (js ".timeline-pf-drop text", js "click"); (js ".timeline-pf-drop text", js "mouseover");
             (js "rect", js "mouseover"); (js "rect", js "mouseout"); (js "rect", js "mousemove") ]
  else Throw TypeError.
End TracingChart.

(** ** Properties *)

Section ChartFacts.
Open Scope Q_scope.

(** The range of positive timestamps runs from the least to the greatest. *)
Definition range_of (qs : list Q) (r : number * number) : Prop :=
  exists s e, r = (Fin s, Fin e) /\ 0 < s /\ (exists q, q ∈ qs /\ q == s) /\ (exists q, q ∈ qs /\ q == e)
    /\ Forall (fun q => s <= q /\ q <= e) qs.

Lemma positive_not_zero q : 0 < q -> is_zero (Fin q) = false.
Proof. intros H. cbn. destruct (Qeq_bool q 0) eqn:E; [|done]. apply Qeq_bool_iff in E. lra. Qed.

Lemma range_step_spans qs r q : range_of qs r -> 0 < q -> range_of (qs ++ [q]) (range_step r (Fin q)).
Proof.
  intros (s & e & -> & Hs & (q1 & Hq1 & E1) & (q2 & Hq2 & E2) & Hall) Hq. rewrite list.Forall_forall in Hall.
  pose proof (Hall q1 Hq1). unfold range_step. cbn [fst snd]. rewrite !positive_not_zero by lra. cbn [number_ltb].
  destruct (Qle_bool q e) eqn:B1; cbn [negb]; [apply Qle_bool_iff in B1|apply Qle_bool_false in B1].
  - destruct (Qle_bool s q) eqn:B2; cbn [negb]; [apply Qle_bool_iff in B2|apply Qle_bool_false in B2].
    + exists s, e. split_and!; [done|done|set_solver..|].
      apply list.Forall_app. split; [by apply list.Forall_forall|repeat constructor; done].
    + exists q, e. split_and!; [done|done|exists q; split; [set_solver|reflexivity]|set_solver|].
      apply list.Forall_app. split; [|repeat constructor; lra]. apply list.Forall_forall. intros x Hx. apply Hall in Hx. lra.
  - exists s, q. split_and!; [done|done|set_solver|exists q; split; [set_solver|reflexivity]|].
    apply list.Forall_app. split; [|repeat constructor; lra]. apply list.Forall_forall. intros x Hx. apply Hall in Hx. lra.
Qed.

Lemma range_spans qs :
  qs <> [] -> Forall (fun q => 0 < q) qs -> range_of qs (fold_left range_step (map Fin qs) (Fin 0, Fin 0)).
Proof.
  intros Hne Hpos. rewrite <- (rev_involutive qs) in *. apply Forall_rev in Hpos. rewrite rev_involutive in Hpos.
  induction (rev qs) as [|q l IH]; [done|]. apply list.Forall_cons in Hpos as [Hq Hl]. cbn [rev].
  rewrite map_app, fold_left_app. cbn [map fold_left]. destruct l as [|q' l].
  - cbn [rev app fold_left map]. unfold range_step. cbn [fst snd]. change (is_zero (Fin 0)) with true. cbn [number_ltb].
    rewrite (proj2 (Qle_bool_iff q q)) by lra. cbn [negb]. exists q, q.
    split_and!; [done|done|exists q; split; [set_solver|reflexivity]..|]. repeat constructor; lra.
  - apply range_step_spans; [|done]. apply IH; [|done]. cbn. by destruct (rev l).
Qed.

Lemma to_numbers links qs : Forall2 (fun l q => JsNumber.to_number l = Fin q) links qs -> map JsNumber.to_number links = map Fin qs.
Proof. induction 1; cbn; [done|]. by f_equal. Qed.

Lemma clip_fin q : 0 <= q -> q <= inject_Z max_time -> time_clip (Fin q) = Some (Qfloor q).
Proof.
  intros H0 H1. unfold time_clip. rewrite (proj2 (Qle_bool_iff 0 q)) by done.
  rewrite (proj2 (Qle_bool_iff q _)) by done. rewrite (proj2 (Qle_bool_iff _ q)); [done|].
  assert (0 <= inject_Z max_time) by (unfold max_time; discriminate). lra.
Qed.

Context {M : Moment}.

(** A timestamp in microseconds, late enough to be a date half a minute later
    too. *)
Definition timestamp (link : jsstr) (q : Q) : Prop :=
  JsNumber.to_number link = Fin q /\ 0 < q /\ q / 1000 <= inject_Z (max_time - 30000).

Lemma Qdiv_1000_le x y : x <= y -> x / 1000 <= y / 1000.
Proof. intros H. apply Qmult_le_compat_r; [done|discriminate]. Qed.

Lemma timestamp_date link q : timestamp link q -> date_valueOf (key_date link) = Some (Qfloor (q / 1000)).
Proof.
  intros (Hn & Hp & Hm). unfold key_date. rewrite Hn, toDate_valueOf. cbn [per_thousand]. apply clip_fin.
  - apply Qle_shift_div_l; [done|]. lra.
  - eapply Qle_trans; [exact Hm|]. rewrite <- Zle_Qle. unfold max_time. lia.
Qed.

(** A date moved by half a minute. *)
Lemma moved_date q k :
  0 < q -> q / 1000 <= inject_Z (max_time - 30000) -> (-30 <= k <= 30)%Z ->
  date_valueOf (add_seconds k (toDate (per_thousand (Fin q)))) = Some (Qfloor (q / 1000) + 1000 * k)%Z.
Proof.
  intros Hp Hm Hk. assert (H0 : (0 <= Qfloor (q / 1000))%Z).
  { change 0%Z with (Qfloor 0). apply Qfloor_resp_le. apply Qle_shift_div_l; [done|]. lra. }
  assert (H1 : (Qfloor (q / 1000) <= max_time - 30000)%Z).
  { rewrite <- (Qfloor_Z (max_time - 30000)). by apply Qfloor_resp_le. }
  apply add_seconds_valueOf; [|unfold max_time in *; lia]. rewrite toDate_valueOf. cbn [per_thousand]. apply clip_fin.
  - apply Qle_shift_div_l; [done|]. lra.
  - eapply Qle_trans; [exact Hm|]. rewrite <- Zle_Qle. unfold max_time. lia.
Qed.

(** The events of the chart are those of the documents. *)
Lemma chart_events (docs : list (jsstr * SerializedOperation)) (e : TimelineEvent Date) :
  (exists t, t ∈ transformData key_date docs /\ e ∈ t.(timeline_data))
  <-> exists k d, (k, d) ∈ docs /\ e = event_of key_date k d.
Proof.
  destruct (transformData_grouped key_date docs) as (_ & Hn & Hd). rewrite list.Forall_forall in Hd. split.
  - intros (t & Ht & He). rewrite (Hd t Ht) in He. unfold events_of in He.
    apply list_elem_of_In, in_map_iff in He as ([k d] & <- & Hin). apply filter_In in Hin as [Hin _].
    exists k, d. split; [by apply list_elem_of_In|done].
  - intros (k & d & Hin & ->).
    assert (Hp : path d ∈ map timeline_name (transformData key_date docs)).
    { apply Hn, list_elem_of_In, in_map_iff. exists (k, d). split; [done|by apply list_elem_of_In]. }
    apply list_elem_of_In, in_map_iff in Hp as (t & Et & Ht). apply list_elem_of_In in Ht. exists t. split; [done|].
    rewrite (Hd t Ht), Et. unfold events_of. apply list_elem_of_In, in_map_iff. exists (k, d). split; [done|].
    apply filter_In. split; [by apply list_elem_of_In|]. cbn. apply str_eqb_refl.
Qed.

(** The dates of the events are those of the timestamps. *)
Lemma chart_dates (docs : list (jsstr * SerializedOperation)) links qs :
  (forall l, l ∈ links <-> l ∈ obj_keys docs) -> Forall2 timestamp links qs ->
  (forall t v, t ∈ transformData key_date docs -> v ∈ t.(timeline_data) ->
    exists q, q ∈ qs /\ date_valueOf v.(date) = Some (Qfloor (q / 1000)))
  /\ forall q x, q ∈ qs -> q == x ->
    exists t v, t ∈ transformData key_date docs /\ v ∈ t.(timeline_data) /\ date_valueOf v.(date) = Some (Qfloor (x / 1000)).
Proof.
  intros Hk Hq. split.
  - intros t v Ht Hv. destruct (proj1 (chart_events docs v)) as (k & d & Hin & ->); [by eexists|].
    assert (Hl : k ∈ links). { apply Hk, list_elem_of_In, in_map_iff. exists (k, d). split; [done|by apply list_elem_of_In]. }
    apply list_elem_of_lookup in Hl as [i Hi]. destruct (Forall2_lookup_l _ _ _ _ _ Hq Hi) as (q & Hqi & Htq).
    exists q. split; [by eapply list_elem_of_lookup_2|]. cbn [event_of date]. by apply timestamp_date.
  - intros q x Hin Ex. apply list_elem_of_lookup in Hin as [i Hi]. destruct (Forall2_lookup_r _ _ _ _ _ Hq Hi) as (l & Hli & Ht).
    apply list_elem_of_lookup_2, Hk in Hli. apply list_elem_of_In, in_map_iff in Hli as ([l' d] & Hl & Hd).
    cbn in Hl. subst l'. apply list_elem_of_In in Hd.
    destruct (proj2 (chart_events docs (event_of key_date l d))) as (t & ? & ?); [eauto|].
    exists t, (event_of key_date l d). split_and!; [done|done|]. cbn [event_of date]. rewrite (timestamp_date _ _ Ht). f_equal.
    apply Qfloor_comp. by rewrite Ex.
Qed.

Lemma timestamps_range links qs :
  links <> [] -> Forall2 timestamp links qs ->
  range_of qs (getDataTimeRange links) /\ Forall (fun q => 0 < q /\ q / 1000 <= inject_Z (max_time - 30000)) qs.
Proof.
  intros Hne Hq. unfold getDataTimeRange. rewrite (to_numbers links qs).
  - split; [apply range_spans; [intros ->; by inversion Hq; subst|]|];
      clear -Hq; induction Hq as [|l q ls qs (_ & ? & ?) _ IH]; constructor; done.
  - clear -Hq. induction Hq as [|l q ls qs (? & _) _ IH]; constructor; done.
Qed.

(** C22: When a result with at least one document is drawn, the window of the
    chart starts half a minute before the first traced operation and ends half
    a minute after the last one; every operation of the result is an event of
    the chart and lies inside the window. *)
Theorem trace_chart_window (c : OperationTracingChartComponent) (r : TraceResult) (links : list jsstr) (qs : list Q)
    (chart : TimelineChart) :
  c.(tc_traceResult) = Some (Some r) -> r.(tr_documentLinks) = Some links -> links <> [] ->
  (forall l, l ∈ links <-> l ∈ obj_keys r.(tr_documents)) -> Forall2 timestamp links qs ->
  tc_render c = Some chart ->
  exists s e, date_valueOf chart.(chart_start) = Some (s - 30000)%Z /\ date_valueOf chart.(chart_end) = Some (e + 30000)%Z
    /\ (forall k d, (k, d) ∈ r.(tr_documents) -> exists t, t ∈ chart.(chart_timelines) /\ event_of key_date k d ∈ t.(timeline_data))
    /\ (forall t v, t ∈ chart.(chart_timelines) -> v ∈ t.(timeline_data) ->
         exists z, date_valueOf v.(date) = Some z /\ (s <= z <= e)%Z)
    /\ forall z, z = s \/ z = e ->
         exists t v, t ∈ chart.(chart_timelines) /\ v ∈ t.(timeline_data) /\ date_valueOf v.(date) = Some z.
Proof.
  intros Hr Hl Hne Hk Hq. unfold tc_render. rewrite Hr. destruct (tc_canvas c); [|done].
  destruct (bool_decide _); [done|]. intros [= <-]. cbn [chart_start chart_end chart_timelines]. rewrite Hl. change (default [] (Some links)) with links.
  destruct (timestamps_range links qs Hne Hq) as [(s & e & -> & Hs & (q1 & Hq1 & E1) & (q2 & Hq2 & E2) & Hall) Hp].
  rewrite list.Forall_forall in Hp, Hall. destruct (chart_dates _ _ _ Hk Hq) as [D1 D2].
  assert (B1 : s / 1000 <= inject_Z (max_time - 30000)) by (rewrite <- E1; by apply Hp).
  assert (B2 : e / 1000 <= inject_Z (max_time - 30000)) by (rewrite <- E2; by apply Hp).
  assert (He : 0 < e) by (destruct (Hp q2 Hq2); lra).
  exists (Qfloor (s / 1000)), (Qfloor (e / 1000)). split_and!.
  - cbn [fst]. by rewrite (moved_date s (-30)) by (try done; lia).
  - cbn [snd]. by rewrite (moved_date e 30) by (try done; lia).
  - intros k d Hin. destruct (proj2 (chart_events (tr_documents r) (event_of key_date k d))) as (t & ? & ?); eauto.
  - intros t v Ht Hv. destruct (D1 t v Ht Hv) as (q & Hqi & Hd). eexists. split; [exact Hd|].
    destruct (Hall q Hqi). split; apply Qfloor_resp_le, Qdiv_1000_le; done.
  - intros z [-> | ->]; eauto.
Qed.
End ChartFacts.

(** ** An example *)

#[local] Instance moment_ref : Moment.
Proof.
  refine {| Date := option Z; toDate := time_clip; add_seconds k d := option_map (fun z => z + 1000 * k)%Z d;
            date_format _ f := f; date_valueOf d := d |}; [done|abstract (by intros k d z -> _)].
Defined.

Definition sample_trace : TraceResult :=
  {| tr_documentLinks := Some [js "5000000"; js "7000000"];
     tr_documents := [(js "5000000", sample_op 1 "/a"); (js "7000000", sample_op 2 "/b")]; tr_documentCount := Some 2%Z |}.
Definition sample_trace_chart : OperationTracingChartComponent :=
  {| tc_canvas := true; tc_traceResult := Some (Some sample_trace) |}.

Lemma trace_chart_window_witness :
  exists chart, tc_render sample_trace_chart = Some chart
    /\ date_valueOf chart.(chart_start) = Some (-25000)%Z /\ date_valueOf chart.(chart_end) = Some 37000%Z
    /\ forall t v, t ∈ chart.(chart_timelines) -> v ∈ t.(timeline_data) ->
         exists z, date_valueOf v.(date) = Some z /\ (5000 <= z <= 7000)%Z.
Proof.
  destruct (tc_render sample_trace_chart) as [chart|] eqn:E; [|discriminate E]. exists chart. split; [reflexivity|].
  destruct (trace_chart_window sample_trace_chart sample_trace [js "5000000"; js "7000000"] [5000000%Q; 7000000%Q] chart)
    as (s & e & Hs & He & _ & Hin & _).
  - reflexivity.
  - reflexivity.
  - discriminate.
  - intros l. reflexivity.
  - repeat constructor; vm_compute; (reflexivity || discriminate).
  - exact E.
  - injection E as <-. split; [reflexivity|]. split; [reflexivity|].
    assert (Es : Some (s - 30000)%Z = Some (-25000)%Z) by (rewrite <- Hs; reflexivity).
    assert (Ee : Some (e + 30000)%Z = Some 37000%Z) by (rewrite <- He; reflexivity).
    injection Es as Es. injection Ee as Ee.
    assert (s = 5000%Z) as -> by lia. assert (e = 7000%Z) as -> by lia. exact Hin.
Defined.
