(* ===== verification/NodeGroups.v ===== *)
(** * node-group.util.ts

    The circle drawn around the nodes of a group: the incremental algorithm
    of [NodeGroupUtil], for any kind of numbers.  It runs on binary64, the
    numbers of the browser, and its theorem is about exact real numbers. *)

From S2P Require Import Prelude JsString Interfaces.
From Stdlib Require Import Floats Reals Lra Psatz.
From Stdlib Require Import Sorting.Permutation.
Set Warnings "-inexact-float".

(** ** Numbers *)

Class Num (F : Type) := {
  add : F -> F -> F; sub : F -> F -> F; mul : F -> F -> F; div : F -> F -> F;
  sqrt_ : F -> F;
  ltb : F -> F -> bool; leb : F -> F -> bool; eqb : F -> F -> bool;
  zero : F; two : F;
  EPSILON : F
}.

#[export] Instance Num_float : Num float :=
  {| add := PrimFloat.add; sub := PrimFloat.sub; mul := PrimFloat.mul; div := PrimFloat.div;
     sqrt_ := PrimFloat.sqrt; ltb := PrimFloat.ltb; leb := PrimFloat.leb; eqb := PrimFloat.eqb;
     zero := 0%float; two := 2%float; EPSILON := 1e-12%float |}.

Definition of_dec {P} (d : {P} + {~ P}) : bool := if d then true else false.

#[export] Instance Num_R : Num R :=
  {| add := Rplus; sub := Rminus; mul := Rmult; div := Rdiv; sqrt_ := R_sqrt.sqrt;
     ltb := fun a b => of_dec (Rlt_dec a b); leb := fun a b => of_dec (Rle_dec a b);
     eqb := fun a b => of_dec (Req_dec_T a b);
     zero := 0%R; two := 2%R; EPSILON := (/ 10 ^ 12)%R |}.

(** ** NodeGroupUtil *)

Arguments group {R} _.
Arguments circle_x {R} _.
Arguments circle_y {R} _.
Arguments circle_r {R} _.

Section NodeGroupUtil.
Context {F : Type} {N : Num F}.
(** The nodes, and the coordinates the force layout keeps on them. *)
Context {T : Type} (x y : T -> F).
Abbreviation Circle := (NodeGroupCircle F).
Declare Scope node_scope.
Infix "+" := add : node_scope.
Infix "-" := sub : node_scope.
Infix "*" := mul : node_scope.
Infix "/" := div : node_scope.
Infix "<?" := ltb : node_scope.
Infix "<=?" := leb : node_scope.
Infix "=?" := eqb : node_scope.
Delimit Scope node_scope with node.

Definition circle_at (cx cy r : F) : Circle := {| group := None; circle_x := cx; circle_y := cy; circle_r := r |}.

Definition distance (x0 y0 x1 y1 : F) : F :=
  sqrt_ ((x0 - x1) * (x0 - x1) + (y0 - y1) * (y0 - y1))%node.

Definition crossProduct (x0 y0 x1 y1 x2 y2 : F) : F :=
  ((x1 - x0) * (y2 - y0) - (y1 - y0) * (x2 - x0))%node.

(** [None] is [null]. *)
Definition isInCircle (circle : option Circle) (node : T) : bool :=
  match circle with
  | Some c => (distance (x node) (y node) c.(circle_x) c.(circle_y) <? c.(circle_r) + EPSILON)%node
  | None => false
  end.

Definition makeDiameter (node0 node1 : T) : Circle :=
  circle_at ((x node0 + x node1) / two)%node ((y node0 + y node1) / two)%node
    (distance (x node0) (y node0) (x node1) (y node1) / two)%node.

Definition makeCircumCircle (node0 node1 node2 : T) : option Circle :=
  let x0 := x node0 in let y0 := y node0 in
  let x1 := x node1 in let y1 := y node1 in
  let x2 := x node2 in let y2 := y node2 in
  let diameter := ((x0 * (y1 - y2) + x1 * (y2 - y0) + x2 * (y0 - y1)) * two)%node in
  if (diameter =? zero)%node then None
  else
    let cx := (((x0 * x0 + y0 * y0) * (y1 - y2) + (x1 * x1 + y1 * y1) * (y2 - y0)
                + (x2 * x2 + y2 * y2) * (y0 - y1)) / diameter)%node in
    let cy := (((x0 * x0 + y0 * y0) * (x2 - x1) + (x1 * x1 + y1 * y1) * (x0 - x2)
                + (x2 * x2 + y2 * y2) * (x1 - x0)) / diameter)%node in
    Some (circle_at cx cy (distance cx cy x0 y0)).

(** One turn of the second loop of [makeCircleTwoNodes]. *)
Definition cross_of (node0 node1 : T) (px py : F) : F :=
  crossProduct (x node0) (y node0) (x node1) (y node1) px py.
Definition center_cross (node0 node1 : T) (c : Circle) : F := cross_of node0 node1 c.(circle_x) c.(circle_y).

Definition side_step (node0 node1 : T) (lr : option Circle * option Circle) (node2 : T)
    : option Circle * option Circle :=
  let '(left_, right_) := lr in
  let cross := cross_of node0 node1 (x node2) (y node2) in
  match makeCircumCircle node0 node1 node2 with
  | None => (left_, right_)
  | Some circle =>
      if (zero <? cross)%node
         && match left_ with
            | None => true
            | Some l => (center_cross node0 node1 l <? center_cross node0 node1 circle)%node
            end
      then (Some circle, right_)
      else if (cross <? zero)%node
         && match right_ with
            | None => true
            | Some r => (center_cross node0 node1 circle <? center_cross node0 node1 r)%node
            end
      then (left_, Some circle)
      else (left_, right_)
  end.

Definition pick_side (left_ right_ : option Circle) : option Circle :=
  match right_, left_ with
  | None, _ => left_
  | Some r, Some l => if (l.(circle_r) <=? r.(circle_r))%node then left_ else right_
  | Some _, None => right_
  end.

Definition makeCircleTwoNodes (nodes : list T) (node0 node1 : T) : option Circle :=
  let temp := makeDiameter node0 node1 in
  if forallb (isInCircle (Some temp)) nodes then Some temp
  else let '(left_, right_) := fold_left (side_step node0 node1) nodes (None, None) in pick_side left_ right_.

(** The loop of [makeCircleOneNode]: [seen] are the nodes before the current
    one.  Reading the radius of [null] throws. *)
Fixpoint one_node_loop (node0 : T) (seen rest : list T) (circle : option Circle) : exec (option Circle) :=
  match rest with
  | [] => Ret circle
  | node1 :: rest' =>
      c <-! (if isInCircle circle node1 then Ret circle
             else match circle with
                  | None => Throw TypeError
                  | Some c => if (c.(circle_r) =? zero)%node then Ret (Some (makeDiameter node0 node1))
                              else Ret (makeCircleTwoNodes (seen ++ [node1]) node0 node1)
                  end);;
      one_node_loop node0 (seen ++ [node1]) rest' c
  end.

Definition makeCircleOneNode (nodes : list T) (node0 : T) : exec (option Circle) :=
  one_node_loop node0 [] nodes (Some (circle_at (x node0) (y node0) zero)).

(** The loop of [getGroupCircles] over the shuffled nodes of a group. *)
Fixpoint group_loop (seen rest : list T) (circle : option Circle) : exec (option Circle) :=
  match rest with
  | [] => Ret circle
  | node :: rest' =>
      c <-! (match circle with
             | Some _ => if isInCircle circle node then Ret circle else makeCircleOneNode (seen ++ [node]) node
             | None => makeCircleOneNode (seen ++ [node]) node
             end);;
      group_loop (seen ++ [node]) rest' c
  end.

(** [shuffle]: what [_.shuffle] makes of the nodes of a group. *)
Context (shuffle : jsstr -> list T -> list T).

Definition named (groupName : jsstr) (c : Circle) : Circle :=
  {| group := Some groupName; circle_x := c.(circle_x); circle_y := c.(circle_y); circle_r := c.(circle_r) |}.

Fixpoint getGroupCircles (nodesByGroup : list (jsstr * list T)) : exec (list Circle) :=
  match nodesByGroup with
  | [] => Ret []
  | (groupName, nodes) :: rest =>
      circle <-! group_loop [] (shuffle groupName nodes) None;;
      circles <-! getGroupCircles rest;;
      Ret (match circle with None => circles | Some c => named groupName c :: circles end)
  end.
End NodeGroupUtil.

Example triangle_circle :
  getGroupCircles (fst : float * float -> float) snd (fun _ l => l)
    [(js "g", [(0, 0); (6, 0); (0, 8)]%float)]
  = Ret [{| group := Some (js "g"); circle_x := 3; circle_y := 4; circle_r := 5 |}]%float.
Proof. vm_compute. reflexivity. Qed.

(** ** Circles over the real numbers *)

Open Scope R_scope.

Ltac circ := cbn [circle_x circle_y circle_r circle_at makeDiameter add sub mul div zero two EPSILON Num_R].

Section Circles.
Context {T : Type} (x y : T -> R).
Abbreviation Circle := (NodeGroupCircle R).
Implicit Types (c : Circle) (p q : T) (l : list T).

(** The power of a node: negative inside the circle, zero on it. *)
Definition power c p : R :=
  (x p - circle_x c) * (x p - circle_x c) + (y p - circle_y c) * (y p - circle_y c) - circle_r c * circle_r c.
Definition proper c : Prop := 0 <= circle_r c.
Definition encloses c l : Prop := forall p, p ∈ l -> power c p <= 0.

Lemma sum_sqr_pos a b : 0 <= a * a + b * b.
Proof. nra. Qed.

Lemma sum_sqr_zero a b : a * a + b * b <= 0 -> a = 0 /\ b = 0.
Proof. intros. split; nra. Qed.

Lemma distance_sqr x0 y0 x1 y1 :
  0 <= distance x0 y0 x1 y1
  /\ distance x0 y0 x1 y1 * distance x0 y0 x1 y1 = (x0 - x1) * (x0 - x1) + (y0 - y1) * (y0 - y1).
Proof.
  unfold distance. cbn. split; [apply sqrt_pos|]. apply sqrt_sqrt, sum_sqr_pos.
Qed.

Lemma sqr_le a b : 0 <= a -> 0 <= b -> a * a <= b * b -> a <= b.
Proof. intros. nra. Qed.

Lemma inside_distance c p :
  proper c -> (distance (x p) (y p) (circle_x c) (circle_y c) <= circle_r c <-> power c p <= 0).
Proof.
  unfold proper, power. intros Hc. destruct (distance_sqr (x p) (y p) (circle_x c) (circle_y c)) as [H1 H2].
  rewrite <- H2. split; intros; nra.
Qed.

(** A circle of the pencil of two circles: it goes through a node outside
    the first and inside the second, keeps what is inside both inside and what
    is on both on it, and is no larger than the second if the first is not. *)
Lemma between c1 c2 q :
  proper c1 -> proper c2 -> circle_r c1 <= circle_r c2 -> 0 < power c1 q -> power c2 q <= 0 ->
  exists c, proper c /\ circle_r c <= circle_r c2 /\ power c q = 0
    /\ (forall p, power c1 p <= 0 -> power c2 p <= 0 -> power c p <= 0)
    /\ (forall p, power c1 p = 0 -> power c2 p = 0 -> power c p = 0).
Proof.
  intros P1 P2 Hr Hq1 Hq2. unfold proper in *.
  set (k := power c1 q / (power c1 q - power c2 q)).
  assert (Hk : 0 <= k <= 1).
  { assert (Hm : k * (power c1 q - power c2 q) = power c1 q) by (unfold k; field; lra). nra. }
  assert (Hz : (1 - k) * power c1 q + k * power c2 q = 0) by (unfold k; field; lra).
  set (cx := (1 - k) * circle_x c1 + k * circle_x c2).
  set (cy := (1 - k) * circle_y c1 + k * circle_y c2).
  destruct (distance_sqr (x q) (y q) cx cy) as [Hd1 Hd2].
  set (r := distance (x q) (y q) cx cy) in *.
  exists (circle_at cx cy r).
  assert (Hp : forall p, power (circle_at cx cy r) p = (1 - k) * power c1 p + k * power c2 p).
  { intros p. transitivity ((1 - k) * power c1 p + k * power c2 p - ((1 - k) * power c1 q + k * power c2 q));
      [|rewrite Hz; ring].
    unfold power at 1. circ. rewrite Hd2. unfold cx, cy, power. ring. }
  split_and!; [done| |unfold power; circ; rewrite Hd2; ring| |].
  - circ. apply sqr_le; [done..|].
    assert (Hrr : r * r = (1 - k) * (circle_r c1 * circle_r c1) + k * (circle_r c2 * circle_r c2)
      - k * (1 - k) * ((circle_x c1 - circle_x c2) * (circle_x c1 - circle_x c2)
                       + (circle_y c1 - circle_y c2) * (circle_y c1 - circle_y c2))).
    { rewrite Hd2. apply Rminus_diag_uniq. rewrite <- Hz. unfold cx, cy, power. ring. }
    assert (Hs : 0 <= k * (1 - k) * ((circle_x c1 - circle_x c2) * (circle_x c1 - circle_x c2)
                       + (circle_y c1 - circle_y c2) * (circle_y c1 - circle_y c2)))
      by (apply Rmult_le_pos; [apply Rmult_le_pos; lra|apply sum_sqr_pos]).
    assert (Hc : circle_r c1 * circle_r c1 <= circle_r c2 * circle_r c2) by (apply Rmult_le_compat; lra).
    assert (Hkc : 0 <= (1 - k) * (circle_r c2 * circle_r c2 - circle_r c1 * circle_r c1))
      by (apply Rmult_le_pos; lra).
    lra.
  - intros p H1 H2. rewrite Hp. nra.
  - intros p H1 H2. rewrite Hp, H1, H2. ring.
Qed.

(** A circle with two nodes is at least as large as their diameter. *)
Lemma diameter_least c p q :
  proper c -> power c p <= 0 -> power c q <= 0 -> circle_r (makeDiameter x y p q) <= circle_r c.
Proof.
  unfold proper, power, makeDiameter. circ. intros Hc H1 H2. destruct (distance_sqr (x p) (y p) (x q) (y q)) as [Hd1 Hd2].
  set (d := distance (x p) (y p) (x q) (y q)) in *. apply sqr_le; [lra|done|].
  pose proof (sum_sqr_pos (x p + x q - 2 * circle_x c) (y p + y q - 2 * circle_y c)). nra.
Qed.

(** Every list of nodes is inside some circle. *)
Lemma some_circle l : exists c, proper c /\ encloses c l.
Proof.
  induction l as [|p l (c & Hc & IH)].
  { exists (circle_at 0 0 0). split; [unfold proper; circ; lra|]. by intros ? ?%elem_of_nil. }
  destruct (distance_sqr (x p) (y p) (circle_x c) (circle_y c)) as [Hd1 Hd2].
  set (d := distance (x p) (y p) (circle_x c) (circle_y c)) in *.
  exists (circle_at (circle_x c) (circle_y c) (circle_r c + d)). unfold proper in *.
  split; [circ; lra|]. intros q [->|Hq]%elem_of_cons; unfold power; circ.
  - rewrite <- Hd2. nra.
  - specialize (IH q Hq). unfold power in IH. nra.
Qed.

(** ** Two boundary nodes *)

Section Two.
Variables p0 p1 : T.

(** The square of the distance of the two nodes, the side of a node, and the
    place of a center on the line of the centers. *)
Definition span2 : R := (x p1 - x p0) * (x p1 - x p0) + (y p1 - y p0) * (y p1 - y p0).
Definition side p : R := cross_of x y p0 p1 (x p) (y p).
Definition place c : R := center_cross x y p0 p1 c.
Definition on_both c : Prop := power c p0 = 0 /\ power c p1 = 0.

Lemma diameter_on_both : on_both (makeDiameter x y p0 p1) /\ proper (makeDiameter x y p0 p1).
Proof.
  unfold on_both, proper, power, makeDiameter. circ.
  destruct (distance_sqr (x p0) (y p0) (x p1) (y p1)) as [H1 H2].
  set (d := @distance R Num_R _ _ _ _) in *. split_and!; [..|lra].
  all: replace (d / 2 * (d / 2)) with (d * d / 4) by field; rewrite H2; field.
Qed.

(** The centers of circles through both nodes are on one line. *)
Lemma on_both_line c :
  on_both c ->
  (x p1 - x p0) * (circle_x c - (x p0 + x p1) / 2) + (y p1 - y p0) * (circle_y c - (y p0 + y p1) / 2) = 0.
Proof. unfold on_both, power. intros [H0 H1]. lra. Qed.

Lemma power_family c p :
  on_both c -> span2 * power c p = span2 * power (makeDiameter x y p0 p1) p - 2 * place c * side p.
Proof.
  intros Hc. pose proof (on_both_line c Hc) as Hl. destruct diameter_on_both as [[Hd _] _]. destruct Hc as [H0 _].
  set (m := makeDiameter x y p0 p1) in *.
  assert (Hx : circle_x m = (x p0 + x p1) / 2) by done. assert (Hy : circle_y m = (y p0 + y p1) / 2) by done.
  unfold power in *. rewrite Hx, Hy in *. clearbody m.
  set (rc := circle_r c * circle_r c) in *. set (rm := circle_r m * circle_r m) in *.
  assert (Erc : rc = (x p0 - circle_x c) * (x p0 - circle_x c) + (y p0 - circle_y c) * (y p0 - circle_y c)) by lra.
  assert (Erm : rm = (x p0 - (x p0 + x p1) / 2) * (x p0 - (x p0 + x p1) / 2)
                     + (y p0 - (y p0 + y p1) / 2) * (y p0 - (y p0 + y p1) / 2)) by lra.
  rewrite Erc, Erm. apply Rminus_diag_uniq.
  transitivity (-2 * ((x p1 - x p0) * (x p - x p0) + (y p1 - y p0) * (y p - y p0))
    * ((x p1 - x p0) * (circle_x c - (x p0 + x p1) / 2) + (y p1 - y p0) * (circle_y c - (y p0 + y p1) / 2)));
    [|rewrite Hl; ring].
  unfold span2, place, side, center_cross, cross_of, crossProduct. cbn [add sub mul Num_R]. field.
Qed.

Lemma radius_family c :
  on_both c -> 4 * span2 * (circle_r c * circle_r c) = span2 * span2 + 4 * (place c * place c).
Proof.
  intros Hc. pose proof (on_both_line c Hc) as Hl. destruct Hc as [H0 _]. unfold power in H0.
  assert (Er : circle_r c * circle_r c
    = (x p0 - circle_x c) * (x p0 - circle_x c) + (y p0 - circle_y c) * (y p0 - circle_y c)) by lra.
  rewrite Er. apply Rminus_diag_uniq.
  transitivity (4 * (((x p1 - x p0) * (circle_x c - (x p0 + x p1) / 2) + (y p1 - y p0) * (circle_y c - (y p0 + y p1) / 2))
     * ((x p1 - x p0) * (circle_x c - (x p0 + x p1) / 2) + (y p1 - y p0) * (circle_y c - (y p0 + y p1) / 2) + span2)));
    [|rewrite Hl; ring].
  unfold span2, place, center_cross, cross_of, crossProduct. cbn [add sub mul Num_R]. field.
Qed.

Lemma circum_some p c :
  makeCircumCircle x y p0 p1 p = Some c -> on_both c /\ power c p = 0 /\ proper c /\ side p <> 0.
Proof.
  unfold makeCircumCircle. cbn [eqb zero two Num_R].
  set (dm := mul _ (IZR 2)). destruct (Req_dec_T dm 0) as [|Hd]; [done|]. cbn [of_dec].
  set (cx := div _ dm). set (cy := div _ dm). intros H%(inj Some). subst c.
  destruct (distance_sqr cx cy (x p0) (y p0)) as [H1 H2].
  unfold on_both, proper, power. circ. rewrite H2. clear H2.
  cbn [add sub mul div Num_R] in *. unfold cx, cy, dm in *.
  split_and!; [field; lra..|done|].
  unfold side, cross_of, crossProduct. cbn [add sub mul Num_R]. lra.
Qed.

Lemma circum_none p : makeCircumCircle x y p0 p1 p = None -> side p = 0.
Proof.
  unfold makeCircumCircle. cbn [eqb zero two Num_R].
  set (dm := mul _ (IZR 2)). destruct (Req_dec_T dm 0) as [Hd|]; [|done]. intros _.
  unfold dm in Hd. unfold side, cross_of, crossProduct. cbn [add sub mul Num_R] in *. lra.
Qed.

Hypothesis apart : 0 < span2.

(** Moving the center towards a side keeps the nodes of that side. *)
Lemma left_grows c1 c2 p :
  on_both c1 -> on_both c2 -> place c1 <= place c2 -> 0 < side p -> power c1 p <= 0 -> power c2 p <= 0.
Proof.
  intros H1 H2 Hp Hs Hin. pose proof (power_family c1 p H1). pose proof (power_family c2 p H2).
  assert (0 <= (place c2 - place c1) * side p) by (apply Rmult_le_pos; lra).
  apply (Rmult_le_reg_l span2); [done|]. assert (span2 * power c1 p <= 0) by nra. lra.
Qed.

Lemma right_grows c1 c2 p :
  on_both c1 -> on_both c2 -> place c2 <= place c1 -> side p < 0 -> power c1 p <= 0 -> power c2 p <= 0.
Proof.
  intros H1 H2 Hp Hs Hin. pose proof (power_family c1 p H1). pose proof (power_family c2 p H2).
  assert (0 <= (place c1 - place c2) * - side p) by (apply Rmult_le_pos; lra).
  apply (Rmult_le_reg_l span2); [done|]. assert (span2 * power c1 p <= 0) by nra. lra.
Qed.

Lemma middle_same c1 c2 p : on_both c1 -> on_both c2 -> side p = 0 -> power c1 p <= 0 -> power c2 p <= 0.
Proof.
  intros H1 H2 Hs Hin. pose proof (power_family c1 p H1). pose proof (power_family c2 p H2). rewrite Hs in *.
  apply (Rmult_le_reg_l span2); [done|]. assert (span2 * power c1 p <= 0) by nra. lra.
Qed.

(** The circle through a node is as far as needed for it, not farther. *)
Lemma place_bound c cp p :
  on_both c -> on_both cp -> power cp p = 0 -> power c p <= 0 ->
  (0 < side p -> place cp <= place c) /\ (side p < 0 -> place c <= place cp).
Proof.
  intros H1 H2 Hz Hin. pose proof (power_family c p H1) as E1. pose proof (power_family cp p H2) as E2.
  rewrite Hz in E2. assert (span2 * power c p <= 0) by nra. split; intros; nra.
Qed.

Lemma radius_le c1 c2 :
  on_both c1 -> on_both c2 -> proper c1 -> proper c2 ->
  (circle_r c1 <= circle_r c2 <-> place c1 * place c1 <= place c2 * place c2).
Proof.
  intros H1 H2 P1 P2. pose proof (radius_family c1 H1). pose proof (radius_family c2 H2). unfold proper in *.
  split; intros.
  - assert (circle_r c1 * circle_r c1 <= circle_r c2 * circle_r c2) by (apply Rmult_le_compat; lra). nra.
  - apply sqr_le; [done..|]. apply (Rmult_le_reg_l span2); [done|]. lra.
Qed.

(** The circles kept by the loop: the one of a side goes through a node of
    that side, and has all the nodes of that side seen so far. *)
Definition kept (sgn : R) (seen : list T) (o : option Circle) : Prop :=
  match o with
  | None => forall p, p ∈ seen -> ~ 0 < sgn * side p
  | Some c => on_both c /\ proper c
      /\ (exists p, p ∈ seen /\ 0 < sgn * side p /\ makeCircumCircle x y p0 p1 p = Some c)
      /\ (forall p, p ∈ seen -> 0 < sgn * side p -> power c p <= 0)
  end.

Lemma kept_other sgn seen o p : ~ 0 < sgn * side p -> kept sgn seen o -> kept sgn (seen ++ [p]) o.
Proof.
  intros Hp. destruct o as [c|]; cbn.
  - intros (H1 & H2 & (q & Hq & H3) & H4). split_and!; [done..| |].
    + exists q. split; [set_solver|done].
    + intros q' [Hq'| ->%list_elem_of_singleton]%elem_of_app Hs; [auto|done].
  - intros H q [Hq| ->%list_elem_of_singleton]%elem_of_app; auto.
Qed.

(** A new circle of a side replaces the kept one, or is within it. *)
Lemma kept_new sgn seen p c :
  0 < sgn * side p -> makeCircumCircle x y p0 p1 p = Some c ->
  (forall q, q ∈ seen -> 0 < sgn * side q -> power c q <= 0) -> kept sgn (seen ++ [p]) (Some c).
Proof.
  intros Hp Hc Hs. destruct (circum_some p c Hc) as (H1 & H2 & H3 & _). cbn. split_and!; [done..| |].
  - exists p. split; [set_solver|done].
  - intros q [Hq| ->%list_elem_of_singleton]%elem_of_app Hsq; [auto|lra].
Qed.

Lemma kept_old sgn seen p c :
  power c p <= 0 -> kept sgn seen (Some c) -> kept sgn (seen ++ [p]) (Some c).
Proof.
  intros Hp. cbn. intros (H1 & H2 & (q & Hq & H3) & H4). split_and!; [done..| |].
  - exists q. split; [set_solver|done].
  - intros q' [Hq'| ->%list_elem_of_singleton]%elem_of_app Hs; [auto|done].
Qed.

Lemma of_dec_true {P} (d : {P} + {~ P}) : of_dec d = true <-> P.
Proof. by destruct d. Qed.
Lemma of_dec_false {P} (d : {P} + {~ P}) : of_dec d = false <-> ~ P.
Proof. by destruct d. Qed.

Lemma side_step_left seen lc rc p c :
  kept 1 seen lc -> kept (-1) seen rc -> 0 < side p -> makeCircumCircle x y p0 p1 p = Some c ->
  exists lc', side_step x y p0 p1 (lc, rc) p = (lc', rc) /\ kept 1 (seen ++ [p]) lc'.
Proof.
  intros Hl Hr Hs Hc. destruct (circum_some p c Hc) as (H1 & H2 & _). unfold side_step. rewrite Hc.
  fold (side p). cbn [andb ltb zero Num_R].
  rewrite (proj2 (of_dec_true (Rlt_dec 0 (side p)))) by done.
  rewrite (proj2 (of_dec_false (Rlt_dec (side p) 0))) by lra. cbn [andb].
  destruct lc as [lft|].
  - fold (place lft) (place c). destruct (Rlt_dec (place lft) (place c)) as [Hlt|Hge]; cbn [of_dec].
    + exists (Some c). split; [done|]. apply kept_new; [lra|done|]. destruct Hl as (Hl1 & _ & _ & Hl4).
      intros q Hq Hsq. apply (left_grows lft c); [done..|lra|lra|auto].
    + exists (Some lft). split; [done|]. apply kept_old; [|done]. destruct Hl as (Hl1 & _).
      apply (left_grows c lft); [done..|lra|done|lra].
  - exists (Some c). split; [done|]. apply kept_new; [lra|done|]. intros q Hq Hsq. by destruct (Hl q Hq).
Qed.

Lemma side_step_right seen lc rc p c :
  kept 1 seen lc -> kept (-1) seen rc -> side p < 0 -> makeCircumCircle x y p0 p1 p = Some c ->
  exists rc', side_step x y p0 p1 (lc, rc) p = (lc, rc') /\ kept (-1) (seen ++ [p]) rc'.
Proof.
  intros Hl Hr Hs Hc. destruct (circum_some p c Hc) as (H1 & H2 & _). unfold side_step. rewrite Hc.
  fold (side p). cbn [andb ltb zero Num_R].
  rewrite (proj2 (of_dec_false (Rlt_dec 0 (side p)))) by lra.
  rewrite (proj2 (of_dec_true (Rlt_dec (side p) 0))) by lra. cbn [andb].
  destruct rc as [rgt|].
  - fold (place rgt) (place c). destruct (Rlt_dec (place c) (place rgt)) as [Hlt|Hge]; cbn [of_dec].
    + exists (Some c). split; [done|]. apply kept_new; [lra|done|]. destruct Hr as (Hr1 & _ & _ & Hr4).
      intros q Hq Hsq. apply (right_grows rgt c); [done..|lra|lra|auto].
    + exists (Some rgt). split; [done|]. apply kept_old; [|done]. destruct Hr as (Hr1 & _).
      apply (right_grows c rgt); [done..|lra|done|lra].
  - exists (Some c). split; [done|]. apply kept_new; [lra|done|]. intros q Hq Hsq. by destruct (Hr q Hq).
Qed.

Lemma sides_kept rest seen lc rc :
  kept 1 seen lc -> kept (-1) seen rc ->
  exists lc' rc', fold_left (side_step x y p0 p1) rest (lc, rc) = (lc', rc')
    /\ kept 1 (seen ++ rest) lc' /\ kept (-1) (seen ++ rest) rc'.
Proof.
  revert seen lc rc. induction rest as [|p rest IH]; intros seen lc rc Hl Hr; cbn [fold_left].
  { rewrite app_nil_r. eauto. }
  assert (Hstep : exists lc1 rc1, side_step x y p0 p1 (lc, rc) p = (lc1, rc1)
                    /\ kept 1 (seen ++ [p]) lc1 /\ kept (-1) (seen ++ [p]) rc1).
  { destruct (makeCircumCircle x y p0 p1 p) as [c|] eqn:Ec.
    - destruct (circum_some p c Ec) as (_ & _ & _ & Hs). destruct (Rlt_dec 0 (side p)) as [Hp|Hp].
      + destruct (side_step_left seen lc rc p c) as (lc1 & E & K); [done..|].
        exists lc1, rc. split_and!; [done..|]. apply kept_other; [lra|done].
      + destruct (side_step_right seen lc rc p c) as (rc1 & E & K); [done|done|lra|done|].
        exists lc, rc1. split_and!; [done| |done]. apply kept_other; [lra|done].
    - exists lc, rc. pose proof (circum_none p Ec) as Hz. unfold side_step. rewrite Ec.
      split_and!; [done|apply kept_other; [lra|done]..]. }
  destruct Hstep as (lc1 & rc1 & -> & Hl1 & Hr1). replace (seen ++ p :: rest) with ((seen ++ [p]) ++ rest)
    by (by rewrite <- app_assoc). auto.
Qed.

(** A node outside the diameter is only in circles with the center on its side. *)
Lemma place_side c p :
  on_both c -> power c p <= 0 -> 0 < power (makeDiameter x y p0 p1) p -> 0 < place c * side p.
Proof.
  intros Hc Hin Hout. pose proof (power_family c p Hc). assert (span2 * power c p <= 0) by nra.
  assert (0 < span2 * power (makeDiameter x y p0 p1) p) by (apply Rmult_lt_0_compat; lra). lra.
Qed.

Lemma sides_enclose cs c nodes :
  on_both cs -> encloses cs nodes -> on_both c ->
  (forall q, q ∈ nodes -> 0 < side q -> power c q <= 0) ->
  (forall q, q ∈ nodes -> side q < 0 -> power c q <= 0) -> encloses c nodes.
Proof.
  intros Hcs Hin Hc A B q Hq. destruct (Rtotal_order 0 (side q)) as [|[|]]; [auto| |apply B; [done|lra]].
  apply (middle_same cs c); [done..|lra|auto].
Qed.

Lemma kept_place sgn nodes c cs :
  kept sgn nodes (Some c) -> on_both cs -> encloses cs nodes ->
  (sgn = 1 -> place c <= place cs) /\ (sgn = -1 -> place cs <= place c).
Proof.
  intros (L1 & _ & (q & Hq & Hsq & Eq) & _) Hcs Hin. destruct (circum_some q c Eq) as (_ & Z & _).
  destruct (place_bound cs c q) as [A B]; [done..|auto|].
  split; intros ->; [apply A|apply B]; lra.
Qed.

(** What is picked: a kept circle through both nodes that has all nodes and is
    no larger than a given one. *)
Definition picked nodes lc rc cs : Prop :=
  exists c, pick_side lc rc = Some c /\ on_both c /\ proper c /\ encloses c nodes /\ circle_r c <= circle_r cs
    /\ exists q, q ∈ nodes /\ makeCircumCircle x y p0 p1 q = Some c.

Section Pick.
Variables (nodes : list T) (lc rc : option Circle) (cs : Circle) (p : T).
Hypotheses (Hl : kept 1 nodes lc) (Hr : kept (-1) nodes rc).
Hypotheses (Hcs : on_both cs) (Pcs : proper cs) (Hin : encloses cs nodes).
Hypotheses (Hp : p ∈ nodes) (Hout : 0 < power (makeDiameter x y p0 p1) p).

Lemma picked_left : 0 < side p -> picked nodes lc rc cs.
Proof.
  intros Hs. destruct lc as [lft|]; [|exfalso; apply (Hl p Hp); lra].
  destruct (kept_place 1 nodes lft cs Hl Hcs Hin) as [Hlp _]. specialize (Hlp eq_refl).
  destruct Hl as (L1 & L2 & (ql & Hql & _ & Eql) & L4).
  assert (Hpos : 0 < place lft * side p) by (apply place_side; [done|apply L4; [done|lra]|done]).
  assert (0 < place lft) by nra.
  exists lft. split_and!; [|done..| |apply radius_le; [done..|nra]|eauto].
  - destruct rc as [rgt|]; [|done]. cbn. rewrite (proj2 (of_dec_true _)); [done|].
    destruct (kept_place (-1) nodes rgt cs Hr Hcs Hin) as [_ Hrp]. specialize (Hrp eq_refl).
    destruct Hr as (R1 & R2 & _). apply radius_le; [done..|nra].
  - apply (sides_enclose cs); [done..|intros q Hq ?; apply L4; [done|lra]|]. intros q Hq Hsq.
    apply (right_grows cs lft); [done..|auto].
Qed.

Lemma picked_right : side p < 0 -> picked nodes lc rc cs.
Proof.
  intros Hs. destruct rc as [rgt|]; [|exfalso; apply (Hr p Hp); lra].
  destruct (kept_place (-1) nodes rgt cs Hr Hcs Hin) as [_ Hrp]. specialize (Hrp eq_refl).
  destruct Hr as (R1 & R2 & (qr & Hqr & _ & Eqr) & R4).
  assert (Hneg : 0 < place rgt * side p) by (apply place_side; [done|apply R4; [done|lra]|done]).
  assert (place rgt < 0) by nra.
  assert (Hcr : forall c, on_both c -> place c = place rgt -> encloses c nodes).
  { intros c Hc Ec. apply (sides_enclose cs); [done..| |].
    - intros q Hq Hsq. apply (left_grows cs c); [done..|lra|done|auto].
    - intros q Hq Hsq. apply (right_grows rgt c); [done..|lra|done|apply R4; [done|lra]]. }
  assert (Hsm : circle_r rgt <= circle_r cs) by (apply radius_le; [done..|nra]).
  unfold picked. destruct lc as [lft|]; cbn; [|exists rgt; split_and!; [done..|auto|done|eauto]].
  destruct (kept_place 1 nodes lft cs Hl Hcs Hin) as [Hlp _]. specialize (Hlp eq_refl).
  destruct Hl as (L1 & L2 & (ql & Hql & _ & Eql) & _).
  destruct (Rle_dec (circle_r lft) (circle_r rgt)) as [Hle|]; cbn [of_dec].
  - assert (El : place lft = place rgt) by (pose proof (proj1 (radius_le lft rgt L1 R1 L2 R2) Hle); nra).
    exists lft. split_and!; [done..|auto|lra|eauto].
  - exists rgt. split_and!; [done..|auto|done|eauto].
Qed.

Lemma picked_side : picked nodes lc rc cs.
Proof.
  pose proof (place_side cs p Hcs (Hin p Hp) Hout) as Hs.
  destruct (Rtotal_order 0 (side p)) as [H|[H|H]]; [by apply picked_left| |by apply picked_right].
  rewrite <- H in Hs. lra.
Qed.
End Pick.
End Two.

(** ** The search *)

(** The circles the algorithm tests. *)
Definition candidate (nodes : list T) c : Prop :=
  (exists a, a ∈ nodes /\ c = circle_at (x a) (y a) 0)
  \/ (exists a b, a ∈ nodes /\ b ∈ nodes /\ c = makeDiameter x y a b)
  \/ (exists a b d, a ∈ nodes /\ b ∈ nodes /\ d ∈ nodes /\ makeCircumCircle x y a b d = Some c).

(** No node is outside a tested circle by less than the tolerance. *)
Definition separated (nodes : list T) : Prop :=
  forall c p, candidate nodes c -> p ∈ nodes ->
    distance (x p) (y p) (circle_x c) (circle_y c) <= circle_r c
    \/ circle_r c + EPSILON <= distance (x p) (y p) (circle_x c) (circle_y c).

Section Search.
Variable all : list T.
Hypothesis sep : separated all.

Lemma epsilon_pos : 0 < @EPSILON R Num_R.
Proof. cbn [EPSILON Num_R]. apply Rinv_0_lt_compat, pow_lt. lra. Qed.

Lemma isInCircle_power c p :
  candidate all c -> proper c -> p ∈ all ->
  if isInCircle x y (Some c) p then power c p <= 0 else 0 < power c p.
Proof.
  intros Hc Pc Hp. unfold isInCircle. cbn [ltb add Num_R]. pose proof epsilon_pos as He.
  destruct (sep c p Hc Hp) as [Hd|Hd].
  - rewrite (proj2 (of_dec_true _)) by (cbn [EPSILON Num_R] in *; lra). by apply inside_distance.
  - rewrite (proj2 (of_dec_false _)) by (cbn [EPSILON Num_R] in *; lra). apply Rnot_le_lt.
    rewrite <- inside_distance by done. lra.
Qed.

Lemma forallb_encloses c nodes :
  candidate all c -> proper c -> (forall p, p ∈ nodes -> p ∈ all) ->
  if forallb (isInCircle x y (Some c)) nodes then encloses c nodes
  else exists p, p ∈ nodes /\ 0 < power c p.
Proof.
  intros Hc Pc Hs. destruct (forallb _ nodes) eqn:E.
  - intros p Hp. rewrite forallb_forall in E. pose proof (isInCircle_power c p Hc Pc (Hs p Hp)) as Hi.
    by rewrite E in Hi by by apply list_elem_of_In.
  - assert (Hx : exists p, p ∈ nodes /\ isInCircle x y (Some c) p = false).
    { clear Hs. induction nodes as [|p nodes IH]; [done|]. cbn [forallb] in E. destruct (isInCircle x y (Some c) p) eqn:Ep.
      - destruct (IH E) as (q & Hq & Eq). exists q. split; [set_solver|done].
      - exists p. split; [set_solver|done]. }
    destruct Hx as (p & Hp & Ep). exists p. split; [done|].
    pose proof (isInCircle_power c p Hc Pc (Hs p Hp)) as Hi. by rewrite Ep in Hi.
Qed.

(** The smallest circle through the nodes [b] that has the nodes [l]. *)
Definition least (b : list T) l c : Prop :=
  candidate all c /\ proper c /\ (forall p, p ∈ b -> power c p = 0) /\ encloses c l
  /\ forall c', proper c' -> (forall p, p ∈ b -> power c' p = 0) -> encloses c' l -> circle_r c <= circle_r c'.

Lemma two_nodes_least nodes p0 p1 cs :
  p0 ∈ all -> p1 ∈ all -> (forall p, p ∈ nodes -> p ∈ all) -> 0 < span2 p0 p1 ->
  proper cs -> (forall p, p ∈ [p0; p1] -> power cs p = 0) -> encloses cs nodes ->
  exists c, makeCircleTwoNodes x y nodes p0 p1 = Some c /\ least [p0; p1] nodes c.
Proof.
  intros A0 A1 As Hd Pcs Bcs Ecs. unfold makeCircleTwoNodes.
  destruct (diameter_on_both p0 p1) as [[D0 D1] Pd].
  assert (Cd : candidate all (makeDiameter x y p0 p1)) by (right; left; eauto).
  pose proof (forallb_encloses _ nodes Cd Pd As) as Hf. destruct (forallb _ nodes).
  { exists (makeDiameter x y p0 p1). split; [done|]. split_and!; [done..| |done|].
    - intros p Hp. set_unfold in Hp. by destruct Hp as [->|[->|[]]].
    - intros c' Pc' Bc' _. apply diameter_least; [done|rewrite Bc'; [lra|set_solver]..]. }
  destruct Hf as (q & Hq & Hout).
  destruct (sides_kept p0 p1 Hd nodes [] None None) as (lc & rc & Ef & Kl & Kr);
    [by intros ? ?%elem_of_nil..|]. rewrite Ef. cbn [app] in Kl, Kr.
  assert (Hpick : forall c', proper c' -> (forall p, p ∈ [p0; p1] -> power c' p = 0) -> encloses c' nodes ->
    picked p0 p1 nodes lc rc c').
  { intros c' Pc' Bc' Ec'. apply (picked_side p0 p1 Hd nodes lc rc c' q); try done.
    split; apply Bc'; set_solver. }
  destruct (Hpick cs Pcs Bcs Ecs) as (c & Ep & [O0 O1] & Pc & Ec & _ & (d & Hdn & Ed)).
  exists c. split; [done|]. split_and!; [|done| |done|].
  - right; right. exists p0, p1, d. auto.
  - intros p Hp. set_unfold in Hp. by destruct Hp as [->|[->|[]]].
  - intros c' Pc' Bc' Ec'. destruct (Hpick c' Pc' Bc' Ec') as (c2 & Ep2 & _ & _ & _ & Hle & _).
    rewrite Ep in Ep2. by injection Ep2 as <-.
Qed.

(** A node outside the smallest circle is on the next one. *)
Lemma pushed_out b l q c c' :
  least b l c -> 0 < power c q ->
  proper c' -> (forall p, p ∈ b -> power c' p = 0) -> encloses c' (l ++ [q]) ->
  exists cs, proper cs /\ (forall p, p ∈ q :: b -> power cs p = 0) /\ encloses cs (l ++ [q])
    /\ circle_r cs <= circle_r c'.
Proof.
  intros (_ & Pc & Bc & Ec & Mc) Hq Pc' Bc' Ec'.
  assert (Hr : circle_r c <= circle_r c') by (apply Mc; [done..|]; intros p Hp; apply Ec'; set_solver).
  destruct (between c c' q) as (cs & P & R1 & Z & Hin & Hon); [done..|apply Ec'; set_solver|].
  exists cs. split_and!; [done| | |done].
  - intros p [->|Hp]%elem_of_cons; auto.
  - intros p [Hp| ->%list_elem_of_singleton]%elem_of_app; [|lra]. apply Hin; [auto|apply Ec'; set_solver].
Qed.

Lemma least_weaken b b' l c :
  (forall p, p ∈ b -> p ∈ b') ->
  (forall c', proper c' -> (forall p, p ∈ b -> power c' p = 0) -> encloses c' l ->
     exists cs, proper cs /\ (forall p, p ∈ b' -> power cs p = 0) /\ encloses cs l /\ circle_r cs <= circle_r c') ->
  least b' l c -> least b l c.
Proof.
  intros Hb Hpush (C & P & B & E & M). split_and!; [done..|auto|done|].
  intros c' Pc' Bc' Ec'. destruct (Hpush c' Pc' Bc' Ec') as (cs & Ps & Bs & Es & Hr).
  apply (Rle_trans _ (circle_r cs)); [by apply M|done].
Qed.

Lemma least_inside b l q c : least b l c -> power c q <= 0 -> least b (l ++ [q]) c.
Proof.
  intros (C & P & B & E & M) Hq. split_and!; [done..| |].
  - intros p [Hp| ->%list_elem_of_singleton]%elem_of_app; [auto|done].
  - intros c' Pc' Bc' Ec'. apply M; [done..|]. intros p Hp. apply Ec'. set_solver.
Qed.

Lemma same_place c p q : power c p = 0 -> power c q <= 0 -> circle_r c = 0 -> x q = x p /\ y q = y p.
Proof.
  unfold power. intros Hp Hq Hr. rewrite Hr in *.
  destruct (sum_sqr_zero (x p - circle_x c) (y p - circle_y c)); [lra|].
  destruct (sum_sqr_zero (x q - circle_x c) (y q - circle_y c)); [lra|]. lra.
Qed.

Lemma span2_pos c p q : power c p = 0 -> 0 < power c q -> 0 < span2 p q.
Proof.
  unfold power, span2. intros Hp Hq. destruct (Rle_lt_dec (span2 p q) 0) as [Hz|]; [|done]. unfold span2 in Hz.
  apply sum_sqr_zero in Hz as [Hx Hy]. replace (x q) with (x p) in Hq by lra.
  replace (y q) with (y p) in Hq by lra. lra.
Qed.

(** From a circle of radius zero to a diameter. *)
Lemma diameter_next seen p0 p c :
  p0 ∈ all -> p ∈ all -> least [p0] seen c -> circle_r c = 0 -> least [p0] (seen ++ [p]) (makeDiameter x y p0 p).
Proof.
  intros A0 A (_ & _ & B & E & _) Hr. destruct (diameter_on_both p0 p) as [[D0 D1] Pd].
  split_and!; [right; left; eauto|done| | |].
  - by intros q ->%list_elem_of_singleton.
  - intros q [Hq| ->%list_elem_of_singleton]%elem_of_app; [|lra].
    destruct (same_place c p0 q) as [Hx Hy]; [apply B; set_solver|auto|done|].
    unfold power in *. rewrite Hx, Hy. lra.
  - intros c' Pc' Bc' Ec'. apply diameter_least; [done|rewrite Bc'; [lra|set_solver]|apply Ec'; set_solver].
Qed.

Lemma one_node_least p0 rest seen c cs :
  p0 ∈ all -> (forall p, p ∈ seen ++ rest -> p ∈ all) -> least [p0] seen c ->
  proper cs -> power cs p0 = 0 -> encloses cs (seen ++ rest) ->
  exists c', one_node_loop x y p0 seen rest (Some c) = Ret (Some c') /\ least [p0] (seen ++ rest) c'.
Proof.
  intros A0 As Hc Pcs Bcs Ecs. revert seen c As Hc Ecs.
  induction rest as [|p rest IH]; intros seen c As Hc Ecs; cbn [one_node_loop].
  { rewrite app_nil_r. eauto. }
  assert (Hcons : seen ++ p :: rest = (seen ++ [p]) ++ rest) by (by rewrite <- app_assoc). rewrite Hcons in *.
  assert (Ap : p ∈ all) by (apply As; set_solver).
  assert (Ecs' : encloses cs (seen ++ [p])) by (intros q Hq; apply Ecs; set_solver).
  pose proof (isInCircle_power c p (proj1 Hc) (proj1 (proj2 Hc)) Ap) as Hi.
  destruct (isInCircle x y (Some c) p); cbn [exec_bind].
  { apply IH; [done|by apply least_inside|done]. }
  destruct (eqb (circle_r c) zero) eqn:Er; cbn [exec_bind].
  { apply IH; [done| |done]. apply of_dec_true in Er. by apply (diameter_next seen p0 p c). }
  assert (B0 : forall c', power c' p0 = 0 -> forall q, q ∈ [p0] -> power c' q = 0)
    by (by intros c' ? q ->%list_elem_of_singleton).
  assert (Hswap : forall c', (forall q, q ∈ [p; p0] -> power c' q = 0) -> forall q, q ∈ [p0; p] -> power c' q = 0)
    by (intros c' H q Hq; apply H; set_solver).
  destruct (pushed_out [p0] seen p c cs) as (c2 & P2 & B2 & E2 & _); [auto..|].
  destruct (two_nodes_least (seen ++ [p]) p0 p c2) as (c3 & -> & H3); [done|done| | |done|auto|done|].
  - intros q Hq. apply As. set_solver.
  - apply (span2_pos c); [|done]. apply Hc. set_solver.
  - apply IH; [done| |done]. apply (least_weaken [p0] [p0; p]); [set_solver| |done].
    intros c' Pc' Bc' Ec'. destruct (pushed_out [p0] seen p c c') as (c4 & ? & ? & ? & ?); [done..|].
    exists c4. auto.
Qed.

Lemma makeCircleOneNode_least p0 nodes cs :
  p0 ∈ all -> (forall p, p ∈ nodes -> p ∈ all) -> proper cs -> power cs p0 = 0 -> encloses cs nodes ->
  exists c, makeCircleOneNode x y nodes p0 = Ret (Some c) /\ least [p0] nodes c.
Proof.
  intros A0 As Pcs Bcs Ecs. apply (one_node_least p0 nodes [] _ cs); [done|done| |done..].
  split_and!; [left; eauto|unfold proper; circ; lra| | |].
  - intros q ->%list_elem_of_singleton. unfold power. circ. ring.
  - by intros ? ?%elem_of_nil.
  - intros c' Pc' _ _. exact Pc'.
Qed.

Lemma group_least rest seen c :
  (forall p, p ∈ seen ++ rest -> p ∈ all) -> least [] seen c ->
  exists c', group_loop x y seen rest (Some c) = Ret (Some c') /\ least [] (seen ++ rest) c'.
Proof.
  revert seen c. induction rest as [|p rest IH]; intros seen c As Hc; cbn [group_loop].
  { rewrite app_nil_r. eauto. }
  assert (Hcons : seen ++ p :: rest = (seen ++ [p]) ++ rest) by (by rewrite <- app_assoc). rewrite Hcons in *.
  assert (Ap : p ∈ all) by (apply As; set_solver).
  pose proof (isInCircle_power c p (proj1 Hc) (proj1 (proj2 Hc)) Ap) as Hi.
  destruct (isInCircle x y (Some c) p); cbn [exec_bind]; [by apply IH; [|apply least_inside]|].
  destruct (some_circle (seen ++ [p])) as (cb & Pb & Eb).
  destruct (pushed_out [] seen p c cb) as (cs & Ps & Bs & Es & _); [done|done|done|by intros ? ?%elem_of_nil|done|].
  destruct (makeCircleOneNode_least p (seen ++ [p]) cs) as (c1 & -> & H1); [done| |done| |done|].
  - intros q Hq. apply As. set_solver.
  - apply Bs. set_solver.
  - cbn [exec_bind]. apply IH; [done|]. apply (least_weaken [] [p]); [by intros ? ?%elem_of_nil| |done].
    intros c' Pc' _ Ec'. apply (pushed_out [] seen p c c'); [done|done|done|by intros ? ?%elem_of_nil|done].
Qed.

Lemma group_circle nodes :
  nodes <> [] -> (forall p, p ∈ nodes -> p ∈ all) ->
  exists c, group_loop x y [] nodes None = Ret (Some c) /\ least [] nodes c.
Proof.
  destruct nodes as [|p rest]; [done|]. intros _ As. cbn [group_loop app].
  assert (Ap : p ∈ all) by (apply As; set_solver).
  set (c0 := circle_at (x p) (y p) 0 : Circle).
  assert (Z0 : power c0 p = 0) by (unfold power, c0; circ; ring).
  assert (P0 : proper c0) by (unfold proper, c0; circ; lra).
  assert (E0 : encloses c0 [p]) by (intros q ->%list_elem_of_singleton; lra).
  destruct (makeCircleOneNode_least p [p] c0) as (c & -> & Hc); [done|set_solver|done..|]. cbn [exec_bind].
  apply (group_least rest [p] c); [done|]. apply (least_weaken [] [p]); [by intros ? ?%elem_of_nil| |done].
  intros c' Pc' _ _. exists c0. split_and!; [done| |done|exact Pc']. by intros q ->%list_elem_of_singleton.
Qed.
End Search.

(** ** The circles of the groups *)

(** The smallest circle with the given nodes, in terms of distances. *)
Definition smallest_circle (nodes : list T) c : Prop :=
  (forall p, p ∈ nodes -> distance (x p) (y p) (circle_x c) (circle_y c) <= circle_r c)
  /\ forall cx cy r, (forall p, p ∈ nodes -> distance (x p) (y p) cx cy <= r) -> circle_r c <= r.

Lemma least_smallest all l l' c :
  l <> [] -> Permutation l l' -> least all [] l' c -> smallest_circle l c.
Proof.
  intros Hn Hp (_ & P & _ & E & M). split.
  - intros p Hin. apply inside_distance; [done|]. apply E. by rewrite <- Hp.
  - intros cx cy r Hr. destruct l as [|q l]; [done|].
    assert (Pr : proper (circle_at cx cy r)).
    { unfold proper. circ. pose proof (Hr q (list_elem_of_here _ _)). destruct (distance_sqr (x q) (y q) cx cy). lra. }
    apply (M (circle_at cx cy r)); [done|by intros ? ?%elem_of_nil|].
    intros p Hin. apply inside_distance; [done|]. apply Hr. by rewrite Hp.
Qed.
End Circles.

Section Groups.
Context {T : Type} (x y : T -> R) (shuffle : jsstr -> list T -> list T).

Lemma getGroupCircles_smallest (nodesByGroup : list (jsstr * list T)) :
  (forall g l, Permutation l (shuffle g l)) ->
  (forall g l, (g, l) ∈ nodesByGroup -> separated x y l) ->
  exists circles, getGroupCircles x y shuffle nodesByGroup = Ret circles
    /\ Forall2 (fun gl c => group c = Some gl.1 /\ smallest_circle x y gl.2 c)
         (List.filter (fun gl => negb (Nat.eqb (length gl.2) 0)) nodesByGroup) circles.
Proof.
  intros Hsh Hsep. induction nodesByGroup as [|[g l] rest IH]; cbn [getGroupCircles List.filter].
  { exists []. auto. }
  destruct IH as (cs & -> & Hcs); [intros g' l' H; apply (Hsep g'); set_solver|].
  destruct l as [|p l].
  { pose proof (Hsh g []) as Hp. apply Permutation_nil in Hp as ->. exists cs. auto. }
  destruct (group_circle x y (p :: l) (Hsep g _ (list_elem_of_here _ _)) (shuffle g (p :: l))) as (c & -> & Hc).
  - intros Hn. pose proof (Hsh g (p :: l)) as Hp. rewrite Hn in Hp. by apply Permutation_sym, Permutation_nil in Hp.
  - intros q Hq. by rewrite (Hsh g).
  - exists (named g c :: cs). split; [done|]. constructor; [|done]. split; [done|].
    by apply (least_smallest x y (p :: l) (p :: l) (shuffle g (p :: l)) c).
Qed.

(** C8: Every group with nodes gets one circle under its name, in the order of
    the groups, whatever the shuffle: it has all nodes of the group, and no
    circle with all of them is smaller.  The numbers are exact, and no node is
    outside a tested circle by less than the tolerance. *)
Theorem smallest_enclosing_circles (nodesByGroup : list (jsstr * list T)) :
  (forall g l, Permutation l (shuffle g l)) ->
  (forall g l, (g, l) ∈ nodesByGroup -> separated x y l) ->
  exists circles, getGroupCircles x y shuffle nodesByGroup = Ret circles
    /\ Forall2 (fun gl c => group c = Some gl.1 /\ smallest_circle x y gl.2 c)
         (List.filter (fun gl => negb (Nat.eqb (length gl.2) 0)) nodesByGroup) circles.
Proof. apply getGroupCircles_smallest. Qed.
End Groups.

(** *** A right triangle *)

Definition triangle : list (R * R) := [(0, 0); (6, 0); (0, 8)].

(** A node is inside, or outside by at least one. *)
Lemma far_or_inside (c : NodeGroupCircle R) (p : R * R) (r : R) :
  0 <= r -> 0 <= circle_r c -> circle_r c * circle_r c = r * r ->
  (fst p - circle_x c) * (fst p - circle_x c) + (snd p - circle_y c) * (snd p - circle_y c) <= r * r
  \/ (r + 1) * (r + 1) <= (fst p - circle_x c) * (fst p - circle_x c) + (snd p - circle_y c) * (snd p - circle_y c) ->
  distance (fst p) (snd p) (circle_x c) (circle_y c) <= circle_r c
  \/ circle_r c + EPSILON <= distance (fst p) (snd p) (circle_x c) (circle_y c).
Proof.
  intros Hr Hc Hq. destruct (distance_sqr (fst p) (snd p) (circle_x c) (circle_y c)) as [H1 <-].
  assert (He : circle_r c = r) by nra. rewrite He. intros [H|H]; [left; by apply sqr_le|right].
  assert (r + 1 <= distance (fst p) (snd p) (circle_x c) (circle_y c)) by (apply sqr_le; lra).
  assert (@EPSILON R Num_R <= 1); [|lra]. cbn [EPSILON Num_R]. rewrite <- Rinv_1. apply Rinv_le_contravar; lra.
Qed.

Lemma triangle_diameters a b p :
  a ∈ triangle -> b ∈ triangle -> p ∈ triangle ->
  let c := makeDiameter fst snd a b in
  distance (fst p) (snd p) (circle_x c) (circle_y c) <= circle_r c
  \/ circle_r c + EPSILON <= distance (fst p) (snd p) (circle_x c) (circle_y c).
Proof.
  intros Ha Hb Hp c. destruct (diameter_on_both fst snd a b) as [[H0 _] Pc].
  unfold power in H0. fold c in H0, Pc. unfold proper in Pc.
  assert (Hrr : exists r, 0 <= r <= 5 /\ circle_r c * circle_r c = r * r
    /\ ((fst p - circle_x c) * (fst p - circle_x c) + (snd p - circle_y c) * (snd p - circle_y c) <= r * r
        \/ (r + 1) * (r + 1) <= (fst p - circle_x c) * (fst p - circle_x c) + (snd p - circle_y c) * (snd p - circle_y c))).
  { assert (Hx : circle_x c = (fst a + fst b) / 2) by done. assert (Hy : circle_y c = (snd a + snd b) / 2) by done.
    rewrite Hx, Hy in *. clearbody c. unfold triangle in *. set_unfold.
    destruct Ha as [->|[->|[->|[]]]], Hb as [->|[->|[->|[]]]]; cbn [fst snd] in *.
    all: (exists 0 + exists 3 + exists 4 + exists 5); split_and!; [lra|lra|lra|].
    all: destruct Hp as [->|[->|[->|[]]]]; cbn [fst snd]; first [left; lra | right; lra]. }
  destruct Hrr as (r & Hr & E & D). apply (far_or_inside c p r); [lra|done..].
Qed.

Lemma triangle_separated : separated fst snd triangle.
Proof.
  intros c p [(a & Ha & ->)|[(a & b & Ha & Hb & ->)|(a & b & d & Ha & Hb & Hd & E)]] Hp.
  - replace (circle_at (fst a) (snd a) 0) with (makeDiameter fst snd a a : NodeGroupCircle R);
      [by apply triangle_diameters|]. unfold makeDiameter, circle_at. cbn [add div two Num_R]. f_equal; [field|field|].
    unfold distance. cbn [add sub mul sqrt_ Num_R].
    replace ((fst a - fst a) * (fst a - fst a) + (snd a - snd a) * (snd a - snd a)) with 0 by ring.
    rewrite sqrt_0. field.
  - by apply triangle_diameters.
  - left. destruct (circum_some fst snd a b d c E) as ([H1 H2] & H3 & P & Hs). apply inside_distance; [done|].
    unfold side, cross_of, crossProduct in Hs. cbn [add sub mul Num_R] in Hs. unfold triangle in *. set_unfold.
    destruct Ha as [->|[->|[->|[]]]], Hb as [->|[->|[->|[]]]], Hd as [->|[->|[->|[]]]]; cbn [fst snd] in Hs; try lra.
    all: destruct Hp as [->|[->|[->|[]]]]; lra.
Qed.

Lemma smallest_enclosing_circles_witness :
  exists circles, getGroupCircles fst snd (fun _ l => rev l) [(js "g", triangle); (js "empty", [])] = Ret circles
    /\ Forall2 (fun gl c => group c = Some gl.1 /\ smallest_circle fst snd gl.2 c) [(js "g", triangle)] circles.
Proof.
  apply (smallest_enclosing_circles fst snd (fun _ l => rev l) [(js "g", triangle); (js "empty", [])]).
  - intros _ l. apply Permutation_rev.
  - intros g l [[= -> ->]|[[= -> ->]|[]%elem_of_nil]%elem_of_cons]%elem_of_cons; [apply triangle_separated|].
    intros c p _ Hp. by apply elem_of_nil in Hp.
Defined.
