(* ===== verification/NodeDrawing.v ===== *)
(** * node-canvas.component.ts: the drawing while the layout moves

    The force layout of d3 moves the nodes; on each of its ticks the canvas puts
    the links, the nodes and the circles of the groups where the nodes are.
    The positions are a parameter, as real numbers. *)

From S2P Require Import Prelude JsString Lodash Json Interfaces Ui NodeSelector NodeCanvas NodeGroups.
From Stdlib Require Import Reals Lra FunctionalExtensionality.
From Stdlib Require Import Sorting.Permutation.
#[local] Open Scope R_scope.

(** Where the layout has put the nodes. *)
Record Layout := { at_x : Node -> R; at_y : Node -> R }.

(** The force layout, as it is set up. *)
Record ForceLayout := { charge : Z; chargeDistance : Z; linkDistance : Z; layout_size : Z * Z }.

(** What [ngAfterViewInit] makes: the layout, and the two tooltips by their
    class, their offset and their text. *)
Record Tip (A : Type) := { tip_class : jsstr; tip_offset : Z * Z; tip_html : A -> jsstr }.
Arguments tip_class {A} _.
Arguments tip_offset {A} _.
Arguments tip_html {A} _ _.

Definition group_tooltip (g : NodeGroupCircle R) : jsstr := "Group: <strong>" ++ str_or_undefined g.(group) ++ "</strong>".

Definition nc_ngAfterViewInit (c : NodeCanvasComponent) (canvasWidth canvasHeight : Z)
    : Tip Node * Tip (NodeGroupCircle R) * ForceLayout :=
  ({| tip_class := "chart-tooltip"; tip_offset := (-12, 0)%Z; tip_html := node_tooltip c |},
   {| tip_class := "chart-tooltip"; tip_offset := (-9, 0)%Z; tip_html := group_tooltip |},
   {| charge := -2000; chargeDistance := 2000; linkDistance := 100; layout_size := (canvasWidth, canvasHeight) |}).

(** What [ngOnDestroy] does: handlers removed from the circles and from the
    layout, and elements removed; [drawn]: something was drawn. *)
Inductive teardown := NoHandler (selector event : jsstr) | NoTick | RemoveLinks | RemoveNodes.
Definition nc_ngOnDestroy (drawn : bool) : list teardown :=
  [NoHandler "circle" "click"; NoHandler "circle" "mouseover"; NoHandler "circle" "mouseout"; NoTick]
  ++ (if drawn then [RemoveLinks; RemoveNodes] else []).

Section Drawing.
Context {L : Lodash}.

(** Reading the coordinate of a missing node would throw; [members_present]
    below shows that there is none. *)
Definition px (l : Layout) (n : option Node) : R := match n with Some n => l.(at_x) n | None => 0 end.
Definition py (l : Layout) (n : option Node) : R := match n with Some n => l.(at_y) n | None => 0 end.

(** The circles of the groups, from the positions of a moment. *)
Definition circles_of (c : NodeCanvasComponent) (l : Layout) (shuffle : jsstr -> list (option Node) -> list (option Node))
    : exec (list (NodeGroupCircle R)) :=
  getGroupCircles (px l) (py l) shuffle (getNodesByGroup c (getNodesByName c)).

(** The elements of the groups, made by [render]: their classes. *)
Definition group_elements (c : NodeCanvasComponent) (circles : list (NodeGroupCircle R)) : list jsstr :=
  map (fun g => getNodeGroupClass c (str_or_undefined g.(group))) circles.

(** A drawn circle of a group; a line; the place of a node. *)
Record Mark := { mark_class : jsstr; mark_x : R; mark_y : R; mark_r : R }.
Record Line := { x1 : R; y1 : R; x2 : R; y2 : R }.
Record Picture := { pic_groups : list Mark; pic_links : list Line; pic_nodes : list (R * R) }.

(** A tick: the [i]-th element gets the [i]-th circle. *)
Definition tick (c : NodeCanvasComponent) (elements : list jsstr) (l : Layout)
    (shuffle : jsstr -> list (option Node) -> list (option Node)) : exec Picture :=
  let nodesByName := getNodesByName c in
  let links := map (fun k => {| x1 := px l k.(source); y1 := py l k.(source); x2 := px l k.(target); y2 := py l k.(target) |})
                 (getLinks c nodesByName) in
  circles <-! circles_of c l shuffle;;
  Ret {| pic_groups := zip_with (fun k g => {| mark_class := k; mark_x := g.(circle_x); mark_y := g.(circle_y);
                                               mark_r := g.(circle_r) + 32 |}) elements circles;
         pic_links := links;
         pic_nodes := map (fun n => (l.(at_x) n, l.(at_y) n)) (obj_values nodesByName) |}.
End Drawing.

(** ** Properties *)

Lemma obj_set_elem {V} (o : list (jsstr * V)) k v kv : kv ∈ obj_set o k v -> kv = (k, v) \/ kv ∈ o.
Proof.
  induction o as [|[k' v'] o IH]; cbn; [set_solver|]. destruct (k' === k) eqn:E.
  - apply str_eqb_eq in E as ->. set_solver.
  - rewrite !elem_of_cons. intros [->|H]; [auto|]. destruct (IH H); auto.
Qed.

Lemma byGroup_elem c (byName : list (jsstr * Node)) gs acc g ns :
  (g, ns) ∈ fold_left (fun byGroup g =>
    obj_set byGroup (str_or_undefined g.(nodeGroup_base).(documentSelfLink))
      (map (fun node => obj_get byName node.(node_id)) (obj_values g.(nodes)))) gs acc ->
  (forall x, x ∈ gs -> x ∈ groups_of c) ->
  (g, ns) ∈ acc \/ exists x, x ∈ groups_of c /\ ns = map (fun node => obj_get byName node.(node_id)) (obj_values x.(nodes)).
Proof.
  revert acc. induction gs as [|x gs IH]; intros acc Hin Hgs; [by left|]. cbn in Hin.
  apply IH in Hin as [Hin|Hin]; [|by right|set_solver].
  apply obj_set_elem in Hin as [[= -> ->]|Hin]; [right; exists x; set_solver|by left].
Qed.

(** The nodes of a group are all there. *)
Lemma members_present c g ns n :
  (g, ns) ∈ getNodesByGroup c (getNodesByName c) -> n ∈ ns -> exists m, n = Some m.
Proof.
  intros Hg Hn. apply (byGroup_elem c) in Hg as [Hg|(x & Hx & ->)]; [by apply elem_of_nil in Hg| |done].
  apply list_elem_of_In, in_map_iff in Hn as (m & <- & Hm). apply list_elem_of_In in Hm. by apply (member_kept c x m).
Qed.

(** The ends of a link are two of the drawn nodes. *)
Lemma link_ends c k :
  k ∈ getLinks c (getNodesByName c) ->
  exists s t, k = {| source := Some s; target := Some t |}
    /\ s ∈ obj_values (getNodesByName c) /\ t ∈ obj_values (getNodesByName c).
Proof.
  unfold getLinks. rewrite list_elem_of_In, in_flat_map. intros (g & Hg & Hl). apply list_elem_of_In in Hl, Hg.
  apply group_links_elem in Hl as (s' & t' & Hs & Ht & _ & ->).
  destruct (member_kept c g s' Hg Hs) as [s Es], (member_kept c g t' Hg Ht) as [t Et]. exists s, t. rewrite Es, Et.
  split; [done|]. apply obj_get_elem in Es, Et.
  split; apply list_elem_of_In; [change s with (node_id s', s).2|change t with (node_id t', t).2];
    apply in_map; by apply list_elem_of_In.
Qed.

Section DrawingFacts.
Context {L : Lodash}.

(** The groups that have nodes. *)
Definition full_groups (c : NodeCanvasComponent) : list (jsstr * list (option Node)) :=
  List.filter (fun gl => negb (Nat.eqb (length gl.2) 0)) (getNodesByGroup c (getNodesByName c)).

(** What is asked of a moment: a shuffle, and no node outside a tested circle by
    less than the tolerance. *)
Definition moment_ok (c : NodeCanvasComponent) (l : Layout) (shuffle : jsstr -> list (option Node) -> list (option Node)) : Prop :=
  (forall g ns, Permutation ns (shuffle g ns))
  /\ forall g ns, (g, ns) ∈ getNodesByGroup c (getNodesByName c) -> separated (px l) (py l) ns.

Lemma circles_smallest c l shuffle :
  moment_ok c l shuffle ->
  exists circles, circles_of c l shuffle = Ret circles
    /\ Forall2 (fun gl k => group k = Some gl.1 /\ smallest_circle (px l) (py l) gl.2 k) (full_groups c) circles.
Proof. intros [Hs Hsep]. by apply getGroupCircles_smallest. Qed.

(** C19: Whatever the layout does between the drawing and a tick, the tick
    succeeds: every group with nodes has one circle, in the colour of that group,
    in which the discs of all its nodes lie with 16 pixels to spare, and which is
    32 pixels wider than the smallest circle around the nodes; every line
    joins two nodes of the picture.  The numbers are exact, and no node is
    outside a tested circle by less than the tolerance. *)
Theorem tick_draws_groups (c : NodeCanvasComponent) (l0 l : Layout)
    (shuffle0 shuffle : jsstr -> list (option Node) -> list (option Node)) :
  moment_ok c l0 shuffle0 -> moment_ok c l shuffle ->
  exists circles0 pic, circles_of c l0 shuffle0 = Ret circles0 /\ tick c (group_elements c circles0) l shuffle = Ret pic
    /\ Forall2 (fun gl m => mark_class m = getNodeGroupClass c gl.1
         /\ (forall n, n ∈ gl.2 -> exists v, n = Some v
              /\ distance (at_x l v) (at_y l v) (mark_x m) (mark_y m) + 16 <= mark_r m - 16)
         /\ forall cx cy r, (forall n, n ∈ gl.2 -> distance (px l n) (py l n) cx cy <= r) -> mark_r m <= r + 32)
         (full_groups c) (pic_groups pic)
    /\ forall k, k ∈ pic_links pic -> (x1 k, y1 k) ∈ pic_nodes pic /\ (x2 k, y2 k) ∈ pic_nodes pic.
Proof.
  intros H0 H1. destruct (circles_smallest c l0 shuffle0 H0) as (cs0 & E0 & F0).
  destruct (circles_smallest c l shuffle H1) as (cs & E1 & F1).
  exists cs0. unfold tick. rewrite E1. eexists. split; [done|]. split; [reflexivity|]. cbn [pic_groups pic_links pic_nodes]. split.
  - assert (Hin : forall gl, gl ∈ full_groups c -> gl ∈ getNodesByGroup c (getNodesByName c)).
    { intros gl H. apply list_elem_of_In, filter_In in H as [H _]. by apply list_elem_of_In. }
    clear E0 E1. revert cs0 cs F0 F1 Hin. induction (full_groups c) as [|[g ns] gs IH]; intros cs0 cs F0 F1 Hin.
    { inversion F0; inversion F1; subst. constructor. }
    inversion F0 as [|? k0 ? cs0' [G0 _] F0' E1 E2]; subst. inversion F1 as [|? k ? cs' [_ [Hd Hm]] F1' E1 E2]; subst.
    cbn [group_elements map zip_with]. constructor; [|apply IH; [done|done|set_solver]]. cbn [mark_class mark_x mark_y mark_r fst snd] in *.
    split_and!.
    + by rewrite G0.
    + intros n Hn. destruct (members_present c g ns n) as [v ->]; [apply Hin; set_solver|done|]. exists v. split; [done|].
      pose proof (Hd _ Hn) as Hv. cbn [px py] in Hv. lra.
    + intros cx cy r Hr. pose proof (Hm cx cy r Hr). lra.
  - intros k Hk. apply list_elem_of_In, in_map_iff in Hk as (j & <- & Hj). apply list_elem_of_In in Hj.
    destruct (link_ends c j Hj) as (s & t & -> & Hs & Ht). cbn [x1 y1 x2 y2 px py source target].
    split; apply list_elem_of_In, (in_map (fun n => (at_x l n, at_y l n))); by apply list_elem_of_In.
Qed.
End DrawingFacts.

(** ** An example: three nodes at the corners of a right triangle *)

(** Being separated is a matter of the positions. *)
Lemma separated_map {T} (f : T -> R * R) (ns : list T) :
  separated fst snd (map f ns) -> separated (fun n => fst (f n)) (fun n => snd (f n)) ns.
Proof.
  intros H k p Hk Hp. assert (Hf : forall a, a ∈ ns -> f a ∈ map f ns)
    by (intros a Ha; apply list_elem_of_In, in_map; by apply list_elem_of_In).
  apply (H k (f p)); [|by apply Hf].
  destruct Hk as [(a & Ha & ->)|[(a & b & Ha & Hb & ->)|(a & b & d & Ha & Hb & Hd & E)]].
  - left. exists (f a). auto.
  - right; left. exists (f a), (f b). auto.
  - right; right. exists (f a), (f b), (f d). auto.
Qed.

Definition corner_node (i : jsstr) : Node :=
  {| node_base := no_document; groupReference := "/core/node-groups/default"; status := Some (js "AVAILABLE"); options := [];
     node_id := i; membershipQuorum := 1; node_x := None; node_y := None |}.
Definition corner_group : NodeGroup :=
  {| nodeGroup_base := no_document; config := []; nodes := [(js "a", corner_node "a"); (js "b", corner_node "b"); (js "c", corner_node "c")];
     membershipUpdateTimeMicros := 0 |}.
Definition corner_canvas : NodeCanvasComponent :=
  {| nc_nodeGroups := Some [corner_group]; nc_hostNodeId := None; nc_selectedNodeId := None; nc_highlightedNodeId := None |}.
Definition corner (n : Node) : R * R :=
  if n.(node_id) === "a" then (0, 0) else if n.(node_id) === "b" then (6, 0) else (0, 8).
Definition corner_layout : Layout := {| at_x n := fst (corner n); at_y n := snd (corner n) |}.
Definition corners : list (option Node) := map Some [corner_node "a"; corner_node "b"; corner_node "c"].

Lemma corner_moment : moment_ok corner_canvas corner_layout (fun _ ns => ns).
Proof.
  split; [done|]. intros g ns Hg. assert (Hns : ns = corners).
  { apply list_elem_of_In in Hg. vm_compute in Hg. destruct Hg as [[= <- <-]|[]]. reflexivity. }
  subst ns. set (f o := match o with Some n => corner n | None => (0, 0) end).
  assert (Hx : px corner_layout = fun o => fst (f o)) by (apply functional_extensionality; by intros []).
  assert (Hy : py corner_layout = fun o => snd (f o)) by (apply functional_extensionality; by intros []).
  rewrite Hx, Hy. apply separated_map. assert (map f corners = NodeGroups.triangle) as -> by reflexivity. apply triangle_separated.
Qed.

Lemma tick_draws_groups_witness :
  exists circles0 pic, circles_of corner_canvas corner_layout (fun _ ns => ns) = Ret circles0
    /\ @tick corner_canvas (@group_elements lodash_ref corner_canvas circles0) corner_layout (fun _ ns => ns) = Ret pic
    /\ exists m, pic_groups pic = [m]
       /\ forall i, i ∈ [js "a"; js "b"; js "c"] ->
            distance (at_x corner_layout (corner_node i)) (at_y corner_layout (corner_node i)) (mark_x m) (mark_y m) + 16
            <= mark_r m - 16.
Proof.
  destruct (@tick_draws_groups lodash_ref corner_canvas corner_layout corner_layout (fun _ ns => ns) (fun _ ns => ns)
    corner_moment corner_moment) as (cs & pic & E0 & E1 & H & _).
  exists cs, pic. split; [exact E0|]. split; [exact E1|].
  assert (Hf : full_groups corner_canvas = [(js "undefined", corners)]) by reflexivity. rewrite Hf in H.
  apply Forall2_cons_inv_l in H as (m & ms & (_ & Hm & _) & Hn & Hp). apply Forall2_nil_inv_l in Hn as ->.
  exists m. split; [exact Hp|]. intros i Hi. destruct (Hm (Some (corner_node i))) as (v & [= <-] & Hd); [|exact Hd].
  apply list_elem_of_In. apply list_elem_of_In in Hi. cbn in Hi |- *.
  destruct Hi as [<-|[<-|[<-|[]]]]; auto.
Defined.
