(* ===== verification/Shell.v ===== *)
(** * The shell of the application

    alert.component.ts with its timers, notification.component.ts and
    notification-type.util.ts, property-table.component.ts,
    filter-by-name.pipe.ts, log.service.ts, log.target.ts and console.target.ts
    with the levels of config.ts, and the language state of modules/i18n. *)

From S2P Require Import Prelude JsString JsNumber Lodash Json StringUtil Interfaces Ui.

(** ** Timers of the browser *)

Record Timers := { now : Z; next_timer : nat; pending : list (nat * Z) }.

Definition setTimeout (t : Timers) (delay : Z) : nat * Timers :=
  (t.(next_timer), {| now := t.(now); next_timer := S t.(next_timer);
                      pending := t.(pending) ++ [(t.(next_timer), (t.(now) + delay)%Z)] |}).

(** Clearing [undefined] does nothing. *)
Definition clearTimeout (t : Timers) (id : option nat) : Timers :=
  match id with
  | None => t
  | Some i => {| now := t.(now); next_timer := t.(next_timer);
                 pending := List.filter (fun p => negb (p.1 =? i)%nat) t.(pending) |}
  end.

(** Time passes; the timers that are due fire. *)
Definition due (time : Z) (p : nat * Z) : bool := (p.2 <=? time)%Z.
Definition pass (t : Timers) (d : Z) : Timers * bool :=
  let time := (t.(now) + d)%Z in
  ({| now := time; next_timer := t.(next_timer);
      pending := List.filter (fun p => negb (due time p)) t.(pending) |},
   existsb (due time) t.(pending)).

(** ** alert.component.ts *)

Record AlertComponent := {
  alert_messages : list jsstr;
  alert_type : jsstr;
  autoDismiss : bool;
  isVisible : bool;
  autoDismissTimeout : option nat;
  timers : Timers
}.

Definition defaultTimeoutDelay : Z := 4000.
Definition alertTypes : list jsstr := [js "alert-info"; js "alert-warning"; js "alert-danger"; js "alert-success"].

Definition alert_with (a : AlertComponent) (ms : list jsstr) (v : bool) (o : option nat) (t : Timers) : AlertComponent :=
  {| alert_messages := ms; alert_type := a.(alert_type); autoDismiss := a.(autoDismiss); isVisible := v;
     autoDismissTimeout := o; timers := t |}.

Definition start_timeout (a : AlertComponent) : AlertComponent :=
  let '(i, t) := setTimeout a.(timers) defaultTimeoutDelay in
  alert_with a a.(alert_messages) a.(isVisible) (Some i) t.

(** [None] is a value that is no array. *)
Definition alert_ngOnChanges (a : AlertComponent) (ch : option (SimpleChange (list jsstr))) : AlertComponent :=
  match changed (fun ms : list jsstr => match ms with [] => true | _ => false end) ch with
  | None => a
  | Some ms =>
      let a' := alert_with a ms true a.(autoDismissTimeout) a.(timers) in
      if a.(autoDismiss) then start_timeout a' else a'
  end.

Definition close (a : AlertComponent) : AlertComponent :=
  alert_with a a.(alert_messages) false a.(autoDismissTimeout) a.(timers).
Definition open (a : AlertComponent) : AlertComponent :=
  alert_with a a.(alert_messages) true a.(autoDismissTimeout) a.(timers).

Definition getAlertType (a : AlertComponent) (additionalClasses : jsstr) : jsstr :=
  (if includes alertTypes a.(alert_type) then a.(alert_type) else js "alert-info") ++ " " ++ additionalClasses.

Definition onMoustEnter (a : AlertComponent) : AlertComponent :=
  alert_with a a.(alert_messages) a.(isVisible) a.(autoDismissTimeout)
    (clearTimeout a.(timers) a.(autoDismissTimeout)).
Definition onMouseLeave (a : AlertComponent) : AlertComponent := start_timeout a.

(** Every timer of an alert hides it. *)
Definition alert_wait (a : AlertComponent) (d : Z) : AlertComponent :=
  let '(t, fired) := pass a.(timers) d in
  alert_with a a.(alert_messages) (if fired then false else a.(isVisible)) a.(autoDismissTimeout) t.

(** *** Properties of alerts *)

Definition shows (ms : list jsstr) : option (SimpleChange (list jsstr)) :=
  Some {| currentValue := Some ms; previousValue := None |}.

(** A visible alert without timers, and one whose only timer is the one it
    keeps, with its time. *)
Definition idle (a : AlertComponent) : Prop := a.(timers).(pending) = [].
Definition armed (a : AlertComponent) (time : Z) : Prop :=
  a.(isVisible) = true /\ exists i, a.(autoDismissTimeout) = Some i /\ a.(timers).(pending) = [(i, time)].

Lemma shown_armed a m ms :
  a.(autoDismiss) = true -> idle a -> armed (alert_ngOnChanges a (shows (m :: ms))) (a.(timers).(now) + 4000).
Proof.
  intros Hd Hi. unfold alert_ngOnChanges, changed, shows. cbn [currentValue previousValue].
  rewrite bool_decide_eq_false_2 by done. rewrite Hd. split; [done|]. eexists. split; [done|]. cbn. by rewrite Hi.
Qed.

Lemma leave_armed a : a.(isVisible) = true -> idle a -> armed (onMouseLeave a) (a.(timers).(now) + 4000).
Proof. intros Hv Hi. split; [done|]. eexists. split; [done|]. cbn. by rewrite Hi. Qed.

Lemma armed_wait a time d :
  armed a time -> isVisible (alert_wait a d) = true <-> (a.(timers).(now) + d < time)%Z.
Proof.
  intros (Hv & i & _ & Hp). cbn. rewrite Hp, Hv. cbn. unfold due. cbn. rewrite orb_false_r.
  destruct (Z.leb_spec time (a.(timers).(now) + d)); split; (done || lia).
Qed.

Lemma armed_early a time d : armed a time -> (a.(timers).(now) + d < time)%Z -> armed (alert_wait a d) time.
Proof.
  intros Ha Hd. split; [by apply (armed_wait a time)|]. destruct Ha as (_ & i & Hi & Hp). exists i. split; [done|].
  cbn. rewrite Hp. cbn. unfold due. cbn. by destruct (Z.leb_spec time (a.(timers).(now) + d)); [lia|].
Qed.

Lemma enter_idle a time : armed a time -> idle (onMoustEnter a) /\ isVisible (onMoustEnter a) = true.
Proof. intros (Hv & i & Hi & Hp). split; [|done]. unfold idle. cbn. rewrite Hi. cbn. rewrite Hp. cbn. by rewrite Nat.eqb_refl. Qed.

Lemma idle_wait a d : idle a -> idle (alert_wait a d) /\ isVisible (alert_wait a d) = isVisible a.
Proof. unfold idle. intros Hi. cbn. by rewrite Hi. Qed.

(** A dismissing alert is visible for four seconds after its messages are
    shown; while the mouse is on it it stays, and it goes four seconds after the
    mouse leaves. *)
Theorem alert_dismissed (a : AlertComponent) (m : jsstr) (ms : list jsstr) (d1 stay d2 : Z) :
  a.(autoDismiss) = true -> idle a -> (d1 < 4000)%Z ->
  let shown := alert_ngOnChanges a (shows (m :: ms)) in
  let held := alert_wait (onMoustEnter (alert_wait shown d1)) stay in
  (isVisible (alert_wait shown d2) = true <-> (d2 < 4000)%Z)
  /\ isVisible held = true
  /\ (isVisible (alert_wait (onMouseLeave held) d2) = true <-> (d2 < 4000)%Z).
Proof.
  intros Hd Hi H1 shown held. pose proof (shown_armed a m ms Hd Hi) as Ha. fold shown in Ha.
  assert (Hn : now (timers shown) = now (timers a)).
  { unfold shown, alert_ngOnChanges. destruct (changed _ _); [|done]. by rewrite Hd. }
  destruct (enter_idle (alert_wait shown d1) (now (timers a) + 4000)) as [E1 E2]; [apply armed_early; [done|lia]|].
  destruct (idle_wait _ stay E1) as [W1 W2]. fold held in W1, W2. rewrite E2 in W2. split_and!.
  - rewrite (armed_wait shown _ d2 Ha), Hn. lia.
  - done.
  - rewrite (armed_wait (onMouseLeave held) _ d2 (leave_armed held W2 W1)). cbn. lia.
Qed.

(** The timer of earlier messages is not cleared by later ones: these are
    hidden when it is due, before their four seconds. *)
Lemma later_messages_hidden_early (a : AlertComponent) (m1 m2 : jsstr) (d e : Z) :
  a.(autoDismiss) = true -> idle a -> (0 < d < 4000)%Z -> (0 <= e)%Z ->
  let a1 := alert_wait (alert_ngOnChanges a (shows [m1])) d in
  isVisible (alert_wait (alert_ngOnChanges a1 (shows [m2])) e) = true <-> (d + e < 4000)%Z.
Proof.
  intros Hd Hi H1 H2. destruct a as [ms0 ty ad v o [n nt pe]]. unfold idle in Hi. cbn in Hd, Hi. subst ad pe.
  unfold alert_ngOnChanges, changed, shows. cbn [currentValue previousValue].
  rewrite !bool_decide_eq_false_2 by done. unfold alert_wait, start_timeout, alert_with, setTimeout, pass, due.
  cbn [timers now next_timer pending autoDismiss isVisible alert_messages fst snd app existsb List.filter].
  unfold defaultTimeoutDelay. destruct (Z.leb_spec (n + 4000) (n + d)); [lia|]. cbn [negb app existsb snd orb].
  destruct (Z.leb_spec (n + 4000) (n + d + e)), (Z.leb_spec (n + d + 4000) (n + d + e)); cbn; split; (done || lia).
Qed.

Lemma alert_dismissed_witness :
  let a := {| alert_messages := []; alert_type := "alert-danger"; autoDismiss := true; isVisible := false;
              autoDismissTimeout := None; timers := {| now := 17; next_timer := 1; pending := [] |} |} in
  let shown := alert_ngOnChanges a (shows [js "Failed"]) in
  let held := alert_wait (onMoustEnter (alert_wait shown 3999)) 100000 in
  (isVisible (alert_wait shown 4000) = true <-> (4000 < 4000)%Z)
  /\ isVisible held = true
  /\ (isVisible (alert_wait (onMouseLeave held) 4000) = true <-> (4000 < 4000)%Z).
Proof.
  intros a. apply (alert_dismissed a "Failed" [] 3999 100000 4000); [reflexivity|reflexivity|lia].
Defined.

(** ** notification-type.util.ts, notification.component.ts *)

Definition NotificationTypeUtil : list (jsstr * DisplayInfo) :=
  let info c i n := {| className := js c; iconClassName := js i; displayName := js n |} in
  [ (js "INFO", info "alert-info" "assets/images/ic_info_16x.svg" "Info");
    (js "WARNING", info "alert-warning" "assets/images/ic_warning_16x.svg" "Warning");
    (js "ERROR", info "alert-danger" "assets/images/ic_error_red_16x.svg" "Error");
    (js "SUCCESS", info "alert-success" "assets/images/ic_success_16x.svg" "Success") ].

Definition getNotificationType (notificationType : jsstr) : DisplayInfo :=
  default {| className := []; iconClassName := []; displayName := "Unknown" |}
    (obj_get NotificationTypeUtil notificationType).

Definition getNotificationTypeClass (notificationType : jsstr) : jsstr :=
  (getNotificationType notificationType).(className).

(** Every notification the views send is shown by an alert of its own colour. *)
Lemma notification_alert_type a t extra :
  t ∈ [js "INFO"; js "WARNING"; js "ERROR"; js "SUCCESS"] -> a.(alert_type) = getNotificationTypeClass t ->
  getAlertType a extra = getNotificationTypeClass t ++ " " ++ extra.
Proof.
  intros Ht Ha. unfold getAlertType. rewrite Ha. set_unfold. by destruct Ht as [->|[->|[->|[->|[]]]]].
Qed.

(** ** property-table.component.ts, filter-by-name.pipe.ts *)

Section Tables.
Context {CM : CaseMap} {NT : NumText}.

Definition getValueType (key : jsstr) (value : jsval) : jsstr :=
  if endsWith (toLowerCase key) "link" then "link"
  else match value with
       | JNum _ => if truthy key && endsWith (toLowerCase key) "timemicros" then "date" else "number"
       | JArr _ | JObj _ => "object"
       | _ => "string"
       end.

(** A row: the key, the value or its text, the type. *)
Definition property_row (kv : jsstr * jsval) : jsstr * jsval * jsstr :=
  let t := getValueType kv.1 kv.2 in
  (kv.1, if t === "object" then JStr (stringify_gap "  " [] kv.2) else kv.2, t).

Definition getPropertyArray (properties : option (list (jsstr * jsval))) : list (jsstr * jsval * jsstr) :=
  match properties with None => [] | Some o => map property_row o end.

Definition name_matches (name item : jsstr) : bool := (-1 <? indexOf (toLowerCase item) (toLowerCase name))%Z.

(** Items are texts or objects with a name. *)
Definition transform (value : list (jsstr + option jsstr)) (name : jsstr) : list (jsstr + option jsstr) :=
  match value, name with
  | [], _ | _, [] => value
  | _, _ => List.filter (fun item => match item with
                                     | inl s => name_matches name s
                                     | inr (Some n) => truthy n && name_matches name n
                                     | inr None => false
                                     end) value
  end.
End Tables.

(** ** log.service.ts, log.target.ts, console.target.ts, Config.DEBUG *)

Inductive LogLevel := LDebug | LInfo | LWarning | LError.
Definition level_value (l : LogLevel) : Z := match l with LDebug => 0 | LInfo => 1 | LWarning => 2 | LError => 4 end.

Record DEBUG := { LEVEL_1 : bool; LEVEL_2 : bool; LEVEL_3 : bool; LEVEL_4 : bool }.

(** The guards of [debug], [info], [warn] and [error]. *)
Definition level_on (d : DEBUG) (l : LogLevel) : bool :=
  match l with
  | LDebug => d.(LEVEL_4)
  | LInfo => d.(LEVEL_4) || d.(LEVEL_1)
  | LWarning => d.(LEVEL_4) || d.(LEVEL_2)
  | LError => d.(LEVEL_4) || d.(LEVEL_3)
  end.

(** [LogTargetBase.log]. *)
Definition target_log (minLogLevel level : LogLevel) : bool := (level_value minLogLevel <=? level_value level)%Z.

(** The targets, by their least level, that write the message. *)
Definition log_message (d : DEBUG) (targets : list LogLevel) (level : LogLevel) : list LogLevel :=
  if level_on d level then List.filter (fun t => target_log t level) targets else [].

(** [ConsoleTarget.writeToLog]. *)
Definition writeToLog (level : LogLevel) : jsstr :=
  match level with LDebug => "log" | LInfo => "info" | LWarning => "warn" | LError => "error" end.

Definition IS_DEBUG_MODE (d : DEBUG) : bool := existsb id [d.(LEVEL_1); d.(LEVEL_2); d.(LEVEL_3); d.(LEVEL_4)].
Definition RESET : DEBUG := {| LEVEL_1 := false; LEVEL_2 := false; LEVEL_3 := false; LEVEL_4 := false |}.

(** Something is logged at some level exactly in debug mode. *)
Lemma logs_in_debug_mode d : IS_DEBUG_MODE d = true <-> exists level, log_message d [LDebug] level <> [].
Proof.
  unfold log_message. destruct d as [b1 b2 b3 b4]. cbn. split.
  - intros H. destruct b4; [by exists LError|]. destruct b3; [by exists LError|]. destruct b2; [by exists LWarning|].
    destruct b1; [by exists LInfo|done].
  - intros [[] H]; cbn in H; destruct b1, b2, b3, b4; done.
Qed.

(** ** modules/i18n *)

Inductive i18n_action := ChangeAction (payload : jsstr) | LangChangedAction (payload : jsstr)
  | LangUnsupportedAction (payload : jsstr).

Definition GET_SUPPORTED_LANGUAGES : list (jsstr * jsstr) :=
  [ (js "en", js "English"); (js "es", js "Spanish"); (js "fr", js "French"); (js "ru", js "Russian");
    (js "bg", js "Bulgarian") ].

Definition initialState : jsstr := "en".

Definition reducer (lang : jsstr) (a : i18n_action) : jsstr :=
  match a with LangChangedAction p => if lang !== p then p else lang | _ => lang end.

(** The action an effect answers with. *)
Definition change_effect (languages : list (jsstr * jsstr)) (a : i18n_action) : option i18n_action :=
  match a with
  | ChangeAction l => Some (if includes (map fst languages) l then LangChangedAction l else LangUnsupportedAction l)
  | _ => None
  end.

(** An action reaches the reducer, then the one its effect answers with. *)
Definition dispatch (languages : list (jsstr * jsstr)) (lang : jsstr) (a : i18n_action) : jsstr :=
  let lang' := reducer lang a in
  match change_effect languages a with Some a' => reducer lang' a' | None => lang' end.

(** Over any sequence of language choices the language is the last supported
    one that was chosen, or English before any. *)
Theorem language_last_supported (languages : list (jsstr * jsstr)) (choices : list jsstr) :
  fold_left (dispatch languages) (map ChangeAction choices) initialState
  = default initialState (list.last (List.filter (includes (map fst languages)) choices)).
Proof.
  induction choices as [|l ls IH] using rev_ind; [done|].
  rewrite map_app, fold_left_app, IH, List.filter_app. cbn. unfold dispatch. cbn.
  destruct (includes (map fst languages) l); cbn; [|by rewrite app_nil_r].
  rewrite list.last_snoc. cbn. case_str; subst; done.
Qed.
