(* ===== verification/NodePath.v ===== *)
(** * The path module of Node on POSIX systems

    join, normalize, resolve and relative, on the segments between slashes. *)

From S2P Require Import Prelude JsString.

Definition slash : N := 47.

Definition segments (p : jsstr) : list jsstr := List.filter truthy (split slash p).

Definition is_absolute (p : jsstr) : bool := match p with c :: _ => (c =? slash)%N | [] => false end.

(** One segment of a path, on the reversed segments before it. *)
Definition norm_step (abs : bool) (acc : list jsstr) (seg : jsstr) : list jsstr :=
  if seg === "." then acc
  else if seg === ".." then
    match acc with
    | [] => if abs then [] else [js ".."]
    | top :: rest => if top === ".." then js ".." :: acc else rest
    end
  else seg :: acc.

Definition norm_segments (abs : bool) (segs : list jsstr) : list jsstr := rev (fold_left (norm_step abs) segs []).

Definition normalize (p : jsstr) : jsstr :=
  match p with
  | [] => js "."
  | _ =>
      let abs := is_absolute p in
      let body := join "/" (norm_segments abs (segments p)) in
      let body := if negb (truthy body) && negb abs then js "." else body in
      let body := if truthy body && endsWith p "/" then body ++ "/" else body in
      if abs then "/" ++ body else body
  end.

Definition path_join (ps : list jsstr) : jsstr := normalize (join "/" (List.filter truthy ps)).

(** The segments of the absolute path a path stands for. *)
Definition resolve_segments (cwd p : jsstr) : list jsstr :=
  norm_segments true (if is_absolute p then segments p else segments cwd ++ segments p).

Fixpoint strip_common (a b : list jsstr) : list jsstr * list jsstr :=
  match a, b with
  | x :: a', y :: b' => if x === y then strip_common a' b' else (a, b)
  | _, _ => (a, b)
  end.

Definition relative (cwd from to : jsstr) : jsstr :=
  let '(a, b) := strip_common (resolve_segments cwd from) (resolve_segments cwd to) in
  join "/" (repeat (js "..") (length a) ++ b).

(** ** Facts *)

Lemma strip_common_spec a b a' b' :
  strip_common a b = (a', b') -> exists c, a = c ++ a' /\ b = c ++ b'.
Proof.
  revert b. induction a as [|x a IH]; intros [|y b] H; cbn in H; try (injection H as <- <-; by exists []).
  destruct (x === y) eqn:E; [|injection H as <- <-; by exists []].
  apply str_eqb_eq in E as ->. destruct (IH b H) as (c & -> & ->). by exists (y :: c).
Qed.

Lemma strip_common_same a b : strip_common a (a ++ b) = ([], b).
Proof. induction a as [|x a IH]; [by destruct b|]. cbn. by rewrite str_eqb_refl. Qed.

(** A relative path that does not start with two dots leads to a place below. *)
Lemma relative_inside cwd from to :
  startsWith (relative cwd from to) ".." = false -> exists b, resolve_segments cwd to = resolve_segments cwd from ++ b.
Proof.
  unfold relative. destruct (strip_common _ _) as [a b] eqn:E.
  destruct (strip_common_spec _ _ _ _ E) as (c & Hf & Ht). destruct a as [|x a].
  - intros _. exists b. rewrite Ht, Hf. by rewrite app_nil_r.
  - intros H. exfalso. cbn [length repeat app] in H.
    destruct (repeat (js "..") (length a) ++ b) as [|w ws] eqn:Ew.
    + cbn in H. done.
    + rewrite join_cons in H by done. by rewrite startsWith_app in H.
Qed.

Lemma relative_below cwd from to b :
  resolve_segments cwd to = resolve_segments cwd from ++ b -> relative cwd from to = join "/" b.
Proof. intros H. unfold relative. by rewrite H, strip_common_same. Qed.

(** *** Paths that are normal already *)

Definition clean_segment (s : jsstr) : Prop := s <> [] /\ (slash ∉ s) /\ (s <> js ".") /\ (s <> js "..").

Lemma truthy_clean s : clean_segment s -> truthy s = true.
Proof. intros (H & _). by apply truthy_spec. Qed.

Lemma split_clean segs : segs <> [] -> Forall clean_segment segs -> split slash (join "/" segs) = segs.
Proof.
  intros Hne H. apply split_join; [done|].
  eapply list.Forall_impl; [exact H|]. by intros s (_ & Hs & _).
Qed.

Lemma segments_clean segs : Forall clean_segment segs -> segments (join "/" segs) = segs.
Proof.
  intros H. unfold segments. destruct segs as [|s segs]; [done|]. rewrite split_clean by done.
  induction H as [|x l Hx Hl IH]; [done|]. cbn. rewrite truthy_clean by done. by f_equal.
Qed.

Lemma segments_abs segs : segments ("/" ++ join "/" segs) = segments (join "/" segs).
Proof. reflexivity. Qed.

Lemma norm_step_clean abs acc segs :
  Forall clean_segment segs -> fold_left (norm_step abs) segs acc = rev segs ++ acc.
Proof.
  intros H. revert acc. induction H as [|s l (_ & _ & H1 & H2) Hl IH]; intros acc; [done|].
  cbn [fold_left rev]. rewrite IH. unfold norm_step at 1.
  rewrite (proj2 (str_eqb_neq s ".")), (proj2 (str_eqb_neq s "..")) by done. by rewrite <- app_assoc.
Qed.

Lemma norm_segments_clean abs segs : Forall clean_segment segs -> norm_segments abs segs = segs.
Proof. intros H. unfold norm_segments. rewrite norm_step_clean by done. by rewrite app_nil_r, rev_involutive. Qed.

Lemma join_clean_nonempty segs : segs <> [] -> Forall clean_segment segs -> join "/" segs <> [].
Proof.
  intros Hne H E. pose proof (split_clean segs Hne H) as Hs. rewrite E in Hs.
  destruct segs as [|s [|s' l]]; [done| |done]. injection Hs as <-. apply list.Forall_cons in H as [(Hc & _) _]. done.
Qed.

Lemma endsWith_slash_snoc s c : c <> slash -> endsWith (s ++ [c]) "/" = false.
Proof.
  intros Hc. unfold endsWith. apply bool_decide_eq_false. rewrite length_app. cbn [length].
  change (length (js "/")) with 1. replace (length s + 1 - 1)%nat with (length s) by lia.
  rewrite drop_app_length. intros E. injection E as E. done.
Qed.

Lemma join_clean_last segs :
  segs <> [] -> Forall clean_segment segs -> exists s c, join "/" segs = s ++ [c] /\ c <> slash.
Proof.
  intros Hne H. destruct segs as [|x l _] using rev_ind; [done|]. apply list.Forall_app in H as [Hl Hx].
  apply list.Forall_cons in Hx as [(Hn & Hs & _) _]. destruct x as [|c x _] using rev_ind; [done|].
  assert (c <> slash) by set_solver. destruct (decide (l = [])) as [->|Hl0].
  - exists x, c. split; [|done]. reflexivity.
  - exists (join "/" l ++ "/" ++ x), c. split; [|done]. rewrite join_app by done. cbn [join]. by rewrite <- !app_assoc.
Qed.

Lemma normalize_abs p segs :
  is_absolute p = true -> endsWith p "/" = false -> segments p = segs -> Forall clean_segment segs ->
  normalize p = "/" ++ join "/" segs.
Proof.
  intros Ha He Hs Hc. destruct p as [|c p]; [done|]. unfold normalize. rewrite Ha, Hs, He, norm_segments_clean by done.
  by rewrite !andb_false_r.
Qed.

Lemma clean_no_slash_end x segs :
  segs <> [] -> Forall clean_segment segs -> endsWith (x ++ join "/" segs) "/" = false.
Proof.
  intros Hne H. destruct (join_clean_last segs Hne H) as (s & c & -> & Hc). rewrite app_assoc.
  by apply endsWith_slash_snoc.
Qed.

Lemma normalize_clean segs :
  segs <> [] -> Forall clean_segment segs -> normalize ("/" ++ join "/" segs) = "/" ++ join "/" segs.
Proof. intros. apply normalize_abs; [done|by apply clean_no_slash_end|by apply segments_clean|done]. Qed.

(** Absolute paths are made of clean segments. *)
Lemma norm_segments_abs_clean segs :
  Forall (fun s => s <> [] /\ slash ∉ s) segs -> Forall clean_segment (norm_segments true segs).
Proof.
  intros H. unfold norm_segments. apply Forall_rev.
  assert (G : forall acc, Forall clean_segment acc -> Forall clean_segment (fold_left (norm_step true) segs acc)).
  { induction H as [|s l [H1 H2] Hl IH]; intros acc Ha; [done|]. cbn [fold_left]. apply IH. unfold norm_step.
    destruct (s === ".") eqn:E1; [done|]. destruct (s === "..") eqn:E2.
    - destruct acc as [|t acc]; [done|]. apply list.Forall_cons in Ha as [(Ht1 & Ht2 & Ht3 & Ht4) Ha].
      by rewrite (proj2 (str_eqb_neq t "..")).
    - apply str_eqb_neq in E1, E2. by constructor. }
  apply G. constructor.
Qed.
