(* ===== verification/JsonParse.v ===== *)
(** * JSON.parse

    The grammar of JSON as a recursive descent on the text, with fuel: twice
    the length of the text is always enough ([fuel_enough]).  Parsing undoes
    [stringify_gap] for every indentation by white space ([parse_stringify]). *)

From S2P Require Import Prelude JsString JsNumber Json.

(** ** Tokens *)

Definition is_ws (c : N) : bool := ((c =? 32) || (c =? 9) || (c =? 10) || (c =? 13))%N.
Definition skip_ws (s : jsstr) : jsstr := snd (span is_ws s).

Definition unescape (e : N) : option N :=
  match e with
  | 34%N => Some 34%N | 92%N => Some 92%N | 47%N => Some 47%N | 98%N => Some 8%N | 102%N => Some 12%N
  | 110%N => Some 10%N | 114%N => Some 13%N | 116%N => Some 9%N | _ => None
  end.

Definition push (c : N) (r : option (jsstr * jsstr)) : option (jsstr * jsstr) :=
  match r with Some (s, t) => Some (c :: s, t) | None => None end.

(** The rest of a string, after its opening quote. *)
Fixpoint string_rest (s : jsstr) : option (jsstr * jsstr) :=
  match s with
  | [] => None
  | c :: s' =>
      if (c =? 34)%N then Some ([], s')
      else if (c =? 92)%N then
        match s' with
        | [] => None
        | e :: s'' =>
            if (e =? 117)%N then
              match s'' with
              | h1 :: h2 :: h3 :: h4 :: r =>
                  match digit_in 16 h1, digit_in 16 h2, digit_in 16 h3, digit_in 16 h4 with
                  | Some a, Some b, Some c, Some d => push (((a * 16 + b) * 16 + c) * 16 + d)%N (string_rest r)
                  | _, _, _, _ => None
                  end
              | _ => None
              end
            else match unescape e with Some c => push c (string_rest s'') | None => None end
        end
      else if (c <? 32)%N then None
      else push c (string_rest s')
  end.

Definition strip_unit (c : N) (s : jsstr) : option jsstr :=
  match s with d :: t => if (d =? c)%N then Some t else None | [] => None end.

(** The sign in front. *)
Definition strip_minus (s : jsstr) : bool * jsstr :=
  match strip_unit 45 s with Some t => (true, t) | None => (false, s) end.

(** A number, from its sign on. *)
Definition number_fraction (s : jsstr) : option (Q * jsstr) :=
  match strip_unit 46 s with
  | None => Some (0%Q, s)
  | Some s' => match span is_digit s' with
               | ([], _) => None
               | (ds, r) => Some (inject_Z (Z.of_N (digits_value 0 ds)) * ten_pow (- Z.of_nat (length ds)), r)%Q
               end
  end.

Definition number_exponent (s : jsstr) : option (Z * jsstr) :=
  match s with
  | c :: s' =>
      if ((c =? 101) || (c =? 69))%N then
        let '(neg, s'') := match strip_unit 43 s' with Some t => (false, t) | None => strip_minus s' end in
        match span is_digit s'' with
        | ([], _) => None
        | (ds, r) => let e := Z.of_N (digits_value 0 ds) in Some (if neg : bool then (- e)%Z else e, r)
        end
      else Some (0%Z, s)
  | [] => Some (0%Z, s)
  end.

(** The digits before the point: a zero stands alone. *)
Definition number_digits (s : jsstr) : jsstr * jsstr :=
  match strip_unit 48 s with Some t => ([48%N], t) | None => span is_digit s end.

Definition number_text (s : jsstr) : option (Q * jsstr) :=
  let '(neg, s1) := strip_minus s in
  let '(ds, s2) := number_digits s1 in
  match ds with
  | [] => None
  | _ =>
      match number_fraction s2 with
      | None => None
      | Some (f, s3) =>
          match number_exponent s3 with
          | None => None
          | Some (e, s4) =>
              let i := Z.of_N (digits_value 0 ds) in
              let i := if neg : bool then (- i)%Z else i in
              let f := if neg : bool then Qopp f else f in
              (* the text of an integer is the integer itself *)
              Some (if (e =? 0)%Z && Qeq_bool f 0 then inject_Z i else (inject_Z i + f) * ten_pow e, s4)%Q
          end
      end
  end.

(** ** Values *)

Definition literal (p : jsstr) (v : jsval) (s : jsstr) : option (jsval * jsstr) :=
  match strip_prefix p s with Some r => Some (v, r) | None => None end.

(** The next unit that is not white space. *)
Definition next (s : jsstr) : option (N * jsstr) := match skip_ws s with [] => None | c :: r => Some (c, r) end.

Definition next_is (d : N) (s : jsstr) : option jsstr :=
  match next s with Some (c, r) => if (c =? d)%N then Some r else None | None => None end.

Definition scalar (c : N) (s : jsstr) : option (jsval * jsstr) :=
  if (c =? 34)%N then match string_rest s with Some (t, r) => Some (JStr t, r) | None => None end
  else if (c =? 116)%N then literal "true" (JBool true) (c :: s)
  else if (c =? 102)%N then literal "false" (JBool false) (c :: s)
  else if (c =? 110)%N then literal "null" JNull (c :: s)
  else match number_text (c :: s) with Some (q, r) => Some (JNum q, r) | None => None end.

(** A later property of the same name wins. *)
Definition object_of (o : list (jsstr * jsval)) : jsval := JObj (fold_left (fun o kv => obj_set o kv.1 kv.2) o []).

Fixpoint parse_value (fuel : nat) (s : jsstr) : option (jsval * jsstr) :=
  match fuel with
  | O => None
  | S fuel =>
      match next s with
      | None => None
      | Some (c, s') =>
          if (c =? 91)%N then
            match next_is 93 s' with
            | Some r => Some (JArr [], r)
            | None => match parse_elements fuel s' with Some (l, r) => Some (JArr l, r) | None => None end
            end
          else if (c =? 123)%N then
            match next_is 125 s' with
            | Some r => Some (JObj [], r)
            | None => match parse_members fuel s' with Some (o, r) => Some (object_of o, r) | None => None end
            end
          else scalar c s'
      end
  end
with parse_elements (fuel : nat) (s : jsstr) : option (list jsval * jsstr) :=
  match fuel with
  | O => None
  | S fuel =>
      match parse_value fuel s with
      | None => None
      | Some (v, r) =>
          match next_is 93 r with
          | Some r' => Some ([v], r')
          | None => match next_is 44 r with
                    | Some r' => match parse_elements fuel r' with Some (l, r'') => Some (v :: l, r'') | None => None end
                    | None => None
                    end
          end
      end
  end
with parse_members (fuel : nat) (s : jsstr) : option (list (jsstr * jsval) * jsstr) :=
  match fuel with
  | O => None
  | S fuel =>
      match next_is 34 s with
      | None => None
      | Some s1 =>
          match string_rest s1 with
          | None => None
          | Some (k, r) =>
              match next_is 58 r with
              | None => None
              | Some r1 =>
                  match parse_value fuel r1 with
                  | None => None
                  | Some (v, r2) =>
                      match next_is 125 r2 with
                      | Some r' => Some ([(k, v)], r')
                      | None => match next_is 44 r2 with
                                | Some r' => match parse_members fuel r' with
                                             | Some (o, r'') => Some ((k, v) :: o, r'')
                                             | None => None
                                             end
                                | None => None
                                end
                      end
                  end
              end
          end
      end
  end.

Definition json_parse (s : jsstr) : exec jsval :=
  match parse_value (S (2 * length s)) s with
  | Some (v, r) => match skip_ws r with [] => Ret v | _ => Throw SyntaxError end
  | None => Throw SyntaxError
  end.

(** ** The fuel is enough *)

Lemma skip_ws_length s : length (skip_ws s) <= length s.
Proof.
  unfold skip_ws. destruct (span is_ws s) as [a b] eqn:E. apply span_spec in E as (-> & _). cbn. rewrite length_app. lia.
Qed.

Lemma next_length s c r : next s = Some (c, r) -> length r < length s.
Proof.
  unfold next. pose proof (skip_ws_length s) as H. destruct (skip_ws s); [done|]. intros [= <- <-]. cbn in H. lia.
Qed.

Lemma next_is_length d s r : next_is d s = Some r -> length r < length s.
Proof.
  unfold next_is. destruct (next s) as [[c t]|] eqn:E; [|done]. apply next_length in E.
  destruct (c =? d)%N; [|done]. by intros [= <-].
Qed.

Lemma string_rest_length n s t r : length s <= n -> string_rest s = Some (t, r) -> length r < length s.
Proof.
  revert s t r. induction n as [|n IH]; intros s t r Hn H; [by destruct s; [|cbn in Hn; lia]|].
  destruct s as [|c s]; [done|]. cbn [length] in *.
  assert (Hp : forall d q, push d (string_rest q) = Some (t, r) -> length q <= n -> length r < length q).
  { intros d q Hq Hl. destruct (string_rest q) as [[t' r']|] eqn:E; [|done]. cbn in Hq. injection Hq as _ <-. by eapply IH. }
  cbn [string_rest] in H. destruct (c =? 34)%N; [injection H as _ <-; lia|]. destruct (c =? 92)%N.
  - destruct s as [|e s]; [done|]. cbn [length] in *. destruct (e =? 117)%N.
    + destruct s as [|h1 [|h2 [|h3 [|h4 q]]]]; try done. cbn [length] in *.
      destruct (digit_in 16 h1), (digit_in 16 h2), (digit_in 16 h3), (digit_in 16 h4); try done.
      apply Hp in H; lia.
    + destruct (unescape e); [|done]. apply Hp in H; lia.
  - destruct (c <? 32)%N; [done|]. apply Hp in H; lia.
Qed.

Lemma strip_prefix_length p s r : strip_prefix p s = Some r -> length r <= length s.
Proof. intros ->%strip_prefix_Some. rewrite length_app. lia. Qed.

Lemma strip_unit_Some c s t : strip_unit c s = Some t -> s = c :: t.
Proof. destruct s as [|d s]; [done|]. cbn. destruct (N.eqb_spec d c); [|done]. intros [= <-]. by subst. Qed.

Lemma span_length p s a b : span p s = (a, b) -> length s = length a + length b.
Proof. intros (-> & _)%span_spec. by rewrite length_app. Qed.

Lemma strip_minus_length s b t : strip_minus s = (b, t) -> length t <= length s.
Proof.
  unfold strip_minus. destruct (strip_unit 45 s) as [u|] eqn:E; intros [= <- <-]; [|done].
  apply strip_unit_Some in E as ->. cbn. lia.
Qed.

Lemma number_fraction_length s f r : number_fraction s = Some (f, r) -> length r <= length s.
Proof.
  unfold number_fraction. destruct (strip_unit 46 s) as [t|] eqn:E; [|by intros [= _ <-]].
  apply strip_unit_Some in E as ->. destruct (span is_digit t) as [[|d ds] u] eqn:Es; [done|].
  intros [= _ <-]. apply span_length in Es. cbn in *. lia.
Qed.

Lemma number_exponent_length s e r : number_exponent s = Some (e, r) -> length r <= length s.
Proof.
  unfold number_exponent. destruct s as [|c s]; [by intros [= _ <-]|]. destruct (_ || _); [|by intros [= _ <-]].
  set (sg := match strip_unit 43 s with Some t => (false, t) | None => strip_minus s end).
  assert (Hs : length sg.2 <= length s).
  { unfold sg. destruct (strip_unit 43 s) as [t|] eqn:E; [apply strip_unit_Some in E as ->; cbn; lia|].
    destruct (strip_minus s) eqn:E1. by apply strip_minus_length in E1. }
  destruct sg as [neg u]. cbn in Hs. destruct (span is_digit u) as [[|d ds] w] eqn:Es; [done|].
  intros [= _ <-]. apply span_length in Es. cbn in *. lia.
Qed.

Lemma number_text_length s q r : number_text s = Some (q, r) -> length r < length s.
Proof.
  unfold number_text. destruct (strip_minus s) as [neg s1] eqn:E1. apply strip_minus_length in E1.
  destruct (number_digits s1) as [ds s2] eqn:E2.
  assert (H2 : length s1 = length ds + length s2).
  { unfold number_digits in E2. destruct (strip_unit 48 s1) as [t|] eqn:E; [|by apply span_length in E2].
    injection E2 as <- <-. apply strip_unit_Some in E as ->. done. }
  destruct ds as [|d ds]; [done|]. destruct (number_fraction s2) as [[f s3]|] eqn:E3; [|done].
  destruct (number_exponent s3) as [[e s4]|] eqn:E4; [|done]. intros [= _ <-].
  apply number_fraction_length in E3. apply number_exponent_length in E4. cbn in *. lia.
Qed.

Lemma literal_length p w s v r : p <> [] -> literal p w s = Some (v, r) -> length r < length s.
Proof.
  unfold literal. intros Hp. destruct (strip_prefix p s) as [u|] eqn:E; [|done]. intros [= _ <-].
  apply strip_prefix_Some in E as ->. rewrite length_app. destruct p; [done|cbn; lia].
Qed.

Lemma scalar_length c s v r : scalar c s = Some (v, r) -> length r < S (length s).
Proof.
  unfold scalar. destruct (c =? 34)%N.
  { destruct (string_rest s) as [[t u]|] eqn:E; [|done]. intros [= _ <-].
    apply (string_rest_length (length s)) in E; lia. }
  destruct (c =? 116)%N; [by apply literal_length|]. destruct (c =? 102)%N; [by apply literal_length|].
  destruct (c =? 110)%N; [by apply literal_length|].
  destruct (number_text (c :: s)) as [[q u]|] eqn:E; [|done]. intros [= _ <-]. by apply number_text_length in E.
Qed.

(** What is parsed with some fuel is parsed with any fuel above twice the
    length of the text. *)
Lemma fuel_enough f :
  (forall s v r, parse_value f s = Some (v, r) ->
     length r < length s /\ forall f', 2 * length s <= f' -> parse_value f' s = Some (v, r))
  /\ (forall s l r, parse_elements f s = Some (l, r) ->
     length r < length s /\ forall f', 2 * length s < f' -> parse_elements f' s = Some (l, r))
  /\ (forall s o r, parse_members f s = Some (o, r) ->
     length r < length s /\ forall f', 2 * length s < f' -> parse_members f' s = Some (o, r)).
Proof.
  induction f as [|f (IHv & IHe & IHm)]; [done|]. split_and!; intros s x r H; cbn in H.
  - destruct (next s) as [[c s']|] eqn:En; [|done]. pose proof (next_length _ _ _ En) as Hn.
    assert (Hf : forall f', 2 * length s <= f' -> exists f1, f' = S f1 /\ 2 * length s' < f1).
    { intros f' Hf'. destruct f' as [|f1]; [lia|]. exists f1. split; [done|lia]. }
    destruct (c =? 91)%N eqn:E1; [|destruct (c =? 123)%N eqn:E2].
    + destruct (next_is 93 s') as [r'|] eqn:E3; [|destruct (parse_elements f s') as [[l r']|] eqn:E4; [|done]];
        injection H as <- <-.
      * apply next_is_length in E3 as Hl. split; [lia|]. intros f' (f1 & -> & Hf1)%Hf. cbn. by rewrite En, E1, E3.
      * apply IHe in E4 as [Hl He]. split; [lia|]. intros f' (f1 & -> & Hf1)%Hf. cbn. rewrite En, E1, E3. by rewrite He.
    + destruct (next_is 125 s') as [r'|] eqn:E3; [|destruct (parse_members f s') as [[l r']|] eqn:E4; [|done]];
        injection H as <- <-.
      * apply next_is_length in E3 as Hl. split; [lia|]. intros f' (f1 & -> & Hf1)%Hf. cbn. by rewrite En, E1, E2, E3.
      * apply IHm in E4 as [Hl He]. split; [lia|]. intros f' (f1 & -> & Hf1)%Hf. cbn. rewrite En, E1, E2, E3. by rewrite He.
    + apply scalar_length in H as Hl. split; [lia|]. intros f' (f1 & -> & Hf1)%Hf. cbn. by rewrite En, E1, E2.
  - destruct (parse_value f s) as [[v r1]|] eqn:Ev; [|done]. apply IHv in Ev as [Hl1 Hv].
    destruct (next_is 93 r1) as [r'|] eqn:E3.
    + injection H as <- <-. apply next_is_length in E3 as Hl. split; [lia|]. intros [|f'] Hf'; [lia|]. cbn.
      rewrite Hv by lia. by rewrite E3.
    + destruct (next_is 44 r1) as [r'|] eqn:E4; [|done]. apply next_is_length in E4 as Hl.
      destruct (parse_elements f r') as [[l r2]|] eqn:E5; [|done]. injection H as <- <-.
      apply IHe in E5 as [Hl2 He]. split; [lia|]. intros [|f'] Hf'; [lia|]. cbn. rewrite Hv by lia. rewrite E3, E4.
      by rewrite He by lia.
  - destruct (next_is 34 s) as [s1|] eqn:E1; [|done]. apply next_is_length in E1 as Hl0.
    destruct (string_rest s1) as [[k r1]|] eqn:E2; [|done]. apply (string_rest_length (length s1)) in E2 as Hl1; [|done].
    destruct (next_is 58 r1) as [r2|] eqn:E3; [|done]. apply next_is_length in E3 as Hl2.
    destruct (parse_value f r2) as [[v r3]|] eqn:Ev; [|done]. apply IHv in Ev as [Hl3 Hv].
    destruct (next_is 125 r3) as [r'|] eqn:E4.
    + injection H as <- <-. apply next_is_length in E4 as Hl. split; [lia|]. intros [|f'] Hf'; [lia|]. cbn.
      rewrite E1, E2, E3. rewrite Hv by lia. by rewrite E4.
    + destruct (next_is 44 r3) as [r'|] eqn:E5; [|done]. apply next_is_length in E5 as Hl.
      destruct (parse_members f r') as [[l r4]|] eqn:E6; [|done]. injection H as <- <-.
      apply IHm in E6 as [Hl5 He]. split; [lia|]. intros [|f'] Hf'; [lia|]. cbn. rewrite E1, E2, E3.
      rewrite Hv by lia. rewrite E4, E5. by rewrite He by lia.
Qed.

(** ** Strings and numbers *)

Lemma hex_digit_in d : (d < 16)%N -> digit_in 16 (hex_digit d) = Some d.
Proof.
  intros Hd. assert (H : forallb (fun n => bool_decide (digit_in 16 (hex_digit n) = Some n)) (map N.of_nat (seq 0 16)) = true)
    by reflexivity.
  rewrite forallb_forall in H. apply (bool_decide_eq_true_1 _), H. apply in_map_iff. exists (N.to_nat d).
  split; [by rewrite N2Nat.id|]. apply in_seq. lia.
Qed.

Lemma string_rest_escape c t : string_rest (escape_unit c ++ t) = push c (string_rest t).
Proof.
  unfold escape_unit.
  destruct (N.eqb_spec c 34) as [->|H1]; [done|]. destruct (N.eqb_spec c 92) as [->|H2]; [done|].
  destruct (N.eqb_spec c 8) as [->|_]; [done|]. destruct (N.eqb_spec c 12) as [->|_]; [done|].
  destruct (N.eqb_spec c 10) as [->|_]; [done|]. destruct (N.eqb_spec c 13) as [->|_]; [done|].
  destruct (N.eqb_spec c 9) as [->|_]; [done|]. destruct (N.ltb_spec c 32) as [Hc|Hc].
  - cbn [app string_rest]. change (92 =? 34)%N with false. change (92 =? 92)%N with true. change (117 =? 117)%N with true.
    change (digit_in 16 48) with (Some 0%N). cbv iota.
    rewrite !hex_digit_in by (try apply N.Div0.div_lt_upper_bound; try apply N.mod_lt; lia). cbv iota. f_equal.
    pose proof (N.div_mod c 16 ltac:(lia)). lia.
  - cbn [app string_rest]. apply N.eqb_neq in H1, H2. rewrite H1, H2. by apply N.ltb_ge in Hc as ->.
Qed.

Lemma string_rest_quote s r : string_rest (concat (map escape_unit s) ++ 34%N :: r) = Some (s, r).
Proof.
  induction s as [|c s IH]; [done|]. cbn [map concat]. by rewrite <- app_assoc, string_rest_escape, IH.
Qed.

(** What may follow a value. *)
Definition closes (r : jsstr) : Prop := match r with [] => True | c :: _ => is_ws c = true \/ c = 44%N \/ c = 93%N \/ c = 125%N end.

Lemma closes_unit c r : closes (c :: r) ->
  is_digit c = false /\ c <> 46%N /\ c <> 101%N /\ c <> 69%N.
Proof.
  cbn. unfold is_ws. intros [H|[->|[->| ->]]]; [|by split_and!..].
  repeat (apply orb_true_iff in H as [H|H]); apply N.eqb_eq in H as ->; by split_and!.
Qed.

Lemma number_tail r : closes r -> number_fraction r = Some (0%Q, r) /\ number_exponent r = Some (0%Z, r).
Proof.
  destruct r as [|c r]; [done|]. intros (_ & H1 & H2 & H3)%closes_unit.
  unfold number_fraction, number_exponent. cbn [strip_unit]. apply N.eqb_neq in H1, H2, H3. by rewrite H1, H2, H3.
Qed.

(** A numeral starts with a zero only when it is that zero. *)
Lemma dec_N_zero n t : dec_N n = 48%N :: t -> n = 0%N /\ t = [].
Proof.
  unfold dec_N. intros H. assert (Hn : N.to_uint n = Decimal.unorm (N.to_uint n)).
  { rewrite <- (DecimalN.Unsigned.of_to n) at 1. by rewrite DecimalN.Unsigned.to_of. }
  destruct (N.to_uint n) as [|d|d|d|d|d|d|d|d|d|d] eqn:E; try done.
  unfold Decimal.unorm in Hn. cbn [Decimal.nzhead] in Hn. destruct (Decimal.nzhead d) eqn:Ed; try done.
  - injection Hn as ->. cbn in H. injection H as <-. split; [|done].
    apply (f_equal N.of_uint) in E. rewrite DecimalN.Unsigned.of_to in E. done.
  - exfalso. apply (DecimalFacts.nzhead_nonzero d u). exact Ed.
Qed.

Lemma number_digits_dec n r :
  (match r with c :: _ => is_digit c = false | [] => True end) -> number_digits (dec_N n ++ r) = (dec_N n, r).
Proof.
  intros Hr. unfold number_digits. destruct (strip_unit 48 (dec_N n ++ r)) as [t|] eqn:E.
  - apply strip_unit_Some in E. destruct (dec_N n) as [|c u] eqn:En; [by apply dec_N_nonempty in En|].
    cbn in E. injection E as -> E. destruct (dec_N_zero n u En) as [-> ->]. by rewrite <- E.
  - apply span_app; [apply dec_N_digits|done].
Qed.

Lemma number_text_dec z r : closes r -> number_text (dec_Z z ++ r) = Some (inject_Z z, r).
Proof.
  intros Hr. assert (Hd : match r with c :: _ => is_digit c = false | [] => True end).
  { destruct r as [|c r]; [done|]. by apply closes_unit in Hr as [? _]. }
  destruct (number_tail r Hr) as [Hf He].
  assert (Hpos : forall n, number_text (dec_N n ++ r) = Some (inject_Z (Z.of_N n), r)).
  { intros n. unfold number_text, strip_minus.
    assert (strip_unit 45 (dec_N n ++ r) = None) as ->.
    { pose proof (dec_N_digits n) as Hn. destruct (dec_N n) as [|c u] eqn:En; [by apply dec_N_nonempty in En|].
      apply list.Forall_cons in Hn as [Hc%is_digit_bounds _]. cbn. destruct (N.eqb_spec c 45); [lia|done]. }
    rewrite number_digits_dec by done. destruct (dec_N n) as [|c u] eqn:En; [by apply dec_N_nonempty in En|].
    rewrite Hf, He. cbn [Z.eqb andb]. rewrite <- En, digits_value_dec. done. }
  destruct z as [|p|p]; [exact (Hpos 0%N)|exact (Hpos (Npos p))|].
  cbn [dec_Z app]. unfold number_text, strip_minus. cbn [strip_unit]. change (45 =? 45)%N with true. cbv iota.
  rewrite number_digits_dec by done. destruct (dec_N (Npos p)) as [|c u] eqn:En; [by apply dec_N_nonempty in En|].
  rewrite Hf, He. cbn [Z.eqb andb]. change (Qeq_bool (- 0) 0) with true. cbv iota.
  rewrite <- En, digits_value_dec. done.
Qed.

(** ** White space *)

Definition ws (s : jsstr) : Prop := Forall (fun c => is_ws c = true) s.

Lemma next_ws pre c s : ws pre -> is_ws c = false -> next (pre ++ c :: s) = Some (c, s).
Proof. intros Hp Hc. unfold next, skip_ws. by rewrite span_app. Qed.

Lemma next_is_ws d pre s : ws pre -> is_ws d = false -> next_is d (pre ++ d :: s) = Some s.
Proof. intros Hp Hd. unfold next_is. rewrite next_ws by done. by rewrite N.eqb_refl. Qed.

Lemma next_is_other d pre c s : ws pre -> is_ws c = false -> c <> d -> next_is d (pre ++ c :: s) = None.
Proof. intros Hp Hc Hd. unfold next_is. rewrite next_ws by done. by apply N.eqb_neq in Hd as ->. Qed.

Lemma closes_ws q c r : ws q -> closes (c :: r) -> closes (q ++ c :: r).
Proof. intros Hq Hc. destruct Hq as [|d q Hd _]; [done|]. cbn. by left. Qed.

(** ** Parsing undoes printing *)

Lemma jsval_rect_Forall (P : jsval -> Prop) :
  P JNull -> (forall b, P (JBool b)) -> (forall q, P (JNum q)) -> (forall s, P (JStr s)) ->
  (forall l, Forall P l -> P (JArr l)) -> (forall o, Forall (fun kv => P kv.2) o -> P (JObj o)) ->
  forall v, P v.
Proof.
  intros H1 H2 H3 H4 H5 H6. fix IH 1. intros [|b|q|s|l|o]; [done|done|done|done|apply H5|apply H6].
  - induction l as [|v l IHl]; constructor; [apply IH|exact IHl].
  - induction o as [|[k v] o IHo]; constructor; [apply IH|exact IHo].
Qed.

(** Values whose numbers are integers that are printed without an exponent, and
    whose objects have each property once. *)
Fixpoint json_plain (v : jsval) : Prop :=
  match v with
  | JNull | JBool _ | JStr _ => True
  | JNum q => exists z, (Z.abs z < 10 ^ 21)%Z /\ q = inject_Z z
  | JArr l => (fix all l := match l with [] => True | v :: l' => json_plain v /\ all l' end) l
  | JObj o => NoDup (obj_keys o)
              /\ (fix all o := match o with [] => True | kv :: o' => json_plain kv.2 /\ all o' end) o
  end.

Lemma plain_arr l : json_plain (JArr l) <-> Forall json_plain l.
Proof.
  cbn. induction l as [|v l IH]; [split; [constructor|done]|].
  split; [intros [H1 H2]; constructor; [done|by apply IH]|intros [H1 H2]%list.Forall_cons; split; [done|by apply IH]].
Qed.
Lemma plain_obj o : json_plain (JObj o) <-> NoDup (obj_keys o) /\ Forall (fun kv => json_plain kv.2) o.
Proof.
  cbn. enough (H : (fix all o := match o with [] => True | kv :: o' => json_plain kv.2 /\ all o' end) o <-> Forall (fun kv => json_plain kv.2) o)
    by (by rewrite H).
  induction o as [|kv o IH]; [split; [constructor|done]|].
  split; [intros [H1 H2]; constructor; [done|by apply IH]|intros [H1 H2]%list.Forall_cons; split; [done|by apply IH]].
Qed.

Lemma obj_set_plain (o : list (jsstr * jsval)) k v :
  json_plain v -> Forall (fun kv => json_plain kv.2) o -> Forall (fun kv => json_plain kv.2) (obj_set o k v).
Proof.
  intros Hv Ho. induction Ho as [|[k' v'] o Hk' Ho IH]; cbn; [by repeat constructor|]. destruct (str_eqb k' k); by constructor.
Qed.

Lemma object_of_plain o : NoDup (obj_keys o) -> object_of o = JObj o.
Proof.
  unfold object_of. intros H. f_equal. enough (G : forall acc, NoDup (obj_keys (acc ++ o)) ->
    fold_left (fun o kv => obj_set o kv.1 kv.2) o acc = acc ++ o) by exact (G [] H).
  clear H. induction o as [|[k v] o IH]; intros acc H; cbn [fold_left]; [by rewrite app_nil_r|].
  assert (Hset : obj_set acc k v = acc ++ [(k, v)]).
  { assert (Hk : k ∉ obj_keys acc).
    { unfold obj_keys in *. rewrite fmap_app in H. apply list.NoDup_app in H as (_ & H & _). intros Hin.
      apply (H k Hin). set_solver. }
    clear -Hk. induction acc as [|[k' v'] acc IH]; [done|]. cbn [obj_set]. cbn in Hk. apply not_elem_of_cons in Hk as [Hne Hk].
    rewrite (proj2 (str_eqb_neq k' k)) by congruence. by rewrite IH. }
  cbn [fst snd]. rewrite Hset, IH; by rewrite <- app_assoc.
Qed.

Section RoundTrip.
Context {NT : NumText}.

Lemma text_head gap indent v : json_plain v ->
  exists c t, stringify_gap gap indent v = c :: t /\ is_ws c = false /\ c <> 93%N.
Proof.
  assert (Hb : forall l r items, exists t, bracketed gap indent l r items = l ++ t).
  { intros l r items. unfold bracketed. destruct items; [by eexists|]. destruct gap; by eexists. }
  destruct v as [|[]|q|s|l|o]; cbn [stringify_gap].
  - intros _. exists 110%N, (js "ull"). split; [reflexivity|done].
  - intros _. exists 116%N, (js "rue"). split; [reflexivity|done].
  - intros _. exists 102%N, (js "alse"). split; [reflexivity|done].
  - intros (z & Hz & ->). rewrite num_text_int by done.
    assert (Hd : forall n, exists c t, dec_N n = c :: t /\ is_ws c = false /\ c <> 93%N).
    { intros n. pose proof (dec_N_digits n) as Hn. destruct (dec_N n) as [|c t] eqn:E; [by apply dec_N_nonempty in E|].
      exists c, t. apply list.Forall_cons in Hn as [Hc%is_digit_bounds _]. split; [done|].
      unfold is_ws. split; [|lia]. by rewrite !(proj2 (N.eqb_neq c _)) by lia. }
    destruct z; [apply Hd|apply Hd|]. eexists _, _. by split; [reflexivity|].
  - intros _. exists 34%N, (concat (map escape_unit s) ++ [34%N]). split; [reflexivity|done].
  - intros _. destruct (Hb "[" "]" (map (stringify_gap gap (indent ++ gap)) l)) as [t ->]. exists 91%N, t. split; [reflexivity|done].
  - intros _. destruct (Hb "{" "}" (map (fun '(k, w) => quote k ++ (match gap with [] => js ":" | _ => js ": " end)
                                      ++ stringify_gap gap (indent ++ gap) w) o)) as [t ->]. exists 123%N, t. split; [reflexivity|done].
Qed.

(** Brackets around items: white space before each item and after the last. *)
Lemma bracketed_form gap indent l r items :
  ws gap -> ws indent -> items <> [] ->
  exists p q, ws p /\ ws q /\ bracketed gap indent l r items = l ++ p ++ join ("," ++ p) items ++ q ++ r.
Proof.
  intros Hg Hi Hne. assert (Hn : is_ws 10 = true) by done. destruct items as [|i items]; [done|]. destruct gap as [|g gap].
  - exists [], []. split_and!; [constructor|constructor|]. cbn [bracketed app]. by rewrite app_nil_r.
  - exists ([10%N] ++ indent ++ g :: gap), ([10%N] ++ indent). split_and!.
    + constructor; [done|]. by apply list.Forall_app.
    + by constructor.
    + cbn [bracketed]. by rewrite <- !app_assoc.
Qed.

(** A text that is read as a value wherever it stands. *)
Definition reads (text : jsstr) (v : jsval) : Prop :=
  forall pre rest, ws pre -> closes rest -> exists f, parse_value f (pre ++ text ++ rest) = Some (v, rest).

Lemma reads_enough text v pre rest f :
  reads text v -> ws pre -> closes rest -> 2 * length (pre ++ text ++ rest) <= f ->
  parse_value f (pre ++ text ++ rest) = Some (v, rest).
Proof. intros H Hp Hr Hf. destruct (H pre rest Hp Hr) as [f0 H0]. by apply (proj1 (fuel_enough f0)) in H0 as [_ ?]; auto. Qed.

Lemma parse_elements_join (T : jsval -> jsstr) l p q rest :
  l <> [] -> Forall (fun v => reads (T v) v) l -> ws p -> ws q ->
  exists f, parse_elements f (p ++ join ("," ++ p) (map T l) ++ q ++ 93%N :: rest) = Some (l, rest).
Proof.
  intros Hne Hl Hp Hq. induction Hl as [|v l Hv Hl IH]; [done|]. destruct l as [|v' l].
  - cbn [map join]. exists (S (2 * length (p ++ T v ++ q ++ 93%N :: rest))). cbn [parse_elements].
    rewrite (reads_enough (T v) v p (q ++ 93%N :: rest)) by (done || by apply closes_ws; [|cbn; auto]).
    by rewrite next_is_ws.
  - destruct IH as [f Hf]; [done|]. rewrite map_cons, join_cons by done. rewrite <- !app_assoc.
    set (more := p ++ join ("," ++ p) (map T (v' :: l)) ++ q ++ 93%N :: rest) in *.
    change (js "," ++ more) with (44%N :: more).
    exists (S (2 * length (p ++ T v ++ 44%N :: more) + 2 * length more + 1)). cbn [parse_elements].
    rewrite (reads_enough (T v) v p (44%N :: more)) by (first [done|cbn; by auto|lia]).
    change (next_is 93 (44%N :: more)) with (@None jsstr). change (next_is 44 (44%N :: more)) with (Some more). cbv iota.
    rewrite (proj2 (proj1 (proj2 (fuel_enough f)) _ _ _ Hf)) by lia. done.
Qed.

Lemma parse_members_join (T : jsval -> jsstr) (colon : jsstr) o p q rest :
  o <> [] -> Forall (fun kv => reads (T kv.2) kv.2) o -> ws p -> ws q -> ws colon ->
  exists f, parse_members f (p ++ join ("," ++ p) (map (fun '(k, w) => quote k ++ (js ":" ++ colon) ++ T w) o) ++ q ++ 125%N :: rest)
            = Some (o, rest).
Proof.
  intros Hne Ho Hp Hq Hc. induction Ho as [|[k v] o Hv Ho IH]; [done|]. cbn [snd] in Hv.
  assert (Hone : forall tail f, closes tail -> 2 * length (colon ++ T v ++ tail) <= f ->
    (forall r, next_is 125 tail = Some r -> parse_members (S f) (p ++ (quote k ++ (js ":" ++ colon) ++ T v) ++ tail) = Some ([(k, v)], r))
    /\ (next_is 125 tail = None -> forall r, next_is 44 tail = Some r ->
        parse_members (S f) (p ++ (quote k ++ (js ":" ++ colon) ++ T v) ++ tail)
        = match parse_members f r with Some (o, r'') => Some ((k, v) :: o, r'') | None => None end)).
  { intros tail f Ht Hf. unfold quote. rewrite <- !app_assoc.
    change (p ++ [34%N] ++ ?x) with (p ++ 34%N :: x).
    assert (E : parse_members (S f) (p ++ 34%N :: concat (map escape_unit k) ++ 34%N :: 58%N :: colon ++ T v ++ tail)
      = match next_is 125 tail with
        | Some r' => Some ([(k, v)], r')
        | None => match next_is 44 tail with
                  | Some r' => match parse_members f r' with Some (o, r'') => Some ((k, v) :: o, r'') | None => None end
                  | None => None
                  end
        end).
    { cbn [parse_members]. rewrite next_is_ws by done. rewrite string_rest_quote. change (next_is 58 (58%N :: ?x)) with (Some x). cbv iota.
      by rewrite (reads_enough (T v) v colon tail). }
    split; [intros r Hr|intros Hn r Hr]; (etransitivity; [exact E|]); by rewrite ?Hn, Hr. }
  destruct o as [|kv' o].
  - cbn [map join]. set (tail := q ++ 125%N :: rest).
    exists (S (2 * length (colon ++ T v ++ tail))). apply Hone; [apply closes_ws; [done|cbn; auto]|done|by apply next_is_ws].
  - destruct IH as [f Hf]; [done|]. rewrite map_cons, join_cons by done. rewrite <- (app_assoc (quote k ++ _ ++ _)).
    set (more := p ++ join ("," ++ p) (map _ (kv' :: o)) ++ q ++ 125%N :: rest) in *.
    replace (((js "," ++ p) ++ join (js "," ++ p) (map _ (kv' :: o))) ++ q ++ 125%N :: rest) with (44%N :: more)
      by (unfold more; by rewrite <- !app_assoc).
    exists (S (2 * length (colon ++ T v ++ 44%N :: more) + 2 * length more + 1)).
    rewrite (proj2 (Hone (44%N :: more) (2 * length (colon ++ T v ++ 44%N :: more) + 2 * length more + 1)
      ltac:(cbn; auto) ltac:(lia)) eq_refl more eq_refl).
    rewrite (proj2 (proj2 (proj2 (fuel_enough f)) _ _ _ Hf)) by lia. done.
Qed.

(** A text that starts with [c] is read by the rule for [c]. *)
Lemma reads_scalar c t v :
  is_ws c = false -> c <> 91%N -> c <> 123%N ->
  (forall rest, closes rest -> scalar c (t ++ rest) = Some (v, rest)) -> reads (c :: t) v.
Proof.
  intros Hc H1 H2 Hs pre rest Hp Hr. exists 1. cbn [parse_value app]. rewrite next_ws by done.
  apply N.eqb_neq in H1, H2. rewrite H1, H2. by apply Hs.
Qed.

Lemma reads_int z : reads (dec_Z z) (JInt z).
Proof.
  assert (H : exists c t, dec_Z z = c :: t /\ (c = 45%N \/ (48 <= c <= 57)%N)).
  { assert (Hd : forall n, exists c t, dec_N n = c :: t /\ (c = 45%N \/ (48 <= c <= 57)%N)).
    { intros n. pose proof (dec_N_digits n) as Hn. destruct (dec_N n) as [|c t] eqn:E; [by apply dec_N_nonempty in E|].
      exists c, t. apply list.Forall_cons in Hn as [Hc%is_digit_bounds _]. auto. }
    destruct z; [apply Hd|apply Hd|]. by eexists _, _; split; [reflexivity|left]. }
  destruct H as (c & t & E & Hc). rewrite E. apply reads_scalar; [|lia..|].
  - unfold is_ws. by rewrite !(proj2 (N.eqb_neq c _)) by lia.
  - intros rest Hr. unfold scalar. rewrite !(proj2 (N.eqb_neq c _)) by lia.
    change (c :: t ++ rest) with ((c :: t) ++ rest). rewrite <- E, number_text_dec by done. done.
Qed.

Lemma reads_array inner l :
  (forall rest, (inner = [] /\ l = [])
     \/ (next_is 93 (inner ++ 93%N :: rest) = None /\ exists f, parse_elements f (inner ++ 93%N :: rest) = Some (l, rest))) ->
  reads ("[" ++ inner ++ "]") (JArr l).
Proof.
  intros H pre rest Hp _. destruct (H rest) as [[-> ->]|[Hn [f Hf]]].
  - exists 1. cbn [parse_value]. change (pre ++ (js "[" ++ [] ++ js "]") ++ rest) with (pre ++ 91%N :: 93%N :: rest).
    by rewrite next_ws.
  - exists (S f). cbn [parse_value]. rewrite <- !app_assoc. change (js "[" ++ ?x) with (91%N :: x).
    change (js "]" ++ rest) with (93%N :: rest). rewrite next_ws by done. change (91 =? 91)%N with true. cbv iota.
    by rewrite Hn, Hf.
Qed.

Lemma reads_object inner o :
  NoDup (obj_keys o) ->
  (forall rest, (inner = [] /\ o = [])
     \/ (next_is 125 (inner ++ 125%N :: rest) = None /\ exists f, parse_members f (inner ++ 125%N :: rest) = Some (o, rest))) ->
  reads ("{" ++ inner ++ "}") (JObj o).
Proof.
  intros Hnd H pre rest Hp _. destruct (H rest) as [[-> ->]|[Hn [f Hf]]].
  - exists 1. cbn [parse_value]. change (pre ++ (js "{" ++ [] ++ js "}") ++ rest) with (pre ++ 123%N :: 125%N :: rest).
    by rewrite next_ws.
  - exists (S f). cbn [parse_value]. rewrite <- !app_assoc. change (js "{" ++ ?x) with (123%N :: x).
    change (js "}" ++ rest) with (125%N :: rest). rewrite next_ws by done.
    change (123 =? 91)%N with false. change (123 =? 123)%N with true. cbv iota. by rewrite Hn, Hf, object_of_plain.
Qed.

Lemma join_head sep c t ws x : exists y, join sep ((c :: t) :: ws) ++ x = c :: y.
Proof. destruct ws; by eexists. Qed.

Lemma reads_array_text gap indent (T : jsval -> jsstr) l :
  ws gap -> ws indent -> Forall (fun v => reads (T v) v) l ->
  Forall (fun v => exists c t, T v = c :: t /\ is_ws c = false /\ c <> 93%N) l ->
  reads (bracketed gap indent "[" "]" (map T l)) (JArr l).
Proof.
  intros Hg Hi Hl Hh. destruct (decide (l = [])) as [->|Hne]; [apply (reads_array [] []); by left|].
  destruct (bracketed_form gap indent "[" "]" (map T l) Hg Hi) as (p & q & Hp & Hq & ->); [by destruct l|].
  rewrite (app_assoc _ q), (app_assoc p). apply reads_array. intros rest. right. rewrite <- !app_assoc.
  split; [|by apply parse_elements_join].
  destruct Hh as [|v l (c & t & Ec & Hc & Hc93) _]; [done|]. cbn [map]. rewrite Ec.
  destruct (join_head ("," ++ p) c t (map T l) (q ++ 93%N :: rest)) as [y ->]. by apply next_is_other.
Qed.

Lemma reads_object_text gap indent colon (T : jsval -> jsstr) o :
  ws gap -> ws indent -> ws colon -> NoDup (obj_keys o) -> Forall (fun kv => reads (T kv.2) kv.2) o ->
  reads (bracketed gap indent "{" "}" (map (fun '(k, w) => quote k ++ (js ":" ++ colon) ++ T w) o)) (JObj o).
Proof.
  intros Hg Hi Hc Hnd Ho. destruct (decide (o = [])) as [->|Hne]; [apply (reads_object [] []); [constructor|by left]|].
  set (M := fun '(k, w) => quote k ++ (js ":" ++ colon) ++ T w).
  destruct (bracketed_form gap indent "{" "}" (map M o) Hg Hi) as (p & q & Hp & Hq & ->); [by destruct o|].
  rewrite (app_assoc _ q), (app_assoc p). apply reads_object; [done|]. intros rest. right. rewrite <- !app_assoc.
  split; [|by apply parse_members_join]. destruct o as [|[k w] o]; [done|].
  destruct (join_head ("," ++ p) 34 ((concat (map escape_unit k) ++ [34%N]) ++ (js ":" ++ colon) ++ T w) (map M o)
    (q ++ 125%N :: rest)) as [y Hy].
  change (join ("," ++ p) (map M ((k, w) :: o)) ++ q ++ 125%N :: rest) with
    (join ("," ++ p) ((34%N :: (concat (map escape_unit k) ++ [34%N]) ++ (js ":" ++ colon) ++ T w) :: map M o) ++ q ++ 125%N :: rest).
  rewrite Hy. by apply next_is_other.
Qed.

Lemma reads_stringify v gap indent : ws gap -> ws indent -> json_plain v -> reads (stringify_gap gap indent v) v.
Proof.
  intros Hg. revert indent. induction v as [|b|q|s|l IH|o IH] using jsval_rect_Forall; intros indent Hi Hv; cbn [stringify_gap].
  - change (js "null") with (110%N :: js "ull"). by apply reads_scalar.
  - destruct b; [change (js "true") with (116%N :: js "rue")|change (js "false") with (102%N :: js "alse")]; by apply reads_scalar.
  - destruct Hv as (z & Hz & ->). rewrite num_text_int by done. apply reads_int.
  - apply reads_scalar; [done..|]. intros rest _. unfold scalar. cbn [N.eqb Pos.eqb].
    rewrite <- app_assoc. change ([34%N] ++ rest) with (34%N :: rest). by rewrite string_rest_quote.
  - apply plain_arr in Hv. assert (Hig : ws (indent ++ gap)) by (by apply list.Forall_app).
    apply reads_array_text; [done..| |]; rewrite list.Forall_forall in IH, Hv |- *; intros v Hin.
    + by apply IH; [|done|apply Hv].
    + by apply text_head, Hv.
  - apply plain_obj in Hv as [Hnd Hv]. assert (Hig : ws (indent ++ gap)) by (by apply list.Forall_app).
    set (colon := match gap with [] => [] | _ => [32%N] end).
    assert (Hcc : (match gap with [] => js ":" | _ => js ": " end) = js ":" ++ colon) by (unfold colon; by destruct gap).
    rewrite Hcc. apply reads_object_text; [done|done| |done|].
    + unfold colon. destruct gap; [constructor|by apply list.Forall_cons].
    + rewrite list.Forall_forall in IH, Hv |- *. intros kv Hin. by apply IH; [|done|apply Hv].
Qed.
End RoundTrip.

(** JSON.parse undoes JSON.stringify, with any indentation. *)
Lemma parse_stringify {NT : NumText} (gap : jsstr) (v : jsval) :
  ws gap -> json_plain v -> json_parse (stringify_gap gap [] v) = Ret v.
Proof.
  intros Hg Hv. unfold json_parse. set (t := stringify_gap gap [] v).
  destruct (reads_stringify v gap [] Hg (Forall_nil_2 _) Hv [] [] (Forall_nil_2 _) I) as [f Hf].
  cbn [app] in Hf. fold t in Hf. rewrite app_nil_r in Hf.
  rewrite (proj2 (proj1 (fuel_enough f) _ _ _ Hf)) by lia. done.
Qed.
