(* ===== verification/Lifecycle.v ===== *)
(** * The life of the views

    Every view of the user interface subscribes in [ngOnInit] to subjects that
    live as long as the application (the selected node, the parameters of the
    route, ...), keeps the subscription of a request in a field of its own, and
    gives up in [ngOnDestroy] what its fields hold.  Here a view is the table
    of its subscriptions, and a run is any interleaving of its handlers, of
    values and of answers.  A request that takes the field of an earlier one
    does not cancel it: the earlier one is still answered, also after the view
    is gone. *)

From S2P Require Import Prelude JsString.

(** ** Subscriptions *)

Inductive source := HostNode | SelectedNode | NodeSelectorActive | Notifications | QueryParams | RouteParams.

(** A request whose subscription a field keeps, or one that no field keeps. *)
Inductive ask := Kept (field : jsstr) | Loose (what : jsstr).

Inductive target := Watching (s : source) | Asked (a : ask).

#[global] Instance source_eq : EqDecision source.
Proof. solve_decision. Defined.
#[global] Instance ask_eq : EqDecision ask.
Proof. solve_decision. Defined.
#[global] Instance target_eq : EqDecision target.
Proof. solve_decision. Defined.

(** A view: the subjects that [ngOnInit] subscribes to, with their fields, and
    the requests it makes; the requests that the handler of a subject, a
    handler of inputs and of the template, and the handler of an answer may
    make; the fields that [ngOnDestroy] gives up. *)
Record view := {
  opens : list (jsstr * source);
  init_asks : list ask;
  on_value : list (source * list ask);
  on_user : list ask;
  on_reply : list (ask * list ask);
  gives_up : list jsstr
}.

Definition asks_of {K} `{EqDecision K} (t : list (K * list ask)) (k : K) : list ask :=
  flat_map (fun kl => if bool_decide (kl.1 = k) then kl.2 else []) t.

Record view_state := {
  fields : list (jsstr * nat);
  active : list (nat * target);
  next : nat;
  destroyed : bool
}.

Definition subscribe_to (field : option jsstr) (t : target) (st : view_state) : view_state :=
  {| fields := match field with Some f => obj_set st.(fields) f st.(next) | None => st.(fields) end;
     active := st.(active) ++ [(st.(next), t)]; next := S st.(next); destroyed := st.(destroyed) |}.

Definition set_active (l : list (nat * target)) (st : view_state) : view_state :=
  {| fields := st.(fields); active := l; next := st.(next); destroyed := st.(destroyed) |}.

Definition ends (i : nat) (st : view_state) : view_state :=
  set_active (List.filter (fun it => negb (it.1 =? i)%nat) st.(active)) st.

(** [if (!_.isUndefined(this.field)) this.field.unsubscribe()]. *)
Definition unsubscribe_field (st : view_state) (f : jsstr) : view_state :=
  match obj_get st.(fields) f with Some i => ends i st | None => st end.

Definition make (st : view_state) (a : ask) : view_state :=
  subscribe_to (match a with Kept f => Some f | Loose _ => None end) (Asked a) st.

Definition ngOnInit (v : view) : view_state :=
  let st := fold_left make v.(init_asks) {| fields := []; active := []; next := 0; destroyed := false |} in
  fold_left (fun st fs => subscribe_to (Some fs.1) (Watching fs.2) st) v.(opens) st.

Definition ngOnDestroy (v : view) (st : view_state) : view_state :=
  let st := fold_left unsubscribe_field v.(gives_up) st in
  {| fields := st.(fields); active := st.(active); next := st.(next); destroyed := true |}.

(** ** Runs *)

Inductive view_step (v : view) : view_state -> view_state -> Prop :=
  | step_user st l :
      st.(destroyed) = false -> l `sublist_of` v.(on_user) -> view_step v st (fold_left make l st)
  | step_value st i s l :
      (i, Watching s) ∈ st.(active) -> l `sublist_of` asks_of v.(on_value) s -> view_step v st (fold_left make l st)
  | step_reply st i a l :
      (i, Asked a) ∈ st.(active) -> l `sublist_of` asks_of v.(on_reply) a ->
      view_step v st (fold_left make l (ends i st))
  | step_destroy st :
      st.(destroyed) = false -> view_step v st (ngOnDestroy v st).

Definition reach (v : view) : view_state -> Prop := star (view_step v) (ngOnInit v).

(** A run of so many steps. *)
Inductive steps (v : view) : nat -> view_state -> view_state -> Prop :=
  | steps_0 st : steps v 0 st st
  | steps_S n st st1 st2 : view_step v st st1 -> steps v n st1 st2 -> steps v (S n) st st2.

(** ** The views *)

Definition NotificationView : view :=
  {| opens := [(js "notificationServiceSubscription", Notifications)]; init_asks := []; on_value := []; on_user := [];
     on_reply := []; gives_up := [js "notificationServiceSubscription"] |}.

(** The menu entry that logs out makes a request that no field keeps. *)
Definition NavbarView : view :=
  {| opens := [(js "nodeSelectorServiceGetHostSubscription", HostNode);
               (js "nodeSelectorServiceGetSelectedSubscription", SelectedNode);
               (js "nodeSelectorServiceGetActiveSubscription", NodeSelectorActive)];
     init_asks := []; on_value := []; on_user := [Loose "logout"]; on_reply := [];
     gives_up := [js "nodeSelectorServiceGetActiveSubscription"; js "nodeSelectorServiceGetSelectedSubscription";
                  js "nodeSelectorServiceGetHostSubscription"] |}.

Definition NodeInfoPanelView : view :=
  {| opens := []; init_asks := []; on_value := []; on_user := [Kept "baseServiceSubscription"]; on_reply := [];
     gives_up := [js "baseServiceSubscription"] |}.

Definition NodeSelectorView : view :=
  {| opens := [(js "activatedRouteSubscription", QueryParams); (js "nodeSelectorServiceGetActiveSubscription", NodeSelectorActive)];
     init_asks := []; on_value := [(QueryParams, [Kept "baseServiceGetDocumentSubscription"])]; on_user := [];
     on_reply := [(Kept "baseServiceGetDocumentSubscription", [Kept "baseServiceGetDocumentsSubscription"])];
     gives_up := [js "baseServiceGetDocumentsSubscription"; js "baseServiceGetDocumentSubscription";
                  js "nodeSelectorServiceGetActiveSubscription"; js "activatedRouteSubscription"] |}.

Definition LoginView : view :=
  {| opens := []; init_asks := []; on_value := []; on_user := [Kept "loginServiceSubscription"]; on_reply := [];
     gives_up := [js "loginServiceSubscription"] |}.

Definition ProcessLogView : view :=
  {| opens := [(js "nodeSelectorServiceGetSelectedSubscription", SelectedNode)];
     init_asks := [Kept "baseServiceSubscription"]; on_value := [(SelectedNode, [Kept "baseServiceSubscription"])];
     on_user := []; on_reply := [];
     gives_up := [js "baseServiceSubscription"; js "nodeSelectorServiceGetSelectedSubscription"] |}.

Definition DashboardGridView : view :=
  let asks := [Kept "baseServiceGetStatsSubscription"; Kept "baseServiceGetLogSubscription"] in
  {| opens := [(js "nodeSelectorServiceGetSelectedSubscription", SelectedNode)];
     init_asks := asks; on_value := [(SelectedNode, asks)]; on_user := []; on_reply := [];
     gives_up := [js "baseServiceGetStatsSubscription"; js "baseServiceGetLogSubscription";
                  js "nodeSelectorServiceGetSelectedSubscription"] |}.

Definition ServiceGridView : view :=
  let asks := [Kept "baseServiceGetLinksSubscription"] in
  {| opens := [(js "nodeSelectorServiceGetSelectedSubscription", SelectedNode)];
     init_asks := asks; on_value := [(SelectedNode, asks)]; on_user := [Loose "create"];
     on_reply := [(Kept "baseServiceGetLinksSubscription", [Kept "baseServiceGetDocumentSubscription"])];
     gives_up := [js "baseServiceGetLinksSubscription"; js "baseServiceGetDocumentSubscription";
                  js "nodeSelectorServiceGetSelectedSubscription"] |}.

(** A value of the selected node navigates away; the subscription to the next
    page is kept, and not given up. *)
Definition ServiceDetailView : view :=
  {| opens := [(js "nodeSelectorServiceGetSelectedSubscription", SelectedNode); (js "activatedRouteParamsSubscription", RouteParams)];
     init_asks := [];
     on_value := [(RouteParams, [Kept "baseServiceGetLinksSubscription"; Kept "baseServiceGetChildServiceListSubscription"])];
     on_user := [Loose "create"; Kept "baseServiceGetChildServiceListNextPageSubscription"]; on_reply := [];
     gives_up := [js "baseServiceGetLinksSubscription"; js "baseServiceGetChildServiceListSubscription";
                  js "nodeSelectorServiceGetSelectedSubscription"; js "activatedRouteParamsSubscription"] |}.

Definition ChildServiceDetailView : view :=
  {| opens := []; init_asks := []; on_value := [];
     on_user := [Kept "baseServiceGetChildServiceSubscription"; Kept "baseServiceGetChildServiceStatsSubscription";
                 Loose "edit"; Loose "delete"];
     on_reply := [];
     gives_up := [js "baseServiceGetChildServiceSubscription"; js "baseServiceGetChildServiceStatsSubscription"] |}.

Definition ServiceCardView : view :=
  {| opens := []; init_asks := []; on_value := [];
     on_user := [Kept "baseServiceStatsSubscription"; Kept "baseServiceConfigSubscription"]; on_reply := [];
     gives_up := [js "baseServiceStatsSubscription"; js "baseServiceConfigSubscription"] |}.

(** The count leads to the task, and the task to its first page. *)
Definition QueryView : view :=
  {| opens := []; init_asks := []; on_value := [];
     on_user := [Kept "baseServiceSubscription"; Kept "baseServiceGetQueryResultNextPageSubscription"];
     on_reply := [(Kept "baseServiceSubscription", [Loose "task"]);
                  (Loose "task", [Kept "baseServiceGetQueryResultNextPageSubscription"])];
     gives_up := [js "baseServiceSubscription"; js "baseServiceGetQueryResultNextPageSubscription"] |}.

Definition QueryResultDetailView : view :=
  {| opens := []; init_asks := []; on_value := []; on_user := [Kept "baseServiceGetResultSubscription"]; on_reply := [];
     gives_up := [js "baseServiceGetResultSubscription"] |}.

(** The subscription to the selected node is not among those given up. *)
Definition OperationTracingView : view :=
  let asks := [Kept "baseServiceManagementSubscription"] in
  {| opens := [(js "nodeSelectorServiceGetSelectedSubscription", SelectedNode)];
     init_asks := asks; on_value := [(SelectedNode, asks)];
     on_user := [Kept "baseServiceManagementPatchSubscription"; Kept "baseServiceQuerySubscription"]; on_reply := [];
     gives_up := [js "baseServiceManagementSubscription"; js "baseServiceManagementPatchSubscription";
                  js "baseServiceQuerySubscription"] |}.

Definition views : list view :=
  [NotificationView; NavbarView; NodeInfoPanelView; NodeSelectorView; LoginView; ProcessLogView; DashboardGridView;
   ServiceGridView; ServiceDetailView; ChildServiceDetailView; ServiceCardView; QueryView; QueryResultDetailView].

(** ** Properties *)

Definition all_asks (v : view) : list ask :=
  v.(init_asks) ++ flat_map snd v.(on_value) ++ v.(on_user) ++ flat_map snd v.(on_reply).

(** The number of answers that a request can lead to, itself included, up to a
    depth. *)
Fixpoint cost (v : view) (depth : nat) (a : ask) : nat :=
  match depth with O => 0 | S d => S (list_sum (map (cost v d) (asks_of v.(on_reply) a))) end.

(** The length of the longest chain of answers of a view. *)
Definition longest_chain : nat := 3.
#[local] Opaque longest_chain.

(** What the theorem needs of a view: its subjects have fields of their own,
    all given up; no chain of answers is longer than [longest_chain]. *)
Definition tidy (v : view) : Prop :=
  NoDup v.(opens).*1
  /\ Forall (fun f => f ∈ v.(gives_up) /\ (Kept f ∉ all_asks v)) v.(opens).*1
  /\ Forall (fun a => cost v longest_chain a = cost v (S longest_chain) a) (all_asks v).

#[global] Instance tidy_dec v : Decision (tidy v).
Proof. unfold tidy. apply _. Defined.

Definition target_cost (v : view) (it : nat * target) : nat :=
  match it.2 with Asked a => cost v longest_chain a | Watching _ => 0 end.
(** The answers that can still arrive. *)
Definition pending (v : view) (st : view_state) : nat := list_sum (map (target_cost v) st.(active)).

Lemma list_sum_cons x l : list_sum (x :: l) = x + list_sum l.
Proof. done. Qed.

Section Tidy.
Context (v : view).
Implicit Types (st : view_state).

(** Requests are requests of the view; the subject of a subscription has a field
    that holds it, while the view lives. *)
Definition accounted (own : list jsstr) st : Prop :=
  Forall (fun it => match it.2 with
                    | Asked a => a ∈ all_asks v
                    | Watching _ => st.(destroyed) = false /\ exists f, f ∈ own /\ obj_get st.(fields) f = Some it.1
                    end) st.(active).

Lemma accounted_ends own st i : accounted own st -> accounted own (ends i st).
Proof.
  unfold accounted. rewrite !list.Forall_forall. intros H it Hit. cbn [ends set_active active fields destroyed] in *.
  rewrite list_elem_of_In, filter_In in Hit. destruct Hit as [Hit _]. apply list_elem_of_In in Hit. exact (H it Hit).
Qed.

Lemma accounted_make own st a :
  a ∈ all_asks v -> Forall (fun f => Kept f ∉ all_asks v) own -> accounted own st -> accounted own (make st a).
Proof.
  intros Ha Hown. unfold accounted. rewrite !list.Forall_forall. intros H it Hit. cbn in Hit.
  apply elem_of_app in Hit as [Hit|Hit].
  - specialize (H it Hit). destruct it as [i [s|b]]; cbn in *; [|done].
    destruct H as (Hd & f & Hf & Hg). split; [done|]. exists f. split; [done|].
    destruct a as [g|w]; [|done]. rewrite obj_get_set_ne; [done|].
    intros ->. rewrite list.Forall_forall in Hown. by apply (Hown _ Hf).
  - apply list_elem_of_singleton in Hit as ->. done.
Qed.

Lemma accounted_makes own l st :
  l ⊆ all_asks v -> Forall (fun f => Kept f ∉ all_asks v) own -> accounted own st -> accounted own (fold_left make l st).
Proof.
  revert st. induction l as [|a l IH]; intros st Hl Ho H; [done|]. cbn.
  apply IH; [set_solver|done|]. apply accounted_make; [set_solver|done|done].
Qed.

(** Opening the subjects of [l] after those of [own]. *)
Lemma accounted_opens l own st :
  NoDup (own ++ l.*1) -> st.(destroyed) = false -> accounted own st ->
  accounted (own ++ l.*1) (fold_left (fun st fs => subscribe_to (Some fs.1) (Watching fs.2) st) l st).
Proof.
  revert own st. induction l as [|[f s] l IH]; intros own st Hn Hd H; [by rewrite app_nil_r|].
  cbn [fmap list_fmap fold_left fst snd]. change (f :: l.*1) with ([f] ++ l.*1). rewrite app_assoc.
  apply IH; [by rewrite <- app_assoc|done|].
  unfold accounted in *. rewrite !list.Forall_forall in *. intros it Hit. cbn in Hit.
  apply elem_of_app in Hit as [Hit|Hit].
  - specialize (H it Hit). destruct it as [i [t|b]]; cbn in *; [|done].
    destruct H as (_ & g & Hg & Eg). split; [done|]. exists g. split; [set_solver|].
    rewrite obj_get_set_ne; [done|]. intros ->. apply list.NoDup_app in Hn as (_ & Hn & _). apply (Hn _ Hg). set_solver.
  - apply list_elem_of_singleton in Hit as ->. cbn. split; [done|]. exists f. split; [set_solver|]. apply obj_get_set_eq.
Qed.

Lemma accounted_mono own own' st : own ⊆ own' -> accounted own st -> accounted own' st.
Proof.
  intros Hs. unfold accounted. rewrite !list.Forall_forall. intros H it Hit. specialize (H it Hit).
  destruct it as [i [t|b]]; cbn in *; [|done]. destruct H as (? & f & ? & ?). eauto.
Qed.

Lemma asks_of_all {K} `{EqDecision K} (t : list (K * list ask)) k : asks_of t k ⊆ flat_map snd t.
Proof.
  intros a Ha. unfold asks_of in Ha. rewrite list_elem_of_In, in_flat_map in Ha. destruct Ha as (kl & Hin & Ha).
  apply list_elem_of_In, in_flat_map. exists kl. split; [done|]. by case_bool_decide.
Qed.

Lemma makes_keep l st :
  (fold_left make l st).(destroyed) = st.(destroyed)
  /\ pending v (fold_left make l st) = pending v st + list_sum (map (cost v longest_chain) l).
Proof.
  revert st. induction l as [|a l IH]; intros st; [cbn; split; [done|lia]|].
  cbn [fold_left map]. destruct (IH (make st a)) as [-> ->]. split; [done|].
  unfold pending at 1. change (active (make st a)) with (active st ++ [(next st, Asked a)]).
  rewrite map_app, list_sum_app. cbn [map]. change (target_cost v (next st, Asked a)) with (cost v longest_chain a).
  rewrite !list_sum_cons. unfold pending. cbn [list_sum foldr]. lia.
Qed.

Lemma destroy_spec l st :
  let st' := fold_left unsubscribe_field l st in
  st'.(fields) = st.(fields)
  /\ forall it, it ∈ st'.(active) -> it ∈ st.(active) /\ forall f, f ∈ l -> obj_get st.(fields) f <> Some it.1.
Proof.
  revert st. induction l as [|g l IH]; intros st; [cbn; split; [done|]; intros; split; [done|set_solver]|].
  cbn [fold_left]. cbn zeta in IH. destruct (IH (unsubscribe_field st g)) as [Hf Ha].
  assert (Hg : (unsubscribe_field st g).(fields) = st.(fields)) by (unfold unsubscribe_field; by destruct (obj_get _ g)).
  rewrite Hg in Hf, Ha. split; [done|]. intros it Hit. destruct (Ha it Hit) as [Hin Hl].
  assert (Hin' : it ∈ st.(active) /\ obj_get st.(fields) g <> Some it.1).
  { unfold unsubscribe_field in Hin. destruct (obj_get (fields st) g) as [i|] eqn:E; [|split; [done|done]].
    cbn [ends set_active active] in Hin. rewrite list_elem_of_In, filter_In in Hin. destruct Hin as [Hin Hb]. split; [by apply list_elem_of_In|].
    intros [= ->]. by rewrite Nat.eqb_refl in Hb. }
  split; [apply Hin'|]. intros f Hf'. apply elem_of_cons in Hf' as [->|Hf']; [apply Hin'|by apply Hl].
Qed.

Lemma pending_ends st i a : (i, Asked a) ∈ st.(active) -> pending v (ends i st) + cost v longest_chain a <= pending v st.
Proof.
  unfold pending, ends. cbn [set_active active]. induction (active st) as [|it l IH]; [set_solver|]. intros H.
  assert (Hle : list_sum (map (target_cost v) (List.filter (fun it => negb (it.1 =? i)%nat) l))
                <= list_sum (map (target_cost v) l)).
  { clear. induction l as [|it l IH]; [done|]. cbn [List.filter map]. destruct (negb _); cbn [map]; rewrite ?list_sum_cons; lia. }
  apply elem_of_cons in H as [<-|H]; cbn [List.filter map fst].
  - rewrite Nat.eqb_refl. cbn [negb]. change (target_cost v (i, Asked a)) with (cost v longest_chain a).
    rewrite list_sum_cons. lia.
  - specialize (IH H). destruct (negb _); cbn [map]; rewrite ?list_sum_cons; lia.
Qed.

Lemma sublist_sum (l k : list ask) : l `sublist_of` k ->
  list_sum (map (cost v longest_chain) l) <= list_sum (map (cost v longest_chain) k).
Proof. induction 1; cbn [map]; rewrite ?list_sum_cons; lia. Qed.

Context (Htidy : tidy v).

Lemma own_fields : Forall (fun f => Kept f ∉ all_asks v) v.(opens).*1.
Proof. destruct Htidy as (_ & H & _). apply (list.Forall_impl _ _ _ H). by intros f [_ ?]. Qed.

Lemma accounted_init : accounted v.(opens).*1 (ngOnInit v).
Proof.
  unfold ngOnInit. apply (accounted_opens _ []); [apply Htidy|apply makes_keep|].
  apply accounted_makes; [unfold all_asks; set_solver|constructor|constructor].
Qed.

Lemma accounted_step st st' : accounted v.(opens).*1 st -> view_step v st st' -> accounted v.(opens).*1 st'.
Proof.
  intros H Hs. destruct Hs as [st l Hd Hl|st i s l Hi Hl|st i a l Hi Hl|st Hd].
  - apply accounted_makes; [|apply own_fields|done]. apply sublist_subseteq in Hl. unfold all_asks. set_solver.
  - apply accounted_makes; [|apply own_fields|done]. apply sublist_subseteq in Hl.
    pose proof (asks_of_all v.(on_value) s). unfold all_asks. set_solver.
  - apply accounted_makes; [|apply own_fields|by apply accounted_ends]. apply sublist_subseteq in Hl.
    pose proof (asks_of_all v.(on_reply) a). unfold all_asks. set_solver.
  - destruct (destroy_spec v.(gives_up) st) as [Hf Ha]. unfold accounted in *. rewrite !list.Forall_forall in *.
    intros it Hit. cbn in Hit. destruct (Ha it Hit) as [Hin Hn]. specialize (H it Hin).
    destruct it as [i [s|a]]; cbn in *; [|done]. destruct H as (_ & f & Hf1 & Hf2). exfalso.
    destruct Htidy as (_ & Ho & _). rewrite list.Forall_forall in Ho. by apply (Hn f); [apply Ho|].
Qed.

(** A step of a view that is gone is an answer, and uses one up. *)
Lemma destroyed_step st st' :
  accounted v.(opens).*1 st -> st.(destroyed) = true -> view_step v st st' ->
  st'.(destroyed) = true /\ pending v st' < pending v st.
Proof.
  intros H Hd Hs. destruct Hs as [st l Hd' Hl|st i s l Hi Hl|st i a l Hi Hl|st Hd']; [congruence| | |congruence].
  - unfold accounted in H. rewrite list.Forall_forall in H. specialize (H _ Hi). cbn in H. destruct H. congruence.
  - destruct (makes_keep l (ends i st)) as [-> ->]. split; [done|].
    pose proof (pending_ends st i a Hi). apply sublist_sum in Hl.
    assert (Hc : cost v longest_chain a = cost v (S longest_chain) a).
    { destruct Htidy as (_ & _ & Hc). rewrite list.Forall_forall in Hc. apply Hc.
      unfold accounted in H. rewrite list.Forall_forall in H. exact (H _ Hi). }
    change (cost v (S longest_chain) a) with (S (list_sum (map (cost v longest_chain) (asks_of v.(on_reply) a)))) in Hc. lia.
Qed.

Lemma destroyed_steps n st st' :
  steps v n st st' -> accounted v.(opens).*1 st -> st.(destroyed) = true -> n <= pending v st.
Proof.
  induction 1 as [st|n st st1 st2 H1 _ IH]; intros Ha Hd; [lia|].
  destruct (destroyed_step _ _ Ha Hd H1) as [Hd1 Hlt]. pose proof (IH (accounted_step _ _ Ha H1) Hd1). lia.
Qed.
End Tidy.

Lemma views_tidy : Forall tidy views.
Proof. apply (bool_decide_unpack _). vm_compute. exact I. Qed.

(** C40: Once a view is destroyed, in any run and whatever its requests, values
    and answers did before, none of its subscriptions to a subject is left; and
    only so many further answers reach it as its requests in flight can lead
    to, after which nothing does.  (The tracing view is the exception, see
    below.) *)
Theorem destroyed_views_silent (v : view) (st : view_state) :
  v ∈ views -> reach v st -> st.(destroyed) = true ->
  (forall i s, (i, Watching s) ∉ st.(active))
  /\ forall n st', steps v n st st' -> n <= pending v st.
Proof.
  intros Hv Hr Hd. pose proof views_tidy as Ht. rewrite list.Forall_forall in Ht. specialize (Ht v Hv).
  assert (Ha : accounted v v.(opens).*1 st).
  { apply (star_invariant _ _ (accounted_step v Ht) _ _ Hr), (accounted_init v Ht). }
  split; [|intros n st' Hs; by apply (destroyed_steps v Ht n st st')].
  intros i s Hi. unfold accounted in Ha. rewrite list.Forall_forall in Ha. specialize (Ha _ Hi). cbn in Ha.
  destruct Ha. congruence.
Qed.

(** A service grid that has asked again for a newly selected node, and is then
    left: the first request is still answered, and leads to one more. *)
Definition grid_again : view_state := fold_left make [Kept "baseServiceGetLinksSubscription"] (ngOnInit ServiceGridView).
Definition grid_left : view_state := ngOnDestroy ServiceGridView grid_again.

Lemma destroyed_views_silent_witness :
  grid_left.(active) = [(0, Asked (Kept "baseServiceGetLinksSubscription"))]
  /\ forall n st', steps ServiceGridView n grid_left st' -> n <= 2.
Proof.
  split; [reflexivity|]. refine (proj2 (destroyed_views_silent ServiceGridView grid_left _ _ _)).
  - unfold views. do 7 right. left.
  - apply (star_snoc _ _ grid_again); [apply (star_snoc _ _ (ngOnInit ServiceGridView)); [apply star_refl|]|].
    + apply (step_value _ _ 1 SelectedNode); [right; left|reflexivity].
    + by apply step_destroy.
  - reflexivity.
Defined.

(** The view of traced operations does not give up the selected node: after it
    is destroyed, every selection makes it ask for the management document. *)
Lemma tracing_view_leaks (n : nat) :
  exists st st', reach OperationTracingView st /\ st.(destroyed) = true
    /\ steps OperationTracingView n st st' /\ st'.(next) = n + st.(next).
Proof.
  set (st := ngOnDestroy OperationTracingView (ngOnInit OperationTracingView)).
  assert (H : forall n st, (1, Watching SelectedNode) ∈ st.(active) ->
    exists st', steps OperationTracingView n st st' /\ st'.(next) = n + st.(next)).
  { clear. induction n as [|n IH]; intros st Hi; [exists st; split; [constructor|done]|].
    set (st1 := make st (Kept "baseServiceManagementSubscription")).
    destruct (IH st1) as (st' & Hs & Hn); [apply elem_of_app; by left|].
    exists st'. split; [|rewrite Hn; cbn; lia]. apply (steps_S _ _ _ st1); [|done].
    by apply (step_value _ _ 1 SelectedNode [Kept "baseServiceManagementSubscription"]). }
  destruct (H n st) as (st' & Hs & Hn); [left|]. exists st, st'. split_and!; [|done|done|done].
  apply (star_snoc _ _ (ngOnInit OperationTracingView)); [constructor|]. by apply step_destroy.
Qed.

(** A query view left while its task is under way still asks for the first
    page: no field keeps the request of the task. *)
Lemma query_view_asks_late :
  exists st st', reach QueryView st /\ st.(destroyed) = true /\ view_step QueryView st st'
    /\ st'.(active) = [(2, Asked (Kept "baseServiceGetQueryResultNextPageSubscription"))].
Proof.
  set (s0 := make (ngOnInit QueryView) (Kept "baseServiceSubscription")).
  set (s1 := make (ends 0 s0) (Loose "task")). set (s2 := ngOnDestroy QueryView s1).
  exists s2, (make (ends 1 s2) (Kept "baseServiceGetQueryResultNextPageSubscription")). split_and!.
  - apply (star_snoc _ _ s1); [apply (star_snoc _ _ s0); [apply (star_snoc _ _ (ngOnInit QueryView)); [constructor|]|]|].
    + apply (step_user _ _ [Kept "baseServiceSubscription"]); [done|]. repeat constructor.
    + apply (step_reply _ _ 0 (Kept "baseServiceSubscription") [Loose "task"]); [left|]. repeat constructor.
    + by apply step_destroy.
  - done.
  - apply (step_reply _ _ 1 (Loose "task") [Kept "baseServiceGetQueryResultNextPageSubscription"]); [left|].
    repeat constructor.
  - reflexivity.
Qed.
