(* ===== verification/BuildTasks.v ===== *)
(** * The task loader of the build tools

    gulpfile.ts, tools/utils/seed/tasks_tools.ts, tools/tasks/*_task.ts and the
    composite tasks of tools/config/seed.tasks.json and project.tasks.json.
    gulp keeps one task per name; run-sequence runs named tasks one after the
    other, and gives up at the first that fails.  Reading and parsing files are
    inputs, and so is what the task of a file does. *)

From S2P Require Import Prelude JsString NodePath Lodash Json.

(** ** Object.keys and Object.assign on parsed values *)

Fixpoint indexed {A} (i : N) (l : list A) : list (jsstr * A) :=
  match l with [] => [] | x :: l' => (dec_N i, x) :: indexed (i + 1) l' end.

(** The enumerable properties of a value; [null] throws. *)
Definition own_properties (v : jsval) : exec (list (jsstr * jsval)) :=
  match v with
  | JNull => Throw TypeError
  | JObj o => Ret o
  | JArr l => Ret (indexed 0 l)
  | JStr s => Ret (indexed 0 (map (fun c => JStr [c]) s))
  | JBool _ | JNum _ => Ret []
  end.

Definition assign {V} (target source : list (jsstr * V)) : list (jsstr * V) :=
  fold_left (fun o kv => obj_set o kv.1 kv.2) source target.

(** ** tasks_tools.ts: composite tasks *)

(** The names an array of strings holds. *)
Fixpoint strings_of (l : list jsval) : option (list jsstr) :=
  match l with
  | [] => Some []
  | JStr s :: l' => match strings_of l' with Some ss => Some (s :: ss) | None => None end
  | _ :: _ => None
  end.
Definition members_of (v : jsval) : option (list jsstr) :=
  match v with JArr l => strings_of l | _ => None end.

(** [validateTasks]: a name that is empty counts as no name. *)
Definition validateTasks (tasks : jsval) : exec (list jsstr) :=
  o <-! own_properties tasks;;
  Ret (List.filter truthy
         (flat_map (fun kv => match members_of kv.2 with None => [kv.1] | Some _ => [] end) o)).

Definition quoted (s : jsstr) : jsstr := [34%N] ++ s ++ [34%N].

Definition getInvalidTaskErrorMessage (invalid : list jsstr) (file : jsstr) : jsstr :=
  "Invalid configuration in " ++ [34%N] ++ file ++ ". "
  ++ (if (length invalid =? 1)%nat then js "Task" else js "Tasks")
  ++ " " ++ join ", " (map quoted invalid) ++ " do not have proper format.".

(** What gulp knows under a name: a task of a file, a composite task, or the
    task [clean.once] of gulpfile.ts. *)
Inductive gulp_task := FileTask (path : jsstr) | Composite (tasks : jsval) | CleanOnce.
Definition registry : Type := list (jsstr * gulp_task).

Definition registerTasks (r : registry) (tasks : list (jsstr * jsval)) : registry :=
  fold_left (fun r kv => obj_set r kv.1 (Composite kv.2)) tasks r.

Inductive load_outcome :=
  | Loaded (r : registry)
  | NotLoaded (r : registry) (e : jserr)   (* logged; the loader returns *)
  | Exited (message : jsstr)               (* the process ends *)
  | Failing (e : jserr).

(** The two files, as read and parsed. *)
Definition loadCompositeTasks (r : registry) (seedTasksFile projectTasksFile : jsstr)
    (seed project : exec jsval) : load_outcome :=
  match seed with
  | Throw e => NotLoaded r e
  | Ret seedTasks =>
      match project with
      | Throw e => NotLoaded r e
      | Ret projectTasks =>
          match validateTasks seedTasks with
          | Throw e => Failing e
          | Ret ((_ :: _) as invalid) => Exited (getInvalidTaskErrorMessage invalid seedTasksFile)
          | Ret [] =>
              match validateTasks projectTasks with
              | Throw e => Failing e
              | Ret ((_ :: _) as invalid) => Exited (getInvalidTaskErrorMessage invalid projectTasksFile)
              | Ret [] =>
                  match own_properties seedTasks, own_properties projectTasks with
                  | Ret s, Ret p => Loaded (registerTasks r (assign (assign [] s) p))
                  | Throw e, _ | _, Throw e => Failing e
                  end
              end
          end
      end
  end.

(** ** tasks_tools.ts: tasks of files *)

(** An entry of a directory. *)
Record dir_entry := { entry_name : jsstr; is_file : bool }.

Definition task_name (file : jsstr) : jsstr := take (length file - 3) file.

(** [readDir]; [None] is a directory that does not exist. *)
Definition readDir (entries : option (list dir_entry)) : list jsstr :=
  match entries with
  | None => []
  | Some es =>
      map (fun e => task_name e.(entry_name))
        (List.filter (fun e => e.(is_file) && endsWith e.(entry_name) ".ts") es)
  end.

Definition task_path (path taskname : jsstr) : jsstr := path_join [path; taskname].

Definition loadTasks (r : registry) (path : jsstr) (entries : option (list dir_entry)) : registry :=
  fold_left (fun r taskname => obj_set r taskname (FileTask (task_path path taskname))) (readDir entries) r.

(** ** task.ts, typescript_task.ts, css_task.ts, assets_task.ts,
    build.html_css.ts, build.tns_html_css.ts: which changes a task is for *)

Inductive task_class := Task | TypeScriptTask | CssTask | AssetsTask | BuildHtmlCss | BuildTNSCSS.

Definition is_css (f : jsstr) : bool := endsWith f ".css" || endsWith f ".sass" || endsWith f ".scss".

Definition shallRun (ENABLE_SCSS : bool) (c : task_class) (files : list jsstr) : bool :=
  match c with
  | Task => true
  | TypeScriptTask => fold_left (fun a f => a || endsWith f ".ts") files false
  | AssetsTask => fold_left (fun a f => a || (negb (is_css f) && negb (endsWith f ".ts"))) files false
  | CssTask => ENABLE_SCSS || existsb is_css files
  | BuildHtmlCss => (ENABLE_SCSS || existsb is_css files) || existsb (fun f => endsWith f ".html") files
  | BuildTNSCSS =>
      existsb (fun f => let app := negb (indexOf f "nativescript/src/app" =? -1)%Z in
                        (app && endsWith f ".tns.html") || (negb app && endsWith f ".html")) files
  end.

(** [normalizeTask] by what the module of a task exports. *)
Inductive task_export :=
  | TaskInstance (c : task_class)
  | TaskClass (c : task_class)
  | TaskFunction (arity : nat)
  | OtherExport.

Definition normalizeTask (e : task_export) (taskName : jsstr) : exec task_class :=
  match e with
  | TaskInstance c | TaskClass c => Ret c
  | TaskFunction _ => Ret Task
  | OtherExport => Throw (ErrorMsg (taskName ++
      " should be instance of the class Task, a function or a class which extends Task."))
  end.

(** Whether a function task calls [done] itself: it does without parameters
    unless it returns a stream. *)
Definition calls_done (arity : nat) (returns_stream : bool) : bool :=
  match arity with O => negb returns_stream | S _ => false end.

(** ** gulpfile.ts *)

Definition gulpfile (seedDir projectDir : jsstr) (seedEntries projectEntries : option (list dir_entry))
    (seedFile projectFile : jsstr) (seed project : exec jsval) : load_outcome :=
  let r := loadTasks (loadTasks [] seedDir seedEntries) projectDir projectEntries in
  let once r := obj_set r "clean.once" CleanOnce in
  match loadCompositeTasks r seedFile projectFile seed project with
  | Loaded r => Loaded (once r)
  | NotLoaded r e => NotLoaded (once r) e
  | o => o
  end.

(** ** The tasks of files behind a name

    The tasks of files that a task comes down to, in order, and whether
    [clean.once] is still to run when all of them have ended; [None] when a name
    is not known, or the fuel does not suffice. *)

Definition once_tasks : list jsstr := [js "check.tools"; js "clean.dev"; js "clean.coverage"].

Definition run_all (run : bool -> jsstr -> option (list jsstr * bool)) (firstRun : bool) (names : list jsstr)
    : option (list jsstr * bool) :=
  fold_left (fun acc name =>
    match acc with
    | None => None
    | Some (done, first) => match run first name with
                            | None => None
                            | Some (l, first') => Some (done ++ l, first')
                            end
    end) names (Some ([], firstRun)).

Fixpoint run_task (fuel : nat) (r : registry) (firstRun : bool) (name : jsstr) : option (list jsstr * bool) :=
  match fuel with
  | O => None
  | S fuel =>
      match obj_get r name with
      | None => None
      | Some (FileTask _) => Some ([name], firstRun)
      | Some CleanOnce => if firstRun then run_all (run_task fuel r) false once_tasks else Some ([], false)
      | Some (Composite v) => match members_of v with
                              | None => None
                              | Some names => run_all (run_task fuel r) firstRun names
                              end
      end
  end.

(** ** Running a task *)

(** How a task comes to its end: [done()], or the end of its stream; [done(e)],
    an exception or an error of its stream; [process.exit]; or never. *)
Inductive ending := Ended | FailsWith (e : jserr) | ExitsWith (code : Z) | NeverEnds.
#[export] Instance is_done e : Decision (e = Ended).
Proof. destruct e; [by left|by right..]. Defined.

Section Running.
(** What the task of a file does to the state of the world. *)
Context {St : Type} (body : jsstr -> St -> ending * St).

(** A run: the tasks of files that were started, [firstRun], the state, and how
    it came to its end. *)
Definition run_result : Type := list jsstr * bool * St * ending.

(** [runSequence]: the next task is started when the one before has ended; a
    failure is handed on to [done]. *)
Fixpoint exec_seq (run : bool -> St -> jsstr -> option run_result) (firstRun : bool) (s : St) (names : list jsstr)
    : option run_result :=
  match names with
  | [] => Some ([], firstRun, s, Ended)
  | name :: rest =>
      match run firstRun s name with
      | Some (l, firstRun, s, Ended) =>
          match exec_seq run firstRun s rest with
          | Some (l', firstRun, s, e) => Some (l ++ l', firstRun, s, e)
          | None => None
          end
      | o => o
      end
  end.

Fixpoint exec_task (fuel : nat) (r : registry) (firstRun : bool) (s : St) (name : jsstr) : option run_result :=
  match fuel with
  | O => None
  | S fuel =>
      match obj_get r name with
      | None => None
      | Some (FileTask _) => let '(e, s') := body name s in Some ([name], firstRun, s', e)
      | Some CleanOnce => if firstRun then exec_seq (exec_task fuel r) false s once_tasks else Some ([], false, s, Ended)
      | Some (Composite v) => match members_of v with
                              | None => None
                              | Some names => exec_seq (exec_task fuel r) firstRun s names
                              end
      end
  end.

(** The same for a plain list of tasks of files: the specification. *)
Fixpoint run_flat (names : list jsstr) (s : St) : list jsstr * St * ending :=
  match names with
  | [] => ([], s, Ended)
  | name :: rest =>
      match body name s with
      | (Ended, s') => let '(l, s2, e) := run_flat rest s' in (name :: l, s2, e)
      | (e, s') => ([name], s', e)
      end
  end.
End Running.

(** ** The tasks of the project *)

Definition task_list (l : list jsstr) : jsval := JArr (map JStr l).

Definition seed_tasks_json : list (jsstr * jsval) :=
  [ (js "initialize", task_list [js "noop"]);
    (js "build.dev", task_list [js "initialize"; js "clean.once"; js "build.assets.dev"; js "build.fonts"; js
      "build.html_css"; js "build.js.dev"; js "build.index.dev"; js "sw.manifest.static"]);
    (js "build.dev.watch", task_list [js "build.dev"; js "watch.dev"]);
    (js "build.e2e", task_list [js "initialize"; js "clean.e2e"; js "tslint"; js "build.js.e2e"]);
    (js "build.prod", task_list [js "initialize"; js "check.tools"; js "clean.prod"; js "tslint"; js
      "build.assets.prod"; js "build.fonts"; js "build.html_css"; js "copy.prod"; js "build.js.prod"; js
      "build.bundles"; js "build.bundles.app"; js "minify.bundles"; js "build.index.prod"; js
      "sw.manifest.static"; js "minify.index"]);
    (js "build.prod.aot", task_list [js "initialize"; js "check.tools"; js "clean.prod"; js "tslint"; js
      "build.assets.prod"; js "build.html_css"; js "copy.prod"; js "compile.ahead.prod"; js
      "build.js.prod.aot"; js "build.bundles"; js "build.bundles.app.aot"; js "minify.bundles"; js
      "build.index.prod"; js "sw.manifest.static"; js "minify.index"]);
    (js "build.prod.rollup.aot", task_list [js "initialize"; js "check.tools"; js "clean.prod"; js "tslint"; js
      "build.assets.prod"; js "build.html_css"; js "copy.prod.rollup.aot"; js "compile.ahead.prod"; js
      "build.js.prod.rollup.aot"; js "build.bundles"; js "build.bundles.app.rollup.aot"; js
      "transpile.bundles.rollup.aot"; js "minify.bundles"; js "build.index.prod"; js "sw.manifest.static"; js
      "minify.index"]);
    (js "build.tns", task_list [js "build.assets.tns"; js "build.tns_html_css"; js "build.js.tns"]);
    (js "build.prod.tns", task_list [js "clean.tns"; js "tslint.tns"; js "build.tns"]);
    (js "build.tns.watch", task_list [js "build.tns"; js "watch.tns"]);
    (js "build.test", task_list [js "initialize"; js "clean.once"; js "build.assets.dev"; js "build.fonts"; js
      "build.html_css"; js "build.js.dev"; js "build.js.test"; js "build.index.dev"; js "sw.manifest.static"]);
    (js "test.watch", task_list [js "build.test"; js "watch.test"; js "karma.watch"]);
    (js "docs", task_list [js "build.docs"; js "serve.docs"]);
    (js "serve.dev", task_list [js "build.dev"; js "server.start"; js "watch.dev"]);
    (js "serve.e2e", task_list [js "tslint"; js "build.dev"; js "build.js.e2e"; js "server.start"; js
      "watch.dev"; js "watch.e2e"]);
    (js "serve.prod", task_list [js "build.prod"; js "server.prod"]);
    (js "serve.prod.aot", task_list [js "build.prod.aot"; js "server.prod"]);
    (js "serve.prod.rollup.aot", task_list [js "build.prod.rollup.aot"; js "server.prod"]);
    (js "test", task_list [js "build.test"; js "karma.run"]);
    (js "desktop", task_list [js "build.dev"; js "desktop.libs"; js "desktop.build"]);
    (js "desktop.mac", task_list [js "desktop"; js "desktop.package.mac"]);
    (js "desktop.windows", task_list [js "desktop"; js "desktop.package.windows"]);
    (js "desktop.linux", task_list [js "desktop"; js "desktop.package.linux"]) ].

Definition project_tasks_json : list (jsstr * jsval) :=
  [ (js "test", task_list [js "tslint"; js "build.test"; js "karma.run"]) ].

(** The files of tools/tasks/seed and tools/tasks/project. *)
Definition seed_task_files : list jsstr :=
  [js "build.assets.dev.ts"; js "build.assets.prod.ts"; js "build.assets.tns.ts"; js "build.bundle.rxjs.ts"; js
      "build.bundles.app.aot.ts"; js "build.bundles.app.rollup.aot.ts"; js "build.bundles.app.ts"; js
      "build.bundles.ts"; js "build.docs.ts"; js "build.html_css.ts"; js "build.index.dev.ts"; js
      "build.index.prod.ts"; js "build.js.dev.ts"; js "build.js.e2e.ts"; js "build.js.prod.aot.ts"; js
      "build.js.prod.rollup.aot.ts"; js "build.js.prod.ts"; js "build.js.test.ts"; js "build.js.tns.ts"; js
      "build.tns_html_css.ts"; js "build.tools.ts"; js "check.tools.ts"; js "check.versions.ts"; js
      "clean.all.src.js.ts"; js "clean.all.ts"; js "clean.coverage.ts"; js "clean.dev.ts"; js "clean.e2e.ts";
      js "clean.prod.ts"; js "clean.tns.ts"; js "clean.tools.ts"; js "clear.files.ts"; js
      "compile.ahead.prod.ts"; js "copy.prod.rollup.aot.ts"; js "copy.prod.ts"; js "e2e.ts"; js
      "generate.manifest.ts"; js "karma.run.ts"; js "karma.run.with_coverage.ts"; js "karma.watch.ts"; js
      "minify.bundles.ts"; js "minify.index.ts"; js "noop.ts"; js "print.banner.ts"; js "serve.coverage.ts"; js
      "serve.coverage.watch.ts"; js "serve.docs.ts"; js "server.prod.ts"; js "server.start.ts"; js
      "start.deving.ts"; js "sw.manifest.static.ts"; js "transpile.bundles.rollup.aot.ts"; js "tslint.tns.ts";
      js "tslint.ts"; js "watch.dev.ts"; js "watch.e2e.ts"; js "watch.test.ts"; js "watch.tns.ts"; js
      "webdriver.ts"].
Definition project_task_files : list jsstr :=
  [js "build.fonts.ts"; js "desktop.build.ts"; js "desktop.libs.ts"; js "desktop.package.linux.ts"; js
      "desktop.package.mac.ts"; js "desktop.package.windows.ts"; js "desktop.watch.ts"].

Definition plain_entries (l : list jsstr) : option (list dir_entry) :=
  Some (map (fun f => {| entry_name := f; is_file := true |}) l).

Definition project_load : load_outcome :=
  gulpfile "tools/tasks/seed" "tools/tasks/project" (plain_entries seed_task_files) (plain_entries project_task_files)
    "tools/config/seed.tasks.json" "tools/config/project.tasks.json"
    (Ret (JObj seed_tasks_json)) (Ret (JObj project_tasks_json)).

Definition project_registry : registry := match project_load with Loaded r => r | _ => [] end.

(** ** Properties *)

(** *** Merging *)

Section AssignFacts.
Context {V : Type}.

Lemma fold_set_get {W} (f : V -> W) (o : list (jsstr * W)) (s : list (jsstr * V)) k :
  NoDup (obj_keys s) ->
  obj_get (fold_left (fun acc kv => obj_set acc kv.1 (f kv.2)) s o) k
  = match obj_get s k with Some v => Some (f v) | None => obj_get o k end.
Proof.
  revert o. induction s as [|[k1 v1] s IH]; intros o Hnd; [done|]. cbn [obj_keys fmap list_fmap fst] in Hnd.
  apply list.NoDup_cons in Hnd as [Hn Hnd]. cbn [fold_left fst snd obj_get]. rewrite IH by done.
  destruct (str_eqb k1 k) eqn:E.
  - apply str_eqb_eq in E as ->. rewrite (proj2 (obj_get_None s k) Hn). by rewrite obj_get_set_eq.
  - apply str_eqb_neq in E. destruct (obj_get s k); [done|]. by rewrite obj_get_set_ne.
Qed.

Lemma assign_get (o s : list (jsstr * V)) k :
  NoDup (obj_keys s) -> obj_get (assign o s) k = match obj_get s k with Some v => Some v | None => obj_get o k end.
Proof. intros Hs. exact (fold_set_get id o s k Hs). Qed.

Lemma assign_NoDup (o s : list (jsstr * V)) : NoDup (obj_keys o) -> NoDup (obj_keys (assign o s)).
Proof.
  unfold assign. revert o. induction s as [|kv s IH]; intros o Ho; [done|]. cbn. apply IH. by apply obj_keys_set_NoDup.
Qed.
End AssignFacts.

Lemma validateTasks_spec o k :
  k ∈ match validateTasks (JObj o) with Ret l => l | Throw _ => [] end
  <-> k <> [] /\ exists v, (k, v) ∈ o /\ members_of v = None.
Proof.
  cbn. rewrite list_elem_of_In, filter_In, in_flat_map, truthy_spec. split.
  - intros [([k1 v] & Hin & Hk) Ht]. split; [done|]. cbn in Hk.
    destruct (members_of v) eqn:Em; [done|]. destruct Hk as [<-|[]]. exists v. split; [by apply list_elem_of_In|done].
  - intros [Ht (v & Hin & Hm)]. split; [|done]. exists (k, v). split; [by apply list_elem_of_In|]. cbn. rewrite Hm. by left.
Qed.

(** A task is badly formed when its value is not a list of texts. *)
Definition well_formed (v : jsval) : Prop := exists l, v = JArr (map JStr l).

Lemma members_of_spec v : members_of v <> None <-> well_formed v.
Proof.
  unfold well_formed. destruct v as [| | | |l|]; try (split; [done|by intros []]). cbn [members_of]. split.
  - intros H. assert (exists ss, l = map JStr ss) as [ss ->]; [|by exists ss].
    induction l as [|x l IH]; [by exists []|]. destruct x; try done. cbn in H.
    destruct (strings_of l); [|done]. destruct IH as [ss ->]; [done|]. by exists (s :: ss).
  - intros [ss [= ->]]. induction ss as [|x ss IH]; [done|]. cbn. by destruct (strings_of (map JStr ss)).
Qed.

(** The names [validateTasks] is to find in the tasks of a file. *)
Definition ill_formed (o : list (jsstr * jsval)) (k : jsstr) : Prop := k <> [] /\ exists v, (k, v) ∈ o /\ ~ well_formed v.

Lemma validateTasks_finds o :
  exists bad, validateTasks (JObj o) = Ret bad /\ bad `sublist_of` obj_keys o /\ forall k, k ∈ bad <-> ill_formed o k.
Proof.
  eexists. split; [reflexivity|]. split.
  - induction o as [|[k v] o IH]; [done|]. cbn [flat_map fst snd]. change (obj_keys ((k, v) :: o)) with (k :: obj_keys o).
    destruct (members_of v); cbn [app List.filter]; [by apply sublist_cons|].
    destruct (truthy k); [by apply sublist_skip|by apply sublist_cons].
  - intros k. rewrite (validateTasks_spec o k). unfold ill_formed. setoid_rewrite <- members_of_spec.
    split; intros [Hk (v & Hv & Hm)]; (split; [done|]); exists v; (split; [done|]); [by rewrite Hm; auto|].
    destruct (members_of v); [|done]. exfalso. by apply Hm.
Qed.

Lemma ill_formed_cons o bad : (forall k, k ∈ bad <-> ill_formed o k) ->
  match bad with [] => forall k, ~ ill_formed o k | k :: _ => ill_formed o k end.
Proof.
  intros H. destruct bad as [|k bad]; [|apply H; by left]. intros k Hk%H. by apply elem_of_nil in Hk.
Qed.

(** C29: Of two files that can be read and parsed to objects, one with badly formed
    tasks (whose value is not a list of texts; the empty name is not looked at)
    ends the process with a message that names the file and quotes exactly these
    tasks in their order, the seed file first.  Otherwise each name, the empty one
    too, gets the value of the project file, or else that of the seed file, or
    keeps its task.  When a file cannot be read or parsed the composite tasks are
    not registered, and the process goes on. *)
Theorem composite_tasks_merged (r : registry) (sf pf : jsstr) (s p : list (jsstr * jsval)) :
  NoDup (obj_keys s) -> NoDup (obj_keys p) ->
  let load := loadCompositeTasks r sf pf in
  let refused file o outcome :=
    exists bad, bad `sublist_of` obj_keys o /\ (forall k, k ∈ bad <-> ill_formed o k)
    /\ outcome = Exited ("Invalid configuration in " ++ [34%N] ++ file ++ ". "
         ++ (match bad with [_] => js "Task " | _ => js "Tasks " end)
         ++ join ", " (map (fun k => [34%N] ++ k ++ [34%N]) bad) ++ " do not have proper format.") in
  ((exists k, ill_formed s k) -> refused sf s (load (Ret (JObj s)) (Ret (JObj p))))
  /\ ((forall k, ~ ill_formed s k) -> (exists k, ill_formed p k) -> refused pf p (load (Ret (JObj s)) (Ret (JObj p))))
  /\ ((forall k, ~ ill_formed s k) -> (forall k, ~ ill_formed p k) ->
      exists r', load (Ret (JObj s)) (Ret (JObj p)) = Loaded r'
      /\ forall k, obj_get r' k = match obj_get p k, obj_get s k with
                                  | Some v, _ | None, Some v => Some (Composite v)
                                  | None, None => obj_get r k
                                  end)
  /\ (forall e x, load (Throw e) x = NotLoaded r e /\ load (Ret (JObj s)) (Throw e) = NotLoaded r e).
Proof.
  intros Hs Hp load refused. unfold load, loadCompositeTasks.
  destruct (validateTasks_finds s) as (bs & -> & Ss & Es). destruct (validateTasks_finds p) as (bp & -> & Sp & Ep).
  pose proof (ill_formed_cons s bs Es) as Cs. pose proof (ill_formed_cons p bp Ep) as Cp.
  assert (M : forall file bad, getInvalidTaskErrorMessage bad file = "Invalid configuration in " ++ [34%N] ++ file ++ ". "
         ++ (match bad with [_] => js "Task " | _ => js "Tasks " end)
         ++ join ", " (map (fun k => [34%N] ++ k ++ [34%N]) bad) ++ " do not have proper format.").
  { intros file [|k [|k' bad]]; reflexivity. }
  split_and!; [| | |done].
  - intros [k Hk]. destruct bs as [|x bs]; [by apply Cs in Hk|]. exists (x :: bs). by rewrite (M sf (x :: bs)).
  - intros Hno [k Hk]. destruct bs as [|x bs]; [|by apply Hno in Cs]. destruct bp as [|y bp]; [by apply Cp in Hk|].
    exists (y :: bp). by rewrite (M pf (y :: bp)).
  - intros H1 H2. destruct bs as [|x bs]; [|by apply H1 in Cs]. destruct bp as [|y bp]; [|by apply H2 in Cp].
    eexists. split; [done|]. intros k. unfold registerTasks.
    rewrite (fold_set_get Composite) by (by apply assign_NoDup, assign_NoDup, NoDup_nil_2).
    rewrite !assign_get by done. by destruct (obj_get p k), (obj_get s k).
Qed.

Lemma composite_tasks_merged_witness :
  let s := [(js "test", task_list [js "a"; js "b"]); (js "e2e", task_list [js "c"])] in
  let p := [(js "test", task_list [js "d"])] in
  let q := [(js "a", JStr "b"); (js "b", task_list [js "c"]); (js "d", JArr [JNull])] in
  (exists r', loadCompositeTasks [] (js "s.json") (js "p.json") (Ret (JObj s)) (Ret (JObj p)) = Loaded r'
    /\ obj_get r' (js "test") = Some (Composite (task_list [js "d"])))
  /\ exists m, loadCompositeTasks [] (js "s.json") (js "p.json") (Ret (JObj s)) (Ret (JObj q)) = Exited m.
Proof.
  intros s p q. assert (Hs : NoDup (obj_keys s)) by decide_done. assert (Hp : NoDup (obj_keys p)) by decide_done.
  assert (Hq : NoDup (obj_keys q)) by decide_done.
  assert (W : forall l, well_formed (task_list l)) by (intros l; by exists l).
  assert (Is : forall k, ~ ill_formed s k) by (intros k (_ & v & Hv & Hw); set_unfold in Hv; naive_solver).
  assert (Ip : forall k, ~ ill_formed p k) by (intros k (_ & v & Hv & Hw); set_unfold in Hv; naive_solver).
  assert (Iq : exists k, ill_formed q k).
  { exists (js "a"). split; [done|]. exists (JStr "b"). split; [by left|]. by intros [l Hl]. }
  destruct (composite_tasks_merged [] (js "s.json") (js "p.json") s p Hs Hp) as (_ & _ & H & _).
  destruct (composite_tasks_merged [] (js "s.json") (js "p.json") s q Hs Hq) as (_ & Hr & _).
  destruct (H Is Ip) as (r' & Hl & Hk). destruct (Hr Is Iq) as (bad & _ & _ & Hm). split.
  - exists r'. split; [exact Hl|]. rewrite Hk. reflexivity.
  - eexists. exact Hm.
Defined.

(** *** Every task ends *)

Definition task_members (g : gulp_task) : option (list jsstr) :=
  match g with FileTask _ => Some [] | CleanOnce => Some once_tasks | Composite v => members_of v end.

(** A rank that decreases from a task to its parts, which are all known. *)
Definition ranked (r : registry) (rank : jsstr -> nat) : Prop :=
  forall name g, obj_get r name = Some g ->
    exists ms, task_members g = Some ms
      /\ Forall (fun m => is_Some (obj_get r m) /\ rank m < rank name) ms.

Definition file_task (r : registry) (name : jsstr) : Prop := exists path, obj_get r name = Some (FileTask path).

Lemma run_all_some (run : bool -> jsstr -> option (list jsstr * bool)) (P : jsstr -> Prop) names first :
  Forall (fun n => forall b, exists l b', run b n = Some (l, b') /\ Forall P l) names ->
  exists l b', run_all run first names = Some (l, b') /\ Forall P l.
Proof.
  intros H. unfold run_all.
  assert (G : forall acc b, Forall P acc -> exists l b',
    fold_left (fun acc name => match acc with
       | None => None
       | Some (done, first) => match run first name with None => None | Some (l, first') => Some (done ++ l, first') end
       end) names (Some (acc, b)) = Some (l, b') /\ Forall P l).
  { induction H as [|n names Hn _ IH]; intros acc b Ha; [by exists acc, b|].
    cbn [fold_left]. destruct (Hn b) as (l & b' & -> & Hl). apply IH. by apply list.Forall_app. }
  by apply G.
Qed.

Lemma run_task_ends (r : registry) (rank : jsstr -> nat) (name : jsstr) (fuel : nat) (first : bool) :
  ranked r rank -> is_Some (obj_get r name) -> rank name < fuel ->
  exists l first', run_task fuel r first name = Some (l, first') /\ Forall (file_task r) l.
Proof.
  intros Hr. revert name first. induction fuel as [|fuel IH]; intros name first [g Hg] Hf; [lia|].
  destruct (Hr name g Hg) as (ms & Hm & Hms). cbn [run_task]. rewrite Hg.
  assert (Hall : forall b, exists l b', run_all (run_task fuel r) b ms = Some (l, b') /\ Forall (file_task r) l).
  { intros b. apply run_all_some. eapply list.Forall_impl; [exact Hms|]. intros m [Hk Hlt] b1. apply IH; [done|lia]. }
  destruct g as [path|v|]; cbn in Hm.
  - exists [name], first. split; [done|]. constructor; [by exists path|constructor].
  - rewrite Hm. apply Hall.
  - injection Hm as <-. destruct first; [apply Hall|by exists [], false].
Qed.

(** The depth of a task, as its rank. *)
Fixpoint depth (fuel : nat) (r : registry) (name : jsstr) : nat :=
  match fuel with
  | O => O
  | S fuel => match obj_get r name with
              | Some g => S (fold_left (fun n m => Nat.max n (depth fuel r m)) (default [] (task_members g)) 0)
              | None => O
              end
  end.

Definition ranked_b (r : registry) (rank : jsstr -> nat) : bool :=
  forallb (fun kg => match obj_get r kg.1 with
    | None => false
    | Some g => match task_members g with
                | None => false
                | Some ms => forallb (fun m => match obj_get r m with Some _ => (rank m <? rank kg.1)%nat | None => false end) ms
                end
    end) r.

Lemma ranked_b_sound r rank : ranked_b r rank = true -> ranked r rank.
Proof.
  unfold ranked_b. rewrite forallb_forall. intros H name g Hg.
  specialize (H (name, g) (proj1 (list_elem_of_In _ _) (obj_get_elem _ _ _ Hg))). cbn in H. rewrite Hg in H.
  destruct (task_members g) as [ms|]; [|done]. exists ms. split; [done|].
  rewrite forallb_forall in H. apply list.Forall_forall. intros m Hm%list_elem_of_In. specialize (H m Hm).
  destruct (obj_get r m) as [g'|]; [|done]. split; [by eexists|]. by apply Nat.ltb_lt.
Qed.

Definition project_rank (n : jsstr) : nat := pred (depth 6 project_registry n).

Lemma project_ranked : ranked project_registry project_rank.
Proof. apply ranked_b_sound. vm_compute. reflexivity. Qed.

Lemma project_rank_lt name g : obj_get project_registry name = Some g -> project_rank name < 5.
Proof.
  intros Hg%obj_get_elem. assert (H : forallb (fun kg => (project_rank kg.1 <? 5)%nat) project_registry = true)
    by (vm_compute; reflexivity).
  rewrite forallb_forall in H. apply Nat.ltb_lt. exact (H (name, g) (proj1 (list_elem_of_In _ _) Hg)).
Qed.

(** *** Nested sequences are flat *)

Section Flat.
Context {St : Type} (body : jsstr -> St -> ending * St).

Lemma run_flat_app a b s :
  run_flat body (a ++ b) s
  = match run_flat body a s with
    | (l, s', Ended) => let '(l', s2, e) := run_flat body b s' in (l ++ l', s2, e)
    | o => o
    end.
Proof.
  revert s. induction a as [|n a IH]; intros s; cbn [app run_flat]; [by destruct (run_flat body b s) as [[]]|].
  destruct (body n s) as [[|e|c|] s']; try done. rewrite IH.
  destruct (run_flat body a s') as [[l s2] [|e|c|]]; try done. by destruct (run_flat body b s2) as [[]].
Qed.

(** One run refines the other: the same tasks are started, to the same state and ending. *)
Definition refines (o : option (run_result (St := St))) (flat : list jsstr * St * ending) (first' : bool) : Prop :=
  exists started first'' s' e, o = Some (started, first'', s', e) /\ flat = (started, s', e) /\ (e = Ended -> first'' = first').

Lemma fold_prefix (run : bool -> jsstr -> option (list jsstr * bool)) names : forall acc b l b',
  fold_left (fun acc name => match acc with
       | None => None
       | Some (done, first) => match run first name with None => None | Some (l, first') => Some (done ++ l, first') end
       end) names (Some (acc, b)) = Some (l, b') -> exists l2, l = acc ++ l2.
Proof.
  induction names as [|n names IH]; intros acc b l b'; cbn [fold_left]; [intros [= <- _]; exists []; by rewrite app_nil_r|].
  destruct (run b n) as [[l1 b1]|].
  - intros [l2 ->]%IH. exists (l1 ++ l2). by rewrite app_assoc.
  - intros E. exfalso. clear -E. induction names; [discriminate E|by apply IHnames].
Qed.

Lemma seq_flat (run : bool -> jsstr -> option (list jsstr * bool)) (exec : bool -> St -> jsstr -> option run_result) names :
  (forall n b l b' s, run b n = Some (l, b') -> refines (exec b s n) (run_flat body l s) b') ->
  forall b acc l b' s, fold_left (fun acc name => match acc with
       | None => None
       | Some (done, first) => match run first name with None => None | Some (l, first') => Some (done ++ l, first') end
       end) names (Some (acc, b)) = Some (acc ++ l, b') ->
  refines (exec_seq exec b s names) (run_flat body l s) b'.
Proof.
  intros Hrun. induction names as [|n names IH]; intros b acc l b' s; cbn [fold_left exec_seq].
  - intros [= E <-]. rewrite <- (app_nil_r acc) in E at 1. apply app_inv_head in E as <-. by exists [], b, s, Ended.
  - destruct (run b n) as [[l1 b1]|] eqn:En.
    2: { intros E. exfalso. clear -E. induction names; [discriminate E|by apply IHnames]. }
    intros E. destruct (fold_prefix run names (acc ++ l1) b1 (acc ++ l) b' E) as [l2 El].
    rewrite <- app_assoc in El. apply app_inv_head in El as ->. rewrite app_assoc in E.
    destruct (Hrun n b l1 b1 s En) as (st & f & s' & e & -> & Ef & Hd). rewrite run_flat_app, Ef.
    destruct e as [|e|c|]; [|by exists st, f, s', (FailsWith e)|by exists st, f, s', (ExitsWith c)|by exists st, f, s', NeverEnds].
    rewrite (Hd eq_refl). destruct (IH b1 (acc ++ l1) l2 b' s' E) as (st2 & f2 & s2 & e2 & -> & -> & Hd2).
    by exists (st ++ st2), f2, s2, e2.
Qed.

(** Running a task by the rules of gulp and run-sequence, nested as the tasks
    are, is running the tasks of files it comes down to. *)
Lemma exec_task_flat fuel (r : registry) : forall first name l first' s,
  run_task fuel r first name = Some (l, first') -> refines (exec_task body fuel r first s name) (run_flat body l s) first'.
Proof.
  induction fuel as [|fuel IH]; intros first name l first' s; [done|]. cbn [run_task exec_task].
  assert (Hs : forall names b l b', run_all (run_task fuel r) b names = Some (l, b') ->
    refines (exec_seq (exec_task body fuel r) b s names) (run_flat body l s) b').
  { intros names b l0 b' E. apply (seq_flat (run_task fuel r) _ names) with (acc := []); [|exact E]. intros n b1 l1 b2 s1. apply IH. }
  destruct (obj_get r name) as [[path|v|]|]; [| | |done].
  - intros [= <- <-]. cbn [run_flat]. destruct (body name s) as [[|e|c|] s'] eqn:E; by eexists _, _, _, _.
  - destruct (members_of v) as [names|]; [apply Hs|done].
  - destruct first; [apply Hs|]. intros [= <- <-]. by exists [], false, s, Ended.
Qed.

(** Where a run of a list of tasks stops. *)
Lemma run_flat_stops l s started s' e : run_flat body l s = (started, s', e) ->
  (e = Ended -> started = l)
  /\ (e <> Ended -> exists pre n post u, l = pre ++ n :: post /\ started = pre ++ [n]
                   /\ run_flat body pre s = (pre, u, Ended) /\ body n u = (e, s')).
Proof.
  revert s started. induction l as [|n l IH]; intros s started; cbn [run_flat]; [intros [= <- <- <-]; done|].
  destruct (body n s) as [e1 s1] eqn:Eb. destruct (decide (e1 = Ended)) as [->|Hne].
  - destruct (run_flat body l s1) as [[l1 s2] e2] eqn:E. intros [= <- <- <-]. destruct (IH s1 l1 E) as [H1 H2]. split.
    + intros ->. by rewrite (H1 eq_refl).
    + intros He. destruct (H2 He) as (pre & m & post & u & -> & -> & Hp & Hm). exists (n :: pre), m, post, u.
      cbn [run_flat app]. by rewrite Eb, Hp.
  - intros E. assert ((started, s', e) = ([n], s1, e1)) as [= -> -> ->] by (by destruct e1).
    split; [done|]. intros _. by exists [], n, l, s.
Qed.
End Flat.


