(* ===== verification/BuildWatch.v ===== *)
(** * Watching, rebuilding and cleaning

    code_change_tools.ts, watch.ts, clean.ts and template_locals.ts of
    tools/utils/seed, and of tools/tasks/seed watch.tns.ts, start.deving.ts and
    the counter of typed builds of build.js.dev.ts and build.js.test.ts.
    Watchers and builds are steps: a change, the start of a build, a task of a
    running build, the end of a build. *)

From S2P Require Import Prelude JsString NodePath Lodash Json BuildTasks.

(** ** code_change_tools.ts: ChangeFileManager *)

Record ChangeFileManager := { _files : list jsstr; _pristine : bool }.

Definition new_manager : ChangeFileManager := {| _files := []; _pristine := true |}.
Definition addFile (m : ChangeFileManager) (file : jsstr) : ChangeFileManager :=
  {| _files := m.(_files) ++ [file]; _pristine := false |}.
Definition addFiles (m : ChangeFileManager) (files : list jsstr) : ChangeFileManager := fold_left addFile files m.
Definition clear (m : ChangeFileManager) : ChangeFileManager := {| _files := []; _pristine := m.(_pristine) |}.

(** [registerTask] of tasks_tools.ts: whether a task does its work. *)
Definition task_runs (ENABLE_SCSS : bool) (m : ChangeFileManager) (c : task_class) : bool :=
  m.(_pristine) || shallRun ENABLE_SCSS c m.(_files).

(** ** watch.ts and watch.tns.ts *)

Definition watch_paths (root : jsstr) (TEMP_FILES EXTRA_WATCH_PATHS : list jsstr) : list jsstr :=
  [path_join [root; js "**"]] ++ map (fun p => "!" ++ p) TEMP_FILES
  ++ map (fun p => path_join [p; js "**"]) EXTRA_WATCH_PATHS.

Record watch_state := { manager : ChangeFileManager; timers : nat; building : nat }.

Inductive watch_event :=
  | Changed (file : jsstr)
  | Started
  | Asked (c : task_class) (run : bool)
  | Finished.

(** [delayed]: watch.ts starts a build 100 ms after a change, watch.tns.ts at
    once.  A build is one call of [runSequence]; calls that overlap are counted
    one by one, and that gulp joins two runs of one task is not modelled. *)
Inductive watch_step (ENABLE_SCSS delayed : bool) : watch_state -> watch_event -> watch_state -> Prop :=
  | watch_change st f :
      (delayed = false -> st.(timers) = 0) ->
      watch_step ENABLE_SCSS delayed st (Changed f)
        {| manager := addFile st.(manager) f; timers := S st.(timers); building := st.(building) |}
  | watch_start st n :
      st.(timers) = S n ->
      watch_step ENABLE_SCSS delayed st Started
        {| manager := st.(manager); timers := n; building := S st.(building) |}
  | watch_task st c :
      st.(building) <> 0 -> (delayed = false -> st.(timers) = 0) ->
      watch_step ENABLE_SCSS delayed st (Asked c (task_runs ENABLE_SCSS st.(manager) c)) st
  | watch_finish st n :
      st.(building) = S n -> (delayed = false -> st.(timers) = 0) ->
      watch_step ENABLE_SCSS delayed st Finished
        {| manager := clear st.(manager); timers := st.(timers); building := n |}.

Definition watch_init : watch_state := {| manager := new_manager; timers := 0; building := 0 |}.

Inductive watch_trace (ENABLE_SCSS delayed : bool) : list watch_event -> watch_state -> Prop :=
  | trace_init : watch_trace ENABLE_SCSS delayed [] watch_init
  | trace_step tr st e st' :
      watch_trace ENABLE_SCSS delayed tr st -> watch_step ENABLE_SCSS delayed st e st' ->
      watch_trace ENABLE_SCSS delayed (tr ++ [e]) st'.

(** ** start.deving.ts: watchAppFiles *)

Section WatchApp.
Context {E : Type}.

(** [started]: the changes given to the callback so far; [running]: the
    calls that have not called back. *)
Record deving_state := { busyWithCall : bool; changesWaiting : option E; started : list E; running : nat }.

Definition deving_init : deving_state :=
  {| busyWithCall := false; changesWaiting := None; started := []; running := 0 |}.

Definition on_file_change (st : deving_state) (e : E) : deving_state :=
  if st.(busyWithCall)
  then {| busyWithCall := true; changesWaiting := Some e; started := st.(started); running := st.(running) |}
  else {| busyWithCall := true; changesWaiting := st.(changesWaiting);
          started := st.(started) ++ [e]; running := S st.(running) |}.

Definition afterCall (st : deving_state) : deving_state :=
  match st.(changesWaiting) with
  | Some e => {| busyWithCall := false; changesWaiting := None; started := st.(started) ++ [e]; running := S st.(running) |}
  | None => {| busyWithCall := false; changesWaiting := None; started := st.(started); running := st.(running) |}
  end.

Inductive deving_event := FileChange (e : E) | CallEnds.

(** A call that ends is no longer running, and calls back. *)
Definition deving_step (st : deving_state) (ev : deving_event) : option deving_state :=
  match ev with
  | FileChange e => Some (on_file_change st e)
  | CallEnds =>
      match st.(running) with
      | O => None
      | S n => Some (afterCall {| busyWithCall := st.(busyWithCall); changesWaiting := st.(changesWaiting);
                                  started := st.(started); running := n |})
      end
  end.

Fixpoint deving_run (st : deving_state) (evs : list deving_event) : option deving_state :=
  match evs with
  | [] => Some st
  | ev :: evs' => match deving_step st ev with Some st' => deving_run st' evs' | None => None end
  end.

Definition changes_of (evs : list deving_event) : list E :=
  flat_map (fun ev => match ev with FileChange e => [e] | CallEnds => [] end) evs.
End WatchApp.
Arguments deving_state : clear implicits.
Arguments deving_event : clear implicits.

(** ** build.js.dev.ts and build.js.test.ts: typed builds *)

(** A build with the counter at its start: whether it is typed, and the
    counter at its end; the handler of errors runs after the counter is set. *)
Definition js_build (TYPED_COMPILE_INTERVAL typedBuildCounter : Z) (failed : bool) : bool * Z :=
  let isFullCompile := negb (typedBuildCounter <? TYPED_COMPILE_INTERVAL)%Z in
  let counter := if isFullCompile then 0%Z else (typedBuildCounter + 1)%Z in
  (isFullCompile, if failed then TYPED_COMPILE_INTERVAL else counter).

Fixpoint js_builds (interval counter : Z) (failures : list bool) : list bool :=
  match failures with
  | [] => []
  | failed :: fs => let '(typed, counter') := js_build interval counter failed in
                    typed :: js_builds interval counter' fs
  end.

(** ** clean.ts *)

(** The paths given to rimraf, in order, and whether all of them are: a path outside
    the project ends the process. *)
Fixpoint clean (cwd PROJECT_ROOT : jsstr) (paths : list jsstr) : list jsstr * bool :=
  match paths with
  | [] => ([], true)
  | p :: ps =>
      if startsWith (relative cwd PROJECT_ROOT p) ".." then ([], false)
      else let '(removed, done) := clean cwd PROJECT_ROOT ps in (p :: removed, done)
  end.

(** ** template_locals.ts *)

(** [Object.assign] skips a source that is null. *)
Definition assign_val (target : list (jsstr * jsval)) (source : jsval) : list (jsstr * jsval) :=
  match own_properties source with Ret o => assign target o | Throw _ => target end.

Section Locals.
Context `{NumText}.
(** [load]: the module at a path, as JSON.  [SYSTEM_CONFIG_DEV] is a property
    of the configuration. *)
Context (load : jsstr -> exec jsval).

Record TemplateLocalsBuilder := { stringifySystemConfigDev : bool; stringifyEnvConfig : bool }.
Definition new_builder : TemplateLocalsBuilder := {| stringifySystemConfigDev := false; stringifyEnvConfig := true |}.
Definition withStringifiedSystemConfigDev (b : TemplateLocalsBuilder) : TemplateLocalsBuilder :=
  {| stringifySystemConfigDev := true; stringifyEnvConfig := b.(stringifyEnvConfig) |}.
Definition withoutStringifiedEnvConfig (b : TemplateLocalsBuilder) : TemplateLocalsBuilder :=
  {| stringifySystemConfigDev := b.(stringifySystemConfigDev); stringifyEnvConfig := false |}.

Definition getConfig (path env : jsstr) : jsval :=
  match load (path_join [path; env]) with Ret v => v | Throw _ => JNull end.

(** [env_config], [config_env]: the two arguments of the command line. *)
Definition config_env_name (env_config config_env : option jsstr) : jsstr :=
  or_str env_config (or_str config_env "dev").

Definition build_locals (b : TemplateLocalsBuilder) (env_config config_env : option jsstr) (configPath : jsstr)
    (Config : list (jsstr * jsval)) : exec (list (jsstr * jsval)) :=
  let configEnvName := config_env_name env_config config_env in
  let envOnlyConfig := getConfig configPath configEnvName in
  let baseConfig := getConfig configPath "base" in
  if negb (truthy_val (Some envOnlyConfig)) then Throw (ErrorMsg (configEnvName ++ " is an invalid configuration name"))
  else
    let envConfig := JObj (assign_val (assign_val [] baseConfig) envOnlyConfig) in
    let locals := assign (assign [] Config)
      [(js "ENV_CONFIG", if b.(stringifyEnvConfig) then JStr (stringify envConfig) else envConfig)] in
    Ret (if b.(stringifySystemConfigDev)
         then match obj_get Config "SYSTEM_CONFIG_DEV" with
              | Some v => assign locals [(js "SYSTEM_CONFIG_DEV", JStr (stringify v))]
              | None => locals
              end
         else locals).
End Locals.

(** ** Properties *)

(** *** The changes a build sees *)

Definition since_finished (tr : list watch_event) : list jsstr :=
  fold_left (fun acc e => match e with Changed f => acc ++ [f] | Finished => [] | _ => acc end) tr [].

Definition is_change (e : watch_event) : bool := match e with Changed _ => true | _ => false end.
Definition is_start (e : watch_event) : bool := match e with Started => true | _ => false end.
Definition count_events (p : watch_event -> bool) (tr : list watch_event) : nat := length (List.filter p tr).

Lemma count_events_snoc p tr e : count_events p (tr ++ [e]) = count_events p tr + (if p e then 1 else 0).
Proof. unfold count_events. rewrite List.filter_app, length_app. cbn. by destruct (p e). Qed.

Lemma since_finished_snoc tr e :
  since_finished (tr ++ [e])
  = match e with Changed f => since_finished tr ++ [f] | Finished => [] | _ => since_finished tr end.
Proof. unfold since_finished. by rewrite fold_left_app. Qed.

Definition seen_by_task (ENABLE_SCSS : bool) (tr : list watch_event) (c : task_class) : bool :=
  (count_events is_change tr =? 0)%nat || shallRun ENABLE_SCSS c (since_finished tr).

Section WatchFacts.
Context (scss delayed : bool).

Lemma watch_manager tr st :
  watch_trace scss delayed tr st ->
  st.(manager).(_files) = since_finished tr
  /\ st.(manager).(_pristine) = (count_events is_change tr =? 0)%nat
  /\ count_events is_start tr + st.(timers) = count_events is_change tr.
Proof.
  induction 1 as [|tr st e st' _ (Hf & Hp & Hc) Hs]; [done|].
  rewrite since_finished_snoc, !count_events_snoc. destruct Hs; cbn in *; split_and!; try lia.
  - by rewrite Hf.
  - symmetry. apply Nat.eqb_neq. lia.
  - done.
  - rewrite Hp. f_equal. lia.
  - done.
  - rewrite Hp. f_equal. lia.
  - done.
  - rewrite Hp. f_equal. lia.
Qed.

Lemma watch_asked tr st :
  watch_trace scss delayed tr st ->
  forall tr1 c b tr2, tr = tr1 ++ Asked c b :: tr2 -> b = seen_by_task scss tr1 c.
Proof.
  induction 1 as [|tr st e st' Ht IH Hs]; intros tr1 c b tr2 E; [by destruct tr1|].
  destruct tr2 as [|x tr2 _] using rev_ind.
  - apply app_inj_tail in E as [-> ->]. destruct (watch_manager _ _ Ht) as (Hf & Hp & _).
    inversion Hs; subst. unfold task_runs, seen_by_task. by rewrite Hf, Hp.
  - rewrite app_comm_cons, app_assoc in E. apply app_inj_tail in E as [-> _]. by eapply IH.
Qed.

Lemma since_finished_keeps tr f tr2 :
  Finished ∉ tr2 -> f ∈ since_finished (tr ++ Changed f :: tr2).
Proof.
  induction tr2 as [|e tr2 IH] using rev_ind; intros Hn.
  - rewrite since_finished_snoc. set_solver.
  - rewrite app_comm_cons, app_assoc, since_finished_snoc.
    assert (e <> Finished /\ Finished ∉ tr2) as [He Hn2] by set_solver.
    specialize (IH Hn2). destruct e; set_solver.
Qed.
End WatchFacts.

Lemma fold_orb {A} (p : A -> bool) l b : fold_left (fun a f => a || p f) l b = b || existsb p l.
Proof. revert b. induction l as [|x l IH]; intros b; cbn; [by rewrite orb_false_r|]. by rewrite IH, orb_assoc. Qed.

Lemma existsb_mono {A} (p : A -> bool) f l : f ∈ l -> existsb p [f] = true -> existsb p l = true.
Proof.
  cbn. rewrite orb_false_r. intros Hin Hp. apply existsb_exists. exists f. split; [by apply list_elem_of_In|done].
Qed.

Lemma shallRun_mono scss c f files : f ∈ files -> shallRun scss c [f] = true -> shallRun scss c files = true.
Proof.
  intros Hin. unfold shallRun. rewrite ?fold_orb. destruct c; try done.
  all: rewrite ?orb_false_l, ?orb_true_iff; first [by apply existsb_mono|idtac].
  all: intros; destruct_or!; eauto using existsb_mono.
Qed.

(** C31: In every run of a watcher, every change gets one build, a task of a
    running build does its work exactly when one of the changes since the end
    of the previous build concerns it, or nothing has changed yet; a change is
    in the sight of every task until a build ends. *)
Theorem watch_builds_changes (scss delayed : bool) (tr : list watch_event) (st : watch_state) :
  watch_trace scss delayed tr st ->
  count_events is_start tr + st.(timers) = count_events is_change tr
  /\ (forall tr1 c b tr2, tr = tr1 ++ Asked c b :: tr2 -> b = seen_by_task scss tr1 c)
  /\ (forall tr1 f tr2 c b tr3, tr = tr1 ++ Changed f :: tr2 ++ Asked c b :: tr3 -> Finished ∉ tr2 ->
        shallRun scss c [f] = true -> b = true).
Proof.
  intros Ht. split_and!; [by apply (watch_manager _ _ _ _ Ht)|by apply (watch_asked _ _ _ _ Ht)|].
  intros tr1 f tr2 c b tr3 E Hn Hc.
  rewrite (watch_asked _ _ _ _ Ht (tr1 ++ Changed f :: tr2) c b tr3) by (rewrite E, <- app_assoc; done).
  unfold seen_by_task. apply orb_true_iff. right. eapply shallRun_mono; [|done]. by apply since_finished_keeps.
Qed.

(** A run in which [f] changes while the build of an earlier change runs:
    when that build ends, [f] is forgotten, and the build that [f] starts skips
    every task that looks at the changes. *)
Lemma change_during_build_lost scss f0 f c :
  shallRun scss c [] = false ->
  exists st, watch_trace scss true
    [Changed f0; Started; Changed f; Finished; Started; Asked c false] st.
Proof.
  intros Hc. pose proof (trace_init scss true) as T.
  unshelve epose proof (trace_step _ _ _ _ _ _ T (watch_change scss true _ f0 _)) as T0; [done|].
  unshelve epose proof (trace_step _ _ _ _ _ _ T0 (watch_start scss true _ 0 _)) as T1; [done|].
  unshelve epose proof (trace_step _ _ _ _ _ _ T1 (watch_change scss true _ f _)) as T2; [done|].
  unshelve epose proof (trace_step _ _ _ _ _ _ T2 (watch_finish scss true _ 0 _ _)) as T3; [done..|].
  unshelve epose proof (trace_step _ _ _ _ _ _ T3 (watch_start scss true _ 0 _)) as T4; [done|].
  unshelve epose proof (trace_step _ _ _ _ _ _ T4 (watch_task scss true _ c _ _)) as T5; [done..|].
  unfold task_runs in T5. cbn in T5. rewrite Hc in T5. by eexists.
Qed.

Lemma watch_builds_changes_witness :
  exists st, let tr := [Changed (js "a.ts"); Started; Asked TypeScriptTask true] in
    watch_trace true true tr st /\ count_events is_start tr + st.(timers) = count_events is_change tr.
Proof.
  pose proof (trace_init true true) as T.
  unshelve epose proof (trace_step _ _ _ _ _ _ T (watch_change true true _ (js "a.ts") _)) as T0; [done|].
  unshelve epose proof (trace_step _ _ _ _ _ _ T0 (watch_start true true _ 0 _)) as T1; [done|].
  unshelve epose proof (trace_step _ _ _ _ _ _ T1 (watch_task true true _ TypeScriptTask _ _)) as T2; [done..|].
  eexists. split; [exact T2|]. exact (proj1 (watch_builds_changes true true _ _ T2)).
Defined.

(** *** Builds while developing *)

Section DevingFacts.
Context {E : Type}.
Implicit Types (st : deving_state E) (evs : list (deving_event E)).

Definition given_changes st : list E := st.(started) ++ option_list st.(changesWaiting).

Definition deving_inv (changes : list E) st : Prop :=
  given_changes st `sublist_of` changes
  /\ list.last (given_changes st) = list.last changes
  /\ (st.(busyWithCall) = true -> st.(running) <> 0)
  /\ (is_Some st.(changesWaiting) -> st.(busyWithCall) = true).

Lemma last_snoc_eq (l1 l2 : list E) e : list.last (l1 ++ [e]) = list.last (l2 ++ [e]).
Proof. by rewrite !last_snoc. Qed.

Lemma deving_step_inv changes st ev st' :
  deving_inv changes st -> deving_step st ev = Some st' ->
  deving_inv (changes ++ changes_of [ev]) st'.
Proof.
  destruct st as [busy w started run]. intros (Hs & Hl & Hb & Hw) Hev. unfold given_changes in *. cbn in *.
  destruct ev as [e|]; cbn in *.
  - injection Hev as <-. unfold on_file_change, deving_inv, given_changes; cbn. destruct busy; cbn.
    + split_and!; [|apply last_snoc_eq|auto|done]. apply sublist_app; [|done].
      etrans; [|exact Hs]. by apply sublist_inserts_r.
    + destruct w as [w|]; [exfalso; by specialize (Hw (ex_intro _ w eq_refl))|]. cbn in *. rewrite app_nil_r in *.
      split_and!; [by apply sublist_app|apply last_snoc_eq|done|by intros []].
  - destruct run as [|n]; [done|]. injection Hev as <-. rewrite app_nil_r. unfold afterCall, deving_inv, given_changes; cbn.
    destruct w as [w|]; cbn in *; rewrite ?app_nil_r in *; split_and!; try done; by intros [].
Qed.

Lemma deving_run_inv changes st evs st' :
  deving_inv changes st -> deving_run st evs = Some st' -> deving_inv (changes ++ changes_of evs) st'.
Proof.
  revert changes st. induction evs as [|ev evs IH]; intros changes st Hi Hr; cbn in Hr.
  - injection Hr as <-. cbn. by rewrite app_nil_r.
  - destruct (deving_step st ev) as [st1|] eqn:Es; [|done].
    pose proof (IH _ _ (deving_step_inv _ _ _ _ Hi Es) Hr) as H. rewrite <- app_assoc in H.
    replace (changes_of (ev :: evs)) with (changes_of [ev] ++ changes_of evs); [done|]. cbn. by rewrite app_nil_r.
Qed.

(** While developing, the changes that are built are some of the changes,
    in their order, and never an older one after a newer one; when no build is
    running, the last change has been built and none is waiting. *)
Theorem deving_builds_latest evs st :
  deving_run deving_init evs = Some st ->
  st.(started) `sublist_of` changes_of evs
  /\ (st.(running) = 0 -> st.(changesWaiting) = None /\ list.last st.(started) = list.last (changes_of evs)).
Proof.
  intros Hr. assert (Hi : deving_inv [] (@deving_init E)) by (repeat split; [constructor|done|by intros []]).
  destruct (deving_run_inv [] _ _ _ Hi Hr) as (Hs & Hl & Hb & Hw). cbn [app] in *. split.
  - etrans; [|exact Hs]. unfold given_changes. by apply sublist_inserts_r.
  - intros H0. destruct (changesWaiting st) as [w|] eqn:Ew; [by destruct (Hb (Hw (ex_intro _ w eq_refl)))|].
    unfold given_changes in Hl. rewrite Ew in Hl. cbn in Hl. by rewrite app_nil_r in Hl.
Qed.

Lemma deving_run_app a b st st' : deving_run st a = Some st' -> deving_run st (a ++ b) = deving_run st' b.
Proof.
  revert st. induction a as [|x a IH]; intros st Hr; cbn in *; [by injection Hr as <-|].
  destruct (deving_step st x); [by apply IH|done].
Qed.

(** A waiting change is built without marking the watcher busy, so the next
    change starts another build at once: any number of builds can run together. *)
Lemma deving_builds_overlap (e : E) (n : nat) :
  exists evs st, deving_run deving_init evs = Some st /\ st.(running) = n.
Proof.
  assert (G : exists evs st, deving_run deving_init evs = Some st /\ st.(running) = n
    /\ st.(busyWithCall) = false /\ st.(changesWaiting) = None).
  { induction n as [|n (evs & st & Hr & Hn & Hb & Hw)]; [by exists [], deving_init|].
    destruct st as [busy w l r]; cbn in *; subst busy w r.
    exists (evs ++ [FileChange e; FileChange e; CallEnds]). eexists. split; [|split; [|split]].
    - rewrite (deving_run_app _ _ _ _ Hr). reflexivity.
    - reflexivity.
    - reflexivity.
    - reflexivity. }
  destruct G as (evs & st & Hr & Hn & _). by exists evs, st.
Qed.
End DevingFacts.

Lemma deving_builds_latest_witness :
  exists st, deving_run deving_init [FileChange 1; FileChange 2; FileChange 3; CallEnds; CallEnds] = Some st
    /\ st.(started) = [1; 3] /\ st.(started) `sublist_of` [1; 2; 3]
    /\ list.last st.(started) = Some 3.
Proof.
  eexists. split; [reflexivity|]. split; [reflexivity|].
  destruct (deving_builds_latest [FileChange 1; FileChange 2; FileChange 3; CallEnds; CallEnds] _ eq_refl) as [H1 H2].
  split; [exact H1|]. exact (proj2 (H2 eq_refl)).
Defined.

(** *** Typed builds *)

Lemma js_builds_at interval n c i :
  (0 <= c <= interval)%Z -> i < n ->
  js_builds interval c (repeat false n) !! i
  = Some (((Z.of_nat i + c + 1) mod (interval + 1) =? 0)%Z).
Proof.
  revert c i. induction n as [|n IH]; intros c i Hc Hi; [lia|]. cbn [repeat js_builds js_build].
  destruct (c <? interval)%Z eqn:E; cbn [negb].
  - apply Z.ltb_lt in E. destruct i as [|i]; cbn [lookup].
    + cbn. f_equal. symmetry. apply Z.eqb_neq. rewrite Z.mod_small; lia.
    + cbn. rewrite IH by lia. do 2 f_equal. f_equal. lia.
  - apply Z.ltb_ge in E. assert (c = interval) as -> by lia. destruct i as [|i].
    + cbn. f_equal. symmetry. apply Z.eqb_eq. replace (0 + interval + 1)%Z with (interval + 1)%Z by lia.
      apply Z_mod_same_full.
    + cbn. rewrite IH by lia. do 2 f_equal.
      replace (Z.of_nat (S i) + interval + 1)%Z with (Z.of_nat i + 0 + 1 + 1 * (interval + 1))%Z by lia.
      by rewrite Z_mod_plus_full.
Qed.

Lemma js_builds_app interval c fs1 fs2 :
  js_builds interval c (fs1 ++ true :: fs2) = js_builds interval c (fs1 ++ [true]) ++ js_builds interval interval fs2.
Proof.
  revert c. induction fs1 as [|b fs1 IH]; intros c; cbn; [done|]. by rewrite IH.
Qed.

(** Counting from 0, and as long as no build fails, build [i] is typed
    exactly when [i] is a multiple of the interval plus one; a build that fails
    starts the schedule anew, so the build after it is typed. *)
Theorem typed_builds (interval : Z) (n i : nat) (fs1 fs2 : list bool) :
  (0 <= interval)%Z -> i < n ->
  js_builds interval interval (repeat false n) !! i = Some ((Z.of_nat i mod (interval + 1) =? 0)%Z)
  /\ js_builds interval interval (fs1 ++ true :: fs2)
     = js_builds interval interval (fs1 ++ [true]) ++ js_builds interval interval fs2.
Proof.
  intros Hk Hi. split; [|apply js_builds_app]. rewrite js_builds_at by lia. do 2 f_equal.
  replace (Z.of_nat i + interval + 1)%Z with (Z.of_nat i + 1 * (interval + 1))%Z by lia. by rewrite Z_mod_plus_full.
Qed.

Lemma typed_builds_witness :
  js_builds 2 2 (repeat false 7) !! 6 = Some true /\ js_builds 2 2 [false; true; false] = [true; false; true].
Proof.
  split; [exact (proj1 (typed_builds 2 7 6 [] [] ltac:(lia) ltac:(lia)))|].
  exact (proj2 (typed_builds 2 7 6 [false] [false] ltac:(lia) ltac:(lia))).
Defined.

(** *** Cleaning *)

Definition below (cwd root p : jsstr) : Prop :=
  exists b, resolve_segments cwd p = resolve_segments cwd root ++ b.

(** Cleaning removes only paths below the root of the project, as many of
    the given ones as come before the first that it refuses; when all of them
    are removed none was refused. *)
Theorem clean_stays_inside (cwd root : jsstr) (paths : list jsstr) :
  let '(removed, done) := clean cwd root paths in
  Forall (below cwd root) removed
  /\ (done = true -> removed = paths)
  /\ (done = false -> exists p rest, paths = removed ++ p :: rest
        /\ startsWith (relative cwd root p) ".." = true).
Proof.
  induction paths as [|p ps IH]; cbn; [done|].
  destruct (startsWith (relative cwd root p) "..") eqn:E; [split_and!; [constructor|done|by exists p, ps]|].
  destruct (clean cwd root ps) as [removed d]. destruct IH as (Hin & Hd & Hn). split_and!.
  - constructor; [by apply relative_inside|done].
  - intros H. by rewrite Hd.
  - intros H. destruct (Hn H) as (q & rest & -> & Hq). by exists q, rest.
Qed.

(** *** Template locals *)

(** The environment of a template is the base one with the values of the
    chosen environment, and an environment that cannot be read is an error. *)
Lemma env_config_of_locals `{NumText} load env_config config_env path Config b e :
  NoDup (obj_keys b) -> NoDup (obj_keys e) ->
  load (path_join [path; js "base"]) = Ret (JObj b) ->
  load (path_join [path; config_env_name env_config config_env]) = Ret (JObj e) ->
  exists locals env,
    build_locals load (withoutStringifiedEnvConfig new_builder) env_config config_env path Config = Ret locals
    /\ obj_get locals "ENV_CONFIG" = Some (JObj env)
    /\ forall k, obj_get env k = match obj_get e k with Some v => Some v | None => obj_get b k end.
Proof.
  intros Hb He Lb Le. unfold build_locals, getConfig. rewrite Lb, Le. cbn -[obj_get assign].
  eexists _, _. split; [done|]. split.
  - unfold assign at 1. cbn [fold_left fst snd]. apply obj_get_set_eq.
  - intros k. unfold assign_val. cbn [own_properties]. rewrite !assign_get by done. by destruct (obj_get e k), (obj_get b k).
Qed.
