(* ===== verification/BuildConfig.v ===== *)
(** * The configuration of the build

    tools/config: seed.config.ts, seed-advanced.config.ts, project.config.ts;
    and what the tasks build.index.dev.ts, build.index.prod.ts,
    build.bundles.ts, build.html_css.ts and tsproject.ts make of it.  A member
    of the configuration is a definition of the same name over the arguments of
    the command line. *)

From S2P Require Import Prelude JsString NodePath Lodash Json BuildTasks.

(** ** The arguments and the build type *)

Record Argv := {
  arg_port : option Z; arg_docs_port : option Z; arg_coverage_port : option Z;
  arg_debug : bool; arg_scss : bool; arg_b : bool; arg_desktop : bool; arg_desktopBuild : bool; arg_hybrid : bool;
  arg_base : option jsstr; arg_app : option jsstr; arg_client : option jsstr; arg_analytics : option jsstr;
  arg_build_type : option jsstr; arg_env : option jsstr;
  arg__ : list jsstr }.

Definition no_arguments : Argv := {|
  arg_port := None; arg_docs_port := None; arg_coverage_port := None;
  arg_debug := false; arg_scss := false; arg_b := false; arg_desktop := false; arg_desktopBuild := false;
  arg_hybrid := false; arg_base := None; arg_app := None; arg_client := None; arg_analytics := None;
  arg_build_type := None; arg_env := None; arg__ := [] |}.

Definition or_num (o : option Z) (d : Z) : Z := match o with Some z => if (z =? 0)%Z then d else z | None => d end.

Definition DEVELOPMENT : jsstr := js "dev".
Definition PRODUCTION : jsstr := js "prod".
Definition BUILD_TYPES : list (jsstr * jsstr) := [(js "DEVELOPMENT", DEVELOPMENT); (js "PRODUCTION", PRODUCTION)].

Definition getBuildType `{CaseMap} (argv : Argv) : jsstr :=
  let type := toLowerCase (or_str argv.(arg_build_type) (or_str argv.(arg_env) "")) in
  let prodKeyword := match list.last (List.filter (fun o => (0 <=? indexOf o PRODUCTION)%Z) argv.(arg__)) with
                     | Some o => truthy o
                     | None => false
                     end in
  if prodKeyword || (type === PRODUCTION) then PRODUCTION else DEVELOPMENT.

(** ** Injectable dependencies *)

(** Strings or arrays of strings; strings or booleans. *)
Inductive types_val := OneType (s : jsstr) | Types (l : list jsstr).
Inductive inject_val := InjectAs (s : jsstr) | InjectFlag (b : bool).
#[global] Instance types_val_eq : EqDecision types_val.
Proof. solve_decision. Defined.
#[global] Instance inject_val_eq : EqDecision inject_val.
Proof. solve_decision. Defined.

Record InjectableDependency := {
  dep_src : jsstr; inject : inject_val; vendor : option bool;
  buildType : option types_val; dep_env : option types_val }.

Definition dep (src : jsstr) (i : inject_val) : InjectableDependency :=
  {| dep_src := src; inject := i; vendor := None; buildType := None; dep_env := None |}.
Definition dep_for (type src : jsstr) (i : inject_val) : InjectableDependency :=
  {| dep_src := src; inject := i; vendor := None; buildType := Some (OneType type); dep_env := None |}.
Definition set_src (d : InjectableDependency) (s : jsstr) : InjectableDependency :=
  {| dep_src := s; inject := d.(inject); vendor := d.(vendor); buildType := d.(buildType); dep_env := d.(dep_env) |}.
Definition set_types (d : InjectableDependency) (t e : option types_val) : InjectableDependency :=
  {| dep_src := d.(dep_src); inject := d.(inject); vendor := d.(vendor); buildType := t; dep_env := e |}.

Definition truthy_types (t : option types_val) : bool :=
  match t with Some (OneType s) => truthy s | Some (Types _) => true | None => false end.

(** [indexOf] of a string looks for a part of it. *)
Definition has_type (t : types_val) (type : jsstr) : bool :=
  match t with OneType s => (0 <=? indexOf s type)%Z | Types l => includes l type end.

(** [filterDependency]: its answer, and the dependency as it leaves it. *)
Definition filterDependency (type : jsstr) (d : InjectableDependency) : bool * InjectableDependency :=
  let t := if truthy_types d.(buildType) then d.(buildType) else d.(dep_env) in
  let bt := match t with
            | Some v => if truthy_types t then v else Types (obj_values BUILD_TYPES)
            | None => Types (obj_values BUILD_TYPES)
            end in
  let env := match bt with OneType s => Some (Types [s]) | Types _ => d.(dep_env) end in
  (has_type bt type, set_types d (Some bt) env).

Definition is_glob (s : jsstr) : bool := existsb (N.eqb 42) s.

Section Dependencies.
(** [require.resolve]. *)
Context (require_resolve : jsstr -> exec jsstr).

Definition normalizeDependency (d : InjectableDependency) : exec InjectableDependency :=
  if is_glob d.(dep_src) then Ret d else p <-! require_resolve d.(dep_src);; Ret (set_src d p).

Fixpoint map_exec {A B} (f : A -> exec B) (l : list A) : exec (list B) :=
  match l with
  | [] => Ret []
  | x :: l' => y <-! f x;; ys <-! map_exec f l';; Ret (y :: ys)
  end.

Definition normalizeDependencies (deps : list InjectableDependency) : exec (list InjectableDependency) :=
  map_exec normalizeDependency deps.

(** The entries of the two lists are objects that reading changes. *)
Record dep_store := { npm : list InjectableDependency; assets : list InjectableDependency }.

Definition keep (type : jsstr) (d : InjectableDependency) : bool := fst (filterDependency type d).
Definition touched (type : jsstr) (d : InjectableDependency) : InjectableDependency := snd (filterDependency type d).

(** A dependency of the list after [DEPENDENCIES] is read. *)
Definition read_npm (type : jsstr) (d : InjectableDependency) : exec InjectableDependency :=
  if keep type d then normalizeDependency (touched type d) else Ret (touched type d).

(** [DEPENDENCIES]; [style] is the first entry of [_APP_ASSETS], a new object
    on every read. *)
Definition DEPENDENCIES (type : jsstr) (style : InjectableDependency) (st : dep_store)
    : exec (list InjectableDependency * dep_store) :=
  npm' <-! map_exec (read_npm type) st.(npm);;
  let kept := map snd (List.filter (fun p => keep type p.1) (combine st.(npm) npm')) in
  let assets' := map (touched type) st.(assets) in
  let kept_assets := map (touched type) (List.filter (keep type) (style :: st.(assets))) in
  Ret (kept ++ kept_assets, {| npm := npm'; assets := assets' |}).

(** build.bundles.ts *)
Definition getShims (deps : list InjectableDependency) : list jsstr :=
  let libs := List.filter (fun d => endsWith d.(dep_src) ".js") deps in
  let part i := List.filter (fun d => bool_decide (d.(inject) = i)) libs in
  map dep_src (part (InjectAs (js "shims")) ++ part (InjectAs (js "libs")) ++ part (InjectFlag true)).

(** build.html_css.ts *)
Definition getExternalCss (deps : list InjectableDependency) : list jsstr :=
  map dep_src (List.filter (fun d => endsWith d.(dep_src) ".css") deps).
Definition getExternalScss (deps : list InjectableDependency) (entrySCSSFiles : jsstr) : list jsstr :=
  map dep_src (List.filter (fun d => endsWith d.(dep_src) ".scss") deps) ++ [entrySCSSFiles].
(** [getSCSSFiles]: the files read, and the patterns they are filtered by. *)
Definition getSCSSFiles (filesToCompile filesToExclude : list jsstr) : list jsstr * list jsstr :=
  (filesToCompile ++ filesToExclude, filesToCompile ++ map (fun p => "!" ++ p) filesToExclude).
End Dependencies.

(** ** seed.config.ts: members *)

(** An object of SystemJS: paths and packages. *)
Definition meta (main defaultExtension : jsstr) : jsval :=
  JObj [(js "main", JStr main); (js "defaultExtension", JStr defaultExtension)].
Record system_config := { paths : list (jsstr * jsstr); packages : list (jsstr * jsval) }.

Record ExtendPackages := { pack_name : jsstr; pack_path : option jsstr; packageMeta : option jsval }.

Definition set_path (c : system_config) (k v : jsstr) : system_config :=
  {| paths := obj_set c.(paths) k v; packages := c.(packages) |}.
Definition set_package (c : system_config) (k : jsstr) (v : jsval) : system_config :=
  {| paths := c.(paths); packages := obj_set c.(packages) k v |}.

(** What [addPackageBundles] does to [SYSTEM_CONFIG_DEV] and to
    [SYSTEM_BUILDER_CONFIG] alike. *)
Definition add_bundle (c : system_config) (pack : ExtendPackages) : system_config :=
  let c := match pack.(pack_path) with
           | Some p => if truthy p then set_path c pack.(pack_name) p else c
           | None => c
           end in
  match pack.(packageMeta) with
  | Some m => if truthy_val (Some m) then set_package c pack.(pack_name) m else c
  | None => c
  end.

Record configs := { SYSTEM_CONFIG_DEV : system_config; SYSTEM_BUILDER_CONFIG : system_config }.
Definition addPackageBundles (c : configs) (pack : ExtendPackages) : configs :=
  {| SYSTEM_CONFIG_DEV := add_bundle c.(SYSTEM_CONFIG_DEV) pack;
     SYSTEM_BUILDER_CONFIG := add_bundle c.(SYSTEM_BUILDER_CONFIG) pack |}.
Definition addPackagesBundles (c : configs) (packs : list ExtendPackages) : configs := fold_left addPackageBundles packs c.

(** Named exports are JSON objects. *)
Definition getRollupNamedExports (ROLLUP_NAMED_EXPORTS : list (list (jsstr * jsval))) : list (jsstr * jsval) :=
  fold_left assign ROLLUP_NAMED_EXPORTS [].

Section Members.
Context `{CaseMap} (argv : Argv) (__dirname cwd : jsstr) (env_ENABLE_SCSS : option jsstr).

Definition PORT : Z := or_num argv.(arg_port) 5000.
Definition DOCS_PORT : Z := or_num argv.(arg_docs_port) 5003.
Definition COVERAGE_PORT : Z := or_num argv.(arg_coverage_port) 5004.
Definition PROJECT_ROOT : jsstr := path_join [__dirname; js "../.."].
Definition BUILD_TYPE : jsstr := getBuildType argv.
Definition DEBUG : bool := argv.(arg_debug) || false.
Definition APP_BASE : jsstr :=
  or_str argv.(arg_base) (if BUILD_TYPE === DEVELOPMENT then "/" else "/core/ui/default/").
(** On POSIX paths [slash] changes nothing without a backslash. *)
Definition NPM_BASE (slash : jsstr -> jsstr) : jsstr := slash (path_join [js "."; APP_BASE; js "node_modules/"]).
Definition TYPED_COMPILE_INTERVAL : Z := 0.
Definition BOOTSTRAP_DIR : jsstr := or_str argv.(arg_app) "app".
Definition APP_CLIENT : jsstr := or_str argv.(arg_client) "client".
Definition BOOTSTRAP_MODULE : jsstr := BOOTSTRAP_DIR ++ "/main".
Definition BOOTSTRAP_PROD_MODULE : jsstr := BOOTSTRAP_DIR ++ "/" ++ "main".
Definition NG_FACTORY_FILE : jsstr := "main-prod".
Definition BOOTSTRAP_FACTORY_PROD_MODULE : jsstr := BOOTSTRAP_DIR ++ "/" ++ NG_FACTORY_FILE.
Definition APP_SRC : jsstr := "src/" ++ APP_CLIENT.
Definition ASSETS_SRC : jsstr := APP_SRC ++ "/assets".
Definition CSS_SRC : jsstr := APP_SRC ++ "/css".
Definition SCSS_SRC : jsstr := APP_SRC ++ "/scss".
Definition TOOLS_DIR : jsstr := "tools".
Definition SEED_TASKS_DIR : jsstr := path_join [cwd; TOOLS_DIR; js "tasks"; js "seed"].
Definition SEED_COMPOSITE_TASKS : jsstr := path_join [cwd; TOOLS_DIR; js "config"; js "seed.tasks.json"].
Definition PROJECT_COMPOSITE_TASKS : jsstr := path_join [cwd; TOOLS_DIR; js "config"; js "project.tasks.json"].
Definition PROJECT_TASKS_DIR : jsstr := path_join [cwd; TOOLS_DIR; js "tasks"; js "project"].
Definition DIST_DIR : jsstr := "dist".
Definition DEV_DEST : jsstr := DIST_DIR ++ "/dev".
Definition PROD_DEST : jsstr := DIST_DIR ++ "/prod".
Definition E2E_DEST : jsstr := DIST_DIR ++ "/e2e".
Definition TMP_DIR : jsstr := DIST_DIR ++ "/tmp".
Definition APP_DEST : jsstr := if BUILD_TYPE === DEVELOPMENT then DEV_DEST else PROD_DEST.
Definition ASSETS_DEST : jsstr := APP_DEST ++ "/assets".
Definition CSS_DEST : jsstr := APP_DEST ++ "/css".
Definition JS_DEST : jsstr := APP_DEST ++ "/js".
Definition CSS_BUNDLE_NAME : jsstr := "main".
Definition JS_PROD_SHIMS_BUNDLE : jsstr := "shims.js".
Definition JS_PROD_APP_BUNDLE : jsstr := "app.js".

(** The text of a variable that is not set is [undefined]. *)
Definition ENABLE_SCSS : bool :=
  includes [js "true"; js "1"] (toLowerCase (str_or_undefined env_ENABLE_SCSS)) || argv.(arg_scss) || true.

Definition TEMP_FILES : list jsstr :=
  [js "**/*___jb_tmp___"; js "**/*~"; js "**/*.tns.scss"; js "**/*.tns.css"; js "**/*.tns.html";
   js "src/**/*.js"; js "src/**/*.js.map"].

Definition getInjectableStyleExtension : jsstr :=
  if (BUILD_TYPE === PRODUCTION) && ENABLE_SCSS then "scss" else "css".

(** The entry of [_APP_ASSETS] that is not in [APP_ASSETS]. *)
Definition style_asset : InjectableDependency :=
  {| dep_src := CSS_SRC ++ "/" ++ CSS_BUNDLE_NAME ++ "." ++ getInjectableStyleExtension;
     inject := InjectFlag true; vendor := Some false; buildType := None; dep_env := None |}.

Definition seed_NPM_DEPENDENCIES : list InjectableDependency :=
  [ dep "core-js/client/shim.min.js" (InjectAs (js "shims"));
    dep "zone.js/dist/zone.js" (InjectAs (js "libs"));
    dep_for DEVELOPMENT "zone.js/dist/long-stack-trace-zone.js" (InjectAs (js "libs"));
    dep "intl/dist/Intl.min.js" (InjectAs (js "shims"));
    dep_for DEVELOPMENT "systemjs/dist/system.src.js" (InjectAs (js "shims"));
    dep_for DEVELOPMENT ".tmp/Rx.min.js" (InjectAs (js "libs")) ].

Definition seed_SYSTEM_CONFIG_DEV : system_config :=
  {| paths := assign [(BOOTSTRAP_MODULE, APP_BASE ++ BOOTSTRAP_MODULE)]
    [ (js "@angular/animations", js "node_modules/@angular/animations/bundles/animations.umd.js");
    (js "@angular/platform-browser/animations", js "node_modules/@angular/platform-browser/bundles/platform-browser-animations.umd.js");
    (js "@angular/common", js "node_modules/@angular/common/bundles/common.umd.js");
    (js "@angular/compiler", js "node_modules/@angular/compiler/bundles/compiler.umd.js");
    (js "@angular/core", js "node_modules/@angular/core/bundles/core.umd.js");
    (js "@angular/forms", js "node_modules/@angular/forms/bundles/forms.umd.js");
    (js "@angular/http", js "node_modules/@angular/http/bundles/http.umd.js");
    (js "@angular/platform-browser", js "node_modules/@angular/platform-browser/bundles/platform-browser.umd.js");
    (js "@angular/platform-browser-dynamic", js "node_modules/@angular/platform-browser-dynamic/bundles/platform-browser-dynamic.umd.js");
    (js "@angular/router", js "node_modules/@angular/router/bundles/router.umd.js");
    (js "@angular/animations/browser", js "node_modules/@angular/animations/bundles/animations-browser.umd.js");
    (js "@angular/common/testing", js "node_modules/@angular/common/bundles/common-testing.umd.js");
    (js "@angular/compiler/testing", js "node_modules/@angular/compiler/bundles/compiler-testing.umd.js");
    (js "@angular/core/testing", js "node_modules/@angular/core/bundles/core-testing.umd.js");
    (js "@angular/http/testing", js "node_modules/@angular/http/bundles/http-testing.umd.js");
    (js "@angular/platform-browser/testing", js "node_modules/@angular/platform-browser/bundles/platform-browser-testing.umd.js");
    (js "@angular/platform-browser-dynamic/testing", js "node_modules/@angular/platform-browser-dynamic/bundles/platform-browser-dynamic-testing.umd.js");
    (js "@angular/router/testing", js "node_modules/@angular/router/bundles/router-testing.umd.js");
    (js "app/*", js "/app/*");
    (js "dist/dev/*", js "/base/dist/dev/*");
    (js "*", js "node_modules/*") ];
     packages := [] |}.

Definition seed_SYSTEM_BUILDER_CONFIG : system_config :=
  {| paths := assign [(path_join [TMP_DIR; js "*"], TMP_DIR ++ "/*")]
    [ (js "@angular/platform-browser/animations", js "node_modules/@angular/platform-browser/bundles/platform-browser-animations.umd.js");
    (js "@angular/animations/browser", js "node_modules/@angular/animations/bundles/animations-browser.umd.js");
    (js "dist/tmp/node_modules/*", js "dist/tmp/node_modules/*");
    (js "node_modules/*", js "node_modules/*");
    (js "*", js "node_modules/*") ];
     packages :=
    [ (js "@angular/animations", meta "bundles/animations.umd.js" "js");
    (js "@angular/common", meta "bundles/common.umd.js" "js");
    (js "@angular/compiler", meta "bundles/compiler.umd.js" "js");
    (js "@angular/core/testing", meta "bundles/core-testing.umd.js" "js");
    (js "@angular/core", meta "bundles/core.umd.js" "js");
    (js "@angular/forms", meta "bundles/forms.umd.js" "js");
    (js "@angular/http", meta "bundles/http.umd.js" "js");
    (js "@angular/platform-browser", meta "bundles/platform-browser.umd.js" "js");
    (js "@angular/platform-browser-dynamic", meta "bundles/platform-browser-dynamic.umd.js" "js");
    (js "@angular/router", meta "bundles/router.umd.js" "js");
    (js "@angular/service-worker", meta "bundles/service-worker.umd.js" "js");
    (js "rxjs", meta "Rx.js" "js") ] |}.

(** The routes of the development server, in order. *)
Definition server_routes : list (jsstr * jsstr) :=
  let base := if endsWith APP_BASE "/" then take (length APP_BASE - 1) APP_BASE else APP_BASE in
  fold_left (fun o kv => obj_set o kv.1 kv.2)
    [(APP_BASE ++ APP_SRC, APP_SRC); (APP_BASE ++ APP_DEST, APP_DEST);
     (APP_BASE ++ "node_modules", js "node_modules"); (base, APP_DEST)] [].

(** ** seed-advanced.config.ts and project.config.ts *)

Definition TARGET_DESKTOP : bool := argv.(arg_desktop).
Definition TARGET_DESKTOP_BUILD : bool := argv.(arg_desktop) && argv.(arg_desktopBuild).
Definition TARGET_MOBILE_HYBRID : bool := negb argv.(arg_desktop) && argv.(arg_hybrid).
Definition bootstrap : jsstr := if TARGET_MOBILE_HYBRID then "main.mobile.hybrid" else "main.web".
Definition adv_BOOTSTRAP_DIR : jsstr := if truthy_opt argv.(arg_app) then str_or_undefined argv.(arg_app) ++ "/" else "".
Definition adv_BOOTSTRAP_MODULE : jsstr := adv_BOOTSTRAP_DIR ++ bootstrap.
Definition adv_NG_FACTORY_FILE : jsstr := bootstrap ++ ".prod".
Definition adv_BOOTSTRAP_FACTORY_PROD_MODULE : jsstr := adv_BOOTSTRAP_DIR ++ bootstrap ++ ".prod".
Definition TNS_BASE_DIR : jsstr := "nativescript".
Definition TNS_APP_SRC : jsstr := TNS_BASE_DIR ++ "/" ++ "src".
Definition TNS_APP_DEST : jsstr := TNS_BASE_DIR ++ "/" ++ "app".
Definition ANALYTICS_TRACKING_ID : jsstr := or_str argv.(arg_analytics) "".

Definition additionalPackages : list ExtendPackages :=
  [ {| pack_name := js "lodash"; pack_path := Some (js "node_modules/lodash/lodash.js"); packageMeta := Some (meta "index.js" "js") |};
    {| pack_name := js "@ngrx/core"; pack_path := None; packageMeta := Some (meta "bundles/core.umd.js" "js") |};
    {| pack_name := js "@ngrx/store"; pack_path := None; packageMeta := Some (meta "bundles/store.umd.js" "js") |};
    {| pack_name := js "@ngrx/effects"; pack_path := None; packageMeta := Some (meta "bundles/effects.umd.js" "js") |};
    {| pack_name := js "@ngrx/effects/testing"; pack_path := Some (js "node_modules/@ngrx/effects/testing/index.js"); packageMeta := None |};
    {| pack_name := js "@ngrx/store-devtools"; pack_path := None; packageMeta := Some (meta "bundles/store-devtools.umd.js" "js") |};
    {| pack_name := js "@ngx-translate/core"; pack_path := None; packageMeta := Some (meta "bundles/core.umd.js" "js") |};
    {| pack_name := js "@ngx-translate/http-loader"; pack_path := None; packageMeta := Some (meta "bundles/http-loader.umd.js" "js") |};
    {| pack_name := js "angulartics2"; pack_path := None; packageMeta := Some (meta "dist/core.umd.js" "js") |};
    {| pack_name := js "ngrx-store-freeze"; pack_path := Some (js "node_modules/ngrx-store-freeze/dist/index.js"); packageMeta := None |};
    {| pack_name := js "deep-freeze-strict"; pack_path := Some (js "node_modules/deep-freeze-strict/index.js"); packageMeta := None |};
    {| pack_name := js "ngx-infinite-scroll"; pack_path := None; packageMeta := Some (meta "bundles/ngx-infinite-scroll.umd.js" "js") |};
    {| pack_name := js "moment"; pack_path := None; packageMeta := Some (meta "moment.js" "js") |};
    {| pack_name := js "numeral"; pack_path := None; packageMeta := Some (meta "numeral.js" "js") |} ].

(** [SYSTEM_CONFIG] is [SYSTEM_CONFIG_DEV]. *)
Definition advanced_configs : configs :=
  let c := addPackagesBundles
             {| SYSTEM_CONFIG_DEV := seed_SYSTEM_CONFIG_DEV; SYSTEM_BUILDER_CONFIG := seed_SYSTEM_BUILDER_CONFIG |}
             additionalPackages in
  {| SYSTEM_CONFIG_DEV := set_path c.(SYSTEM_CONFIG_DEV) adv_BOOTSTRAP_MODULE (APP_BASE ++ adv_BOOTSTRAP_MODULE);
     SYSTEM_BUILDER_CONFIG := c.(SYSTEM_BUILDER_CONFIG) |}.

Definition FONTS_DEST : jsstr := ASSETS_DEST ++ "/fonts".
Definition FONTS_SRC : list jsstr := [js "node_modules/font-awesome/fonts/**"; ASSETS_SRC ++ "/fonts/**"].

Definition project_NPM_DEPENDENCIES : list InjectableDependency :=
  seed_NPM_DEPENDENCIES
  ++ map (fun s => dep s (InjectAs (js "libs")))
       [js "jquery/dist/jquery.min.js"; js "tether/dist/js/tether.min.js"; js "bootstrap/dist/js/bootstrap.min.js";
        js "d3/d3.min.js"; js "d3-tip/index.js"; js "patternfly-timeline/dist/timeline.js";
        js "chart.js/dist/Chart.bundle.min.js"; js "codemirror/lib/codemirror.js";
        js "codemirror/addon/display/autorefresh.js"; js "codemirror/addon/edit/matchbrackets.js";
        js "codemirror/addon/selection/active-line.js"; js "codemirror/mode/javascript/javascript.js"]
  ++ map (fun s => dep s (InjectFlag true))
       [js "patternfly-timeline/dist/timeline.css"; js "codemirror/lib/codemirror.css"].

(** ** build.index.dev.ts *)

Definition getInjectablesDependenciesRef (mapPath : InjectableDependency -> jsstr) (deps : list InjectableDependency)
    (name : option jsstr) : list jsstr :=
  let wanted := if truthy_opt name then InjectAs (str_or_undefined name) else InjectFlag true in
  let set i := match i with InjectAs s => truthy s | InjectFlag b => b end in
  map mapPath (List.filter (fun d => set d.(inject) && bool_decide (d.(inject) = wanted)) deps).

Definition mapPath (d : InjectableDependency) : jsstr :=
  let envPath := d.(dep_src) in
  if startsWith envPath APP_SRC && negb (endsWith envPath ".scss")
  then path_join [APP_DEST; replace_first APP_SRC "" envPath]
  else if startsWith envPath APP_SRC && endsWith envPath ".scss"
  then replace_first ".scss" ".css" (replace_first ASSETS_SRC CSS_DEST envPath)
  else envPath.

Definition backslash : N := 92.

(** The location given to gulp-inject; the text of the tag is gulp-inject's. *)
Definition transformPath_dev (queryString filepath : jsstr) : jsstr :=
  let filepath := if startsWith filepath ("/" ++ APP_DEST) then replace_first ("/" ++ APP_DEST) "" filepath else filepath in
  let location :=
    if TARGET_DESKTOP then
      let path := path_join [APP_BASE; filepath] in
      let win := "dist" ++ [backslash] ++ "dev" in
      let path := if (-1 <? indexOf path "dist/dev")%Z || (-1 <? indexOf path win)%Z
                  then gsub (fun s => match match_lit "dist/dev/" [] s with
                                      | Some m => Some m
                                      | None => match_lit (win ++ [backslash]) [] s
                                      end) 0 path
                  else path in
      substr_from path 1
    else path_join [APP_BASE; filepath] in
  if truthy queryString then location ++ "?" ++ queryString else location.

(** ** build.index.prod.ts *)

Definition injectJs : list jsstr := [path_join [JS_DEST; JS_PROD_SHIMS_BUNDLE]; path_join [JS_DEST; JS_PROD_APP_BUNDLE]].
Definition injectCss : list jsstr := [path_join [CSS_DEST; CSS_BUNDLE_NAME ++ ".css"]].

Definition transformPath_prod (queryString filepath : jsstr) : jsstr :=
  let path := JsString.split slash (normalize filepath) in
  let slice_after := match find_index (fun s => s === APP_DEST) path with Some i => S i | None => 3 end in
  let location := APP_BASE ++ join "/" (drop slice_after path) in
  if truthy queryString then location ++ "?" ++ queryString else location.
End Members.

(** ** tsproject.ts *)

(** The projects made so far, by the text of their options: the path of the
    file each was made from. *)
Definition makeTsProject (tsProjects : list (jsstr * jsstr)) (options pathToTsConfig projectName : jsstr)
    : jsstr * list (jsstr * jsstr) :=
  match obj_get tsProjects options with
  | Some p => (p, tsProjects)
  | None => let p := path_join [pathToTsConfig; projectName] in (p, obj_set tsProjects options p)
  end.

(** ** Properties *)

(** *** Dependencies *)

(** The build types a dependency is declared for. *)
Definition declared (d : InjectableDependency) : list jsstr :=
  match (if truthy_types d.(buildType) then d.(buildType) else d.(dep_env)) with
  | Some (OneType s) => if truthy s then [s] else [DEVELOPMENT; PRODUCTION]
  | Some (Types l) => l
  | None => [DEVELOPMENT; PRODUCTION]
  end.

Definition build_type (s : jsstr) : Prop := s = DEVELOPMENT \/ s = PRODUCTION.

Definition known_types (d : InjectableDependency) : Prop :=
  match (if truthy_types d.(buildType) then d.(buildType) else d.(dep_env)) with
  | Some (OneType s) => truthy s = true -> build_type s
  | _ => True
  end.

Lemma has_one_type s type : build_type s -> build_type type -> has_type (OneType s) type = includes [s] type.
Proof. by intros [->| ->] [->| ->]. Qed.

Lemma keep_declared type d : build_type type -> known_types d -> keep type d = includes (declared d) type.
Proof.
  intros Ht. unfold keep, filterDependency, declared, known_types. cbn [fst].
  destruct (if truthy_types _ then _ else _) as [[s|l]|]; cbn [truthy_types]; [|done..].
  destruct (truthy s); intros Hk; [|done]. apply has_one_type; [by apply Hk|done].
Qed.

Lemma touched_touched type d : touched type (touched type d) = touched type d /\ keep type (touched type d) = keep type d.
Proof.
  destruct d as [src i v t e]. unfold touched, keep, filterDependency. cbn [fst snd set_types buildType dep_env dep_src inject vendor].
  destruct (if truthy_types t then t else e) as [[x|l]|]; [destruct (truthy x) eqn:Ex|..]; cbn [truthy_types].
  all: rewrite ?Ex; cbn [truthy_types]; rewrite ?Ex; done.
Qed.

Lemma touched_set_src type d s : touched type (set_src d s) = set_src (touched type d) s.
Proof. reflexivity. Qed.
Lemma keep_set_src type d s : keep type (set_src d s) = keep type d.
Proof. reflexivity. Qed.

Lemma map_exec_ok {A B} (f : A -> exec B) l l' : map_exec f l = Ret l' <-> Forall2 (fun x y => f x = Ret y) l l'.
Proof.
  revert l'. induction l as [|x l IH]; intros l'; cbn.
  - split; [intros H; injection H as <-; constructor|intros H; by inversion H].
  - split.
    + destruct (f x) as [y|] eqn:Ef; [|done]. cbn. destruct (map_exec f l) as [ys|] eqn:Em; [|done]. cbn.
      intros H. injection H as <-. constructor; [done|]. by apply IH.
    + intros H. inversion H as [|? y ? ys Hy Hys]; subst. rewrite Hy. cbn. by rewrite (proj2 (IH ys) Hys).
Qed.

Section DependencyFacts.
Context (resolve : jsstr -> exec jsstr).
(** A module is found again by the path it was found at, which has no star. *)
Hypothesis resolve_again : forall s p, resolve s = Ret p -> resolve p = Ret p /\ is_glob p = false.

Lemma read_npm_again type d d' : read_npm resolve type d = Ret d' ->
  read_npm resolve type d' = Ret d' /\ keep type d' = keep type d /\ inject d' = inject d
  /\ (keep type d = true -> if is_glob d.(dep_src) then dep_src d' = dep_src d else resolve d.(dep_src) = Ret d'.(dep_src)).
Proof.
  destruct (touched_touched type d) as [Htt Hkt].
  unfold read_npm. destruct (keep type d) eqn:Ek.
  - unfold normalizeDependency. change (dep_src (touched type d)) with (dep_src d).
    destruct (is_glob (dep_src d)) eqn:Eg.
    + intros H. injection H as <-. rewrite Hkt, Htt. change (dep_src (touched type d)) with (dep_src d). by rewrite Eg.
    + destruct (resolve (dep_src d)) as [p|] eqn:Er; [|done]. cbn [exec_bind]. intros [= <-].
      rewrite keep_set_src, Hkt, touched_set_src, Htt. destruct (resolve_again _ _ Er) as [Hp Hg].
      cbn [dep_src set_src]. rewrite Hg, Hp. cbn. done.
  - intros H. injection H as <-. rewrite Hkt, Htt. done.
Qed.

Lemma filter_touched type l :
  List.filter (keep type) (map (touched type) l) = map (touched type) (List.filter (keep type) l)
  /\ map (touched type) (map (touched type) l) = map (touched type) l.
Proof.
  induction l as [|d l [IH1 IH2]]; [done|]. destruct (touched_touched type d) as [Ht Hk].
  cbn [List.filter map]. rewrite Ht, Hk, IH1, IH2. split; [by destruct (keep type d)|done].
Qed.

Lemma kept_locals type a : build_type type -> Forall known_types a ->
  Forall2 (fun d d' => inject d' = inject d /\ dep_src d' = dep_src d)
    (List.filter (fun d => includes (declared d) type) a) (map (touched type) (List.filter (keep type) a)).
Proof.
  intros Ht Ha. induction Ha as [|d a Hd _ IH]; [constructor|].
  cbn [List.filter]. rewrite <- keep_declared by done. destruct (keep type d); [by constructor|done].
Qed.

(** C37: The dependencies of a build are those declared for its type (a single
    type being dev or prod), in the order of the configuration, libraries that
    are no globs under the path they are found at and each with its way of injection; reading them again, although reading
    changes the entries, gives the same list and changes nothing more. *)
Theorem dependencies_of_build (type : jsstr) (style : InjectableDependency) (st : dep_store)
    (l : list InjectableDependency) (st' : dep_store) :
  build_type type -> Forall known_types (st.(npm) ++ style :: st.(assets)) ->
  DEPENDENCIES resolve type style st = Ret (l, st') ->
  DEPENDENCIES resolve type style st' = Ret (l, st')
  /\ exists libs locals, l = libs ++ locals
     /\ Forall2 (fun d d' => inject d' = inject d
          /\ if is_glob d.(dep_src) then dep_src d' = dep_src d else resolve d.(dep_src) = Ret d'.(dep_src))
          (List.filter (fun d => includes (declared d) type) st.(npm)) libs
     /\ Forall2 (fun d d' => inject d' = inject d /\ dep_src d' = dep_src d)
          (List.filter (fun d => includes (declared d) type) (style :: st.(assets))) locals.
Proof.
  intros Ht Hk. unfold DEPENDENCIES. destruct (map_exec _ (npm st)) as [npm'|] eqn:Em; [|done].
  apply map_exec_ok in Em. intros H. cbn [exec_bind] in H. injection H as <- <-. cbn [npm assets].
  assert (Hagain : Forall2 (fun d d' => read_npm resolve type d = Ret d') npm' npm').
  { induction Em as [|d d' n n' Hd _ IH]; constructor; [by apply read_npm_again in Hd as [? _]|].
    apply IH. by apply list.Forall_cons in Hk as [_ Hk]. }
  apply list.Forall_app in Hk as [Hkn Hka]. rewrite (proj2 (map_exec_ok _ _ _) Hagain). cbn [exec_bind].
  destruct (filter_touched type (assets st)) as [Hf1 Hf2]. split.
  - rewrite Hf2. f_equal. f_equal. f_equal.
    + clear -Em resolve_again. induction Em as [|d d' n n' Hd _ IH]; [done|].
      destruct (read_npm_again _ _ _ Hd) as (_ & Hk & _).
      cbn [combine List.filter map fst snd]. rewrite Hk. destruct (keep type d); cbn [map snd]; by rewrite IH.
    + cbn [List.filter]. destruct (keep type style); cbn [map]; by rewrite Hf1, (proj2 (filter_touched _ _)).
  - eexists _, _. split; [done|]. split.
    + clear -Em Hkn Ht resolve_again. induction Em as [|d d' n n' Hd _ IH]; [constructor|].
      apply list.Forall_cons in Hkn as [Hkd Hkn]. destruct (read_npm_again _ _ _ Hd) as (_ & _ & Hi & Hs).
      cbn [combine List.filter map fst snd]. rewrite <- keep_declared by done.
      destruct (keep type d); [constructor; [by split; [|apply Hs]|]|]; by apply IH.
    + exact (kept_locals type (style :: assets st) Ht Hka).
Qed.
End DependencyFacts.

Definition sample_resolve (s : jsstr) : exec jsstr :=
  if is_glob s then Throw (ErrorMsg "Cannot find module")
  else if startsWith s "/" then Ret s else Ret ("/x/node_modules/" ++ s).

Lemma sample_resolve_again s p : sample_resolve s = Ret p -> sample_resolve p = Ret p /\ is_glob p = false.
Proof.
  unfold sample_resolve. destruct (is_glob s) eqn:Eg; [done|]. destruct (startsWith s "/") eqn:Es; intros H; injection H as <-.
  - by rewrite Eg, Es.
  - assert (Hg : is_glob ("/x/node_modules/" ++ s) = false) by (unfold is_glob; rewrite existsb_app; exact Eg).
    by rewrite Hg.
Qed.

Lemma dependencies_of_build_witness :
  exists l st', DEPENDENCIES sample_resolve PRODUCTION (dep "src/client/css/main.scss" (InjectFlag true))
      {| npm := project_NPM_DEPENDENCIES; assets := [] |} = Ret (l, st')
    /\ DEPENDENCIES sample_resolve PRODUCTION (dep "src/client/css/main.scss" (InjectFlag true)) st' = Ret (l, st').
Proof.
  eexists _, _. split; [reflexivity|].
  eapply (fun H2 H3 => proj1 (dependencies_of_build sample_resolve sample_resolve_again PRODUCTION
    (dep "src/client/css/main.scss" (InjectFlag true)) {| npm := project_NPM_DEPENDENCIES; assets := [] |} _ _
    (or_intror eq_refl) H2 H3)); [|reflexivity].
  unfold project_NPM_DEPENDENCIES, seed_NPM_DEPENDENCIES; cbn [npm assets app map].
  forall_list; first [exact I|exact (fun _ => or_introl eq_refl)].
Defined.

(** Bundling loses and repeats no script: the scripts that are injected come
    shims first, then libraries, then the rest. *)
Lemma getShims_complete deps :
  Forall (fun d => d.(inject) = InjectAs (js "shims") \/ d.(inject) = InjectAs (js "libs") \/ d.(inject) = InjectFlag true) deps ->
  Permutation (getShims deps) (map dep_src (List.filter (fun d => endsWith d.(dep_src) ".js") deps)).
Proof.
  intros H. unfold getShims. apply Permutation_map. set (libs := List.filter _ deps).
  assert (Hl : Forall (fun d => d.(inject) = InjectAs (js "shims") \/ d.(inject) = InjectAs (js "libs") \/ d.(inject) = InjectFlag true) libs).
  { apply list.Forall_forall. intros d Hd%list_elem_of_In%filter_In. rewrite list.Forall_forall in H.
    apply H, list_elem_of_In, Hd. }
  clearbody libs. induction Hl as [|d l Hd _ IH]; [done|]. cbn [List.filter].
  destruct Hd as [E|[E|E]]; rewrite E.
  all: change (bool_decide (InjectAs (js "shims") = InjectAs (js "libs"))) with false.
  all: change (bool_decide (InjectAs (js "libs") = InjectAs (js "shims"))) with false.
  all: change (bool_decide (InjectAs (js "shims") = InjectFlag true)) with false.
  all: change (bool_decide (InjectFlag true = InjectAs (js "shims"))) with false.
  all: change (bool_decide (InjectAs (js "libs") = InjectFlag true)) with false.
  all: change (bool_decide (InjectFlag true = InjectAs (js "libs"))) with false.
  all: rewrite ?bool_decide_eq_true_2 by done; cbn [app].
  - by apply perm_skip.
  - rewrite <- Permutation_middle. by apply perm_skip.
  - rewrite app_assoc, <- Permutation_middle, <- app_assoc. by apply perm_skip.
Qed.

(** *** Packages *)

Definition added {A} (t : option A) (ok : A -> bool) (old : option A) : option A :=
  match t with Some v => if ok v then Some v else old | None => old end.

(** Both configurations get the path and the package of every added package,
    and keep what they had under all other names. *)
Lemma packages_in_both (c : system_config) (packs : list ExtendPackages) (pack : ExtendPackages) :
  NoDup (map pack_name packs) -> pack ∈ packs ->
  let c' := fold_left add_bundle packs c in
  obj_get c'.(paths) pack.(pack_name) = added pack.(pack_path) truthy (obj_get c.(paths) pack.(pack_name))
  /\ obj_get c'.(packages) pack.(pack_name)
     = added pack.(packageMeta) (fun m => truthy_val (Some m)) (obj_get c.(packages) pack.(pack_name)).
Proof.
  assert (Hone : forall c p k, k <> p.(pack_name) ->
    obj_get (add_bundle c p).(paths) k = obj_get c.(paths) k /\ obj_get (add_bundle c p).(packages) k = obj_get c.(packages) k).
  { intros c0 [n path m] k Hk. unfold add_bundle. cbn [pack_path pack_name packageMeta] in *.
    destruct path as [q|]; [destruct (truthy q)|]; (destruct m as [m|]; [destruct (truthy_val (Some m))|]); cbn [paths packages set_path set_package].
    all: rewrite ?obj_get_set_ne by done; done. }
  assert (Hrest : forall ps c k, k ∉ map pack_name ps ->
    obj_get (fold_left add_bundle ps c).(paths) k = obj_get c.(paths) k
    /\ obj_get (fold_left add_bundle ps c).(packages) k = obj_get c.(packages) k).
  { induction ps as [|q ps IH]; intros c0 k Hk; [done|]. cbn [fold_left map] in *. apply not_elem_of_cons in Hk as [Hq Hk].
    destruct (IH (add_bundle c0 q) k Hk) as [-> ->]. by apply Hone. }
  revert c. induction packs as [|p packs IH]; intros c Hnd Hin; [set_solver|].
  cbn [map] in Hnd. apply list.NoDup_cons in Hnd as [Hn Hnd]. apply list_elem_of_In in Hin. destruct Hin as [->|Hin].
  - cbn [fold_left]. destruct (Hrest packs (add_bundle c pack) (pack_name pack) Hn) as [-> ->].
    destruct pack as [n path m]. unfold add_bundle, added. cbn [pack_path pack_name packageMeta].
    destruct path as [q|]; [destruct (truthy q)|]; (destruct m as [m|]; [destruct (truthy_val (Some m))|]); cbn [paths packages set_path set_package].
    all: rewrite ?obj_get_set_eq; done.
  - cbn [fold_left]. apply list_elem_of_In in Hin. destruct (IH (add_bundle c p) Hnd Hin) as [-> ->].
    assert (pack_name pack <> pack_name p) as Hne.
    { intros E. apply Hn. rewrite <- E. by apply (list_elem_of_fmap_2 pack_name). }
    destruct (Hone c p _ Hne) as [-> ->]. done.
Qed.

(** *** Locations *)

(** The files that the routes of the development server offer for a url. *)
Definition candidates (routes : list (jsstr * jsstr)) (url : jsstr) : list jsstr :=
  flat_map (fun kv => match strip_prefix (kv.1 ++ "/") url with Some x => [kv.2 ++ "/" ++ x] | None => [] end) routes.

Definition with_query (location queryString : jsstr) : jsstr :=
  if truthy queryString then location ++ "?" ++ queryString else location.

Lemma find_index_none {A} (p : A -> bool) l : Forall (fun x => p x = false) l -> find_index p l = None.
Proof. induction 1 as [|x l Hx _ IH]; [done|]. cbn. by rewrite Hx, IH. Qed.

Lemma clean_lit (s : jsstr) : bool_decide (s <> [] /\ (slash ∉ s) /\ (s <> js ".") /\ (s <> js "..")) = true -> clean_segment s.
Proof. by intros H%bool_decide_eq_true_1. Qed.

Section Locations.
Context `{CaseMap} (argv : Argv) (q : jsstr) (rest : list jsstr).
Hypothesis rest_some : rest <> [].
Hypothesis rest_clean : Forall clean_segment rest.

Lemma under_dir (d1 d2 : jsstr) : d1 ++ "/" ++ d2 ++ "/" ++ join "/" rest = join "/" (d1 :: d2 :: rest).
Proof. rewrite join_cons by done. by rewrite join_cons. Qed.

Lemma prod_location :
  BUILD_TYPE argv = PRODUCTION ->
  transformPath_prod argv q ("/" ++ APP_DEST argv ++ "/" ++ join "/" rest) = with_query (APP_BASE argv ++ join "/" rest) q.
Proof.
  intros Hb. assert (Hd : APP_DEST argv = "dist" ++ "/" ++ "prod") by (unfold APP_DEST; by rewrite Hb).
  assert (Hc : Forall clean_segment (js "dist" :: js "prod" :: rest)).
  { constructor; [by apply clean_lit|]. constructor; [by apply clean_lit|done]. }
  assert (Hp : "/" ++ APP_DEST argv ++ "/" ++ join "/" rest = "/" ++ join "/" (js "dist" :: js "prod" :: rest))
    by (by rewrite Hd, <- !app_assoc, under_dir).
  rewrite Hp. unfold transformPath_prod. rewrite normalize_clean, Hd by done.
  change ("/" ++ join "/" (js "dist" :: js "prod" :: rest)) with (slash :: join "/" (js "dist" :: js "prod" :: rest)).
  cbn [JsString.split]. change (slash =? slash)%N with true. rewrite split_clean by done.
  rewrite find_index_none; [reflexivity|].
  apply list.Forall_cons. split; [done|]. eapply list.Forall_impl; [exact Hc|]. intros s (_ & Hs & _).
  apply str_eqb_neq. intros ->. apply Hs. decide_done.
Qed.

Hypothesis base_none : argv.(arg_base) = None.
Hypothesis not_desktop : argv.(arg_desktop) = false.
Hypothesis dev : BUILD_TYPE argv = DEVELOPMENT.

Lemma base_root : APP_BASE argv = "/".
Proof. unfold APP_BASE. by rewrite base_none, dev. Qed.
Lemma dest_dev : APP_DEST argv = "dist/dev".
Proof. unfold APP_DEST. by rewrite dev. Qed.

Lemma join_root segs : segs <> [] -> Forall clean_segment segs ->
  path_join [js "/"; "/" ++ join "/" segs] = "/" ++ join "/" segs.
Proof.
  intros Hne Hc. apply normalize_abs; [done| |exact (segments_clean segs Hc)|done].
  change (join "/" (List.filter truthy [js "/"; "/" ++ join "/" segs])) with (("/" ++ "/" ++ "/") ++ join "/" segs).
  by apply clean_no_slash_end.
Qed.

Lemma dev_location :
  transformPath_dev argv q ("/" ++ APP_DEST argv ++ "/" ++ join "/" rest) = with_query ("/" ++ join "/" rest) q
  /\ transformPath_dev argv q ("/node_modules/" ++ join "/" rest) = with_query ("/node_modules/" ++ join "/" rest) q.
Proof.
  unfold transformPath_dev, TARGET_DESKTOP. rewrite not_desktop, base_root, dest_dev. split.
  - change ("/" ++ js "dist/dev" ++ "/" ++ join "/" rest) with (("/" ++ js "dist/dev") ++ ("/" ++ join "/" rest)).
    rewrite startsWith_app. unfold replace_first. rewrite find_sub_prefix. cbn [take app Nat.add].
    rewrite drop_app_length. pose proof (join_root rest rest_some rest_clean) as J.
    unfold with_query. destruct (truthy q); [apply (f_equal (fun l => l ++ _))|]; exact J.
  - assert (Hc : Forall clean_segment (js "node_modules" :: rest)) by (constructor; [by apply clean_lit|done]).
    pose proof (join_root (js "node_modules" :: rest) ltac:(done) Hc) as J. rewrite !(join_cons _ _ rest) in J by done.
    unfold with_query. destruct (truthy q); [apply (f_equal (fun l => l ++ _))|]; exact J.
Qed.

Lemma dev_served :
  APP_DEST argv ++ "/" ++ join "/" rest ∈ candidates (server_routes argv) ("/" ++ join "/" rest)
  /\ "node_modules/" ++ join "/" rest ∈ candidates (server_routes argv) ("/node_modules/" ++ join "/" rest).
Proof.
  unfold server_routes, candidates. rewrite base_root, dest_dev.
  set (routes := fold_left _ _ _).
  assert (Hr : exists a, routes = [("/" ++ APP_SRC argv, a); (js "/dist/dev", js "dist/dev");
     (js "/node_modules", js "node_modules"); ([], js "dist/dev")]).
  { eexists. reflexivity. }
  destruct Hr as [a ->]. split; apply list_elem_of_In, in_flat_map.
  - exists ([], js "dist/dev"). split; [by do 3 right; left|]. by left.
  - exists (js "/node_modules", js "node_modules"). split; [by do 2 right; left|]. by left.
Qed.
End Locations.

(** The page of a development build refers to a built file and to a
    library by urls for which the development server offers that very file; the
    page of a production build refers to a built file by its path under the
    base of the application. *)
Theorem injected_files_served `{CaseMap} (argv : Argv) (q : jsstr) (rest : list jsstr) :
  rest <> [] -> Forall clean_segment rest -> argv.(arg_base) = None -> argv.(arg_desktop) = false ->
  let file dir := dir ++ "/" ++ join "/" rest in
  if BUILD_TYPE argv === DEVELOPMENT then
    forall dir, dir = APP_DEST argv \/ dir = js "node_modules" ->
      exists url, transformPath_dev argv q ("/" ++ file dir) = with_query url q
        /\ file dir ∈ candidates (server_routes argv) url
  else transformPath_prod argv q ("/" ++ file (APP_DEST argv)) = with_query ("/core/ui/default/" ++ join "/" rest) q.
Proof.
  intros Hne Hc Hb Hd file. destruct (BUILD_TYPE argv === DEVELOPMENT) eqn:E.
  - apply str_eqb_eq in E. destruct (dev_location argv q rest Hne Hc Hb Hd E) as [H1 H2].
    destruct (dev_served argv rest Hb E) as [H3 H4].
    intros dir [->| ->]; eexists; (split; [first [exact H1|exact H2]|]); [exact H3|exact H4].
  - assert (Hp : BUILD_TYPE argv = PRODUCTION).
    { apply str_eqb_neq in E. unfold BUILD_TYPE, getBuildType in *. by destruct (_ || _). }
    unfold file. rewrite prod_location by done. unfold APP_BASE. by rewrite Hb, Hp.
Qed.

Lemma injected_files_served_witness :
  let H := ascii_case in
  exists url, transformPath_dev no_arguments "7" ("/" ++ APP_DEST no_arguments ++ "/" ++ join "/" [js "css"; js "main.css"])
      = with_query url "7"
    /\ APP_DEST no_arguments ++ "/" ++ join "/" [js "css"; js "main.css"] ∈ candidates (server_routes no_arguments) url.
Proof.
  intros H. assert (Hc : Forall clean_segment [js "css"; js "main.css"]).
  { constructor; [by apply clean_lit|]. constructor; [by apply clean_lit|constructor]. }
  exact (injected_files_served no_arguments (js "7") [js "css"; js "main.css"] ltac:(done) Hc eq_refl eq_refl
    (APP_DEST no_arguments) (or_introl eq_refl)).
Defined.

(** *** Two remarks *)

(** The switch for SCSS is always on. *)
Lemma scss_always_on `{CaseMap} argv env : ENABLE_SCSS argv env = true.
Proof. unfold ENABLE_SCSS. apply orb_true_r. Qed.

(** A project is remembered by its options alone: a second call with another
    directory gets the project of the first. *)
Lemma ts_project_cached options dir1 dir2 name :
  let '(p1, projects) := makeTsProject [] options dir1 name in
  fst (makeTsProject projects options dir2 name) = p1 /\ p1 = path_join [dir1; name].
Proof. unfold makeTsProject. cbn. by rewrite str_eqb_refl. Qed.
