(* ===== verification/BuildStreams.v ===== *)
(** * The tasks that build the application

    tools/tasks/seed and tools/tasks/project: gulp streams.  A task reads the
    files that match its patterns, passes them through plugins and writes the
    results into a directory.  The tree of files is a dictionary from paths to
    contents, and a content is the record of how it was made: a file of the
    sources, the result of a plugin on contents, a page with injected
    locations, a manifest of files.  Patterns are matched by a package, a
    parameter with the laws its documentation states; compilers are taken to
    succeed, and of the plugins only the names of the files they give out are
    modelled. *)

From S2P Require Import Prelude JsString NodePath Lodash Json BuildTasks BuildConfig.

(** ** Patterns *)

(** No character that is special in a pattern. *)
Definition plain (s : jsstr) : Prop := Forall (fun c => (c ∉ [42; 63; 91; 123; 40; 33]%N)) s.

(** No name in the path is empty or starts with a dot. *)
Definition visible (f : jsstr) : Prop := Forall (fun s => s <> [] /\ startsWith s "." = false) (JsString.split slash f).

Definition below (d f : jsstr) : Prop := exists r, visible r /\ f = d ++ "/" ++ r.

(** Matching a path, and the directory before the special part of a pattern. *)
Class Glob := {
  glob : jsstr -> jsstr -> bool;
  glob_base : jsstr -> jsstr;
  glob_plain p f : plain p -> glob p f = true <-> f = p;
  glob_below d f : plain d -> glob (d ++ "/**") f = true <-> below d f;
  glob_suffix d e f : plain d -> plain e -> (slash ∉ e) ->
    glob (d ++ "/**/*" ++ e) f = true <-> below d f /\ endsWith f e = true;
  glob_named d n f : plain d -> plain n -> n <> [] -> (slash ∉ n) ->
    glob (d ++ "/**/" ++ n) f = true <-> below d f /\ endsWith f ("/" ++ n) = true;
  glob_anywhere e f : plain e -> (slash ∉ e) -> glob ("**/*" ++ e) f = true <-> visible f /\ endsWith f e = true;
  base_below d : plain d -> glob_base (d ++ "/**") = d;
  base_suffix d e : plain d -> plain e -> glob_base (d ++ "/**/*" ++ e) = d;
  base_plain d n : plain d -> plain n -> (slash ∉ n) -> glob_base (d ++ "/" ++ n) = d
}.

(** ** Trees and streams *)

Inductive content :=
  | Source (path : jsstr)
  | Built (plugin : jsstr) (inputs : list content)
  | Injected (locations : list jsstr) (page : content)
  | Manifest (files : list (jsstr * content)) (template : content).

Abbreviation tree := (list (jsstr * content)).

Record File := { f_path : jsstr; f_rel : jsstr; f_body : content }.

Section Streams.
Context {G : Glob}.

Definition negative (p : jsstr) : bool := startsWith p "!".
Definition not_ (p : jsstr) : jsstr := "!" ++ p.

(** The files of one pattern, without those of the patterns excluded after it. *)
Definition matching (p : jsstr) (negs : list jsstr) (t : tree) : list File :=
  omap (fun k => match obj_get t k with
                 | Some c => Some {| f_path := k; f_rel := drop (length (glob_base p) + 1) k; f_body := c |}
                 | None => None
                 end)
    (List.filter (fun k => glob p k && forallb (fun n => negb (glob n k)) negs) (obj_keys t)).

(** [gulp.src]: the patterns in order, each file once. *)
Fixpoint gulp_src (ps : list jsstr) (t : tree) : list File :=
  match ps with
  | [] => []
  | p :: rest =>
      if negative p then gulp_src rest t
      else
        let mine := matching p (map (drop 1) (List.filter negative rest)) t in
        mine ++ List.filter (fun f => negb (existsb (fun g => g.(f_path) === f.(f_path)) mine)) (gulp_src rest t)
  end.

(** [gulp.dest]. *)
Definition gulp_dest (d : jsstr) (fs : list File) (t : tree) : tree :=
  fold_left (fun t f => obj_set t (d ++ "/" ++ f.(f_rel)) f.(f_body)) fs t.

(** *** Plugins *)

(** A plugin that turns every file into one of the same name. *)
Definition each (plugin : jsstr) (fs : list File) : list File :=
  map (fun f => {| f_path := f.(f_path); f_rel := f.(f_rel); f_body := Built plugin [f.(f_body)] |}) fs.

Definition replace_ext (old new : jsstr) (s : jsstr) : jsstr := take (length s - length old) s ++ new.

(** The TypeScript compiler: a file x.js for x.ts, nothing for x.d.ts. *)
Definition typescript (fs : list File) : list File :=
  omap (fun f => if endsWith f.(f_rel) ".ts" && negb (endsWith f.(f_rel) ".d.ts")
                 then Some {| f_path := f.(f_path); f_rel := replace_ext ".ts" ".js" f.(f_rel); f_body := Built "typescript" [f.(f_body)] |}
                 else None) fs.

(** sass: a file x.css for x.scss, nothing for a partial, whose name starts
    with an underscore. *)
Definition partial (rel : jsstr) : bool := startsWith (default [] (list.last (segments rel))) "_".
Definition sass (fs : list File) : list File :=
  omap (fun f => if partial f.(f_rel) then None
                 else Some {| f_path := f.(f_path); f_rel := replace_ext ".scss" ".css" f.(f_rel); f_body := Built "sass" [f.(f_body)] |}) fs.

(** All files joined into one; no file for none. *)
Definition concat (name : jsstr) (plugin : jsstr) (fs : list File) : list File :=
  match fs with
  | [] => []
  | _ => [{| f_path := name; f_rel := name; f_body := Built plugin (map f_body fs) |}]
  end.

(** gulp-filter, by the same kind of patterns. *)
Definition passes (ps : list jsstr) (f : File) : bool :=
  existsb (fun p => negb (negative p) && glob p f.(f_path)) ps
  && forallb (fun p => negb (negative p) || negb (glob (drop 1 p) f.(f_path))) ps.

(** ** The tasks *)

Context `{CaseMap} (argv : Argv).

Let src := APP_SRC argv.
Let dst := APP_DEST argv.
Let tmp := TMP_DIR.

Definition temp_exclusions : list jsstr := map not_ TEMP_FILES.

(** build.assets.dev.ts *)
Definition assets_dev_patterns : list jsstr :=
  [ path_join [src; js "**"];
    path_join [NPM_BASE argv (fun s => s); js "@angular"; js "service-worker"; js "bundles"; js "worker-basic.js"];
    not_ (path_join [src; js "**"; js "*.ts"]); not_ (path_join [src; js "**"; js "*.scss"]);
    not_ (path_join [src; js "**"; js "*.sass"]) ] ++ temp_exclusions.
Definition build_assets_dev (t : tree) : tree := gulp_dest dst (gulp_src assets_dev_patterns t) t.

(** build.assets.prod.ts; the trees hold files only, as [onlyDirs] lets pass. *)
Definition assets_prod_patterns : list jsstr :=
  [ path_join [src; js "**"];
    path_join [NPM_BASE argv (fun s => s); js "@angular"; js "service-worker"; js "bundles"; js "worker-basic.min.js"];
    not_ (path_join [src; js "tsconfig.json"]);
    not_ (path_join [src; js "**"; js "*.ts"]); not_ (path_join [src; js "**"; js "*.css"]);
    not_ (path_join [src; js "**"; js "*.html"]); not_ (path_join [src; js "**"; js "*.scss"]);
    not_ (path_join [src; js "**"; js "*.sass"]); not_ (path_join [ASSETS_SRC argv; js "**"; js "*.js"]) ] ++ temp_exclusions.
Definition build_assets_prod (t : tree) : tree := gulp_dest dst (gulp_src assets_prod_patterns t) t.

(** build.fonts.ts *)
Definition build_fonts (t : tree) : tree := gulp_dest (FONTS_DEST argv) (gulp_src (FONTS_SRC argv) t) t.

(** *** build.html_css.ts *)

Let isProd : bool := BUILD_TYPE argv === PRODUCTION.
Let appSCSSFiles : jsstr := path_join [src; js "**"; js "*.scss"].
Let entrySCSSFiles : jsstr := path_join [CSS_SRC argv; js "**"; js "*.scss"].
Let abtractSCSSFiles : jsstr := path_join [SCSS_SRC argv; js "**"; js "*.scss"].

(** The first run: the cache lets everything pass. *)
Definition scss_stream (compile exclude : list jsstr) (t : tree) : list File :=
  let '(all, filtered) := getSCSSFiles compile exclude in
  List.filter (passes filtered) (gulp_src all t).

Definition prepareTemplates (t : tree) : tree :=
  gulp_dest tmp (gulp_src [path_join [src; js "**"; js "*.html"]; not_ (path_join [src; js "**"; js "*.tns.html"])] t) t.

(** In production the source maps are files of their own. *)
Definition maps_of (fs : list File) : list File :=
  map (fun f => {| f_path := f.(f_path); f_rel := f.(f_rel) ++ ".map"; f_body := Built "sourcemap" [f.(f_body)] |}) fs.

Definition processComponentScss (t : tree) : tree :=
  let out := each "postcss" (sass (scss_stream [appSCSSFiles] [abtractSCSSFiles] t)) in
  if isProd then gulp_dest tmp (out ++ maps_of out) t else gulp_dest dst out t.

Definition processComponentCss (t : tree) : tree :=
  let out := each "postcss" (gulp_src
    [path_join [src; js "**"; js "*.css"]; not_ (path_join [src; js "**"; js "*.tns.css"]);
     not_ (path_join [src; js "assets"; js "**"; js "*.css"])] t) in
  gulp_dest (if isProd then tmp else dst) out t.

(** [deps]: the dependencies of the build; of the two merged streams the style
    sheets of the packages are taken to come first. *)
Definition processAllExternalStylesheets (deps : list InjectableDependency) (t : tree) : tree :=
  let merged := gulp_src (getExternalCss deps) t
                ++ sass (scss_stream (getExternalScss deps entrySCSSFiles) [abtractSCSSFiles] t) in
  let joined := if isProd then concat (CSS_BUNDLE_NAME ++ ".css") "concat-css" merged else merged in
  gulp_dest (CSS_DEST argv) (each "postcss" joined) t.

(** The streams are merged; they read the tree before any of them writes, which
    makes no difference, since none writes where another reads. *)
Definition build_html_css (deps : list InjectableDependency) (t : tree) : tree :=
  processAllExternalStylesheets deps (prepareTemplates (processComponentCss (processComponentScss t))).

(** *** Scripts *)

(** copy.prod.ts, and copy.prod.rollup.aot.ts, which is the same. *)
Definition copy_prod (t : tree) : tree :=
  gulp_dest tmp (gulp_src [path_join [src; js "**/*.ts"]; path_join [src; js "**/*.json"];
    not_ (path_join [src; js "**/*.spec.ts"]); not_ (path_join [src; js "**/*.e2e-spec.ts"])] t) t.

(** build.js.prod.ts *)
Definition build_js_prod (t : tree) : tree :=
  gulp_dest tmp (each "template" (typescript (each "inline-template"
    (gulp_src [TOOLS_DIR ++ "/manual_typings/**/*.d.ts"; path_join [tmp; js "**/*.ts"];
               not_ (path_join [tmp; "**/" ++ adv_NG_FACTORY_FILE argv ++ ".ts"])] t)))) t.

(** build.js.dev.ts, a full compilation. *)
Definition build_js_dev (t : tree) : tree :=
  gulp_dest dst (each "template" (each "sourcemaps" (typescript
    (gulp_src [TOOLS_DIR ++ "/manual_typings/**/*.d.ts"] t
     ++ gulp_src [path_join [src; js "**/*.ts"]; not_ (path_join [src; js "**/*.spec.ts"]);
                  not_ (path_join [src; js "**/*.e2e-spec.ts"]);
                  not_ (path_join [src; "**/" ++ adv_NG_FACTORY_FILE argv ++ ".ts"])] t)))) t.

(** build.js.test.ts: the tests alone. *)
Definition build_js_test (t : tree) : tree :=
  gulp_dest dst (each "sourcemaps" (typescript
    (gulp_src [TOOLS_DIR ++ "/manual_typings/**/*.d.ts"] t ++ gulp_src [path_join [src; js "**/*.spec.ts"]] t))) t.

(** build.js.e2e.ts *)
Definition E2E_SRC : jsstr := "src/e2e".
Definition build_js_e2e (t : tree) : tree :=
  gulp_dest E2E_DEST (each "template" (each "sourcemaps" (typescript
    (gulp_src [TOOLS_DIR ++ "/manual_typings/**/*.d.ts"; path_join [E2E_SRC; js "**/*.ts"]] t)))) t.

(** build.js.prod.aot.ts: the directories of the working directory, the entry
    modules of which are left out. *)
Definition tmp_dirs (t : tree) : list jsstr :=
  uniq (omap (fun k => match strip_prefix (tmp ++ "/") k with
                       | Some r => match JsString.split slash r with d :: _ :: _ => Some d | _ => None end
                       | None => None
                       end) (obj_keys t)).
Definition build_js_prod_aot (t : tree) : tree :=
  let toIgnore := map (fun f => not_ (path_join [tmp; f; adv_NG_FACTORY_FILE argv ++ ".ts"]))
                    (List.filter (fun f => negb (f === adv_BOOTSTRAP_DIR argv)) (tmp_dirs t)) in
  gulp_dest tmp (each "template" (typescript
    (gulp_src ([TOOLS_DIR ++ "/manual_typings/**/*.d.ts"; path_join [tmp; js "**/*.ts"];
                path_join [tmp; adv_BOOTSTRAP_FACTORY_PROD_MODULE argv ++ ".ts"]] ++ toIgnore) t))) t.

(** build.js.prod.rollup.aot.ts *)
Definition build_js_prod_rollup_aot (t : tree) : tree :=
  gulp_dest tmp (each "template" (typescript
    (gulp_src [path_join [TOOLS_DIR; js "/manual_typings/**/*.d.ts"]; path_join [tmp; js "**/*.ts"]] t))) t.

(** build.bundles.ts *)
Definition build_bundles (deps : list InjectableDependency) (t : tree) : tree :=
  gulp_dest (JS_DEST argv) (each "replace" (concat JS_PROD_SHIMS_BUNDLE "concat" (gulp_src (getShims deps) t))) t.

(** build.bundles.app.ts: the builder follows the imports of the entry module,
    and fails without it. *)
Definition BUNDLE_ENTRY : jsstr := path_join [tmp; adv_BOOTSTRAP_MODULE argv].
Definition build_bundles_app (t : tree) : exec tree :=
  match obj_get t (BUNDLE_ENTRY ++ ".js") with
  | Some c => Ret (obj_set t (path_join [JS_DEST argv; JS_PROD_APP_BUNDLE]) (Built "bundle" [c]))
  | None => Throw (ErrorMsg "no entry")
  end.

(** build.bundles.app.aot.ts *)
Definition build_bundles_app_aot (t : tree) : exec tree :=
  match obj_get t (path_join [tmp; adv_BOOTSTRAP_FACTORY_PROD_MODULE argv] ++ ".js") with
  | Some c => Ret (obj_set t (path_join [JS_DEST argv; JS_PROD_APP_BUNDLE]) (Built "bundle" [c]))
  | None => Throw (ErrorMsg "no entry")
  end.

(** build.bundles.app.rollup.aot.ts, and transpile.bundles.rollup.aot.ts. *)
Definition build_bundles_app_rollup_aot (t : tree) : exec tree :=
  match obj_get t (path_join [tmp; adv_BOOTSTRAP_FACTORY_PROD_MODULE argv] ++ ".js") with
  | Some c => Ret (obj_set t (path_join [tmp; js "bundle.js"]) (Built "rollup" [c]))
  | None => Throw (ErrorMsg "no entry")
  end.
Definition rename (name : jsstr) (fs : list File) : list File :=
  map (fun f => {| f_path := f.(f_path); f_rel := name; f_body := f.(f_body) |}) fs.
Definition transpile_bundles_rollup_aot (t : tree) : tree :=
  gulp_dest (JS_DEST argv) (rename JS_PROD_APP_BUNDLE (each "template" (each "typescript" (gulp_src [path_join [tmp; js "bundle.js"]] t)))) t.

(** minify.bundles.ts *)
Definition minify (target : jsstr) (t : tree) : tree :=
  gulp_dest (JS_DEST argv) (each "uglify" (gulp_src [path_join [JS_DEST argv; target]] t)) t.
Definition minify_bundles (t : tree) : tree := minify JS_PROD_SHIMS_BUNDLE (minify JS_PROD_APP_BUNDLE t).

(** *** Pages *)

(** The files among the given ones that are there: gulp passes over the others
    without a word. *)
Definition present (ps : list jsstr) (t : tree) : list jsstr := map f_path (gulp_src ps t).

(** build.index.prod.ts *)
Definition build_index_prod (t : tree) : tree :=
  let injected := present (injectJs argv) t ++ present (injectCss argv) t in
  gulp_dest dst (each "template" (map (fun f => {| f_path := f.(f_path); f_rel := f.(f_rel); f_body := Injected injected f.(f_body) |})
    (gulp_src [path_join [src; js "index.html"]] t))) t.

(** build.index.dev.ts *)
Definition build_index_dev (deps : list InjectableDependency) (t : tree) : tree :=
  let refs name := present (getInjectablesDependenciesRef (mapPath argv) deps name) t in
  let injected := refs (Some (js "shims")) ++ refs (Some (js "libs")) ++ refs None in
  gulp_dest dst (each "template" (map (fun f => {| f_path := f.(f_path); f_rel := f.(f_rel); f_body := Injected injected f.(f_body) |})
    (gulp_src [path_join [src; js "index.html"]] t))) t.

(** sw.manifest.static.ts: the manifest tells the hash of every file that is
    there. *)
Definition sw_manifest_static (t : tree) : tree :=
  let statics := gulp_src [path_join [dst; js "**"; js "*"]; not_ (path_join [dst; js "ngsw-manifest.json"])] t in
  gulp_dest dst (map (fun f => {| f_path := f.(f_path); f_rel := f.(f_rel);
                                  f_body := Manifest (map (fun s => (s.(f_path), s.(f_body))) statics) f.(f_body) |})
    (gulp_src [path_join [src; js "ngsw-manifest.json"]] t)) t.

(** minify.index.ts *)
Definition minify_index (t : tree) : tree :=
  gulp_dest dst (each "htmlmin" (gulp_src [path_join [dst; js "index.html"]] t)) t.

(** *** Cleaning and the tools *)

(** clean.prod.ts and clean.dev.ts: directories with all that is below.  rimraf
    is taken to remove them; clean.ts logs an error of it and goes on. *)
Definition clean_dirs (ds : list jsstr) (t : tree) : tree :=
  List.filter (fun kc => forallb (fun d => negb (kc.1 === d) && negb (startsWith kc.1 (d ++ "/"))) ds) t.
Definition clean_prod : tree -> tree := clean_dirs [PROD_DEST; tmp].
Definition clean_dev : tree -> tree := clean_dirs [DEV_DEST].

(** clean.e2e.ts and clean.coverage.ts *)
Definition COVERAGE_DIR : jsstr := "coverage_js".
Definition COVERAGE_TS_DIR : jsstr := "coverage".
Definition clean_e2e : tree -> tree := clean_dirs [E2E_DEST].
Definition clean_coverage : tree -> tree := clean_dirs [COVERAGE_DIR; COVERAGE_TS_DIR].

(** clean.tools.ts; the removal is taken to have ended before the compilation
    of check.tools.ts writes, which the asynchronous [clean] does not wait for. *)
Definition clean_tools (t : tree) : tree :=
  List.filter (fun kc => forallb (fun p => negb (glob p kc.1))
    [js "gulpfile.js"; js "gulpfile.js.map"; path_join [TOOLS_DIR; js "**/*.js"]; path_join [TOOLS_DIR; js "**/*.js.map"]]) t.

(** build.tools.ts; the base is the project, so that files keep their paths. *)
Definition build_tools (t : tree) : tree :=
  let keep_path fs := map (fun f => {| f_path := f.(f_path); f_rel := f.(f_path); f_body := f.(f_body) |}) fs in
  fold_left (fun t f => obj_set t f.(f_rel) f.(f_body))
    (each "sourcemaps" (each "template" (typescript (keep_path (gulp_src
      [js "gulpfile.ts"; path_join [TOOLS_DIR; js "manual_typings/**/*.d.ts"]; path_join [TOOLS_DIR; js "**/*.ts"]] t))))) t.

(** check.tools.ts *)
Definition check_tools (t : tree) : tree :=
  if hasOwnProperty t "tools/config.js" then build_tools (clean_tools t) else t.

(** ** Running them *)

(** Tasks that write no file. *)
Definition quiet_tasks : list jsstr := [js "noop"; js "tslint"; js "check.versions"; js "print.banner"].

(** The effect of a task on the tree. *)
Definition task_effect (deps : list InjectableDependency) (name : jsstr) (t : tree) : exec tree :=
  if name === "check.tools" then Ret (check_tools t)
  else if name === "clean.prod" then Ret (clean_prod t)
  else if name === "clean.dev" then Ret (clean_dev t)
  else if name === "clean.e2e" then Ret (clean_e2e t)
  else if name === "clean.coverage" then Ret (clean_coverage t)
  else if name === "build.assets.dev" then Ret (build_assets_dev t)
  else if name === "build.assets.prod" then Ret (build_assets_prod t)
  else if name === "build.fonts" then Ret (build_fonts t)
  else if name === "build.html_css" then Ret (build_html_css deps t)
  else if (name === "copy.prod") || (name === "copy.prod.rollup.aot") then Ret (copy_prod t)
  else if name === "build.js.prod" then Ret (build_js_prod t)
  else if name === "build.js.dev" then Ret (build_js_dev t)
  else if name === "build.js.test" then Ret (build_js_test t)
  else if name === "build.js.e2e" then Ret (build_js_e2e t)
  else if name === "build.js.prod.aot" then Ret (build_js_prod_aot t)
  else if name === "build.js.prod.rollup.aot" then Ret (build_js_prod_rollup_aot t)
  else if name === "build.bundles.app.aot" then build_bundles_app_aot t
  else if name === "build.bundles.app.rollup.aot" then build_bundles_app_rollup_aot t
  else if name === "transpile.bundles.rollup.aot" then Ret (transpile_bundles_rollup_aot t)
  else if name === "build.bundles" then Ret (build_bundles deps t)
  else if name === "build.bundles.app" then build_bundles_app t
  else if name === "minify.bundles" then Ret (minify_bundles t)
  else if name === "build.index.prod" then Ret (build_index_prod t)
  else if name === "build.index.dev" then Ret (build_index_dev deps t)
  else if name === "sw.manifest.static" then Ret (sw_manifest_static t)
  else if name === "minify.index" then Ret (minify_index t)
  else if includes quiet_tasks name then Ret t
  else Throw (ErrorMsg "not modelled").

Fixpoint run_names (deps : list InjectableDependency) (names : list jsstr) (t : tree) : exec tree :=
  match names with
  | [] => Ret t
  | n :: ns => t' <-! task_effect deps n t;; run_names deps ns t'
  end.
End Streams.

(** ** Facts about streams *)

Section StreamFacts.
Context {G : Glob}.

Lemma dest_get d fs t k :
  obj_get (gulp_dest d fs t) k = obj_get t k /\ (forall f, f ∈ fs -> d ++ "/" ++ f.(f_rel) <> k)
  \/ exists f, f ∈ fs /\ k = d ++ "/" ++ f.(f_rel) /\ obj_get (gulp_dest d fs t) k = Some f.(f_body).
Proof.
  unfold gulp_dest. revert t. induction fs as [|f fs IH]; intros t; simpl; [left; set_solver|].
  destruct (IH (obj_set t (d ++ "/" ++ f.(f_rel)) f.(f_body))) as [[E Hne]|(g & Hg & -> & E)]; [|right; exists g; set_solver].
  rewrite E. destruct (decide (d ++ "/" ++ f.(f_rel) = k)) as [<-|Hk].
  - right. exists f. rewrite obj_get_set_eq. set_solver.
  - left. rewrite obj_get_set_ne by done. set_solver.
Qed.

(** What is not below the directory stays. *)
Lemma dest_other d fs t k : startsWith k (d ++ "/") = false -> obj_get (gulp_dest d fs t) k = obj_get t k.
Proof.
  intros Hk. destruct (dest_get d fs t k) as [[E _]|(f & _ & -> & _)]; [done|].
  by rewrite (app_assoc d), startsWith_app in Hk.
Qed.

(** A file that no other takes the name of is written. *)
Lemma dest_in d fs t f : f ∈ fs -> (forall g, g ∈ fs -> g.(f_rel) = f.(f_rel) -> g.(f_body) = f.(f_body)) ->
  obj_get (gulp_dest d fs t) (d ++ "/" ++ f.(f_rel)) = Some f.(f_body).
Proof.
  intros Hf Hu. destruct (dest_get d fs t (d ++ "/" ++ f.(f_rel))) as [[_ Hne]|(g & Hg & Heq & ->)].
  - by destruct (Hne f Hf).
  - apply app_inv_head in Heq. apply app_inv_head in Heq. by rewrite (Hu g).
Qed.

Lemma dest_NoDup d fs (t : tree) : NoDup (obj_keys t) -> NoDup (obj_keys (gulp_dest d fs t)).
Proof.
  unfold gulp_dest. revert t. induction fs; simpl; auto with xenon.
Qed.

Definition file_of (t : tree) (p k : jsstr) : option File :=
  match obj_get t k with
  | Some c => Some {| f_path := k; f_rel := drop (length (glob_base p) + 1) k; f_body := c |}
  | None => None
  end.

Lemma matching_elem p negs t f :
  f ∈ matching p negs t <-> file_of t p f.(f_path) = Some f /\ glob p f.(f_path) = true /\ Forall (fun n => glob n f.(f_path) = false) negs.
Proof.
  unfold matching. rewrite list_elem_of_omap. setoid_rewrite list_elem_of_In. setoid_rewrite filter_In.
  setoid_rewrite andb_true_iff. setoid_rewrite forallb_forall. setoid_rewrite negb_true_iff. setoid_rewrite List.Forall_forall.
  split.
  - intros (k & (Hk & Hg & Hn) & E). assert (k = f.(f_path)) as -> by (by destruct (obj_get t k); simplify_eq). auto.
  - intros (E & Hg & Hn). exists f.(f_path). split; [|done]. split; [|done]. unfold file_of in E.
    destruct (obj_get t f.(f_path)) eqn:Eg; [|done]. apply list_elem_of_In.
    apply obj_get_elem in Eg. apply list_elem_of_fmap. by exists (f.(f_path), c).
Qed.

(** Every file of a stream comes from a pattern. *)
Lemma src_elem ps t f : f ∈ gulp_src ps t ->
  exists pre p post, ps = pre ++ p :: post /\ negative p = false /\ f ∈ matching p (map (drop 1) (List.filter negative post)) t.
Proof.
  induction ps as [|p ps IH]; simpl; [set_solver|].
  destruct (negative p) eqn:En.
  - intros (pre & q & post & -> & Hq & Hf)%IH. by exists (p :: pre), q, post.
  - rewrite elem_of_app. intros [Hf|Hf]; [by exists [], p, ps|].
    apply list_elem_of_In, filter_In in Hf as [Hf%list_elem_of_In _].
    destruct (IH Hf) as (pre & q & post & -> & Hq & Hf'). by exists (p :: pre), q, post.
Qed.

(** A file that a pattern takes and no later one excludes is in the stream. *)
Lemma src_path pre p post t k c :
  negative p = false -> obj_get t k = Some c -> glob p k = true ->
  Forall (fun n => glob n k = false) (map (drop 1) (List.filter negative post)) ->
  exists f, f ∈ gulp_src (pre ++ p :: post) t /\ f.(f_path) = k /\ f.(f_body) = c.
Proof.
  intros Hp Hk Hg Hn. induction pre as [|q pre IH]; simpl.
  - rewrite Hp. exists {| f_path := k; f_rel := drop (length (glob_base p) + 1) k; f_body := c |}.
    split; [|done]. apply elem_of_app. left. apply matching_elem. split; [|done]. unfold file_of. simpl. by rewrite Hk.
  - destruct IH as (f & Hf & Ep & Eb). destruct (negative q); [by exists f|].
    set (mine := matching _ _ t). destruct (existsb (fun g => g.(f_path) === f.(f_path)) mine) eqn:Ex.
    + apply existsb_exists in Ex as (g & Hg'%list_elem_of_In & Eg%str_eqb_eq). exists g. split; [set_solver|].
      split; [congruence|]. apply matching_elem in Hg' as [E _]. unfold file_of in E. rewrite Eg, Ep, Hk in E. by simplify_eq.
    + exists f. split; [|done]. apply elem_of_app. right. apply list_elem_of_In, filter_In. by rewrite Ex, <- list_elem_of_In.
Qed.

(** The body is what the tree holds at the path. *)
Lemma src_body ps t f : f ∈ gulp_src ps t -> obj_get t f.(f_path) = Some f.(f_body).
Proof.
  intros (pre & p & post & _ & _ & Hf)%src_elem. apply matching_elem in Hf as [E _]. unfold file_of in E.
  destruct (obj_get t f.(f_path)) eqn:Eg; [|done]. by injection E as <-.
Qed.

Lemma plain_app a b : plain (a ++ b) <-> plain a /\ plain b.
Proof. apply list.Forall_app. Qed.

Lemma plain_slash : plain "/".
Proof. decide_done. Qed.

Lemma plain_path d n : plain d -> plain n -> plain (d ++ "/" ++ n).
Proof. rewrite !plain_app. auto using plain_slash. Qed.

Lemma plain_positive p : plain p -> negative p = false.
Proof.
  intros Hp. unfold negative. destruct (startsWith p "!") eqn:E; [|done]. apply startsWith_iff in E as [r ->].
  apply list.Forall_app in Hp as [Hp _]. exfalso. assert (33%N ∈ js "!") as Hin by decide_done.
  pose proof (proj1 (list.Forall_forall _ _) Hp _ Hin) as Hc. apply Hc. decide_done.
Qed.

Lemma positives_only ps : Forall plain ps -> List.filter negative ps = [].
Proof. intros Hp. apply filter_none. eapply List.Forall_impl; [exact plain_positive | exact Hp]. Qed.

Lemma matching_plain p t : NoDup (obj_keys t) -> plain p ->
  matching p [] t = match file_of t p p with Some f => [f] | None => [] end.
Proof.
  intros Hnd Hp. unfold matching. change (fun k => match obj_get t k with Some c => _ | None => _ end) with (file_of t p).
  rewrite (filter_ext _ (fun k => k === p)).
  2:{ intros k. rewrite andb_true_r. apply eq_true_iff_eq. by rewrite str_eqb_eq, glob_plain. }
  unfold file_of at 2. destruct (obj_get t p) as [c|] eqn:E.
  - apply obj_get_elem in E as Hin. assert (p ∈ obj_keys t) as Hk by (apply list_elem_of_fmap; by exists (p, c)).
    apply list_elem_of_split in Hk as (l1 & l2 & Hkeys). rewrite Hkeys in *. apply list.NoDup_app in Hnd as (_ & H1 & H2).
    apply list.NoDup_cons in H2 as [H2 _]. rewrite filter_app. simpl. rewrite str_eqb_refl, !filter_none.
    + simpl. unfold file_of. by rewrite E.
    + apply list.Forall_forall. intros x Hx. apply str_eqb_neq. set_solver.
    + apply list.Forall_forall. intros x Hx. apply str_eqb_neq. set_solver.
  - apply obj_get_None in E. rewrite filter_none; [done|]. apply list.Forall_forall. intros x Hx. apply str_eqb_neq. set_solver.
Qed.

(** A stream of plain names: those that are there, in order. *)
Lemma src_plain ps t : NoDup (obj_keys t) -> NoDup ps -> Forall plain ps ->
  gulp_src ps t = omap (fun p => file_of t p p) ps.
Proof.
  intros Hnd. induction ps as [|p ps IH]; intros Hps Hp; [done|].
  apply list.NoDup_cons in Hps as [Hin Hps]. apply list.Forall_cons in Hp as [Hp Hpl].
  simpl. rewrite plain_positive, positives_only, (matching_plain p) by done. rewrite IH by done.
  destruct (file_of t p p) as [f|] eqn:E; simpl.
  - f_equal. apply filter_idem. apply list.Forall_forall. intros g (q & Hq & Eq)%list_elem_of_omap.
    unfold file_of in E, Eq. destruct (obj_get t p), (obj_get t q); simplify_eq. simpl.
    rewrite orb_false_r, negb_true_iff. apply str_eqb_neq. set_solver.
  - apply filter_idem. by apply list.Forall_forall.
Qed.

Lemma src_one p t c : NoDup (obj_keys t) -> plain p -> obj_get t p = Some c ->
  gulp_src [p] t = [{| f_path := p; f_rel := drop (length (glob_base p) + 1) p; f_body := c |}].
Proof.
  intros Hnd Hp Hc. rewrite src_plain; [|done|apply NoDup_singleton|by constructor]. simpl. unfold file_of. by rewrite Hc.
Qed.

Lemma filter_keys_get (p : jsstr -> bool) (t : tree) k :
  obj_get (List.filter (fun kc => p kc.1) t) k = if p k then obj_get t k else None.
Proof.
  induction t as [|[k' c] t IH]; simpl; [by destruct (p k)|].
  destruct (p k') eqn:E; simpl; case_str; by rewrite ?IH, ?E.
Qed.

Lemma filter_keys_NoDup (p : jsstr * content -> bool) (t : tree) : NoDup (obj_keys t) -> NoDup (obj_keys (List.filter p t)).
Proof.
  unfold obj_keys. induction t as [|kc t IH]; simpl; [done|]. intros [Hn Hnd]%list.NoDup_cons.
  destruct (p kc); simpl; [|auto]. apply list.NoDup_cons. split; [|auto]. intros (kc' & E & Hin)%list_elem_of_fmap.
  apply Hn. rewrite E. apply list_elem_of_fmap. exists kc'. split; [done|].
  apply list_elem_of_In, filter_In in Hin as [Hin _]. by apply list_elem_of_In.
Qed.
End StreamFacts.
#[export] Hint Resolve dest_NoDup filter_keys_NoDup : xenon.

(** ** Sources stay *)

(** Neither the output of the build nor that of its own compilation. *)
Definition outside (k : jsstr) : Prop :=
  startsWith k "dist/" = false /\ startsWith k "tools/" = false /\ startsWith k "gulpfile" = false
  /\ startsWith k "coverage" = false.

Section Kept.
Context {G : Glob} `{CaseMap}.

Lemma starts_longer k d r : startsWith k d = false -> startsWith k (d ++ r) = false.
Proof.
  intros E. destruct (startsWith k (d ++ r)) eqn:E'; [|done]. apply startsWith_iff in E' as [x ->].
  by rewrite <- app_assoc, startsWith_app in E.
Qed.

Lemma dest_keeps d fs t k : startsWith d "dist/" = true -> outside k -> obj_get (gulp_dest d fs t) k = obj_get t k.
Proof. intros [r ->]%startsWith_iff (Hk & _). apply dest_other. rewrite <- app_assoc. by apply starts_longer. Qed.

Lemma dests_in_dist argv :
  Forall (fun d => startsWith d "dist/" = true) [APP_DEST argv; JS_DEST argv; CSS_DEST argv; FONTS_DEST argv; TMP_DIR].
Proof.
  unfold FONTS_DEST, JS_DEST, CSS_DEST, ASSETS_DEST, APP_DEST. destruct (BUILD_TYPE argv === DEVELOPMENT); forall_list; reflexivity.
Qed.

Lemma replace_ext_app r x y : replace_ext x y (r ++ x) = r ++ y.
Proof. unfold replace_ext. rewrite length_app. replace (length r + length x - length x) with (length r) by lia. by rewrite take_app_length. Qed.

(** A suffix without a slash is one of the last name. *)
Lemma ends_below d r x : (slash ∉ x) -> endsWith (d ++ "/" ++ r) x = true -> endsWith r x = true.
Proof.
  intros Hx [t Ht]%endsWith_iff. apply endsWith_iff. rewrite (app_assoc d) in Ht. change (js "/") with [slash] in Ht.
  destruct (app_eq_inv _ _ _ _ Ht) as [(k & E1 & E2)|(k & _ & E2)]; [|by exists k].
  destruct (rev k) as [|c k'] eqn:Ek; apply (f_equal (@rev N)) in Ek; rewrite rev_involutive in Ek; subst k; [by exists []|].
  simpl in E1, E2. rewrite app_assoc in E1. apply app_inj_tail in E1 as [_ <-]. exfalso. apply Hx. rewrite E2. set_solver.
Qed.

(** A compiled file lies where its source does. *)
Lemma compiled_name d s x : (slash ∉ x) -> below d s -> endsWith s x = true ->
  exists r, replace_ext x ".js" s = d ++ "/" ++ r.
Proof.
  intros Hx (r & _ & ->) He%ends_below; [|done]. apply endsWith_iff in He as [r' ->]. exists (r' ++ ".js").
  by rewrite (app_assoc "/"), (app_assoc d), replace_ext_app, <- !app_assoc.
Qed.

Lemma writes_other (fs : list File) (t : tree) k : (forall f, f ∈ fs -> f.(f_rel) <> k) ->
  obj_get (fold_left (fun t f => obj_set t f.(f_rel) f.(f_body)) fs t) k = obj_get t k.
Proof.
  revert t. induction fs as [|f fs IH]; intros t Hne; simpl; [done|].
  rewrite IH by set_solver. apply obj_get_set_ne. set_solver.
Qed.

Lemma writes_NoDup (fs : list File) (t : tree) : NoDup (obj_keys t) ->
  NoDup (obj_keys (fold_left (fun t f => obj_set t f.(f_rel) f.(f_body)) fs t)).
Proof. revert t. induction fs; simpl; auto with xenon. Qed.

Lemma in_tools r : startsWith ("tools" ++ "/" ++ r) "tools/" = true.
Proof. apply (startsWith_app "tools/"). Qed.

(** The patterns of build.tools.ts. *)
Lemma tools_sources t f : f ∈ gulp_src [js "gulpfile.ts"; path_join [TOOLS_DIR; js "manual_typings/**/*.d.ts"]; path_join [TOOLS_DIR; js "**/*.ts"]] t ->
  f.(f_path) = "gulpfile.ts" \/ (exists r, f.(f_path) = "tools/manual_typings/" ++ r /\ endsWith f.(f_path) ".d.ts" = true) \/ below "tools" f.(f_path).
Proof.
  change (path_join [TOOLS_DIR; js "manual_typings/**/*.d.ts"]) with ("tools/manual_typings" ++ "/**/*" ++ ".d.ts").
  change (path_join [TOOLS_DIR; js "**/*.ts"]) with ("tools" ++ "/**/*" ++ ".ts").
  intros (pre & p & post & Eps & _ & (_ & Hg & _)%matching_elem)%src_elem.
  assert (p ∈ [js "gulpfile.ts"; "tools/manual_typings" ++ "/**/*" ++ ".d.ts"; "tools" ++ "/**/*" ++ ".ts"]) as Hp by (rewrite Eps; set_solver).
  rewrite !elem_of_cons, elem_of_nil in Hp. destruct Hp as [->|[->|[->|[]]]].
  - apply glob_plain in Hg; [auto | decide_done].
  - apply glob_suffix in Hg as [(r & _ & E) He]; [|decide_done..]. right. left. by exists r.
  - apply glob_suffix in Hg as [Hb _]; [|decide_done..]. auto.
Qed.

Lemma build_tools_keeps t k : outside k -> obj_get (build_tools t) k = obj_get t k.
Proof.
  intros (_ & Hk & Hg & _). unfold build_tools. apply writes_other. unfold each, typescript.
  intros f (g & -> & (g' & -> & (h & Hh & Ets)%list_elem_of_omap)%list_elem_of_fmap)%list_elem_of_fmap. simpl.
  apply list_elem_of_fmap in Hh as (s & -> & Hs). simpl in Ets.
  destruct (endsWith s.(f_path) ".ts" && negb (endsWith s.(f_path) ".d.ts")) eqn:E; [|done].
  injection Ets as <-. simpl. apply andb_true_iff in E as [Ets Ed%negb_true_iff].
  apply tools_sources in Hs as [Eg|[(r & _ & Hd)|Hb]].
  - rewrite Eg. intros <-. discriminate Hg.
  - congruence.
  - destruct (compiled_name "tools" s.(f_path) ".ts") as [r ->]; [decide_done|done|done|]. intros <-.
    by rewrite in_tools in Hk.
Qed.

Lemma clean_tools_keeps t k : outside k -> obj_get (clean_tools t) k = obj_get t k.
Proof.
  intros (_ & Hk & Hg & _). unfold clean_tools.
  rewrite (filter_keys_get (fun x => forallb (fun p => negb (glob p x)) _)).
  replace (forallb _ _) with true; [done|]. symmetry. apply forallb_forall. intros p Hp%list_elem_of_In.
  apply negb_true_iff, not_true_iff_false. intros Hm.
  change (path_join [TOOLS_DIR; js "**/*.js"]) with ("tools" ++ "/**/*" ++ ".js") in Hp.
  change (path_join [TOOLS_DIR; js "**/*.js.map"]) with ("tools" ++ "/**/*" ++ ".js.map") in Hp.
  rewrite !elem_of_cons, elem_of_nil in Hp. destruct Hp as [->|[->|[->|[->|[]]]]].
  1,2: apply glob_plain in Hm as ->; [discriminate Hg | decide_done].
  all: apply glob_suffix in Hm as [(r & _ & ->) _]; [by rewrite in_tools in Hk | decide_done..].
Qed.

Lemma clean_dirs_keeps ds t k : Forall (fun d => startsWith d "dist/" = true \/ startsWith d "coverage" = true) ds -> outside k ->
  obj_get (clean_dirs ds t) k = obj_get t k.
Proof.
  intros Hds (Hk & _ & _ & Hc). unfold clean_dirs.
  rewrite (filter_keys_get (fun x => forallb (fun d => negb (x === d) && negb (startsWith x (d ++ "/"))) ds)).
  replace (forallb _ _) with true; [done|]. symmetry. apply forallb_forall. intros d Hd%list_elem_of_In.
  assert (exists p r, d = p ++ r /\ startsWith k p = false) as (p & r & -> & Hp).
  { apply (proj1 (list.Forall_forall _ _) Hds) in Hd as [[r E]%startsWith_iff|[r E]%startsWith_iff]; eauto. }
  rewrite andb_true_iff, !negb_true_iff. split.
  - apply str_eqb_neq. intros ->. by rewrite startsWith_app in Hp.
  - rewrite <- app_assoc. by apply starts_longer.
Qed.

Context (argv : Argv) (deps : list InjectableDependency).

Lemma task_keeps name t t' k : task_effect argv deps name t = Ret t' -> outside k -> obj_get t' k = obj_get t k.
Proof.
  intros E Hk. pose proof (dests_in_dist argv) as Hd. rewrite !list.Forall_cons in Hd. destruct Hd as (H1 & H2 & H3 & H4 & H5 & _).
  assert (forall d : jsstr, startsWith d "dist/" = true -> d <> k) as Hset.
  { intros d Hd <-. destruct Hk as [Hk _]. congruence. }
  unfold task_effect in E.
  repeat match type of E with context [if ?c then _ else _] => destruct c; [injection E as <- || idtac|] end; simplify_eq; try done;
    try (by apply dest_keeps); try (apply clean_dirs_keeps; [forall_list; (by left) || by right | done]).
  - unfold check_tools. destruct (hasOwnProperty t _); [|done]. by rewrite build_tools_keeps, clean_tools_keeps.
  - unfold build_html_css, processAllExternalStylesheets, prepareTemplates, processComponentCss, processComponentScss.
    destruct (BUILD_TYPE argv === PRODUCTION); by rewrite !dest_keeps.
  - unfold build_bundles_app_aot in E. destruct (obj_get t _); [|done]. injection E as <-. apply obj_get_set_ne, Hset.
    unfold JS_DEST, APP_DEST. by destruct (BUILD_TYPE argv === DEVELOPMENT).
  - unfold build_bundles_app_rollup_aot in E. destruct (obj_get t _); [|done]. injection E as <-. by apply obj_get_set_ne, Hset.
  - unfold build_bundles_app in E. destruct (obj_get t _); [|done]. injection E as <-. apply obj_get_set_ne, Hset.
    unfold JS_DEST, APP_DEST. by destruct (BUILD_TYPE argv === DEVELOPMENT).
  - unfold minify_bundles, minify. by rewrite !dest_keeps.
Qed.

(** The tasks leave the sources alone: after any sequence of them every path
    outside dist/, the reports and the compiled tools holds what it held before. *)
Lemma run_keeps (names : list jsstr) (t t' : tree) (k : jsstr) :
  run_names argv deps names t = Ret t' -> outside k -> obj_get t' k = obj_get t k.
Proof.
  intros E Hk. revert t E. induction names as [|n ns IH]; simpl; intros t E; [by simplify_eq|].
  destruct (task_effect argv deps n t) as [t1|] eqn:E1; simpl in E; [|done].
  rewrite (IH t1 E). by apply (task_keeps n).
Qed.
End Kept.

(** ** The production build *)

Definition prod_argv : Argv := {|
  arg_port := None; arg_docs_port := None; arg_coverage_port := None;
  arg_debug := false; arg_scss := false; arg_b := false; arg_desktop := false; arg_desktopBuild := false;
  arg_hybrid := false; arg_base := None; arg_app := None; arg_client := None; arg_analytics := None;
  arg_build_type := None; arg_env := None; arg__ := [js "build.prod"] |}.

Section Production.
Context {G : Glob} `{CaseMap}.

Lemma drop_dir (d n : jsstr) : drop (length d + 1) (d ++ "/" ++ n) = n.
Proof. rewrite (app_assoc d), drop_app_length'; [done|]. by rewrite length_app. Qed.

(** Patterns d/**/*e, for directories and suffixes of a list; others exclude. *)
Definition based (ds : list (jsstr * jsstr)) (ps : list jsstr) : Prop :=
  Forall (fun de => plain de.1 /\ plain de.2 /\ (slash ∉ de.2)) ds
  /\ Forall (fun p => negative p = true \/ exists de, de ∈ ds /\ p = de.1 ++ "/**/*" ++ de.2) ps.

Lemma based_rel ds ps t f : based ds ps -> f ∈ gulp_src ps t ->
  exists de, de ∈ ds /\ f.(f_path) = de.1 ++ "/" ++ f.(f_rel) /\ endsWith f.(f_rel) de.2 = true.
Proof.
  intros [Hds Hps] (pre & p & post & -> & Hn & Hf)%src_elem.
  apply list.Forall_app in Hps as [_ [Hp _]%list.Forall_cons]. destruct Hp as [?|([d e] & Hde & ->)]; [congruence|].
  apply (proj1 (list.Forall_forall _ _) Hds) in Hde as Hpl. destruct Hpl as (Hd & He & Hse). simpl in *.
  apply matching_elem in Hf as (E & Hg & _). apply glob_suffix in Hg as [(r & _ & Hr) Hends]; [|done..].
  unfold file_of in E. rewrite base_suffix in E by done. destruct (obj_get t f.(f_path)); [|done].
  assert (f.(f_rel) = r) as Hrel by (injection E as <-; simpl in *; by rewrite Hr, drop_dir).
  exists (d, e). simpl. rewrite Hrel, Hr in *. split; [done|]. split; [done|]. by apply (ends_below d).
Qed.

Lemma based_copy d es o ps t t' r c : based (map (pair d) es) ps ->
  (exists f, f ∈ gulp_src ps t /\ f.(f_path) = d ++ "/" ++ r /\ f.(f_body) = c) ->
  obj_get (gulp_dest o (gulp_src ps t) t') (o ++ "/" ++ r) = Some c.
Proof.
  intros Hps (f & Hf & Ep & <-).
  assert (forall g, g ∈ gulp_src ps t -> g.(f_path) = d ++ "/" ++ g.(f_rel)) as Hrel.
  { intros g (de & (e & -> & _)%list_elem_of_fmap & E & _)%(based_rel _ _ _ _ Hps). exact E. }
  pose proof (Hrel f Hf) as Er. rewrite Ep in Er. apply app_inv_head, app_inv_head in Er. rewrite Er. apply dest_in; [done|].
  intros g Hg Eg. pose proof (Hrel g Hg). pose proof (Hrel f Hf). apply src_body in Hf, Hg. congruence.
Qed.

(** A plugin on one file, written back. *)
Lemma in_place d n plugin t c : NoDup (obj_keys t) -> plain d -> plain n -> (slash ∉ n) -> obj_get t (d ++ "/" ++ n) = Some c ->
  gulp_dest d (each plugin (gulp_src [d ++ "/" ++ n] t)) t = obj_set t (d ++ "/" ++ n) (Built plugin [c]).
Proof.
  intros Hnd Hd Hn Hs Hc. rewrite (src_one _ t c); [|done|by apply plain_path|done].
  rewrite base_plain by done. unfold gulp_dest, each. cbn [map fold_left f_rel f_body f_path].
  by rewrite drop_dir.
Qed.

Lemma task_NoDup argv deps name (t t' : tree) : task_effect argv deps name t = Ret t' -> NoDup (obj_keys t) -> NoDup (obj_keys t').
Proof.
  intros E Hnd. unfold task_effect in E.
  repeat match type of E with context [if ?c then _ else _] => destruct c; [injection E as <- || idtac|] end; simplify_eq; try done;
    try (by apply dest_NoDup); try (by apply filter_keys_NoDup).
  - unfold check_tools. destruct (hasOwnProperty t _); [|done]. unfold build_tools.
    by apply writes_NoDup, filter_keys_NoDup.
  - unfold build_html_css, processAllExternalStylesheets, prepareTemplates, processComponentCss, processComponentScss.
    destruct (BUILD_TYPE argv === PRODUCTION); auto 6 with xenon.
  - unfold build_bundles_app_aot in E. destruct (obj_get t _); [|done]. injection E as <-. auto with xenon.
  - unfold build_bundles_app_rollup_aot in E. destruct (obj_get t _); [|done]. injection E as <-. auto with xenon.
  - unfold build_bundles_app in E. destruct (obj_get t _); [|done]. injection E as <-. auto with xenon.
  - unfold minify_bundles, minify. auto with xenon.
Qed.

(** copy.prod.ts takes every module that is not a test. *)
Lemma copy_prod_module t r c :
  visible r -> endsWith r ".ts" = true -> endsWith r ".spec.ts" = false -> endsWith r ".e2e-spec.ts" = false ->
  obj_get t ("src/client" ++ "/" ++ r) = Some c -> obj_get (copy_prod prod_argv t) ("dist/tmp" ++ "/" ++ r) = Some c.
Proof.
  intros Hv Hts Hs He Hc.
  change (copy_prod prod_argv t) with (gulp_dest "dist/tmp" (gulp_src
    ["src/client" ++ "/**/*" ++ ".ts"; "src/client" ++ "/**/*" ++ ".json"; js "!src/client/**/*.spec.ts"; js "!src/client/**/*.e2e-spec.ts"] t) t).
  apply (based_copy "src/client" [js ".ts"; js ".json"]).
  - split; [decide_done|]. forall_list; [right; exists (js "src/client", js ".ts") | right; exists (js "src/client", js ".json") | by left..];
      (split; [decide_done | reflexivity]).
  - apply (src_path [] _ _ _ _ c); [reflexivity|done| |].
    + apply glob_suffix; [decide_done..|]. split; [by exists r|]. apply endsWith_iff in Hts as [r' ->].
      rewrite !app_assoc. apply endsWith_app.
    + change (map _ _) with ["src/client" ++ "/**/*" ++ ".spec.ts"; "src/client" ++ "/**/*" ++ ".e2e-spec.ts"].
      forall_list; apply not_true_iff_false; intros [_ E]%glob_suffix; try decide_done; apply ends_below in E; try decide_done; congruence.
Qed.

Lemma compiled_elem fs g : g ∈ each "template" (typescript (each "inline-template" fs)) <->
  exists s, s ∈ fs /\ endsWith s.(f_rel) ".ts" = true /\ endsWith s.(f_rel) ".d.ts" = false
    /\ g = {| f_path := s.(f_path); f_rel := replace_ext ".ts" ".js" s.(f_rel);
              f_body := Built "template" [Built "typescript" [Built "inline-template" [s.(f_body)]]] |}.
Proof.
  unfold each, typescript. rewrite list_elem_of_fmap. split.
  - intros (g1 & -> & (g2 & Hg2 & E)%list_elem_of_omap). apply list_elem_of_fmap in Hg2 as (s & -> & Hs).
    simpl in E. destruct (endsWith s.(f_rel) ".ts" && negb (endsWith s.(f_rel) ".d.ts")) eqn:E'; [|done].
    apply andb_true_iff in E' as [E1 E2%negb_true_iff]. simplify_eq. by exists s.
  - intros (s & Hs & E1 & E2 & ->). eexists. split; [|apply list_elem_of_omap; eexists; split; [apply list_elem_of_fmap; by exists s|]].
    2:{ simpl. rewrite E1, E2. reflexivity. } reflexivity.
Qed.

Lemma ts_to_js s s' : endsWith s ".ts" = true -> endsWith s' ".ts" = true ->
  replace_ext ".ts" ".js" s = replace_ext ".ts" ".js" s' -> s = s'.
Proof.
  intros [r ->]%endsWith_iff [r' ->]%endsWith_iff. rewrite !replace_ext_app. by intros ->%app_inv_tail.
Qed.

(** build.js.prod.ts compiles every module of the working directory. *)
Lemma build_js_prod_module t r c :
  visible (r ++ ".ts") -> endsWith (r ++ ".ts") ".d.ts" = false -> endsWith ("dist/tmp" ++ "/" ++ r ++ ".ts") ("/" ++ "main.web.prod.ts") = false ->
  obj_get t ("dist/tmp" ++ "/" ++ r ++ ".ts") = Some c ->
  obj_get (build_js_prod prod_argv t) ("dist/tmp" ++ "/" ++ r ++ ".js") =
    Some (Built "template" [Built "typescript" [Built "inline-template" [c]]]).
Proof.
  intros Hv Hd Hm Hc. set (ps := ["tools/manual_typings" ++ "/**/*" ++ ".d.ts"; "dist/tmp" ++ "/**/*" ++ ".ts"; js "!dist/tmp/**/main.web.prod.ts"]).
  change (build_js_prod prod_argv t) with (gulp_dest "dist/tmp" (each "template" (typescript (each "inline-template" (gulp_src ps t)))) t).
  assert (based [(js "tools/manual_typings", js ".d.ts"); (js "dist/tmp", js ".ts")] ps) as Hb.
  { split; [decide_done|]. forall_list; [right; exists (js "tools/manual_typings", js ".d.ts") | right; exists (js "dist/tmp", js ".ts") | by left];
      (split; [decide_done | reflexivity]). }
  destruct (src_path ["tools/manual_typings" ++ "/**/*" ++ ".d.ts"] ("dist/tmp" ++ "/**/*" ++ ".ts") [js "!dist/tmp/**/main.web.prod.ts"]
    t ("dist/tmp" ++ "/" ++ r ++ ".ts") c) as (f & Hf & Ep & <-); [reflexivity|done| | |].
  { apply glob_suffix; [decide_done..|]. split; [by exists (r ++ ".ts")|]. rewrite !app_assoc. apply endsWith_app. }
  { forall_list. apply not_true_iff_false. change (drop 1 _) with ("dist/tmp" ++ "/**/" ++ "main.web.prod.ts").
    intros [_ E]%glob_named; try decide_done. congruence. }
  assert (f.(f_rel) = r ++ ".ts") as Er.
  { destruct (based_rel _ _ _ _ Hb Hf) as (de & Hde & E & _). rewrite !elem_of_cons, elem_of_nil in Hde. rewrite Ep in E.
    destruct Hde as [->|[->|[]]]; [discriminate E | by apply app_inv_head, app_inv_head in E]. }
  set (out := each "template" _).
  rewrite <- (replace_ext_app r ".ts" ".js"), <- Er.
  apply (dest_in "dist/tmp" out t {| f_path := f.(f_path); f_rel := _; f_body := _ |}).
  - apply compiled_elem. exists f. rewrite Er. split; [done|]. split; [apply endsWith_app|]. by split.
  - intros g (s & Hs & Hts & Hnd & ->)%compiled_elem. simpl. intros Eg%ts_to_js; [|done|rewrite Er; apply endsWith_app].
    do 3 f_equal. destruct (based_rel _ _ _ _ Hb Hs) as (de & Hde & E & Hends). rewrite !elem_of_cons, elem_of_nil in Hde.
    destruct Hde as [->|[->|[]]]; cbn [fst snd] in *; [congruence|].
    apply src_body in Hs, Hf. rewrite E, Eg, Er, <- Ep, Hf in Hs. congruence.
Qed.

Lemma run_cons argv deps n ns t t' r : task_effect argv deps n t = Ret t' -> run_names argv deps ns t' = r -> run_names argv deps (n :: ns) t = r.
Proof. intros E <-. simpl. by rewrite E. Qed.

Lemma src_bodies ps t cs : NoDup (obj_keys t) -> NoDup ps -> Forall plain ps -> Forall2 (fun s c => obj_get t s = Some c) ps cs ->
  map f_body (gulp_src ps t) = cs /\ map f_path (gulp_src ps t) = ps.
Proof.
  intros Hnd Hps Hpl Hcs. rewrite src_plain by done. clear Hps Hpl. set (F := fun p => file_of t p p).
  induction Hcs as [|s c ps cs E _ [IH1 IH2]]; [done|].
  change (omap F (s :: ps)) with (match F s with Some f => f :: omap F ps | None => omap F ps end).
  assert (F s = Some {| f_path := s; f_rel := drop (length (glob_base s) + 1) s; f_body := c |}) as -> by (unfold F, file_of; by rewrite E).
  cbn [map f_body f_path]. by rewrite IH1, IH2.
Qed.

Lemma concat_some name plugin fs : fs <> [] ->
  concat name plugin fs = [{| f_path := name; f_rel := name; f_body := Built plugin (map f_body fs) |}].
Proof. by destruct fs. Qed.

(** The stylesheets of the dependencies end up in one file. *)
Lemma css_built deps t css c : css ∈ getExternalCss deps -> Forall plain (getExternalCss deps) -> outside css -> obj_get t css = Some c ->
  exists m, obj_get (build_html_css prod_argv deps t) "dist/prod/css/main.css" = Some m.
Proof.
  intros Hin Hpl Ho Hc. unfold build_html_css.
  set (t1 := prepareTemplates _ _).
  assert (obj_get t1 css = Some c) as Hc1.
  { rewrite <- Hc. unfold t1, prepareTemplates, processComponentCss, processComponentScss.
    change (BUILD_TYPE prod_argv === PRODUCTION) with true. by rewrite !dest_keeps. }
  apply list_elem_of_split in Hin as (pre & post & Eps).
  destruct (src_path pre css post t1 css c) as (f & Hf & _).
  - rewrite Eps in Hpl. apply list.Forall_app in Hpl as [_ [Hp _]%list.Forall_cons]. by apply plain_positive.
  - done.
  - rewrite Eps in Hpl. apply list.Forall_app in Hpl as [_ [Hp _]%list.Forall_cons]. by apply glob_plain.
  - rewrite Eps in Hpl. apply list.Forall_app in Hpl as [_ [_ Hp]%list.Forall_cons]. by rewrite positives_only.
  - rewrite <- Eps in Hf. unfold processAllExternalStylesheets. change (BUILD_TYPE prod_argv === PRODUCTION) with true. cbn iota.
    rewrite concat_some.
    + eexists. apply (obj_get_set_eq t1 "dist/prod/css/main.css").
    + intros E%app_eq_nil. destruct E as [E _]. rewrite E in Hf. set_solver.
Qed.

(** The tasks that make the scripts, the page and the manifest. *)
Definition late_tasks : list jsstr :=
  [js "build.html_css"; js "copy.prod"; js "build.js.prod"; js "build.bundles"; js "build.bundles.app"; js "minify.bundles";
   js "build.index.prod"; js "sw.manifest.static"; js "minify.index"].

Definition shims_js (bodies : list content) : content := Built "uglify" [Built "replace" [Built "concat" bodies]].
Definition app_js (main : content) : content :=
  Built "uglify" [Built "bundle" [Built "template" [Built "typescript" [Built "inline-template" [main]]]]].
Definition index_html (page : content) : content :=
  Built "template" [Injected [js "dist/prod/js/shims.js"; js "dist/prod/js/app.js"; js "dist/prod/css/main.css"] page].

(** Reads through the writes of literal paths. *)
Ltac read_tree := repeat (rewrite obj_get_set_eq || rewrite obj_get_set_ne by decide_done).

Lemma minify_set n t c : path_join [JS_DEST prod_argv; n] = "dist/prod/js" ++ "/" ++ n -> NoDup (obj_keys t) -> plain n -> (slash ∉ n) ->
  obj_get t ("dist/prod/js" ++ "/" ++ n) = Some c -> minify prod_argv n t = obj_set t ("dist/prod/js" ++ "/" ++ n) (Built "uglify" [c]).
Proof.
  intros E Hnd Hn Hs Hc. unfold minify. rewrite E. apply (in_place "dist/prod/js"); auto. decide_done.
Qed.

Lemma bundles_built deps t bodies m :
  NoDup (obj_keys t) -> getShims deps <> [] -> NoDup (getShims deps) -> Forall plain (getShims deps) ->
  Forall2 (fun s c => obj_get t s = Some c) (getShims deps) bodies -> obj_get t "dist/tmp/main.web.js" = Some m ->
  exists t', build_bundles_app prod_argv (build_bundles prod_argv deps t) = Ret t' /\
    minify_bundles prod_argv t' =
      obj_set (obj_set (obj_set (obj_set t "dist/prod/js/shims.js" (Built "replace" [Built "concat" bodies]))
        "dist/prod/js/app.js" (Built "bundle" [m])) "dist/prod/js/app.js" (Built "uglify" [Built "bundle" [m]]))
        "dist/prod/js/shims.js" (shims_js bodies).
Proof.
  intros Hnd Hne Hs Hpl Hb Hm. destruct (src_bodies _ t bodies Hnd Hs Hpl Hb) as [Ebod Epath].
  assert (build_bundles prod_argv deps t = obj_set t "dist/prod/js/shims.js" (Built "replace" [Built "concat" bodies])) as ->.
  { unfold build_bundles. rewrite concat_some, Ebod; [reflexivity|]. intros E. rewrite E in Epath. by rewrite <- Epath in Hne. }
  set (t1 := obj_set t _ _). eexists. split.
  { unfold build_bundles_app. change (obj_get t1 (BUNDLE_ENTRY prod_argv ++ ".js")) with (obj_get t1 "dist/tmp/main.web.js").
    assert (obj_get t1 "dist/tmp/main.web.js" = Some m) as -> by (unfold t1; by rewrite obj_get_set_ne by decide_done). reflexivity. }
  change (path_join [JS_DEST prod_argv; JS_PROD_APP_BUNDLE]) with (js "dist/prod/js/app.js").
  set (t2 := obj_set t1 _ _). unfold minify_bundles.
  assert (NoDup (obj_keys t2)) as Hnd2 by (unfold t2, t1; auto with xenon).
  rewrite (minify_set JS_PROD_APP_BUNDLE t2 (Built "bundle" [m])); [|reflexivity|done|decide_done..|apply obj_get_set_eq].
  change ("dist/prod/js" ++ "/" ++ JS_PROD_APP_BUNDLE) with (js "dist/prod/js/app.js"). set (t3 := obj_set t2 _ _).
  apply (minify_set JS_PROD_SHIMS_BUNDLE t3 (Built "replace" [Built "concat" bodies])); [reflexivity| |decide_done..|].
  - unfold t3. auto with xenon.
  - change ("dist/prod/js" ++ "/" ++ JS_PROD_SHIMS_BUNDLE) with (js "dist/prod/js/shims.js"). unfold t3, t2, t1. by read_tree.
Qed.

Lemma index_built t page a b c :
  NoDup (obj_keys t) -> obj_get t "src/client/index.html" = Some page ->
  obj_get t "dist/prod/js/shims.js" = Some a -> obj_get t "dist/prod/js/app.js" = Some b -> obj_get t "dist/prod/css/main.css" = Some c ->
  build_index_prod prod_argv t = obj_set t "dist/prod/index.html" (index_html page).
Proof.
  intros Hnd Hp Ha Hb Hc. unfold build_index_prod, present.
  destruct (src_bodies (injectJs prod_argv) t [a; b] Hnd) as [_ ->]; [decide_done|decide_done|by repeat constructor|].
  destruct (src_bodies (injectCss prod_argv) t [c] Hnd) as [_ ->]; [decide_done|decide_done|by repeat constructor|].
  rewrite (src_one _ t page); [|done|decide_done|done].
  change (path_join [APP_SRC prod_argv; js "index.html"]) with ("src/client" ++ "/" ++ "index.html").
  rewrite base_plain by decide_done. reflexivity.
Qed.

Lemma manifest_other t (k : jsstr) : k <> js "dist/prod/ngsw-manifest.json" -> NoDup (obj_keys t) ->
  obj_get (sw_manifest_static prod_argv t) k = obj_get t k.
Proof.
  intros Hk Hnd. unfold sw_manifest_static.
  destruct (obj_get t "src/client/ngsw-manifest.json") as [m|] eqn:E.
  - rewrite (src_one _ t m); [|done|decide_done|done].
    change (path_join [APP_SRC prod_argv; js "ngsw-manifest.json"]) with ("src/client" ++ "/" ++ "ngsw-manifest.json").
    rewrite base_plain by decide_done. apply (obj_get_set_ne _ "dist/prod/ngsw-manifest.json"). by intros <-.
  - rewrite (src_plain [path_join [APP_SRC prod_argv; js "ngsw-manifest.json"]]); [|done|apply NoDup_singleton|decide_done].
    simpl omap. unfold file_of. change (obj_get t (path_join _)) with (obj_get t "src/client/ngsw-manifest.json"). by rewrite E.
Qed.

Context (deps : list InjectableDependency).

(** What the build needs: the page, the entry module, the scripts and a
    stylesheet among the dependencies. *)
Record buildable (t : tree) (page main : content) (bodies : list content) : Prop := {
  b_keys : NoDup (obj_keys t);
  b_page : obj_get t "src/client/index.html" = Some page;
  b_main : obj_get t "src/client/main.web.ts" = Some main;
  b_some : getShims deps <> [];
  b_once : NoDup (getShims deps);
  b_plain : Forall plain (getShims deps);
  b_out : Forall outside (getShims deps);
  b_bodies : Forall2 (fun s c => obj_get t s = Some c) (getShims deps) bodies;
  b_css : exists css c, css ∈ getExternalCss deps /\ outside css /\ obj_get t css = Some c;
  b_css_plain : Forall plain (getExternalCss deps) }.

(** It is kept by every task. *)
Lemma buildable_kept name t t' page main bodies :
  task_effect prod_argv deps name t = Ret t' -> buildable t page main bodies -> buildable t' page main bodies.
Proof.
  intros E [K P M S O PL OUT B (css & c & Hin & Ho & Hc) CP].
  assert (forall k, outside k -> obj_get t' k = obj_get t k) as Hk by (intros k; by apply (task_keeps prod_argv deps name)).
  split; try done.
  - by apply (task_NoDup prod_argv deps name t).
  - rewrite Hk by decide_done. done.
  - rewrite Hk by decide_done. done.
  - revert OUT. clear -B Hk. induction B as [|s c ps cs E _ IH]; intros OUT; constructor.
    + apply list.Forall_cons in OUT as [Ho _]. by rewrite Hk.
    + apply IH. by apply list.Forall_cons in OUT as [_ ?].
  - exists css, c. by rewrite Hk.
Qed.

Lemma buildable_run names t t' page main bodies :
  run_names prod_argv deps names t = Ret t' -> buildable t page main bodies -> buildable t' page main bodies.
Proof.
  revert t. induction names as [|n ns IH]; simpl; intros t E Hb; [by simplify_eq|].
  destruct (task_effect prod_argv deps n t) as [t1|] eqn:E1; simpl in E; [|done].
  apply (IH t1); [done|]. by apply (buildable_kept n t).
Qed.

Lemma late_build t page main bodies : buildable t page main bodies ->
  exists t', run_names prod_argv deps late_tasks t = Ret t'
    /\ obj_get t' "dist/prod/index.html" = Some (Built "htmlmin" [index_html page])
    /\ obj_get t' "dist/prod/js/shims.js" = Some (shims_js bodies)
    /\ obj_get t' "dist/prod/js/app.js" = Some (app_js main)
    /\ hasOwnProperty t' "dist/prod/css/main.css" = true.
Proof.
  intros Hb. destruct Hb.(b_css _ _ _ _) as (css & c & Hin & Ho & Hc).
  destruct (css_built deps t css c Hin Hb.(b_css_plain _ _ _ _) Ho Hc) as [m Hm].
  set (t1 := build_html_css prod_argv deps t) in *.
  assert (buildable t1 page main bodies) as Hb1 by (by apply (buildable_kept "build.html_css" t)).
  set (t2 := copy_prod prod_argv t1).
  assert (buildable t2 page main bodies) as Hb2 by (by apply (buildable_kept "copy.prod" t1)).
  assert (obj_get t2 ("dist/tmp" ++ "/" ++ "main.web" ++ ".ts") = Some main) as Hts.
  { apply (copy_prod_module t1 "main.web.ts"); [decide_done|reflexivity..|]. apply Hb1. }
  set (t3 := build_js_prod prod_argv t2).
  assert (buildable t3 page main bodies) as Hb3 by (by apply (buildable_kept "build.js.prod" t2)).
  assert (obj_get t3 "dist/tmp/main.web.js" = Some (Built "template" [Built "typescript" [Built "inline-template" [main]]])) as Hjs.
  { apply (build_js_prod_module t2 "main.web"); [decide_done|reflexivity..|done]. }
  assert (obj_get t3 "dist/prod/css/main.css" = Some m) as Hm3.
  { unfold t3, build_js_prod, t2, copy_prod. by rewrite !dest_other by reflexivity. }
  destruct Hb3 as [K P M S O PL OUT B _ _].
  destruct (bundles_built deps t3 bodies _ K S O PL B Hjs) as (t4 & E4 & E5).
  set (t5 := minify_bundles prod_argv t4) in *. assert (NoDup (obj_keys t5)) as K5 by (rewrite E5; auto 6 with xenon).
  assert (build_index_prod prod_argv t5 = obj_set t5 "dist/prod/index.html" (index_html page)) as E6.
  { eapply index_built; rewrite ?E5; [rewrite <- E5; exact K5| | | |]; read_tree; done. }
  set (t6 := build_index_prod prod_argv t5) in *. set (t7 := sw_manifest_static prod_argv t6).
  assert (NoDup (obj_keys t6)) as K6 by (rewrite E6; auto with xenon).
  assert (forall k : jsstr, k <> js "dist/prod/ngsw-manifest.json" -> obj_get t7 k = obj_get t6 k) as E7.
  { intros k Hk. by apply manifest_other. }
  assert (minify_index prod_argv t7 = obj_set t7 "dist/prod/index.html" (Built "htmlmin" [index_html page])) as E8.
  { apply (in_place "dist/prod" "index.html"); [by apply (task_NoDup prod_argv deps "sw.manifest.static" t6) | decide_done..|].
    change ("dist/prod" ++ "/" ++ "index.html") with (js "dist/prod/index.html").
    rewrite E7, E6 by decide_done. apply obj_get_set_eq. }
  exists (minify_index prod_argv t7). split.
  { do 4 (eapply run_cons; [reflexivity|]). eapply run_cons; [exact E4|]. do 4 (eapply run_cons; [reflexivity|]). reflexivity. }
  rewrite E8. unfold hasOwnProperty. read_tree. rewrite !E7, E6, E5 by decide_done. read_tree. by rewrite Hm3.
Qed.

Definition early_tasks : list jsstr :=
  [js "noop"; js "check.tools"; js "clean.prod"; js "tslint"; js "build.assets.prod"; js "build.fonts"].

Lemma production_names : run_task 5 project_registry true "build.prod" = Some (early_tasks ++ late_tasks, true).
Proof. vm_compute. reflexivity. Qed.

Lemma run_app argv ds a b t t' : run_names argv ds a t = Ret t' -> run_names argv ds (a ++ b) t = run_names argv ds b t'.
Proof.
  revert t. induction a as [|n a IH]; simpl; intros t E; [by simplify_eq|].
  destruct (task_effect argv ds n t); simpl in *; [by apply IH | done].
Qed.

Lemma cleaned_runs t : run_names prod_argv deps [js "noop"; js "check.tools"; js "clean.prod"; js "tslint"] t = Ret (clean_prod (check_tools t)).
Proof. repeat (eapply run_cons; [reflexivity|]). reflexivity. Qed.

Lemma assets_run t : run_names prod_argv deps [js "build.assets.prod"] t = Ret (build_assets_prod prod_argv t).
Proof. eapply run_cons; reflexivity. Qed.

Lemma fonts_run t : run_names prod_argv deps [js "build.fonts"] t = Ret (build_fonts prod_argv t).
Proof. eapply run_cons; reflexivity. Qed.

Lemma early_runs t :
  run_names prod_argv deps early_tasks t = Ret (build_fonts prod_argv (build_assets_prod prod_argv (clean_prod (check_tools t)))).
Proof.
  change early_tasks with ([js "noop"; js "check.tools"; js "clean.prod"; js "tslint"] ++ ([js "build.assets.prod"] ++ [js "build.fonts"])).
  rewrite (run_app _ _ _ _ _ _ (cleaned_runs t)), (run_app _ _ _ _ _ _ (assets_run _)). apply fonts_run.
Qed.

(** What the tasks of the production build make, each of them coming to its end. *)
Lemma built_prod (t : tree) (page main : content) (bodies : list content) :
  buildable t page main bodies ->
  exists names first t',
    run_task 5 project_registry true "build.prod" = Some (names, first)
    /\ run_names prod_argv deps names t = Ret t'
    /\ obj_get t' "dist/prod/index.html" = Some (Built "htmlmin" [index_html page])
    /\ obj_get t' "dist/prod/js/shims.js" = Some (shims_js bodies)
    /\ obj_get t' "dist/prod/js/app.js" = Some (app_js main)
    /\ hasOwnProperty t' "dist/prod/css/main.css" = true.
Proof.
  intros Hb. pose proof (early_runs t) as E1. set (t1 := build_fonts _ _) in E1.
  destruct (late_build t1 page main bodies) as (t' & E2 & Hrest); [by apply (buildable_run early_tasks t)|].
  exists (early_tasks ++ late_tasks), true, t'. split; [apply production_names|]. split; [|done].
  by rewrite (run_app _ _ _ _ _ t1).
Qed.

(** The manifest of the service worker is written before the page is minified:
    it tells of a page that is no longer there. *)
Lemma manifest_before_minify t c m : NoDup (obj_keys t) ->
  obj_get t "dist/prod/index.html" = Some c -> obj_get t "src/client/ngsw-manifest.json" = Some m ->
  exists files, run_names prod_argv deps [js "sw.manifest.static"; js "minify.index"] t
      = Ret (obj_set (obj_set t "dist/prod/ngsw-manifest.json" (Manifest files m)) "dist/prod/index.html" (Built "htmlmin" [c]))
    /\ (js "dist/prod/index.html", c) ∈ files.
Proof.
  intros Hnd Hc Hm.
  set (st := gulp_src ["dist/prod" ++ "/**/*" ++ ""; js "!dist/prod/ngsw-manifest.json"] t).
  assert (sw_manifest_static prod_argv t = obj_set t "dist/prod/ngsw-manifest.json" (Manifest (map (fun s => (s.(f_path), s.(f_body))) st) m)) as E.
  { unfold sw_manifest_static. rewrite (src_one _ t m); [|done|decide_done|done].
    change (path_join [APP_SRC prod_argv; js "ngsw-manifest.json"]) with ("src/client" ++ "/" ++ "ngsw-manifest.json").
    rewrite base_plain by decide_done. reflexivity. }
  exists (map (fun s => (s.(f_path), s.(f_body))) st). split.
  - eapply run_cons; [reflexivity|]. rewrite E. eapply run_cons; [reflexivity|]. apply (f_equal (Ret (A:=tree))).
    apply (in_place "dist/prod" "index.html"); [auto with xenon | decide_done..|].
    change ("dist/prod" ++ "/" ++ "index.html") with (js "dist/prod/index.html"). by read_tree.
  - destruct (src_path [] ("dist/prod" ++ "/**/*" ++ "") [js "!dist/prod/ngsw-manifest.json"] t "dist/prod/index.html" c)
      as (f & Hf & Ep & Eb); [reflexivity|done| | |].
    + apply glob_suffix; [decide_done..|]. split; [exists (js "index.html"); split; [decide_done|reflexivity] | reflexivity].
    + forall_list. apply not_true_iff_false. intros E'%glob_plain; [|decide_done]. discriminate E'.
    + apply list_elem_of_fmap. exists f. by rewrite Ep, Eb.
Qed.

(** *** What is shipped *)

(** The files the build makes, and the script of the service worker. *)
Definition made_files : list jsstr :=
  [js "dist/prod/index.html"; js "dist/prod/ngsw-manifest.json"; js "dist/prod/js/shims.js"; js "dist/prod/js/app.js";
   js "dist/prod/css/main.css"; js "dist/prod/worker-basic.min.js"].

Definition source_suffixes : list jsstr := [js ".ts"; js ".css"; js ".html"; js ".scss"; js ".sass"; js ".js"; js "~"].

Definition shipped (t0 : tree) (k : jsstr) (c : content) : Prop :=
  k ∈ made_files
  \/ (exists d r, d ∈ [js "node_modules/font-awesome/fonts"; js "src/client/assets/fonts"]
        /\ k = "dist/prod/assets/fonts" ++ "/" ++ r /\ obj_get t0 (d ++ "/" ++ r) = Some c)
  \/ (exists r, k = "dist/prod" ++ "/" ++ r /\ obj_get t0 ("src/client" ++ "/" ++ r) = Some c
        /\ Forall (fun e => endsWith r e = false) source_suffixes).

Definition ships (t0 t : tree) : Prop :=
  forall k c, startsWith k "dist/prod/" = true -> obj_get t k = Some c -> shipped t0 k c.

Lemma ships_dest t0 d fs t : ships t0 t ->
  (forall f, f ∈ fs -> startsWith (d ++ "/" ++ f.(f_rel)) "dist/prod/" = false \/ shipped t0 (d ++ "/" ++ f.(f_rel)) f.(f_body)) ->
  ships t0 (gulp_dest d fs t).
Proof.
  intros Ht Hfs k c Hk Hc. destruct (dest_get d fs t k) as [[E _]|(f & Hf & -> & E)]; rewrite E in Hc; [by apply Ht|].
  destruct (Hfs f Hf) as [?|?]; [congruence|]. by simplify_eq.
Qed.

Lemma ships_tmp t0 fs t : ships t0 t -> ships t0 (gulp_dest "dist/tmp" fs t).
Proof. intros Ht. apply ships_dest; [done|]. intros f _. by left. Qed.

(** Writing files that are all of one name among the made ones. *)
Lemma ships_named t0 d n fs t : d ++ "/" ++ n ∈ made_files -> Forall (fun f => f.(f_rel) = n) fs -> ships t0 t -> ships t0 (gulp_dest d fs t).
Proof.
  intros Hm Hfs Ht. apply ships_dest; [done|]. intros f Hf. right. left.
  by rewrite (proj1 (list.Forall_forall _ _) Hfs f Hf).
Qed.

Lemma ships_set t0 k c t : k ∈ made_files -> ships t0 t -> ships t0 (obj_set t k c).
Proof.
  intros Hm Ht k' c' Hk'. destruct (decide (k = k')) as [<-|Hne]; [by left|]. rewrite obj_get_set_ne by done. by apply Ht.
Qed.

Lemma src_name d n t : plain d -> plain n -> (slash ∉ n) -> Forall (fun f => f.(f_rel) = n) (gulp_src [d ++ "/" ++ n] t).
Proof.
  intros Hd Hn Hs. apply list.Forall_forall. intros f (pre & p & post & E & _ & Hf)%src_elem.
  assert (p = d ++ "/" ++ n) as -> by (destruct pre as [|? []]; [by injection E as E1 E2 | discriminate E..]).
  apply matching_elem in Hf as (Ef & Hg & _). apply glob_plain in Hg; [|by apply plain_path].
  unfold file_of in Ef. rewrite base_plain, Hg, drop_dir in Ef by done. destruct (obj_get t _); [|done]. by injection Ef as <-.
Qed.

Lemma each_name plugin n fs : Forall (fun f => f.(f_rel) = n) fs -> Forall (fun f => f.(f_rel) = n) (each plugin fs).
Proof. intros Hf. apply list.Forall_forall. intros f (g & -> & Hg)%list_elem_of_fmap. by apply (proj1 (list.Forall_forall _ _) Hf) in Hg. Qed.

Lemma concat_name name plugin fs : Forall (fun f => f.(f_rel) = name) (concat name plugin fs).
Proof. destruct fs; simpl; by repeat constructor. Qed.

(** A pattern for all below a directory. *)
Lemma below_file d negs t f : plain d -> f ∈ matching (d ++ "/**") negs t -> visible f.(f_rel) /\ f.(f_path) = d ++ "/" ++ f.(f_rel).
Proof.
  intros Hd (E & Hg & _)%matching_elem. apply glob_below in Hg as (r & Hv & Hr); [|done].
  unfold file_of in E. rewrite base_below, Hr, drop_dir in E by done. destruct (obj_get t _); [|done].
  by injection E as <-.
Qed.

Lemma visible_under d r : (slash ∉ d) -> visible d -> visible r -> visible (d ++ "/" ++ r).
Proof.
  intros Hs Hd Hr. unfold visible in *. change (d ++ "/" ++ r) with (d ++ slash :: r).
  rewrite split_app_sep by done. rewrite split_no_sep in Hd by done. constructor; [by apply list.Forall_cons in Hd as [? _] | done].
Qed.

(** The script of the service worker is looked for below the base of the page,
    not where packages are installed. *)
Lemma worker_script_path : assets_prod_patterns prod_argv !! 1 =
  Some (js "core/ui/default/node_modules/@angular/service-worker/bundles/worker-basic.min.js").
Proof. reflexivity. Qed.

(** The exclusions of build.assets.prod.ts. *)
Definition assets_exclusions : list jsstr := drop 2 (assets_prod_patterns prod_argv).

Lemma asset_suffixes r : visible r ->
  Forall (fun n => glob n ("src/client" ++ "/" ++ r) = false) (map (drop 1) assets_exclusions) ->
  Forall (fun e => endsWith r e = false) source_suffixes.
Proof.
  intros Hv Hn. set (k := "src/client" ++ "/" ++ r) in *.
  assert (forall n, n ∈ map (drop 1) assets_exclusions -> glob n k = false) as Hx by (by apply list.Forall_forall).
  assert (forall e, endsWith r e = true -> endsWith k e = true) as Hend.
  { intros e [r' ->]%endsWith_iff. unfold k. rewrite !app_assoc. apply endsWith_app. }
  assert (forall n e, n ∈ map (drop 1) assets_exclusions -> n = "src/client" ++ "/**/*" ++ e -> plain e -> (slash ∉ e) -> endsWith r e = false) as Hclient.
  { intros n e Hin -> He Hs. apply not_true_iff_false. intros E%Hend. apply Hx in Hin.
    assert (glob ("src/client" ++ "/**/*" ++ e) k = true) as Hg; [|congruence].
    apply glob_suffix; [decide_done|done..|]. split; [by exists r | done]. }
  assert (visible ("client" ++ "/" ++ r)) as Hv1 by (apply visible_under; [decide_done..|done]).
  unfold source_suffixes. rewrite !list.Forall_cons. repeat split; [..|apply List.Forall_nil].
  1: apply (Hclient "src/client/**/*.ts"); [decide_done|reflexivity|decide_done..].
  1: apply (Hclient "src/client/**/*.css"); [decide_done|reflexivity|decide_done..].
  1: apply (Hclient "src/client/**/*.html"); [decide_done|reflexivity|decide_done..].
  1: apply (Hclient "src/client/**/*.scss"); [decide_done|reflexivity|decide_done..].
  1: apply (Hclient "src/client/**/*.sass"); [decide_done|reflexivity|decide_done..].
  - apply not_true_iff_false. intros E%Hend. assert (glob ("src" ++ "/**/*" ++ ".js") k = true) as Hg.
    { apply glob_suffix; [decide_done..|]. split; [by exists ("client" ++ "/" ++ r) | done]. }
    change ("src" ++ "/**/*" ++ ".js") with (js "src/**/*.js") in Hg. rewrite Hx in Hg by decide_done. done.
  - apply not_true_iff_false. intros E%Hend. assert (glob ("**/*" ++ "~") k = true) as Hg.
    { apply glob_anywhere; [decide_done..|]. split; [|done]. unfold k. apply (visible_under "src"); [decide_done..|done]. }
    change ("**/*" ++ "~") with (js "**/*~") in Hg. rewrite Hx in Hg by decide_done. done.
Qed.

Lemma ships_assets t0 t : (forall k, outside k -> obj_get t k = obj_get t0 k) -> ships t0 t -> ships t0 (build_assets_prod prod_argv t).
Proof.
  intros Hk Ht. apply ships_dest; [done|]. intros f Hf. right. pose proof (src_body _ _ _ Hf) as Hb.
  apply src_elem in Hf as (pre & p & post & E & Hp & Hf).
  change (assets_prod_patterns prod_argv) with (("src/client" ++ "/**")
    :: ("core/ui/default/node_modules/@angular/service-worker/bundles" ++ "/" ++ "worker-basic.min.js") :: assets_exclusions) in E.
  destruct pre as [|a [|b pre]]; simpl in E.
  - injection E as <- <-. replace (List.filter negative _) with assets_exclusions in Hf by reflexivity.
    destruct (below_file "src/client" _ _ _ ltac:(decide_done) Hf) as [Hv Hr].
    apply matching_elem in Hf as (_ & _ & Hn). right. right. exists f.(f_rel). split; [done|]. rewrite Hr in Hb, Hn.
    split; [by rewrite <- Hk | by apply asset_suffixes].
  - injection E as _ <- <-. left.
    apply matching_elem in Hf as (Ef & Hg & _). apply glob_plain in Hg; [|decide_done].
    unfold file_of in Ef. rewrite base_plain, Hg, drop_dir in Ef by decide_done. destruct (obj_get t _); [|done]. injection Ef as <-. decide_done.
  - exfalso. injection E as _ _ E. assert (Forall (fun n => negative n = true) assets_exclusions) as Hneg by decide_done.
    rewrite E in Hneg. apply list.Forall_app in Hneg as [_ [Hneg _]%list.Forall_cons]. congruence.
Qed.

Lemma ships_fonts t0 t : (forall k, outside k -> obj_get t k = obj_get t0 k) -> ships t0 t -> ships t0 (build_fonts prod_argv t).
Proof.
  intros Hk Ht. apply ships_dest; [done|]. intros f Hf. right. pose proof (src_body _ _ _ Hf) as Hb.
  apply src_elem in Hf as (pre & p & post & E & Hp & Hf).
  assert (p ∈ FONTS_SRC prod_argv) as Hin by (rewrite E; set_solver).
  unfold FONTS_SRC in Hin. rewrite !elem_of_cons, elem_of_nil in Hin. right. left. destruct Hin as [->|[->|[]]].
  - destruct (below_file "node_modules/font-awesome/fonts" _ _ _ ltac:(decide_done) Hf) as [Hv Hr]. rewrite Hr in Hb.
    exists "node_modules/font-awesome/fonts", f.(f_rel). split; [decide_done|]. split; [done|]. by rewrite <- Hk.
  - destruct (below_file "src/client/assets/fonts" _ _ _ ltac:(decide_done) Hf) as [Hv Hr]. rewrite Hr in Hb.
    exists "src/client/assets/fonts", f.(f_rel). split; [decide_done|]. split; [done|]. by rewrite <- Hk.
Qed.

Lemma ships_cleaned t0 t : ships t0 (clean_prod t).
Proof.
  intros k c Hk Hc. exfalso. unfold clean_prod, clean_dirs in Hc.
  rewrite (filter_keys_get (fun x => forallb (fun d => negb (x === d) && negb (startsWith x (d ++ "/"))) _)) in Hc.
  change (startsWith k (PROD_DEST ++ "/") = true) in Hk. cbn [forallb] in Hc. rewrite Hk, andb_false_r in Hc. done.
Qed.

Lemma ships_html_css t0 t : ships t0 t -> ships t0 (build_html_css prod_argv deps t).
Proof.
  intros Ht. unfold build_html_css, processAllExternalStylesheets.
  apply (ships_named t0 "dist/prod/css" "main.css"); [decide_done|apply each_name, concat_name|].
  apply ships_tmp, ships_tmp. by apply ships_tmp.
Qed.

Lemma ships_late t0 t t' : ships t0 t -> run_names prod_argv deps late_tasks t = Ret t' -> ships t0 t'.
Proof.
  intros Ht E. change (run_names prod_argv deps late_tasks t) with
    (t9 <-! build_bundles_app prod_argv (build_bundles prod_argv deps (build_js_prod prod_argv (copy_prod prod_argv (build_html_css prod_argv deps t))));;
     Ret (minify_index prod_argv (sw_manifest_static prod_argv (build_index_prod prod_argv (minify_bundles prod_argv t9))))) in E.
  set (t8 := build_bundles prod_argv deps _) in *.
  assert (ships t0 t8) as H8.
  { apply (ships_named t0 "dist/prod/js" "shims.js"); [decide_done|apply each_name, concat_name|].
    by apply ships_tmp, ships_tmp, ships_html_css. }
  unfold build_bundles_app in E. destruct (obj_get t8 _) as [c|]; [|done]. injection E as <-.
  assert (forall n u, (n = js "app.js" \/ n = js "shims.js") -> ships t0 u -> ships t0 (minify prod_argv n u)) as Hmin.
  { intros n u [->| ->] Hu;
      [apply (ships_named t0 "dist/prod/js" "app.js")|apply (ships_named t0 "dist/prod/js" "shims.js")];
      [decide_done|apply each_name, (src_name "dist/prod/js"); decide_done|done|decide_done|apply each_name, (src_name "dist/prod/js"); decide_done|done]. }
  apply (ships_named t0 "dist/prod" "index.html"); [decide_done|apply each_name, (src_name "dist/prod"); decide_done|].
  apply (ships_named t0 "dist/prod" "ngsw-manifest.json"); [decide_done| |].
  { apply list.Forall_forall. intros f (g & -> & Hg)%list_elem_of_fmap. simpl.
    revert g Hg. apply list.Forall_forall, (src_name "src/client" "ngsw-manifest.json"); decide_done. }
  apply (ships_named t0 "dist/prod" "index.html"); [decide_done| |].
  { apply each_name, list.Forall_forall. intros f (g & -> & Hg)%list_elem_of_fmap. simpl.
    revert g Hg. apply list.Forall_forall, (src_name "src/client" "index.html"); decide_done. }
  apply Hmin; [by right|]. apply Hmin; [by left|]. apply ships_set; [decide_done | done].
Qed.

(** C34: nothing else is shipped: whatever dist/prod held before, after
    [gulp build.prod] every file in it is one the build makes, or a font, or a
    copy of a file of the client that is neither a script nor a stylesheet nor
    a template nor a backup. *)
Theorem production_ships (t t' : tree) (k : jsstr) (c : content) (names : list jsstr) (first : bool) :
  run_task 5 project_registry true "build.prod" = Some (names, first) ->
  run_names prod_argv deps names t = Ret t' -> startsWith k "dist/prod/" = true -> obj_get t' k = Some c -> shipped t k c.
Proof.
  intros En E Hk Hc. rewrite production_names in En.
  apply (f_equal (fun o => match o with Some p => p.1 | None => [] end)) in En. cbn iota beta in En. cbn [fst] in En. rewrite <- En in E.
  rewrite (run_app _ _ _ _ _ _ (early_runs t)) in E. revert k c Hk Hc. change (ships t t'). refine (ships_late _ _ _ _ E).
  assert (forall k, outside k -> obj_get (clean_prod (check_tools t)) k = obj_get t k) as H1.
  { intros k. apply (run_keeps _ _ _ _ _ _ (cleaned_runs t)). }
  apply ships_fonts; [|by apply ships_assets; [|apply ships_cleaned]].
  intros k Hk. by rewrite (run_keeps _ _ _ _ _ _ (assets_run _) Hk), H1.
Qed.
End Production.

(** ** A matcher

    Patterns as the tasks write them: the path before the first star, and what
    follows it. *)

Definition below_b (pre f : jsstr) : bool :=
  match strip_prefix pre f with Some r => bool_decide (visible r) | None => false end.

Definition glob_ref_match (p f : jsstr) : bool :=
  match find_sub p "*" with
  | None => f === p
  | Some i =>
      match strip_prefix "**/*" (drop i p), strip_prefix "**/" (drop i p) with
      | Some e, _ => (if truthy (take i p) then below_b (take i p) f else bool_decide (visible f)) && endsWith f e
      | None, Some n => below_b (take i p) f && endsWith f ("/" ++ n)
      | None, None => below_b (take i p) f
      end
  end.

Fixpoint after_slash (s : jsstr) : jsstr :=
  match s with
  | [] => []
  | c :: s' => if (c =? slash)%N then s' else after_slash s'
  end.

Definition glob_ref_base (p : jsstr) : jsstr :=
  match find_sub p "*" with
  | None => rev (after_slash (rev p))
  | Some i => take (i - 1) p
  end.

Lemma below_b_spec d f : below_b (d ++ "/") f = true <-> below d f.
Proof.
  unfold below_b, below. split.
  - destruct (strip_prefix (d ++ "/") f) as [r|] eqn:E; [|done]. intros Hv%bool_decide_eq_true.
    apply strip_prefix_iff in E as ->. exists r. by rewrite <- app_assoc.
  - intros (r & Hv & ->). rewrite app_assoc, strip_prefix_app. by apply bool_decide_eq_true.
Qed.

Lemma plain_no_star p : plain p -> (42%N ∉ p).
Proof. intros Hp Hin. pose proof (proj1 (list.Forall_forall _ _) Hp _ Hin) as Hc. by apply Hc; left. Qed.

Lemma find_star a b : plain a -> find_sub (a ++ "*" ++ b) "*" = Some (length a).
Proof. intros Ha. apply (find_sub_first a 42%N [] b). by apply plain_no_star. Qed.

Lemma find_no_star p : plain p -> find_sub p "*" = None.
Proof. intros Hp. apply (find_sub_absent 42%N []). by apply plain_no_star. Qed.

Lemma after_slash_app n s : (slash ∉ n) -> after_slash (n ++ slash :: s) = s.
Proof.
  induction n as [|c n IH]; simpl; [done|]. intros Hn.
  destruct (N.eqb_spec c slash) as [->|]; [set_solver|]. apply IH. set_solver.
Qed.

(** The pattern [d ++ "/" ++ "**" ++ rest], taken apart. *)
Lemma glob_ref_star d rest f : plain d ->
  glob_ref_match (d ++ "/" ++ "*" ++ rest) f =
    match strip_prefix "**/*" ("*" ++ rest), strip_prefix "**/" ("*" ++ rest) with
    | Some e, _ => below_b (d ++ "/") f && endsWith f e
    | None, Some n => below_b (d ++ "/") f && endsWith f ("/" ++ n)
    | None, None => below_b (d ++ "/") f
    end.
Proof.
  intros Hd. unfold glob_ref_match. rewrite (app_assoc d).
  rewrite find_star by (apply plain_app; split; [done | apply plain_slash]).
  rewrite take_app_length, drop_app_length. destruct d; reflexivity.
Qed.

Lemma glob_ref_base_star d rest : plain d -> glob_ref_base (d ++ "/" ++ "*" ++ rest) = d.
Proof.
  intros Hd. unfold glob_ref_base. rewrite (app_assoc d).
  rewrite find_star by (apply plain_app; split; [done | apply plain_slash]).
  rewrite length_app. change (length (js "/")) with 1. replace (length d + 1 - 1) with (length d) by lia.
  rewrite <- app_assoc. apply take_app_length.
Qed.

#[refine, local] Instance glob_ref : Glob := {| glob := glob_ref_match; glob_base := glob_ref_base |}.
Proof.
  - intros p f Hp. unfold glob_ref_match. rewrite find_no_star by done. apply str_eqb_eq.
  - intros d f Hd. etransitivity; [|apply below_b_spec].
    by change (d ++ "/**") with (d ++ "/" ++ "*" ++ "*"); rewrite glob_ref_star.
  - intros d e f Hd _ _. change (d ++ "/**/*" ++ e) with (d ++ "/" ++ "*" ++ ("*/*" ++ e)).
    rewrite glob_ref_star by done. change (strip_prefix "**/*" ("*" ++ "*/*" ++ e)) with (Some e). rewrite andb_true_iff. by rewrite below_b_spec.
  - intros d n f Hd Hn Hne _. change (d ++ "/**/" ++ n) with (d ++ "/" ++ "*" ++ ("*/" ++ n)).
    rewrite glob_ref_star by done.
    replace (strip_prefix "**/*" ("*" ++ "*/" ++ n)) with (@None jsstr).
    + change (strip_prefix "**/" ("*" ++ "*/" ++ n)) with (Some n). rewrite andb_true_iff. by rewrite below_b_spec.
    + destruct n as [|c n]; [done|]. change (None = strip_prefix "*" (c :: n)).
      destruct (strip_prefix "*" (c :: n)) as [r|] eqn:E; [|done]. apply strip_prefix_iff in E.
      apply plain_no_star in Hn. exfalso. apply Hn. rewrite E. by left.
  - intros e f He _. change (bool_decide (visible f) && endsWith f e = true <-> visible f /\ endsWith f e = true).
    by rewrite andb_true_iff, bool_decide_eq_true.
  - intros d Hd. by apply (glob_ref_base_star d "*").
  - intros d e Hd _. by apply (glob_ref_base_star d ("*/*" ++ e)).
  - intros d n Hd Hn Hns. unfold glob_ref_base.
    rewrite find_no_star by (by apply plain_path).
    rewrite !rev_app_distr, <- app_assoc. change (rev (js "/") ++ rev d) with (slash :: rev d).
    rewrite after_slash_app; [apply rev_involutive|]. by rewrite list_elem_of_In, <- in_rev, <- list_elem_of_In.
Defined.

(** ** A small project *)

Definition sample_deps : list InjectableDependency :=
  [dep "lib/shim.js" (InjectAs (js "shims")); dep "lib/zone.js" (InjectAs (js "libs")); dep "lib/code.css" (InjectFlag true)].

Definition sample_tree : tree :=
  map (fun p => (p, Source p))
    [js "src/client/index.html"; js "src/client/main.web.ts"; js "src/client/main.web.spec.ts"; js "src/client/ngsw-manifest.json";
     js "src/client/assets/logo.png"; js "src/client/assets/fonts/icons.woff"; js "src/client/css/main.scss";
     js "lib/shim.js"; js "lib/zone.js"; js "lib/code.css"; js "dist/prod/stale.js"; js "tools/config.js"; js "tools/config.ts"].

Lemma sample_buildable : buildable sample_deps sample_tree (Source (js "src/client/index.html")) (Source (js "src/client/main.web.ts"))
  [Source (js "lib/shim.js"); Source (js "lib/zone.js")].
Proof.
  split; [decide_done|reflexivity|reflexivity|decide_done..|by repeat constructor| |decide_done].
  exists (js "lib/code.css"), (Source (js "lib/code.css")). split; [decide_done|]. split; [decide_done|reflexivity].
Qed.

Definition sample_after : tree :=
  match run_names (G:=glob_ref) (H:=ascii_case) prod_argv sample_deps (early_tasks ++ late_tasks) sample_tree with Ret t => t | Throw _ => [] end.

Lemma sample_runs : run_names (G:=glob_ref) (H:=ascii_case) prod_argv sample_deps (early_tasks ++ late_tasks) sample_tree = Ret sample_after.
Proof. vm_compute. reflexivity. Qed.

Example sample_shipped : List.filter (fun k => startsWith k "dist/prod/") (obj_keys sample_after) =
  [js "dist/prod/ngsw-manifest.json"; js "dist/prod/assets/logo.png"; js "dist/prod/assets/fonts/icons.woff";
   js "dist/prod/css/main.css"; js "dist/prod/js/shims.js"; js "dist/prod/js/app.js"; js "dist/prod/index.html"].
Proof. vm_compute. reflexivity. Qed.

Lemma production_ships_witness :
  shipped sample_tree "dist/prod/assets/logo.png" (Source (js "src/client/assets/logo.png")).
Proof.
  apply (production_ships (G:=glob_ref) (H:=ascii_case) sample_deps sample_tree sample_after _ _ _ true production_names sample_runs); vm_compute; reflexivity.
Defined.
