(* ===== verification/BuildFaults.v ===== *)
(** * Builds that fail

    The tasks of files with what can go wrong in them: the configuration of the
    environment cannot be read (template_locals.ts), the compiler, the linter or
    the bundler reports errors, a plugin breaks off or never ends.  What the
    tools report is a parameter; what a task makes of it is in the code of the
    task.  The tasks run as gulp runs them for the first time: none is skipped. *)

From S2P Require Import Prelude JsString NodePath Lodash Json BuildTasks BuildConfig BuildStreams BuildWatch.

(** ** What the tools report to a task *)

Inductive report :=
  | Fine
  | CompileError                 (* the error event of tsProject() *)
  | LintErrors (e : jserr)       (* the failures tslint.report() finds *)
  | Rejected (e : jserr)         (* the promise of a bundler or of the ahead-of-time compiler *)
  | StreamError (e : jserr)      (* an error of the stream that is returned *)
  | Logged                       (* an error that is logged only, by clean.ts, build.html_css.ts or plumber: the task ends *)
  | Stuck.                       (* the stream never ends *)

(** The tools of a project: [reports] of a task on a tree of files, the files
    [left] by a task that breaks off, the exit code of Karma ([None]: it does not
    end), the arguments and files of the configuration of the environment, and
    [is-ci] or FORCE_TSLINT_EMIT_ERROR. *)
Record Tools := {
  reports : jsstr -> tree -> report;
  left_by : jsstr -> tree -> tree;
  karma_exit : tree -> option Z;
  load_env : jsstr -> exec jsval; env_config : option jsstr; config_env : option jsstr;
  environment_config : jsstr; locals_Config : list (jsstr * jsval);
  emitError : bool
}.

(** ** What a task makes of a report *)

(** The tasks whose handler of the error event ends the process.  Those of the
    two rollup tasks are arrow functions, whose [this] has no [once]: they throw,
    which nothing catches. *)
Definition exits_on_error : list jsstr :=
  [js "build.js.prod"; js "build.js.prod.aot"; js "build.js.prod.rollup.aot"; js "transpile.bundles.rollup.aot"].

(** The tasks that end the process when their promise is rejected; the others
    call [done(err)]. *)
Definition exits_on_rejection : list (jsstr * Z) := [(js "build.bundles.app.rollup.aot", 0%Z); (js "compile.ahead.prod", 1%Z)].

Definition on_report (emitError : bool) (name : jsstr) (r : report) : ending :=
  match r with
  | Fine | Logged => Ended
  | CompileError => if includes exits_on_error name then ExitsWith 1 else Ended
  | LintErrors e => if emitError then FailsWith e else Ended
  | Rejected e => match obj_get exits_on_rejection name with Some c => ExitsWith c | None => FailsWith e end
  | StreamError e => FailsWith e
  | Stuck => NeverEnds
  end.

(** The builder of template locals of a task; check.tools.ts runs build.tools.ts
    when the tools have been compiled before. *)
Definition template_builder (name : jsstr) (t : tree) : option TemplateLocalsBuilder :=
  if includes [js "build.js.prod"; js "build.js.prod.aot"; js "build.js.prod.rollup.aot"; js "transpile.bundles.rollup.aot"] name
  then Some new_builder
  else if includes [js "build.js.dev"; js "build.js.e2e"] name then Some (withStringifiedSystemConfigDev new_builder)
  else if includes [js "build.index.dev"; js "build.index.prod"] name then Some (withoutStringifiedEnvConfig new_builder)
  else if (name === "check.tools") && hasOwnProperty t "tools/config.js" then Some new_builder
  else None.

(** [done(exitCode)] of Karma's server. *)
Definition karma_ending (code : option Z) : ending :=
  match code with
  | Some c => if (c =? 0)%Z then Ended else FailsWith (ErrorMsg (dec_Z c))
  | None => NeverEnds
  end.

Section Checked.
Context {G : Glob} `{CaseMap} {NT : NumText} (tools : Tools).

Definition env_name : jsstr := config_env_name tools.(env_config) tools.(config_env).

Definition locals_error (name : jsstr) (t : tree) : option jserr :=
  match template_builder name t with
  | Some b => match build_locals tools.(load_env) b tools.(env_config) tools.(config_env) tools.(environment_config) tools.(locals_Config) with
              | Throw e => Some e
              | Ret _ => None
              end
  | None => None
  end.

(** A task of a file on a tree: [build()] throws before the streams of the task
    run; without an error of the tools its effect is that of BuildStreams. *)
Definition checked_task (argv : Argv) (deps : list InjectableDependency) (name : jsstr) (t : tree) : ending * tree :=
  if name === "karma.run" then (karma_ending (tools.(karma_exit) t), t)
  else
    match locals_error name t with
    | Some e => (FailsWith e, tools.(left_by) name t)
    | None =>
        match tools.(reports) name t with
        | Logged => (Ended, tools.(left_by) name t)
        | r =>
            match on_report tools.(emitError) name r with
            | Ended => match task_effect argv deps name t with
                       | Ret t' => (Ended, t')
                       | Throw e => (FailsWith e, tools.(left_by) name t)
                       end
            | e => (e, tools.(left_by) name t)
            end
        end
    end.

(** ** When a build ends *)

(** The configuration of the environment can be read. *)
Definition env_readable : Prop :=
  truthy_val (Some (getConfig tools.(load_env) tools.(environment_config) env_name)) = true.

(** Nothing is reported that stops the task. *)
Definition harmless (name : jsstr) (t : tree) : Prop :=
  match tools.(reports) name t with
  | Fine => True
  | CompileError => name ∉ exits_on_error
  | LintErrors _ => tools.(emitError) = false
  | _ => False
  end.

(** Why a task with the ending [e] stopped; [users] use template locals. *)
Definition stopped_by (users : list jsstr) (name : jsstr) (t : tree) (e : ending) : Prop :=
  (~ env_readable /\ name ∈ users /\ e = FailsWith (ErrorMsg (env_name ++ " is an invalid configuration name")))
  \/ match tools.(reports) name t with
     | CompileError => name ∈ exits_on_error /\ e = ExitsWith 1
     | LintErrors err => tools.(emitError) = true /\ e = FailsWith err
     | Rejected err => e = match obj_get exits_on_rejection name with Some c => ExitsWith c | None => FailsWith err end
     | StreamError err => e = FailsWith err
     | Stuck => e = NeverEnds
     | Fine | Logged => False
     end.

Definition locals_users : list jsstr :=
  [js "check.tools"; js "build.js.prod"; js "build.js.prod.aot"; js "build.js.prod.rollup.aot"; js "transpile.bundles.rollup.aot";
   js "build.js.dev"; js "build.js.e2e"; js "build.index.dev"; js "build.index.prod"].

Lemma template_builder_user name t b : template_builder name t = Some b -> name ∈ locals_users.
Proof.
  unfold template_builder, locals_users. destruct (includes _ name) eqn:E1; [apply includes_spec in E1; set_solver|].
  destruct (includes [js "build.js.dev"; js "build.js.e2e"] name) eqn:E2; [apply includes_spec in E2; set_solver|].
  destruct (includes [js "build.index.dev"; js "build.index.prod"] name) eqn:E3; [apply includes_spec in E3; set_solver|].
  destruct (name === "check.tools") eqn:E4; [apply str_eqb_eq in E4 as ->; set_solver|done].
Qed.

(** The only error of [build()] is a configuration that cannot be read. *)
Lemma locals_error_spec name t e : locals_error name t = Some e ->
  ~ env_readable /\ name ∈ locals_users /\ e = ErrorMsg (env_name ++ " is an invalid configuration name").
Proof.
  unfold locals_error. destruct (template_builder name t) as [b|] eqn:Eb; [|done].
  apply template_builder_user in Eb. unfold build_locals, env_readable. fold env_name.
  destruct (truthy_val _); cbn [negb]; [done|]. intros [= <-]. by split_and!.
Qed.

Lemma locals_fine name t : env_readable -> locals_error name t = None.
Proof. intros He. destruct (locals_error name t) as [e|] eqn:E; [|done]. by apply locals_error_spec in E as [? _]. Qed.

(** *** One task *)

Context (argv : Argv) (deps : list InjectableDependency).

Lemma checked_ended name t t' : name <> js "karma.run" -> tools.(reports) name t <> Logged ->
  checked_task argv deps name t = (Ended, t') -> task_effect argv deps name t = Ret t'.
Proof.
  intros Hk Hl. unfold checked_task. rewrite (proj2 (str_eqb_neq _ _) Hk).
  destruct (locals_error name t); [discriminate|].
  destruct (reports tools name t) as [| | | | | |] eqn:Er; cbn [on_report]; try done;
    repeat match goal with |- context [if ?b then _ else _] => destruct b end; try discriminate;
    try destruct (obj_get exits_on_rejection name); try discriminate;
    destruct (task_effect argv deps name t); congruence.
Qed.

Lemma checked_harmless name t t' : name <> js "karma.run" -> env_readable -> harmless name t ->
  task_effect argv deps name t = Ret t' -> checked_task argv deps name t = (Ended, t').
Proof.
  intros Hk He Hh Et. unfold checked_task, harmless in *. rewrite (proj2 (str_eqb_neq _ _) Hk), locals_fine, Et by done.
  destruct (reports tools name t); cbn [on_report]; try done; [|by rewrite Hh].
  destruct (includes exits_on_error name) eqn:E; [|done]. by apply includes_spec in E.
Qed.

Lemma checked_stops name t t' e u : name <> js "karma.run" -> task_effect argv deps name t = Ret t' ->
  checked_task argv deps name t = (e, u) -> e <> Ended -> stopped_by locals_users name t e.
Proof.
  intros Hk Et. unfold checked_task, stopped_by. rewrite (proj2 (str_eqb_neq _ _) Hk), Et.
  destruct (locals_error name t) as [err|] eqn:El.
  { apply locals_error_spec in El as (H1 & H2 & ->). intros [= <- _] _. by left. }
  intros E Hne. right. destruct (reports tools name t); cbn [on_report] in E; try (injection E as <- _; done).
  - destruct (includes exits_on_error name) eqn:Ei; injection E as <- _; [|done]. by apply includes_spec in Ei.
  - destruct (emitError tools); by injection E as <- _.
  - destruct (obj_get exits_on_rejection name); by injection E as <- _.
Qed.

(** *** A list of tasks *)

Lemma flat_names (names : list jsstr) : forall t u,
  js "karma.run" ∉ names -> (forall n t, tools.(reports) n t <> Logged) ->
  run_flat (checked_task argv deps) names t = (names, u, Ended) -> run_names argv deps names t = Ret u.
Proof.
  induction names as [|n names IH]; intros t u Hk Hl; cbn [run_flat run_names]; [by intros [= ->]|].
  apply not_elem_of_cons in Hk as [Hn Hk]. destruct (checked_task argv deps n t) as [e t1] eqn:E.
  destruct e; try discriminate. rewrite (checked_ended n t t1) by done. cbn [exec_bind].
  destruct (run_flat _ names t1) as [[l t2] e] eqn:E2. intros [= -> -> ->]. by apply IH.
Qed.

Lemma flat_harmless (names : list jsstr) : forall t u,
  js "karma.run" ∉ names -> env_readable -> (forall n t, n ∈ names -> harmless n t) ->
  run_names argv deps names t = Ret u -> run_flat (checked_task argv deps) names t = (names, u, Ended).
Proof.
  induction names as [|n names IH]; intros t u Hk He Hh; cbn [run_flat run_names]; [by intros [= ->]|].
  apply not_elem_of_cons in Hk as [Hn Hk]. destruct (task_effect argv deps n t) as [t1|] eqn:E; [|discriminate]. cbn [exec_bind].
  intros Er. rewrite (checked_harmless n t t1) by (try done; apply Hh; by left).
  rewrite (IH t1 u); [done..| |done]. intros m v Hm. apply Hh. by right.
Qed.

(** A list of tasks whose effects are known runs to its end, or stops at one of them. *)
Lemma flat_cases (names : list jsstr) t t' started s e :
  js "karma.run" ∉ names -> (forall n t, tools.(reports) n t <> Logged) -> run_names argv deps names t = Ret t' ->
  run_flat (checked_task argv deps) names t = (started, s, e) ->
  (e = Ended /\ started = names /\ s = t')
  \/ (e <> Ended /\ exists pre n post u, names = pre ++ n :: post /\ started = pre ++ [n]
        /\ run_names argv deps pre t = Ret u /\ stopped_by locals_users n u e).
Proof.
  intros Hk Hl Hr Ef. destruct (run_flat_stops _ _ _ _ _ _ Ef) as [H1 H2]. destruct (decide (e = Ended)) as [->|Hne].
  - left. rewrite (H1 eq_refl) in Ef. apply (flat_names names) in Ef; [|done..]. split_and!; [done|by apply H1|congruence].
  - right. split; [done|]. destruct (H2 Hne) as (pre & n & post & u & -> & -> & Hp & Hn). exists pre, n, post, u.
    apply not_elem_of_app in Hk as [Hk1 [Hk2 _]%not_elem_of_cons]. apply (flat_names pre) in Hp; [|done..]. split_and!; [done..|].
    rewrite (run_app _ _ _ _ _ _ Hp) in Hr. cbn [run_names] in Hr.
    destruct (task_effect argv deps n u) as [t1|] eqn:Et; [|discriminate Hr]. by eapply checked_stops.
Qed.

(** The tasks of a build that use template locals. *)
Lemma stopped_users names users n u e :
  forallb (fun n => negb (includes names n) || includes users n) locals_users = true -> n ∈ names ->
  stopped_by locals_users n u e -> stopped_by users n u e.
Proof.
  intros Hu Hn [(H1 & H2 & H3)|Hs]; [left|by right]. split_and!; [done| |done].
  rewrite forallb_forall in Hu. specialize (Hu n (proj1 (list_elem_of_In _ _) H2)).
  rewrite (proj2 (includes_spec names n) Hn) in Hu. by apply includes_spec.
Qed.
End Checked.

(** ** The production build *)

Section ProductionBuild.
Context {G : Glob} `{CaseMap} {NT : NumText} (tools : Tools) (deps : list InjectableDependency).

(** C32: [gulp build.prod] from any project with the page, the entry module, the
    scripts and a stylesheet of the dependencies, whatever the tools report to
    its tasks (errors that are only logged apart).  It comes to its end when the
    configuration of the environment can be read and nothing is reported that
    stops a task.  When it comes to its end the page is the minified template
    with the two script bundles and the stylesheet injected in this order, all
    three are there, the first bundle holds the scripts of the dependencies in
    the order of [getShims] and the second the entry module with its templates
    inlined, compiled, with its values put in, bundled and minified.  Otherwise
    it stops at one task, the ones before it have done their work and none after
    it is started; and it stops because the configuration cannot be read, because
    of errors of the compiler, which end the process with code 1, of the linter
    when it is to fail, of the bundler or of a stream, or because a stream does
    not end. *)
Theorem production_build (t : tree) (page main : content) (bodies : list content) :
  buildable deps t page main bodies -> (forall n u, tools.(reports) n u <> Logged) ->
  exists names first started first' t' e,
    run_task 5 project_registry true "build.prod" = Some (names, first)
    /\ exec_task (checked_task tools prod_argv deps) 5 project_registry true t "build.prod" = Some (started, first', t', e)
    /\ (env_readable tools -> (forall n u, n ∈ names -> harmless tools n u) -> e = Ended)
    /\ (e = Ended -> started = names
         /\ obj_get t' "dist/prod/index.html" = Some (Built "htmlmin" [index_html page])
         /\ obj_get t' "dist/prod/js/shims.js" = Some (shims_js bodies)
         /\ obj_get t' "dist/prod/js/app.js" = Some (app_js main)
         /\ hasOwnProperty t' "dist/prod/css/main.css" = true)
    /\ (e <> Ended -> exists pre n post u, names = pre ++ n :: post /\ started = pre ++ [n]
         /\ run_names prod_argv deps pre t = Ret u
         /\ stopped_by tools [js "check.tools"; js "build.js.prod"; js "build.index.prod"] n u e).
Proof.
  intros Hb Hl. destruct (built_prod deps t page main bodies Hb) as (names & first & t1 & Hn & Hr & Hres).
  pose proof (f_equal (option_map fst) Hn) as En. rewrite production_names in En. cbn [option_map fst] in En. apply (inj Some) in En.
  assert (Hk : js "karma.run" ∉ names) by (rewrite <- En; decide_done).
  destruct (exec_task_flat (checked_task tools prod_argv deps) 5 project_registry true "build.prod" names first t Hn)
    as (started & f & t' & e & He & Hf & _).
  pose proof (flat_cases tools prod_argv deps names t t1 _ _ _ Hk Hl Hr Hf) as Hc.
  exists names, first, started, f, t', e. split; [exact Hn|]. split; [exact He|]. split; [|split].
  - intros Henv Hh. pose proof (flat_harmless tools prod_argv deps names t t1 Hk Henv Hh Hr) as Hf'.
    exact (f_equal snd (eq_trans (eq_sym Hf) Hf')).
  - intros Ee. destruct Hc as [(_ & Est & Et)|[Hne _]]; [|destruct (Hne Ee)]. split; [exact Est|]. rewrite Et. exact Hres.
  - intros Hne. destruct Hc as [[Ee _]|(_ & pre & n & post & u & Ep & Est & Hp & Hs)]; [destruct (Hne Ee)|].
    exists pre, n, post, u. split; [exact Ep|]. split; [exact Est|]. split; [exact Hp|].
    apply (stopped_users tools names _ n u e); [|rewrite Ep; apply elem_of_app; right; by left|exact Hs]. rewrite <- En. vm_compute. reflexivity.
Qed.
End ProductionBuild.

(** *** Tools that report nothing, and one that finds an error *)

Definition fine_tools : Tools := {|
  reports := fun _ _ => Fine; left_by := fun _ t => t; karma_exit := fun _ => Some 0%Z;
  load_env := fun p => if p === "tools/env/dev" then Ret (JObj [(js "ENV", JStr "DEV")])
                       else if p === "tools/env/prod" then Ret (JObj [(js "ENV", JStr "PROD")])
                       else Throw (ErrorMsg "Cannot find module");
  env_config := Some (js "prod"); config_env := None; environment_config := "tools/env"; locals_Config := []; emitError := false |}.

Definition with_reports (tools : Tools) (r : jsstr -> tree -> report) : Tools := {|
  reports := r; left_by := tools.(left_by); karma_exit := tools.(karma_exit); load_env := tools.(load_env);
  env_config := tools.(env_config); config_env := tools.(config_env); environment_config := tools.(environment_config);
  locals_Config := tools.(locals_Config); emitError := tools.(emitError) |}.

Definition compile_error : Tools := with_reports fine_tools (fun n _ => if n === "build.js.prod" then CompileError else Fine).

Lemma production_build_witness :
  (exists started first' t', exec_task (checked_task (G:=glob_ref) (H:=ascii_case) (NT:=quotient_text) fine_tools prod_argv sample_deps)
      5 project_registry true sample_tree "build.prod" = Some (started, first', t', Ended)
    /\ obj_get t' "dist/prod/index.html" = Some (Built "htmlmin" [index_html (Source (js "src/client/index.html"))]))
  /\ exists started first' t', exec_task (checked_task (G:=glob_ref) (H:=ascii_case) (NT:=quotient_text) compile_error prod_argv sample_deps)
      5 project_registry true sample_tree "build.prod" = Some (started, first', t', ExitsWith 1)
    /\ list.last started = Some (js "build.js.prod").
Proof.
  split.
  - destruct (production_build (G:=glob_ref) (H:=ascii_case) (NT:=quotient_text) fine_tools sample_deps _ _ _ _ sample_buildable)
      as (names & first & started & first' & t' & e & E1 & E2 & H1 & H2 & _); [by intros ? ?|].
    assert (e = Ended) as -> by (apply H1; [reflexivity|by intros ? ? ?]).
    exists started, first', t'. split; [exact E2|]. exact (proj1 (proj2 (H2 eq_refl))).
  - eexists _, _, _. split; vm_compute; reflexivity.
Defined.
