(* ===== verification/BuildClean.v ===== *)
(** * Removing compiled files from the sources

    tools/tasks/seed/clean.all.src.js.ts, which walks the directories of the client,
    and clear.files.ts.  A directory is the list
    of its entries; removals are taken to succeed, failures being logged only. *)

From S2P Require Import Prelude JsString NodePath Lodash BuildTasks BuildConfig BuildStreams.

(** ** clean.all.src.js.ts *)

Inductive entry := FileEntry (name : jsstr) | DirEntry (name : jsstr) (entries : list entry).

Definition name_of (e : entry) : jsstr := match e with FileEntry n | DirEntry n _ => n end.

(** The names that [*.js] and [*.js.map] match. *)
Definition compiled (name : jsstr) : bool := negb (startsWith name ".") && (endsWith name ".js" || endsWith name ".js.map").

(** [deleteAndWalk] and [walk] on the entries of a directory: what is left. *)
Fixpoint walk (e : entry) : entry :=
  match e with
  | FileEntry n => FileEntry n
  | DirEntry n es => DirEntry n (flat_map (fun e => if compiled (name_of e) then [] else [walk e]) es)
  end.
Definition deleteAndWalk (es : list entry) : list entry :=
  flat_map (fun e => if compiled (name_of e) then [] else [walk e]) es.

(** The paths of the files below, as lists of names. *)
Fixpoint entry_files (e : entry) : list (list jsstr) :=
  match e with
  | FileEntry n => [[n]]
  | DirEntry n es => map (cons n) (flat_map entry_files es)
  end.
Definition files_of (es : list entry) : list (list jsstr) := flat_map entry_files es.

Definition entry_ind' (P : entry -> Prop) (Hf : forall n, P (FileEntry n)) (Hd : forall n es, Forall P es -> P (DirEntry n es)) :
  forall e, P e :=
  fix go e := match e with
              | FileEntry n => Hf n
              | DirEntry n es => Hd n es ((fix all (l : list entry) : Forall P l :=
                                             match l with
                                             | [] => List.Forall_nil P
                                             | x :: l' => Forall_cons_2 P x l' (go x) (all l')
                                             end) es)
              end.

Definition kept_path (p : list jsstr) : bool := forallb (fun n => negb (compiled n)) p.

Lemma filter_cons_map n (ps : list (list jsstr)) : compiled n = false ->
  List.filter kept_path (map (cons n) ps) = map (cons n) (List.filter kept_path ps).
Proof.
  intros Hn. induction ps as [|p ps IH]; [done|]. cbn [map List.filter].
  replace (kept_path (n :: p)) with (kept_path p) by (unfold kept_path; cbn [forallb]; by rewrite Hn).
  destruct (kept_path p); cbn [map]; by rewrite IH.
Qed.

Lemma filter_under n (ps : list (list jsstr)) : compiled n = true -> List.filter kept_path (map (cons n) ps) = [].
Proof.
  intros Hn. apply filter_none. apply list.Forall_forall. intros p (q & -> & _)%list_elem_of_fmap. unfold kept_path. cbn [forallb]. by rewrite Hn.
Qed.

(** Every file under a compiled name starts with it. *)
Lemma entry_removed e : compiled (name_of e) = true -> List.filter kept_path (entry_files e) = [].
Proof. destruct e as [n|n es]; cbn [name_of entry_files]; intros Hn; [apply (filter_under n [[]]) | apply filter_under]; done. Qed.

Lemma files_deleted es :
  Forall (fun e => compiled (name_of e) = false -> entry_files (walk e) = List.filter kept_path (entry_files e)) es ->
  files_of (deleteAndWalk es) = List.filter kept_path (files_of es).
Proof.
  unfold files_of, deleteAndWalk. induction 1 as [|e es He _ IH]; [done|]. cbn [flat_map].
  rewrite List.filter_app. destruct (compiled (name_of e)) eqn:Ec; cbn [app].
  - by rewrite entry_removed.
  - cbn [flat_map]. by rewrite He, IH.
Qed.

Lemma walk_files e : compiled (name_of e) = false -> entry_files (walk e) = List.filter kept_path (entry_files e).
Proof.
  induction e as [n|n es IH] using entry_ind'; cbn [name_of walk entry_files]; intros Hn.
  - change [[n]] with (map (cons n) [@nil jsstr]). by rewrite filter_cons_map.
  - rewrite filter_cons_map by done. f_equal. by apply files_deleted.
Qed.

(** The walk removes exactly the files with a compiled name on their path, its
    own or that of a directory, at any depth. *)
Lemma all_compiled_removed es : files_of (deleteAndWalk es) = List.filter kept_path (files_of es).
Proof. apply files_deleted. apply list.Forall_forall. intros e _. apply walk_files. Qed.

(** A second run finds nothing. *)
Lemma clean_again es : files_of (deleteAndWalk (deleteAndWalk es)) = files_of (deleteAndWalk es).
Proof.
  rewrite !all_compiled_removed. apply filter_idem. apply list.Forall_forall. intros p Hp%list_elem_of_In%filter_In. apply Hp.
Qed.

(** ** clear.files.ts *)

Section Clear.
Context {G : Glob} (argv : Argv).

Definition cleared_patterns : list jsstr :=
  [js "gulpfile.js"; js "gulpfile.js.map"; path_join [TOOLS_DIR; js "**/*.js"]; path_join [TOOLS_DIR; js "**/*.js.map"];
   path_join [TOOLS_DIR; js "**/*.metadata.json"]; path_join [APP_SRC argv; js "**/*.js"]; path_join [APP_SRC argv; js "**/*.js.map"];
   path_join [APP_SRC argv; js "**/*.metadata.json"]].
Definition clear_files (t : tree) : tree := List.filter (fun kc => forallb (fun p => negb (glob p kc.1)) cleared_patterns) t.
End Clear.

(** It removes from the client the same files as the walk, with the metadata:
    a file of the client below no compiled directory is removed exactly when
    its name ends so. *)
Lemma client_cleared {G : Glob} t r : visible r ->
  obj_get (clear_files no_arguments t) ("src/client" ++ "/" ++ r) =
    if endsWith r ".js" || endsWith r ".js.map" || endsWith r ".metadata.json" then None else obj_get t ("src/client" ++ "/" ++ r).
Proof.
  intros Hv. unfold clear_files. rewrite (filter_keys_get (fun k => forallb (fun p => negb (glob p k)) (cleared_patterns no_arguments))).
  set (k := "src/client" ++ "/" ++ r).
  assert (forall e : jsstr, plain e -> (slash ∉ e) -> glob ("src/client" ++ "/**/*" ++ e) k = endsWith r e) as Hg.
  { intros e He Hs. apply eq_true_iff_eq. rewrite glob_suffix by (done || decide_done). split.
    - intros [_ E]. by apply (ends_below "src/client").
    - intros [r' ->]%endsWith_iff. split; [by exists (r' ++ e)|]. unfold k. rewrite !app_assoc. apply endsWith_app. }
  assert (forall e : jsstr, plain e -> (slash ∉ e) -> glob ("tools" ++ "/**/*" ++ e) k = false) as Ht.
  { intros e He Hs. apply not_true_iff_false. intros [(x & _ & E) _]%glob_suffix; [|decide_done|done|done]. discriminate E. }
  assert (forall p, p = js "gulpfile.js" \/ p = js "gulpfile.js.map" -> glob p k = false) as Hp.
  { intros p [->| ->]; apply not_true_iff_false; intros E%glob_plain; try decide_done; discriminate E. }
  unfold cleared_patterns. cbn [forallb]. rewrite (Hp "gulpfile.js"), (Hp "gulpfile.js.map") by auto.
  change (path_join [TOOLS_DIR; js "**/*.js"]) with ("tools" ++ "/**/*" ++ ".js").
  change (path_join [TOOLS_DIR; js "**/*.js.map"]) with ("tools" ++ "/**/*" ++ ".js.map").
  change (path_join [TOOLS_DIR; js "**/*.metadata.json"]) with ("tools" ++ "/**/*" ++ ".metadata.json").
  change (path_join [APP_SRC no_arguments; js "**/*.js"]) with ("src/client" ++ "/**/*" ++ ".js").
  change (path_join [APP_SRC no_arguments; js "**/*.js.map"]) with ("src/client" ++ "/**/*" ++ ".js.map").
  change (path_join [APP_SRC no_arguments; js "**/*.metadata.json"]) with ("src/client" ++ "/**/*" ++ ".metadata.json").
  rewrite !Ht, !Hg by decide_done. cbn [negb andb].
  by destruct (endsWith r ".js"), (endsWith r ".js.map"), (endsWith r ".metadata.json").
Qed.
