(* ===== verification/BuildServer.v ===== *)
(** * The servers of the tools

    tools/utils/seed/server.ts, tools/utils/project/server.ts, [listen] and
    [changed] of code_change_tools.ts, and the configuration of the plugins in
    seed.config.ts.  A server is the record of the middleware it uses, in
    order, the ports it listens on, the pages it opened, the lines it printed
    and the calls of BrowserSync.  express and its middleware are a parameter
    with the laws their documentation states; paths are relative to the working
    directory, as those of the tree of files. *)

From S2P Require Import Prelude JsString NodePath Lodash Json BuildTasks BuildConfig BuildStreams.

(** ** Middleware *)

Inductive middleware :=
  | Static (mount root : jsstr)
  | Proxy (prefix target : jsstr)
  | Fallback (page root : jsstr).

(** A path as urls have it literally. *)
Definition literal (r : jsstr) : Prop := (37%N ∉ r) /\ (63%N ∉ r) /\ (35%N ∉ r).

(** Nothing of the tree is at the path or below it. *)
Definition nothing_at (t : tree) (k : jsstr) : Prop :=
  obj_get t k = None /\ Forall (fun k' => startsWith k' (k ++ "/") = false) (obj_keys t).

(** What a middleware answers to a GET for a page; [None] passes on. *)
Class Express := {
  handles : middleware -> tree -> jsstr -> option content;
  static_file mount root t r c : visible r -> literal r -> obj_get t (root ++ "/" ++ r) = Some c ->
    handles (Static (mount ++ "/") root) t (mount ++ "/" ++ r) = Some c;
  static_index mount root t c : obj_get t (root ++ "/index.html") = Some c ->
    handles (Static (mount ++ "/") root) t (mount ++ "/") = Some c;
  static_missing mount root t r : visible r -> literal r -> nothing_at t (root ++ "/" ++ r) ->
    handles (Static (mount ++ "/") root) t (mount ++ "/" ++ r) = None;
  static_elsewhere mount root t url : startsWith url mount = false -> handles (Static (mount ++ "/") root) t url = None;
  proxy_elsewhere prefix target t url : startsWith url prefix = false -> handles (Proxy prefix target) t url = None;
  fallback_page page root t url : handles (Fallback page root) t url = obj_get t (root ++ "/" ++ page)
}.

Fixpoint answer `{Express} (app : list middleware) (t : tree) (url : jsstr) : option content :=
  match app with
  | [] => None
  | m :: rest => match handles m t url with Some c => Some c | None => answer rest t url end
  end.

(** ** The server *)

Inductive sync_call := SyncInit | SyncReload (files : list jsstr).

Record WebServer := {
  uses : list middleware; listening : list Z; opened : list jsstr; printed : list jsstr; sync : list sync_call }.

Definition new_WebServer : WebServer := {| uses := []; listening := []; opened := []; printed := []; sync := [] |}.

Section Server.
Context `{CaseMap} (argv : Argv).

Definition DOCS_DEST : jsstr := "docs".
Definition SERVER_STARTUP_BANNER : jsstr := "Starting the server..".
(** project.config.ts *)
Definition PROXY_MIDDLEWARE : list middleware := [Proxy "/api" "http://localhost:8000"].

Definition startServer (s : WebServer) : WebServer :=
  {| uses := s.(uses); listening := s.(listening); opened := s.(opened); printed := s.(printed) ++ [SERVER_STARTUP_BANNER]; sync := s.(sync) |}.

Definition add_sync (c : sync_call) (s : WebServer) : WebServer :=
  {| uses := s.(uses); listening := s.(listening); opened := s.(opened); printed := s.(printed); sync := s.(sync) ++ [c] |}.

(** code_change_tools.ts *)
Definition listen : WebServer -> WebServer := add_sync SyncInit.
Definition changed (files : list jsstr) : WebServer -> WebServer := add_sync (SyncReload files).

Definition app_use (m : middleware) (s : WebServer) : WebServer :=
  {| uses := s.(uses) ++ [m]; listening := s.(listening); opened := s.(opened); printed := s.(printed); sync := s.(sync) |}.

(** Listening, and opening the page once it listens. *)
Definition app_listen (port : Z) (s : WebServer) : WebServer :=
  {| uses := s.(uses); listening := s.(listening) ++ [port];
     opened := s.(opened) ++ ["http://localhost:" ++ dec_Z port ++ APP_BASE argv]; printed := s.(printed); sync := s.(sync) |}.

(** The project configures nothing here. *)
Definition configureMiddleware (s : WebServer) : WebServer := s.

Definition serveSPA (s : WebServer) : WebServer := startServer (listen (configureMiddleware s)).
Definition notifyLiveReload (path : jsstr) (s : WebServer) : WebServer := changed [path] (startServer s).
Definition serveDocs (s : WebServer) : WebServer :=
  startServer (app_listen (DOCS_PORT argv) (app_use (Static (APP_BASE argv) DOCS_DEST) (configureMiddleware s))).
Definition serveCoverage (s : WebServer) : WebServer :=
  startServer (app_listen (COVERAGE_PORT argv) (app_use (Static (APP_BASE argv) COVERAGE_TS_DIR) (configureMiddleware s))).
Definition serveProd (s : WebServer) : WebServer :=
  let root := PROD_DEST in
  let s := fold_left (fun s proxy => app_use proxy s) PROXY_MIDDLEWARE (configureMiddleware s) in
  startServer (app_listen (PORT argv) (app_use (Fallback "index.html" root) (app_use (Static (APP_BASE argv) root) s))).
End Server.

(** ** Configuration of the plugins *)

(** The options of BrowserSync; its middleware turns addresses of pages into
    the one of the index page before the proxies are asked. *)
Record BrowserSync := {
  bs_index : jsstr; bs_proxies : list middleware; bs_port : Z; startPath : jsstr; bs_open : bool; injectChanges : bool;
  baseDir : jsstr; bs_routes : list (jsstr * jsstr) }.

Section Plugins.
Context `{CaseMap} (argv : Argv) (__dirname : jsstr).
(** The package deep-extend, and what the project adds to the options. *)
Context (deepExtend : list (jsstr * jsval) -> list (jsstr * jsval) -> list (jsstr * jsval)) (PLUGIN_CONFIGS : list (jsstr * jsval)).

Definition browser_sync : BrowserSync :=
  {| bs_index := APP_BASE argv ++ "index.html"; bs_proxies := PROXY_MIDDLEWARE; bs_port := PORT argv; startPath := APP_BASE argv;
     bs_open := negb argv.(arg_b); injectChanges := false; baseDir := DIST_DIR ++ "/empty/"; bs_routes := server_routes argv |}.

(** The other plugins. *)
Definition _PLUGIN_CONFIGS : list (jsstr * jsval) :=
  deepExtend
    [ (js "environment-config", JStr (path_join [PROJECT_ROOT __dirname; TOOLS_DIR; js "env"]));
      (js "gulp-sass", JObj [(js "includePaths", JArr [JStr (js "./node_modules/")])]);
      (js "gulp-concat-css", JObj [(js "targetFile", JStr (CSS_BUNDLE_NAME ++ ".css"));
                                   (js "options", JObj [(js "rebaseUrls", JBool false)])]) ]
    PLUGIN_CONFIGS.

Definition getPluginConfig (pluginKey : jsstr) : option jsval :=
  let v := obj_get _PLUGIN_CONFIGS pluginKey in if truthy_val v then v else None.
End Plugins.

(** ** Properties *)

(** [startServer] is said to be called once; every change calls it again. *)
Lemma banner_per_change (files : list jsstr) (s : WebServer) :
  (fold_left (fun s f => notifyLiveReload f s) files (serveSPA s)).(printed) = s.(printed) ++ repeat SERVER_STARTUP_BANNER (S (length files)).
Proof.
  induction files as [|f files IH] using rev_ind; [done|]. rewrite fold_left_app. simpl. rewrite IH, length_app. simpl.
  rewrite <- app_assoc. f_equal. rewrite Nat.add_comm. change (SERVER_STARTUP_BANNER :: repeat SERVER_STARTUP_BANNER (length files)) with (repeat SERVER_STARTUP_BANNER (S (length files))).
  by rewrite <- repeat_cons.
Qed.

(** The options name the stylesheet that build.html_css.ts makes and the page
    refers to. *)
Lemma concat_css_target `{CaseMap} argv dirname (deepExtend : list (jsstr * jsval) -> list (jsstr * jsval) -> list (jsstr * jsval)) :
  (forall o, deepExtend o [] = o) ->
  exists o name, getPluginConfig dirname deepExtend [] "gulp-concat-css" = Some (JObj o) /\ obj_get o "targetFile" = Some (JStr name)
    /\ injectCss argv = [path_join [CSS_DEST argv; name]].
Proof.
  intros Hd. unfold getPluginConfig, _PLUGIN_CONFIGS. rewrite Hd.
  exists [(js "targetFile", JStr (CSS_BUNDLE_NAME ++ ".css")); (js "options", JObj [(js "rebaseUrls", JBool false)])], (CSS_BUNDLE_NAME ++ ".css").
  split; [reflexivity|]. split; reflexivity.
Qed.

Section Served.
Context {G : Glob} `{CaseMap} `{Express} (deps : list InjectableDependency).

Definition prod_app : list middleware := (serveProd prod_argv new_WebServer).(uses).

Lemma prod_app_eq : prod_app =
  [Proxy "/api" "http://localhost:8000"; Static ("/core/ui/default" ++ "/") "dist/prod"; Fallback "index.html" "dist/prod"].
Proof. reflexivity. Qed.

Lemma prod_file t r c : visible r -> literal r -> obj_get t ("dist/prod" ++ "/" ++ r) = Some c ->
  answer prod_app t (APP_BASE prod_argv ++ r) = Some c.
Proof.
  intros Hv Hl Hc. rewrite prod_app_eq. change (APP_BASE prod_argv ++ r) with ("/core/ui/default" ++ "/" ++ r).
  cbn [answer]. rewrite proxy_elsewhere by reflexivity. by rewrite (static_file _ _ _ _ c).
Qed.

(** C33: what [gulp build.prod] builds the server of [gulp server.prod] serves:
    every location injected into the page is one the server answers with that
    very file, whatever query the build appends; the address the server opens
    shows the page, and so does every address below the base of the application
    that is no file. *)
Theorem production_served (t : tree) (page main : content) (bodies : list content) (q : jsstr) :
  buildable deps t page main bodies ->
  exists names first t',
    run_task 5 project_registry true "build.prod" = Some (names, first) /\ run_names prod_argv deps names t = Ret t'
    /\ obj_get t' "dist/prod/index.html" = Some (Built "htmlmin" [index_html page])
    /\ (forall location, location ∈ injectJs prod_argv ++ injectCss prod_argv ->
        exists url c, obj_get t' location = Some c /\ transformPath_prod prod_argv q ("/" ++ location) = with_query url q
          /\ answer prod_app t' url = Some c)
    /\ (exists path, (serveProd prod_argv new_WebServer).(opened) = ["http://localhost:" ++ "5000" ++ path]
          /\ answer prod_app t' path = obj_get t' "dist/prod/index.html")
    /\ (forall r, visible r -> literal r -> nothing_at t' ("dist/prod" ++ "/" ++ r) ->
          answer prod_app t' (APP_BASE prod_argv ++ r) = obj_get t' "dist/prod/index.html").
Proof.
  intros Hb. destruct (built_prod deps t page main bodies Hb) as (names & first & t' & E1 & E2 & Hi & Hs & Ha & Hc).
  exists names, first, t'. split; [exact E1|]. split; [exact E2|]. split; [exact Hi|].
  assert (forall d n c, clean_segment d -> clean_segment n -> visible (d ++ "/" ++ n) -> literal (d ++ "/" ++ n) ->
    obj_get t' ("dist/prod" ++ "/" ++ d ++ "/" ++ n) = Some c ->
    exists url c, obj_get t' ("dist/prod" ++ "/" ++ d ++ "/" ++ n) = Some c
      /\ transformPath_prod prod_argv q ("/" ++ "dist/prod" ++ "/" ++ d ++ "/" ++ n) = with_query url q /\ answer prod_app t' url = Some c) as Hloc.
  { intros d n c Hd Hn Hv Hl Hg. exists (APP_BASE prod_argv ++ d ++ "/" ++ n), c. split; [done|]. split; [|by apply prod_file].
    apply (prod_location prod_argv q [d; n]); [done| |done]. forall_list; assumption. }
  split; [|split].
  - intros location Hin. unfold hasOwnProperty in Hc. destruct (obj_get t' "dist/prod/css/main.css") as [css|] eqn:Ecss; [|done].
    change (injectJs prod_argv ++ injectCss prod_argv) with [js "dist/prod/js/shims.js"; js "dist/prod/js/app.js"; js "dist/prod/css/main.css"] in Hin.
    rewrite !elem_of_cons, elem_of_nil in Hin. destruct Hin as [->|[->|[->|[]]]].
    + apply (Hloc "js" "shims.js" (shims_js bodies)); [by apply clean_lit..|decide_done|decide_done|done].
    + apply (Hloc "js" "app.js" (app_js main)); [by apply clean_lit..|decide_done|decide_done|done].
    + apply (Hloc "css" "main.css" css); [by apply clean_lit..|decide_done|decide_done|done].
  - exists (APP_BASE prod_argv). split; [reflexivity|]. rewrite prod_app_eq, Hi.
    change (APP_BASE prod_argv) with ("/core/ui/default" ++ "/"). cbn [answer]. rewrite proxy_elsewhere by reflexivity.
    by rewrite (static_index "/core/ui/default" "dist/prod" t' _ Hi).
  - intros r Hv Hl Hn. rewrite prod_app_eq. change (APP_BASE prod_argv ++ r) with ("/core/ui/default" ++ "/" ++ r).
    cbn [answer]. rewrite proxy_elsewhere by reflexivity. rewrite static_missing by done. rewrite fallback_page.
    change ("dist/prod" ++ "/" ++ "index.html") with (js "dist/prod/index.html"). by rewrite Hi.
Qed.
End Served.

(** *** A server *)

Definition ref_handles (m : middleware) (t : tree) (url : jsstr) : option content :=
  match m with
  | Static mount root =>
      match strip_prefix mount url with
      | Some [] => obj_get t (root ++ "/index.html")
      | Some r => obj_get t (root ++ "/" ++ r)
      | None => None
      end
  | Proxy prefix _ => if startsWith url prefix then Some (Built "proxy" [Source url]) else None
  | Fallback page root => obj_get t (root ++ "/" ++ page)
  end.

Lemma visible_some r : visible r -> r <> [].
Proof. intros Hv ->. apply list.Forall_cons in Hv as [[Hne _] _]. done. Qed.

#[refine, local] Instance express_ref : Express := {| handles := ref_handles |}.
Proof.
  - intros mount root t r c Hv _ Hc. simpl. rewrite (app_assoc mount), strip_prefix_app. by destruct r; [apply visible_some in Hv|].
  - intros mount root t c Hc. simpl. replace (strip_prefix (mount ++ "/") (mount ++ "/")) with (Some (@nil N)); [done|].
    symmetry. apply strip_prefix_iff. by rewrite app_nil_r.
  - intros mount root t r Hv _ [Hc _]. simpl. rewrite (app_assoc mount), strip_prefix_app. by destruct r; [apply visible_some in Hv|].
  - intros mount root t url E. simpl. destruct (strip_prefix (mount ++ "/") url) as [x|] eqn:Ex; [|done].
    apply strip_prefix_iff in Ex as ->. by rewrite <- app_assoc, startsWith_app in E.
  - intros prefix target t url E. simpl. by rewrite E.
  - done.
Defined.

Lemma production_served_witness : exists names first t',
  run_task 5 project_registry true "build.prod" = Some (names, first)
  /\ run_names (G:=glob_ref) (H:=ascii_case) prod_argv sample_deps names sample_tree = Ret t'
  /\ exists path, (serveProd (H:=ascii_case) prod_argv new_WebServer).(opened) = ["http://localhost:" ++ "5000" ++ path]
     /\ answer (prod_app (H:=ascii_case)) t' path = obj_get t' "dist/prod/index.html".
Proof.
  destruct (production_served (G:=glob_ref) (H:=ascii_case) sample_deps _ _ _ _ "17" sample_buildable) as (names & first & t' & E1 & E2 & _ & _ & E3 & _).
  exists names, first, t'. exact (conj E1 (conj E2 E3)).
Defined.
