(* ===== verification/BuildMobile.v ===== *)
(** * The tasks that build the mobile application

    tools/tasks/seed: build.assets.tns.ts, build.js.tns.ts,
    build.tns_html_css.ts, clean.tns.ts and clean.all.ts.  Streams of files as
    in BuildStreams.v, here relative to a working directory; a file may be left
    out because its copy is as new, which is a parameter. *)

From S2P Require Import Prelude JsString NodePath Lodash Json BuildTasks BuildConfig BuildStreams.

(** ** Names *)

Fixpoint take_until (c : N) (s : jsstr) : jsstr :=
  match s with
  | [] => []
  | d :: s' => if (d =? c)%N then [] else d :: take_until c s'
  end.

Definition dot : N := 46.

(** The last name of a path, and its extension, as path.parse has it: from the
    last dot, unless this is the first character. *)
Definition last_name (s : jsstr) : jsstr := rev (take_until slash (rev s)).
Definition dir_part (s : jsstr) : jsstr := take (length s - length (last_name s)) s.
Definition ext_of (name : jsstr) : jsstr :=
  let e := take_until dot (rev name) in
  if Nat.ltb (length e + 1) (length name) then [dot] ++ rev e else [].
Definition base_of (name : jsstr) : jsstr := take (length name - length (ext_of name)) name.

(** gulp-rename, by a function on the base and the extension of the name. *)
Definition renamed (g : jsstr * jsstr -> jsstr * jsstr) (rel : jsstr) : jsstr :=
  let name := last_name rel in
  let '(b, e) := g (base_of name, ext_of name) in
  dir_part rel ++ b ++ e.

Definition rename_files (g : jsstr * jsstr -> jsstr * jsstr) (fs : list File) : list File :=
  map (fun f => {| f_path := f.(f_path); f_rel := renamed g f.(f_rel); f_body := f.(f_body) |}) fs.

(** ** Streams in a directory *)

Section Mobile.
Context {G : Glob} `{CaseMap} (argv : Argv).

Definition subtree (cwd : jsstr) (t : tree) : tree :=
  omap (fun kc => match strip_prefix (cwd ++ "/") kc.1 with Some r => Some (r, kc.2) | None => None end) t.

(** [gulp.src] with the options [cwd] and [base], which are the same. *)
Definition gulp_src_in (cwd : jsstr) (ps : list jsstr) (t : tree) : list File :=
  map (fun f => {| f_path := cwd ++ "/" ++ f.(f_path); f_rel := f.(f_path); f_body := f.(f_body) |}) (gulp_src ps (subtree cwd t)).

(** *** build.tns_html_css.ts *)

Definition renamer (be : jsstr * jsstr) : jsstr * jsstr := (replace_first ".tns" "" be.1, be.2).

(** The three streams differ in the extension. *)
Definition copy_versions (ext : jsstr) (t : tree) : tree :=
  gulp_dest TNS_APP_DEST (rename_files renamer
    (gulp_src_in TNS_APP_SRC ["**/*" ++ ext; "app/**/*" ++ ext; not_ ("app/**/*.component" ++ ext)] t)) t.
Definition tns_prepareTemplates : tree -> tree := copy_versions ".html".
Definition tns_processComponentCss : tree -> tree := copy_versions ".css".
Definition tns_processComponentScss : tree -> tree := copy_versions ".scss".

(** The leftmost of the two names of platforms. *)
Definition platform_match (b : jsstr) : option (nat * jsstr) :=
  match find_sub b ".ios", find_sub b ".android" with
  | Some i, Some j => if Nat.ltb i j then Some (i, js ".ios") else Some (j, js ".android")
  | Some i, None => Some (i, js ".ios")
  | None, Some j => Some (j, js ".android")
  | None, None => None
  end.

Definition swap_platform (be : jsstr * jsstr) : jsstr * jsstr :=
  match platform_match be.1 with
  | Some (i, p) => (take i be.1 ++ be.2 ++ drop (i + length p) be.1, p)
  | None => be
  end.

Definition handlePlatformSpecificFiles (t : tree) : tree :=
  gulp_dest TNS_APP_DEST (rename_files swap_platform
    (gulp_src_in TNS_APP_DEST [js "**/*.ios.html"; js "**/*.ios.js"; js "**/*.android.html"; js "**/*.android.js"] t)) t.

Definition tns_shallRun (files : list jsstr) : bool :=
  existsb (fun f => ((negb (indexOf f "nativescript/src/app" =? -1)%Z) && endsWith f ".tns.html")
                    || ((indexOf f "nativescript/src/app" =? -1)%Z && endsWith f ".html")) files.

(** SCSS is always on. *)
Definition build_tns_html_css (t : tree) : tree :=
  handlePlatformSpecificFiles (tns_prepareTemplates (tns_processComponentCss (tns_processComponentScss t))).

(** *** build.assets.tns.ts *)

Context (newer : jsstr -> File -> bool).

Definition copyFiles (paths : list jsstr) (subdir : jsstr) (t : tree) : tree :=
  let dest := path_join [TNS_APP_DEST; subdir] in
  gulp_dest dest (List.filter (newer dest) (gulp_src paths t)) t.

Definition copyAssets : tree -> tree :=
  copyFiles ([path_join [APP_SRC argv; js "assets"; js "**"]; not_ (path_join [APP_SRC argv; js "assets"; js "icons"; js "**"; js "*"])]
             ++ temp_exclusions) "assets".
Definition copyAppResources : tree -> tree := copyFiles [path_join [TNS_APP_SRC; js "App_Resources"; js "**"]] "App_Resources".
Definition copyAppFonts : tree -> tree :=
  copyFiles [path_join [TNS_APP_SRC; js "fonts"; js "**"; js "*.otf"]; path_join [TNS_APP_SRC; js "fonts"; js "**"; js "*.ttf"]] "fonts".
Definition build_assets_tns (t : tree) : tree :=
  copyFiles [path_join [TNS_APP_SRC; js "package.json"]] "" (copyAppFonts (copyAppResources (copyAssets t))).

(** *** build.js.tns.ts *)

Definition tns_sources : list jsstr :=
  [js "**/*.ts"; js "mobile/**/*.ts"; js "app/**/*.ts"; js "!**/*.spec.ts"; js "!app/**/*.spec.ts"; js "!**/*.e2e-spec.ts";
   js "!app/**/*.e2e-spec.ts"; js "!app/modules/test/**/*"; "!**/" ++ adv_NG_FACTORY_FILE argv ++ ".ts"].

(** [template]: the values put into the files, which are written down too. *)
Definition build_js_tns (template : content) (t : tree) : tree :=
  let transpiled := each "template" (each "sourcemaps" (typescript (gulp_src_in TNS_APP_SRC (tns_sources ++ [js "!**/*.aot.ts"]) t))) in
  let copy := gulp_src_in TNS_APP_SRC tns_sources t in
  gulp_dest TNS_APP_DEST copy (gulp_dest TNS_APP_DEST transpiled
    (obj_set t (path_join [TNS_APP_DEST; js "build-config.json"]) (Built "stringify" [template]))).

(** *** clean.tns.ts and clean.all.ts *)

Definition clean_tns : tree -> tree := clean_dirs [TNS_APP_DEST].
Definition clean_all : tree -> tree := clean_dirs [DIST_DIR; COVERAGE_DIR; TNS_APP_DEST].

Definition build_tns (template : content) (t : tree) : tree := build_js_tns template (build_tns_html_css (build_assets_tns t)).
End Mobile.

(** ** Names, taken apart *)

Lemma take_until_app c a b : (c ∉ a) -> take_until c (a ++ c :: b) = a.
Proof.
  induction a as [|d a IH]; simpl; intros Hn; [by rewrite N.eqb_refl|].
  apply not_elem_of_cons in Hn as [Hd Hn]. rewrite (proj2 (N.eqb_neq d c)) by done. by rewrite IH.
Qed.

Lemma take_until_all c a : (c ∉ a) -> take_until c a = a.
Proof.
  induction a as [|d a IH]; simpl; intros Hn; [done|].
  apply not_elem_of_cons in Hn as [Hd Hn]. rewrite (proj2 (N.eqb_neq d c)) by done. by rewrite IH.
Qed.

Lemma not_in_rev (c : N) (s : jsstr) : (c ∉ s) -> (c ∉ rev s).
Proof. by rewrite !list_elem_of_In, <- in_rev. Qed.

Lemma last_name_app d n : (slash ∉ n) -> last_name (d ++ "/" ++ n) = n.
Proof.
  intros Hn. unfold last_name. change (js "/") with [slash]. rewrite !rev_app_distr. simpl. rewrite <- app_assoc. simpl.
  rewrite take_until_app by (by apply not_in_rev). apply rev_involutive.
Qed.

Lemma dir_part_app d n : (slash ∉ n) -> dir_part (d ++ "/" ++ n) = d ++ "/".
Proof.
  intros Hn. unfold dir_part. rewrite last_name_app by done. rewrite (app_assoc d), length_app.
  replace (length (d ++ "/") + length n - length n) with (length (d ++ "/")) by lia. apply take_app_length.
Qed.

Lemma ext_of_app b e : b <> [] -> (dot ∉ e) -> ext_of (b ++ [dot] ++ e) = [dot] ++ e.
Proof.
  intros Hb He. unfold ext_of. rewrite !rev_app_distr. change (rev [dot]) with [dot]. rewrite <- app_assoc. change ([dot] ++ rev b) with (dot :: rev b).
  rewrite take_until_app by (by apply not_in_rev). rewrite rev_involutive, !length_app, length_rev. simpl.
  assert (0 < length b) by (destruct b; simpl; [done|lia]). by rewrite (proj2 (Nat.ltb_lt _ _)) by lia.
Qed.

Lemma base_of_app b e : b <> [] -> (dot ∉ e) -> base_of (b ++ [dot] ++ e) = b.
Proof.
  intros Hb He. unfold base_of. rewrite ext_of_app, length_app by done.
  replace (length b + length ([dot] ++ e) - length ([dot] ++ e)) with (length b) by lia. apply take_app_length.
Qed.

Lemma renamed_app g d b e : (slash ∉ b ++ [dot] ++ e) -> b <> [] -> (dot ∉ e) ->
  renamed g (d ++ "/" ++ b ++ [dot] ++ e) = d ++ "/" ++ (g (b, [dot] ++ e)).1 ++ (g (b, [dot] ++ e)).2.
Proof.
  intros Hs Hb He. unfold renamed. rewrite last_name_app, dir_part_app, base_of_app, ext_of_app by done.
  destruct (g (b, [dot] ++ e)) as [b' e']. by rewrite <- app_assoc.
Qed.

Lemma find_sub_skip a c p s : (c ∉ a) -> find_sub (a ++ s) (c :: p) = (Nat.add (length a)) <$> find_sub s (c :: p).
Proof.
  induction a as [|d a IH]; intros Hn; [cbn [app length]; by destruct (find_sub s (c :: p))|].
  apply not_elem_of_cons in Hn as [Hne Hn]. cbn [app find_sub].
  unfold startsWith at 1. simpl strip_prefix. rewrite (proj2 (N.eqb_neq c d)) by done. rewrite IH by done.
  by destruct (find_sub s (c :: p)).
Qed.

Lemma endsWith_longer p s q : length q <= length s -> endsWith (p ++ s) q = endsWith s q.
Proof.
  intros Hl. unfold endsWith. rewrite length_app.
  replace (length p + length s - length q) with (length p + (length s - length q)) by lia.
  by rewrite drop_app_add'.
Qed.

(** The mobile version of a component takes the name of the component. *)
Lemma renamed_component d x e : (slash ∉ x) -> (dot ∉ x) -> (slash ∉ e) -> (dot ∉ e) ->
  renamed renamer (d ++ "/" ++ (x ++ ".component.tns") ++ [dot] ++ e) = d ++ "/" ++ x ++ ".component" ++ [dot] ++ e.
Proof.
  intros Hs Hd Hse Hde. rewrite renamed_app; [|..|by destruct x|done].
  - unfold renamer. cbn [fst snd]. unfold replace_first. change (js ".tns") with (dot :: js "tns").
    rewrite (find_sub_skip x dot) by done. change (find_sub ".component.tns" (dot :: js "tns")) with (Some 10). cbn [fmap option_fmap option_map].
    rewrite take_app_add, <- Nat.add_assoc, drop_app_add. by rewrite <- !app_assoc.
  - assert (slash ∉ js ".component.tns") by decide_done. assert (slash ∉ [dot]) by decide_done. rewrite !elem_of_app. tauto.
Qed.

(** ** Versions of components *)

Section Versions.
Context {G : Glob}.

Lemma subtree_get cwd (t : tree) r : obj_get (subtree cwd t) r = obj_get t (cwd ++ "/" ++ r).
Proof.
  unfold subtree. induction t as [|[k c] t IH]; [done|]. cbn [omap list_omap fst snd].
  destruct (strip_prefix (cwd ++ "/") k) as [r'|] eqn:E; cbn [obj_get].
  - apply strip_prefix_iff in E as ->. rewrite <- app_assoc. destruct (r' === r) eqn:Er.
    + apply str_eqb_eq in Er as ->. by rewrite str_eqb_refl.
    + replace (cwd ++ "/" ++ r' === cwd ++ "/" ++ r) with false; [done|]. symmetry. apply str_eqb_neq. intros Heq.
      apply app_inv_head, app_inv_head in Heq. by apply str_eqb_neq in Er.
  - replace (k === cwd ++ "/" ++ r) with false; [done|]. symmetry. apply str_eqb_neq. intros ->.
    by rewrite (app_assoc cwd), strip_prefix_app in E.
Qed.

Lemma src_in_elem cwd ps t f : f ∈ gulp_src_in cwd ps t ->
  exists g, g ∈ gulp_src ps (subtree cwd t) /\ f.(f_rel) = g.(f_path) /\ f.(f_body) = g.(f_body)
    /\ obj_get t (cwd ++ "/" ++ f.(f_rel)) = Some f.(f_body).
Proof.
  intros (g & -> & Hg)%list_elem_of_fmap. exists g. simpl. apply src_body in Hg as Hb. by rewrite subtree_get in Hb.
Qed.

Lemma two_and_negative a b c pre p post : [a; b; c] = pre ++ p :: post -> negative c = true -> negative p = false ->
  (p = a \/ p = b) /\ drop 1 c ∈ map (drop 1) (List.filter negative post).
Proof.
  intros E Hc Hp. destruct pre as [|x [|y [|z pre]]].
  - injection E as -> <-. split; [by left|]. simpl. destruct (negative b); simpl; rewrite Hc; simpl; set_solver.
  - injection E as _ -> <-. split; [by right|]. simpl. rewrite Hc. simpl. set_solver.
  - injection E as _ _ -> _. congruence.
  - destruct pre; discriminate E.
Qed.

(** Every file in the streams of a task has the extension, and is no component. *)
Lemma versions_elem e t f : plain e -> (slash ∉ e) ->
  f ∈ gulp_src_in TNS_APP_SRC ["**/*" ++ e; "app/**/*" ++ e; not_ ("app/**/*.component" ++ e)] t ->
  endsWith f.(f_rel) e = true /\ ~ (below "app" f.(f_rel) /\ endsWith f.(f_rel) (".component" ++ e) = true).
Proof.
  intros He Hs (g & Hg & -> & _)%src_in_elem. apply src_elem in Hg as (pre & p & post & E & Hp & Hf).
  apply matching_elem in Hf as (_ & Hg & Hn).
  assert (plain (".component" ++ e)) as Hpc by (apply plain_app; split; [decide_done|done]).
  assert (slash ∉ (".component" ++ e)) as Hsc by (rewrite elem_of_app; intros [Hc|]; [revert Hc; decide_done|done]).
  apply two_and_negative in E as [Hpat Hin]; [|reflexivity|done].
  assert (glob ("app" ++ "/**/*" ++ (".component" ++ e)) g.(f_path) = false) as Hneg.
  { apply (proj1 (list.Forall_forall _ _) Hn). exact Hin. }
  split.
  - destruct Hpat as [->| ->]; [by apply glob_anywhere in Hg as [_ ?]|].
    apply (glob_suffix "app") in Hg as [_ ?]; [done|decide_done|done|done].
  - intros Hc. apply (glob_suffix "app" (".component" ++ e)) in Hc; [congruence|decide_done|done|done].
Qed.
End Versions.

Lemma last_name_suffix p e : (slash ∉ e) -> last_name (p ++ e) = last_name p ++ e.
Proof.
  intros He. unfold last_name. rewrite rev_app_distr. apply not_in_rev in He as Hr.
  assert (forall a b, (slash ∉ a) -> take_until slash (a ++ b) = a ++ take_until slash b) as Htu.
  { clear. induction a as [|d a IH]; simpl; intros b Hn; [done|]. apply not_elem_of_cons in Hn as [Hd Hn].
    rewrite (proj2 (N.eqb_neq d slash)) by done. by rewrite IH. }
  by rewrite Htu, rev_app_distr, rev_involutive.
Qed.

(** Renaming by a function that keeps the extension keeps it. *)
Lemma renamed_ext g p e : (slash ∉ e) -> (dot ∉ e) -> last_name p <> [] ->
  renamed g (p ++ [dot] ++ e) = dir_part (p ++ [dot] ++ e) ++ (g (last_name p, [dot] ++ e)).1 ++ (g (last_name p, [dot] ++ e)).2.
Proof.
  intros Hs Hd Hb. unfold renamed. rewrite last_name_suffix.
  - rewrite base_of_app, ext_of_app by done. by destruct (g _).
  - rewrite elem_of_app. intros [Hc|Hc]; [revert Hc; decide_done|done].
Qed.

Lemma renamer_keeps_ext rel e : (slash ∉ e) -> (dot ∉ e) -> find_sub ([dot] ++ e) ".tns" = None ->
  endsWith rel ([dot] ++ e) = true -> endsWith (renamed renamer rel) ([dot] ++ e) = true.
Proof.
  intros Hs Hd Hf [p ->]%endsWith_iff. destruct (decide (last_name p = [])) as [Hn|Hn].
  - unfold renamed. rewrite last_name_suffix, Hn by (rewrite elem_of_app; intros [Hc|Hc]; [revert Hc; decide_done|done]).
    cbn [app].
    assert (ext_of (dot :: e) = []) as He.
    { unfold ext_of. change (dot :: e) with ([dot] ++ e). rewrite rev_app_distr. change (rev [dot]) with (dot :: []).
      rewrite take_until_app by (by apply not_in_rev). rewrite length_rev, length_app. simpl. by rewrite (proj2 (Nat.ltb_ge _ _)) by lia. }
    unfold base_of. rewrite He. cbn [length]. rewrite Nat.sub_0_r. change (S (length e)) with (length (dot :: e)). rewrite take_ge by lia.
    unfold renamer. cbn [fst snd]. unfold replace_first. change (dot :: e) with ([dot] ++ e). rewrite Hf, app_nil_r. apply endsWith_app.
  - rewrite renamed_ext by done. unfold renamer. cbn [fst snd]. rewrite app_assoc. apply endsWith_app.
Qed.

Section Build.
Context {G : Glob}.

(** A task of one extension writes no file of another. *)
Lemma copy_versions_other e t r : plain e -> (slash ∉ e) -> (dot ∉ e) -> find_sub ([dot] ++ e) ".tns" = None ->
  endsWith r ([dot] ++ e) = false ->
  obj_get (copy_versions ([dot] ++ e) t) (TNS_APP_DEST ++ "/" ++ r) = obj_get t (TNS_APP_DEST ++ "/" ++ r).
Proof.
  intros Hp Hs Hd Hf Hr. unfold copy_versions. destruct (dest_get TNS_APP_DEST (rename_files renamer
    (gulp_src_in TNS_APP_SRC ["**/*" ++ [dot] ++ e; "app/**/*" ++ [dot] ++ e; not_ ("app/**/*.component" ++ [dot] ++ e)] t)) t (TNS_APP_DEST ++ "/" ++ r))
    as [[E _]|(f & (g & -> & Hg)%list_elem_of_fmap & Heq & _)]; [exact E|]. simpl in Heq. do 2 apply app_inv_head in Heq.
  apply versions_elem in Hg as [Hends _].
  - exfalso. apply (renamer_keeps_ext _ e) in Hends; [|done..]. rewrite <- Heq in Hends. congruence.
  - apply plain_app. split; [decide_done|done].
  - rewrite elem_of_app. intros [Hc|Hc]; [revert Hc; decide_done|done].
Qed.

Lemma platform_files_other t r : endsWith r ".ios" = false -> endsWith r ".android" = false ->
  obj_get (handlePlatformSpecificFiles t) (TNS_APP_DEST ++ "/" ++ r) = obj_get t (TNS_APP_DEST ++ "/" ++ r).
Proof.
  intros Hi Ha. unfold handlePlatformSpecificFiles.
  set (ps := [js "**/*.ios.html"; js "**/*.ios.js"; js "**/*.android.html"; js "**/*.android.js"]).
  destruct (dest_get TNS_APP_DEST (rename_files swap_platform (gulp_src_in TNS_APP_DEST ps t)) t (TNS_APP_DEST ++ "/" ++ r))
    as [[E _]|(f & (g & -> & Hg)%list_elem_of_fmap & Heq & _)]; [exact E|]. simpl in Heq. do 2 apply app_inv_head in Heq.
  exfalso. apply src_in_elem in Hg as (h & Hh & Er & _). rewrite Er in Heq. clear Er g.
  apply src_elem in Hh as (pre & p & post & E & _ & (_ & Hg & _)%matching_elem).
  assert (exists pl e q, (pl = js ".ios" \/ pl = js ".android") /\ (e = js "html" \/ e = js "js") /\ h.(f_path) = q ++ pl ++ [dot] ++ e) as (pl & e & q & Hpl & He & Hq).
  { assert (p ∈ ps) as Hin by (rewrite E; set_solver). unfold ps in Hin. rewrite !elem_of_cons, elem_of_nil in Hin.
    destruct Hin as [->|[->|[->|[->|[]]]]].
    - apply (glob_anywhere ".ios.html") in Hg as [_ [q Hq]%endsWith_iff]; [|decide_done..]. exists ".ios", "html", q. auto.
    - apply (glob_anywhere ".ios.js") in Hg as [_ [q Hq]%endsWith_iff]; [|decide_done..]. exists ".ios", "js", q. auto.
    - apply (glob_anywhere ".android.html") in Hg as [_ [q Hq]%endsWith_iff]; [|decide_done..]. exists ".android", "html", q. auto.
    - apply (glob_anywhere ".android.js") in Hg as [_ [q Hq]%endsWith_iff]; [|decide_done..]. exists ".android", "js", q. auto. }
  rewrite Hq in Heq. rewrite (app_assoc q pl) in Heq.
  assert (slash ∉ pl) as Hspl by (destruct Hpl as [->| ->]; decide_done).
  rewrite renamed_ext in Heq.
  - rewrite last_name_suffix in Heq by done. unfold swap_platform in Heq. cbn [fst snd] in Heq.
    assert (platform_match (last_name q ++ pl) <> None) as Hm.
    { unfold platform_match. intros Hm. assert (find_sub (last_name q ++ pl) pl = None) as Hn.
      { destruct (find_sub (last_name q ++ pl) ".ios") eqn:E1, (find_sub (last_name q ++ pl) ".android") eqn:E2; try discriminate Hm.
        - by destruct (Nat.ltb _ _).
        - by destruct Hpl as [->| ->]. }
      apply (proj1 (find_sub_None _ _) Hn (last_name q) []). by rewrite app_nil_r. }
    destruct (platform_match (last_name q ++ pl)) as [[i pl']|] eqn:Em; [|done]. cbn [fst snd] in Heq.
    assert (pl' = js ".ios" \/ pl' = js ".android") as Hpl'.
    { unfold platform_match in Em. destruct (find_sub _ ".ios"), (find_sub _ ".android"); [destruct (Nat.ltb _ _)| | |]; simplify_eq; auto. }
    rewrite app_assoc in Heq. destruct Hpl' as [->| ->]; rewrite Heq, endsWith_app in *; done.
  - destruct He as [->| ->]; decide_done.
  - destruct He as [->| ->]; decide_done.
  - rewrite last_name_suffix by done. destruct Hpl as [->| ->]; by destruct (last_name q).
Qed.
End Build.

Definition style_exts : list jsstr := [js "html"; js "css"; js "scss"].

Lemma ext_facts e : e ∈ style_exts -> plain e /\ (slash ∉ e) /\ (dot ∉ e) /\ find_sub ([dot] ++ e) ".tns" = None.
Proof.
  unfold style_exts. rewrite !elem_of_cons, elem_of_nil. intros [->|[->|[->|[]]]];
    (split; [decide_done|split; [decide_done|split; [decide_done|reflexivity]]]).
Qed.

Lemma other_ext p e e' : e' ∈ style_exts -> e ∈ style_exts -> e' <> e -> endsWith (p ++ ".component" ++ [dot] ++ e) ([dot] ++ e') = false.
Proof.
  unfold style_exts. rewrite !elem_of_cons, !elem_of_nil. intros [->|[->|[->|[]]]] [->|[->|[->|[]]]] Hne; try done;
    (rewrite endsWith_longer by (vm_compute; lia)); reflexivity.
Qed.

Lemma not_platform p e : e ∈ style_exts ->
  endsWith (p ++ ".component" ++ [dot] ++ e) ".ios" = false /\ endsWith (p ++ ".component" ++ [dot] ++ e) ".android" = false.
Proof.
  unfold style_exts. rewrite !elem_of_cons, elem_of_nil. intros [->|[->|[->|[]]]]; split; (rewrite endsWith_longer by (vm_compute; lia)); reflexivity.
Qed.

Section Components.
Context {G : Glob} (d x e : jsstr).

(** The mobile version of a component's file, and the name it is to have. *)
Definition tns_file : jsstr := d ++ "/" ++ (x ++ ".component.tns") ++ [dot] ++ e.
Definition component_file : jsstr := d ++ "/" ++ x ++ ".component" ++ [dot] ++ e.

Hypothesis e_known : e ∈ style_exts.
Hypothesis x_plain : (slash ∉ x) /\ (dot ∉ x).
Hypothesis tns_visible : visible tns_file.
Hypothesis in_app : below "app" component_file.

Lemma tns_file_eq : tns_file = (d ++ "/" ++ x) ++ (".component.tns" ++ [dot] ++ e).
Proof. unfold tns_file. by rewrite <- !app_assoc. Qed.
Lemma component_file_eq : component_file = (d ++ "/" ++ x) ++ (".component" ++ [dot] ++ e).
Proof. unfold component_file. by rewrite <- !app_assoc. Qed.

Lemma copy_component t c : obj_get t (TNS_APP_SRC ++ "/" ++ tns_file) = Some c ->
  (forall r, hasOwnProperty t (TNS_APP_SRC ++ "/" ++ r) = true -> renamed renamer r = component_file -> r = tns_file \/ r = component_file) ->
  obj_get (copy_versions ([dot] ++ e) t) (TNS_APP_DEST ++ "/" ++ component_file) = Some c.
Proof.
  intros Hc Hu. destruct (ext_facts e e_known) as (Hp & Hs & Hd & Hf).
  assert (plain ([dot] ++ e)) as Hpe by (apply plain_app; split; [decide_done|done]).
  assert (slash ∉ ([dot] ++ e)) as Hse by (rewrite elem_of_app; intros [Hx|Hx]; [revert Hx; decide_done|done]).
  assert (plain (".component" ++ [dot] ++ e)) as Hpc by (apply plain_app; split; [decide_done|done]).
  assert (slash ∉ (".component" ++ [dot] ++ e)) as Hsc by (rewrite elem_of_app; intros [Hx|Hx]; [revert Hx; decide_done|done]).
  set (ps := ["**/*" ++ [dot] ++ e; "app/**/*" ++ [dot] ++ e; not_ ("app/**/*.component" ++ [dot] ++ e)]).
  destruct (src_path [] ("**/*" ++ [dot] ++ e) (tail ps) (subtree TNS_APP_SRC t) tns_file c) as (g & Hg & Ep & Eb); [reflexivity|by rewrite subtree_get| | |].
  { apply glob_anywhere; [done..|]. split; [done|]. rewrite tns_file_eq, !app_assoc. rewrite <- (app_assoc _ [dot]). apply endsWith_app. }
  { change (map _ _) with ["app" ++ "/**/*" ++ (".component" ++ [dot] ++ e)]. forall_list. apply not_true_iff_false.
    intros [_ He]%glob_suffix; [|decide_done|done|done].
    rewrite tns_file_eq, endsWith_longer in He by (rewrite !length_app; change (length (js ".component")) with 10; change (length (js ".component.tns")) with 14; lia).
    revert He e_known. clear. intros He. unfold style_exts.
    rewrite !elem_of_cons, elem_of_nil. intros [->|[->|[->|[]]]]; discriminate He. }
  assert (renamed renamer tns_file = component_file) as Hren by (destruct x_plain; by apply renamed_component).
  set (f := {| f_path := TNS_APP_SRC ++ "/" ++ g.(f_path); f_rel := component_file; f_body := c |}).
  assert (f ∈ rename_files renamer (gulp_src_in TNS_APP_SRC ps t)) as Hin.
  { apply list_elem_of_fmap. exists {| f_path := TNS_APP_SRC ++ "/" ++ g.(f_path); f_rel := g.(f_path); f_body := g.(f_body) |}.
    split; [|apply list_elem_of_fmap; by exists g]. unfold f. cbn [f_path f_rel f_body]. by rewrite Eb, Ep, Hren. }
  apply (dest_in TNS_APP_DEST _ t f Hin).
  intros h (g' & -> & Hg')%list_elem_of_fmap. cbn [f_rel f_body]. intros Hr.
  apply versions_elem in Hg' as Hv; [|done..]. destruct Hv as [_ Hv].
  apply src_in_elem in Hg' as (_ & _ & _ & _ & Hget).
  destruct (Hu g'.(f_rel)) as [E|E]; [unfold hasOwnProperty; by rewrite Hget|done| |].
  - rewrite E, Hc in Hget. by injection Hget as <-.
  - exfalso. apply Hv. rewrite E. split; [done|]. rewrite component_file_eq. apply endsWith_app.
Qed.

(** C39: the mobile build takes the mobile version of every component: after
    build.tns_html_css the template or style sheet of a component of the
    application is that of its .tns file, whether or not the version for the
    browser is there as well, as long as no third file is renamed to it. *)
Theorem mobile_versions (t : tree) (c : content) :
  obj_get t (TNS_APP_SRC ++ "/" ++ tns_file) = Some c ->
  (forall r, hasOwnProperty t (TNS_APP_SRC ++ "/" ++ r) = true -> renamed renamer r = component_file -> r = tns_file \/ r = component_file) ->
  obj_get (build_tns_html_css t) (TNS_APP_DEST ++ "/" ++ component_file) = Some c.
Proof.
  intros Hc Hu.
  assert (forall e' u, obj_get (copy_versions e' u) (TNS_APP_SRC ++ "/" ++ tns_file) = obj_get u (TNS_APP_SRC ++ "/" ++ tns_file)
    /\ forall r, obj_get (copy_versions e' u) (TNS_APP_SRC ++ "/" ++ r) = obj_get u (TNS_APP_SRC ++ "/" ++ r)) as Hsrc.
  { intros e' u. split; intros; by apply dest_other. }
  assert (forall e' u, e' ∈ style_exts -> e' <> e ->
    obj_get (copy_versions ([dot] ++ e') u) (TNS_APP_DEST ++ "/" ++ component_file) = obj_get u (TNS_APP_DEST ++ "/" ++ component_file)) as Hother.
  { intros e' u He' Hne. destruct (ext_facts e' He') as (? & ? & ? & ?). apply copy_versions_other; [done..|].
    rewrite component_file_eq. by apply other_ext. }
  assert (forall u, obj_get u (TNS_APP_SRC ++ "/" ++ tns_file) = Some c ->
    (forall r, obj_get u (TNS_APP_SRC ++ "/" ++ r) = obj_get t (TNS_APP_SRC ++ "/" ++ r)) ->
    obj_get (copy_versions ([dot] ++ e) u) (TNS_APP_DEST ++ "/" ++ component_file) = Some c) as Hone.
  { intros u Hu1 Hu2. apply copy_component; [done|]. intros r Hr. apply Hu. unfold hasOwnProperty in *. by rewrite <- Hu2. }
  unfold build_tns_html_css. destruct (not_platform (d ++ "/" ++ x) e e_known).
  rewrite platform_files_other by (by rewrite component_file_eq).
  unfold tns_prepareTemplates, tns_processComponentCss, tns_processComponentScss.
  change (js ".html") with ([dot] ++ js "html"). change (js ".css") with ([dot] ++ js "css"). change (js ".scss") with ([dot] ++ js "scss").
  pose proof e_known as He. unfold style_exts in He. rewrite !elem_of_cons, elem_of_nil in He. destruct He as [He|[He|[He|[]]]].
  - rewrite <- He. apply Hone.
    + rewrite (proj1 (Hsrc _ _)), (proj1 (Hsrc _ _)). done.
    + intros r. by rewrite (proj2 (Hsrc _ _)), (proj2 (Hsrc _ _)).
  - rewrite Hother by (try decide_done; rewrite He; discriminate). rewrite <- He. apply Hone.
    + by rewrite (proj1 (Hsrc _ _)).
    + intros r. by rewrite (proj2 (Hsrc _ _)).
  - rewrite !Hother by (try decide_done; rewrite He; discriminate). rewrite <- He. by apply Hone.
Qed.
End Components.

(** ** Around the build *)

(** The tasks write into the mobile application only. *)
Lemma mobile_keeps {G : Glob} argv newer template t k : startsWith k "nativescript/app" = false ->
  obj_get (build_tns argv newer template t) k = obj_get t k.
Proof.
  intros Hk. assert (forall d fs u, startsWith d "nativescript/app" = true -> obj_get (gulp_dest d fs u) k = obj_get u k) as Hd.
  { intros d fs u [r ->]%startsWith_iff. apply dest_other. rewrite <- app_assoc. by apply starts_longer. }
  unfold build_tns, build_js_tns, build_tns_html_css, handlePlatformSpecificFiles, tns_prepareTemplates, tns_processComponentCss,
    tns_processComponentScss, copy_versions, build_assets_tns, copyAppFonts, copyAppResources, copyAssets, copyFiles.
  rewrite !Hd by reflexivity. rewrite obj_get_set_ne; [by rewrite !Hd by reflexivity|]. intros <-. discriminate Hk.
Qed.

Definition sample_mobile : tree :=
  map (fun p => (p, Source p))
    [js "nativescript/src/app/bar/navbar.component.html"; js "nativescript/src/app/bar/navbar.component.tns.html";
     js "nativescript/src/app/dialog.ios.ts"; js "nativescript/src/pages/home.ios.html"; js "nativescript/src/package.json"].

Example sample_mobile_built :
  obj_keys (build_tns (G:=glob_ref) no_arguments (fun _ _ => true) (Source "template") sample_mobile) =
  obj_keys sample_mobile ++
  [js "nativescript/app/package.json"; js "nativescript/app/app/bar/navbar.component.html"; js "nativescript/app/pages/home.ios.html";
   js "nativescript/app/pages/home.html.ios"; js "nativescript/app/build-config.json"; js "nativescript/app/app/dialog.ios.js";
   js "nativescript/app/app/dialog.ios.ts"].
Proof. vm_compute. reflexivity. Qed.

(** The scripts of a platform are looked for before they are compiled: the
    first build of a clean directory has no copy of them under the name that
    the bundler looks for, the second one has. *)
Lemma platform_scripts_missed :
  let build := build_tns (G:=glob_ref) no_arguments (fun _ _ => true) (Source "template") in
  obj_get (build sample_mobile) "nativescript/app/app/dialog.js.ios" = None
  /\ hasOwnProperty (build (build sample_mobile)) "nativescript/app/app/dialog.js.ios" = true.
Proof. vm_compute. split; reflexivity. Qed.

Lemma mobile_versions_witness :
  obj_get (build_tns_html_css (G:=glob_ref) sample_mobile) "nativescript/app/app/bar/navbar.component.html"
    = Some (Source (js "nativescript/src/app/bar/navbar.component.tns.html")).
Proof.
  apply (mobile_versions (G:=glob_ref) "app/bar" "navbar" "html").
  - decide_done.
  - split; decide_done.
  - decide_done.
  - exists (js "bar/navbar.component.html"). split; [decide_done|reflexivity].
  - reflexivity.
  - intros r Hr Hren. unfold hasOwnProperty in Hr. rewrite <- subtree_get in Hr.
    assert (r ∈ obj_keys (subtree TNS_APP_SRC sample_mobile)) as Hin.
    { destruct (decide (r ∈ obj_keys (subtree TNS_APP_SRC sample_mobile))) as [|Hn]; [done|]. apply obj_get_None in Hn. by rewrite Hn in Hr. }
    clear Hr. change (obj_keys (subtree TNS_APP_SRC sample_mobile)) with
      [js "app/bar/navbar.component.html"; js "app/bar/navbar.component.tns.html"; js "app/dialog.ios.ts"; js "pages/home.ios.html"; js "package.json"] in Hin.
    rewrite !elem_of_cons, elem_of_nil in Hin. destruct Hin as [->|[->|[->|[->|[->|[]]]]]];
      [by right|by left|discriminate Hren..].
Defined.
