(* ===== verification/Mobile.v ===== *)
(** * The mobile shell

    nativescript/src/mobile/core: the service that follows the life of the
    application (ns-app.service.ts) and the bar of the pages
    (actionbar.util.ts); nativescript/tools/webpack/tns-loader.js and the parts
    of nativescript/webpack.config.js that compute.  The application object of
    the platform is the list of the handlers registered with it. *)

From S2P Require Import Prelude JsString JsNumber Json Shell.

(** ** actionbar.util.ts *)

Inductive os := IOS | Android.

Inductive bar_style := StyleNumber (z : Z) | StyleColor (s : jsstr).

Definition truthy_style (s : bar_style) : bool :=
  match s with StyleNumber z => negb (z =? 0)%Z | StyleColor s => truthy s end.

(** The current page as the utility sees it; a frame tells whether it is one of
    iOS. *)
Record Frame := {
  frame_ios : bool; title : jsstr; actionItems : list jsstr; hidesBackButton : bool; barStyle : option bar_style; statusBarColor : option bar_style }.

Definition SET_TITLE (f : Frame) (t : jsstr) : Frame :=
  {| frame_ios := f.(frame_ios); title := t; actionItems := f.(actionItems); hidesBackButton := f.(hidesBackButton);
     barStyle := f.(barStyle); statusBarColor := f.(statusBarColor) |}.
Definition ADD_BUTTON (f : Frame) (b : jsstr) : Frame :=
  {| frame_ios := f.(frame_ios); title := f.(title); actionItems := f.(actionItems) ++ [b]; hidesBackButton := f.(hidesBackButton);
     barStyle := f.(barStyle); statusBarColor := f.(statusBarColor) |}.
Definition HIDE_BACK_BUTTON (f : Frame) : Frame :=
  if f.(frame_ios)
  then {| frame_ios := f.(frame_ios); title := f.(title); actionItems := f.(actionItems); hidesBackButton := true;
          barStyle := f.(barStyle); statusBarColor := f.(statusBarColor) |}
  else f.

(** Texts are compared by their units. *)
Fixpoint text_leb (s t : jsstr) : bool :=
  match s, t with
  | [], _ => true
  | _ :: _, [] => false
  | c :: s', d :: t' => if (c <? d)%N then true else if (d <? c)%N then false else text_leb s' t'
  end.

(** The device: whether the application object of Android is there and the
    window of its activity can be had; otherwise the failure is only logged. *)
Record device := { platform : os; sdkVersion : jsstr; app_android : bool; has_window : bool }.

Definition STATUSBAR_STYLE (dev : device) (f : Frame) (style : bar_style) : Frame :=
  let with_styles bar color :=
    {| frame_ios := f.(frame_ios); title := f.(title); actionItems := f.(actionItems); hidesBackButton := f.(hidesBackButton);
       barStyle := bar; statusBarColor := color |} in
  if f.(frame_ios) then with_styles (Some style) f.(statusBarColor)
  else match dev.(platform) with
       | Android =>
           if dev.(app_android) && text_leb "21" dev.(sdkVersion) && dev.(has_window)
           then with_styles f.(barStyle) (Some (if truthy_style style then style else StyleColor "#3280CF"))
           else f
       | IOS => f
       end.

(** ** ns-app.service.ts *)

Inductive ns_event := launchEvent | suspendEvent | resumeEvent | lowMemoryEvent | exitEvent | uncaughtErrorEvent
  | activityBackPressedEvent | activityResumedEvent.
#[global] Instance ns_event_eq : EqDecision ns_event.
Proof. solve_decision. Defined.

(** What an event carries: an error per platform, the states of the router,
    the data of an intent to view something. *)
Record ns_data := { err_android : list (jsstr * jsval); err_ios : list (jsstr * jsval); back_text : jsstr; view_intent : option jsstr }.

Inductive ns_out := NDebug (s : jsstr) | NInfo (s : jsstr) | NWarn (s : jsstr) | NConsole (s : jsstr) | NDispatch (a : i18n_action).

(** The handlers of the service. *)
Inductive ns_handler := OnLaunch | OnSuspend | OnResume | OnLowMemory | OnExit | OnBack | OnActivity | OnError (p : os).

Record ns_application := { on_app : list (ns_event * ns_handler); on_android : list (ns_event * ns_handler) }.

Definition ns_on (e : ns_event) (h : ns_handler) (a : ns_application) : ns_application :=
  {| on_app := a.(on_app) ++ [(e, h)]; on_android := a.(on_android) |}.
Definition ns_android_on (e : ns_event) (h : ns_handler) (a : ns_application) : ns_application :=
  {| on_app := a.(on_app); on_android := a.(on_android) ++ [(e, h)] |}.
Definition ns_off (e : ns_event) (a : ns_application) : ns_application :=
  {| on_app := List.filter (fun eh => negb (bool_decide (eh.1 = e))) a.(on_app); on_android := a.(on_android) |}.

Definition unsubscribeAll (a : ns_application) : ns_application :=
  ns_off uncaughtErrorEvent (ns_off exitEvent (ns_off lowMemoryEvent (ns_off resumeEvent (ns_off suspendEvent (ns_off launchEvent a))))).

Definition setupAndroid (p : os) (a : ns_application) : ns_application :=
  match p with
  | Android => ns_on uncaughtErrorEvent (OnError Android) (ns_android_on activityResumedEvent OnActivity (ns_android_on activityBackPressedEvent OnBack a))
  | IOS => a
  end.
Definition setupIOS (p : os) (a : ns_application) : ns_application :=
  match p with IOS => ns_on uncaughtErrorEvent (OnError IOS) a | Android => a end.

(** The constructor; [ENV] is the environment that app.service.ts writes. *)
Definition new_NSAppService (dev : device) (ENV navigator_language : jsstr) (f : Frame) (a : ns_application)
    : ns_application * Frame * list ns_out :=
  let a := ns_on lowMemoryEvent OnLowMemory (ns_on resumeEvent OnResume (ns_on suspendEvent OnSuspend (ns_on launchEvent OnLaunch a))) in
  let a := ns_on exitEvent OnExit a in
  (setupIOS dev.(platform) (setupAndroid dev.(platform) a),
   STATUSBAR_STYLE dev f (match dev.(platform) with IOS => StyleNumber 1 | Android => StyleColor "#3280CF" end),
   [NDebug ("AppService -> Config env: " ++ ENV); NDebug "NSAppService constructor"; NDispatch (ChangeAction (substr navigator_language 0 2))]).

Section Handlers.
Context `{NumText}.

Definition handleUncaughtError (err : list (jsstr * jsval)) (p : os) : list ns_out :=
  let field k := obj_get err k in
  let description : list (jsstr * option jsval) :=
    [ (js "message", field (js "message"));
      (js "android", Some (JBool (match p with Android => true | IOS => false end)));
      (js "ios", Some (JBool (match p with IOS => true | Android => false end)));
      (js "stackTrace", field (js "stackTrace")); (js "nativeException", field (js "nativeException")) ] in
  NInfo ("TNS Application - Uncaught Error: " ++ opt_text (field (js "message")))
  :: map (fun kv => NConsole ("**** START - errorDescription." ++ kv.1 ++ " - ****" ++ [10%N; 10%N; 10%N] ++ opt_text kv.2
                              ++ [10%N; 10%N; 10%N] ++ "*** END - " ++ kv.1 ++ " - ****"))
       (List.filter (fun kv => truthy_val kv.2) description).

Definition handle (h : ns_handler) (d : ns_data) (a : ns_application) : ns_application * list ns_out :=
  match h with
  | OnLaunch => (a, [NInfo "TNS Application - Launched!"])
  | OnSuspend => (a, [NInfo "TNS Application - Suspended"])
  | OnResume => (a, [NInfo "TNS Application - Resumed"])
  | OnLowMemory => (a, [NWarn "TNS Application - !!! LOW MEMORY !!!"])
  | OnExit => (unsubscribeAll a, [NInfo "TNS Application - EXIT"])
  | OnBack => (a, [NInfo d.(back_text)])
  | OnActivity => (a, match d.(view_intent) with Some s => [NConsole ("Android received VIEW intent, with data: " ++ s)] | None => [] end)
  | OnError Android => (a, handleUncaughtError d.(err_android) Android)
  | OnError IOS => (a, handleUncaughtError d.(err_ios) IOS)
  end.

(** An event runs the handlers registered for it when it happens. *)
Definition handlers_of (e : ns_event) (a : ns_application) : list ns_handler :=
  map snd (List.filter (fun eh => bool_decide (eh.1 = e)) (a.(on_app) ++ a.(on_android))).
Definition fire (e : ns_event) (d : ns_data) (a : ns_application) : ns_application * list ns_out :=
  fold_left (fun '(a, out) h => let '(a', o) := handle h d a in (a', out ++ o)) (handlers_of e a) (a, []).

Fixpoint fire_all (es : list (ns_event * ns_data)) (a : ns_application) : ns_application * list ns_out :=
  match es with
  | [] => (a, [])
  | (e, d) :: rest => let '(a1, o1) := fire e d a in let '(a2, o2) := fire_all rest a1 in (a2, o1 ++ o2)
  end.

(** ** Properties *)

Definition no_handlers : ns_application := {| on_app := []; on_android := [] |}.

(** The handler of an event, and what it writes. *)
Definition handler_for (p : os) (e : ns_event) : option ns_handler :=
  match e, p with
  | launchEvent, _ => Some OnLaunch
  | suspendEvent, _ => Some OnSuspend
  | resumeEvent, _ => Some OnResume
  | lowMemoryEvent, _ => Some OnLowMemory
  | exitEvent, _ => Some OnExit
  | uncaughtErrorEvent, _ => Some (OnError p)
  | activityBackPressedEvent, Android => Some OnBack
  | activityResumedEvent, Android => Some OnActivity
  | _, IOS => None
  end.
Definition line_of (p : os) (e : ns_event) (d : ns_data) : list ns_out :=
  match handler_for p e with Some h => snd (handle h d no_handlers) | None => [] end.

Definition of_activity (e : ns_event) : bool :=
  match e with activityBackPressedEvent | activityResumedEvent => true | _ => false end.

(** The lines written over a run: every event up to the first exit has its own,
    later ones only those of the activity. *)
Fixpoint expected (p : os) (es : list (ns_event * ns_data)) (exited : bool) : list ns_out :=
  match es with
  | [] => []
  | (e, d) :: rest =>
      (if exited && negb (of_activity e) then [] else line_of p e d)
      ++ expected p rest (exited || bool_decide (e = exitEvent))
  end.

Definition started (dev : device) (ENV lang : jsstr) (f : Frame) : ns_application := fst (fst (new_NSAppService dev ENV lang f no_handlers)).
Definition stopped (dev : device) (ENV lang : jsstr) (f : Frame) : ns_application := unsubscribeAll (started dev ENV lang f).

Lemma fire_started dev ENV lang f e d :
  fire e d (started dev ENV lang f)
  = ((if bool_decide (e = exitEvent) then stopped dev ENV lang f else started dev ENV lang f), line_of dev.(platform) e d).
Proof. destruct dev as [p ? ? ?]. destruct p, e; reflexivity. Qed.

Lemma fire_stopped dev ENV lang f e d :
  fire e d (stopped dev ENV lang f) = (stopped dev ENV lang f, if of_activity e then line_of dev.(platform) e d else []).
Proof. destruct dev as [p ? ? ?]. destruct p, e; reflexivity. Qed.

(** A second service writes every line again: the call that would remove the
    handlers of the first is commented out. *)
Lemma twice_started dev ENV lang lang' f f' d :
  snd (fire suspendEvent d (fst (fst (new_NSAppService dev ENV lang' f' (started dev ENV lang f)))))
  = [NInfo "TNS Application - Suspended"; NInfo "TNS Application - Suspended"].
Proof. destruct dev as [p ? ? ?]. by destruct p. Qed.

(** The bar of the pages is coloured on a device whose version is not before 21. *)
Lemma bar_coloured dev ENV lang f a : dev.(platform) = Android -> f.(frame_ios) = false -> dev.(app_android) = true -> dev.(has_window) = true ->
  text_leb "21" dev.(sdkVersion) = true -> (snd (fst (new_NSAppService dev ENV lang f a))).(statusBarColor) = Some (StyleColor "#3280CF").
Proof.
  intros H1 H2 H3 H4 H5. unfold new_NSAppService, STATUSBAR_STYLE. cbn [fst snd]. by rewrite H1, H2, H3, H4, H5.
Qed.

(** The language of the shell is that of the browser application when its code
    has two letters. *)
Lemma shell_language (c1 c2 : N) (rest : jsstr) : c1 <> 45%N -> c2 <> 45%N ->
  substr (c1 :: c2 :: 45%N :: rest) 0 2 = default [] (head (JsString.split 45 (c1 :: c2 :: 45%N :: rest))).
Proof.
  intros H1 H2. change (c1 :: c2 :: 45%N :: rest) with ([c1; c2] ++ 45%N :: rest). rewrite split_app_sep by set_solver. reflexivity.
Qed.

(** The service follows the life of the mobile application: over any
    sequence of events each one is written once, with its own text, until the
    application exits; from then on nothing of the application is heard of any
    more, on Android only its activity. *)
Theorem mobile_life_logged (dev : device) (ENV lang : jsstr) (f : Frame) (es : list (ns_event * ns_data)) :
  snd (fire_all es (started dev ENV lang f)) = expected dev.(platform) es false.
Proof.
  set (on := started dev ENV lang f). set (off := stopped dev ENV lang f).
  assert (forall es, fire_all es off = (off, expected dev.(platform) es true)) as Hstop.
  { clear es. induction es as [|[e d] es IH]; [done|]. cbn [fire_all expected]. unfold off at 1. rewrite fire_stopped. fold off. rewrite IH.
    f_equal. f_equal. by destruct (of_activity e). }
  induction es as [|[e d] es IH]; [done|]. cbn [fire_all expected]. unfold on at 1. rewrite fire_started. fold on off. cbn [andb orb].
  destruct (bool_decide (e = exitEvent)).
  - by rewrite Hstop.
  - destruct (fire_all es on) as [a2 o2]. cbn in *. by rewrite IH.
Qed.
End Handlers.

(** ** tns-loader.js *)

(** The first match of a pattern, replaced. *)
Fixpoint sub_first (m : jsstr -> option (jsstr * nat)) (s : jsstr) : jsstr :=
  match m s with
  | Some (r, k) => r ++ drop k s
  | None => match s with [] => [] | c :: s' => c :: sub_first m s' end
  end.
Fixpoint matches (m : jsstr -> option (jsstr * nat)) (s : jsstr) : bool :=
  match m s with
  | Some _ => true
  | None => match s with [] => false | _ :: s' => matches m s' end
  end.

Definition either (m1 m2 : jsstr -> option (jsstr * nat)) (s : jsstr) : option (jsstr * nat) :=
  match m1 s with Some r => Some r | None => m2 s end.

Definition htmlCssRegexp : jsstr -> option (jsstr * nat) :=
  either (match_lit ".component.html" ".component.tns.html") (match_lit ".component.css" ".component.tns.css").
Definition componentRegexp : jsstr -> option (jsstr * nat) := either (match_lit ".component.ts" []) (match_lit ".component.js" []).

(** What is between a quote and the next one that closes it, lazily: a
    backslash before a quote hides it, unless another backslash precedes. *)
Fixpoint quoted_length (q : N) (s : jsstr) : option nat :=
  match s with
  | [] => None
  | c :: s1 =>
      if (c =? q)%N then Some 0
      else
        let any := if is_line_end c then None else S <$> quoted_length q s1 in
        match s1 with
        | d :: e :: s3 =>
            if negb (c =? 92)%N && (d =? 92)%N && (e =? q)%N
            then match quoted_length q s3 with Some n => Some (n + 3) | None => any end
            else any
        | _ => any
        end
  end.

Section Loader.
(** The files there are, and lodash's template with the data of the query. *)
Context (existsSync : jsstr -> bool) (readFileSync : jsstr -> jsstr) (template : jsstr -> jsstr).

Definition required (url : jsstr) : jsstr :=
  let url := match url with 46%N :: _ => url | _ => "./" ++ url end in
  let tnsPath := sub_first htmlCssRegexp url in
  "require('" ++ (if existsSync tnsPath then tnsPath else url) ++ "')".

Definition ng2StringReplace (s : jsstr) : option (jsstr * nat) :=
  match s with
  | q :: s' => if ((q =? 39) || (q =? 34))%N
               then match quoted_length q s' with Some n => Some (required (take n s'), n + 2) | None => None end
               else None
  | [] => None
  end.
Definition replaceStringsWithRequires (s : jsstr) : jsstr := gsub ng2StringReplace 0 s.

(** A key, blanks and a colon: what follows, and the length so far. *)
Definition after_key (key s : jsstr) : option (jsstr * nat) :=
  match strip_prefix key s with
  | Some s1 => let '(blanks, s2) := span (fun c => (c =? 32)%N) s1 in
               match s2 with
               | 58%N :: s3 => Some (s3, length key + length blanks + 1)
               | _ => None
               end
  | None => None
  end.

Definition ng2TemplateUrl (s : jsstr) : option (jsstr * nat) :=
  match after_key "templateUrl" s with
  | Some (s1, n) => let url := fst (span (fun c => negb (is_line_end c)) s1) in
                    Some ("template:" ++ replaceStringsWithRequires url, n + length url)
  | None => None
  end.

Definition ng2StyleUrls (s : jsstr) : option (jsstr * nat) :=
  match after_key "styleUrls" s with
  | Some (s1, n) =>
      let '(blanks, s2) := span is_space s1 in
      match s2 with
      | 91%N :: s3 => let '(body, s4) := span (fun c => negb (c =? 93)%N) s3 in
                      match s4 with
                      | 93%N :: _ => let urls := blanks ++ [91%N] ++ body ++ [93%N] in
                                     Some ("styles:" ++ replaceStringsWithRequires urls, n + length urls)
                      | _ => None
                      end
      | _ => None
      end
  | None => None
  end.

Definition ng2ModuleId (s : jsstr) : option (jsstr * nat) :=
  match after_key "moduleId" s with
  | Some (s1, n) =>
      let '(blanks, s2) := span (fun c => (c =? 32)%N) s1 in
      match strip_prefix "module.id," s2 with
      | Some s3 => let l := n + length blanks + 10 in
                   if match s3 with [] => true | c :: _ => is_line_end c end
                   then Some ("/* " ++ take l s ++ " */", l) else None
      | None => None
      end
  | None => None
  end.

Definition tnsLoader (resourcePath source : jsstr) : jsstr :=
  let source :=
    if matches htmlCssRegexp resourcePath then
      let tnsPath := sub_first htmlCssRegexp resourcePath in
      if existsSync tnsPath then "module.exports = " ++ quote (readFileSync tnsPath) else source
    else if matches componentRegexp resourcePath then
      gsub ng2ModuleId 0 (gsub ng2StyleUrls 0 (gsub ng2TemplateUrl 0 source))
    else source in
  template source.
End Loader.

(** ** webpack.config.js *)

(** Without a platform the result is a function that would throw. *)
Inductive platform_val := PlatformName (s : jsstr) | PlatformThrower.
Definition getPlatform (android ios : bool) : platform_val :=
  if android then PlatformName "android" else if ios then PlatformName "ios" else PlatformThrower.

Definition getExtensions (platform : jsstr) : list jsstr :=
  [ "." ++ platform ++ ".ts"; "." ++ platform ++ ".js"; js ".aot.ts"; js ".ts"; js ".js"; js ".css"; "." ++ platform ++ ".css" ].

(** *** What the loader makes of a component *)

Definition is_quote (c : N) : bool := ((c =? 39) || (c =? 34))%N.

(** Text around a quoted name. *)
Record piece := { gap : jsstr; mark : N; file : jsstr }.
Definition good_piece (p : piece) : Prop :=
  Forall (fun c => is_quote c = false) p.(gap) /\ is_quote p.(mark) = true
  /\ Forall (fun c => c <> p.(mark) /\ c <> 92%N /\ is_line_end c = false) p.(file).
Definition piece_text (p : piece) : jsstr := p.(gap) ++ [p.(mark)] ++ p.(file) ++ [p.(mark)].
Definition pieces_text (l : list piece) (post : jsstr) : jsstr := concat (map piece_text l) ++ post.

Lemma quoted_length_spec q url r : is_quote q = true -> Forall (fun c => c <> q /\ c <> 92%N /\ is_line_end c = false) url ->
  quoted_length q (url ++ q :: r) = Some (length url).
Proof.
  intros Hq. induction url as [|c url IH]; intros Hu; [cbn; by rewrite N.eqb_refl|].
  apply list.Forall_cons in Hu as [(Hc & Hb & Hl) Hu]. cbn [app quoted_length length].
  rewrite (proj2 (N.eqb_neq c q)), Hl by done. rewrite IH by done. cbn [fmap option_fmap option_map].
  destruct url as [|d url]; cbn [app].
  - destruct r as [|e r]; [done|]. replace (q =? 92)%N with false; [by rewrite andb_false_r|].
    symmetry. apply N.eqb_neq. intros ->. discriminate Hq.
  - apply list.Forall_cons in Hu as [(_ & Hd & _) _]. destruct (url ++ q :: r) as [|e s]; [done|].
    by rewrite (proj2 (N.eqb_neq d 92)), andb_false_r by done.
Qed.

(** A weaker property of all elements. *)
Ltac weaken H := eapply list.Forall_impl; [exact H|]; cbv beta; intros; tauto.

Section LoaderFacts.
Context (existsSync : jsstr -> bool).

Definition pieces_out (l : list piece) (post : jsstr) : jsstr :=
  concat (map (fun p => p.(gap) ++ required existsSync p.(file)) l) ++ post.

Lemma no_quotes_kept a t : Forall (fun c => is_quote c = false) a ->
  gsub (ng2StringReplace existsSync) 0 (a ++ t) = a ++ gsub (ng2StringReplace existsSync) 0 t.
Proof.
  intros Ha. apply gsub_nomatch_app. intros a1 c a2 ->. apply list.Forall_app in Ha as [_ [Hc _]%list.Forall_cons].
  unfold ng2StringReplace, is_quote in *. by rewrite Hc.
Qed.

(** Every quoted name becomes a require of the file to take. *)
Lemma strings_required l post : Forall good_piece l -> Forall (fun c => is_quote c = false) post ->
  replaceStringsWithRequires existsSync (pieces_text l post) = pieces_out l post.
Proof.
  intros Hl Hp. unfold replaceStringsWithRequires, pieces_text, pieces_out. induction Hl as [|p l (Hg & Hm & Hf) _ IH]; cbn [map concat].
  - pose proof (no_quotes_kept post [] Hp) as E. by rewrite !app_nil_r in E.
  - unfold piece_text at 1. rewrite <- !app_assoc. rewrite no_quotes_kept by done. f_equal.
    set (rest := concat (map piece_text l) ++ post) in *.
    assert ([p.(mark)] ++ p.(file) ++ [p.(mark)] ++ rest = ([p.(mark)] ++ p.(file) ++ [p.(mark)]) ++ rest) as -> by (by rewrite <- !app_assoc).
    rewrite (gsub_match _ _ _ (required existsSync p.(file))); [by rewrite IH|done|].
    cbn [app ng2StringReplace]. unfold is_quote in Hm. rewrite Hm, <- app_assoc. cbn [app].
    rewrite quoted_length_spec by done. rewrite take_app_length. cbn [length]. rewrite length_app. do 2 f_equal. cbn. lia.
Qed.

Lemma after_key_spec key blanks rest : Forall (fun c => c = 32%N) blanks ->
  after_key key (key ++ blanks ++ [58%N] ++ rest) = Some (rest, length key + length blanks + 1).
Proof.
  intros Hb. unfold after_key. rewrite strip_prefix_app, span_app; [done| |done].
  eapply list.Forall_impl; [exact Hb|]. by intros c ->.
Qed.

(** A key that does not begin before its place is not found there. *)
Lemma key_not_before (key : jsstr) (z : N) a rest a1 c a2 :
  find_sub (a ++ key) (key ++ [z]) = None -> a = a1 ++ c :: a2 -> strip_prefix (key ++ [z]) (c :: a2 ++ (key ++ [z]) ++ rest) = None.
Proof.
  intros Hf ->. destruct (strip_prefix _ _) as [r|] eqn:E; [|done]. exfalso. apply strip_prefix_iff in E.
  assert (exists r', c :: a2 ++ key = (key ++ [z]) ++ r') as [r' Hr].
  { assert ((c :: a2 ++ key) ++ [z] ++ rest = (key ++ [z]) ++ r) as E' by (rewrite <- E; cbn; by rewrite <- !app_assoc).
    destruct (app_eq_inv _ _ _ _ E') as [(k & Hk & _)|(k & Hk & _)]; [by exists k|].
    destruct k as [|x k]; [exists []; by rewrite app_nil_r in *|].
    apply (f_equal length) in Hk. rewrite !length_app in Hk. cbn in Hk. rewrite length_app in Hk. lia. }
  rewrite find_sub_None in Hf. apply (Hf a1 r'). rewrite <- app_assoc. cbn. by rewrite Hr.
Qed.

Definition ends_line (b : jsstr) : Prop := match b with [] => True | c :: _ => is_line_end c = true end.

Lemma template_required a blanks l post b :
  find_sub (a ++ "templateUr") "templateUrl" = None -> Forall (fun c => c = 32%N) blanks ->
  Forall good_piece l -> Forall (fun c => is_quote c = false) post ->
  Forall (fun c => is_line_end c = false) (pieces_text l post) -> ends_line b ->
  gsub (ng2TemplateUrl existsSync) 0 (a ++ "templateUrl" ++ blanks ++ [58%N] ++ pieces_text l post ++ b)
  = a ++ "template:" ++ pieces_out l post ++ gsub (ng2TemplateUrl existsSync) 0 b.
Proof.
  intros Ha Hb Hl Hp Hn He. rewrite gsub_nomatch_app.
  2:{ intros a1 c a2 Ea. unfold ng2TemplateUrl, after_key.
      pose proof (key_not_before "templateUr" 108%N a (blanks ++ [58%N] ++ pieces_text l post ++ b) a1 c a2 Ha Ea) as Hk.
      change (js "templateUr" ++ [108%N]) with (js "templateUrl") in Hk. by rewrite Hk. }
  f_equal.
  assert ("templateUrl" ++ blanks ++ [58%N] ++ pieces_text l post ++ b = ("templateUrl" ++ blanks ++ [58%N] ++ pieces_text l post) ++ b) as ->
    by (by rewrite <- !app_assoc).
  rewrite (gsub_match _ _ _ ("template:" ++ pieces_out l post)); [by rewrite <- app_assoc|done|].
  rewrite <- !app_assoc. unfold ng2TemplateUrl. rewrite (after_key_spec "templateUrl" blanks (pieces_text l post ++ b)) by done.
  rewrite span_app; [|by eapply list.Forall_impl; [exact Hn|]; intros c ->|].
  - cbn [fst]. rewrite strings_required, !length_app by done. do 2 f_equal. cbn. lia.
  - destruct b; [done|]. cbn in He. by rewrite He.
Qed.

Lemma styles_required a blanks ws l post b :
  find_sub (a ++ "styleUrl") "styleUrls" = None -> Forall (fun c => c = 32%N) blanks -> Forall (fun c => is_space c = true) ws ->
  Forall good_piece l -> Forall (fun c => is_quote c = false) post -> Forall (fun c => c <> 93%N) (pieces_text l post) ->
  gsub (ng2StyleUrls existsSync) 0 (a ++ "styleUrls" ++ blanks ++ [58%N] ++ ws ++ [91%N] ++ pieces_text l post ++ [93%N] ++ b)
  = a ++ "styles:" ++ ws ++ [91%N] ++ pieces_out l post ++ [93%N] ++ gsub (ng2StyleUrls existsSync) 0 b.
Proof.
  intros Ha Hb Hw Hl Hp Hn. set (text := pieces_text l post) in *. rewrite gsub_nomatch_app.
  2:{ intros a1 c a2 Ea. unfold ng2StyleUrls, after_key.
      pose proof (key_not_before "styleUrl" 115%N a (blanks ++ [58%N] ++ ws ++ [91%N] ++ text ++ [93%N] ++ b) a1 c a2 Ha Ea) as Hk.
      change (js "styleUrl" ++ [115%N]) with (js "styleUrls") in Hk. by rewrite Hk. }
  f_equal.
  assert ("styleUrls" ++ blanks ++ [58%N] ++ ws ++ [91%N] ++ text ++ [93%N] ++ b
    = ("styleUrls" ++ blanks ++ [58%N] ++ ws ++ [91%N] ++ text ++ [93%N]) ++ b) as -> by (by rewrite <- !app_assoc).
  assert (replaceStringsWithRequires existsSync (ws ++ [91%N] ++ text ++ [93%N]) = ws ++ [91%N] ++ pieces_out l post ++ [93%N]) as Hrep.
  { rewrite (app_assoc ws). unfold replaceStringsWithRequires. rewrite no_quotes_kept.
    - unfold text, pieces_text, pieces_out. rewrite <- !app_assoc. do 2 f_equal.
      pose proof (strings_required l (post ++ [93%N]) Hl) as Hs. unfold replaceStringsWithRequires, pieces_text, pieces_out in Hs.
      apply Hs. apply list.Forall_app. split; [done|]. by repeat constructor.
    - apply list.Forall_app. split; [|by repeat constructor]. eapply list.Forall_impl; [exact Hw|].
      intros c Hc. destruct (is_quote c) eqn:Eq; [|done]. unfold is_quote in Eq. apply orb_true_iff in Eq as [->%N.eqb_eq| ->%N.eqb_eq]; discriminate Hc. }
  rewrite (gsub_match _ _ _ ("styles:" ++ ws ++ [91%N] ++ pieces_out l post ++ [93%N])); [by rewrite <- !app_assoc|done|].
  rewrite <- !app_assoc. unfold ng2StyleUrls. rewrite (after_key_spec "styleUrls" blanks (ws ++ [91%N] ++ text ++ [93%N] ++ b)) by done.
  rewrite span_app by done. cbn [app]. rewrite span_app; [| |done].
  - cbn iota zeta. cbn [app] in Hrep |- *. rewrite Hrep. do 2 f_equal. rewrite !length_app. cbn. rewrite !length_app. cbn. rewrite !length_app. cbn. lia.
  - eapply list.Forall_impl; [exact Hn|]. intros c Hc. by rewrite (proj2 (N.eqb_neq c 93)).
Qed.

Lemma sub_first_skip m a t : (forall a1 c a2, a = a1 ++ c :: a2 -> m (c :: a2 ++ t) = None) -> sub_first m (a ++ t) = a ++ sub_first m t.
Proof.
  induction a as [|c a IH]; intros Hm; [done|]. cbn [app sub_first]. rewrite (Hm [] c a) by done. f_equal.
  apply IH. intros a1 d a2 ->. by apply (Hm (c :: a1) d a2).
Qed.

(** The mobile version of a component's file. *)
Lemma tns_path x e : (46%N ∉ x) -> e = js "html" \/ e = js "css" ->
  sub_first htmlCssRegexp ("./" ++ x ++ ".component." ++ e) = "./" ++ x ++ ".component.tns." ++ e.
Proof.
  intros Hx He. change (js "./") with (46%N :: 47%N :: []). cbn [app].
  assert (forall t, htmlCssRegexp (46%N :: 47%N :: t) = None) as H1 by done.
  cbn [sub_first]. rewrite H1. f_equal. change (htmlCssRegexp (47%N :: x ++ ".component." ++ e)) with (@None (jsstr * nat)). cbn iota. f_equal.
  rewrite sub_first_skip.
  - f_equal. by destruct He as [->| ->].
  - intros a1 c a2 ->. rewrite elem_of_app, elem_of_cons in Hx. unfold htmlCssRegexp, either, match_lit. cbn [strip_prefix].
    change (js ".component.html") with (46%N :: js "component.html"). change (js ".component.css") with (46%N :: js "component.css").
    cbn [strip_prefix]. replace (46 =? c)%N with false; [done|]. symmetry. apply N.eqb_neq. intros <-. tauto.
Qed.

Lemma required_component x e : (46%N ∉ x) -> e = js "html" \/ e = js "css" ->
  required existsSync ("./" ++ x ++ ".component." ++ e) =
  "require('" ++ "./" ++ x ++ (if existsSync ("./" ++ x ++ ".component.tns." ++ e) then ".component.tns." ++ e else ".component." ++ e) ++ "')".
Proof.
  intros Hx He. unfold required.
  change (match "./" ++ x ++ ".component." ++ e with 46%N :: _ => _ | _ => _ end) with ("./" ++ x ++ ".component." ++ e).
  rewrite tns_path by done. cbn zeta. destruct (existsSync _); f_equal; by rewrite <- !app_assoc.
Qed.

(** the loader of the mobile bundle makes a component take its mobile
    template: the property templateUrl of a component becomes a property
    template that requires the .tns file when it is there and the plain one
    otherwise, the text around it being kept. *)
Theorem mobile_template_required readFileSync template path a blanks pre q x post b :
  matches htmlCssRegexp path = false -> matches componentRegexp path = true ->
  find_sub (a ++ "templateUr") "templateUrl" = None -> Forall (fun c => c = 32%N) blanks ->
  Forall (fun c => is_quote c = false /\ is_line_end c = false) pre -> Forall (fun c => is_quote c = false /\ is_line_end c = false) post ->
  is_quote q = true -> Forall (fun c => is_quote c = false /\ is_line_end c = false /\ c <> 92%N /\ c <> 46%N) x -> ends_line b ->
  tnsLoader existsSync readFileSync template path
    (a ++ "templateUrl" ++ blanks ++ [58%N] ++ pieces_text [{| gap := pre; mark := q; file := "./" ++ x ++ ".component." ++ "html" |}] post ++ b)
  = template (gsub ng2ModuleId 0 (gsub (ng2StyleUrls existsSync) 0
      (a ++ "template:" ++ pre ++ "require('" ++ "./" ++ x
         ++ (if existsSync ("./" ++ x ++ ".component.tns." ++ "html") then ".component.tns." ++ "html" else ".component." ++ "html")
         ++ "')" ++ post ++ gsub (ng2TemplateUrl existsSync) 0 b))).
Proof.
  intros Hpath Hc Ha Hb Hpre Hpost Hq Hx He. unfold tnsLoader. rewrite Hpath, Hc.
  assert (Forall (fun c => c <> q /\ c <> 92%N /\ is_line_end c = false) ("./" ++ x ++ ".component." ++ "html")) as Hfile.
  { assert (forall lit : jsstr, Forall (fun c => is_quote c = false /\ c <> 92%N /\ is_line_end c = false) lit ->
      Forall (fun c => c <> q /\ c <> 92%N /\ is_line_end c = false) lit) as Hlit.
    { intros lit Hl. eapply list.Forall_impl; [exact Hl|]. intros c (H1 & H2 & H3). split; [|done]. intros ->. congruence. }
    rewrite !list.Forall_app. split_and!; try (apply Hlit; decide_done).
    apply Hlit. weaken Hx. }
  rewrite template_required; [|done|done| | | |done].
  - do 4 f_equal. unfold pieces_out. cbn [map concat gap file]. rewrite required_component.
    + rewrite app_nil_r, <- !app_assoc. done.
    + intros Hin. apply (proj1 (list.Forall_forall _ _) Hx) in Hin. tauto.
    + by left.
  - constructor; [|constructor]. split; [weaken Hpre|]. done.
  - weaken Hpost.
  - unfold pieces_text, piece_text. cbn [map concat gap mark file]. rewrite app_nil_r, !list.Forall_app.
    assert (is_line_end q = false) as Hqe by (unfold is_quote in Hq; apply orb_true_iff in Hq as [->%N.eqb_eq| ->%N.eqb_eq]; reflexivity).
    rewrite !list.Forall_app in Hfile. destruct Hfile as (F1 & F2 & F3 & F4).
    split_and!; [weaken Hpre|by constructor|weaken F1|weaken F2|weaken F3|weaken F4|by constructor|weaken Hpost].
Qed.
End LoaderFacts.

(** *** A component *)

Lemma mobile_template_required_witness :
  tnsLoader (fun _ => true) (fun _ => []) (fun s => s) "app/bar.component.ts"
    ("@Component({ " ++ "templateUrl" ++ [] ++ [58%N]
       ++ pieces_text [{| gap := js " "; mark := 39%N; file := "./" ++ "bar" ++ ".component." ++ "html" |}] "," ++ ([10%N] ++ "})"))
  = "@Component({ template: require('./bar.component.tns.html')," ++ [10%N] ++ "})".
Proof.
  rewrite (mobile_template_required (fun _ => true) (fun _ => []) (fun s => s) "app/bar.component.ts" "@Component({ " [] " " 39%N "bar" "," ([10%N] ++ "})"));
    [vm_compute; reflexivity|reflexivity|reflexivity|reflexivity|constructor|decide_done|decide_done|reflexivity|decide_done|reflexivity].
Defined.

(** Names are looked up from the working directory of the bundler, not from
    the directory of the component: a mobile version that lies beside its
    component is missed unless both are the same. *)
Example tns_version_missed :
  let existsSync := fun p => p === "./app/bar/bar.component.tns.html" in
  replaceStringsWithRequires existsSync "'./bar.component.html'" = "require('./bar.component.html')".
Proof. vm_compute. reflexivity. Qed.

(** Versions are compared as texts: one of one digit counts as later than 21. *)
Example sdk_text_order : text_leb "21" "9" = true /\ text_leb "21" "19" = false /\ text_leb "21" "26" = true.
Proof. vm_compute. auto. Qed.
