(* ===== verification/Install.v ===== *)
(** * The installation script, tools/install.js

    It links the web application into the NativeScript application.  The file
    system, the platform and the command line are inputs; the calls that change
    something, and the messages, are outputs. *)

From S2P Require Import Prelude JsString NodePath.

Definition backslash : N := 92.

Definition splitPath (v : jsstr) : list jsstr :=
  if negb (indexOf v "/" =? -1)%Z then split slash v else split backslash v.

(** [pop] on the reversed array. *)
Definition resolve_step (acc : list jsstr) (seg : jsstr) : list jsstr :=
  if (seg === ".") || (seg === "") then acc
  else if seg === ".." then tail acc
  else seg :: acc.

Section Script.
(** [script] is process.argv[1]; [win32] the platform. *)
Context (win32 : bool) (node script : jsstr).

Definition resolve (v : jsstr) : jsstr :=
  let cwdPath := tail (rev (splitPath script)) in
  let cwdPath := match cwdPath with s :: rest => if s === "" then rest else cwdPath | [] => [] end in
  let cwdPath := match v with c :: _ => if (c =? slash)%N || (c =? backslash)%N then [] else cwdPath | [] => cwdPath end in
  let cwdPath := rev (fold_left resolve_step (splitPath v) cwdPath) in
  if win32 then
    let winResult := join [backslash] cwdPath in
    if endsWith winResult [backslash] then take (length winResult - 1) winResult else winResult
  else
    let result := join "/" cwdPath in
    let result := if startsWith result "/" then result else "/" ++ result in
    if endsWith result "/" then take (length result - 1) result else result.

Definition webAppPath : jsstr := "../src/client/app".
Definition nativescriptAppPath : jsstr := "../nativescript/src/app/".

Inductive script_effect :=
  | Unlink (path : jsstr)
  | Symlink (target path : jsstr)
  | ExecSync (command : jsstr)
  | Log (words : list jsstr).

Definition AttemptRootSymlink : list script_effect :=
  if win32 then
    [ExecSync ("powershell -Command " ++ [34%N] ++ "Start-Process 'node' -ArgumentList '" ++ resolve "./"
               ++ "/install.js symlink' -verb runas" ++ [34%N])]
  else
    [Log [js "To automatically create a SymLink between your web app and NativeScript, we need root for a second."];
     ExecSync ("sudo " ++ node ++ " " ++ script ++ " symlink")].

(** The index after the last of the units that satisfy [p], as a length. *)
Fixpoint lastIndex (p : N -> bool) (s : jsstr) : option nat :=
  match s with
  | [] => None
  | c :: s' => match lastIndex p s' with Some i => Some (S i) | None => if p c then Some 0 else None end
  end.

(** [substring(0, -1)] is empty. *)
Definition AppPath : jsstr :=
  match lastIndex (fun c => (c =? slash)%N || (c =? backslash)%N) script with Some i => take i script | None => [] end.

Definition createRootSymLink : script_effect :=
  Symlink (resolve (AppPath ++ "/" ++ webAppPath)) (resolve (AppPath ++ "/" ++ nativescriptAppPath)).

Definition createSymLink : script_effect := Symlink (resolve webAppPath) (resolve nativescriptAppPath).

Definition displayFinalHelp : list script_effect :=
  map (fun s => Log [s])
    [js "------------------------ Xenon UI Development Environment is Now Ready ----------------------------";
     js ""; js "Run your web app with:"; js "  npm start"; js "";
     js "Run your Mobile app via NativeScript with:"; js "  iOS:     npm run start.ios";
     js "  Android: npm run start.android"; js "";
     js "Run your Desktop app via Electron with:"; js "  Mac:     npm run start.desktop";
     js "  Windows: npm run start.desktop.windows"; js "";
     js "-----------------------------------------------------------------------------------------"; js ""].

(** The outcome of a call of symlinkSync. *)
Inductive link_result := Linked | LinkExists | LinkFailed.

(** The whole script: [rest] are the arguments after the script's name,
    [exists_before] and [exists_after] tell whether the link exists at the two
    checks.  A failing unlink is ignored; the calls of the attempt to get root
    do not throw here. *)
Definition install (rest : list jsstr) (exists_before exists_after : bool) (linked : link_result) : list script_effect :=
  match rest with
  | a :: _ => if a === "symlink" then [createRootSymLink; Log [js "Created Symlink"]] else []
  | [] =>
      [Log [js "Configuring..."]]
      ++ (if exists_before then [Unlink (resolve nativescriptAppPath)] else [])
      ++ [createSymLink]
      ++ match linked with
         | Linked => []
         | LinkExists => [Log [js "A symlink already exists."]]
         | LinkFailed => AttemptRootSymlink
         end
      ++ displayFinalHelp
      ++ (if exists_after then []
          else [Log [js "We were unable to create a symlink  - from -"];
                Log [js "  "; resolve webAppPath; js "    - to - "];
                Log [js "  "; resolve nativescriptAppPath];
                Log [js "If you don't create this symlink, you will have to manually copy the code each time you change it."]])
  end.
End Script.

(** ** Properties *)

Lemma indexOf_slash v : (indexOf v "/" =? -1)%Z = bool_decide (slash ∉ v).
Proof.
  unfold indexOf. change (js "/") with [slash]. destruct (find_sub v [slash]) as [i|] eqn:E.
  - apply find_sub_Some in E as (a & b & -> & <-). rewrite bool_decide_eq_false_2 by set_solver. apply Z.eqb_neq. lia.
  - rewrite bool_decide_eq_true_2; [done|]. rewrite find_sub_None in E. intros Hin.
    apply list_elem_of_split in Hin as (a & b & ->). by apply (E a b).
Qed.

(** A path of a POSIX system as the script reads it. *)
Definition posix (v : jsstr) : Prop := (slash ∈ v \/ backslash ∉ v) /\ (forall w, v <> backslash :: w).

Lemma splitPath_segments v : posix v -> List.filter truthy (splitPath v) = segments v.
Proof.
  intros [Hv _]. unfold splitPath, segments. rewrite indexOf_slash. destruct (decide (slash ∈ v)) as [Hs|Hs].
  - by rewrite bool_decide_eq_false_2 by set_solver.
  - rewrite bool_decide_eq_true_2 by done. cbn [negb]. destruct Hv as [Hv|Hv]; [done|].
    by rewrite !split_no_sep.
Qed.

Lemma resolve_step_skips ws acc : fold_left resolve_step ws acc = fold_left resolve_step (List.filter truthy ws) acc.
Proof.
  revert acc. induction ws as [|w ws IH]; intros acc; [done|]. cbn [fold_left List.filter]. rewrite IH.
  by destruct w.
Qed.

(** The array of the script keeps the empty piece before the leading slash,
    until it is popped. *)
Definition paths_agree (acc_i acc : list jsstr) : Prop := Forall clean_segment acc /\ (acc_i = acc \/ acc_i = acc ++ [js ""]).

Lemma resolve_step_agree acc_i acc s :
  s <> [] -> slash ∉ s -> paths_agree acc_i acc -> paths_agree (resolve_step acc_i s) (norm_step true acc s).
Proof.
  intros Hs Hn [Hc Ha]. unfold resolve_step, norm_step. rewrite (proj2 (str_eqb_neq s "")), orb_false_r by done.
  destruct (s === ".") eqn:E1; [done|]. destruct (s === "..") eqn:E2.
  - destruct acc as [|t acc]; [by destruct Ha as [->| ->]; (split; [|left])|].
    apply list.Forall_cons in Hc as [(H1 & H2 & H3 & H4) Hc]. rewrite (proj2 (str_eqb_neq t "..")) by done.
    split; [done|]. destruct Ha as [->| ->]; [by left|by right].
  - apply str_eqb_neq in E1, E2. split; [by constructor|]. destruct Ha as [->| ->]; [by left|by right].
Qed.

Lemma resolve_fold_agree segs acc_i acc :
  Forall (fun s => s <> [] /\ slash ∉ s) segs -> paths_agree acc_i acc ->
  paths_agree (fold_left resolve_step segs acc_i) (fold_left (norm_step true) segs acc).
Proof.
  intros H. revert acc_i acc. induction H as [|s segs [H1 H2] _ IH]; intros acc_i acc Ha; [done|].
  cbn [fold_left]. by apply IH, resolve_step_agree.
Qed.

Lemma segments_ok v : Forall (fun s => s <> [] /\ slash ∉ s) (segments v).
Proof.
  apply list.Forall_forall. intros s Hs. unfold segments in Hs. apply list_elem_of_In, filter_In in Hs as [Hs Ht].
  split; [by apply truthy_spec|]. pose proof (split_pieces slash v) as H. rewrite list.Forall_forall in H.
  by apply H, list_elem_of_In.
Qed.

Definition absolute_text (segs : list jsstr) : jsstr := match segs with [] => [] | _ => "/" ++ join "/" segs end.

Lemma agree_text acc_i acc :
  paths_agree acc_i acc ->
  (let result := join "/" (rev acc_i) in
   let result := if startsWith result "/" then result else "/" ++ result in
   if endsWith result "/" then take (length result - 1) result else result) = absolute_text (rev acc).
Proof.
  intros [Hc Ha]. cbv zeta. destruct (decide (acc = [])) as [->|Hne]; [by destruct Ha as [->| ->]|].
  assert (Hr : rev acc <> []) by (intros E; apply Hne; by rewrite <- (rev_involutive acc), E).
  assert (Hcr : Forall clean_segment (rev acc)) by by apply Forall_rev.
  assert (Ht : absolute_text (rev acc) = "/" ++ join "/" (rev acc)) by by destruct (rev acc).
  assert (Hs : startsWith (join "/" (rev acc)) "/" = false).
  { destruct (rev acc) as [|[|c s] l]; [done|by apply list.Forall_cons in Hcr as [(? & _) _]|].
    apply list.Forall_cons in Hcr as [(_ & Hsl & _) _].
    assert (Hj : exists t, join "/" ((c :: s) :: l) = c :: t) by (destruct l; eexists; reflexivity).
    destruct Hj as [t ->]. unfold startsWith. change (js "/") with [slash]. cbn [strip_prefix].
    destruct (N.eqb_spec slash c); [set_solver|done]. }
  assert (He : endsWith ("/" ++ join "/" (rev acc)) "/" = false) by by apply clean_no_slash_end.
  rewrite Ht. destruct Ha as [->| ->]; [by rewrite Hs, He|].
  rewrite rev_unit, join_cons by done. change (js "" ++ js "/" ++ join "/" (rev acc)) with (js "/" ++ join "/" (rev acc)).
  by rewrite startsWith_app, He.
Qed.

Lemma script_dir dirs name :
  Forall clean_segment (dirs ++ [name]) ->
  let cwdPath := tail (rev (splitPath ("/" ++ join "/" (dirs ++ [name])))) in
  paths_agree (match cwdPath with s :: rest => if s === "" then rest else cwdPath | [] => [] end) (rev dirs).
Proof.
  intros Hc. unfold splitPath. rewrite indexOf_slash, bool_decide_eq_false_2 by (cbn; set_solver). cbn [negb].
  change ("/" ++ join "/" (dirs ++ [name])) with (slash :: join "/" (dirs ++ [name])).
  cbn [split]. change (slash =? slash)%N with true. cbn [rev]. rewrite split_clean by (by destruct dirs || done).
  rewrite rev_app_distr. cbn [rev app tail]. apply list.Forall_app in Hc as [Hd _].
  split; [by apply Forall_rev|]. assert (Hr : Forall clean_segment (rev dirs)) by by apply Forall_rev.
  destruct (rev dirs) as [|s rest]; [by left|]. right. cbn [app].
  apply list.Forall_cons in Hr as [(Hs & _) _]. by rewrite (proj2 (str_eqb_neq s "")).
Qed.

Lemma resolve_text (v name : jsstr) (dirs : list jsstr) :
  Forall clean_segment (dirs ++ [name]) -> posix v ->
  resolve false ("/" ++ join "/" (dirs ++ [name])) v = absolute_text (resolve_segments ("/" ++ join "/" dirs) v).
Proof.
  intros Hc Hv. pose proof (script_dir dirs name Hc) as Hdir. cbv zeta in Hdir. unfold resolve.
  set (c0 := match tail _ with [] => [] | _ => _ end) in *. clearbody c0.
  assert (Hd : Forall clean_segment dirs) by by apply list.Forall_app in Hc as [? _].
  rewrite resolve_step_skips, splitPath_segments by done.
  assert (G : paths_agree (fold_left resolve_step (segments v)
      match v with c :: _ => if (c =? slash)%N || (c =? backslash)%N then [] else c0 | [] => c0 end)
    (rev (resolve_segments ("/" ++ join "/" dirs) v))).
  { unfold resolve_segments, norm_segments. rewrite rev_involutive. destruct v as [|c v].
    - cbn [is_absolute]. change (segments []) with (@nil jsstr). rewrite segments_abs, segments_clean, app_nil_r by done.
      cbn [fold_left]. rewrite norm_step_clean by done. by rewrite app_nil_r.
    - cbn [is_absolute]. destruct (c =? slash)%N eqn:Es; cbn [orb].
      + apply resolve_fold_agree; [apply segments_ok|]. split; [constructor|by left].
      + assert ((c =? backslash)%N = false) as ->.
        { apply N.eqb_neq. intros ->. by apply (proj2 Hv v). }
        rewrite segments_abs, segments_clean by done. rewrite fold_left_app, (norm_step_clean true [] dirs), app_nil_r by done.
        apply resolve_fold_agree; [apply segments_ok|done]. }
  apply agree_text in G. rewrite rev_involutive in G. exact G.
Qed.

(** On a POSIX system, for a script at an absolute path, the script's own
    [resolve] computes the path that Node's [path.resolve] gives from the
    script's directory, except that the root itself comes out as the empty
    string. *)
Theorem resolve_is_path_resolve (v name : jsstr) (dirs : list jsstr) :
  Forall clean_segment (dirs ++ [name]) -> posix v ->
  resolve false ("/" ++ join "/" (dirs ++ [name])) v = absolute_text (resolve_segments ("/" ++ join "/" dirs) v).
Proof. apply resolve_text. Qed.

Lemma resolve_is_path_resolve_witness :
  resolve false "/home/me/ui/tools/install.js" nativescriptAppPath = "/home/me/ui/nativescript/src/app".
Proof.
  assert (Hc : Forall clean_segment ([js "home"; js "me"; js "ui"; js "tools"] ++ [js "install.js"])).
  { cbn [app]. repeat constructor; decide_done. }
  assert (Hv : posix nativescriptAppPath) by (split; [left; decide_done|by intros w]).
  exact (resolve_is_path_resolve nativescriptAppPath (js "install.js") _ Hc Hv).
Defined.

Lemma split_app_any sep a b : split sep (a ++ sep :: b) = split sep a ++ split sep b.
Proof.
  induction a as [|c a IH]; cbn [app split]; [by rewrite N.eqb_refl|].
  destruct (c =? sep)%N; [by rewrite IH|]. rewrite IH.
  pose proof (split_nonempty sep a) as Hne. destruct (split sep a) as [|w ws]; [done|]. reflexivity.
Qed.

Lemma segments_app a b : segments (a ++ "/" ++ b) = segments a ++ segments b.
Proof.
  unfold segments. change (a ++ js "/" ++ b) with (a ++ slash :: b). by rewrite split_app_any, List.filter_app.
Qed.

Lemma lastIndex_app p a c b :
  p c = true -> Forall (fun x => p x = false) b -> lastIndex p (a ++ c :: b) = Some (length a).
Proof.
  intros Hc Hb. assert (Hn : lastIndex p b = None) by (induction Hb as [|x b Hx _ IH]; cbn; [done|by rewrite IH, Hx]).
  induction a as [|x a IH]; cbn; [by rewrite Hn, Hc|by rewrite IH].
Qed.

(** Run as root or not, the script makes the same link. *)
Lemma root_link_same dirs name :
  dirs <> [] -> Forall clean_segment (dirs ++ [name]) -> backslash ∉ name ->
  createRootSymLink false ("/" ++ join "/" (dirs ++ [name])) = createSymLink false ("/" ++ join "/" (dirs ++ [name])).
Proof.
  intros Hne Hc Hb. assert (Hd : Forall clean_segment dirs) by by apply list.Forall_app in Hc as [? _].
  assert (Hn : clean_segment name) by (apply list.Forall_app in Hc as [_ Hc]; by apply list.Forall_cons in Hc as [? _]).
  assert (Happ : AppPath ("/" ++ join "/" (dirs ++ [name])) = "/" ++ join "/" dirs).
  { unfold AppPath. rewrite join_app by done. change (join "/" [name]) with name.
    change ("/" ++ join "/" dirs ++ "/" ++ name) with (("/" ++ join "/" dirs) ++ slash :: name).
    rewrite lastIndex_app; [by rewrite take_app_length|done|]. apply list.Forall_forall. intros x Hx.
    destruct Hn as (_ & Hs & _). apply orb_false_iff. split; apply N.eqb_neq; intros ->; done. }
  assert (Hrel : forall rel, is_absolute rel = false -> posix rel ->
    resolve false ("/" ++ join "/" (dirs ++ [name])) (("/" ++ join "/" dirs) ++ "/" ++ rel)
    = resolve false ("/" ++ join "/" (dirs ++ [name])) rel).
  { intros rel Ha Hp. rewrite !resolve_text; [|done..|].
    - unfold resolve_segments. rewrite Ha. change (is_absolute (("/" ++ join "/" dirs) ++ "/" ++ rel)) with true. cbv iota.
      by rewrite segments_app.
    - split; [left; cbn; set_solver|done]. }
  unfold createRootSymLink, createSymLink. rewrite Happ.
  f_equal; apply Hrel; (split; [left; decide_done|by intros w]) || done.
Qed.
