(* ===== verification/Stars.v ===== *)
(** * The stars of the login page and the code editor

    components/login/star-canvas.component.ts and
    modules/app/components/code-editor/code-editor.component.ts.  Coordinates
    are exact rationals; the random numbers of new stars are inputs; CodeMirror
    is the text it holds. *)

From Stdlib Require Import QArith Qround Lqa.
From S2P Require Import Prelude JsString Json BuildTasks.
#[local] Close Scope Q_scope.

(** ** star-canvas.component.ts *)

Record star := { x : Q; y : Q; width : Q; height : Q; radius : Q }.

(** The size of the canvas, the origin, and [options.array]. *)
Record star_canvas := { canvas_width : Q; canvas_height : Q; origin_x : Q; origin_y : Q; array : list star }.

Definition starCount : nat := 250.
Definition distance : Q := 70.
Definition d_radius : Q := 150.

Record random5 := { r1 : Q; r2 : Q; r3 : Q; r4 : Q; r5 : Q }.

Definition new_star (w h : Q) (r : random5) : star :=
  {| x := r.(r1) * w; y := r.(r2) * h; width := -1 + r.(r3); height := -1 + r.(r4);
     radius := (1 # 2) + (7 # 2) * r.(r5) |}%Q.

Definition ltb (a b : Q) : bool := negb (Qle_bool b a).

(** What is drawn. *)
Inductive drawing := Disc (sx sy sr : Q) | Segment (x1 y1 x2 y2 : Q).

Definition create (s : star) : drawing := Disc s.(x) s.(y) s.(radius).

(** One star of [animate]. *)
Definition move (w h : Q) (s : star) : star :=
  let out_y := ltb s.(y) 0 || ltb h s.(y) in
  let out_x := ltb s.(x) 0 || ltb w s.(x) in
  let width := if out_y then s.(width) else if out_x then Qopp s.(width) else s.(width) in
  let height := if out_y then Qopp s.(height) else s.(height) in
  {| x := s.(x) + width; y := s.(y) + height; width := width; height := height; radius := s.(radius) |}%Q.

Definition animate (c : star_canvas) : star_canvas :=
  {| canvas_width := c.(canvas_width); canvas_height := c.(canvas_height);
     origin_x := c.(origin_x); origin_y := c.(origin_y);
     array := map (move c.(canvas_width) c.(canvas_height)) (take starCount c.(array)) ++ drop starCount c.(array) |}.

Definition within (d a b : Q) : bool := ltb (a - b) d && ltb (- d) (a - b).

Definition line (c : star_canvas) : list drawing :=
  let stars := take starCount c.(array) in
  flat_map (fun i => flat_map (fun j =>
    if within distance i.(x) j.(x) && within distance i.(y) j.(y)
       && within d_radius i.(x) c.(origin_x) && within d_radius i.(y) c.(origin_y)
    then [Segment i.(x) i.(y) j.(x) j.(y)] else []) stars) stars.

(** A frame pushes [starCount] new stars, and shows and moves the first
    [starCount] of the array. *)
Definition render (c : star_canvas) (random : list random5) : star_canvas * list drawing :=
  let c := {| canvas_width := c.(canvas_width); canvas_height := c.(canvas_height);
              origin_x := c.(origin_x); origin_y := c.(origin_y);
              array := c.(array) ++ map (new_star c.(canvas_width) c.(canvas_height)) (take starCount random) |} in
  (animate c, map create (take starCount c.(array)) ++ line c).

Definition onMouseMove (c : star_canvas) (has_type : bool) (offsetX offsetY : Q) : star_canvas :=
  if has_type then {| canvas_width := c.(canvas_width); canvas_height := c.(canvas_height);
                      origin_x := offsetX; origin_y := offsetY; array := c.(array) |} else c.
Definition onMouseLeave (c : star_canvas) (has_type : bool) : star_canvas :=
  if has_type then {| canvas_width := c.(canvas_width); canvas_height := c.(canvas_height);
                      origin_x := c.(canvas_width) / 2; origin_y := c.(canvas_height) / 2; array := c.(array) |} else c.

(** [ngAfterViewInit]: the origin comes from the size before the canvas is
    fitted to its parent; a width that is not an integer is rounded down by the
    canvas.  [pixel] and [backing]: the two ratios. *)
Definition stars_ngAfterViewInit (width0 height0 parent_width parent_height : Z) (pixel backing : Q) : star_canvas :=
  let scaled (z : Z) := if Qeq_bool pixel backing then inject_Z z else inject_Z (Qfloor (inject_Z z * (pixel / backing))) in
  {| canvas_width := scaled parent_width; canvas_height := scaled parent_height;
     origin_x := 30 * inject_Z width0 / 100; origin_y := 30 * inject_Z height0 / 100; array := [] |}.

(** The frames of the timer, and the mouse. *)
Inductive star_event :=
  | Frame (random : list random5)
  | MouseMove (has_type : bool) (offsetX offsetY : Q)
  | MouseLeave (has_type : bool).

Definition star_step (c : star_canvas) (e : star_event) : star_canvas :=
  match e with
  | Frame rs => fst (render c rs)
  | MouseMove t ox oy => onMouseMove c t ox oy
  | MouseLeave t => onMouseLeave c t
  end.

(** ** code-editor.component.ts *)

(** Who hears of a change: the output [change], or the function that a form
    has registered. *)
Inductive hook := EmitChange | FormFunction.

Record code_editor := {
  config : list (jsstr * jsval);
  value : option jsstr;
  instance : option jsstr;            (* the text in CodeMirror *)
  onChanged : hook;
  heard : list (hook * jsstr) }.

Definition new_editor (config : list (jsstr * jsval)) (value : option jsstr) : code_editor :=
  {| config := config; value := value; instance := None; onChanged := EmitChange; heard := [] |}.

Definition updateValue (e : code_editor) (v : jsstr) : code_editor :=
  {| config := e.(config); value := Some v; instance := e.(instance); onChanged := e.(onChanged);
     heard := e.(heard) ++ [(e.(onChanged), v)] |}.

Definition default_config : list (jsstr * jsval) :=
  [ (js "lineNumbers", JBool true); (js "lineWrapping", JBool false); (js "autoRefresh", JBool true);
    (js "styleActiveLine", JBool true); (js "fixedGutter", JBool true); (js "matchBrackets", JBool true);
    (js "coverGutterNextToScrollbar", JBool false); (js "indentUnit", JInt 0); (js "tabSize", JInt 4);
    (js "smartIndent", JBool true); (js "theme", JStr "mdn-like"); (js "mode", JStr "javascript") ].

(** CodeMirror takes the text of the text area, which is empty. *)
Definition editor_ngAfterViewInit (e : code_editor) : code_editor :=
  {| config := assign default_config e.(config); value := e.(value);
     instance := Some (js ""); onChanged := e.(onChanged); heard := e.(heard) |}.

(** CodeMirror reports every change of its text, by the user or by
    [setValue], to the handler of [ngAfterViewInit]. *)
Definition text_changed (e : code_editor) (text : jsstr) : code_editor :=
  updateValue {| config := e.(config); value := e.(value); instance := Some text;
                 onChanged := e.(onChanged); heard := e.(heard) |} text.

Definition writeValue (e : code_editor) (v : option jsstr) : code_editor :=
  let v := or_str v "" in
  let e' := {| config := e.(config); value := Some v; instance := e.(instance);
               onChanged := e.(onChanged); heard := e.(heard) |} in
  match e.(instance) with Some _ => text_changed e' v | None => e' end.

Definition registerOnChange (e : code_editor) : code_editor :=
  {| config := e.(config); value := e.(value); instance := e.(instance); onChanged := FormFunction; heard := e.(heard) |}.

Inductive editor_op := Type_ (text : jsstr) | Write (v : option jsstr) | RegisterOnChange.
Definition editor_step (e : code_editor) (o : editor_op) : code_editor :=
  match o with Type_ t => text_changed e t | Write v => writeValue e v | RegisterOnChange => registerOnChange e end.

(** ** Properties of the stars *)

Open Scope Q_scope.

(** Outside the canvas a star is on its way out, by one step. *)
Definition star_ok (h : Q) (s : star) : Prop :=
  - (1) <= s.(height) <= 1
  /\ (0 <= s.(y) <= h
      \/ (s.(y) < 0 /\ 0 <= s.(y) - s.(height) <= h)
      \/ (h < s.(y) /\ 0 <= s.(y) - s.(height) <= h)).

Lemma ltb_spec a b : ltb a b = true <-> a < b.
Proof. unfold ltb. rewrite negb_true_iff. rewrite <- not_true_iff_false, Qle_bool_iff. split; intros; lra. Qed.
Lemma ltb_false a b : ltb a b = false <-> b <= a.
Proof. unfold ltb. rewrite negb_false_iff. apply Qle_bool_iff. Qed.

Lemma move_ok w h s : star_ok h s -> star_ok h (move w h s).
Proof.
  intros [Hv Hy]. unfold move, star_ok. cbn.
  destruct (ltb (y s) 0) eqn:E1; cbn [orb]; [apply ltb_spec in E1|apply ltb_false in E1; destruct (ltb h (y s)) eqn:E2;
    [apply ltb_spec in E2|apply ltb_false in E2]].
  - split; [lra|]. left. lra.
  - split; [lra|]. left. lra.
  - split; [lra|]. destruct (Qlt_le_dec (y s + height s) 0); [right; left; lra|].
    destruct (Qlt_le_dec h (y s + height s)); [right; right; lra|left; lra].
Qed.

Definition unit_random (r : random5) : Prop :=
  (0 <= r1 r < 1) /\ (0 <= r2 r < 1) /\ (0 <= r3 r < 1) /\ (0 <= r4 r < 1) /\ (0 <= r5 r < 1).

Lemma new_star_ok w h r : 0 <= h -> unit_random r -> star_ok h (new_star w h r).
Proof.
  intros Hh (_ & H2 & _ & H4 & _). unfold star_ok, new_star. cbn. split; [lra|]. left. split; nra.
Qed.

Definition random_event (e : star_event) : Prop :=
  match e with Frame rs => Forall unit_random rs /\ length rs = starCount | _ => True end.

Lemma render_ok h c rs :
  c.(canvas_height) = h -> 0 <= h -> Forall unit_random rs -> Forall (star_ok h) c.(array) ->
  Forall (star_ok h) (fst (render c rs)).(array).
Proof.
  intros Hh H0 Hr Ha. unfold render, animate. cbn [fst array canvas_width canvas_height]. rewrite Hh.
  set (all := array c ++ _).
  assert (Hall : Forall (star_ok h) all).
  { apply list.Forall_app. split; [done|]. apply Forall_map. apply Forall_take.
    eapply list.Forall_impl; [exact Hr|]. intros r Hu. by apply new_star_ok. }
  apply list.Forall_app. split; [|by apply Forall_drop]. apply Forall_map. apply Forall_take.
  eapply list.Forall_impl; [exact Hall|]. intros s. apply move_ok.
Qed.

(** The array grows by [starCount] stars in every frame, of which only the
    first [starCount] are ever shown. *)
Lemma array_grows c rs :
  length rs = starCount -> length (fst (render c rs)).(array) = (length c.(array) + starCount)%nat.
Proof.
  intros Hr. unfold render, animate. cbn [fst array]. rewrite length_app, length_map, length_take, length_drop, length_app,
    length_map, length_take, Hr. lia.
Qed.

(** Whatever the frames and the mouse do, every star stays within one unit
    of the canvas vertically, and its vertical speed within one unit per frame. *)
Theorem stars_stay_vertically (c : star_canvas) (evs : list star_event) :
  0 <= c.(canvas_height) -> c.(array) = [] -> Forall random_event evs ->
  Forall (fun s => - (1) <= s.(y) <= c.(canvas_height) + 1 /\ - (1) <= s.(height) <= 1)
    (fold_left star_step evs c).(array).
Proof.
  intros H0 Ha Hev. set (h := canvas_height c).
  assert (G : forall c', canvas_height c' = h -> Forall (star_ok h) (array c') ->
    Forall (star_ok h) (array (fold_left star_step evs c'))).
  { induction Hev as [|e evs He _ IH]; intros c' Hc Hs; [done|]. cbn [fold_left]. apply IH.
    - destruct e as [rs|t ox oy|t]; [done|by destruct t..].
    - destruct e as [rs|t ox oy|t]; [by apply render_ok; [|done|apply He|]|by destruct t..]. }
  eapply list.Forall_impl; [apply G; [done|by rewrite Ha]|]. intros s [Hv Hy]. split; [|done]. lra.
Qed.

Lemma stars_stay_vertically_witness :
  let c := stars_ngAfterViewInit 300 150 800 600 2 1 in
  let rs := repeat {| r1 := 1 # 2; r2 := 0; r3 := 0; r4 := 0; r5 := 0 |} starCount in
  Forall (fun s => - (1) <= s.(y) <= 1200 + 1 /\ - (1) <= s.(height) <= 1) (fold_left star_step [Frame rs; Frame rs] c).(array).
Proof.
  intros c rs. assert (Hr : Forall unit_random rs).
  { apply list.Forall_forall. intros r Hr. apply list_elem_of_In, repeat_spec in Hr as ->. unfold unit_random. cbn. lra. }
  apply (stars_stay_vertically c [Frame rs; Frame rs]); [vm_compute; discriminate|done|].
  constructor; [|constructor; [|constructor]]; (split; [exact Hr|apply repeat_length]).
Defined.

(** Horizontally a star is turned back only while it is inside vertically, so
    it can pass the edge twice, and then every second turn drives it further
    away: this star, whose start is a possible one, leaves for good. *)
Definition lost_star : star := new_star 4 2 {| r1 := 1 # 8; r2 := 1 # 4; r3 := 0; r4 := 0; r5 := 0 |}.

Fixpoint moves (n : nat) (w h : Q) (s : star) : star :=
  match n with O => s | S n => moves n w h (move w h s) end.

(** Two stars at the same place up to the representation of numbers. *)
Definition same (s t : star) : Prop := x s == x t /\ y s == y t /\ width s == width t /\ height s == height t.

Lemma ltb_comp a a' b b' : a == a' -> b == b' -> ltb a b = ltb a' b'.
Proof. intros E1 E2. unfold ltb. by rewrite E1, E2. Qed.

Lemma move_same w h s t : same s t -> same (move w h s) (move w h t).
Proof.
  intros (Hx & Hy & Hw & Hh). unfold move, same. cbn.
  rewrite (ltb_comp (y s) (y t) 0 0), (ltb_comp h h (y s) (y t)), (ltb_comp (x s) (x t) 0 0), (ltb_comp w w (x s) (x t)) by done.
  destruct (ltb (y t) 0 || ltb h (y t)); [|destruct (ltb (x t) 0 || ltb w (x t))]; split_and!; lra.
Qed.

Lemma same_trans s t u : same s t -> same t u -> same s u.
Proof. intros (?&?&?&?) (?&?&?&?). split_and!; lra. Qed.

Definition at_ (a b v u : Q) : star := {| x := a; y := b; width := v; height := u; radius := 0 |}.

Ltac star_step_tac :=
  unfold move, same, at_; cbn [x y width height];
  repeat first [rewrite (proj2 (ltb_spec _ _)) by lra|rewrite (proj2 (ltb_false _ _)) by lra]; cbn [orb]; split_and!; lra.

Lemma six_moves a : a <= - (1 # 2) ->
  same (moves 6 4 2 (at_ a (- (1 # 2)) (-1) (-1))) (at_ (a - 2) (- (1 # 2)) (-1) (-1)).
Proof.
  intros Ha. cbn [moves].
  assert (S1 : same (move 4 2 (at_ a (- (1 # 2)) (-1) (-1))) (at_ (a - 1) (1 # 2) (-1) 1)) by star_step_tac.
  assert (S2 : same (move 4 2 (at_ (a - 1) (1 # 2) (-1) 1)) (at_ a (3 # 2) 1 1)) by star_step_tac.
  assert (S3 : same (move 4 2 (at_ a (3 # 2) 1 1)) (at_ (a - 1) (5 # 2) (-1) 1)) by star_step_tac.
  assert (S4 : same (move 4 2 (at_ (a - 1) (5 # 2) (-1) 1)) (at_ (a - 2) (3 # 2) (-1) (-1))) by star_step_tac.
  assert (S5 : same (move 4 2 (at_ (a - 2) (3 # 2) (-1) (-1))) (at_ (a - 1) (1 # 2) 1 (-1))) by star_step_tac.
  assert (S6 : same (move 4 2 (at_ (a - 1) (1 # 2) 1 (-1))) (at_ (a - 2) (- (1 # 2)) (-1) (-1))) by star_step_tac.
  eapply same_trans; [|exact S6]. apply move_same. eapply same_trans; [|exact S5]. apply move_same.
  eapply same_trans; [|exact S4]. apply move_same. eapply same_trans; [|exact S3]. apply move_same.
  eapply same_trans; [|exact S2]. by apply move_same.
Qed.

Lemma moves_same n w h s t : same s t -> same (moves n w h s) (moves n w h t).
Proof. revert s t. induction n as [|n IH]; intros s t H; [done|]. cbn. by apply IH, move_same. Qed.

Lemma moves_add n m w h s : moves (n + m) w h s = moves m w h (moves n w h s).
Proof. revert s. induction n as [|n IH]; intros s; [done|]. cbn. apply IH. Qed.

Lemma star_drifts (k : nat) :
  x (moves (1 + 6 * k) 4 2 lost_star) == - (1 # 2) - 2 * inject_Z (Z.of_nat k).
Proof.
  assert (G : same (moves (1 + 6 * k) 4 2 lost_star)
                (at_ (- (1 # 2) - 2 * inject_Z (Z.of_nat k)) (- (1 # 2)) (-1) (-1))); [|apply G].
  induction k as [|k IH]; [repeat split; vm_compute; reflexivity|].
  replace (1 + 6 * S k)%nat with ((1 + 6 * k) + 6)%nat by lia. rewrite moves_add.
  eapply same_trans; [apply moves_same, IH|].
  assert (Hk : 0 <= inject_Z (Z.of_nat k)) by (change 0 with (inject_Z 0); rewrite <- Zle_Qle; lia).
  eapply same_trans; [apply six_moves; lra|]. rewrite Nat2Z.inj_succ, <- Z.add_1_r, inject_Z_plus.
  change (inject_Z 1) with 1. unfold same, at_; cbn [x y width height]; split_and!; lra.
Qed.

Close Scope Q_scope.

(** ** Properties of the editor *)

Definition reported (e : code_editor) (o : editor_op) : list (hook * jsstr) :=
  match o with
  | Type_ t => [(e.(onChanged), t)]
  | Write v => [(e.(onChanged), or_str v "")]
  | RegisterOnChange => []
  end.

(** Once the editor is shown, its value is the text in it after every
    change; each change by the user or by the form is reported exactly once, to
    the form if one is registered and to the output [change] otherwise. *)
Theorem editor_agrees (e : code_editor) (ops : list editor_op) :
  is_Some e.(instance) ->
  let e' := fold_left editor_step ops e in
  (forall o, reported e' o <> [] -> value (editor_step e' o) = instance (editor_step e' o)
     /\ heard (editor_step e' o) = heard e' ++ reported e' o)
  /\ (onChanged e' = FormFunction <-> onChanged e = FormFunction \/ RegisterOnChange ∈ ops)
  /\ heard e' = heard e ++ concat (imap (fun i o => reported (fold_left editor_step (take i ops) e) o) ops).
Proof.
  intros Hi e'. split_and!.
  - assert (Hi' : is_Some (instance e')).
    { unfold e'. clear -Hi. revert e Hi. induction ops as [|o ops IH]; intros e Hi; [done|]. cbn [fold_left]. apply IH.
      destruct o; cbn; [done| |done]. unfold writeValue. by destruct Hi as [t ->]. }
    clearbody e'. intros [t|v|] Hr; [done| |done]. cbn. unfold writeValue. by destruct Hi' as [t ->].
  - unfold e'. clear. revert e. induction ops as [|o ops IH]; intros e; cbn [fold_left]; [set_solver|].
    rewrite IH. assert (Ho : onChanged (editor_step e o) = FormFunction <-> onChanged e = FormFunction \/ o = RegisterOnChange).
    { destruct o; cbn; [naive_solver| |naive_solver]. unfold writeValue. destruct (instance e); cbn; naive_solver. }
    rewrite Ho. set_solver.
  - unfold e'. clear e'. revert e Hi. induction ops as [|o ops IH]; intros e Hi; cbn; [by rewrite app_nil_r|].
    assert (Hi' : is_Some (instance (editor_step e o))) by (destruct o; cbn; [done| |done]; unfold writeValue; by destruct Hi as [t ->]).
    rewrite (IH _ Hi'). rewrite app_assoc. f_equal. destruct o; cbn; [done| |by rewrite app_nil_r].
    unfold writeValue. by destruct Hi as [t ->].
Qed.

Lemma editor_agrees_witness :
  let e := editor_ngAfterViewInit (new_editor [(js "tabSize", JInt 2)] None) in
  let e' := fold_left editor_step [RegisterOnChange; Write (Some (js "{}")); Type_ (js "{1}")] e in
  value (editor_step e' (Type_ (js "x"))) = Some (js "x") /\ heard e' = [(FormFunction, js "{}"); (FormFunction, js "{1}")].
Proof.
  intros e e'. assert (Hi : is_Some (instance e)) by by eexists.
  destruct (editor_agrees e [RegisterOnChange; Write (Some (js "{}")); Type_ (js "{1}")] Hi) as (H1 & _ & H3).
  split; [exact (proj1 (H1 (Type_ (js "x")) ltac:(discriminate)))|exact H3].
Defined.

(** The text given as the input [value] never reaches CodeMirror. *)
Lemma editor_input_ignored cfg v :
  let e := editor_ngAfterViewInit (new_editor cfg (Some v)) in value e = Some v /\ instance e = Some (js "").
Proof. done. Qed.
