(* ===== verification/Samples.v ===== *)
(** * The custom user interface of a sample service

    xenon-samples, SampleServiceWithSharedCustomUi: utilService.js,
    homeService.js, addService.js and their controllers, parentController.js,
    the routes of app.js and the alert directive.  Requests are data; answers
    are the arguments of the continuations [on_...]. *)

From S2P Require Import Prelude JsString Json.

(** ** utilService.js *)

Record HttpRequest := { method : jsstr; url : jsstr; data : option jsval; json_header : bool }.

Definition request (method url : jsstr) : HttpRequest :=
  {| method := method; url := url; data := None; json_header := true |}.

(** What [$location] answers. *)
Record location := { protocol : jsstr; host : jsstr; port : N; absUrl : jsstr }.

Section Services.
Context (l : location).

Definition getBaseUrl : jsstr := l.(protocol) ++ "://" ++ l.(host) ++ ":" ++ dec_N l.(port).
Definition getLocationParts : list jsstr := JsString.split 47 l.(absUrl).
Definition getServiceTemplate (path service : jsstr) : HttpRequest :=
  request "GET" (getBaseUrl ++ "/" ++ path ++ "/" ++ service ++ "/template").

(** ** homeService.js *)

Definition getSystemInfo : HttpRequest := request "GET" (getBaseUrl ++ "/core/management").
Definition getServicesInstances : HttpRequest := request "GET" (getBaseUrl ++ "/core/document-index?documentSelfLink=*").
Definition getNodeGroups : HttpRequest := request "GET" (getBaseUrl ++ "/core/node-groups").
Definition getFactoryServices : HttpRequest := request "GET" (getBaseUrl ++ "/").
Definition getServiceDocuments (path service : jsstr) : HttpRequest :=
  request "GET" (getBaseUrl ++ "/" ++ path ++ "/" ++ service).
Definition getServiceInstance (path service instance : jsstr) : HttpRequest :=
  request "GET" (getBaseUrl ++ "/" ++ path ++ "/" ++ service ++ "/" ++ instance).
Definition home_deleteService (selflink : jsstr) : HttpRequest :=
  {| method := "DELETE"; url := getBaseUrl ++ selflink; data := Some (JObj []); json_header := true |}.

(** ** addService.js *)

(** The parameters of the route; one that is missing reads [undefined]. *)
Record routeParams := { rp_path : option jsstr; rp_serviceName : option jsstr; rp_instanceId : option jsstr }.

Definition getServiceStats (path service : jsstr) (instance : option jsstr) : HttpRequest :=
  request "GET" (if truthy_opt instance
                 then getBaseUrl ++ "/" ++ path ++ "/" ++ service ++ "/" ++ str_or_undefined instance ++ "/stats"
                 else getBaseUrl ++ "/" ++ path ++ "/" ++ service ++ "/stats").

Definition factory_url (p : routeParams) : jsstr :=
  getBaseUrl ++ "/" ++ str_or_undefined p.(rp_path) ++ "/" ++ str_or_undefined p.(rp_serviceName).
Definition instance_url (p : routeParams) : jsstr := factory_url p ++ "/" ++ str_or_undefined p.(rp_instanceId).

Definition with_data (method url : jsstr) (d : jsval) : HttpRequest :=
  {| method := method; url := url; data := Some d; json_header := true |}.
Definition createService (p : routeParams) (newService : jsval) : HttpRequest := with_data "POST" (factory_url p) newService.
Definition putService (p : routeParams) (service : jsval) : HttpRequest := with_data "PUT" (instance_url p) service.
Definition patchService (p : routeParams) (service : jsval) : HttpRequest := with_data "PATCH" (instance_url p) service.
Definition deleteService (p : routeParams) (callBody : option jsval) : HttpRequest :=
  if truthy_val callBody
  then {| method := "DELETE"; url := instance_url p; data := callBody; json_header := true |}
  else {| method := "DELETE"; url := instance_url p; data := None; json_header := false |}.
End Services.

(** ** formatCamelCaseString *)

Section Camel.
Context `{CaseMap}.

(** [if (s.substr(0, n) === verb) { formattedText = verb; s = s.substr(n); }] *)
Definition strip_verb (acc : jsstr * jsstr) (verb : jsstr) : jsstr * jsstr :=
  let '(formattedText, s) := acc in
  if substr s 0 (Z.of_nat (length verb)) === verb
  then (verb, substr_from s (Z.of_nat (length verb))) else (formattedText, s).

Definition verbs : list jsstr := [js "GET"; js "PUT"; js "POST"; js "PATCH"; js "DELETE"].

Definition space_upper (s : jsstr) : jsstr := flat_map (fun c => if is_upper c then [32%N; c] else [c]) s.
Definition upper_first (s : jsstr) : jsstr :=
  match s with [] => [] | c :: t => (if is_line_end c then [c] else toUpperCase [c]) ++ t end.

Definition formatCamelCaseString (camelCaseString : jsstr) : jsstr :=
  let '(formattedText, s) := fold_left strip_verb verbs ([], camelCaseString) in
  formattedText ++ " " ++ upper_first (space_upper s).
End Camel.

(** ** Notifications, alert.js *)

Record notification := { n_type : option jsstr; n_text : option jsval }.
Definition no_notification : notification := {| n_type := None; n_text := None |}.
Definition success (text : jsstr) : notification := {| n_type := Some (js "success"); n_text := Some (JStr text) |}.
Definition alert_close (n : notification) : notification := no_notification.

(** A failed request: the type is set before [error.data.message] is read. *)
Definition notify_error (n : notification) (error_data : jsval) : notification * option jserr :=
  match prop error_data "message" with
  | Ret m => ({| n_type := Some (js "danger"); n_text := m |}, None)
  | Throw e => ({| n_type := Some (js "danger"); n_text := n.(n_text) |}, Some e)
  end.

(** ** addServiceController.js *)

Record add_controller := {
  documents : option jsval; documentTemplate : jsval; newDocument : jsval; add_notification : notification }.

Definition new_add_controller : add_controller :=
  {| documents := Some (JArr []); documentTemplate := JObj []; newDocument := JObj []; add_notification := no_notification |}.

(** [for (prop in templateDesc) templateDesc = templateDesc[prop]]: the names
    are those of the first value; an [undefined] in between throws. *)
Fixpoint follow (v : option jsval) (names : list jsstr) : exec (option jsval) :=
  match names with
  | [] => Ret v
  | k :: names' => match v with
                   | None => Throw TypeError
                   | Some v => w <-! prop v k;; follow w names'
                   end
  end.

Definition hidden_fields : list jsstr :=
  [js "documentDescription"; js "documentExpirationTimeMicros"; js "documentKind"; js "documentSelfLink";
   js "documentUpdateTimeMicros"; js "documentVersion"].

(** The names of the documents of an answer; a value that is no object has
    none. *)
Definition names_of (v : option jsval) : list jsstr :=
  match v with Some (JObj o) => obj_keys o | _ => [] end.

Definition template_of (response_data : jsval) : exec jsval :=
  d <-! prop response_data "documents";;
  t <-! follow d (names_of d);;
  match t with
  | None | Some JNull => Throw TypeError
  | Some v => Ret (fold_left del_prop hidden_fields v)
  end.

Definition setNewDocument (c : add_controller) : add_controller :=
  {| documents := c.(documents); documentTemplate := c.(documentTemplate); newDocument := c.(documentTemplate);
     add_notification := c.(add_notification) |}.

Definition add_notified (c : add_controller) (n : notification) : add_controller :=
  {| documents := c.(documents); documentTemplate := c.(documentTemplate); newDocument := c.(newDocument);
     add_notification := n |}.

Definition on_template (c : add_controller) (response_data : jsval) : add_controller * option jserr :=
  match template_of response_data with
  | Ret t => (setNewDocument {| documents := c.(documents); documentTemplate := t; newDocument := c.(newDocument);
                                add_notification := c.(add_notification) |}, None)
  | Throw e => (c, Some e)
  end.
Definition on_add_error (c : add_controller) (error_data : jsval) : add_controller * option jserr :=
  let '(n, e) := notify_error c.(add_notification) error_data in (add_notified c n, e).
Definition on_service_list (c : add_controller) (response_data : jsval) : add_controller * option jserr :=
  match prop response_data "documentLinks" with
  | Ret d => ({| documents := d; documentTemplate := c.(documentTemplate); newDocument := c.(newDocument);
                 add_notification := c.(add_notification) |}, None)
  | Throw e => (c, Some e)
  end.

(** The user changes a field of the new document; it is a copy, so the
    template keeps its own. *)
Definition edit_field (c : add_controller) (k : jsstr) (v : jsval) : add_controller :=
  {| documents := c.(documents); documentTemplate := c.(documentTemplate); newDocument := set_prop c.(newDocument) k v;
     add_notification := c.(add_notification) |}.

(** The requests of the constructor and of [createDocument]; the list is asked
    for again after a success. *)
Definition add_start (l : location) (p : routeParams) : list HttpRequest :=
  let path := str_or_undefined p.(rp_path) in
  let service := str_or_undefined p.(rp_serviceName) in
  [getServiceTemplate l path service; getServiceDocuments l path service].
Definition createDocument (l : location) (p : routeParams) (c : add_controller) : HttpRequest :=
  createService l p c.(newDocument).
Definition on_created (l : location) (p : routeParams) (c : add_controller) (status : Z) : add_controller * list HttpRequest :=
  if (status =? 200)%Z
  then (setNewDocument (add_notified c (success "Service created successfully!")),
        [getServiceDocuments l (str_or_undefined p.(rp_path)) (str_or_undefined p.(rp_serviceName))])
  else (c, []).

(** ** homeController.js and parentController.js *)

(** The scope: what the parent controller sets when the route changes. *)
Record scope := { s_path : option jsstr; s_service : option jsstr; s_instance : option jsstr; s_baseUrl : jsstr; s_uiBase : jsstr }.
Definition on_route_change (l : location) (p : routeParams) : scope * notification :=
  ({| s_path := p.(rp_path); s_service := p.(rp_serviceName); s_instance := p.(rp_instanceId);
      s_baseUrl := getBaseUrl l; s_uiBase := "/core/ui/custom#" |}, no_notification).

(** [None] is not a number. *)
Record home_controller := {
  home_documents : option jsval; system : jsval; maintenanceInterval : option Q;
  disk : list (jsstr * option Q); memory : list (jsstr * option Q); home_instance : jsval;
  home_notification : notification }.

Definition new_home : home_controller :=
  {| home_documents := Some (JArr []); system := JObj []; maintenanceInterval := Some (inject_Z 1000);
     disk := []; memory := []; home_instance := JObj []; home_notification := no_notification |}.

Definition num_of (v : option jsval) : option Q := match v with Some (JNum q) => Some q | _ => None end.
Definition num_sub (a b : option Q) : option Q :=
  match a, b with Some x, Some y => Some (x - y)%Q | _, _ => None end.

Definition parts (info : jsval) (label total free : jsstr) : exec (list (jsstr * option Q)) :=
  f <-! prop info free;;
  t <-! prop info total;;
  Ret [("Free " ++ label, num_of f); ("Used " ++ label, num_sub (num_of t) (num_of f))].

(** The state keeps what was assigned before an exception. *)
Definition on_system_info (c : home_controller) (response_data : jsval) : home_controller * option jserr :=
  let set_system i := {| home_documents := c.(home_documents); system := response_data; maintenanceInterval := i;
    disk := c.(disk); memory := c.(memory); home_instance := c.(home_instance); home_notification := c.(home_notification) |} in
  match prop response_data "maintenanceIntervalMicros" with
  | Throw e => (set_system c.(maintenanceInterval), Some e)
  | Ret m =>
      let c := set_system (option_map (fun q => q / inject_Z 1000)%Q (num_of m)) in
      match (i <-! prop response_data "systemInfo";;
             match i with
             | None => Throw TypeError
             | Some info =>
                 d <-! parts info "Disk" "totalDiskByteCount" "freeDiskByteCount";;
                 m <-! parts info "Memory" "totalMemoryByteCount" "freeMemoryByteCount";;
                 Ret (d, m)
             end) with
      | Throw e => (c, Some e)
      | Ret (d, m) => ({| home_documents := c.(home_documents); system := c.(system);
                          maintenanceInterval := c.(maintenanceInterval); disk := d; memory := m;
                          home_instance := c.(home_instance); home_notification := c.(home_notification) |}, None)
      end
  end.

Definition home_notified (c : home_controller) (n : notification) : home_controller :=
  {| home_documents := c.(home_documents); system := c.(system); maintenanceInterval := c.(maintenanceInterval);
     disk := c.(disk); memory := c.(memory); home_instance := c.(home_instance); home_notification := n |}.
Definition on_home_error (c : home_controller) (error_data : jsval) : home_controller * option jserr :=
  let '(n, e) := notify_error c.(home_notification) error_data in (home_notified c n, e).
Definition on_home_list (c : home_controller) (response_data : jsval) : home_controller * option jserr :=
  match prop response_data "documentLinks" with
  | Ret d => ({| home_documents := d; system := c.(system); maintenanceInterval := c.(maintenanceInterval);
                 disk := c.(disk); memory := c.(memory); home_instance := c.(home_instance);
                 home_notification := c.(home_notification) |}, None)
  | Throw e => (c, Some e)
  end.
Definition on_instance (c : home_controller) (response_data : jsval) : home_controller :=
  {| home_documents := c.(home_documents); system := c.(system); maintenanceInterval := c.(maintenanceInterval);
     disk := c.(disk); memory := c.(memory); home_instance := response_data; home_notification := c.(home_notification) |}.

Definition home_list (l : location) (s : scope) : HttpRequest :=
  getServiceDocuments l (str_or_undefined s.(s_path)) (str_or_undefined s.(s_service)).
Definition home_start (l : location) (s : scope) : list HttpRequest :=
  [home_list l s]
  ++ match s.(s_instance) with
     | Some i => if truthy i
                 then [getServiceInstance l (str_or_undefined s.(s_path)) (str_or_undefined s.(s_service)) i] else []
     | None => []
     end.
Definition on_deleted (l : location) (s : scope) (c : home_controller) (status : Z) : home_controller * list HttpRequest :=
  if (status =? 200)%Z then (home_notified c (success "Instance deleted successfully."), [home_list l s]) else (c, []).

(** [poll]: after the interval in force when it is called, the system is asked
    and [poll] is called again. *)
Definition on_poll (l : location) (c : home_controller) : list HttpRequest * option Q :=
  ([getSystemInfo l], c.(maintenanceInterval)).

(** ** Properties *)

(** *** The form of a new document *)

Lemma del_prop_get o k k' : obj_get (List.filter (fun kv => kv.1 !== k) o) k' = if k' === k then None else obj_get o k' :> option jsval.
Proof.
  induction o as [|[k1 v1] o IH]; cbn [List.filter obj_get fst]; [by destruct (k' === k)|].
  destruct (k1 === k) eqn:E1; cbn [negb].
  - rewrite IH. apply str_eqb_eq in E1 as ->. rewrite (str_eqb_sym k k'). by destruct (k' === k).
  - cbn [obj_get]. rewrite IH. destruct (k1 === k') eqn:E2; [|done].
    apply str_eqb_eq in E2 as ->. by rewrite E1.
Qed.

Lemma del_props_get ks o :
  exists o', fold_left del_prop ks (JObj o) = JObj o'
    /\ forall k, obj_get o' k = if bool_decide (k ∈ ks) then None else obj_get o k.
Proof.
  revert o. induction ks as [|k ks IH]; intros o; cbn [fold_left del_prop]; [by exists o|].
  destruct (IH (List.filter (fun kv => kv.1 !== k) o)) as (o' & -> & H). exists o'. split; [done|].
  intros k'. rewrite H, del_prop_get. destruct (k' === k) eqn:E; [apply str_eqb_eq in E|apply str_eqb_neq in E];
    repeat case_bool_decide; set_solver.
Qed.

(** A factory that answers with one document gives a form with exactly the
    fields of that document that are not its own bookkeeping; the form is a
    copy, so a document created from an edited form leaves the template as it
    was and the next form starts from it again.  An answer with a second
    document whose link is not a field of the first is not handled: nothing is
    set, and an exception is thrown. *)
Theorem form_of_template (l : location) (p : routeParams) (c : add_controller) (link : jsstr) (doc : list (jsstr * jsval))
    (links : list (jsstr * jsval)) (edits : list (jsstr * jsval)) :
  let answer docs := JObj [(js "documents", JObj docs)] in
  (exists t, (forall k, obj_get t k = if bool_decide (k ∈ hidden_fields) then None else obj_get doc k)
    /\ let '(c1, e) := on_template c (answer [(link, JObj doc)]) in
       e = None /\ documentTemplate c1 = JObj t /\ newDocument c1 = JObj t
       /\ let c2 := fold_left (fun c kv => edit_field c kv.1 kv.2) edits c1 in
          createDocument l p c2 = with_data "POST" (factory_url l p) (newDocument c2)
          /\ newDocument (fst (on_created l p c2 200)) = JObj t)
  /\ match links with
     | (link2, _) :: _ => obj_get doc link2 = None ->
         on_template c (answer ((link, JObj doc) :: links)) = (c, Some TypeError)
     | [] => True
     end.
Proof.
  intros answer. split.
  - destruct (del_props_get hidden_fields doc) as (t & Ht & Hk). exists t. split; [done|].
    unfold on_template, template_of. cbn [prop answer obj_get exec_bind names_of obj_keys fmap list_fmap follow].
    rewrite str_eqb_refl. cbn [exec_bind names_of obj_keys fmap list_fmap follow prop obj_get fst].
    rewrite str_eqb_refl. cbn [exec_bind follow]. rewrite Ht. do 3 (split; [done|]).
    cbv zeta. split; [done|].
    assert (Hd : forall es c', documentTemplate (fold_left (fun c kv => edit_field c kv.1 kv.2) es c') = documentTemplate c').
    { induction es as [|e es IH]; intros c'; [done|]. cbn [fold_left]. by rewrite IH. }
    unfold on_created.
    cbn [fst Z.eqb Pos.eqb setNewDocument newDocument add_notified documentTemplate]. by rewrite Hd.
  - destruct links as [|[link2 doc2] links]; [done|]. intros Hn. unfold on_template, template_of.
    cbn [prop answer obj_get exec_bind]. rewrite str_eqb_refl.
    cbn [exec_bind names_of obj_keys fmap list_fmap follow prop obj_get fst]. rewrite str_eqb_refl.
    cbn [exec_bind follow prop]. rewrite Hn. cbn [exec_bind]. by destruct links.
Qed.

Lemma form_of_template_witness :
  let l := {| protocol := "http"; host := "localhost"; port := 8000; absUrl := "http://localhost:8000/" |} in
  let p := {| rp_path := Some (js "core"); rp_serviceName := Some (js "examples"); rp_instanceId := None |} in
  on_template new_add_controller
    (JObj [(js "documents", JObj [(js "/a", JObj [(js "name", JStr "x")]); (js "/b", JObj [])])])
  = (new_add_controller, Some TypeError).
Proof.
  intros l p. exact (proj2 (form_of_template l p new_add_controller (js "/a") [(js "name", JStr "x")]
    [(js "/b", JObj [])] []) eq_refl).
Defined.

(** *** Measurements *)

(** The two parts of a chart make up the whole. *)
Lemma parts_add_up info label total free t f :
  prop info total = Ret (Some (JNum t)) -> prop info free = Ret (Some (JNum f)) ->
  exists u, parts info label total free = Ret [("Free " ++ label, Some f); ("Used " ++ label, Some u)] /\ (f + u == t)%Q.
Proof. intros Ht Hf. unfold parts. rewrite Ht, Hf. exists (t - f)%Q. split; [done|]. ring. Qed.

(** *** Names *)

Definition without_spaces (s : jsstr) : jsstr := List.filter (fun c => negb (c =? 32)%N) s.

Lemma space_upper_letters s : without_spaces (space_upper s) = without_spaces s.
Proof.
  induction s as [|c s IH]; [done|]. unfold without_spaces, space_upper in *. cbn [flat_map].
  rewrite List.filter_app, IH. destruct (is_upper c) eqn:E; [|by cbn; destruct (c =? 32)%N].
  cbn. by destruct (c =? 32)%N.
Qed.

Lemma without_spaces_cons c s : without_spaces (c :: s) = (if (c =? 32)%N then [] else [c]) ++ without_spaces s.
Proof. unfold without_spaces. cbn. by destruct (c =? 32)%N. Qed.

(** A name in camel case, without a verb in front, keeps its letters: only the
    first is put in upper case, and spaces are inserted. *)
Lemma camel_letters `{CaseMap} (c : N) (s : jsstr) :
  is_lower c = true -> (forall v, v ∈ verbs -> startsWith (c :: s) v = false) ->
  without_spaces (formatCamelCaseString (c :: s)) = without_spaces (upper_unit c :: s).
Proof.
  intros Hc Hv. unfold formatCamelCaseString.
  assert (G : forall vs, (forall v, v ∈ vs -> startsWith (c :: s) v = false) ->
    fold_left strip_verb vs ([], c :: s) = ([], c :: s)).
  { induction vs as [|v vs IH]; intros Hvs; [done|]. cbn [fold_left].
    assert (E : strip_verb ([], c :: s) v = ([], c :: s)); [|rewrite E; apply IH; set_solver].
    unfold strip_verb. destruct (substr (c :: s) 0 _ === v) eqn:E; [|done]. exfalso. apply str_eqb_eq in E.
    assert (Hs : startsWith (c :: s) v = true); [|rewrite Hvs in Hs; [done|set_solver]].
    apply startsWith_iff. unfold substr in E. rewrite drop_0 in E. rewrite <- (take_drop (Z.to_nat (Z.of_nat (length v))) (c :: s)).
    rewrite E. by eexists. }
  rewrite G by done. cbn [app]. change (js " " ++ upper_first (space_upper (c :: s))) with (32%N :: upper_first (space_upper (c :: s))).
  assert (Hr : (97 <= c <= 122)%N) by (unfold is_lower, in_range in Hc; apply andb_true_iff in Hc as [H1%N.leb_le H2%N.leb_le]; lia).
  assert (Hup : is_upper c = false) by (unfold is_upper, in_range; apply andb_false_iff; right; apply N.leb_gt; lia).
  assert (Hle : is_line_end c = false) by (unfold is_line_end; apply bool_decide_eq_false; set_unfold; lia).
  assert (Hlt : is_ascii [c] = true) by (unfold is_ascii; cbn [forallb]; rewrite andb_true_r; apply N.ltb_lt; lia).
  cbn [space_upper flat_map]. rewrite Hup. cbn [app upper_first]. rewrite Hle, toUpperCase_ascii by done. cbn [map app].
  by rewrite !without_spaces_cons, space_upper_letters.
Qed.
