(* ===== verification/QueryTypes.v ===== *)
(** * The types of query tasks

    The interfaces of modules/app/interfaces/core that describe a query task,
    as predicates on the value that is sent, and the proof that the tasks of the
    query view and of the tracing view conform to them; and that the two modes of
    the query view agree. *)

From S2P Require Import Prelude JsString Lodash Json JsonParse Interfaces BaseService Ui QueryClauses Query.
From S2P Require Import Pagination OperationTracing.

(** ** Checking a value against an interface *)

Record field := { fname : jsstr; required : bool; fcheck : jsval -> bool }.
Definition opt (n : jsstr) (c : jsval -> bool) : field := {| fname := n; required := false; fcheck := c |}.
Definition req (n : jsstr) (c : jsval -> bool) : field := {| fname := n; required := true; fcheck := c |}.

Definition is_string (v : jsval) : bool := match v with JStr _ => true | _ => false end.
Definition is_number (v : jsval) : bool := match v with JNum _ => true | _ => false end.
Definition is_boolean (v : jsval) : bool := match v with JBool _ => true | _ => false end.
Definition is_any (v : jsval) : bool := true.
Definition array_of (c : jsval -> bool) (v : jsval) : bool := match v with JArr l => forallb c l | _ => false end.

(** A property that the interface has, with a value of its type. *)
Definition known (fs : list field) (kv : jsstr * jsval) : bool :=
  existsb (fun f => (f.(fname) === kv.1) && f.(fcheck) kv.2) fs.
Definition has_required (fs : list field) (o : list (jsstr * jsval)) : bool :=
  forallb (fun f => negb f.(required) || hasOwnProperty o f.(fname)) fs.
Definition conforms (fs : list field) (v : jsval) : bool :=
  match v with JObj o => forallb (known fs) o && has_required fs o | _ => false end.

(** ** The interfaces *)

(** numeric-range.ts *)
Definition is_NumericRange : jsval -> bool := conforms
  [req "type" is_string; req "min" is_number; req "max" is_number;
   req "isMinInclusive" is_string; req "isMaxInclusive" is_string; req "precisionStep" is_string].

(** query-term.ts *)
Definition is_QueryTerm : jsval -> bool := conforms
  [req "propertyName" is_string; opt "propertyType" is_string; opt "matchValue" is_string;
   opt "matchType" is_string; opt "range" is_NumericRange].

(** boolean-clause.ts: a term or clauses, not both. *)
Fixpoint is_BooleanClause (v : jsval) : bool :=
  match v with
  | JObj o =>
      forallb (fun kv =>
        if kv.1 === "term" then is_QueryTerm kv.2
        else if kv.1 === "occurance" then is_string kv.2
        else if kv.1 === "booleanClauses" then match kv.2 with JArr l => forallb is_BooleanClause l | _ => false end
        else false) o
      && negb (hasOwnProperty o "term" && hasOwnProperty o "booleanClauses")
  | _ => false
  end.

(** query-specification.ts *)
Definition spec_fields : list field :=
  [req "query" is_BooleanClause; opt "options" (array_of is_string); opt "linkTerms" (array_of is_QueryTerm);
   opt "sortTerm" is_QueryTerm; opt "groupSortTerm" is_QueryTerm; opt "groupByTerm" is_QueryTerm;
   opt "sortOrder" is_string; opt "groupSortOrder" is_string; opt "resultLimit" is_number;
   opt "groupResultLimit" is_number; opt "expectedResultCount" is_number].
Definition is_QuerySpecification : jsval -> bool := conforms spec_fields.

(** task-state.ts *)
Definition is_TaskState : jsval -> bool := conforms
  [opt "stage" is_string; opt "isDirect" is_boolean; opt "failure" is_any; opt "durationMicros" is_number].

(** service-document.ts *)
Definition document_fields : list field :=
  [opt "documentVersion" is_number; opt "documentUpdateTimeMicros" is_number;
   opt "documentExpirationTimeMicros" is_number; opt "documentOwner" is_string; opt "documentSelfLink" is_string;
   opt "documentSourceLink" is_string; opt "documentKind" is_string; opt "documentEpoch" is_number;
   opt "documentTransactionId" is_string; opt "documentAuthPrincipalLink" is_string;
   opt "documentUpdateAction" is_string].

(** query-task.ts *)
Definition is_QueryTask : jsval -> bool := conforms
  (document_fields
   ++ [opt "tenantLinks" (array_of is_string); req "taskInfo" is_TaskState; req "querySpec" is_QuerySpecification;
       opt "results" is_any; opt "indexLink" is_string; opt "nodeSelectorLink" is_string]).

(** ** The tasks conform *)

(** The types that the forms offer. *)
Definition nested_known (c : QueryClauseNestedComponent) : Prop := c.(qn_type) ∈ [js "string"; js "range"].
Definition clause_known (c : QueryClauseComponent) : Prop :=
  c.(qc_type) ∈ [js "string"; js "range"; js "sort"; js "group"; js "nested"] /\ Forall nested_known c.(queryNestedComponent).
Definition tracing_known (c : OperationTracingClauseComponent) : Prop := c.(oc_type) ∈ [js "string"; js "range"].

Lemma string_clause_typed m v p o : is_BooleanClause (string_clause m v p o) = true.
Proof. reflexivity. Qed.
Lemma range_clause_typed p r o : is_BooleanClause (range_clause p r o) = true.
Proof. reflexivity. Qed.

Lemma nested_clause_typed o l : forallb is_BooleanClause l = true ->
  is_BooleanClause (JObj [(js "booleanClauses", JArr l); (js "occurance", JStr o)]) = true.
Proof.
  intros H. change (is_BooleanClause _) with ((forallb is_BooleanClause l && true) && true). by rewrite H.
Qed.

Lemma nested_typed cs : Forall nested_known cs -> forallb is_BooleanClause (getClauses cs) = true.
Proof.
  induction 1 as [|c cs Hc _ IH]; [done|]. unfold getClauses in *. cbn [map forallb]. rewrite IH, andb_true_r.
  unfold nested_getClause. unfold nested_known in Hc. set_unfold in Hc. destruct Hc as [E|[E|[]]]; rewrite E; reflexivity.
Qed.

Lemma regular_typed (c : QueryClauseComponent) : clause_known c -> is_regular c = true ->
  is_BooleanClause (getClause c) = true.
Proof.
  intros [Ht Hn] Hr. unfold is_regular, is_sort, is_group in Hr. unfold getClause. set_unfold in Ht.
  destruct Ht as [E|[E|[E|[E|[E|[]]]]]]; rewrite E in *; try done.
  apply nested_clause_typed. by apply nested_typed.
Qed.

Lemma forallb_Forall {A} (p : A -> bool) l : forallb p l = true <-> Forall (fun x => p x = true) l.
Proof. rewrite forallb_forall, list.Forall_forall. by setoid_rewrite list_elem_of_In. Qed.

Lemma obj_set_known fs (o : list (jsstr * jsval)) k v :
  known fs (k, v) = true -> Forall (fun kv => known fs kv = true) o -> Forall (fun kv => known fs kv = true) (obj_set o k v).
Proof.
  intros Hk Ho. induction Ho as [|[k' v'] o Hk' Ho IH]; cbn; [by repeat constructor|].
  destruct (str_eqb k' k) eqn:E; [|by constructor]. apply str_eqb_eq in E as ->. by constructor.
Qed.

Lemma extra_known cs s :
  Forall (fun kv => known spec_fields kv = true) s.(sp_extra) ->
  Forall (fun kv => known spec_fields kv = true) (fold_left add_clause cs s).(sp_extra).
Proof.
  revert s. induction cs as [|c cs IH]; intros s Hs; [done|]. cbn [fold_left]. apply IH. unfold add_clause.
  destruct (qc_type c === "sort") eqn:E1; cbn [sp_extra]; [by do 2 (apply obj_set_known; [reflexivity|])|].
  destruct (qc_type c === "group") eqn:E2; cbn [sp_extra]; [|done].
  apply str_eqb_eq in E2. unfold getClause. rewrite E2.
  do 2 (apply obj_set_known; [reflexivity|]). done.
Qed.

(** A specification is typed when its clauses and its added properties are. *)
Lemma spec_typed (options : list jsstr) (limit : list (jsstr * jsval)) (clauses : list jsval) (extra : list (jsstr * jsval)) :
  forallb is_BooleanClause clauses = true -> Forall (fun kv => known spec_fields kv = true) (limit ++ extra) ->
  is_QuerySpecification (JObj ((js "options", JArr (map JStr options)) :: limit
    ++ (js "query", JObj [(js "booleanClauses", JArr clauses); (js "occurance", JStr "MUST_OCCUR")]) :: extra)) = true.
Proof.
  intros Hc He. apply list.Forall_app in He as [Hl He]. unfold is_QuerySpecification, conforms. apply andb_true_iff. split.
  - cbn [forallb]. rewrite forallb_app. cbn [forallb]. apply andb_true_iff. split.
    + assert (Ho : forallb is_string (map JStr options) = true) by (induction options; [done|by cbn]).
      change (known spec_fields _) with (forallb is_string (map JStr options) || false). by rewrite Ho.
    + rewrite (proj2 (forallb_Forall _ limit) Hl). cbn [andb].
      rewrite (proj2 (forallb_Forall _ extra) He), andb_true_r.
      change (known spec_fields _) with
        (is_BooleanClause (JObj [(js "booleanClauses", JArr clauses); (js "occurance", JStr "MUST_OCCUR")]) || false).
      by rewrite nested_clause_typed.
  - assert (Hq : hasOwnProperty ((js "options", JArr (map JStr options)) :: limit
        ++ (js "query", JObj [(js "booleanClauses", JArr clauses); (js "occurance", JStr "MUST_OCCUR")]) :: extra) "query" = true).
    { unfold hasOwnProperty. destruct (obj_get _ _) eqn:E; [done|]. exfalso. apply obj_get_None in E. apply E.
      unfold obj_keys. rewrite fmap_cons, fmap_app, fmap_cons. set_solver. }
    unfold has_required, spec_fields. cbn [forallb required negb orb fname req opt]. by rewrite Hq.
Qed.

Lemma task_typed spec : is_QuerySpecification spec = true ->
  is_QueryTask (JObj [(js "taskInfo", JObj [(js "isDirect", JBool true)]); (js "querySpec", spec)]) = true.
Proof.
  intros H. change (is_QueryTask _) with ((true && ((is_QuerySpecification spec || false) && true)) && true). by rewrite H.
Qed.

(** C27: The task that the query view sends for an interactive query, the task
    that counts its results, and the task of the tracing view conform to the
    interface of query tasks: only its properties, each of its type, the
    required ones present, and no clause with both a term and clauses. *)
Theorem query_tasks_typed (q : QueryComponent) (cs : list QueryClauseComponent)
    (t : OperationTracingComponent) (ts : list OperationTracingClauseComponent) :
  Forall clause_known cs -> Forall tracing_known ts ->
  is_QueryTask (buildInteractiveQueryTask q cs) = true
  /\ is_QueryTask (counted_task q cs) = true
  /\ is_QueryTask (trace_buildInteractiveQueryTask t ts) = true.
Proof.
  intros Hcs Hts. assert (Hreg : forallb is_BooleanClause (map form_clause (List.filter is_regular cs)) = true).
  { rewrite <- regular_clauses. induction Hcs as [|c cs Hc _ IH]; [done|]. cbn [List.filter].
    destruct (is_regular c) eqn:E; [|done]. cbn [map forallb]. by rewrite regular_typed, IH. }
  assert (Hex : Forall (fun kv => known spec_fields kv = true) (form_terms cs))
    by (rewrite <- (form_terms_spec q); apply extra_known; constructor).
  rewrite built_task. split_and!.
  - apply task_typed, (spec_typed _ [(js "resultLimit", JInt 25)]); [exact Hreg|]. constructor; [reflexivity|exact Hex].
  - apply task_typed, (spec_typed _ []); [exact Hreg|exact Hex].
  - assert (Ht : forallb is_BooleanClause (map tracing_getClause ts) = true).
    { induction Hts as [|c ts Hc _ IH]; [done|]. cbn [map forallb]. rewrite IH, andb_true_r.
      unfold tracing_getClause. unfold tracing_known in Hc. set_unfold in Hc.
      destruct Hc as [E|[E|[]]]; rewrite E; reflexivity. }
    assert (Hs := spec_typed [js "EXPAND_CONTENT"] []
      ([trace_term "referer" t.(refererOption) "WILDCARD"; trace_term "action" t.(traceMethodsOption) "TERM";
        trace_term "path" t.(pathOption) "WILDCARD"] ++ map tracing_getClause ts) [] Ht (Forall_nil_2 _)).
    unfold trace_buildInteractiveQueryTask. set (spec := JObj (_ :: _)) in *.
    change (is_QueryTask _) with ((true && ((is_QuerySpecification spec || false) && true)) && true).
    by rewrite Hs.
Qed.

Lemma query_tasks_typed_witness :
  let c := {| qc_id := 1; qc_type := "nested"; qc_occurance := "MUST_OCCUR"; qc_propertyName := js "name";
              qc_propertyMatchType := "TERM"; qc_propertyValue := js "x"; qc_propertyValueRange := default_range;
              qc_sortOrder := "ASC"; queryNestedComponent := [new_nested 1] |} in
  is_QueryTask (buildInteractiveQueryTask sample_query [c; new_clause 2]) = true.
Proof.
  intros c. refine (proj1 (query_tasks_typed sample_query [c; new_clause 2] new_tracing [] _ (Forall_nil_2 _))).
  constructor; [|constructor; [|constructor]]; (split; [decide_done|constructor; [decide_done|constructor]]).
Defined.

(** ** The two modes of the query view *)

Definition int_range (r : NumericRange) : Prop := json_plain (JNum r.(min_)) /\ json_plain (JNum r.(max_)).
Definition clause_ints (c : QueryClauseComponent) : Prop :=
  int_range c.(qc_propertyValueRange) /\ Forall (fun n => int_range n.(qn_propertyValueRange)) c.(queryNestedComponent).

Lemma plain_object o : NoDup (obj_keys o) -> Forall (fun kv => json_plain kv.2) o -> json_plain (JObj o).
Proof. intros H1 H2. by apply plain_obj. Qed.

Ltac plain_fields := apply plain_object; [decide_done|repeat (apply List.Forall_cons; [try exact I|]); try apply List.Forall_nil].

Lemma string_clause_plain m v p o : json_plain (string_clause m v p o).
Proof. plain_fields. plain_fields. Qed.

Lemma range_clause_plain p r o : int_range r -> json_plain (range_clause p r o).
Proof. intros [H1 H2]. plain_fields. plain_fields. plain_fields; done. Qed.

Lemma clause_plain c : clause_ints c -> json_plain (getClause c).
Proof.
  intros [Hr Hn]. unfold getClause. destruct (qc_type c === "string"); [apply string_clause_plain|].
  destruct (qc_type c === "range"); [by apply range_clause_plain|].
  destruct (qc_type c === "sort"); [plain_fields|]. destruct (qc_type c === "group"); [plain_fields|].
  destruct (qc_type c === "nested"); [|exact I]. plain_fields. apply plain_arr. unfold getClauses. apply Forall_map.
  eapply list.Forall_impl; [exact Hn|]. intros n Hi. unfold nested_getClause.
  destruct (qn_type n === "string"); [apply string_clause_plain|].
  destruct (qn_type n === "range"); [by apply range_clause_plain|exact I].
Qed.

Lemma extra_plain cs s : Forall clause_ints cs ->
  NoDup (obj_keys s.(sp_extra)) -> Forall (fun kv => json_plain kv.2) s.(sp_extra) ->
  let e := (fold_left add_clause cs s).(sp_extra) in NoDup (obj_keys e) /\ Forall (fun kv => json_plain kv.2) e.
Proof.
  intros Hcs. revert s. induction Hcs as [|c cs Hc _ IH]; intros s H1 H2; [done|]. cbn [fold_left]. unfold add_clause at 2 4.
  destruct (qc_type c === "sort"); [|destruct (qc_type c === "group"); [|by apply IH]]; apply IH; cbn [sp_extra].
  - by do 2 apply obj_keys_set_NoDup.
  - apply obj_set_plain; [exact I|]. apply obj_set_plain; [plain_fields|done].
  - by do 2 apply obj_keys_set_NoDup.
  - do 2 (apply obj_set_plain; [by apply clause_plain|]). done.
Qed.

Lemma task_plain q cs : Forall clause_ints cs -> json_plain (buildInteractiveQueryTask q cs).
Proof.
  intros Hcs. destruct (spec_fold cs {| sp_options := getQueryOptions q; sp_clauses := []; sp_extra := [] |}) as (H1 & H2 & H3).
  specialize (H3 (Forall_nil_2 _)). fold (spec_of q cs) in H1, H2, H3.
  destruct (extra_plain cs {| sp_options := getQueryOptions q; sp_clauses := []; sp_extra := [] |} Hcs (NoDup_nil_2) (Forall_nil_2 _))
    as [Hnd Hpl]. fold (spec_of q cs) in Hnd, Hpl.
  unfold buildInteractiveQueryTask. plain_fields; [plain_fields|]. unfold spec_value. apply plain_object.
  - unfold obj_keys. rewrite fmap_app. apply list.NoDup_app. split_and!; [decide_done| |exact Hnd].
    intros k Hk Hin. apply list_elem_of_fmap in Hin as ([k' v] & -> & Hin). rewrite list.Forall_forall in H3.
    specialize (H3 _ Hin). cbn [fst] in *. revert Hk. apply (bool_decide_eq_false_1 _).
    clear -H3. unfold extra_keys in H3. set_unfold in H3. destruct H3 as [->|[->|[->|[->|[]]]]]; reflexivity.
  - apply list.Forall_app. split; [|exact Hpl].
    repeat (apply List.Forall_cons); try apply List.Forall_nil; cbn [snd].
    + apply plain_arr. apply Forall_map. by apply Forall_true.
    + exists ODataUtil.DEFAULT_PAGE_SIZE. split; [vm_compute; reflexivity|reflexivity].
    + plain_fields. apply plain_arr. rewrite H1. cbn [sp_clauses app]. apply Forall_map.
      apply list.Forall_forall. intros c Hc%list_elem_of_In%filter_In. rewrite list.Forall_forall in Hcs.
      apply clause_plain, Hcs. by apply list_elem_of_In, Hc.
Qed.

(** C28: In the advanced mode, the text of the task the form stands for, however
    it is indented, is read back to that task: it is kept as the interactive mode
    keeps it, and the request made first is the same, the count of the task of the
    form.  The bounds of range clauses are taken to be integers, whose texts are
    known. *)
Theorem modes_agree {E : Engine} {NT : NumText} (BUILD_TYPE : jsstr) (b : BaseService) (q : QueryComponent)
    (cs : list QueryClauseComponent) (gap : jsstr) :
  ws gap -> Forall clause_ints cs ->
  let form := onQueryBuilderModeChanged q "interactive" in
  let text := q_with_form (onQueryBuilderModeChanged q "advanced") "advanced" q.(interactiveQueryClauses)
                (stringify_gap gap [] (kept_task q cs)) q.(queryVersionsOption)
                q.(deletedDocumentInclusionOption) q.(ownerSelectionOption) in
  exists r q1 q2, onQuery BUILD_TYPE json_parse b form cs = (q1, [EHttp CountQuery [r]])
    /\ onQuery BUILD_TYPE json_parse b text cs = (q2, [EHttp CountQuery [r]])
    /\ r.(rq_body) = Some (stringify (counted_task q cs))
    /\ q1.(queryTask) = Some (kept_task q cs) /\ q2.(queryTask) = Some (kept_task q cs) /\ q1.(pager) = q2.(pager).
Proof.
  intros Hg Hcs form text. assert (Hp := task_plain q cs Hcs). rewrite built_task in Hp.
  assert (Ht : build_task json_parse text cs = Ret (Some (kept_task q cs))).
  { unfold build_task, buildAdvancedQueryTask. change (queryBuilderMode text === "interactive") with false.
    change (queryBuilderMode text === "advanced") with true. cbv iota.
    change (advancedQueryTaskInput text) with (stringify_gap gap [] (kept_task q cs)).
    by rewrite parse_stringify. }
  assert (Hf : build_task json_parse form cs = Ret (Some (kept_task q cs))) by exact (f_equal (fun t => Ret (Some t)) (built_task q cs)).
  destruct (post_query BUILD_TYPE b (BValue (counted_task q cs))) as (r & Hr & Hb).
  unfold onQuery. rewrite Ht, Hf. change (isEmpty_val (Some (kept_task q cs))) with false. cbn [default from_option id].
  rewrite <- built_task, count_task_interactive, built_task. cbn [exec_bind]. rewrite Hr. eexists r, _, _. split_and!; done.
Qed.

Lemma modes_agree_witness :
  let q := sample_query in let cs := sample_form in
  let form := onQueryBuilderModeChanged q "interactive" in
  let text := q_with_form (onQueryBuilderModeChanged q "advanced") "advanced" q.(interactiveQueryClauses)
                (@stringify_gap quotient_text [32%N; 32%N] [] (kept_task q cs)) q.(queryVersionsOption)
                q.(deletedDocumentInclusionOption) q.(ownerSelectionOption) in
  exists r q1 q2, @onQuery plain_engine quotient_text "dev" json_parse sample_base form cs = (q1, [EHttp CountQuery [r]])
    /\ @onQuery plain_engine quotient_text "dev" json_parse sample_base text cs = (q2, [EHttp CountQuery [r]])
    /\ r.(rq_body) = Some (@stringify quotient_text (counted_task q cs))
    /\ q1.(queryTask) = Some (kept_task q cs) /\ q2.(queryTask) = Some (kept_task q cs) /\ q1.(pager) = q2.(pager).
Proof.
  assert (Hg : ws [32%N; 32%N]) by (repeat constructor).
  assert (H0 : json_plain (JInt 0)) by (exists 0%Z; split; [vm_compute; reflexivity|reflexivity]).
  assert (Hc : Forall clause_ints sample_form) by (repeat constructor; exact H0).
  exact (@modes_agree plain_engine quotient_text "dev" sample_base sample_query sample_form [32%N; 32%N] Hg Hc).
Defined.

(** The details of a traced operation show a text that reads back to the value. *)
Lemma detail_reads_back {NT : NumText} (v : jsval) : json_plain v -> json_parse (getJSONString v) = Ret v.
Proof. apply parse_stringify. repeat constructor. Qed.

(** ** The text the advanced mode starts with *)

(** Single quotes stand for double ones. *)
Definition double_quotes (s : jsstr) : jsstr := map (fun c => if (c =? 39)%N then 34%N else c) s.

(** The lines of the text and the comments at their ends. *)
Definition sample_lines : list (jsstr * jsstr) :=
  [ (js "{", []);
    (js "    'taskInfo': {", []);
    (js "        'isDirect': true", js " // No result will be shown if set to false");
    (js "    },", []);
    (js "    'querySpec': {", []);
    (js "        'options': [", []);
    (js "", js "            // Query Options");
    (js "        ],", []);
    (js "        'query': {", []);
    (js "            'occurance': 'MUST_OCCUR',", js " // Occurance Options");
    (js "            'term': {", []);
    (js "                'matchType': 'WILDCARD',", js " // Term Matching Options");
    (js "                'matchValue': 'service-*',", []);
    (js "                'propertyName': 'name'", []);
    (js "            }", []);
    (js "        },", []);
    (js "        'sortTerm' : {", []);
    (js "            'propertyType': 'STRING',", []);
    (js "            'propertyName': 'name'", []);
    (js "        },", []);
    (js "        'sortOrder' : 'DESC',", []);
    (js "        'resultLimit': 25", []);
    (js "    }", []);
    (js "}", []) ].

Definition sampleQueryTask : jsstr := join [10%N] (map (fun lc => double_quotes lc.1 ++ lc.2) sample_lines).
Definition sample_without_comments : jsstr := join [10%N] (map (fun lc => double_quotes lc.1) sample_lines).

(** The comments make the text no JSON: in the advanced mode the query that the
    view starts with is always refused and nothing is sent. *)
Lemma sample_query_refused {E : Engine} {NT : NumText} (BUILD_TYPE : jsstr) (b : BaseService) (q : QueryComponent)
    (cs : list QueryClauseComponent) :
  q.(advancedQueryTaskInput) = sampleQueryTask -> q.(queryBuilderMode) = "advanced" ->
  exists e, snd (onQuery BUILD_TYPE json_parse b q cs) = [invalid_query e].
Proof.
  intros Ht Hm. unfold onQuery, build_task, buildAdvancedQueryTask. rewrite Hm, Ht.
  change (js "advanced" === "interactive") with false. change (js "advanced" === "advanced") with true. cbv iota.
  destruct (json_parse sampleQueryTask) as [v|e] eqn:E1; [vm_compute in E1; discriminate E1|]. by exists e.
Qed.

(** Without them it is a query task. *)
Lemma sample_query_typed : exists v, json_parse sample_without_comments = Ret v /\ is_QueryTask v = true.
Proof. eexists. split; [vm_compute; reflexivity|]. vm_compute. reflexivity. Qed.
