(* ===== verification/AppShell.v ===== *)
(** * Services around the application

    modules/core/services/storage.service.ts, modules/core/utils/config.ts
    (platforms, environment), modules/core/directives/platform.directive.ts,
    modules/analytics/services/analytics.service.ts,
    modules/i18n/services/multilingual.service.ts, the routes of the
    application with their guards, and the desktop shell main.desktop.ts. *)

From S2P Require Import Prelude JsString JsNumber Lodash Json JsonParse BuildTasks NodePath BuildWatch Shell.

(** ** storage.service.ts *)

Section Storage.
Context {NT : NumText}.

(** localStorage: texts by name.  A value that is not given is [None]; its
    JSON text is [undefined], which is stored as that word.  The names are the
    texts of the numbers of [StorageKey], as localStorage makes them. *)
Definition storage : Type := list (jsstr * jsstr).

Definition setItem (s : storage) (key : jsstr) (value : option jsval) : storage :=
  obj_set s key (match value with
                 | Some JNull => js "null"
                 | Some v => stringify v
                 | None => js "undefined"
                 end).
Definition getItem (s : storage) (key : jsstr) : exec jsval :=
  match obj_get s key with None => Ret JNull | Some t => json_parse t end.
Definition removeItem (s : storage) (key : jsstr) : storage := List.filter (fun kv => kv.1 !== key) s.

(** ** config.ts *)

Definition WEB : jsstr := "web".
Definition MOBILE_NATIVE : jsstr := "mobile_native".
Definition MOBILE_HYBRID : jsstr := "mobile_hybrid".
Definition DESKTOP : jsstr := "desktop".
Definition IS_WEB (PLATFORM_TARGET : jsstr) : bool := PLATFORM_TARGET === WEB.
Definition IS_MOBILE_NATIVE (PLATFORM_TARGET : jsstr) : bool := PLATFORM_TARGET === MOBILE_NATIVE.
Definition IS_MOBILE_HYBRID (PLATFORM_TARGET : jsstr) : bool := PLATFORM_TARGET === MOBILE_HYBRID.
Definition IS_DESKTOP (PLATFORM_TARGET : jsstr) : bool := PLATFORM_TARGET === DESKTOP.

(** The string that a literal in single quotes stands for, [None] when the
    literal is not one: the escapes that JSON texts contain. *)
Fixpoint js_literal (t : jsstr) : option jsstr :=
  match t with
  | [] => Some []
  | c :: t' =>
      if (c =? 39)%N || is_line_end c then None
      else if (c =? 92)%N then
        match t' with
        | [] => None
        | e :: t'' =>
            if (e =? 117)%N then
              match t'' with
              | h1 :: h2 :: h3 :: h4 :: r =>
                  match digit_in 16 h1, digit_in 16 h2, digit_in 16 h3, digit_in 16 h4 with
                  | Some a, Some b, Some c, Some d => option_map (cons (((a * 16 + b) * 16 + c) * 16 + d)%N) (js_literal r)
                  | _, _, _, _ => None
                  end
              | _ => None
              end
            else option_map (cons (default e (unescape e))) (js_literal t'')
        end
      else option_map (cons c) (js_literal t')
  end.

(** [ENVIRONMENT] of a source into which the build has inserted [text]. *)
Definition ENVIRONMENT (text : jsstr) : option jsval :=
  match js_literal text with
  | None => None
  | Some s => Some (match json_parse s with Ret v => v | Throw _ => JObj [] end)
  end.
End Storage.

(** ** platform.directive.ts *)

Definition platformClass `{CaseMap} (userAgent : jsstr) : jsstr :=
  let agent := toLowerCase userAgent in
  if (-1 <? indexOf agent "electron")%Z then "desktop"
  else if (-1 <? indexOf agent "nativescript")%Z then "nativescript"
  else "web".

(** ** analytics.service.ts *)

Inductive analytics_call :=
  | EventTrack (action : jsstr) (properties : list (jsstr * jsval))
  | PageTrack (path : jsstr) (location : jsval)
  | SetUserProperties (properties : list (jsstr * jsval)).

(** The setting of angulartics2, and what was sent. *)
Record AnalyticsService := { developerMode : bool; sent : list analytics_call }.

Definition devMode (a : AnalyticsService) (enable : option bool) : AnalyticsService * bool :=
  let m := default a.(developerMode) enable in ({| developerMode := m; sent := a.(sent) |}, m).
Definition new_analytics (setting : bool) : AnalyticsService :=
  fst (devMode {| developerMode := setting; sent := [] |} (Some false)).

Definition send (a : AnalyticsService) (c : analytics_call) : AnalyticsService :=
  if snd (devMode a None) then a else {| developerMode := a.(developerMode); sent := a.(sent) ++ [c] |}.
Definition service_track (a : AnalyticsService) (action : jsstr) (properties : list (jsstr * jsval)) : AnalyticsService :=
  send a (EventTrack action properties).
Definition pageTrack (a : AnalyticsService) (path : jsstr) (location : jsval) : AnalyticsService :=
  send a (PageTrack path location).
Definition identify (a : AnalyticsService) (properties : list (jsstr * jsval)) : AnalyticsService :=
  send a (SetUserProperties properties).

(** [Analytics.track]: [_.extend] writes the category into the caller's
    object; the object after the call is returned too. *)
Definition track (category : jsstr) (a : AnalyticsService) (action : jsstr) (properties : list (jsstr * jsval))
    : AnalyticsService * list (jsstr * jsval) :=
  let properties := obj_set properties "category" (JStr category) in
  (service_track a action properties, properties).

(** ** multilingual.service.ts *)

(** The constructor: the languages given to the translation library, the
    default one first, then that of the state at subscription, and the action
    dispatched with the language of the browser. *)
Definition multilingual_start (state_lang navigator_language : jsstr) : list jsstr * i18n_action :=
  ([initialState; state_lang], ChangeAction (default [] (head (JsString.split 45 navigator_language)))).

(** core/utils/type.ts: the labels used so far, none of them a property that
    every object has; a second use throws. *)
Definition type (typeCache : list jsstr) (label : jsstr) : exec (jsstr * list jsstr) :=
  if includes typeCache label
  then Throw (ErrorMsg ("Action type " ++ [34%N] ++ label ++ [34%N] ++ " is not unqiue" ++ [34%N]))
  else Ret (label, typeCache ++ [label]).

Definition CATEGORY : jsstr := "Multilingual".
Definition CHANGE : jsstr := "[" ++ CATEGORY ++ "] Change".
Definition LANG_CHANGED : jsstr := "[" ++ CATEGORY ++ "] Lang Changed".
Definition LANG_UNSUPPORTED : jsstr := "[" ++ CATEGORY ++ "] Lang Unsupported".

(** The effect of multilingual.effect.ts with its call of the analytics
    service. *)
Definition change_tracked (languages : list (jsstr * jsstr)) (a : AnalyticsService) (act : i18n_action)
    : AnalyticsService * option i18n_action :=
  let r := change_effect languages act in
  match r with
  | Some (LangChangedAction l) => (fst (track CATEGORY a LANG_CHANGED [(js "label", JStr l)]), r)
  | _ => (a, r)
  end.

(** ** Routes

    A redirection is for the path as a whole (pathMatch is full in all). *)

Inductive route :=
  Route (path : jsstr) (component : option jsstr) (redirectTo : option jsstr) (canActivate canActivateChild : bool)
        (children : list route).

Definition leaf (path component : jsstr) : route := Route path (Some component) None false false [].

Definition MainRoutes : list route :=
  [ Route "main" (Some (js "MainComponent")) None true false
      [ Route "" None None false true
          [ leaf "dashboard" "DashboardGridComponent"; leaf "service" "ServiceGridComponent";
            leaf "service/:id" "ServiceDetailComponent"; leaf "service/:id/:childId" "ServiceDetailComponent";
            leaf "process-log" "ProcessLogComponent"; leaf "query" "QueryComponent";
            leaf "operation-tracing" "OperationTracingComponent";
            Route "" None (Some (js "dashboard")) false false [] ] ] ].
Definition LoginRoutes : list route := [leaf "login" "LoginComponent"].
Definition routes : list route :=
  MainRoutes ++ LoginRoutes ++ [Route "" None (Some (js "/main/dashboard")) false false []].

(** The routes with a component, each with its path and how often its own
    guard and the child guards of its parents are asked. *)
Fixpoint guarded (prefix : list jsstr) (asked : nat) (r : route) : list (list jsstr * jsstr * nat) :=
  match r with
  | Route path component _ own child children =>
      let here := prefix ++ List.filter truthy [path] in
      let asked := asked + (if own then 1 else 0) in
      match component with Some c => [(here, c, asked)] | None => [] end
      ++ flat_map (guarded here (asked + (if child then 1 else 0))) children
  end.

(** ** main.desktop.ts *)

Inductive action :=
  | Selector (s : jsstr) | Quit | Reload | ToggleFullScreen | ToggleDevTools | CloseWindow
  | OpenExternal (url : jsstr) | ChangeLang (code : jsstr) | NoAction.

Inductive menu :=
  | MItem (label : jsstr) (accelerator : jsstr) (a : action)
  | MSeparator
  | MSub (label : jsstr) (submenu : list menu).

Definition appTitle : jsstr := "Angular Seed Advanced".

Definition langMenu (languages : list (jsstr * jsstr)) : menu :=
  MSub "Language" (map (fun '(code, title) => MItem title [] (ChangeLang code)) languages).

Definition helpMenu : menu :=
  MSub "Help"
    [MItem "Learn More" [] (OpenExternal "https://github.com/NathanWalker/angular-seed-advanced");
     MItem "Issues" [] (OpenExternal "https://github.com/NathanWalker/angular-seed-advanced/issues");
     MItem "My Amazing Parent: Minko Gechev's Angular Seed" [] (OpenExternal "https://github.com/mgechev/angular-seed");
     MItem "Angular 2" [] (OpenExternal "https://angular.io/");
     MItem "Electron" [] (OpenExternal "http://electron.atom.io/");
     MItem "Electron Docs" [] (OpenExternal "https://github.com/atom/electron/tree/master/docs");
     MItem "Codeology Visualization" []
       (OpenExternal "http://codeology.braintreepayments.com/nathanwalker/angular-seed-advanced")].

Definition darwin_template (development : bool) (languages : list (jsstr * jsstr)) : list menu :=
  [MSub appTitle
     [MItem ("About " ++ appTitle) [] (Selector "orderFrontStandardAboutPanel:"); MSeparator; MSub "Services" []; MSeparator;
      MItem "Hide Angular Seed Advanced" "Command+H" (Selector "hide:");
      MItem "Hide Others" "Command+Shift+H" (Selector "hideOtherApplications:");
      MItem "Show All" [] (Selector "unhideAllApplications:"); MSeparator; MItem "Quit" "Command+Q" Quit];
   MSub "Edit"
     [MItem "Undo" "Command+Z" (Selector "undo:"); MItem "Redo" "Shift+Command+Z" (Selector "redo:"); MSeparator;
      MItem "Cut" "Command+X" (Selector "cut:"); MItem "Copy" "Command+C" (Selector "copy:");
      MItem "Paste" "Command+V" (Selector "paste:"); MItem "Select All" "Command+A" (Selector "selectAll:")];
   MSub "View"
     (if development
      then [MItem "Reload" "Command+R" Reload; MItem "Toggle Full Screen" "Ctrl+Command+F" ToggleFullScreen;
            MItem "Toggle Developer Tools" "Alt+Command+I" ToggleDevTools]
      else [MItem "Toggle Full Screen" "Ctrl+Command+F" ToggleFullScreen]);
   MSub "Window"
     [MItem "Minimize" "Command+M" (Selector "performMiniaturize:"); MItem "Close" "Command+W" (Selector "performClose:");
      MSeparator; MItem "Bring All to Front" [] (Selector "arrangeInFront:")];
   langMenu languages; helpMenu].

Definition other_template (development : bool) (languages : list (jsstr * jsstr)) : list menu :=
  [MSub "&File" [MItem "&Open" "Ctrl+O" NoAction; MItem "&Close" "Ctrl+W" CloseWindow];
   MSub "&View"
     (if development
      then [MItem "&Reload" "Ctrl+R" Reload; MItem "Toggle &Full Screen" "F11" ToggleFullScreen;
            MItem "Toggle &Developer Tools" "Alt+Ctrl+I" ToggleDevTools]
      else [MItem "Toggle &Full Screen" "F11" ToggleFullScreen]);
   langMenu languages; helpMenu].

(** [NODE_ENV] as the first line of the file leaves it. *)
Definition node_env (NODE_ENV : option jsstr) : jsstr := or_str NODE_ENV "production".
Definition template (darwin : bool) (NODE_ENV : option jsstr) (languages : list (jsstr * jsstr)) : list menu :=
  let development := node_env NODE_ENV === "development" in
  if darwin then darwin_template development languages else other_template development languages.

Fixpoint actions (m : menu) : list action :=
  match m with MItem _ _ a => [a] | MSeparator => [] | MSub _ l => flat_map actions l end.

(** The shell: [mainWindow] with its full screen flag, and whether the
    application has quit. *)
Record desktop := { mainWindow : option bool; has_quit : bool }.

Definition on_ready : desktop := {| mainWindow := Some false; has_quit := false |}.
(** The window is closed: [mainWindow] is cleared, and no window is left. *)
Definition on_closed (darwin : bool) (d : desktop) : desktop :=
  {| mainWindow := None; has_quit := d.(has_quit) || negb darwin |}.

Definition click (darwin : bool) (d : desktop) (a : action) : exec desktop :=
  match a with
  | Selector _ | OpenExternal _ | NoAction => Ret d
  | Quit => Ret {| mainWindow := d.(mainWindow); has_quit := true |}
  | Reload | ToggleDevTools | ChangeLang _ => match d.(mainWindow) with Some _ => Ret d | None => Throw TypeError end
  | ToggleFullScreen =>
      match d.(mainWindow) with
      | Some f => Ret {| mainWindow := Some (negb f); has_quit := d.(has_quit) |}
      | None => Throw TypeError
      end
  | CloseWindow => match d.(mainWindow) with Some _ => Ret (on_closed darwin d) | None => Throw TypeError end
  end.

(** ** Properties *)

Lemma removed_key (s : storage) key : obj_get (removeItem s key) key = None.
Proof.
  unfold removeItem. induction s as [|[k t] s IH]; [done|]. cbn. destruct (k === key) eqn:E; cbn; [done|]. by rewrite E.
Qed.
Lemma removed_other (s : storage) key k : k <> key -> obj_get (removeItem s key) k = obj_get s k.
Proof.
  intros Hk. unfold removeItem. induction s as [|[k' t] s IH]; [done|]. cbn. destruct (k' === key) eqn:E; cbn.
  - rewrite IH. apply str_eqb_eq in E as ->. by rewrite (proj2 (str_eqb_neq key k)) by congruence.
  - by rewrite IH.
Qed.

(** C38: The storage service returns the JSON value, with integer numbers, that was
    stored last under a name, [null] for a name that was never used or was removed, and storing or
    removing one name leaves the others alone.  A value that is [undefined] can
    be stored but not read: reading it throws. *)
Theorem storage_round_trip {NT : NumText} (s : storage) (key k : jsstr) (v : jsval) :
  json_plain v -> k <> key ->
  getItem (setItem s key (Some v)) key = Ret v
  /\ getItem (setItem s key (Some v)) k = getItem s k
  /\ getItem (removeItem s key) key = Ret JNull /\ getItem (removeItem s key) k = getItem s k
  /\ getItem (setItem s key None) key = Throw SyntaxError.
Proof.
  intros Hv Hk. unfold getItem, setItem. rewrite !obj_get_set_eq, obj_get_set_ne, removed_key, removed_other by done.
  split_and!; [|done..]. destruct v; first [done|exact (parse_stringify [] _ (Forall_nil_2 _) Hv)].
Qed.

Lemma storage_round_trip_witness :
  @getItem (@setItem quotient_text [] (js "0") (Some (JObj [(js "name", JStr "a'b"); (js "n", JInt 5)]))) (js "0")
  = Ret (JObj [(js "name", JStr "a'b"); (js "n", JInt 5)]).
Proof.
  refine (proj1 (@storage_round_trip quotient_text [] (js "0") (js "1") (JObj [(js "name", JStr "a'b"); (js "n", JInt 5)]) _ _)).
  - apply plain_obj. split; [decide_done|].
    repeat constructor. exists 5%Z. split; [vm_compute; reflexivity|reflexivity].
  - discriminate.
Defined.

(** *** The environment of the application *)

Lemma assign_plain o s : Forall (fun kv => json_plain kv.2) o -> Forall (fun kv => json_plain kv.2) s ->
  Forall (fun kv => json_plain kv.2) (assign o s).
Proof.
  intros Ho Hs. unfold assign. revert o Ho. induction Hs as [|[k v] s Hv _ IH]; intros o Ho; [done|].
  cbn [fold_left]. by apply IH, obj_set_plain.
Qed.

Definition literal_ok (c : N) : bool := negb (c =? 39)%N && negb (is_line_end c) && negb (c =? 92)%N.

Lemma js_literal_plain t : forallb literal_ok t = true -> js_literal t = Some t.
Proof.
  induction t as [|c t IH]; [done|]. cbn [forallb js_literal]. intros [Hc Ht]%andb_true_iff. rewrite IH by done.
  unfold literal_ok in Hc. apply andb_true_iff in Hc as [Hc H3]. apply andb_true_iff in Hc as [H1 H2].
  apply negb_true_iff in H1, H2, H3. by rewrite H1, H2, H3.
Qed.

(** The environment that the application reads is the one the build chose:
    the base environment with the values of the selected one over it, when its
    JSON text can stand between single quotes as it is. *)
Theorem environment_reaches_app {NT : NumText} (load : jsstr -> exec jsval) (env_config config_env : option jsstr)
    (path : jsstr) (Config b e : list (jsstr * jsval)) :
  json_plain (JObj b) -> json_plain (JObj e) ->
  load (path_join [path; js "base"]) = Ret (JObj b) ->
  load (path_join [path; config_env_name env_config config_env]) = Ret (JObj e) ->
  exists locals text env,
    build_locals load new_builder env_config config_env path Config = Ret locals
    /\ obj_get locals "ENV_CONFIG" = Some (JStr text)
    /\ (forall k, obj_get env k = match obj_get e k with Some v => Some v | None => obj_get b k end)
    /\ (forallb literal_ok text = true -> ENVIRONMENT text = Some (JObj env)).
Proof.
  intros [Hb Hbp]%plain_obj [He Hep]%plain_obj Lb Le. set (env := assign (assign [] b) e).
  assert (Hp : json_plain (JObj env)).
  { apply plain_obj. split; [by apply assign_NoDup, assign_NoDup, NoDup_nil_2|].
    apply assign_plain; [|done]. by apply assign_plain. }
  eexists _, (stringify (JObj env)), env. split_and!.
  - unfold build_locals, getConfig. rewrite Lb, Le. reflexivity.
  - unfold assign at 1. cbn [fold_left fst snd]. apply obj_get_set_eq.
  - intros k. unfold env. rewrite !assign_get by done. by destruct (obj_get e k), (obj_get b k).
  - intros Ht. unfold ENVIRONMENT. rewrite js_literal_plain by done.
    unfold stringify. by rewrite (parse_stringify [] _ (Forall_nil_2 _) Hp).
Qed.

Definition sample_load (p : jsstr) : exec jsval :=
  if p === "tools/env/base" then Ret (JObj [(js "API", JStr "https://github.com/vmware/xenon")])
  else if p === "tools/env/dev" then Ret (JObj [(js "ENV", JStr "DEV")])
  else if p === "tools/env/prod" then Ret (JObj [(js "ENV", JStr "PROD")])
  else Throw (ErrorMsg "Cannot find module").

Lemma environment_reaches_app_witness :
  exists locals text env,
    @build_locals quotient_text sample_load new_builder None None "tools/env" [] = Ret locals
    /\ obj_get locals "ENV_CONFIG" = Some (JStr text)
    /\ ENVIRONMENT text = Some (JObj env) /\ obj_get env "ENV" = Some (JStr "DEV").
Proof.
  destruct (@environment_reaches_app quotient_text sample_load None None (js "tools/env") []
    [(js "API", JStr "https://github.com/vmware/xenon")] [(js "ENV", JStr "DEV")]) as (locals & text & env & H1 & H2 & H3 & H4).
  - apply plain_obj. split; [decide_done|by repeat constructor].
  - apply plain_obj. split; [decide_done|by repeat constructor].
  - reflexivity.
  - reflexivity.
  - exists locals, text, env. split_and!; [exact H1|exact H2| |rewrite H3; reflexivity]. apply H4.
    injection H1 as <-. cbn in H2. injection H2 as <-. vm_compute. reflexivity.
Defined.

(** An environment with a double quote in a value is lost: the application
    gets an empty one. *)
Lemma quoted_environment_lost :
  ENVIRONMENT (@stringify quotient_text (JObj [(js "TITLE", JStr [34%N; 97%N; 34%N])])) = Some (JObj []).
Proof. vm_compute. reflexivity. Qed.

(** *** Routes and guards *)

(** Every view but the login page asks the guard: the main view itself, and its
    children once more. *)
Lemma views_guarded :
  Forall (fun '(path, component, asked) => if component === "LoginComponent" then asked = 0
                                           else if component === "MainComponent" then asked = 1 else asked = 2)
    (flat_map (guarded [] 0) routes).
Proof. vm_compute. repeat constructor. Qed.

(** *** Analytics *)

(** Events are sent exactly while the developer mode is off, with the category
    of their service. *)
Lemma track_sent category a act props :
  sent (fst (track category a act props))
  = if a.(developerMode) then sent a else sent a ++ [EventTrack act (obj_set props "category" (JStr category))].
Proof. unfold track, service_track, send, devMode. cbn. by destruct (developerMode a). Qed.

(** The action types of the module are different, so that declaring them does
    not throw. *)
Lemma action_types_unique :
  (x <-! type [] CHANGE;; y <-! type x.2 LANG_CHANGED;; z <-! type y.2 LANG_UNSUPPORTED;; Ret z.2)
  = Ret [CHANGE; LANG_CHANGED; LANG_UNSUPPORTED].
Proof. vm_compute. reflexivity. Qed.

(** A choice of language is tracked exactly when the language is supported. *)
Lemma supported_tracked languages a l :
  sent (fst (change_tracked languages a (ChangeAction l)))
  = sent a ++ (if includes (map fst languages) l && negb (developerMode a)
               then [EventTrack LANG_CHANGED [(js "label", JStr l); (js "category", JStr CATEGORY)]] else []).
Proof.
  unfold change_tracked, change_effect. destruct (includes (map fst languages) l); cbn [fst andb]; [|by rewrite app_nil_r].
  rewrite track_sent. by destruct (developerMode a); cbn; rewrite ?app_nil_r.
Qed.

(** *** The desktop shell *)

(** On every platform, outside development the menu has no command that
    reloads the window or opens the developer tools, and it has one command per
    supported language, which asks for that language; while the window is open
    no command fails; after it is closed the application has quit, except on
    darwin, where the commands that need the window fail. *)
Theorem desktop_menu (darwin : bool) (NODE_ENV : option jsstr) (languages : list (jsstr * jsstr)) :
  node_env NODE_ENV <> js "development" ->
  let acts := flat_map actions (template darwin NODE_ENV languages) in
  (Reload ∉ acts) /\ (ToggleDevTools ∉ acts)
  /\ flat_map (fun a => match a with ChangeLang c => [c] | _ => [] end) acts = languages.*1
  /\ (forall a d, is_Some d.(mainWindow) -> exists d', click darwin d a = Ret d')
  /\ (forall d, let d' := on_closed darwin d in
        if darwin then Forall (fun a => click darwin d' a = Throw TypeError) (ToggleFullScreen :: map ChangeLang languages.*1)
        else d'.(has_quit) = true).
Proof.
  intros Hn acts. assert (Hl : flat_map actions [langMenu languages] = map ChangeLang languages.*1).
  { cbn. rewrite app_nil_r. induction languages as [|[c t] ls IH]; [done|]. cbn. by rewrite IH. }
  assert (Hacts : exists a1 a2, acts = a1 ++ map ChangeLang languages.*1 ++ a2
    /\ Forall (fun a => match a with ChangeLang _ | Reload | ToggleDevTools => False | _ => True end) (a1 ++ a2)).
  { unfold acts, template. rewrite (proj2 (str_eqb_neq _ _) Hn). rewrite <- Hl. destruct darwin.
    - eexists (flat_map actions (take 4 (darwin_template false languages))), (flat_map actions [helpMenu]).
      split; [by rewrite <- !flat_map_app|]. repeat constructor.
    - eexists (flat_map actions (take 2 (other_template false languages))), (flat_map actions [helpMenu]).
      split; [by rewrite <- !flat_map_app|]. repeat constructor. }
  destruct Hacts as (a1 & a2 & -> & Hf). rewrite list.Forall_forall in Hf.
  assert (Hlang : forall a, a ∈ map ChangeLang languages.*1 -> exists c, a = ChangeLang c).
  { intros a (c & -> & _)%list_elem_of_fmap. by exists c. }
  split_and!.
  - intros [H|[(c & ?)%Hlang|H]%elem_of_app]%elem_of_app; [apply (Hf Reload); set_solver|done|apply (Hf Reload); set_solver].
  - intros [H|[(c & ?)%Hlang|H]%elem_of_app]%elem_of_app;
      [apply (Hf ToggleDevTools); set_solver|done|apply (Hf ToggleDevTools); set_solver].
  - assert (Hz : forall l, (forall a, a ∈ l -> match a with ChangeLang _ | Reload | ToggleDevTools => False | _ => True end) ->
      flat_map (fun a => match a with ChangeLang c => [c] | _ => [] end) l = []).
    { induction l as [|a l IH]; intros H; [done|]. cbn. rewrite IH by set_solver. specialize (H a ltac:(set_solver)). by destruct a. }
    rewrite !flat_map_app, (Hz a1), (Hz a2), app_nil_r by set_solver. cbn [app]. clear. induction (languages.*1) as [|c l IH]; [done|]. cbn. by rewrite IH.
  - intros a d [f Hd]. destruct a; cbn; rewrite ?Hd; by eexists.
  - intros d. destruct darwin; cbn; [|by rewrite orb_true_r]. constructor; [done|]. apply list.Forall_forall. intros a (c & ->)%Hlang. done.
Qed.

Lemma desktop_menu_witness :
  flat_map (fun a => match a with ChangeLang c => [c] | _ => [] end)
    (flat_map actions (template true None GET_SUPPORTED_LANGUAGES)) = [js "en"; js "es"; js "fr"; js "ru"; js "bg"].
Proof.
  assert (Hn : node_env None <> js "development") by discriminate.
  destruct (desktop_menu true None GET_SUPPORTED_LANGUAGES Hn) as (_ & _ & H & _). exact H.
Defined.
