(* ===== verification/BuildTools.v ===== *)
(** * Tools around the build

    tools/tasks/seed/compile.ahead.prod.ts (the settings of the ahead-of-time
    compiler), check.versions.ts, build.docs.ts, tslint.ts, e2e.ts with
    protractor.conf.js, start.deving.ts, and tools/tasks/project/desktop.libs.ts,
    desktop.build.ts and desktop.watch.ts.  The compilers, typedoc, tslint,
    protractor, gulp-newer and semver are packages: what they are given is
    modelled, and what the code relies on is a parameter. *)

From S2P Require Import Prelude JsString NodePath Lodash Json BuildTasks BuildConfig BuildStreams BuildServer.

(** ** compile.ahead.prod.ts *)

(** [l.filter((f, i) => l.indexOf(f) === i)]. *)
Definition first_index (l : list jsstr) (f : jsstr) : option nat := find_index (fun x => x === f) l.
Definition unique_files (l : list jsstr) : list jsstr :=
  map snd (List.filter (fun p => bool_decide (first_index l p.2 = Some p.1)) (combine (seq 0 (length l)) l)).

(** The settings of the compiler: its files, if it names any. *)
Record tsconfig := { ts_files : option (list jsstr); ts_rest : list (jsstr * jsval) }.

Section Aot.
Context `{CaseMap} (argv : Argv) (__dirname : jsstr).

Definition typings_dir : jsstr := path_join [PROJECT_ROOT __dirname; TOOLS_DIR; js "manual_typings"; js "project"].
Definition adv_BOOTSTRAP_PROD_MODULE : jsstr := adv_BOOTSTRAP_DIR argv ++ bootstrap argv.
Definition aot_entry : jsstr := path_join [adv_BOOTSTRAP_DIR argv; adv_BOOTSTRAP_PROD_MODULE ++ ".ts"].

(** [readdir] is the content of the directory of typings. *)
Definition aot_files (readdir : list jsstr) (files : option (list jsstr)) : list jsstr :=
  let files := default [] files ++ map (fun f => path_join [typings_dir; f]) (List.filter (fun f => endsWith f "d.ts") readdir) in
  unique_files files ++ [aot_entry].
Definition aot_tsconfig (readdir : list jsstr) (c : tsconfig) : tsconfig :=
  {| ts_files := Some (aot_files readdir c.(ts_files)); ts_rest := c.(ts_rest) |}.

(** The options of the command line, with those of a translation. *)
Definition aot_args (args : list (jsstr * jsval)) (lang : option jsstr) : list (jsstr * jsval) :=
  match lang with
  | Some ((_ :: _) as l) =>
      obj_set (obj_set (obj_set args "i18nFile" (JStr ("./src/client/assets/locale/messages." ++ l ++ ".xlf"))) "locale" (JStr l))
        "i18nFormat" (JStr "xlf")
  | _ => args
  end.

(** How the task ends: [main] of the compiler resolves or rejects. *)
Inductive task_end := DoneCalled | ExitedWith (code : Z) (printed : list jsstr).
Definition aot_end (failed : option jsstr) : task_end :=
  match failed with None => DoneCalled | Some stack => ExitedWith 1 [stack; js "Compilation failed"] end.
End Aot.

(** The rollup task ends the process with code 0 when bundling fails, or
    writing the bundle does. *)
Definition rollup_end (bundling writing : option jsstr) : task_end :=
  match bundling, writing with
  | Some e, _ | None, Some e => ExitedWith 0 [e]
  | None, None => DoneCalled
  end.

(** ** check.versions.ts *)

Definition VERSION_NPM : jsstr := "3.0.0".
Definition VERSION_NODE : jsstr := "5.0.0".

(** A command that has ended; [exec] gives null for no error. *)
Record command_result := { cmd_error : option jsstr; cmd_stdout : jsstr; cmd_stderr : jsstr }.
Inductive tool := NpmTool | NodeTool.
Definition required_version (x : tool) : jsstr := match x with NpmTool => VERSION_NPM | NodeTool => VERSION_NODE end.
Definition tool_name (x : tool) : jsstr := match x with NpmTool => "NPM" | NodeTool => "NODE" end.

(** The process goes on, has ended with a message, or an exception has ended it. *)
Inductive process := Running | Reported (message : jsstr) | Crashed (e : jserr).

Section Versions.
(** [semver.gte], which throws on a text that is no version. *)
Context (gte : jsstr -> jsstr -> exec bool).

Definition on_version (x : tool) (r : command_result) : process :=
  match r.(cmd_error) with
  | Some e => Reported ("npm preinstall error: " ++ e ++ r.(cmd_stderr))
  | None =>
      match gte r.(cmd_stdout) (required_version x) with
      | Throw e => Crashed e
      | Ret true => Running
      | Ret false =>
          Reported (tool_name x ++ " is not in required version! Required is " ++ required_version x ++ " and you're using " ++ r.(cmd_stdout))
      end
  end.

(** The commands end in any order; a process that has ended goes no further. *)
Definition check_versions (ended : list (tool * command_result)) : process :=
  fold_left (fun p '(x, r) => match p with Running => on_version x r | _ => p end) ended Running.
End Versions.

(** ** build.docs.ts and tslint.ts *)

Section Sources.
Context {G : Glob} `{CaseMap} (argv : Argv).
Let src := APP_SRC argv.

Definition docs_patterns : list jsstr :=
  [js "typings/index.d.ts"; path_join [src; js "**/*.ts"]; not_ (path_join [src; js "**/*.spec.ts"]);
   not_ (path_join [src; js "**/*.e2e-spec.ts"])].
Definition tslint_patterns : list jsstr :=
  [path_join [src; js "**/*.ts"]; not_ (path_join [src; js "**/*.d.ts"]); path_join [E2E_SRC; js "**/*.ts"];
   not_ (path_join [E2E_SRC; js "**/*.d.ts"]); path_join [TOOLS_DIR; js "**/*.ts"]; not_ (path_join [TOOLS_DIR; js "**/*.d.ts"])].
Definition docs_files (t : tree) : list jsstr := map f_path (gulp_src docs_patterns t).
Definition tslint_files (t : tree) : list jsstr := map f_path (gulp_src tslint_patterns t).

(** ** desktop.libs.ts and desktop.build.ts *)

(** gulp-newer, with what it has of the destination. *)
Context (newer : jsstr -> tree -> list File -> list File).

Definition desktop_patterns (cwd __dirname : jsstr) (packages : list ExtendPackages) (npm : list InjectableDependency) : list jsstr :=
  [js "node_modules/@angular/**/*"; js "node_modules/rxjs/**/*"]
  ++ map (fun p => "node_modules/" ++ p.(pack_name) ++ "/**/*") packages
  ++ map (fun d => relative cwd (PROJECT_ROOT __dirname) d.(dep_src)) npm.

(** The base of the stream is node_modules. *)
Definition desktop_libs (cwd __dirname : jsstr) (npm : list InjectableDependency) (t : tree) : tree :=
  let dest := path_join [APP_DEST argv ++ "/node_modules"] in
  let fs := map (fun f => {| f_path := f.(f_path); f_rel := relative cwd "node_modules" f.(f_path); f_body := f.(f_body) |})
              (gulp_src (desktop_patterns cwd __dirname additionalPackages npm) t) in
  gulp_dest dest (newer dest t fs) t.

Definition desktop_build (t : tree) : tree :=
  gulp_dest (APP_DEST argv) (newer (APP_DEST argv) t (gulp_src [path_join [src; js "package.json"]] t)) t.
End Sources.

(** ** start.deving.ts *)

Inductive deving_file := TsFile | OtherFile.
Definition deving_pattern (k : deving_file) : jsstr := match k with TsFile => "**/(*.ts)" | OtherFile => "**/!(*.ts)" end.
(** The tasks until the reload, and those after it. *)
Definition deving_tasks (k : deving_file) : list jsstr * list jsstr :=
  match k with
  | OtherFile => ([js "build.assets.dev"; js "build.html_css"; js "build.index.dev"], [])
  | TsFile => ([js "build.js.dev"; js "build.index.dev"], [js "build.js.test"; js "karma.run.with_coverage"])
  end.
Definition start_deving : list jsstr :=
  [js "build.test"; js "watch.while_deving"; js "server.start"; js "karma.run.with_coverage"; js "serve.coverage.watch"].

(** ** e2e.ts and protractor.conf.js *)

Section E2e.
Context {G : Glob} `{CaseMap} (argv : Argv).

Definition e2e_server : list middleware := PROXY_MIDDLEWARE ++ [Static "/" PROD_DEST; Fallback "index.html" PROD_DEST].
Definition e2e_port : Z := PORT argv.
Definition e2e_files (t : tree) : list jsstr := map f_path (gulp_src [path_join [DEV_DEST; js "**/*.e2e-spec.js"]] t).
Definition protractor_baseUrl : jsstr := "http://localhost:5555/".
Definition protractor_specs : list jsstr := [js "./dist/e2e/**/*.e2e-spec.js"].
Definition protractor_browser (TRAVIS : option jsstr) : jsstr := if truthy_opt TRAVIS then "firefox" else "chrome".
End E2e.

(** ** Properties *)

(** *** The files of the compiler *)

Lemma first_index_app l x f :
  first_index (l ++ [x]) f = match first_index l f with Some i => Some i | None => if x === f then Some (length l) else None end.
Proof.
  unfold first_index. induction l as [|y l IH]; cbn; [by destruct (x === f)|]. destruct (y === f); [done|]. rewrite IH.
  destruct (find_index _ l); [done|]. by destruct (x === f).
Qed.
Lemma first_index_None l f : first_index l f = None <-> f ∉ l.
Proof.
  unfold first_index. induction l as [|y l IH]; cbn; [set_solver|]. rewrite not_elem_of_cons. destruct (y === f) eqn:E.
  - apply str_eqb_eq in E as ->. split; [done|]. by intros [? _].
  - apply str_eqb_neq in E. destruct (find_index _ l); cbn in *; naive_solver.
Qed.

Lemma combine_snoc {A B} (a : list A) (b : list B) x y : length a = length b -> combine (a ++ [x]) (b ++ [y]) = combine a b ++ [(x, y)].
Proof. revert b. induction a as [|z a IH]; intros [|w b]; cbn; try done. intros [= E]. by rewrite IH. Qed.

Lemma unique_snoc l x : unique_files (l ++ [x]) = unique_files l ++ (if decide (x ∈ l) then [] else [x]).
Proof.
  unfold unique_files. rewrite length_app, seq_app. cbn [length seq plus]. rewrite combine_snoc by (by rewrite length_seq).
  rewrite List.filter_app, map_app. f_equal.
  - f_equal. apply List.filter_ext_in. intros [i f] Hin%in_combine_r. cbn [fst snd]. rewrite first_index_app.
    destruct (first_index l f) eqn:E; [done|]. apply first_index_None in E. by apply list_elem_of_In in Hin.
  - cbn [combine List.filter fst snd]. rewrite first_index_app. destruct (first_index l x) as [i|] eqn:E.
    + destruct (decide (x ∈ l)) as [|Hn]; [|apply first_index_None in Hn; congruence].
      rewrite bool_decide_false; [done|]. intros [= ->]. unfold first_index in E.
      assert (forall k (m : list jsstr), find_index (fun y => y === x) m = Some k -> k < length m) as Hlt.
      { intros k m. revert k. induction m as [|y m IH]; intros k; cbn; [done|]. destruct (y === x); [intros [= <-]; lia|].
        destruct (find_index _ m); [|done]. intros [= <-]. specialize (IH _ eq_refl). lia. }
      apply Hlt in E. lia.
    + rewrite str_eqb_refl, bool_decide_true by done. apply first_index_None in E. by destruct (decide (x ∈ l)).
Qed.

Lemma uniq_snoc l x : uniq (l ++ [x]) = uniq l ++ (if decide (x ∈ l) then [] else [x]).
Proof.
  induction l as [|y l IH]; cbn; [done|]. rewrite IH, List.filter_app. f_equal. f_equal.
  destruct (decide (x ∈ l)) as [Hi|Hi], (decide (x ∈ y :: l)) as [Hj|Hj]; cbn; try set_solver.
  - apply elem_of_cons in Hj as [->|]; [|done]. by rewrite str_eqb_refl.
  - apply not_elem_of_cons in Hj as [Hj _]. by rewrite (proj2 (str_eqb_neq x y)).
Qed.

(** The filter by the index of a file keeps the first of equal files. *)
Lemma unique_files_uniq l : unique_files l = uniq l.
Proof. induction l as [|x l IH] using rev_ind; [done|]. by rewrite unique_snoc, uniq_snoc, IH. Qed.

Section AotFacts.
Context `{CaseMap} (argv : Argv) (dirname : jsstr).

(** The compiler is given the files of the settings and the typings, each
    once and in order, and the entry module after them; when the settings have
    been changed before, the same files are named and only the entry twice. *)
Lemma aot_files_given readdir files f :
  f ∈ aot_files argv dirname readdir files <->
  f = aot_entry argv \/ (exists l, files = Some l /\ f ∈ l)
  \/ exists d, d ∈ readdir /\ endsWith d "d.ts" = true /\ f = path_join [typings_dir dirname; d].
Proof.
  unfold aot_files. rewrite unique_files_uniq, elem_of_app, elem_of_uniq, list_elem_of_singleton, elem_of_app, list_elem_of_fmap.
  setoid_rewrite list_elem_of_In. setoid_rewrite filter_In. destruct files as [l|]; cbn [default]; naive_solver.
Qed.

Lemma uniq_known l m : (forall x, x ∈ m -> x ∈ l) -> uniq (l ++ m) = uniq l.
Proof.
  intros Hm. induction m as [|x m IH] using rev_ind; [by rewrite app_nil_r|].
  rewrite app_assoc, uniq_snoc, IH by set_solver. rewrite decide_True by set_solver. by rewrite app_nil_r.
Qed.
Lemma uniq_idem l : uniq (uniq l) = uniq l.
Proof.
  induction l as [|x l IH] using rev_ind; [done|]. rewrite uniq_snoc. destruct (decide (x ∈ l)).
  - by rewrite app_nil_r.
  - rewrite uniq_snoc, IH. rewrite decide_False; [done|]. by rewrite elem_of_uniq.
Qed.

Lemma aot_files_again readdir files :
  aot_files argv dirname readdir (Some (aot_files argv dirname readdir files)) = uniq (aot_files argv dirname readdir files) ++ [aot_entry argv].
Proof.
  set (l := aot_files argv dirname readdir files). unfold aot_files at 1. cbn [default]. rewrite unique_files_uniq. f_equal.
  apply uniq_known. intros x (d & -> & Hd)%list_elem_of_fmap. apply list_elem_of_In, filter_In in Hd as [Hd%list_elem_of_In Hds].
  unfold l. apply aot_files_given. right. right. by exists d.
Qed.
End AotFacts.

(** Without the option for the directory of the application the entry is the
    module that copy.prod.ts has put there; with it the directory comes twice. *)
Lemma aot_entry_default : aot_entry prod_argv = js "main.web.ts".
Proof. reflexivity. Qed.
Definition app_argv : Argv := {|
  arg_port := None; arg_docs_port := None; arg_coverage_port := None;
  arg_debug := false; arg_scss := false; arg_b := false; arg_desktop := false; arg_desktopBuild := false;
  arg_hybrid := false; arg_base := None; arg_app := Some (js "admin"); arg_client := None; arg_analytics := None;
  arg_build_type := None; arg_env := None; arg__ := [js "build.prod.aot"] |}.
Lemma aot_entry_doubled : aot_entry app_argv = js "admin/admin/main.web.ts" /\ adv_BOOTSTRAP_PROD_MODULE app_argv ++ ".ts" = js "admin/main.web.ts".
Proof. split; reflexivity. Qed.

(** A failed compilation ends the process with code 1, a failed bundle with
    code 0: what is run after it by the shell takes it for a success. *)
Lemma failed_bundle_succeeds e w : rollup_end (Some e) w = ExitedWith 0 [e] /\ aot_end (Some e) = ExitedWith 1 [e; js "Compilation failed"].
Proof. done. Qed.

(** *** Versions *)

Section VersionFacts.
Context (gte : jsstr -> jsstr -> exec bool).

Definition version_ok (xr : tool * command_result) : Prop :=
  xr.2.(cmd_error) = None /\ gte xr.2.(cmd_stdout) (required_version xr.1) = Ret true.

Lemma on_version_ok x r : on_version gte x r = Running <-> version_ok (x, r).
Proof.
  unfold on_version, version_ok. cbn. destruct (cmd_error r); [naive_solver|]. destruct (gte _ _) as [[]|]; naive_solver.
Qed.

Lemma ended_stays ended p : p <> Running ->
  fold_left (fun p '(x, r) => match p with Running => on_version gte x r | _ => p end) ended p = p.
Proof. intros Hp. induction ended as [|[x r] ended IH]; cbn; [done|]. by destruct p. Qed.

(** The process goes on exactly when every command has succeeded with a
    version that is good enough, in whatever order they end; otherwise the first
    that has not decides how it ends. *)
Lemma check_versions_ok ended : check_versions gte ended = Running <-> Forall version_ok ended.
Proof.
  unfold check_versions. induction ended as [|[x r] ended IH]; cbn; [done|].
  destruct (on_version gte x r) eqn:E.
  - rewrite IH, list.Forall_cons, <-on_version_ok. naive_solver.
  - rewrite ended_stays, list.Forall_cons, <- on_version_ok by done. split; [done|]. intros [E' _]. congruence.
  - rewrite ended_stays, list.Forall_cons, <- on_version_ok by done. split; [done|]. intros [E' _]. congruence.
Qed.
Lemma check_versions_first ok x r rest : Forall version_ok ok -> ~ version_ok (x, r) ->
  check_versions gte (ok ++ (x, r) :: rest) = on_version gte x r.
Proof.
  intros Hok Hno. unfold check_versions. rewrite fold_left_app.
  change (fold_left _ ok Running) with (check_versions gte ok). rewrite (proj2 (check_versions_ok ok) Hok). cbn.
  apply ended_stays. by rewrite on_version_ok.
Qed.
End VersionFacts.

(** *** Sources of the other tools *)

(** Every task that start.deving.ts runs is known, its own watcher aside. *)
Lemma deving_tasks_known :
  forallb (fun n => hasOwnProperty project_registry n || (n === "watch.while_deving"))
    (start_deving ++ (deving_tasks TsFile).1 ++ (deving_tasks TsFile).2 ++ (deving_tasks OtherFile).1) = true.
Proof. vm_compute. reflexivity. Qed.

Section SourceFacts.
Context {G : Glob} `{CaseMap}.

Definition lint_dirs : list jsstr := [js "src/client"; js "src/e2e"; js "tools"].

Lemma plain_before_star d e : plain d -> negative (d ++ "/**/*" ++ e) = false.
Proof.
  intros Hd. destruct d as [|ch d]; [done|]. apply list.Forall_cons in Hd as [Hc _]. unfold negative, startsWith.
  change (js "!") with [33%N]. cbn [strip_prefix app]. destruct (N.eqb_spec 33 ch) as [<-|]; [|done]. exfalso. apply Hc. decide_done.
Qed.

(** The paths of a stream, pattern by pattern. *)
Lemma matching_paths p negs t f : f ∈ map f_path (matching p negs t) <->
  hasOwnProperty t f = true /\ glob p f = true /\ Forall (fun n => glob n f = false) negs.
Proof.
  unfold hasOwnProperty. rewrite list_elem_of_fmap. setoid_rewrite matching_elem. unfold file_of. split.
  - intros (g & -> & E & Hg & Hn). by destruct (obj_get t (f_path g)).
  - intros (E & Hg & Hn). destruct (obj_get t f) as [c|] eqn:Ec; [|done].
    exists {| f_path := f; f_rel := drop (length (glob_base p) + 1) f; f_body := c |}. cbn [f_path]. by rewrite Ec.
Qed.
Lemma src_paths_cons p rest t f : f ∈ map f_path (gulp_src (p :: rest) t) <->
  (negative p = false /\ f ∈ map f_path (matching p (map (drop 1) (List.filter negative rest)) t)) \/ f ∈ map f_path (gulp_src rest t).
Proof.
  cbn [gulp_src]. destruct (negative p); [naive_solver|]. set (mine := matching _ _ _). rewrite map_app, elem_of_app.
  split; [intros [Hm|Hr]; [by left|right]|intros [[_ Hm]|Hr]; [by left|]].
  - apply list_elem_of_fmap in Hr as (g & -> & Hg). apply list_elem_of_In, filter_In in Hg as [Hg%list_elem_of_In _].
    apply list_elem_of_fmap. by exists g.
  - apply list_elem_of_fmap in Hr as (g & -> & Hg). destruct (existsb (fun m => m.(f_path) === g.(f_path)) mine) eqn:E.
    + apply existsb_exists in E as (m & Hm%list_elem_of_In & E%str_eqb_eq). left. apply list_elem_of_fmap. by exists m.
    + right. apply list_elem_of_fmap. exists g. split; [done|]. apply list_elem_of_In, filter_In. rewrite E. by rewrite <- list_elem_of_In.
Qed.

(** TypeScript files of directories, without declarations. *)
Definition lint_pair (d : jsstr) : list jsstr := [d ++ "/**/*" ++ ".ts"; not_ (d ++ "/**/*" ++ ".d.ts")].
Lemma lint_negatives ds : Forall plain ds ->
  map (drop 1) (List.filter negative (flat_map lint_pair ds)) = map (fun d => d ++ "/**/*" ++ ".d.ts") ds.
Proof.
  induction 1 as [|d ds Hd _ IH]; [done|]. cbn [flat_map lint_pair app List.filter]. rewrite plain_before_star by done.
  change (negative (not_ (d ++ "/**/*" ++ ".d.ts"))) with true. cbn [map drop]. by rewrite IH.
Qed.
Lemma lint_paths ds t f : Forall plain ds ->
  f ∈ map f_path (gulp_src (flat_map lint_pair ds) t) <->
  hasOwnProperty t f = true /\ (exists d, d ∈ ds /\ below d f) /\ endsWith f ".ts" = true /\ endsWith f ".d.ts" = false.
Proof.
  assert (forall d e, plain d -> e = js ".ts" \/ e = js ".d.ts" -> glob (d ++ "/**/*" ++ e) f = true <-> below d f /\ endsWith f e = true) as Hg.
  { intros d e Hd [->| ->]; apply glob_suffix; first [done|decide_done]. }
  induction 1 as [|d ds Hd Hds IH]; [set_solver|].
  change (flat_map lint_pair (d :: ds)) with ((d ++ "/**/*" ++ ".ts") :: not_ (d ++ "/**/*" ++ ".d.ts") :: flat_map lint_pair ds).
  assert (map (drop 1) (List.filter negative (not_ (d ++ "/**/*" ++ ".d.ts") :: flat_map lint_pair ds)) =
    map (fun d => d ++ "/**/*" ++ ".d.ts") (d :: ds)) as En.
  { change (map (drop 1) (List.filter negative (not_ ?n :: ?l))) with (n :: map (drop 1) (List.filter negative l)). by rewrite lint_negatives. }
  rewrite !src_paths_cons, En, IH, matching_paths, Hg by (done || by left). clear IH En.
  assert (endsWith f ".d.ts" = false -> Forall (fun n => glob n f = false) (map (fun d => d ++ "/**/*" ++ ".d.ts") (d :: ds))) as Hno.
  { intros Hnd. apply list.Forall_forall. intros n (d' & -> & Hd')%list_elem_of_fmap. apply not_true_iff_false. rewrite Hg; [naive_solver congruence| |by right].
    apply elem_of_cons in Hd' as [->|Hd']; [done|]. by apply (proj1 (list.Forall_forall _ _) Hds). }
  setoid_rewrite elem_of_cons. split.
  - intros [(_ & E & [Hb Hts] & [Hn _]%list.Forall_cons)|[[? _]|(E & (d' & Hd' & Hb) & Hts & Hnd)]]; [|done|naive_solver].
    split_and!; [done|naive_solver|done|]. apply not_true_iff_false. intros Hends. apply not_true_iff_false in Hn. apply Hn.
    apply Hg; [done|by right|done].
  - intros (E & (d' & [->|Hd'] & Hb) & Hts & Hnd); [left|right; right; naive_solver].
    split_and!; [by apply plain_before_star|done|done|done|by apply Hno].
Qed.

(** tslint is given exactly the TypeScript files of the client, the end-to-end
    specifications and the tools that are no declarations. *)
Lemma tslint_given t f : f ∈ tslint_files no_arguments t <->
  hasOwnProperty t f = true /\ (below "src/client" f \/ below "src/e2e" f \/ below "tools" f)
  /\ endsWith f ".ts" = true /\ endsWith f ".d.ts" = false.
Proof.
  change (tslint_files no_arguments t) with (map f_path (gulp_src (flat_map lint_pair lint_dirs) t)).
  rewrite lint_paths by decide_done. unfold lint_dirs. setoid_rewrite elem_of_cons. setoid_rewrite elem_of_cons.
  setoid_rewrite list_elem_of_singleton. naive_solver.
Qed.

(** Declarations of the client, and its modules that are no specifications,
    are documented. *)
Lemma docs_given t f : hasOwnProperty t f = true -> below "src/client" f -> endsWith f ".ts" = true ->
  f ∈ docs_files no_arguments t <-> endsWith f ".spec.ts" = false /\ endsWith f ".e2e-spec.ts" = false.
Proof.
  intros E Hb Hts.
  change (docs_files no_arguments t) with (map f_path (gulp_src [js "typings/index.d.ts"; "src/client" ++ "/**/*" ++ ".ts";
    not_ ("src/client" ++ "/**/*" ++ ".spec.ts"); not_ ("src/client" ++ "/**/*" ++ ".e2e-spec.ts")] t)).
  rewrite !src_paths_cons, !matching_paths.
  change (map (drop 1) (List.filter negative [not_ ?a; not_ ?b])) with [a; b].
  assert (glob "typings/index.d.ts" f = false) as Hno.
  { apply not_true_iff_false. rewrite glob_plain by decide_done. intros ->. destruct Hb as (r & _ & Hr). discriminate Hr. }
  rewrite !list.Forall_cons, <- !not_true_iff_false, !glob_suffix by decide_done. rewrite Hno.
  assert (negative ("src/client" ++ "/**/*" ++ ".ts") = false) as Hn by reflexivity. rewrite Hn.
  change (gulp_src [] t) with (@nil File). cbn [map]. split.
  - intros [(_ & _ & ? & _)|[(_ & _ & _ & H1 & H2 & _)|[[H1 _]|[[H1 _]|H1]]]]; [done|tauto|by destruct H1|by destruct H1|set_solver].
  - intros [H1 H2]. right. left. split_and!; [done|done|done|done|tauto|tauto|done].
Qed.
End SourceFacts.

(** *** The desktop application *)

(** A library that has been resolved is copied from node_modules; the name of
    one that has not is taken for a path of the project itself. *)
Lemma desktop_pattern_resolved cwd dirname (segs : list jsstr) :
  segs <> [] ->
  forall d, resolve_segments cwd d.(dep_src) = resolve_segments cwd (PROJECT_ROOT dirname) ++ js "node_modules" :: segs ->
  desktop_patterns cwd dirname [] [d] =
  [js "node_modules/@angular/**/*"; js "node_modules/rxjs/**/*"; "node_modules/" ++ join "/" segs].
Proof.
  intros Hne d Hd. unfold desktop_patterns. cbn [map app]. rewrite (relative_below _ _ _ _ Hd), join_cons by done. by rewrite app_assoc.
Qed.
Lemma desktop_pattern_unresolved :
  let d := dep "jquery/dist/jquery.min.js" (InjectAs (js "libs")) in
  desktop_patterns "/ui" "/ui/tools/config" [] [d] =
    [js "node_modules/@angular/**/*"; js "node_modules/rxjs/**/*"; js "jquery/dist/jquery.min.js"]
  /\ desktop_patterns "/ui" "/ui/tools/config" [] [set_src d "/ui/node_modules/jquery/dist/jquery.min.js"] =
    [js "node_modules/@angular/**/*"; js "node_modules/rxjs/**/*"; js "node_modules/jquery/dist/jquery.min.js"].
Proof. split; vm_compute; reflexivity. Qed.

(** *** End-to-end specifications *)

Section E2eFacts.
Context {G : Glob} `{CaseMap} `{Express}.

(** The browser is sent to another port than the one the server listens on,
    unless that is given on the command line. *)
Lemma e2e_other_port : protractor_baseUrl <> "http://localhost:" ++ dec_Z (e2e_port no_arguments) ++ "/".
Proof. discriminate. Qed.

(** The page of the production build names its scripts below the base of the
    application; the server of the end-to-end task has nothing there and answers
    with the page instead. *)
Lemma e2e_script_is_page t r : visible (js "core/ui/default/" ++ r) -> literal r ->
  nothing_at t ("dist/prod" ++ "/" ++ "core/ui/default/" ++ r) ->
  answer e2e_server t (APP_BASE prod_argv ++ r) = obj_get t "dist/prod/index.html".
Proof.
  intros Hv Hl Hn. change (APP_BASE prod_argv ++ r) with ([] ++ "/" ++ (js "core/ui/default/" ++ r)).
  change e2e_server with [Proxy "/api" "http://localhost:8000"; Static ([] ++ "/") "dist/prod"; Fallback "index.html" "dist/prod"].
  cbn [answer]. rewrite proxy_elsewhere by reflexivity. rewrite static_missing; [|done| |done].
  - rewrite fallback_page. change ("dist/prod" ++ "/" ++ "index.html") with (js "dist/prod/index.html"). by destruct (obj_get t _).
  - destruct Hl as (H1 & H2 & H3). unfold literal. rewrite !not_elem_of_app. split_and!; first [done|decide_done].
Qed.

(** The specifications are compiled into dist/e2e and looked for in dist/dev:
    compiling them gives the task none; those of protractor.conf.js are run. *)
Lemma e2e_files_none t : e2e_files t = [] -> e2e_files (build_js_e2e t) = [].
Proof.
  unfold e2e_files. change (path_join [DEV_DEST; js "**/*.e2e-spec.js"]) with ("dist/dev" ++ "/**/*" ++ ".e2e-spec.js").
  intros Ht. destruct (map f_path (gulp_src _ (build_js_e2e t))) as [|f l] eqn:E; [done|]. exfalso.
  assert (f ∈ map f_path (gulp_src ["dist/dev" ++ "/**/*" ++ ".e2e-spec.js"] (build_js_e2e t))) as Hf by (rewrite E; by left).
  assert (f ∈ map f_path (gulp_src ["dist/dev" ++ "/**/*" ++ ".e2e-spec.js"] t)) as Hf'; [|rewrite Ht in Hf'; set_solver].
  rewrite src_paths_cons, matching_paths in Hf |- *. destruct Hf as [(Hn & Hp & Hg & Hf)|Hf]; [|set_solver]. left. split_and!; try done.
  apply glob_suffix in Hg as [(r & _ & ->) _]; [|decide_done..].
  revert Hp. unfold hasOwnProperty, build_js_e2e. by rewrite dest_other by reflexivity.
Qed.
End E2eFacts.
