(* ===== verification/TestRun.v ===== *)
(** * Running the specifications

    test-main.js: how the browser loads the specifications and starts Karma;
    karma.conf.js, tools/utils/seed/karma.start.ts and the karma.* tasks: the
    options of a run; modules/core/testing/mocks: the location, window and
    translation mocks of the specifications.

    Imports are settled by SystemJS in any order, so a run of test-main.js is
    driven by a sequence of settlements; a reaction at the end of the chain of
    promises is an event of its own, since other reactions may run before it. *)

From S2P Require Import Prelude JsString NodePath Json BuildTasks BuildConfig Shell AppShell.

(** ** test-main.js: names *)

(** [/[\.|_]spec\.js$/]: the class holds a vertical bar too. *)
Definition spec_suffixes : list jsstr := [js ".spec.js"; js "|spec.js"; js "_spec.js"].
Definition is_spec (path : jsstr) : bool := existsb (endsWith path) spec_suffixes.

Definition strip_base (p : jsstr) : jsstr := default p (strip_prefix "/base/" p).
Definition strip_js (p : jsstr) : jsstr := if endsWith p ".js" then take (length p - 3) p else p.
Definition file2moduleName (filePath : jsstr) : jsstr :=
  strip_js (strip_base (map (fun c => if (c =? backslash)%N then slash else c) filePath)).

(** ** test-main.js: loading and starting *)

Inductive test_effect :=
  | Import (path : jsstr)
  | InitTestEnvironment
  | Main (path : jsstr)
  | ConsoleError (e : jserr)
  | Start.

(** What comes of a specification once SystemJS has settled its import. *)
Inductive spec_module :=
  | ImportFails (e : jserr)
  | WithoutMain
  | MainReturns
  | MainThrows (e : jserr).

Section TestMain.
(** [config.files] of Karma; what the expression made of it says about a
    path ([Throw] for a text that is no expression); the files Karma serves;
    what the imports give. *)
Context (config_files : option jsstr) (matches : jsstr -> jsstr -> exec bool).
Context (files : list jsstr) (testing : nat -> option jserr) (init : exec unit) (specs : jsstr -> spec_module).

Definition onlySpecFiles (path : jsstr) : exec bool :=
  patternMatched <-! (if truthy_opt config_files then matches (or_str config_files []) path else Ret true);;
  Ret (patternMatched && is_spec path).

Fixpoint filter_exec {A} (f : A -> exec bool) (l : list A) : exec (list A) :=
  match l with
  | [] => Ret []
  | x :: l' => b <-! f x;; r <-! filter_exec f l';; Ret (if b : bool then x :: r else r)
  end.

(** The names that are imported. *)
Definition spec_paths : exec (list jsstr) := l <-! filter_exec onlySpecFiles files;; Ret (map file2moduleName l).

(** The chain: it waits for the two testing modules, then for the
    specifications, then its last reaction is due, then it is over. *)
Inductive stage := AwaitTesting | AwaitSpecs | Resolved | Rejected (e : jserr) | Over.

(** The imports that have not settled, by index, and what was done. *)
Record test_main := { pending_testing : list nat; pending_specs : list jsstr; at_stage : stage; log : list test_effect }.

Definition core_testing : jsstr := "@angular/core/testing".
Definition browser_testing : jsstr := "@angular/platform-browser-dynamic/testing".
Definition testing_init : test_main :=
  {| pending_testing := [0; 1]; pending_specs := []; at_stage := AwaitTesting;
     log := [Import core_testing; Import browser_testing] |}.

(** Both testing modules are there: the environment is set up and the
    specifications are imported. *)
Definition load_specs (st : test_main) : test_main :=
  match init with
  | Throw e =>
      {| pending_testing := st.(pending_testing); pending_specs := []; at_stage := Rejected e;
         log := st.(log) ++ [InitTestEnvironment] |}
  | Ret _ =>
      match spec_paths with
      | Throw e =>
          {| pending_testing := st.(pending_testing); pending_specs := []; at_stage := Rejected e;
             log := st.(log) ++ [InitTestEnvironment] |}
      | Ret ps =>
          {| pending_testing := st.(pending_testing); pending_specs := ps;
             at_stage := match ps with [] => Resolved | _ => AwaitSpecs end;
             log := st.(log) ++ InitTestEnvironment :: map Import ps |}
      end
  end.

Definition without_main (path : jsstr) : jserr := ErrorMsg ("Module " ++ path ++ " does not implement main() method.").

(** The reaction to an import of a specification: what it logs, and whether
    its promise is rejected. *)
Definition run_spec (path : jsstr) : list test_effect * option jserr :=
  match specs path with
  | ImportFails e => ([], Some e)
  | WithoutMain => ([], Some (without_main path))
  | MainReturns => ([Main path], None)
  | MainThrows e => ([Main path], Some e)
  end.

(** [Promise.all] is rejected by the first rejection and keeps no other. *)
Definition all_stage (waiting : bool) (s : stage) (rejected : option jserr) : stage :=
  match s, rejected with
  | AwaitTesting, Some e | AwaitSpecs, Some e => Rejected e
  | AwaitSpecs, None => if waiting then AwaitSpecs else Resolved
  | _, _ => s
  end.

Inductive test_event := TestingSettles (i : nat) | SpecSettles (k : nat) | LastReaction.

Definition test_fire (st : test_main) (ev : test_event) : option test_main :=
  match ev with
  | TestingSettles i =>
      if bool_decide (i ∈ st.(pending_testing)) then
        let rest := List.filter (fun j => negb (j =? i)%nat) st.(pending_testing) in
        let st' := {| pending_testing := rest; pending_specs := st.(pending_specs);
                      at_stage := all_stage true st.(at_stage) (testing i); log := st.(log) |} in
        Some (match st'.(at_stage), rest with AwaitTesting, [] => load_specs st' | _, _ => st' end)
      else None
  | SpecSettles k =>
      match st.(pending_specs) !! k with
      | None => None
      | Some path =>
          let rest := take k st.(pending_specs) ++ drop (S k) st.(pending_specs) in
          let '(done_, rejected) := run_spec path in
          Some {| pending_testing := st.(pending_testing); pending_specs := rest;
                  at_stage := all_stage (match rest with [] => false | _ => true end) st.(at_stage) rejected;
                  log := st.(log) ++ done_ |}
      end
  | LastReaction =>
      match st.(at_stage) with
      | Resolved =>
          Some {| pending_testing := st.(pending_testing); pending_specs := st.(pending_specs); at_stage := Over;
                  log := st.(log) ++ [Start] |}
      | Rejected e =>
          Some {| pending_testing := st.(pending_testing); pending_specs := st.(pending_specs); at_stage := Over;
                  log := st.(log) ++ [ConsoleError e; Start] |}
      | _ => None
      end
  end.

Fixpoint test_run (st : test_main) (evs : list test_event) : option test_main :=
  match evs with
  | [] => Some st
  | ev :: evs' => match test_fire st ev with Some st' => test_run st' evs' | None => None end
  end.
End TestMain.

(** ** Loading and starting: properties *)

Definition is_start (e : test_effect) : bool := match e with Start => true | _ => false end.
Definition starts (l : list test_effect) : nat := length (List.filter is_start l).
Arguments starts : simpl never.

Lemma starts_app l l' : starts (l ++ l') = starts l + starts l'.
Proof. unfold starts. by rewrite List.filter_app, length_app. Qed.
Lemma starts_imports ps : starts (map Import ps) = 0.
Proof. by induction ps. Qed.

Section Runs.
Context (config_files : option jsstr) (matches : jsstr -> jsstr -> exec bool).
Context (files : list jsstr) (testing : nat -> option jserr) (init : exec unit) (specs : jsstr -> spec_module).
Abbreviation fire := (test_fire config_files matches files testing init specs).
Abbreviation run := (test_run config_files matches files testing init specs).
Abbreviation paths := (spec_paths config_files matches files).

Lemma filter_exec_length {A} (f : A -> exec bool) l r : filter_exec f l = Ret r -> length r <= length l.
Proof.
  revert r. induction l as [|x l IH]; intros r; cbn; [by intros [= <-]|].
  destruct (f x) as [b|]; [|done]. destruct (filter_exec f l) as [r'|]; [|done]. cbn.
  specialize (IH r' eq_refl). intros [= <-]. destruct b; cbn; lia.
Qed.
Lemma spec_paths_length ps : paths = Ret ps -> length ps <= length files.
Proof.
  unfold spec_paths. destruct filter_exec as [l|] eqn:E; [|done]. cbn. intros [= <-].
  rewrite length_map. by eapply filter_exec_length.
Qed.

(** The steps that are left. *)
Definition stage_weight (s : stage) : nat :=
  match s with AwaitTesting => 1 + length files | Over => 0 | _ => 1 end.
Definition weight (st : test_main) : nat :=
  length st.(pending_testing) + length st.(pending_specs) + stage_weight st.(at_stage).

Definition stage_ok (st : test_main) : Prop :=
  match st.(at_stage) with
  | AwaitTesting => st.(pending_testing) <> [] /\ st.(pending_specs) = []
  | AwaitSpecs => st.(pending_specs) <> []
  | _ => True
  end.
Definition started_ok (st : test_main) : Prop :=
  starts st.(log) = match st.(at_stage) with Over => 1 | _ => 0 end.

Lemma removed_shorter (i : nat) l : i ∈ l -> length (List.filter (fun j => negb (j =? i)%nat) l) < length l.
Proof.
  induction 1 as [x l|x y l Hx IH]; cbn.
  - rewrite Nat.eqb_refl. cbn. pose proof (List.filter_length_le (fun j => negb (j =? x)%nat) l). lia.
  - destruct (negb _); cbn; lia.
Qed.
Lemma taken_out {A} (l : list A) k x : l !! k = Some x -> Permutation l (x :: take k l ++ drop (S k) l).
Proof. intros H. rewrite <-(take_drop_middle _ _ _ H) at 1. by rewrite Permutation_middle. Qed.

Lemma load_specs_ok st : started_ok st -> st.(at_stage) = AwaitTesting ->
  let st' := load_specs config_files matches files init st in
  stage_ok st' /\ started_ok st' /\ weight st' <= length st.(pending_testing) + 1 + length files.
Proof.
  unfold started_ok, load_specs. intros Hs Hst. rewrite Hst in Hs.
  assert (starts (log st ++ [InitTestEnvironment]) = 0) as Hi by (rewrite starts_app, Hs; done).
  destruct init as [u|e]; [destruct paths as [ps|e] eqn:Hp|]; cbn; [|by split_and!; first [done|unfold weight; cbn; lia]..].
  apply spec_paths_length in Hp. unfold weight, stage_ok. cbn.
  rewrite starts_app, Hs. change (InitTestEnvironment :: map Import ps) with ([InitTestEnvironment] ++ map Import ps).
  rewrite starts_app, starts_imports. destruct ps; cbn in *; split_and!; try done; lia.
Qed.

Lemma fire_ok st ev st' : stage_ok st -> started_ok st -> fire st ev = Some st' ->
  stage_ok st' /\ started_ok st' /\ weight st' < weight st.
Proof.
  intros Hok Hs. unfold test_fire. destruct ev as [i|k|].
  - case_bool_decide as Hi; [|done]. intros [= <-]. apply removed_shorter in Hi as Hlt.
    set (rest := List.filter _ _) in *. clearbody rest. unfold stage_ok, started_ok, weight in *. cbn.
    destruct (at_stage st); cbn in *; [|by split_and!; first [done|lia|destruct (testing i); cbn in *; first [done|lia]]..].
    destruct (testing i); cbn; [by split_and!; first [done|lia]|].
    destruct rest; cbn in *.
    + destruct (load_specs_ok {| pending_testing := []; pending_specs := pending_specs st; at_stage := AwaitTesting; log := log st |})
        as (H1 & H2 & H3); [done|done|]. unfold weight in H3. cbn in H3. split_and!; [done|done|lia].
    + split_and!; [done|naive_solver|done|lia].
  - destruct (pending_specs st !! k) as [path|] eqn:Hk; [|done]. destruct (run_spec specs path) as [d r] eqn:Hr.
    intros [= <-]. pose proof (taken_out _ _ _ Hk) as Hp%Permutation_length. cbn in Hp.
    assert (starts d = 0) as Hd by (unfold run_spec in Hr; destruct (specs path); by simplify_eq).
    set (rest := take _ _ ++ drop _ _) in *. clearbody rest. unfold stage_ok, started_ok, weight in *. cbn.
    rewrite starts_app, Hd, Nat.add_0_r.
    destruct (at_stage st) eqn:E; cbn; [destruct Hok as [_ Hn]; by rewrite Hn in Hk| |by split_and!; try done; lia..].
    destruct r; cbn; [by split_and!; try done; lia|]. destruct rest; cbn in *; split_and!; try done; lia.
  - unfold stage_ok, started_ok, weight in *. destruct (at_stage st) eqn:E; try done; intros [= <-]; cbn;
      rewrite starts_app, Hs; cbn; split_and!; try done; lia.
Qed.

Lemma run_ok st evs st' : stage_ok st -> started_ok st -> run st evs = Some st' ->
  stage_ok st' /\ started_ok st' /\ length evs + weight st' <= weight st.
Proof.
  revert st. induction evs as [|ev evs IH]; intros st Hok Hs; cbn; [by intros [= <-]; split_and!|].
  destruct (fire st ev) as [st1|] eqn:Hf; [|done]. intros Hr.
  destruct (fire_ok _ _ _ Hok Hs Hf) as (H1 & H2 & H3). destruct (IH st1 H1 H2 Hr) as (? & ? & ?). split_and!; [done|done|lia].
Qed.

(** Nothing can happen any more only when the chain is over and every import
    has settled. *)
Lemma stuck_over st : stage_ok st -> (forall ev, fire st ev = None) ->
  st.(at_stage) = Over /\ st.(pending_testing) = [] /\ st.(pending_specs) = [].
Proof.
  intros Hok Hno.
  assert (st.(pending_testing) = []) as Ht.
  { destruct (pending_testing st) as [|i l] eqn:E; [done|]. specialize (Hno (TestingSettles i)). unfold test_fire in Hno.
    rewrite bool_decide_true in Hno by (rewrite E; left). done. }
  assert (st.(pending_specs) = []) as Hp.
  { destruct (pending_specs st) as [|p l] eqn:E; [done|]. specialize (Hno (SpecSettles 0)). unfold test_fire in Hno.
    rewrite E in Hno. cbn in Hno. by destruct (run_spec specs p). }
  unfold stage_ok in Hok. specialize (Hno LastReaction). cbn in Hno. rewrite Ht, Hp in Hok.
  destruct (at_stage st); naive_solver.
Qed.

(** *** When every module is fine *)

Definition loading (ps : list jsstr) : list test_effect :=
  [Import core_testing; Import browser_testing; InitTestEnvironment] ++ map Import ps.

Definition loaded_ok (ps : list jsstr) (st : test_main) : Prop :=
  match st.(at_stage) with
  | AwaitTesting => st.(log) = [Import core_testing; Import browser_testing]
  | AwaitSpecs | Resolved =>
      exists ms, st.(log) = loading ps ++ map Main ms /\ Permutation (ms ++ st.(pending_specs)) ps
                 /\ (st.(at_stage) = Resolved -> st.(pending_specs) = [])
  | Rejected _ => False
  | Over => exists ms, st.(log) = loading ps ++ map Main ms ++ [Start] /\ Permutation ms ps /\ st.(pending_specs) = []
  end.

Lemma fire_loaded ps st ev st' :
  (forall i, testing i = None) -> init = Ret tt -> paths = Ret ps -> Forall (fun p => specs p = MainReturns) ps ->
  stage_ok st -> loaded_ok ps st -> fire st ev = Some st' -> loaded_ok ps st'.
Proof.
  intros Ht Hi Hps Hm Hok Hl. unfold test_fire, loaded_ok in *. destruct ev as [i|k|].
  - case_bool_decide; [|done]. intros [= <-]. rewrite Ht. destruct (at_stage st) eqn:E; cbn; try done.
    destruct (List.filter _ _) as [|j l]; cbn; [|done].
    unfold load_specs. rewrite Hi, Hps. cbn. rewrite Hl. destruct ps as [|p ps']; cbn; exists []; by rewrite ?app_nil_r.
  - destruct (pending_specs st !! k) as [path|] eqn:Hk; [|done].
    pose proof (taken_out _ _ _ Hk) as Hp. set (rest := take _ _ ++ drop _ _) in *. clearbody rest.
    assert (at_stage st = AwaitSpecs) as E.
    { unfold stage_ok in Hok. destruct (at_stage st); [destruct Hok as [_ Hn]; by rewrite Hn in Hk|done| | |].
      - destruct Hl as (ms & _ & _ & Hn). by rewrite (Hn eq_refl) in Hk.
      - done.
      - destruct Hl as (ms & _ & _ & Hn). by rewrite Hn in Hk. }
    rewrite E in Hl |- *. destruct Hl as (ms & Hlog & Hperm & _).
    assert (path ∈ ps) as Hin by (rewrite <-Hperm, Hp; set_solver).
    unfold run_spec. rewrite (proj1 (list.Forall_forall _ _) Hm _ Hin). intros [= <-]. cbn.
    assert (Permutation ((ms ++ [path]) ++ rest) ps) as Hperm' by (by rewrite <-Hperm, Hp, <-app_assoc).
    destruct rest; cbn; exists (ms ++ [path]); (split_and!; [by rewrite Hlog, map_app, app_assoc|done|done]).
  - destruct (at_stage st) eqn:E; try done. intros [= <-]. cbn. destruct Hl as (ms & Hlog & Hperm & Hn).
    exists ms. rewrite (Hn eq_refl), app_nil_r in Hperm. by rewrite Hlog, <-app_assoc, Hn.
Qed.

Lemma run_loaded ps st evs st' :
  (forall i, testing i = None) -> init = Ret tt -> paths = Ret ps -> Forall (fun p => specs p = MainReturns) ps ->
  stage_ok st -> started_ok st -> loaded_ok ps st -> run st evs = Some st' -> loaded_ok ps st'.
Proof.
  intros Ht Hi Hps Hm. revert st. induction evs as [|ev evs IH]; intros st Hok Hs Hl; cbn; [by intros [= <-]|].
  destruct (fire st ev) as [st1|] eqn:Hf; [|done].
  destruct (fire_ok _ _ _ Hok Hs Hf) as (H1 & H2 & _). apply IH; [done|done|exact (fire_loaded ps st ev st1 Ht Hi Hps Hm Hok Hl Hf)].
Qed.
End Runs.

(** C36: However the imports of test-main.js settle, in whatever order and with
    whatever errors, Karma is started at most once; a run has at most three
    events more than there are files, and it can only stop when every import
    has settled and Karma has been started, once.  When both testing modules
    and all specifications load and none of them throws, what happened by then
    is: the testing modules are imported, the environment is set up, exactly
    the served files that are specifications are imported, the main function of
    each of them runs once, and only then Karma starts. *)
Theorem tests_started_once config_files matches files testing init specs (evs : list test_event) (st : test_main) :
  test_run config_files matches files testing init specs testing_init evs = Some st ->
  starts st.(log) <= 1 /\ length evs <= 3 + length files
  /\ ((forall ev, test_fire config_files matches files testing init specs st ev = None) ->
      starts st.(log) = 1 /\ st.(pending_specs) = []
      /\ forall ps, (forall i, testing i = None) -> init = Ret tt -> spec_paths config_files matches files = Ret ps ->
         Forall (fun p => specs p = MainReturns) ps ->
         exists ms, st.(log) = loading ps ++ map Main ms ++ [Start] /\ Permutation ms ps).
Proof.
  intros Hr. destruct (run_ok config_files matches files testing init specs testing_init evs st) as (Hok & Hs & Hw); [done..|].
  unfold weight in Hw. cbn in Hw.
  split_and!; [unfold started_ok in Hs; destruct (at_stage st); lia|lia|].
  intros Hno. destruct (stuck_over config_files matches files testing init specs st Hok Hno) as (Ho & _ & Hp). unfold started_ok in Hs. rewrite Ho in Hs.
  split_and!; [done|done|]. intros ps Ht Hi Hps Hm.
  pose proof (run_loaded config_files matches files testing init specs ps testing_init evs st Ht Hi Hps Hm) as Hl.
  unfold loaded_ok in Hl. rewrite Ho in Hl. destruct Hl as (ms & ? & ? & _); [done..|by exists ms].
Qed.

Definition two_specs : list jsstr := [js "/base/dist/dev/app/a.spec.js"; js "/base/dist/dev/app/a.js"; js "/base/dist/dev/app/b.spec.js"].
Definition two_specs_run : list test_event :=
  [TestingSettles 1; TestingSettles 0; SpecSettles 1; SpecSettles 0; LastReaction].
Definition all_fine (specs : jsstr -> spec_module) (evs : list test_event) : option test_main :=
  test_run None (fun _ _ => Ret true) two_specs (fun _ => None) (Ret tt) specs testing_init evs.

Lemma tests_started_once_witness :
  exists st, all_fine (fun _ => MainReturns) two_specs_run = Some st /\ starts st.(log) = 1
  /\ exists ms, st.(log) = loading [js "dist/dev/app/a.spec"; js "dist/dev/app/b.spec"] ++ map Main ms ++ [Start]
     /\ Permutation ms [js "dist/dev/app/a.spec"; js "dist/dev/app/b.spec"].
Proof.
  eexists. split; [vm_compute; reflexivity|].
  destruct (tests_started_once None (fun _ _ => Ret true) two_specs (fun _ => None) (Ret tt) (fun _ => MainReturns) two_specs_run _
              (ltac:(vm_compute; reflexivity))) as (_ & _ & H).
  destruct H as (H1 & _ & H2); [intros []; reflexivity|]. split; [exact H1|].
  apply H2; [reflexivity|reflexivity|vm_compute; reflexivity|repeat constructor].
Defined.

(** A specification that fails starts Karma while others are still loading:
    their main functions run after the start. *)
Lemma failed_spec_starts_early :
  exists st, all_fine (fun p => if p === "dist/dev/app/a.spec" then WithoutMain else MainReturns)
               [TestingSettles 0; TestingSettles 1; SpecSettles 0; LastReaction; SpecSettles 0] = Some st
  /\ drop 5 st.(log) = [ConsoleError (without_main "dist/dev/app/a.spec"); Start; Main "dist/dev/app/b.spec"].
Proof. eexists. split; vm_compute; reflexivity. Qed.

(** A file that Karma serves from its base is imported by its path without
    the extension. *)
Lemma served_module_name (p : jsstr) : (backslash ∉ p) -> file2moduleName ("/base/" ++ p ++ ".js") = p.
Proof.
  intros Hp. unfold file2moduleName.
  assert (map (fun c => if (c =? backslash)%N then slash else c) ("/base/" ++ p ++ ".js") = "/base/" ++ p ++ ".js") as ->.
  { rewrite !map_app. cbn. do 6 f_equal. f_equal. induction p as [|c p IH]; cbn; [done|].
    apply not_elem_of_cons in Hp as [Hc Hp]. by rewrite (proj2 (N.eqb_neq c backslash)), IH. }
  change (strip_js (p ++ ".js") = p). unfold strip_js. rewrite endsWith_app. apply take_app_length'.
  rewrite length_app. change (length (js ".js")) with 3. lia.
Qed.

(** ** karma.conf.js and the tasks that start Karma *)

(** A pattern of files, with Karma's defaults for what is not said. *)
Record karma_file := { pattern : jsstr; included : bool; watched : bool; served : bool }.
#[export] Instance karma_file_eq_dec : EqDecision karma_file.
Proof. solve_decision. Defined.
Definition script (p : jsstr) : karma_file := {| pattern := p; included := true; watched := true; served := true |}.
Definition by_import (watch : bool) (p : jsstr) : karma_file :=
  {| pattern := p; included := false; watched := watch; served := true |}.

Definition karma_files : list karma_file :=
  [ script "node_modules/core-js/client/shim.min.js"; script "node_modules/intl/dist/Intl.min.js";
    script "node_modules/traceur/bin/traceur.js"; script "node_modules/systemjs/dist/system.src.js";
    script "node_modules/zone.js/dist/zone.js"; script "node_modules/zone.js/dist/long-stack-trace-zone.js";
    script "node_modules/zone.js/dist/async-test.js"; script "node_modules/zone.js/dist/fake-async-test.js";
    script "node_modules/zone.js/dist/sync-test.js"; script "node_modules/zone.js/dist/proxy.js";
    script "node_modules/zone.js/dist/jasmine-patch.js";
    by_import false "node_modules/rxjs/**/*.js"; by_import false "node_modules/rxjs/**/*.js.map";
    by_import true "node_modules/@angular/**/*.js"; by_import false "node_modules/@angular/**/*.js.map";
    by_import false "node_modules/lodash/**/*.js"; by_import false "node_modules/@ngx-translate/**/*.js";
    by_import false "node_modules/@ngrx/**/*.js"; by_import false "node_modules/angulartics2/**/*.js";
    by_import false "node_modules/ngrx-store-freeze/**/*.js"; by_import false "node_modules/deep-freeze-strict/**/*.js";
    by_import true "dist/dev/**/*.js"; by_import true "dist/dev/**/*.html"; by_import true "dist/dev/**/*.css";
    by_import false "node_modules/systemjs/dist/system-polyfills.js"; by_import false "dist/dev/assets/**/*";
    script "test-config.js"; script "dist/dev/system-config.js"; script "test-main.js" ].
Definition karma_exclude : list jsstr := [js "node_modules/**/*spec.js"].

(** The settings that depend on the command line and on the machine. *)
Record karma_conf := {
  browsers : list jsstr; singleRun : bool; browserNoActivityTimeout : option Z; client_files : option jsstr }.
Record ci := { APPVEYOR : option jsstr; TRAVIS : option jsstr; CIRCLECI : option jsstr }.

Definition karma_settings (makeRe : jsstr -> jsstr) (argv_files : option jsstr) (env : ci) : karma_conf :=
  let files := if truthy_opt argv_files then Some (makeRe (or_str argv_files [])) else None in
  let c := {| browsers := [js "Chrome"]; singleRun := false; browserNoActivityTimeout := None; client_files := files |} in
  let c := if truthy_opt env.(APPVEYOR)
           then {| browsers := [js "IE"]; singleRun := true; browserNoActivityTimeout := Some 90000%Z; client_files := files |} else c in
  if truthy_opt env.(TRAVIS) || truthy_opt env.(CIRCLECI)
  then {| browsers := [js "Chrome_travis_ci"]; singleRun := true; browserNoActivityTimeout := Some 90000%Z; client_files := files |}
  else c.

(** karma.start.ts: the options over the defaults. *)
Definition startKarma (cwd : jsstr) (config : list (jsstr * jsval)) : list (jsstr * jsval) :=
  assign [(js "configFile", JStr (path_join [cwd; js "karma.conf.js"])); (js "singleRun", JBool true)] config.

(** [getKarmaReporters] of seed.config.ts. *)
Definition getKarmaReporters (COVERAGE_DIR COVERAGE_TS_DIR : jsstr) : list (jsstr * jsval) :=
  [ (js "preprocessors", JObj [(js "dist/**/!(*spec|index|*.module|*.routes).js", JArr [JStr "coverage"])]);
    (js "reporters", JArr [JStr "mocha"; JStr "coverage"; JStr "karma-remap-istanbul"]);
    (js "coverageReporter",
      JObj [(js "dir", JStr (COVERAGE_DIR ++ "/"));
            (js "reporters", JArr [JObj [(js "type", JStr "json"); (js "subdir", JStr "."); (js "file", JStr "coverage-final.json")];
                                   JObj [(js "type", JStr "html"); (js "subdir", JStr ".")]])]);
    (js "remapIstanbulReporter", JObj [(js "reports", JObj [(js "html", JStr COVERAGE_TS_DIR)])]) ].

(** What a task tells gulp when Karma exits: [karma.run] hands the exit code
    on, and gulp takes anything but 0 for a failure; the run with coverage only
    says that it is over. *)
Inductive karma_task := KarmaRun | KarmaRunWithCoverage | KarmaWatch.
Definition karma_options (cwd COVERAGE_DIR COVERAGE_TS_DIR : jsstr) (t : karma_task) : list (jsstr * jsval) :=
  let reporters := getKarmaReporters COVERAGE_DIR COVERAGE_TS_DIR in
  match t with
  | KarmaRun => startKarma cwd reporters
  | KarmaRunWithCoverage =>
      assign [(js "configFile", JStr (path_join [cwd; js "karma.conf.js"])); (js "singleRun", JBool true)]
             (obj_set reporters "singleRun" (JBool true))
  | KarmaWatch => startKarma cwd [(js "singleRun", JBool false)]
  end.
Definition karma_done (t : karma_task) (exitCode : Z) : option Z :=
  match t with KarmaRun | KarmaWatch => Some exitCode | KarmaRunWithCoverage => None end.

(** ** mock-location-strategy.ts *)

(** The last change is at the end; [emitted] is what the subscribers of
    popstate were given. *)
Record MockLocationStrategy := {
  internalBaseHref : jsstr; internalPath : jsstr; internalTitle : jsstr; urlChanges : list jsstr; emitted : list jsstr }.
Definition new_MockLocationStrategy : MockLocationStrategy :=
  {| internalBaseHref := "/"; internalPath := "/"; internalTitle := []; urlChanges := []; emitted := [] |}.

Definition location_path (m : MockLocationStrategy) (includeHash : bool) : jsstr := m.(internalPath).
Definition simulatePopState (m : MockLocationStrategy) (url : jsstr) : MockLocationStrategy :=
  {| internalBaseHref := m.(internalBaseHref); internalPath := url; internalTitle := m.(internalTitle);
     urlChanges := m.(urlChanges); emitted := m.(emitted) ++ [url] |}.
Definition prepareExternalUrl (m : MockLocationStrategy) (internal : jsstr) : jsstr :=
  if startsWith internal "/" && endsWith m.(internalBaseHref) "/"
  then m.(internalBaseHref) ++ drop 1 internal else m.(internalBaseHref) ++ internal.
Definition location_url (path query : jsstr) : jsstr :=
  path ++ (match query with [] => [] | _ => "?" ++ query end).
Definition change_state (prefix : jsstr) (m : MockLocationStrategy) (title path query : jsstr) : MockLocationStrategy :=
  let url := location_url path query in
  {| internalBaseHref := m.(internalBaseHref); internalPath := url; internalTitle := title;
     urlChanges := m.(urlChanges) ++ [prefix ++ prepareExternalUrl m url]; emitted := m.(emitted) |}.
Definition pushState : MockLocationStrategy -> jsstr -> jsstr -> jsstr -> MockLocationStrategy := change_state [].
Definition replaceState : MockLocationStrategy -> jsstr -> jsstr -> jsstr -> MockLocationStrategy := change_state "replace: ".
Definition getBaseHref (m : MockLocationStrategy) : jsstr := m.(internalBaseHref).
Definition location_back (m : MockLocationStrategy) : MockLocationStrategy :=
  match m.(urlChanges) with
  | [] => m
  | _ :: _ =>
      let rest := take (length m.(urlChanges) - 1) m.(urlChanges) in
      simulatePopState
        {| internalBaseHref := m.(internalBaseHref); internalPath := m.(internalPath); internalTitle := m.(internalTitle);
           urlChanges := rest; emitted := m.(emitted) |}
        (default [] (list.last rest))
  end.
Definition location_forward (m : MockLocationStrategy) : exec MockLocationStrategy := Throw (ErrorMsg "not implemented").

(** ** router-extensions.service.ts, over any location strategy *)

Class LocationStrategy (S : Type) := { strategy_back : S -> S; strategy_path : S -> jsstr }.
#[export] Instance mock_strategy : LocationStrategy MockLocationStrategy :=
  {| strategy_back := location_back; strategy_path := fun m => location_path m false |}.

Section Extensions.
Context {E S : Type} `{LocationStrategy S}.

(** What the router is asked. *)
Inductive router_call :=
  | Navigate (commands : list jsval) (extras : option E)
  | NavigateByUrl (url : jsstr) (extras : option E).
Record RouterExtensions := { router : list router_call; locationStrategy : S }.

Definition navigate (r : RouterExtensions) (commands : list jsval) (extras : option E) : RouterExtensions :=
  {| router := r.(router) ++ [Navigate commands extras]; locationStrategy := r.(locationStrategy) |}.
Definition navigateByUrl (r : RouterExtensions) (url : jsstr) (options : option E) : RouterExtensions :=
  {| router := r.(router) ++ [NavigateByUrl url None]; locationStrategy := r.(locationStrategy) |}.
Definition extensions_back (r : RouterExtensions) : RouterExtensions :=
  {| router := r.(router); locationStrategy := strategy_back r.(locationStrategy) |}.
End Extensions.
Arguments RouterExtensions : clear implicits.
Arguments router_call : clear implicits.

(** ** The other mocks *)

(** window.mock.ts: the language of the browser. *)
Record WindowMock := { win_language : option jsstr; win_userAgent : jsstr }.
Definition new_WindowMock : WindowMock := {| win_language := Some (js "en-US"); win_userAgent := "testing" |}.
Definition WindowMockFrench : WindowMock := {| win_language := Some (js "fr-US"); win_userAgent := new_WindowMock.(win_userAgent) |}.
Definition WindowMockNoLanguage : WindowMock := {| win_language := None; win_userAgent := new_WindowMock.(win_userAgent) |}.

(** The languages of i18n/testing/index.ts. *)
Definition test_languages : list (jsstr * jsstr) :=
  [(js "en", js "English"); (js "es", js "Spanish"); (js "fr", js "French"); (js "ru", js "Russian"); (js "bg", js "Bulgarian")].

(** core.ts: the window the services are given. *)
Definition TEST_CORE_window (options_window : option WindowMock) : WindowMock := default new_WindowMock options_window.

(** The constructor of multilingual.service.ts with a window: without a
    language it throws, after the default language has been set. *)
Definition multilingual_with (win : WindowMock) (state_lang : jsstr) : exec (list jsstr * i18n_action) :=
  match win.(win_language) with
  | None => Throw TypeError
  | Some l => Ret (multilingual_start state_lang l)
  end.

(** http.ts: one list of providers for all specifications. *)
Definition http_providers : list jsstr := [js "BaseRequestOptions"; js "MockBackend"; js "Http"].
Definition GET_HTTP_PROVIDERS_INJECTOR (providers : list jsstr) (additional : option (list jsstr)) : list jsstr * list jsstr :=
  let providers := match additional with Some a => providers ++ a | None => providers end in (providers, providers).
Definition TEST_HTTP_PROVIDERS (providers : list jsstr) : list jsstr := providers.

(** ** The mocks: properties *)

Definition visit (m : MockLocationStrategy) (v : jsstr * jsstr * jsstr) : MockLocationStrategy :=
  let '(title, path, query) := v in pushState m title path query.
Definition url_of (v : jsstr * jsstr * jsstr) : jsstr := let '(_, path, query) := v in location_url path query.
Definition rooted (v : jsstr * jsstr * jsstr) : Prop := exists r, v.1.2 = "/" ++ r.

Lemma visit_rooted m v : rooted v -> m.(internalBaseHref) = js "/" ->
  visit m v = {| internalBaseHref := js "/"; internalPath := url_of v; internalTitle := v.1.1;
                 urlChanges := m.(urlChanges) ++ [url_of v]; emitted := m.(emitted) |}.
Proof.
  destruct v as [[title path] query]. intros [r Hr] Hb. cbn in Hr. subst path.
  unfold visit, pushState, change_state, prepareExternalUrl. rewrite Hb. done.
Qed.

Lemma visits_rooted vs m : Forall rooted vs -> m.(internalBaseHref) = js "/" ->
  let m' := fold_left visit vs m in
  m'.(internalBaseHref) = js "/" /\ m'.(urlChanges) = m.(urlChanges) ++ map url_of vs /\ m'.(emitted) = m.(emitted)
  /\ m'.(internalPath) = default m.(internalPath) (list.last (map url_of vs)).
Proof.
  intros Hv. revert m. induction Hv as [|v vs Hv _ IH]; intros m Hb; cbn [fold_left map]; [by rewrite app_nil_r|].
  destruct (IH (visit m v)) as (H1 & H2 & H3 & H4); [by rewrite visit_rooted|].
  rewrite visit_rooted in H1, H2, H3, H4 |- * by done. cbn in *. split_and!; [done|by rewrite H2, <-app_assoc|done|].
  rewrite H4, last_cons. by destruct (list.last (map url_of vs)).
Qed.

(** Going back [k] times, [k] at most the number of changes. *)
Lemma backs m k : k <= length m.(urlChanges) ->
  let m' := Nat.iter k location_back m in let n := length m.(urlChanges) in
  m'.(urlChanges) = take (n - k) m.(urlChanges)
  /\ m'.(emitted) = m.(emitted) ++ map (fun j => default [] (list.last (take (n - S j) m.(urlChanges)))) (seq 0 k)
  /\ m'.(internalPath) = match k with 0 => m.(internalPath) | _ => default [] (list.last (take (n - k) m.(urlChanges))) end.
Proof.
  induction k as [|k IH]; intros Hk; cbn zeta.
  - cbn. by rewrite app_nil_r, Nat.sub_0_r, firstn_all.
  - destruct IH as (H1 & H2 & _); [lia|]. cbn zeta in H1, H2. cbn [Nat.iter nat_rect].
    change (nat_rect _ m (λ _, location_back) k) with (Nat.iter k location_back m).
    set (m1 := Nat.iter k location_back m) in *. set (n := length m.(urlChanges)) in *.
    assert (length m1.(urlChanges) = n - k) as Hlen by (rewrite H1, length_take; lia).
    assert (take (length m1.(urlChanges) - 1) m1.(urlChanges) = take (n - S k) m.(urlChanges)) as Ht.
    { rewrite Hlen, H1, take_take. f_equal. lia. }
    unfold location_back. destruct (urlChanges m1) as [|u us] eqn:Eu; [cbn in Hlen; lia|].
    rewrite Ht. unfold simulatePopState. cbn [urlChanges emitted internalPath]. rewrite H2, <-app_assoc.
    split_and!; [done| |done]. f_equal. by rewrite seq_S, map_app.
Qed.

(** The mock keeps a history: after visiting pages whose paths start at the
    root, going back [k] times leads to the page [k] before the last, and the
    listeners were told of every page on the way; going back from the first
    page leads to the empty path. *)
Theorem mock_history (vs : list (jsstr * jsstr * jsstr)) (k : nat) :
  Forall rooted vs -> k <= length vs ->
  let m := Nat.iter k location_back (fold_left visit vs new_MockLocationStrategy) in
  let page i := default [] (list.last (take i (map url_of vs))) in
  (0 < length vs -> location_path m false = page (length vs - k))
  /\ m.(emitted) = map (fun j => page (length vs - S j)) (seq 0 k).
Proof.
  intros Hv Hk m page. destruct (visits_rooted vs new_MockLocationStrategy Hv eq_refl) as (_ & Hu & He & Hp).
  cbn in Hu, He. set (m0 := fold_left visit vs new_MockLocationStrategy) in *.
  destruct (backs m0 k) as (_ & H2 & H3); [rewrite Hu, length_map; lia|]. fold m in H2, H3.
  rewrite Hu, length_map in H2, H3. rewrite He in H2. split; [|done]. intros Hn. unfold location_path, page. rewrite H3.
  destruct k; [|done]. rewrite Hp, Nat.sub_0_r, <-(length_map url_of vs), firstn_all.
  destruct (list.last (map url_of vs)) eqn:El; [done|]. apply last_None in El. apply map_eq_nil in El. subst vs. cbn in Hn. lia.
Qed.

(** Going back onto a page that replaced another gives the entry of the mock's
    own list, with its mark, as the path; and the page that was replaced is
    still there. *)
Lemma replaced_page_marked :
  let m := replaceState (pushState new_MockLocationStrategy [] "/a" []) [] "/b" [] in
  location_path (location_back (pushState m [] "/c" [])) false = js "replace: /b"
  /\ location_path (location_back m) false = js "/a".
Proof. split; vm_compute; reflexivity. Qed.

(** The service goes back the way its strategy does, whichever it is, and
    leaves the router alone; options given with a url are dropped. *)
Lemma extensions_back_path {E S} `{LocationStrategy S} (r : RouterExtensions E S) :
  strategy_path (extensions_back r).(locationStrategy) = strategy_path (strategy_back r.(locationStrategy))
  /\ (extensions_back r).(router) = r.(router).
Proof. done. Qed.
Lemma by_url_drops_options {E S} (r : RouterExtensions E S) url (o o' : option E) :
  navigateByUrl r url o = navigateByUrl r url o'.
Proof. done. Qed.

(** Each mock of the window leads to the language it is named after, and the
    effect of the application accepts it; without a language the service is
    not created. *)
Lemma mock_languages :
  (forall r, multilingual_with (TEST_CORE_window None) (js "en") = Ret r -> change_effect test_languages r.2 = Some (LangChangedAction "en"))
  /\ (forall r, multilingual_with (TEST_CORE_window (Some WindowMockFrench)) (js "en") = Ret r ->
        change_effect test_languages r.2 = Some (LangChangedAction "fr"))
  /\ multilingual_with WindowMockNoLanguage (js "en") = Throw TypeError.
Proof. split_and!; [intros r [= <-]; vm_compute; reflexivity..|done]. Qed.

(** Providers that one specification adds are there for all later ones. *)
Lemma http_providers_kept (calls : list (option (list jsstr))) (ps a : list jsstr) :
  Some a ∈ calls -> forall p, p ∈ a -> p ∈ TEST_HTTP_PROVIDERS (fold_left (fun ps c => (GET_HTTP_PROVIDERS_INJECTOR ps c).2) calls ps).
Proof.
  assert (forall cs (qs : list jsstr) q, q ∈ qs -> q ∈ fold_left (fun ps c => (GET_HTTP_PROVIDERS_INJECTOR ps c).2) cs qs) as Hkeep.
  { induction cs as [|c cs IH]; intros qs q Hq; cbn; [done|]. apply IH. destruct c; cbn; set_solver. }
  intros Hin p Hp. revert ps. induction calls as [|c cs IH]; intros ps; [by apply elem_of_nil in Hin|].
  apply elem_of_cons in Hin as [<-|Hin]; cbn; [apply Hkeep; cbn; set_solver|by apply IH].
Qed.
