(* ===== verification/SpecRun.v ===== *)
(** * From a specification to its run

    The task test of the project with Karma and test-main.js: the gulp tasks
    compile the specifications, Karma serves what its configuration names and
    test-main.js imports and runs them.  Karma is a parameter with the law its
    documentation states for patterns and excluded files. *)

From S2P Require Import Prelude JsString NodePath Lodash Json BuildTasks BuildConfig BuildStreams BuildFaults BuildMobile TestRun.

(** The keys of [window.__karma__.files]: the files of the tree that some
    served pattern takes and no exclusion does, below /base/. *)
Class Karma {G : Glob} := {
  window_files : list karma_file -> list jsstr -> tree -> list jsstr;
  served_files fs ex t k : k ∈ window_files fs ex t <->
    exists f, k = "/base/" ++ f /\ hasOwnProperty t f = true
      /\ (exists p, p ∈ fs /\ p.(served) = true /\ glob p.(pattern) f = true) /\ Forall (fun e => glob e f = false) ex
}.

Definition karma_keep {G : Glob} (fs : list karma_file) (ex : list jsstr) (f : jsstr) : bool :=
  existsb (fun p => p.(served) && glob p.(pattern) f) fs && forallb (fun e => negb (glob e f)) ex.
#[refine, local] Instance karma_ref {G : Glob} : Karma :=
  {| window_files := fun fs ex t => map (fun f => "/base/" ++ f) (List.filter (karma_keep fs ex) (obj_keys t)) |}.
Proof.
  intros fs ex t k. rewrite list_elem_of_fmap. setoid_rewrite list_elem_of_In. setoid_rewrite filter_In. unfold karma_keep.
  setoid_rewrite andb_true_iff. setoid_rewrite existsb_exists. setoid_rewrite forallb_forall. setoid_rewrite andb_true_iff.
  setoid_rewrite negb_true_iff. setoid_rewrite List.Forall_forall.
  assert (forall f, In f (obj_keys t) <-> hasOwnProperty t f = true) as Hk.
  { intros f. unfold hasOwnProperty. rewrite <-list_elem_of_In. destruct (obj_get t f) eqn:E.
    - split; [done|]. intros _. apply obj_get_elem in E. apply list_elem_of_fmap. by exists (f, c).
    - apply obj_get_None in E. split; [done|]. by intros. }
  setoid_rewrite Hk. split.
  - intros (f & -> & Hf & (p & Hp) & He). exists f. split_and!; [done|done|by exists p|done].
  - intros (f & -> & Hf & (p & Hp) & He). exists f. split_and!; [done|done|by exists p|done].
Defined.

Definition test_argv : Argv := {|
  arg_port := None; arg_docs_port := None; arg_coverage_port := None;
  arg_debug := false; arg_scss := false; arg_b := false; arg_desktop := false; arg_desktopBuild := false;
  arg_hybrid := false; arg_base := None; arg_app := None; arg_client := None; arg_analytics := None;
  arg_build_type := None; arg_env := None; arg__ := [js "test"] |}.

Definition before_specs : list jsstr :=
  [js "tslint"; js "noop"; js "check.tools"; js "clean.dev"; js "clean.coverage"; js "build.assets.dev"; js "build.fonts";
   js "build.html_css"; js "build.js.dev"].
Definition after_specs : list jsstr := [js "build.index.dev"; js "sw.manifest.static"].

Lemma test_names : run_task 5 project_registry true "test" =
  Some ((before_specs ++ js "build.js.test" :: after_specs) ++ [js "karma.run"], false).
Proof. vm_compute. reflexivity. Qed.

Section TestBuild.
Context {G : Glob} `{CaseMap}.

Lemma test_dest : APP_DEST test_argv = js "dist/dev".
Proof.
  unfold APP_DEST, BUILD_TYPE, getBuildType. rewrite toLowerCase_ascii by reflexivity. reflexivity.
Qed.

Lemma sourcemapped_elem fs g : g ∈ each "sourcemaps" (typescript fs) <->
  exists s, s ∈ fs /\ endsWith s.(f_rel) ".ts" = true /\ endsWith s.(f_rel) ".d.ts" = false
    /\ g = {| f_path := s.(f_path); f_rel := replace_ext ".ts" ".js" s.(f_rel);
              f_body := Built "sourcemaps" [Built "typescript" [s.(f_body)]] |}.
Proof.
  unfold each, typescript. rewrite list_elem_of_fmap. split.
  - intros (g1 & -> & (s & Hs & E)%list_elem_of_omap).
    destruct (endsWith s.(f_rel) ".ts" && negb (endsWith s.(f_rel) ".d.ts")) eqn:E'; [|done].
    apply andb_true_iff in E' as [E1 E2%negb_true_iff]. simplify_eq. by exists s.
  - intros (s & Hs & E1 & E2 & ->). eexists. split; [|apply list_elem_of_omap; exists s; split; [done|by rewrite E1, E2]]. reflexivity.
Qed.

(** build.js.test.ts compiles every specification of the client. *)
Lemma build_js_test_spec t r c : visible (r ++ ".spec.ts") -> obj_get t ("src/client" ++ "/" ++ r ++ ".spec.ts") = Some c ->
  obj_get (build_js_test test_argv t) ("dist/dev" ++ "/" ++ r ++ ".spec.js") = Some (Built "sourcemaps" [Built "typescript" [c]]).
Proof.
  intros Hv Hc. unfold build_js_test. rewrite test_dest.
  change (TOOLS_DIR ++ "/manual_typings/**/*.d.ts") with ("tools/manual_typings" ++ "/**/*" ++ ".d.ts").
  change (path_join [APP_SRC test_argv; js "**/*.spec.ts"]) with ("src/client" ++ "/**/*" ++ ".spec.ts").
  assert (forall d e, plain d -> plain e -> (slash ∉ e) -> based [(d, e)] [d ++ "/**/*" ++ e]) as Hb.
  { intros d e Hd He Hs. split; [by repeat constructor|]. constructor; [|done]. right. exists (d, e). split; [by left|done]. }
  pose proof (Hb "tools/manual_typings" ".d.ts" ltac:(decide_done) ltac:(decide_done) ltac:(decide_done)) as Hb1.
  pose proof (Hb "src/client" ".spec.ts" ltac:(decide_done) ltac:(decide_done) ltac:(decide_done)) as Hb2.
  set (A := gulp_src ["tools/manual_typings" ++ "/**/*" ++ ".d.ts"] t). set (B := gulp_src ["src/client" ++ "/**/*" ++ ".spec.ts"] t).
  assert (forall f, f ∈ B -> f.(f_path) = "src/client" ++ "/" ++ f.(f_rel)) as HB.
  { intros f (de & ->%list_elem_of_singleton & E & _)%(based_rel _ _ _ _ Hb2). exact E. }
  assert (forall f, f ∈ A -> endsWith f.(f_rel) ".d.ts" = true) as HA.
  { intros f (de & ->%list_elem_of_singleton & _ & E)%(based_rel _ _ _ _ Hb1). exact E. }
  destruct (src_path [] ("src/client" ++ "/**/*" ++ ".spec.ts") [] t ("src/client" ++ "/" ++ r ++ ".spec.ts") c)
    as (f & Hf & Ep & <-); [reflexivity|done| |done|].
  { apply glob_suffix; [decide_done..|]. split; [by exists (r ++ ".spec.ts")|]. rewrite !app_assoc. apply endsWith_app. }
  assert (f.(f_rel) = r ++ ".spec.ts") as Er. { pose proof (HB f Hf) as E. rewrite Ep in E. by apply app_inv_head, app_inv_head in E. }
  assert (endsWith f.(f_rel) ".ts" = true) as Hts by (rewrite Er; by rewrite endsWith_longer by (apply Nat.leb_le; reflexivity)).
  replace (r ++ ".spec.js") with (replace_ext ".ts" ".js" f.(f_rel))
    by (rewrite Er; change (js ".spec.ts") with (js ".spec" ++ js ".ts"); by rewrite app_assoc, replace_ext_app, <-app_assoc).
  apply (dest_in "dist/dev" _ t {| f_path := f.(f_path); f_rel := _; f_body := _ |}).
  - apply sourcemapped_elem. exists f. split_and!; [apply elem_of_app; by right|done| |done].
    rewrite Er. by rewrite endsWith_longer by (apply Nat.leb_le; reflexivity).
  - intros g (s & Hs & Hts' & Hnd & ->)%sourcemapped_elem. simpl. intros Eg%ts_to_js; [|done|done]. do 2 f_equal.
    apply elem_of_app in Hs as [Hs|Hs]; [apply HA in Hs; congruence|].
    pose proof (HB s Hs) as E. pose proof (HB f Hf) as E'. apply src_body in Hs, Hf. rewrite E, Eg, <-E', Hf in Hs. congruence.
Qed.

(** Files of one name in dist/dev leave the others alone. *)
Lemma dest_named n fs t k : Forall (fun f => f.(f_rel) = n) fs -> k <> "dist/dev" ++ "/" ++ n -> obj_get (gulp_dest "dist/dev" fs t) k = obj_get t k.
Proof.
  intros Hn Hk. destruct (dest_get "dist/dev" fs t k) as [[E _]|(f & Hf & -> & _)]; [done|].
  by rewrite (proj1 (list.Forall_forall _ _) Hn f Hf) in Hk.
Qed.

Lemma after_specs_keep deps t t' k : run_names test_argv deps after_specs t = Ret t' ->
  k <> js "dist/dev/index.html" -> k <> js "dist/dev/ngsw-manifest.json" -> obj_get t' k = obj_get t k.
Proof.
  intros E H1 H2. change (run_names test_argv deps after_specs t) with (Ret (sw_manifest_static test_argv (build_index_dev test_argv deps t))) in E.
  injection E as <-. unfold sw_manifest_static, build_index_dev. rewrite test_dest.
  rewrite (dest_named "ngsw-manifest.json"); [|apply Forall_fmap, (src_name "src/client" "ngsw-manifest.json"); decide_done|done].
  rewrite (dest_named "index.html"); [done| |done].
  apply each_name, Forall_fmap, (src_name "src/client" "index.html"); decide_done.
Qed.
End TestBuild.

(** ** What Karma serves of the specifications *)

Lemma is_spec_suffix f : is_spec f = true -> exists s, s ∈ spec_suffixes /\ endsWith f s = true.
Proof. intros (s & Hs%list_elem_of_In & E)%existsb_exists. by exists s. Qed.

Lemma is_spec_name f : is_spec f = true -> endsWith f "spec.js" = true.
Proof.
  intros (s & Hs & [r ->]%endsWith_iff)%is_spec_suffix. rewrite endsWith_longer; unfold spec_suffixes in Hs;
    rewrite !elem_of_cons, elem_of_nil in Hs; destruct Hs as [->|[->|[->|[]]]]; first [reflexivity | apply Nat.leb_le; reflexivity].
Qed.

Section Served.
Context {G : Glob}.

(** The kinds of patterns in karma.conf.js. *)
Inductive karma_pattern : jsstr -> Prop :=
  | one_script p : plain p -> is_spec p = false -> karma_pattern p
  | no_script d e : plain d -> plain e -> (slash ∉ e) -> length e <= 8 ->
      forallb (fun s => negb (endsWith s e)) spec_suffixes = true -> karma_pattern (d ++ "/**/*" ++ e)
  | of_package d : plain d -> (slash ∉ d) -> visible d -> karma_pattern (("node_modules" ++ "/" ++ d) ++ "/**/*" ++ ".js")
  | of_build d e : plain d -> plain e -> (slash ∉ e) -> d = js "dist/dev" \/ d = js "dist/dev/assets" -> karma_pattern (d ++ "/**/*" ++ e).

Lemma karma_patterns : Forall (fun p => karma_pattern p.(pattern)) karma_files.
Proof.
  unfold karma_files. forall_list; cbn [pattern script by_import];
    first
      [ apply one_script; decide_done
      | apply (of_package "rxjs"); decide_done
      | apply (of_package "@angular"); decide_done
      | apply (of_package "lodash"); decide_done
      | apply (of_package "@ngx-translate"); decide_done
      | apply (of_package "@ngrx"); decide_done
      | apply (of_package "angulartics2"); decide_done
      | apply (of_package "ngrx-store-freeze"); decide_done
      | apply (of_package "deep-freeze-strict"); decide_done
      | apply (no_script "node_modules/rxjs" ".js.map"); decide_done
      | apply (no_script "node_modules/@angular" ".js.map"); decide_done
      | apply (of_build "dist/dev" ".js"); [decide_done..|by left]
      | apply (of_build "dist/dev" ".html"); [decide_done..|by left]
      | apply (of_build "dist/dev" ".css"); [decide_done..|by left]
      | apply (of_build "dist/dev/assets" ""); [decide_done..|by right] ].
Qed.

(** A specification that is served lies in the output of the build. *)
Lemma served_spec p f : karma_pattern p -> glob p f = true -> Forall (fun e => glob e f = false) karma_exclude ->
  is_spec f = true -> below "dist/dev" f.
Proof.
  intros [p' Hp Hs|d e Hd He Hse Hl Hns|d Hd Hsd Hvd|d e Hd He Hse Hdd] Hg Hex Hf.
  - apply glob_plain in Hg as ->; congruence.
  - apply glob_suffix in Hg as [_ Hends]; [|done..]. apply is_spec_suffix in Hf as (s & Hs & [r ->]%endsWith_iff).
    apply forallb_forall with (x := s) in Hns; [|by apply list_elem_of_In]. apply negb_true_iff in Hns.
    rewrite endsWith_longer in Hends; [congruence|]. unfold spec_suffixes in Hs. rewrite !elem_of_cons, elem_of_nil in Hs.
    destruct Hs as [->|[->|[->|[]]]]; exact Hl.
  - apply glob_suffix in Hg as [(r & Hr & Ef) _]; [|apply plain_path; [decide_done|done]|decide_done..].
    apply list.Forall_cons in Hex as [Hex _]. change (js "node_modules/**/*spec.js") with ("node_modules" ++ "/**/*" ++ "spec.js") in Hex.
    assert (glob ("node_modules" ++ "/**/*" ++ "spec.js") f = true); [|congruence].
    apply glob_suffix; [decide_done..|]. split; [|by apply is_spec_name].
    exists (d ++ "/" ++ r). split; [by apply visible_under|]. by rewrite Ef, <- !app_assoc.
  - apply glob_suffix in Hg as [(r & Hr & ->) _]; [|done..]. destruct Hdd as [->| ->]; [by exists r|].
    exists ("assets" ++ "/" ++ r). split; [apply visible_under; [decide_done..|done]|done].
Qed.

Lemma spec_served t r c : visible (r ++ ".spec.js") -> obj_get t ("dist/dev" ++ "/" ++ r ++ ".spec.js") = Some c ->
  forall `{!Karma}, "/base/" ++ ("dist/dev" ++ "/" ++ r ++ ".spec.js") ∈ window_files karma_files karma_exclude t.
Proof.
  intros Hv Hc K. apply served_files. exists ("dist/dev" ++ "/" ++ r ++ ".spec.js"). split_and!; [done| | |].
  - unfold hasOwnProperty. by rewrite Hc.
  - exists (by_import true "dist/dev/**/*.js"). split_and!; [decide_done|done|]. cbn [pattern by_import].
    change (js "dist/dev/**/*.js") with ("dist/dev" ++ "/**/*" ++ ".js"). apply glob_suffix; [decide_done..|].
    split; [by exists (r ++ ".spec.js")|]. change (js ".spec.js") with (js ".spec" ++ js ".js"). rewrite !app_assoc. apply endsWith_app.
  - constructor; [|done]. change (js "node_modules/**/*spec.js") with ("node_modules" ++ "/**/*" ++ "spec.js").
    apply not_true_iff_false. intros [(x & _ & E) _]%glob_suffix; [discriminate E|decide_done..].
Qed.
End Served.

(** ** The task test *)

Lemma filter_exec_all {A} (p : A -> bool) l : filter_exec (fun x => Ret (p x)) l = Ret (List.filter p l).
Proof. induction l as [|x l IH]; cbn; [done|]. rewrite IH. cbn. by destruct (p x). Qed.

(** Without an option for files every served specification is imported. *)
Lemma spec_paths_all matches files : spec_paths None matches files = Ret (map file2moduleName (List.filter is_spec files)).
Proof.
  unfold spec_paths, onlySpecFiles. cbn [truthy_opt exec_bind andb]. by rewrite filter_exec_all.
Qed.

Lemma is_spec_base f : is_spec ("/base/" ++ f) = is_spec f.
Proof.
  apply eq_true_iff_eq. unfold is_spec. rewrite !existsb_exists. split; intros (s & Hs & E); exists s; (split; [done|]).
  - apply (ends_below "/base"); [|exact E]. cbn in Hs. destruct Hs as [<-|[<-|[<-|[]]]]; decide_done.
  - apply endsWith_iff in E as [x ->]. rewrite app_assoc. apply endsWith_app.
Qed.

Section TestTask.
Context {G : Glob} {K : Karma} `{CaseMap} (deps : list InjectableDependency).

Lemma before_specs_run t : exists t1, run_names test_argv deps before_specs t = Ret t1.
Proof. eexists. repeat (eapply run_cons; [reflexivity|]). reflexivity. Qed.

(** The last name of a path, with what follows the path. *)
Lemma split_end r : exists l x, forall w, (slash ∉ w) -> JsString.split slash (r ++ w) = l ++ [x ++ w].
Proof.
  induction r as [|c r (l & x & IH)].
  - exists [], []. intros w Hw. by apply split_no_sep.
  - destruct (decide (c = slash)) as [->|Hc].
    + exists ([] :: l), x. intros w Hw. change ((slash :: r) ++ w) with ([] ++ slash :: (r ++ w)).
      rewrite split_app_sep by set_solver. by rewrite IH.
    + destruct l as [|y l]; [exists [], (c :: x)|exists ((c :: y) :: l), x]; intros w Hw; cbn;
        rewrite (proj2 (N.eqb_neq c slash) Hc), IH by done; reflexivity.
Qed.

Lemma visible_js r : visible (r ++ ".spec.ts") -> visible (r ++ ".spec.js").
Proof.
  unfold visible. destruct (split_end r) as (l & x & E). rewrite !E by decide_done. rewrite !list.Forall_app, !list.Forall_singleton.
  intros [Hl [_ Hx]]. split; [done|]. destruct x as [|c x]; [discriminate Hx|]. split; [done|].
  revert Hx. unfold startsWith. change (js ".") with [46%N]. cbn [strip_prefix app]. by destruct (46 =? c)%N.
Qed.

(** The specifications that are imported after the task has run: those that
    lie in the output of the build. *)
Lemma imported_specs t ps matches :
  spec_paths None matches (window_files karma_files karma_exclude t) = Ret ps ->
  Forall (fun m => exists f, below "dist/dev" f /\ hasOwnProperty t f = true /\ is_spec f = true /\ m = file2moduleName ("/base/" ++ f)) ps.
Proof.
  rewrite spec_paths_all. intros [= <-]. apply list.Forall_forall. intros m (k & -> & Hk)%list_elem_of_fmap.
  apply list_elem_of_In, filter_In in Hk as [Hk%list_elem_of_In Hs].
  apply served_files in Hk as (f & -> & Hf & (p & Hp & _ & Hg) & Hex). rewrite is_spec_base in Hs.
  exists f. split_and!; [|done|done|done]. apply (served_spec p.(pattern)); [|done..].
  by apply (proj1 (list.Forall_forall _ _) karma_patterns).
Qed.

Lemma spec_imported t r c matches : visible (r ++ ".spec.js") -> (backslash ∉ r) ->
  obj_get t ("dist/dev" ++ "/" ++ r ++ ".spec.js") = Some c ->
  exists ps, spec_paths None matches (window_files karma_files karma_exclude t) = Ret ps /\ "dist/dev" ++ "/" ++ r ++ ".spec" ∈ ps.
Proof.
  intros Hv Hb Hc. rewrite spec_paths_all. eexists. split; [reflexivity|]. apply list_elem_of_fmap.
  exists ("/base/" ++ ("dist/dev" ++ "/" ++ r ++ ".spec.js")). split.
  - symmetry. replace ("dist/dev" ++ "/" ++ r ++ ".spec.js") with (("dist/dev" ++ "/" ++ r ++ ".spec") ++ ".js") by (by rewrite <- !app_assoc).
    apply served_module_name. rewrite !not_elem_of_app. split_and!; [decide_done..|done|decide_done].
  - apply list_elem_of_In, filter_In. split; [apply list_elem_of_In; by eapply spec_served|].
    rewrite is_spec_base. apply existsb_exists. exists (js ".spec.js"). split; [by left|].
    rewrite !app_assoc. apply endsWith_app.
Qed.

(** The files the gulp tasks of the task test make, each of them coming to its
    end, and what test-main.js then runs. *)
Lemma built_test (t : tree) :
  exists t', run_names test_argv deps (before_specs ++ js "build.js.test" :: after_specs) t = Ret t'
    /\ forall matches testing specs evs st, let files := window_files karma_files karma_exclude t' in
       test_run None matches files testing (Ret tt) specs testing_init evs = Some st ->
       (forall ev, test_fire None matches files testing (Ret tt) specs st ev = None) ->
       (forall i, testing i = None) -> (forall p, specs p = MainReturns) ->
       exists ps ms, st.(log) = loading ps ++ map Main ms ++ [Start]
         /\ (forall r c, visible (r ++ ".spec.ts") -> (backslash ∉ r) ->
               obj_get t ("src/client" ++ "/" ++ r ++ ".spec.ts") = Some c -> "dist/dev" ++ "/" ++ r ++ ".spec" ∈ ms)
         /\ Forall (fun m => exists f, below "dist/dev" f /\ hasOwnProperty t' f = true /\ is_spec f = true
                                      /\ m = file2moduleName ("/base/" ++ f)) ms.
Proof.
  destruct (before_specs_run t) as [t1 E1]. set (t2 := build_js_test test_argv t1).
  destruct (run_names test_argv deps after_specs t2) as [t3|] eqn:E3; [|discriminate E3].
  exists t3. split.
  { rewrite (run_app _ _ _ _ _ _ E1). eapply run_cons; [reflexivity|exact E3]. }
  intros matches testing specs evs st files Hr Hno Ht Hm.
  destruct (spec_paths None matches files) as [ps|] eqn:Eps; [|by rewrite spec_paths_all in Eps].
  destruct (run_ok None matches files testing (Ret tt) specs testing_init evs st) as (Hok & _); [done..|].
  destruct (stuck_over None matches files testing (Ret tt) specs st Hok Hno) as (Ho & _).
  pose proof (run_loaded None matches files testing (Ret tt) specs ps testing_init evs st Ht eq_refl Eps) as Hl.
  unfold loaded_ok in Hl. rewrite Ho in Hl. destruct Hl as (ms & Elog & Hperm & _); [apply list.Forall_forall; naive_solver|done..|].
  exists ps, ms. split_and!; [done| |].
  - intros r c Hv Hb Hc. rewrite Hperm.
    assert (obj_get t3 ("dist/dev" ++ "/" ++ r ++ ".spec.js") = Some (Built "sourcemaps" [Built "typescript" [c]])) as H3.
    { rewrite (after_specs_keep deps t2 t3 _ E3); [|intros E; apply (f_equal (fun s => endsWith s ".spec.js")) in E; rewrite !app_assoc, endsWith_app in E; discriminate E..].
      apply build_js_test_spec; [done|]. rewrite (run_keeps _ _ _ _ _ _ E1); [done|]. by split_and!. }
    destruct (spec_imported t3 r _ matches (visible_js r Hv) Hb H3) as (ps' & E' & Hin). fold files in E'. congruence.
  - rewrite Hperm. by apply (imported_specs t3 ps matches).
Qed.

(** C35: The task test runs the specifications.  Whatever the tree of files is and
    whatever the tools report (errors that are only logged apart), Karma is started
    when the configuration of the environment can be read and nothing is reported
    that stops a task; otherwise the run stops at one task for the reason given,
    before Karma is started.  When test-main.js, on the files Karma then serves,
    comes to its end with every module fine, the main function of each
    specification in the sources of the client, compiled, has run before Karma
    started the tests; and nothing else was run than specifications in the output
    of the build, not one of a package. *)
Theorem test_task_runs_specs {NT : NumText} (tools : Tools) (t : tree) :
  (forall n u, tools.(reports) n u <> Logged) ->
  exists names first started first' t' s e,
    run_task 5 project_registry true "test" = Some (names ++ [js "karma.run"], first)
    /\ exec_task (checked_task tools test_argv deps) 5 project_registry true t "test" = Some (started, first', s, e)
    /\ (env_readable tools -> (forall n u, n ∈ names -> harmless tools n u) -> started = names ++ [js "karma.run"])
    /\ ((started = names ++ [js "karma.run"] /\ s = t' /\ e = karma_ending (tools.(karma_exit) t'))
        \/ exists pre n post u, names = pre ++ n :: post /\ started = pre ++ [n] /\ run_names test_argv deps pre t = Ret u
            /\ stopped_by tools [js "check.tools"; js "build.js.dev"; js "build.index.dev"] n u e)
    /\ forall matches testing specs evs st, let files := window_files karma_files karma_exclude t' in
       test_run None matches files testing (Ret tt) specs testing_init evs = Some st ->
       (forall ev, test_fire None matches files testing (Ret tt) specs st ev = None) ->
       (forall i, testing i = None) -> (forall p, specs p = MainReturns) ->
       exists ps ms, st.(log) = loading ps ++ map Main ms ++ [Start]
         /\ (forall r c, visible (r ++ ".spec.ts") -> (backslash ∉ r) ->
               obj_get t ("src/client" ++ "/" ++ r ++ ".spec.ts") = Some c -> "dist/dev" ++ "/" ++ r ++ ".spec" ∈ ms)
         /\ Forall (fun m => exists f, below "dist/dev" f /\ hasOwnProperty t' f = true /\ is_spec f = true
                                      /\ m = file2moduleName ("/base/" ++ f)) ms.
Proof.
  intros Hl. destruct (built_test t) as (t' & Hr & Hspecs).
  pose (names := before_specs ++ js "build.js.test" :: after_specs).
  assert (Hk : js "karma.run" ∉ names) by decide_done.
  destruct (exec_task_flat (checked_task tools test_argv deps) 5 project_registry true "test" _ _ t test_names)
    as (started & f & s & e & He & Hf & _).
  fold names in Hf, Hr. rewrite run_flat_app in Hf.
  destruct (run_flat (checked_task tools test_argv deps) names t) as [[l u] e1] eqn:E1.
  pose proof (flat_cases tools test_argv deps names t t' _ _ _ Hk Hl Hr E1) as Hc.
  assert (Hkarma : forall v, run_flat (checked_task tools test_argv deps) [js "karma.run"] v
    = ([js "karma.run"], v, karma_ending (karma_exit tools v))).
  { intros v. cbn [run_flat]. change (checked_task tools test_argv deps "karma.run" v) with (karma_ending (karma_exit tools v), v).
    by destruct (karma_ending (karma_exit tools v)). }
  exists names, false, started, f, t', s, e. split; [exact test_names|]. split; [exact He|]. split; [|split; [|exact Hspecs]].
  - intros Henv Hh. pose proof (eq_trans (eq_sym E1) (flat_harmless tools test_argv deps names t t' Hk Henv Hh Hr)) as Ef.
    injection Ef as -> -> ->. rewrite Hkarma in Hf. by injection Hf as <- _ _.
  - destruct Hc as [(-> & -> & ->)|(Hne & pre & n & post & v & Ep & -> & Hp & Hs)].
    + left. rewrite Hkarma in Hf. by injection Hf as <- <- <-.
    + right. assert ((pre ++ [n], u, e1) = (started, s, e)) as [= <- <- <-] by (destruct e1; [done|exact Hf..]).
      exists pre, n, post, v. split; [exact Ep|]. split; [done|]. split; [exact Hp|].
      apply (stopped_users tools names _ n v e1); [vm_compute; reflexivity|rewrite Ep; apply elem_of_app; right; by left|exact Hs].
Qed.
End TestTask.

(** The sample project of the build, with a specification. *)
Definition sample_run : list test_event := [TestingSettles 0; TestingSettles 1; SpecSettles 0; LastReaction].

Lemma test_task_runs_specs_witness : exists st ps ms,
  starts st.(log) = 1 /\ (js "dist/dev/main.web.spec") ∈ ms /\ st.(log) = loading ps ++ map Main ms ++ [Start].
Proof.
  destruct (test_task_runs_specs (G := glob_ref) (K := karma_ref) (H := ascii_case) sample_deps (NT := quotient_text) fine_tools sample_tree)
    as (names & first & started & first' & t' & s & e & E1 & E2 & Hf & Hc & Hrun); [by intros ? ?|].
  assert (Hs : started = names ++ [js "karma.run"]) by (apply Hf; [reflexivity|by intros ? ? ?]).
  destruct Hc as [(_ & Et & _)|(pre & n & post & u & Ep & Es & _)].
  2: { rewrite Ep in Hs. rewrite Hs in Es. rewrite <- app_assoc in Es. apply app_inv_head in Es. by destruct post. }
  vm_compute in E2. injection E2 as _ _ E2 _. rewrite <- Et, <- E2 in Hrun.
  edestruct (Hrun (fun _ _ => Ret true) (fun _ => None) (fun _ => MainReturns) sample_run) as (ps & ms & Elog & Hin & _).
  - vm_compute. reflexivity.
  - intros []; vm_compute; reflexivity.
  - reflexivity.
  - reflexivity.
  - eexists _, ps, ms. split; [|split; [apply (Hin (js "main.web") (Source (js "src/client/main.web.spec.ts"))); [decide_done|decide_done|reflexivity]|exact Elog]].
    vm_compute. reflexivity.
Defined.
