(* ===== verification/Wiring.v ===== *)
(** * How the application is put together

    modules/ngrx/index.ts (the store), the constructors and factories of
    core.module.ts, multilingual.module.ts, web.module.ts and the mobile
    native.module.ts and components.module.ts, and vendor-platform.android.ts.
    ngrx, the translation library and Angular are packages: a class states what
    the code relies on. *)

From S2P Require Import Prelude JsString NodePath Lodash Json BuildTasks BuildWatch BuildConfig Shell AppShell.

(** ** ngrx/index.ts *)

(** The state of the store: that of the languages; [None] before the first
    action. *)
Record IAppState := { i18n : jsstr }.
Definition app_reducer : Type := option IAppState -> i18n_action -> IAppState.

(** The reducer of multilingual.reducer.ts with its default state. *)
Definition i18n_reducer (state : option jsstr) (a : i18n_action) : jsstr := reducer (default initialState state) a.

(** [combineReducers] runs the reducer of every key on the part of the state
    under it; [storeFreeze] makes the new state immutable and leaves its values. *)
Class Ngrx := {
  combineReducers : (option jsstr -> i18n_action -> jsstr) -> app_reducer;
  storeFreeze : app_reducer -> app_reducer;
  combine_law r s a : combineReducers r s a = {| i18n := r (option_map i18n s) a |};
  freeze_law r s a : storeFreeze r s a = r s a
}.

Section Store.
Context `{Ngrx}.
Definition developmentReducer : app_reducer := storeFreeze (combineReducers i18n_reducer).
Definition productionReducer : app_reducer := combineReducers i18n_reducer.
(** The build writes its type into the source. *)
Definition AppReducer (BUILD_TYPE : jsstr) (state : option IAppState) (a : i18n_action) : IAppState :=
  if BUILD_TYPE === "dev" then developmentReducer state a else productionReducer state a.
Definition getMultilingualState (states : list IAppState) : list jsstr := map i18n states.

(** The store: an action reaches the reducer, then the one its effect answers
    with. *)
Definition store_dispatch (BUILD_TYPE : jsstr) (languages : list (jsstr * jsstr)) (s : option IAppState) (a : i18n_action)
    : IAppState :=
  let s' := AppReducer BUILD_TYPE s a in
  match change_effect languages a with Some a' => AppReducer BUILD_TYPE (Some s') a' | None => s' end.
End Store.

(** ** Modules *)

(** A module that is loaded a second time throws. *)
Definition already_loaded (name : jsstr) : jserr := ErrorMsg (name ++ " already loaded; Import in root module only.").
Definition new_CoreModule (parentModule : bool) : exec unit :=
  if parentModule then Throw (already_loaded "CoreModule") else Ret tt.
Definition new_MultilingualModule (parentModule : bool) : exec unit :=
  if parentModule then Throw (already_loaded "MultilingualModule") else Ret tt.

(** [forRoot]: the module with the providers it is given. *)
Record ModuleWithProviders (P : Type) := { ngModule : jsstr; mod_providers : list P }.
Arguments ngModule {P} _.
Arguments mod_providers {P} _.
Definition core_forRoot {P} (configuredProviders : list P) : ModuleWithProviders P :=
  {| ngModule := "CoreModule"; mod_providers := configuredProviders |}.
Definition multilingual_forRoot {P} (configuredProviders : list P) : ModuleWithProviders P :=
  {| ngModule := "MultilingualModule"; mod_providers := configuredProviders |}.

(** The files of translations: what the loader puts before and after a
    language. *)
Definition translateLoaderFactory (PLATFORM_TARGET : jsstr) : jsstr * jsstr :=
  ((if IS_MOBILE_NATIVE PLATFORM_TARGET then js "/" else js "") ++ "assets/i18n/", js ".json").
Definition translation_url (PLATFORM_TARGET lang : jsstr) : jsstr :=
  let '(prefix, suffix) := translateLoaderFactory PLATFORM_TARGET in prefix ++ lang ++ suffix.

(** What the modules of the two applications write into the configuration. *)
Record app_config := { PLATFORM_TARGET : jsstr; app_debug : DEBUG }.
Definition no_debug : DEBUG := RESET.
Definition all_debug (d : DEBUG) : DEBUG :=
  {| LEVEL_1 := d.(LEVEL_1); LEVEL_2 := d.(LEVEL_2); LEVEL_3 := d.(LEVEL_3); LEVEL_4 := true |}.
Definition web_module (BUILD_TYPE TARGET_DESKTOP : jsstr) : app_config :=
  {| PLATFORM_TARGET := if TARGET_DESKTOP === "true" then DESKTOP else WEB;
     app_debug := if BUILD_TYPE === "dev" then all_debug no_debug else no_debug |}.
Definition native_module : app_config := {| PLATFORM_TARGET := MOBILE_NATIVE; app_debug := all_debug no_debug |}.

(** [consoleLogTarget] of both: the least level it writes. *)
Definition consoleLogTarget : LogLevel := LDebug.

(** The modules that are only there in development; the first list is not
    used by the module, which names the same one itself. *)
Definition DEV_IMPORTS (BUILD_TYPE : jsstr) : list jsstr := if BUILD_TYPE === "dev" then [js "StoreDevtoolsModule"] else [].
Definition web_imports : list jsstr :=
  [js "BrowserModule"; js "BrowserAnimationsModule"; js "FormsModule"; js "CoreModule"; js "RouterModule"; js "AnalyticsModule";
   js "MultilingualModule"; js "StoreModule"; js "StoreDevtoolsModule"; js "InfiniteScrollModule"; js "AppModule"; js "EffectsModule"].

(** [segmentViewHelper]: an item per language. *)
Record SegmentedBarItem := { seg_title : jsstr; seg_code : jsstr }.
Definition segmentViewHelper (languages : list (jsstr * jsstr)) : list SegmentedBarItem :=
  fold_left (fun items '(code, title) => items ++ [{| seg_title := title; seg_code := code |}]) languages [].

(** window-native.service.ts: the window of the mobile application, with the
    language of the device; dialogs are left to the platform. *)
Record WindowNative := { navigator_language : jsstr; navigator_userAgent : jsstr; location_host : jsstr }.
Definition window_native (device_language : jsstr) : WindowNative :=
  {| navigator_language := device_language; navigator_userAgent := "nativescript"; location_host := "nativescript" |}.

(** vendor-platform.android.ts: the module a name stands for in a bundle;
    [None] is [undefined]. *)
Definition __requireOverride (name : jsstr) : option jsstr :=
  if name === "./tns_modules/application/application.js" then Some (js "application")
  else if name === "./tns_modules/ui/frame/frame.js" then Some (js "ui/frame")
  else if name === "./tns_modules/ui/frame/activity.js" then Some (js "ui/frame/activity")
  else None.

(** ** Properties *)

(** The reducer that freezes the state and the one that does not give the same
    states. *)
Lemma AppReducer_lang `{Ngrx} b s a : AppReducer b s a = {| i18n := reducer (default initialState (option_map i18n s)) a |}.
Proof.
  unfold AppReducer, developmentReducer, productionReducer. rewrite freeze_law, combine_law. by destruct (b === "dev").
Qed.
Lemma reducers_agree `{Ngrx} b b' s a : AppReducer b s a = AppReducer b' s a.
Proof. by rewrite !AppReducer_lang. Qed.

Lemma store_dispatch_lang `{Ngrx} b languages s a :
  (store_dispatch b languages s a).(i18n) = dispatch languages (default initialState (option_map i18n s)) a.
Proof.
  unfold store_dispatch, dispatch. destruct (change_effect languages a); by rewrite !AppReducer_lang.
Qed.

(** Over any choices of languages the store of a build of any type holds the
    last that is supported, English before any; the first choice is made by the
    service with the language of the browser. *)
Lemma store_language `{Ngrx} b languages choices nav s :
  let start := snd (multilingual_start initialState nav) in
  fold_left (fun s a => Some (store_dispatch b languages s a)) (start :: map ChangeAction choices) None = Some s ->
  s.(i18n) = default initialState (list.last (List.filter (includes (map fst languages)) (default [] (head (JsString.split 45 nav)) :: choices))).
Proof.
  intros start.
  assert (forall acts s0 s', fold_left (fun s a => Some (store_dispatch b languages s a)) acts s0 = Some s' ->
    s'.(i18n) = fold_left (dispatch languages) acts (default initialState (option_map i18n s0))) as Hf.
  { induction acts as [|a acts IH]; intros s0 s'; cbn; [by intros ->|]. intros ->%IH. cbn. by rewrite store_dispatch_lang. }
  intros ->%Hf. unfold start, multilingual_start. cbn [snd option_map default].
  rewrite <- language_last_supported. done.
Qed.

(** Every language can be chosen, of which only one has a file among the
    assets. *)
Definition i18n_assets : list jsstr := [js "en.json"].
Lemma translations_missing :
  List.filter (fun l => negb (includes (map (fun f => "assets/i18n/" ++ f) i18n_assets) (translation_url WEB l)))
    (map fst GET_SUPPORTED_LANGUAGES) = [js "es"; js "fr"; js "ru"; js "bg"].
Proof. vm_compute. reflexivity. Qed.

(** The web application logs in development only, the mobile one always. *)
Lemma logging_by_build b t level :
  (log_message (web_module b t).(app_debug) [consoleLogTarget] level <> [] <-> b = js "dev")
  /\ log_message native_module.(app_debug) [consoleLogTarget] level = [LDebug].
Proof.
  split; [|by destruct level]. unfold web_module. cbn [app_debug]. destruct (b === "dev") eqn:E.
  - apply str_eqb_eq in E as ->. by destruct level.
  - apply str_eqb_neq in E. split; [by destruct level|done].
Qed.

(** The window of the mobile application names its platform, and the first
    language is that of the device. *)
Lemma native_window `{CaseMap} device state_lang :
  platformClass (window_native device).(navigator_userAgent) = js "nativescript"
  /\ snd (multilingual_start state_lang (window_native device).(navigator_language)) = ChangeAction (default [] (head (JsString.split 45 device))).
Proof.
  split; [|done]. unfold platformClass. cbn [navigator_userAgent window_native]. rewrite toLowerCase_ascii by reflexivity. reflexivity.
Qed.

(** The list of modules for development does not decide whether they are
    there. *)
Lemma devtools_always b : (js "StoreDevtoolsModule") ∈ web_imports /\ (b <> js "dev" -> DEV_IMPORTS b = []).
Proof. split; [decide_done|]. intros Hb. unfold DEV_IMPORTS. by rewrite (proj2 (str_eqb_neq b "dev")). Qed.

Lemma segments_per_language languages :
  segmentViewHelper languages = map (fun '(code, title) => {| seg_title := title; seg_code := code |}) languages.
Proof.
  unfold segmentViewHelper.
  assert (forall acc, fold_left (fun items '(code, title) => items ++ [{| seg_title := title; seg_code := code |}]) languages acc
    = acc ++ map (fun '(code, title) => {| seg_title := title; seg_code := code |}) languages) as ->; [|done].
  induction languages as [|[code title] l IH]; intros acc; cbn; [by rewrite app_nil_r|]. by rewrite IH, <- app_assoc.
Qed.

(** The laws have an instance. *)
#[refine, local] Instance ngrx_ref : Ngrx :=
  {| combineReducers := fun r s a => {| i18n := r (option_map i18n s) a |}; storeFreeze := fun r => r |}.
Proof. all: done. Defined.
Example french_browser : (fun s => option_map i18n s)
  (fold_left (fun s a => Some (store_dispatch "dev" GET_SUPPORTED_LANGUAGES s a)) [snd (multilingual_start initialState "fr-CA")] None)
  = Some (js "fr").
Proof. vm_compute. reflexivity. Qed.
