(* ===== verification/Webpack.v ===== *)
(** * The bundle of the mobile application

    nativescript/webpack.config.js: the entries, the rules that choose loaders
    for a file, and the plugins.  webpack applies every rule whose conditions a
    path meets; the expression made of the name of the root stylesheet is a
    search in which a dot stands for any character. *)

From S2P Require Import Prelude JsString NodePath Mobile BuildMobile.

(** ** Names *)

Definition mainSheet (platform : jsstr) : jsstr := "app." ++ platform ++ ".css".

(** [new RegExp(text)] for a text of letters, digits and dots. *)
Fixpoint dots_match (p s : jsstr) : bool :=
  match p, s with
  | [], _ => true
  | c :: p', d :: s' => (if (c =? 46)%N then negb (is_line_end d) else (c =? d)%N) && dots_match p' s'
  | _ :: _, [] => false
  end.
Fixpoint dots_search (p s : jsstr) : bool :=
  dots_match p s || match s with [] => false | _ :: s' => dots_search p s' end.

(** [path.resolve] of a path from a directory. *)
Definition resolve (from p : jsstr) : jsstr := "/" ++ join "/" (resolve_segments from p).

(** ** Rules *)

Record rule := { rule_test : jsstr -> bool; exclude : jsstr -> bool; use : list jsstr; extracted : bool }.

Definition getRules (sheet : jsstr) : list rule :=
  [ {| rule_test := fun f => endsWith f ".html" || endsWith f ".xml"; exclude := fun _ => false; use := [js "raw-loader"]; extracted := false |};
    {| rule_test := dots_search sheet; exclude := fun _ => false;
       use := [js "resolve-url-loader"; js "nativescript-css-loader"; js "nativescript-dev-webpack/platform-css-loader"]; extracted := true |};
    {| rule_test := fun f => endsWith f ".css"; exclude := dots_search sheet; use := [js "raw-loader"]; extracted := false |};
    {| rule_test := fun f => endsWith f ".scss"; exclude := fun _ => false;
       use := [js "raw-loader"; js "resolve-url-loader"; js "sass-loader"]; extracted := false |};
    {| rule_test := fun f => endsWith f ".ts"; exclude := fun _ => false;
       use := [js "nativescript-dev-webpack/tns-aot-loader"; js "@ngtools/webpack"]; extracted := false |} ].

Definition applied (rules : list rule) (f : jsstr) : list rule := List.filter (fun r => r.(rule_test) f && negb (r.(exclude) f)) rules.

(** ** Plugins *)

Inductive plugin :=
  | ExtractText (sheet : jsstr)
  | CommonsChunk (names : list jsstr)
  | Define (constants : list (jsstr * jsstr))
  | Copy (from : list (jsstr * option jsstr)) (ignore : list jsstr)
  | GenerateBundleStarter (bundles : list jsstr)
  | Aot (tsConfigPath entryModule : jsstr) (typeChecking : bool)
  | UrlResolve (platform : jsstr)
  | LoaderOptions (minimize : bool)
  | Uglify (compress : bool).

Definition getPlugins (__dirname platform : jsstr) (uglify : bool) : list plugin :=
  [ ExtractText (mainSheet platform); CommonsChunk [js "vendor"]; Define [(js "global.TNS_WEBPACK", js "true")];
    Copy [(mainSheet platform, None); (js "css/**", None); (js "fonts/**", None); (js "**/*.jpg", None); (js "**/*.png", None);
          (js "**/*.xml", None); (js "assets", Some (js "assets"))] [js "App_Resources/**"];
    GenerateBundleStarter [js "./vendor"; js "./bundle"];
    Aot "tsconfig.aot.json" (resolve __dirname "app/native.module#NativeModule") false;
    UrlResolve platform ]
  ++ (if uglify then [LoaderOptions true; Uglify (platform !== "android")] else []).

(** ** The configuration *)

Record webpack_config := {
  context : jsstr; entries : list (jsstr * jsstr); output_path : jsstr; extensions : list jsstr; modules : list jsstr;
  shims : list (jsstr * option jsstr); rules : list rule; plugins : list plugin }.

(** The two functions of nativescript-dev-webpack: the directory of the
    application on a platform, the entry module of package.json. *)
Definition config_for (getAppPath : jsstr -> jsstr) (entryModule cwd __dirname platform : jsstr) (uglify : bool) : webpack_config :=
  let sheet := mainSheet platform in
  {| context := resolve cwd "./app";
     entries := fold_left (fun o kv => obj_set o kv.1 kv.2)
       [(js "bundle", "./" ++ entryModule); (js "vendor", js "./vendor"); (sheet, "./" ++ sheet)] [];
     output_path := resolve cwd (getAppPath platform); extensions := getExtensions platform;
     modules := [js "node_modules/tns-core-modules"; js "node_modules"];
     shims := [(js "http", None); (js "timers", None); (js "setImmediate", None); (js "fs", Some (js "empty"))];
     rules := getRules sheet; plugins := getPlugins __dirname platform uglify |}.

(** ** Properties *)

Lemma dots_match_self p s : Forall (fun c => is_line_end c = false) p -> dots_match p (p ++ s) = true.
Proof.
  induction 1 as [|c p Hc _ IH]; [done|]. cbn [dots_match app]. rewrite IH, andb_true_r. destruct (c =? 46)%N; [by rewrite Hc|].
  by rewrite N.eqb_refl.
Qed.
Lemma dots_search_sub p a b : Forall (fun c => is_line_end c = false) p -> dots_search p (a ++ p ++ b) = true.
Proof.
  intros Hp. induction a as [|c a IH].
  - destruct (p ++ b) eqn:E; cbn [app dots_search]; rewrite <- ?E, dots_match_self; done.
  - cbn [app dots_search]. by rewrite IH, orb_true_r.
Qed.

Definition suffixes : list jsstr := [js ".html"; js ".xml"; js ".css"; js ".scss"; js ".ts"].

(** Two different suffixes of the list do not end the same path. *)
Lemma shorter_suffix x y : x ∈ suffixes -> y ∈ suffixes -> endsWith x y = true -> x = y.
Proof.
  unfold suffixes. intros Hx Hy. rewrite !elem_of_cons, elem_of_nil in Hx, Hy.
  destruct Hx as [->|[->|[->|[->|[->|[]]]]]], Hy as [->|[->|[->|[->|[->|[]]]]]]; first [done | discriminate].
Qed.
Lemma one_suffix f x y : x ∈ suffixes -> y ∈ suffixes -> endsWith f x = true -> endsWith f y = true -> x = y.
Proof.
  intros Hx Hy Ex Ey. destruct (le_ge_dec (length y) (length x)) as [Hl|Hl].
  - apply endsWith_iff in Ex as [r ->]. rewrite endsWith_longer in Ey by done. by apply shorter_suffix.
  - apply endsWith_iff in Ey as [r ->]. rewrite endsWith_longer in Ex by done. symmetry. by apply shorter_suffix.
Qed.
Lemma other_suffix f x y : x ∈ suffixes -> y ∈ suffixes -> endsWith f x = true -> x <> y -> endsWith f y = false.
Proof. intros Hx Hy Ex Hne. apply not_true_iff_false. intros Ey. apply Hne. by apply (one_suffix f). Qed.

(** Every file of the bundle is handled by one rule: the root stylesheet is
    extracted, other stylesheets, pages and modules go through the loaders of
    their kind, unless the name of a page or module contains that of the root
    stylesheet. *)
Theorem one_rule platform f x :
  x ∈ suffixes -> endsWith f x = true -> (dots_search (mainSheet platform) f = true -> x = js ".css") ->
  exists r, applied (getRules (mainSheet platform)) f = [r] /\ r.(extracted) = dots_search (mainSheet platform) f.
Proof.
  intros Hx Ex Hs. unfold applied, getRules. cbn [List.filter rule_test exclude negb].
  assert (forall y, y ∈ suffixes -> endsWith f y = bool_decide (x = y)) as He.
  { intros y Hy. case_bool_decide as E; [by subst|]. by apply (other_suffix f x y). }
  rewrite !He by decide_done. destruct (dots_search (mainSheet platform) f) eqn:Ed.
  - rewrite (Hs eq_refl). eexists. split; [reflexivity|done].
  - clear Hs Ex He. unfold suffixes in Hx. rewrite !elem_of_cons, elem_of_nil in Hx.
    destruct Hx as [->|[->|[->|[->|[->|[]]]]]]; (eexists; split; [reflexivity|done]).
Qed.

(** The entry of the stylesheet is the file that is extracted. *)
Lemma sheet_extracted platform (getAppPath : jsstr -> jsstr) entryModule cwd dirname uglify :
  platform = js "android" \/ platform = js "ios" ->
  exists file r, obj_get (config_for getAppPath entryModule cwd dirname platform uglify).(entries) (mainSheet platform) = Some file
    /\ applied (config_for getAppPath entryModule cwd dirname platform uglify).(rules) file = [r] /\ r.(extracted) = true.
Proof.
  intros Hp. exists ("./" ++ mainSheet platform).
  destruct (one_rule platform ("./" ++ mainSheet platform) ".css") as (r & Er & Ex); [decide_done| |done|].
  - unfold mainSheet. rewrite !app_assoc. apply endsWith_app.
  - exists r. split_and!; [by destruct Hp as [->| ->]|done|]. rewrite Ex. destruct Hp as [->| ->]; reflexivity.
Qed.

(** A stylesheet of another name is taken for the root one: the dot of its
    name stands for any character, and the name may be part of another. *)
Lemma other_sheet_extracted :
  map extracted (applied (getRules (mainSheet "ios")) "css/my-app.ios.css") = [true]
  /\ map extracted (applied (getRules (mainSheet "ios")) "app/ios/css.css") = [true].
Proof. split; vm_compute; reflexivity. Qed.

(** Minifying adds two plugins at the end, and compresses on iOS only. *)
Lemma minified_plugins dirname platform :
  getPlugins dirname platform true = getPlugins dirname platform false ++ [LoaderOptions true; Uglify (platform !== "android")].
Proof. unfold getPlugins. by rewrite app_nil_r. Qed.
